(* ===== verification/_CoqProject ===== *)
-Q . S2P
Prelude.v
Numerals.v
Types.v
Bundle.v
BundlePool.v
Rpc.v
Validator.v
Ofac.v
Chain.v
Db.v
Payload.v
SimState.v
DemoEvm.v
State.v
StateFacts.v
Strategies.v
StratFacts.v
Provenance.v
Policy.v
Bid.v
Bidder.v
AuctionLog.v
PayloadService.v
Logs.v
Clock.v
RelayCache.v
Job.v
TaskGuard.v
Generators.v
Handles.v
MainService.v
EmptyJob.v
Consensus.v
Ssz.v
Blst.v
BlsTraits.v
Wrappers.v
Signing.v
Sha256.v
SszContainer.v
BidSsz.v
BidJson.v
JsonText.v
IngressJson.v
Relays.v
GrpcMsg.v
GrpcService.v
Relay.v
BidMetrics.v
Submission.v
InternalRelay.v
JsonWire.v
TxNetwork.v
Cli.v
System.v
Node.v
TestsBundles.v
TestsPrimitives.v
TestsServices.v
MockEvm.v
MockReads.v
RpcSuite.v
TestsRpc.v
TestsPayload.v
TestsBidder.v
TestsJob.v
