(* ===== verification/Prelude.v ===== *)
(** * rs-block-builder: a verification development

    The program is an Ethereum block builder: it receives bundles over RPC,
    learns from the consensus layer which slot to build for, builds blocks out
    of bundles and mempool transactions, and bids them to relays.  Code that is
    not in the repository (the EVM and its databases, the chain specification,
    decoding and signature recovery, keccak, BLS, the mempool) is a parameter:
    a type class whose laws, where a theorem needs one, state what its
    documentation promises.  [DemoEvm] gives those classes small executable
    instances, on which the witnesses evaluate.

    ** The parts, and the file of each (paths under [src/crates/])

    - [Prelude] (this file): results, the [run E T] of fallible code that may
      panic, machine integers, stable sorting, and the tactics ([run_inv],
      [vm_refl], ...) and hints the other files share.
    - [Types]: addresses, hashes, transactions, and the class [EthTx] of what
      the code asks of a transaction.
    - [Bundle], [BundlePool]: [bundles/src/bundle.rs], [inner.rs], [pool.rs],
      [metrics.rs].  The pool is a map from hashes to bundles with four
      indices; [pool_op] and [pool_run] are its histories.
    - [Rpc]: [rpc/src], the methods [eth_sendBundle], [eth_cancelBundle] and
      [eth_sendPrivateTransaction], over the pool.
    - [Validator]: [primitives/src/validator.rs] and
      [relay/src/services/validator.rs].
    - [Ofac]: [payload/src/utils/ofac_addresses.rs], the list included.
    - [Chain], [Payload]: the parameters of a chain ([Evm] and the classes
      below it), and [primitives/src/payload.rs], [primitives/src/build/mod.rs].
    - [Db]: [payload/src/strategy/state/db.rs].  [Chain] gives the builder its
      databases as the states they observe; [Db] has the cell a simulation's cache reads
      through, and shows that whatever it does it observes that state.  The cache is the
      library's: a program of reads, of which nothing is assumed.
    - [SimState], [State]: [payload/src/strategy/state]: simulated transactions
      and bundles, and [BuildState] with every operation that simulates,
      verifies, commits or finishes a block.  [StateFacts] proves them.
    - [Strategies]: [payload/src/strategy]: the empty, mempool and bundle
      strategies.  [StratFacts] proves them, and [Provenance] where the
      transactions of their blocks come from.
    - [Policy], [Bid], [Bidder]: [payload/src/bidder/policy.rs],
      [primitives/src/bid.rs] and [signer.rs], [payload/src/bidder/service.rs].
      [AuctionLog]: an append-only log of an auction, of which the bidder's record is a
      function.
    - [PayloadService]: [payload/src/service/mod.rs], against the interface
      [PayloadJobGenerator] of [payload/src/traits.rs].
    - [Clock]: [consensus_layer/src/clock.rs].
    - [Logs]: the texts of log lines, and the macros of [primitives/src/build/log.rs].
    - [RelayCache]: [relay/src/internal_relay.rs].
    - [Numerals]: the decimal strings of [bid.rs] and of query strings.
    - [Job]: [payload/src/job] (stream and interval jobs, their tasks, counters
      and [ResolveBestPayload]) and [payload/src/generator].  A task's outcome
      reaches the job through its channel ([delivers]); [stream_steps] and
      [interval_steps] are the runs of a job.  [EmptyJob]: the empty block job.
      [TaskGuard]: the semaphore the tasks of all jobs share; [guard_step] lets
      tasks be spawned, ask for a permit and end in any order.  [Generators]: the
      generators of jobs, whose clones of a semaphore are references into a store;
      [world_step] lets generators, jobs, tasks and semaphores move in any order.
    - [MainService]: [bin/builder/src/service.rs].
    - [Consensus]: [consensus_layer/src/lib.rs], [connection.rs], [types.rs].
    - [Ssz], [Blst]: [primitives/src/ssz.rs] and [primitives/src/blst]; the
      class [SszCodec] states what an encoding promises, and [blst_bls] makes
      the wrappers an instance of [Bls], the interface [Bid] signs through.
      [BlsTraits]: the traits of keys, the wrappers over any of their implementations,
      and [Blst] as the instance at the library's points.  [Wrappers]: the newtypes of
      [primitives/src/lib.rs].
      [Signing]: the tree hashes of bids, signing data and fork data, down to
      the hash of two nodes; [signing_bls] is [Bls] with all of them in place, and
      [Sha256] evaluates it with the real hash.
    - [SszContainer], [BidSsz]: the derived SSZ encodings of [bid.rs].  [SszLib]
      is what the SSZ library's containers and lists promise, with an
      implementation after the specification; a structure is the nested pair of
      its fields, and its codec follows from theirs.  [BidJson]: the derived
      JSON of [bid.rs] and the serde macros of [blst/macros.rs], in the same way.
    - [JsonText]: the text of JSON, as the interface between a printer and a parser,
      with a small pair of them; the derived JSON of [validator.rs].
      [IngressJson]: the JSON that comes in, the events of [types.rs] and the
      requests of [primitives/src/rpc.rs], and [rpc_call], the methods of the trait
      [BundlesApi] by their names; a call moves the bundle pool by a step of
      [Node] at most ([rpc_call_pool]).
    - [Relays]: [primitives/src/relays.rs], [run_mode.rs].  [GrpcMsg]: the
      messages of [grpc/src/gen]; [GrpcService]: its client and server, over the
      interface [Tonic].  [Relay]: [relay/src/client], [aggregator.rs],
      [relay.rs] and [services/relay.rs]; the trait [Relay] is a record of
      operations, and what the network answers is a [Network].
    - [Handles]: the handles of the payload service and of the bidder.
      [BidMetrics]: [payload/src/bidder/metrics.rs], and the task of a bid with its
      counters and the real relay handle.
    - [Submission]: [Relay] over the codecs of [BidSsz], [BidJson] and [GrpcMsg],
      and what a relay reads in a submission ([relay_reads]).
    - [InternalRelay]: the routes of [relay/src/internal_relay.rs]; [Wire] is
      what the client's requests and the server's filters agree on, and
      [JsonWire] discharges it: each side prints and parses JSON.
    - [TxNetwork]: [tx-network/src].  [Cli]: [cli-args/src] and the wiring of
      [bin/builder/src/main.rs].
    - [System]: the consensus layer's stream, the main service, the payload
      service's jobs and the bidder side by side.  [sys_step] lets any of them
      take a step on any input its channels can hold; [sys_reachable] are the
      runs, and [sys_inv] the invariant they keep.
    - [Node]: [System] with the bundle pool behind its RPC methods, the validator
      schedule loaded from relays, the mempool and the submission of bids to relays.
      [node_step] interleaves all of them; [node_reachable] are its runs, and a node
      records what its pools have held and what the network answered.
    - [TestsBundles], [TestsPrimitives], [TestsServices], [TestsRpc],
      [TestsPayload], [TestsBidder], [TestsJob]: the repository's unit tests, a
      proposition about the model each, with the lemma [.._passes] that it holds.
      [MockEvm] is what those of the payload crate run on: the mock provider,
      and Ethereum's rules for transfers between accounts without code.  [MockReads]:
      the mock provider, trait by trait.  [RpcSuite]: the JSON-RPC server and client of
      the RPC tests, [rpc/src/test_utils.rs].

    A build flows through them as follows.  [Rpc.send_bundle] puts a bundle
    into the pool; a job of the payload service calls [Strategies.try_build],
    which takes the bundles of its block from the pool, simulates them with
    [State.simulate_bundle], orders them with [SimState.sort_by_max_value] and
    commits them and then the mempool's transactions; a better build state goes
    to [Bidder.on_build]; when the policy bids, [Bidder.try_bid] hands the
    state and the bid to [finalize_and_submit_build], which appends the payment
    ([State.into_build]), signs ([Bid.SignedBid_new]) and submits.

    ** How code becomes definitions

    Every function is one definition of the same name, with its state passed
    explicitly.  A function that returns [Result] gives [result E T], and one
    that may also panic gives [run E T], whose [Panicked] stands for [expect],
    [unwrap], [unreachable!] and checked arithmetic.  Machine integers are in
    [Z] with their wrap-around written out ([u64_add], [u256_mul],
    [u256_saturating_sub], [i128_wrap]): a release build wraps.  Polling a
    future is a function of what its channels hold ([poll T] is [Ready] or
    [Pending]); a spawned task is an output of the function that spawns it.
    Acquiring a lock, the clock, and the cancellation flag are inputs.

    Loops over lists are structural.  The two loops over the mempool's
    iterator take fuel, and [StratFacts.try_build_total] shows that fuel above
    the number of transactions the iterator has left is enough, so that no
    build is lost to fuel.  [PayloadService.service_poll] recurses on the list
    of batches of commands its channel delivers.

    ** What is proved

    - The pool refines an abstract pool over every history, and addition,
      cancellation, pruning and the RPC methods do what they say on every
      branch ([pool_query_refines], [cancel_bundle_correct], [prune_correct],
      [send_bundle_validates], [send_query_cancel]), down to the JSON of a request
      ([rpc_send_bundle_served]) and of an event ([event_json_read]).
    - No build exceeds the gas of a block with the payment reserved, its
      accounting is exact, and the block that is finished ends with a signed transfer of its bid
      ([execution_within_limits], [execution_details_account],
      [into_build_correct], [finalize_submits_bid]); bundles are atomic,
      their refunds affordable, and no listed address is touched
      ([execute_bundle_correct], [bundle_refund_affordable]); a simulation
      leaves the database it reads as it was ([simulation_isolated]).
    - The strategies return builds that beat the best so far, of bundles and
      transactions that have none in common and none that is blacklisted, and always end
      ([bundles_build_correct], [mempool_build_correct], [try_build_total]).
    - The bidder follows slots upwards, keeps the best block and bids what its
      policy computes ([bidder_poll_correct], [bidder_keeps_best_build]), and its
      record of an auction is that of the auction's log ([bidder_refines_log]); the policies
      bid exactly what a block leaves, or within their surplus and subsidy
      ([no_profit_policy_exact], [linear_policy_bounds], [subsidy_within_budget]).
    - The services: jobs are unique and each is polled once; the validator
      schedule follows its latest load; the gas limit suggestions obey the
      protocol and converge; the relay cache holds the last four blocks; slots
      partition time.
    - The composition: whatever the interleaving, bids are sound and what is
      signed for one is the payment of that bid for an event of the consensus
      layer ([system_bids_sound], [system_signed_bid_correct]); and every
      submission a relay gets is such a bid, its block made of requested bundles
      and mempool transactions and its proposer the registered one
      ([node_submissions_sound]).
    - Jobs send ever better builds and count their tasks
      ([stream_job_bids_improve], [interval_job_correct]), no more of them at
      once than configured, of all the jobs of a generator ([generator_bounds_builds]); the main service
      starts one build and one auction per slot ([main_poll_correct]).
    - Relays: fan-out, top bid and schedule do not depend on the order of the
      answers ([broadcast_correct], [top_bid_correct],
      [load_schedule_correct]), and the handle gives what the service computes
      ([handle_awaits_service]); client and server of the internal relay agree
      over the text of JSON ([internal_relay_over_json], [relay_answers_read]); the bidder's counters say which bids a
      relay took ([bids_accounted]), and a payload lives as its handle sees it
      ([payload_session]).
    - Encodings: SSZ, JSON, BLS keys and signatures, gRPC requests and decimal
      strings lose nothing ([signed_bid_ssz_roundtrip], [bid_json_roundtrip],
      [generic_keys_correct], [submit_block_request_injective],
      [u64_str_roundtrip]), so that a relay of any kind reads the bid that was
      submitted ([submission_delivers_bid]); a signature binds its bid up to a collision among
      the pairs of nodes hashed for it ([signature_binds_bid]); gRPC client and server meet
      ([grpc_submission_served]).
    - Wiring: the parts the builder is started with agree, and starting panics
      on known causes only ([start_builder_wired], [start_builder_total]).
    - What the code does against its comments or its purpose:
      [replacement_uuid_replaces_once], [resubmission_drops_earlier_block],
      [failing_bundle_aborts_build], [stale_top_bid_applied],
      [into_empty_build_header], [linear_policy_outside_window],
      [suggest_gas_limit_underflow], [ended_stream_never_replaced],
      [prune_loses_new_bundles], [failed_slot_not_retried],
      [stream_job_wakeups], [relay_pool_ignores_run_mode],
      [unreachable_grpc_panics], [cli_needs_keys], [ofac_tests_miss_the_filter].
    - Fidelity: the model passes the repository's own tests, with the values
      they expect: orders and contents of blocks, bids, gas limits, signing
      domains, encodings, pool sizes.

    ** What is not modelled

    Latencies (the histograms of [job/metrics.rs] and [bidder/metrics.rs]), and which
    lines are logged when; the HTTP, gRPC and event stream libraries,
    whose answers are inputs or interfaces; a JSON printer and parser beyond what
    [JsonText] asks of one, and which error a malformed text gives; gRPC
    interceptors; [payload/src/job/config.rs], which no module declares; the header types
    of the builder API, which nothing uses; the
    command line library and reth's node builder around [main]; the tests that
    need a live relay, an event stream over a socket or real time to pass; and, of the
    test utilities, the mock blocks of the RPC tests' server, which no method reads
    ([rpc/src/test_utils.rs]). *)

From stdpp Require Import prelude list gmap strings.
From Stdlib Require Import ZArith Lia Sorting.Permutation Sorting.Sorted.

Open Scope Z_scope.

(** ** Shared result type, machine integers and list operations. *)

Declare Scope builder_scope.
Delimit Scope builder_scope with builder.
Open Scope builder_scope.

(** Hints of the development: bounds of machine integers. *)
Create HintDb builder.

(** *** Results: Rust's [Result<T, E>]. *)

Inductive result (E T : Type) : Type :=
| Ok (t : T)
| Err (e : E).
Arguments Ok {E T} t.
Arguments Err {E T} e.

#[export] Instance result_ret {E} : MRet (result E) := fun T t => Ok t.
#[export] Instance result_bind {E} : MBind (result E) :=
  fun T U f r => match r with Ok t => f t | Err e => Err e end.

Definition map_err {E F T} (f : E -> F) (r : result E T) : result F T :=
  match r with Ok t => Ok t | Err e => Err (f e) end.

Definition is_ok {E T} (r : result E T) : bool :=
  match r with Ok _ => true | Err _ => false end.

Definition ok_or {E T} (o : option T) (e : E) : result E T :=
  match o with Some t => Ok t | None => Err e end.

(** Rust's [Result::ok]. *)
Definition result_ok {E T} (r : result E T) : option T :=
  match r with Ok t => Some t | Err _ => None end.

(** [iter.map(f).collect::<Result<Vec<_>, _>>()]: the first error wins. *)
Fixpoint collect_results {E A B} (f : A -> result E B) (l : list A) : result E (list B) :=
  match l with
  | [] => Ok []
  | a :: l' =>
      match f a with
      | Err e => Err e
      | Ok b =>
          match collect_results f l' with
          | Ok bs => Ok (b :: bs)
          | Err e => Err e
          end
      end
  end.

Lemma result_bind_Ok {E T U} (f : T -> result E U) (r : result E T) u :
  (r ≫= f) = Ok u <-> exists t, r = Ok t /\ f t = Ok u.
Proof. destruct r; simpl; split; naive_solver. Qed.

Lemma collect_results_Ok {E A B} (f : A -> result E B) l bs :
  collect_results f l = Ok bs <-> Forall2 (fun a b => f a = Ok b) l bs.
Proof.
  revert bs. induction l as [|a l IH]; intros bs; simpl.
  - split; [intros [= <-]; constructor|by inversion 1].
  - destruct (f a) as [b|e] eqn:Hf.
    + destruct (collect_results f l) as [bs'|e] eqn:Hc.
      * split; [intros [= <-]; constructor; [done|by apply IH]|].
        inversion 1 as [|? b' ? bs'' H1 H2]; subst. apply IH in H2 as [= ->]. congruence.
      * split; [done|]. inversion 1 as [|? b' ? bs'' H1 H2]; subst. by apply IH in H2.
    + split; [done|]. inversion 1; congruence.
Qed.

(** Rust's [std::task::Poll]. *)
Inductive poll (A : Type) : Type :=
| Ready (a : A)
| Pending.
Arguments Ready {A} a.
Arguments Pending {A}.

(** *** Runs that may panic

    [run E T] is the outcome of a Rust call that returns [Result<T, E>] or
    panics ([unwrap], [expect], [unreachable!], a conversion out of range). *)

Inductive run (E T : Type) : Type :=
| Done (t : T)
| Fail (e : E)
| Panicked.
Arguments Done {E T} t.
Arguments Fail {E T} e.
Arguments Panicked {E T}.

#[export] Instance run_ret {E} : MRet (run E) := fun T t => Done t.
#[export] Instance run_bind {E} : MBind (run E) :=
  fun T U f r => match r with Done t => f t | Fail e => Fail e | Panicked => Panicked end.

(** [r.map_err(f)?] and [o.expect(..)] *)
Definition lift_err {E F T} (f : E -> F) (r : result E T) : run F T :=
  match r with Ok t => Done t | Err e => Fail (f e) end.
Definition run_map_err {E F T} (f : E -> F) (r : run E T) : run F T :=
  match r with Done t => Done t | Fail e => Fail (f e) | Panicked => Panicked end.
Definition expect {E T} (o : option T) : run E T :=
  match o with Some t => Done t | None => Panicked end.

Lemma run_ret_Done {E T} (x y : T) : mret (M:=run E) x = Done y -> x = y.
Proof. unfold mret, run_ret. congruence. Qed.

(** The value of a run that is known to end, for evaluation on concrete inputs. *)
Definition is_done {E T} (r : run E T) : bool := match r with Done _ => true | _ => false end.
Definition run_or {E T} (x : T) (r : run E T) : T := match r with Done t => t | _ => x end.

Lemma run_or_Done {E T} (x : T) (r : run E T) : is_done r = true -> r = Done (run_or x r).
Proof. by destruct r. Qed.

Lemma run_or_Done_pair {E T U} (x : T * U) (r : run E (T * U)) :
  is_done r = true -> r = Done ((run_or x r).1, (run_or x r).2).
Proof. by destruct r as [[]| |]. Qed.

Lemma run_or_Done_triple {E T U V} (x : T * U * V) (r : run E (T * U * V)) :
  is_done r = true -> r = Done ((run_or x r).1.1, (run_or x r).1.2, (run_or x r).2).
Proof. by destruct r as [[[]]| |]. Qed.

(** Proves [r = Done _] where the value is, by definition, [run_or x r]. *)
Ltac run_done x :=
  lazymatch goal with
  | |- ?r = Done (_, _) => exact_no_check (run_or_Done_pair x r (eq_refl true))
  | |- ?r = Done _ => exact_no_check (run_or_Done x r (eq_refl true))
  end.

Lemma run_bind_Done {E T U} (f : T -> run E U) (r : run E T) u :
  (r ≫= f) = Done u <-> exists t, r = Done t /\ f t = Done u.
Proof. destruct r; simpl; split; naive_solver. Qed.

Lemma run_bind_Fail {E T U} (f : T -> run E U) (r : run E T) e :
  (r ≫= f) = Fail e <-> r = Fail e \/ exists t, r = Done t /\ f t = Fail e.
Proof. destruct r; simpl; split; naive_solver. Qed.

Lemma run_bind_Panicked {E T U} (f : T -> run E U) (r : run E T) :
  (r ≫= f) = Panicked <-> r = Panicked \/ exists t, r = Done t /\ f t = Panicked.
Proof. destruct r; simpl; split; naive_solver. Qed.

Lemma lift_err_Done {E F T} (f : E -> F) (r : result E T) t :
  lift_err f r = Done t <-> r = Ok t.
Proof. destruct r; simpl; split; naive_solver. Qed.

Lemma lift_err_Fail {E F T} (f : E -> F) (r : result E T) x :
  lift_err f r = Fail x <-> exists e, r = Err e /\ x = f e.
Proof. destruct r; simpl; split; naive_solver. Qed.

Lemma lift_err_Panicked {E F T} (f : E -> F) (r : result E T) : lift_err f r <> Panicked.
Proof. by destruct r. Qed.

Lemma expect_Done {E T} (o : option T) t : expect (E:=E) o = Done t <-> o = Some t.
Proof. destruct o; simpl; split; naive_solver. Qed.

Lemma expect_Fail {E T} (o : option T) (e : E) : expect o <> Fail e.
Proof. by destruct o. Qed.

#[export] Hint Resolve lift_err_Panicked expect_Fail : builder.

(** Takes a successful run apart: one equation per step of the do-notation. *)
Ltac run_inv :=
  repeat match goal with
  | H : mbind _ _ = Done _ |- _ =>
      let t := fresh "t" in let H1 := fresh "Hr" in
      apply run_bind_Done in H as (t & H1 & H); cbv beta zeta in H
  | H : lift_err _ _ = Done _ |- _ => apply lift_err_Done in H
  | H : expect _ = Done _ |- _ => apply expect_Done in H
  | H : @mret _ _ _ _ = _ |- _ => apply run_ret_Done in H
  | H : Done _ = Done _ |- _ => apply run_ret_Done in H
  | H : Fail _ = Done _ |- _ => discriminate H
  | H : Panicked = Done _ |- _ => discriminate H
  end.

(** *** Machine integers

    A [u64], [u128], [i128] or [U256] is a [Z].  Operators of Rust's primitive
    integers wrap in the release profiles the program is shipped with
    (overflow checks are off there); the operators [+] and [*] of the 256-bit
    [U256] wrap in every profile.  Each operation keeps its width. *)

Definition U64_MAX : Z := 2 ^ 64 - 1.
Definition U128_MAX : Z := 2 ^ 128 - 1.
Definition U256_MAX : Z := 2 ^ 256 - 1.

Definition u64_wrap (x : Z) : Z := x mod 2 ^ 64.
Definition u64_add (x y : Z) : Z := u64_wrap (x + y).
Definition u64_sub (x y : Z) : Z := u64_wrap (x - y).
Definition u64_mul (x y : Z) : Z := u64_wrap (x * y).

Definition u256_wrap (x : Z) : Z := x mod 2 ^ 256.
Definition u256_add (x y : Z) : Z := u256_wrap (x + y).
Definition u256_mul (x y : Z) : Z := u256_wrap (x * y).
Definition u256_saturating_add (x y : Z) : Z := Z.min (x + y) U256_MAX.
Definition u256_saturating_sub (x y : Z) : Z := Z.max (x - y) 0.
Definition u256_saturating_mul (x y : Z) : Z := Z.min (x * y) U256_MAX.
Definition u256_checked_div (x y : Z) : option Z :=
  if y =? 0 then None else Some (x / y).

Definition is_u64 (x : Z) : Prop := 0 <= x < 2 ^ 64.
Definition is_u128 (x : Z) : Prop := 0 <= x < 2 ^ 128.
Definition is_u256 (x : Z) : Prop := 0 <= x < 2 ^ 256.

Lemma u64_wrap_small x : is_u64 x -> u64_wrap x = x.
Proof. intros H. apply Z.mod_small, H. Qed.

Lemma u64_wrap_range x : is_u64 (u64_wrap x).
Proof. apply Z.mod_pos_bound. lia. Qed.

Lemma u256_wrap_small x : is_u256 x -> u256_wrap x = x.
Proof. intros H. apply Z.mod_small, H. Qed.

Lemma u256_wrap_range x : is_u256 (u256_wrap x).
Proof. apply Z.mod_pos_bound. lia. Qed.

Lemma u64_add_range x y : is_u64 (u64_add x y).
Proof. apply u64_wrap_range. Qed.

Lemma u256_add_range x y : is_u256 (u256_add x y).
Proof. apply u256_wrap_range. Qed.

Lemma u64_add_small x y : is_u64 (x + y) -> u64_add x y = x + y.
Proof. apply u64_wrap_small. Qed.

Lemma u64_sub_small x y : is_u64 x -> 0 <= y <= x -> u64_sub x y = x - y.
Proof. intros Hx Hy. apply u64_wrap_small. unfold is_u64 in *. lia. Qed.

Lemma u64_mul_small x y : is_u64 (x * y) -> u64_mul x y = x * y.
Proof. apply u64_wrap_small. Qed.

Lemma u256_add_small x y : is_u256 (x + y) -> u256_add x y = x + y.
Proof. apply u256_wrap_small. Qed.

Lemma u256_mul_small x y : is_u256 (x * y) -> u256_mul x y = x * y.
Proof. apply u256_wrap_small. Qed.

Lemma u256_wrap_add_l x y : u256_wrap (u256_wrap x + y) = u256_wrap (x + y).
Proof. apply Z.add_mod_idemp_l. lia. Qed.

Lemma u256_saturating_sub_range x y : is_u256 x -> 0 <= y -> is_u256 (u256_saturating_sub x y).
Proof. unfold is_u256, u256_saturating_sub. lia. Qed.

Lemma u256_saturating_add_range x y : is_u256 x -> is_u256 y -> is_u256 (u256_saturating_add x y).
Proof. unfold is_u256, u256_saturating_add, U256_MAX. lia. Qed.

#[export] Hint Resolve u64_wrap_range u256_wrap_range u64_add_range u256_add_range
  u256_saturating_sub_range u256_saturating_add_range : builder.

(** Closes range goals and equations between wrapped and exact operations
    when the operands are in range. *)
Ltac solve_range :=
  unfold is_u64, is_u128, is_u256, U64_MAX, U128_MAX, U256_MAX in *; lia.

(** Case analysis on the boolean tests of a goal or hypothesis. *)
Ltac case_bools :=
  repeat match goal with
  | |- context [?a <? ?b] => destruct (Z.ltb_spec a b)
  | |- context [?a <=? ?b] => destruct (Z.leb_spec a b)
  | |- context [?a >? ?b] => rewrite (Z.gtb_ltb a b)
  | |- context [?a >=? ?b] => rewrite (Z.geb_leb a b)
  | |- context [?a =? ?b] => destruct (Z.eqb_spec a b)
  end.

(** Splits on the scrutinee of a [match] in the goal or in a hypothesis. *)
Ltac break_match :=
  match goal with
  | |- context [match ?x with _ => _ end] => destruct x eqn:?
  | H : context [match ?x with _ => _ end] |- _ => destruct x eqn:?
  end.

(** Closes an equation between closed terms by evaluation, in the kernel.  The
    right-hand side is a value: a boolean or a number. *)
Ltac kernel_refl := lazymatch goal with |- _ = ?y => exact_no_check (eq_refl y) end.

(** Every assertion of a test, one by one, of a definition that lists them. *)
Ltac assertions :=
  repeat lazymatch goal with
  | |- let x := _ in _ => intros ?
  | |- _ /\ _ => split
  | |- match _ with _ => _ end => red
  | |- _ = _ => kernel_refl
  end.
Tactic Notation "run_test" reference(d) := unfold d; assertions.


(** *** Options and lists *)

(** Rust's [Option::is_none_or] and [Option::is_some_and]. *)
Definition is_none_or {A} (o : option A) (p : A -> bool) : bool :=
  match o with None => true | Some a => p a end.
Definition is_some_and {A} (o : option A) (p : A -> bool) : bool :=
  match o with None => false | Some a => p a end.

Lemma is_some_and_negb {A} (o : option A) (p : A -> bool) :
  is_some_and o p = negb (is_none_or o (fun a => negb (p a))).
Proof. destruct o as [a|]; simpl; [by destruct (p a) | done]. Qed.

(** Rust's [slice::sort_by]: a stable sort.  [le a b] is [cmp a b != Greater]. *)
Fixpoint sort_insert {A} (le : A -> A -> bool) (x : A) (l : list A) : list A :=
  match l with
  | [] => [x]
  | y :: l' => if le x y then x :: y :: l' else y :: sort_insert le x l'
  end.

Definition sort_by {A} (le : A -> A -> bool) (l : list A) : list A :=
  foldr (sort_insert le) [] l.

Section sort_by.
Context {A : Type} (le : A -> A -> bool).
Hypothesis le_total : forall x y, le x y = true \/ le y x = true.
Hypothesis le_trans : forall x y z, le x y = true -> le y z = true -> le x z = true.

Lemma sort_insert_perm x l : sort_insert le x l ≡ₚ x :: l.
Proof.
  induction l as [|y l IH]; simpl; [done|].
  destruct (le x y); [done|]. rewrite IH. apply Permutation_swap.
Qed.

Lemma sort_by_perm l : sort_by le l ≡ₚ l.
Proof.
  induction l as [|x l IH]; simpl; [done|]. by rewrite sort_insert_perm, IH.
Qed.

Lemma sort_insert_sorted x l :
  StronglySorted (fun a b => le a b = true) l ->
  StronglySorted (fun a b => le a b = true) (sort_insert le x l).
Proof.
  induction 1 as [|y l Hs IH Hy]; simpl; [repeat constructor|].
  destruct (le x y) eqn:Hxy.
  - repeat constructor; [done..|]. eapply Forall_impl; [exact Hy|eauto].
  - constructor; [done|]. rewrite sort_insert_perm. constructor; [|done].
    by destruct (le_total x y) as [?|?]; [congruence|].
Qed.

Lemma sort_by_sorted l : StronglySorted (fun a b => le a b = true) (sort_by le l).
Proof. induction l; simpl; [constructor | by apply sort_insert_sorted]. Qed.

(** Stability: elements that compare equal to [k] keep their relative order. *)
Definition same_rank (k a : A) : bool := le k a && le a k.

Lemma sort_insert_filter k x l :
  List.filter (same_rank k) (sort_insert le x l) = List.filter (same_rank k) (x :: l).
Proof.
  induction l as [|y l IH]; [done|]. simpl in *.
  destruct (le x y) eqn:Hxy; [done|]. simpl. rewrite IH.
  destruct (same_rank k x) eqn:Hx, (same_rank k y) eqn:Hy; try done.
  unfold same_rank in *. apply andb_prop in Hx as [_ Hx], Hy as [Hy _].
  by rewrite (le_trans _ _ _ Hx Hy) in Hxy.
Qed.

Lemma sort_by_stable k l :
  List.filter (same_rank k) (sort_by le l) = List.filter (same_rank k) l.
Proof.
  induction l as [|x l IH]; [done|]. simpl sort_by.
  rewrite sort_insert_filter. simpl. by rewrite IH.
Qed.
End sort_by.

(** Rust's [Iterator::max_by_key]: the last of the maximal elements. *)
Fixpoint max_by_key_from {A} (key : A -> Z) (best : A) (l : list A) : A :=
  match l with
  | [] => best
  | a :: l' => max_by_key_from key (if key best <=? key a then a else best) l'
  end.

Definition max_by_key {A} (key : A -> Z) (l : list A) : option A :=
  match l with [] => None | a :: l' => Some (max_by_key_from key a l') end.

Section max_by_key.
Context {A : Type} (key : A -> Z).

Lemma max_by_key_from_spec best (l : list A) :
  (max_by_key_from key best l ∈ best :: l) /\
  (forall a, a ∈ best :: l -> key a <= key (max_by_key_from key best l)).
Proof.
  revert best. induction l as [|x l IH]; intros best; simpl; [set_solver by lia|].
  destruct (Z.leb_spec (key best) (key x)) as [Hle|Hlt].
  - destruct (IH x) as [Hin Hmax]. split; [set_solver|].
    intros a [->|Ha]%elem_of_cons; [|auto].
    specialize (Hmax x ltac:(set_solver)). lia.
  - destruct (IH best) as [Hin Hmax]. split; [set_solver|].
    intros a [->|[->|Ha]%elem_of_cons]%elem_of_cons; [apply Hmax; set_solver| |apply Hmax; set_solver].
    specialize (Hmax best ltac:(set_solver)). lia.
Qed.

Lemma max_by_key_Some (l : list A) a :
  max_by_key key l = Some a -> a ∈ l /\ forall b, b ∈ l -> key b <= key a.
Proof. destruct l as [|x l]; [done|]. intros [= <-]. apply max_by_key_from_spec. Qed.

Lemma max_by_key_None (l : list A) : max_by_key key l = None <-> l = [].
Proof. by destruct l. Qed.

(** The maximal key does not depend on the order of the elements. *)
Lemma max_by_key_perm (l l' : list A) :
  l ≡ₚ l' -> key <$> max_by_key key l = key <$> max_by_key key l'.
Proof.
  intros Hp. destruct (max_by_key key l) as [a|] eqn:Ha, (max_by_key key l') as [b|] eqn:Hb.
  - apply max_by_key_Some in Ha as [Ha Hma], Hb as [Hb Hmb]. simpl. f_equal.
    rewrite <- Hp in Hb. rewrite Hp in Ha.
    specialize (Hma b Hb). specialize (Hmb a Ha). lia.
  - apply max_by_key_None in Hb as ->. apply Permutation_nil_r in Hp as ->. done.
  - apply max_by_key_None in Ha as ->. symmetry in Hp. apply Permutation_nil_r in Hp as ->. done.
  - done.
Qed.
End max_by_key.

(** *** Bytes *)

#[export] Instance byte_eq_decision : EqDecision Byte.byte := Byte.byte_eq_dec.

Definition byte_to_Z (b : Byte.byte) : Z := Z.of_N (Byte.to_N b).
Definition byte_of_Z (z : Z) : Byte.byte :=
  match Byte.of_N (Z.to_N (z mod 256)) with Some b => b | None => Byte.x00 end.

(** The [n] low bytes of an integer, least significant first, and back. *)
Fixpoint le_bytes (n : nat) (z : Z) : list Byte.byte :=
  match n with
  | O => []
  | S n' => byte_of_Z z :: le_bytes n' (z / 256)
  end.

Fixpoint le_value (bs : list Byte.byte) : Z :=
  match bs with
  | [] => 0
  | b :: bs' => byte_to_Z b + 256 * le_value bs'
  end.

Lemma byte_to_Z_range b : 0 <= byte_to_Z b < 256.
Proof. unfold byte_to_Z. pose proof (Byte.to_N_bounded b). lia. Qed.

Lemma byte_of_Z_to_Z b : byte_of_Z (byte_to_Z b) = b.
Proof.
  unfold byte_of_Z. rewrite Z.mod_small by apply byte_to_Z_range.
  unfold byte_to_Z. by rewrite N2Z.id, Byte.of_to_N.
Qed.

Lemma byte_to_of_Z z : byte_to_Z (byte_of_Z z) = z mod 256.
Proof.
  unfold byte_of_Z. assert (Hr : 0 <= z mod 256 < 256) by (apply Z.mod_pos_bound; lia).
  destruct (Byte.of_N (Z.to_N (z mod 256))) as [b|] eqn:Hb.
  - apply Byte.to_of_N in Hb. unfold byte_to_Z. rewrite Hb. lia.
  - apply Byte.of_N_None_iff in Hb. lia.
Qed.

Lemma length_le_bytes n z : length (le_bytes n z) = n.
Proof. revert z. induction n; intros z; simpl; auto. Qed.

Lemma le_value_bytes n z : le_value (le_bytes n z) = z mod 256 ^ Z.of_nat n.
Proof.
  revert z. induction n as [|n IH]; intros z.
  - simpl. by rewrite Z.mod_1_r.
  - cbn [le_bytes le_value]. rewrite IH, byte_to_of_Z, Nat2Z.inj_succ, Z.pow_succ_r by lia.
    rewrite (Z.rem_mul_r z 256) by lia. lia.
Qed.

Lemma le_bytes_value bs : le_bytes (length bs) (le_value bs) = bs.
Proof.
  induction bs as [|b bs IH]; [done|]. cbn [length le_value le_bytes].
  pose proof (byte_to_Z_range b).
  assert (Hd : (byte_to_Z b + 256 * le_value bs) / 256 = le_value bs).
  { rewrite Z.mul_comm, Z.div_add by lia. rewrite Z.div_small by lia. lia. }
  rewrite Hd, IH. f_equal. unfold byte_of_Z.
  rewrite Z.mul_comm, Z.mod_add by lia. apply byte_of_Z_to_Z.
Qed.

Lemma le_value_range bs : 0 <= le_value bs < 256 ^ Z.of_nat (length bs).
Proof.
  pose proof (le_value_bytes (length bs) (le_value bs)) as H.
  rewrite le_bytes_value in H. rewrite H. apply Z.mod_pos_bound, Z.pow_pos_nonneg; lia.
Qed.

(** Big-endian bytes: [B256::as_slice] of a 256-bit word. *)
Definition be_bytes (n : nat) (z : Z) : list Byte.byte := rev (le_bytes n z).

Lemma length_be_bytes n z : length (be_bytes n z) = n.
Proof. unfold be_bytes. by rewrite length_rev, length_le_bytes. Qed.

(** *** Finite maps *)

Lemma NoDup_fst_filter {K V} (P : K * V -> Prop) `{forall x, Decision (P x)} (l : list (K * V)) :
  NoDup l.*1 -> NoDup (filter P l).*1.
Proof.
  induction l as [|x l IH]; [done|]. rewrite fmap_cons, filter_cons.
  intros [Hx Hl]%NoDup_cons. case_decide; [|auto].
  rewrite fmap_cons. constructor; [|auto]. contradict Hx.
  apply list_elem_of_fmap in Hx as (y & -> & Hy). apply list_elem_of_filter in Hy as [_ Hy].
  by apply list_elem_of_fmap_2.
Qed.

Lemma size_filter_map `{Countable K} {V} (P : K * V -> Prop) `{forall x, Decision (P x)}
    (m : gmap K V) :
  size (filter P m) = length (filter P (map_to_list m)).
Proof.
  rewrite map_filter_alt, <- length_map_to_list, map_to_list_to_map; [done|].
  apply NoDup_fst_filter, NoDup_fst_map_to_list.
Qed.
