(* ===== verification/Numerals.v ===== *)
(** * Numbers as decimal strings

    The standard library's printing and parsing of [u64], and the (de)serializers
    of [crates/primitives/src/bid.rs] built on them: bids, queries and the command
    line carry their numbers as decimal strings. *)

From Stdlib Require Import Ascii.
From stdpp Require Import prelude strings pretty.
From S2P Require Import Prelude.

Open Scope Z_scope.

(** ** [u64::from_str]: an optional sign [+], then at least one digit, without overflow *)

Definition digit_of (a : ascii) : option Z :=
  let n := Z.of_N (N_of_ascii a) in
  if (48 <=? n) && (n <=? 57) then Some (n - 48) else None.

Definition checked_u64 (x : Z) : option Z := if x <? 2 ^ 64 then Some x else None.

Fixpoint parse_digits (acc : Z) (s : string) : option Z :=
  match s with
  | EmptyString => Some acc
  | String a s =>
      d ← digit_of a;
      shifted ← checked_u64 (acc * 10);
      acc ← checked_u64 (shifted + d);
      parse_digits acc s
  end.

Definition u64_from_str (s : string) : option Z :=
  match s with
  | EmptyString => None
  | String "+" EmptyString => None
  | String "+" s => parse_digits 0 s
  | s => parse_digits 0 s
  end.

(** ** [bid.rs] *)

(** [value.to_string()] *)
Definition from_u64_to_str (value : Z) : string := pretty value.

(** [format!("{}", value.0)] *)
Definition from_u256_to_str (value : Z) : string := pretty value.

Definition from_str_to_u64 (s : string) : result string Z :=
  match u64_from_str s with
  | Some value => Ok value
  | None => Err "failed to parse"%string
  end.

(** ** Properties *)

Lemma digit_of_char x : (x < 10)%N -> digit_of (pretty_N_char x) = Some (Z.of_N x).
Proof.
  intros Hx. assert (x = 0 \/ x = 1 \/ x = 2 \/ x = 3 \/ x = 4 \/ x = 5 \/ x = 6 \/ x = 7 \/ x = 8 \/ x = 9)%N
    as H by lia.
  by destruct_or! H; subst.
Qed.

Lemma digit_of_range a d : digit_of a = Some d -> 0 <= d <= 9.
Proof. unfold digit_of. intros H. destruct (_ && _) eqn:E; simplify_eq. lia. Qed.

Lemma checked_u64_Some x y : checked_u64 x = Some y <-> y = x /\ x < 2 ^ 64.
Proof. unfold checked_u64. destruct (Z.ltb_spec x (2 ^ 64)); naive_solver lia. Qed.

Lemma div_mod_10 (x : N) :
  Z.of_N x = Z.of_N (x `div` 10) * 10 + Z.of_N (x `mod` 10) /\ (x `mod` 10 < 10)%N /\
  Z.of_N (x `div` 10) * 10 <= Z.of_N x /\ Z.of_N (x `div` 10) <= Z.of_N x.
Proof.
  pose proof (N.div_mod' x 10). pose proof (N.mod_lt x 10 ltac:(done)).
  generalize dependent (x `div` 10)%N. generalize dependent (x `mod` 10)%N. intros. lia.
Qed.

(** what [pretty] puts in front of [s] is read before [s] *)
Lemma parse_pretty_go x s :
  (Z.of_N x < 2 ^ 64) -> parse_digits 0 (pretty_N_go x s) = parse_digits (Z.of_N x) s.
Proof.
  revert s. induction (N.lt_wf_0 x) as [x _ IH]; intros s Hx.
  destruct (decide (x = 0)%N) as [->|Hn]; [by rewrite pretty_N_go_0|].
  destruct (div_mod_10 x) as (Hd & Hm & Hs & Hq).
  rewrite pretty_N_go_step by lia.
  rewrite IH; [|apply N.div_lt; lia|by eapply Z.le_lt_trans].
  cbn [parse_digits]. rewrite digit_of_char by done. cbn [mbind option_bind].
  rewrite (proj2 (checked_u64_Some _ _) (conj eq_refl (Z.le_lt_trans _ _ _ Hs Hx))). cbn [mbind option_bind].
  rewrite <- Hd. by rewrite (proj2 (checked_u64_Some _ _) (conj eq_refl Hx)).
Qed.

Lemma pretty_go_head x s :
  (0 < x)%N -> exists y t, (y < 10)%N /\ pretty_N_go x s = String (pretty_N_char y) t.
Proof.
  revert s. induction (N.lt_wf_0 x) as [x _ IH]; intros s Hx. rewrite pretty_N_go_step by done.
  destruct (decide (x `div` 10 = 0)%N) as [->|Hn].
  - rewrite pretty_N_go_0. exists (x `mod` 10)%N, s. split; [by apply div_mod_10|done].
  - apply IH; [apply N.div_lt; lia|by apply N.neq_0_lt_0].
Qed.

Lemma no_plus y t : (y < 10)%N ->
  u64_from_str (String (pretty_N_char y) t) = parse_digits 0 (String (pretty_N_char y) t).
Proof.
  intros Hy. assert (y = 0 \/ y = 1 \/ y = 2 \/ y = 3 \/ y = 4 \/ y = 5 \/ y = 6 \/ y = 7 \/ y = 8 \/ y = 9)%N
    as H by lia.
  by destruct_or! H; subst.
Qed.

Lemma u64_from_pretty x : 0 <= x < 2 ^ 64 -> u64_from_str (pretty x) = Some x.
Proof.
  intros Hx. destruct x as [|p|p]; [reflexivity| |lia].
  change (pretty (Z.pos p)) with (pretty (N.pos p)). unfold pretty, pretty_N. rewrite decide_False by done.
  pose proof (parse_pretty_go (N.pos p) EmptyString ltac:(lia)) as H.
  destruct (pretty_go_head (N.pos p) EmptyString ltac:(lia)) as (y & t & Hy & E). rewrite E in *.
  by rewrite no_plus, H.
Qed.

Lemma parse_digits_range s acc x : 0 <= acc < 2 ^ 64 -> parse_digits acc s = Some x -> 0 <= x < 2 ^ 64.
Proof.
  revert acc. induction s as [|a s IH]; intros acc Ha; simpl; [naive_solver|].
  intros (d & Hd%digit_of_range & (sh & [-> Hs]%checked_u64_Some & (acc' & [-> Hac]%checked_u64_Some & H)
    %bind_Some)%bind_Some)%bind_Some. by apply (IH (acc * 10 + d)); [lia|].
Qed.

Lemma u64_from_str_range s x : u64_from_str s = Some x -> 0 <= x < 2 ^ 64.
Proof.
  assert (forall s, parse_digits 0 s = Some x -> 0 <= x < 2 ^ 64) as Hr
    by (intros s'; by apply parse_digits_range).
  unfold u64_from_str. intros H. repeat case_match; simplify_eq; by eapply Hr.
Qed.

(** the numbers of bids and queries survive their trip as decimal strings: parsing
    what was printed gives the number back, different numbers print differently, and
    whatever parses is a [u64]: an overflowing string is an error, not a wrapped number. *)
Theorem u64_str_roundtrip (x y : Z) (s : string) :
  0 <= x < 2 ^ 64 ->
  from_str_to_u64 (from_u64_to_str x) = Ok x /\
  (from_u64_to_str x = from_u64_to_str y -> x = y) /\
  match from_str_to_u64 s with
  | Ok v => 0 <= v < 2 ^ 64
  | Err e => e = "failed to parse"%string
  end.
Proof.
  intros Hx. unfold from_str_to_u64, from_u64_to_str. split_and!.
  - by rewrite u64_from_pretty.
  - apply (inj pretty).
  - destruct (u64_from_str s) eqn:E; [by apply (u64_from_str_range s)|done].
Qed.

Lemma u64_str_roundtrip_witness :
  from_str_to_u64 (from_u64_to_str (2 ^ 64 - 1)) = Ok (2 ^ 64 - 1) /\
  from_str_to_u64 "18446744073709551616" = Err "failed to parse"%string /\
  from_str_to_u64 "+18" = Ok 18.
Proof.
  split; [|split; reflexivity]. by apply (u64_str_roundtrip (2 ^ 64 - 1) 0 "0").
Defined.
