(* ===== verification/Types.v ===== *)
(** * Types shared by the components

    Hashes, addresses and raw bytes, and the interface to the Ethereum
    libraries ([reth], [revm]) the program calls: their types and functions
    are the fields of the class [EthTx], so every model built on them holds
    for whatever those libraries do. *)

From stdpp Require Import prelude list gmap strings.
From S2P Require Import Prelude.

Open Scope Z_scope.

(** A [B256], an [Address] and a [Uuid] are unsigned words, compared for equality. *)
Abbreviation B256 := Z (only parsing).
Abbreviation Address := Z (only parsing).
Abbreviation Uuid := Z (only parsing).
Abbreviation Bytes := (list Byte.byte) (only parsing).

(** The transaction types of [reth] and the functions the program reads them with. *)
Class EthTx := {
  (** [TransactionSignedEcRecovered] *)
  SignedTx : Type;
  tx_hash : SignedTx -> B256;
  tx_signer : SignedTx -> Address;
  (** [tx.to()]: the recipient of a call, none for a contract creation *)
  tx_to : SignedTx -> option Address;
  (** [tx.as_eip4844().map(|tx| tx.blob_gas())] *)
  tx_blob_gas : SignedTx -> option Z;
  (** [tx.effective_tip_per_gas(base_fee)] *)
  tx_effective_tip_per_gas : SignedTx -> option Z -> option Z;
  tx_type : SignedTx -> Z;
  (** [TransactionSigned::decode_enveloped] followed by [into_ecrecovered] *)
  RawTx : Type;
  decode_enveloped : Bytes -> option RawTx;
  into_ecrecovered : RawTx -> option SignedTx;
  (** [PooledTransactionsElement]: the pool's form of a transaction *)
  PooledRaw : Type;
  PooledTx : Type;
  pooled_decode_enveloped : Bytes -> option PooledRaw;
  pooled_try_into_ecrecovered : PooledRaw -> option PooledTx;
  pooled_hash : PooledTx -> B256;
  (** [reth::primitives::keccak256] *)
  keccak256 : Bytes -> B256;
}.

(** A toy instance, used to evaluate the models on concrete inputs: a
    transaction names its hash, signer, nonce, recipient, value, tip, gas and
    payment to the coinbase; decoding reads its hash from the bytes, and takes
    the last two digits for its signer. *)
Module Demo.
Record demo_tx := DemoTx {
  dt_hash : Z; dt_signer : Z; dt_nonce : Z; dt_to : option Z; dt_value : Z; dt_tip : Z;
  dt_gas : Z; dt_pay : Z; dt_blob : option Z; dt_ok : bool
}.

(** a transaction of a signer, by hash and nonce *)
Definition simple_tx (h signer nonce tip : Z) : demo_tx :=
  DemoTx h signer nonce None 0 tip 21000 0 None true.

Definition demo_decode (bs : Bytes) : option Z :=
  if bool_decide (length bs <= 32)%nat then Some (le_value bs) else None.

#[export] Instance demo_eth : EthTx := {|
  SignedTx := demo_tx;
  tx_hash := dt_hash;
  tx_signer := dt_signer;
  tx_to := dt_to;
  tx_blob_gas t := u64_wrap <$> dt_blob t;
  tx_effective_tip_per_gas t _ := Some (dt_tip t mod 2 ^ 128);
  tx_type _ := 2;
  RawTx := demo_tx;
  decode_enveloped bs := (fun z => simple_tx z (z mod 100) 0 1) <$> demo_decode bs;
  into_ecrecovered t := if dt_hash t =? 0 then None else Some t;
  PooledRaw := Z;
  PooledTx := Z;
  pooled_decode_enveloped := demo_decode;
  pooled_try_into_ecrecovered z := if z =? 0 then None else Some z;
  pooled_hash z := z;
  keccak256 bs := le_value bs mod 1000003;
|}.
End Demo.
