(* ===== verification/Bundle.v ===== *)
(** * Bundles

    Models [crates/bundles/src/bundle.rs] and the RPC request of
    [crates/primitives/src/rpc.rs]: the bundle record, its validity windows,
    the refund arithmetic and the recovery of its transactions. *)

From stdpp Require Import prelude list gmap.
From S2P Require Import Prelude Types.

Open Scope Z_scope.

(** [MAX_BUILDER_TRANSFER_GAS_LIMIT] of [primitives/src/build/mod.rs]. *)
Definition MAX_BUILDER_TRANSFER_GAS_LIMIT : Z := 32000.

(** ** Refund arguments *)

Record BundleRefund := {
  percent : Z;
  index : option nat;
  recipient : option Address;
}.

Definition BundleRefund_new (p : option Z) (i : option nat) (r : option Address)
  : option BundleRefund :=
  (fun p => {| percent := Z.min p 100; index := i; recipient := r |}) <$> p.

(** [refund_amount]: saturating arithmetic on 256 bits; the cost of the
    transfer is a product of two [u64]. *)
Definition refund_amount (self : BundleRefund) (fees coinbase_transfer base_fee : Z) : Z :=
  default 0
    (u256_checked_div
      (u256_saturating_mul
        (u256_saturating_sub
          (u256_saturating_add fees coinbase_transfer)
          (u64_mul MAX_BUILDER_TRANSFER_GAS_LIMIT base_fee))
        (percent self))
      100).

(** ** Bundles *)

Record EthSendBundle := {
  sb_txs : list Bytes;
  sb_block_number : Z;
  sb_min_timestamp : option Z;
  sb_max_timestamp : option Z;
  sb_reverting_tx_hashes : list B256;
  sb_replacement_uuid : option Uuid;
  sb_refund_percent : option Z;
  sb_refund_index : option nat;
  sb_refund_recipient : option Address;
}.

Record Bundle := {
  hash : B256;
  txs : list Bytes;
  block_number : Z;
  min_timestamp : option Z;
  max_timestamp : option Z;
  reverting_tx_hashes : list B256;
  replacement_uuid : option Uuid;
  refund : option BundleRefund;
}.

(** [impl From<(&EthSendBundle, B256)> for Bundle] *)
Definition Bundle_from (tuple : EthSendBundle * B256) : Bundle :=
  let '(b, h) := tuple in
  {| hash := h;
     txs := sb_txs b;
     block_number := sb_block_number b;
     min_timestamp := sb_min_timestamp b;
     max_timestamp := sb_max_timestamp b;
     reverting_tx_hashes := sb_reverting_tx_hashes b;
     replacement_uuid := sb_replacement_uuid b;
     refund := BundleRefund_new (sb_refund_percent b) (sb_refund_index b) (sb_refund_recipient b);
  |}.

Definition is_within_timestamp (self : Bundle) (timestamp : Z) : bool :=
  let is_above_min := is_none_or (min_timestamp self) (fun min_ts => timestamp >=? min_ts) in
  let is_below_max := is_none_or (max_timestamp self) (fun max_ts => timestamp <=? max_ts) in
  is_above_min && is_below_max.

Definition is_within_block_number (self : Bundle) (bn : Z) : bool :=
  bn =? block_number self.

Definition is_timestamp_out_of_bounds (self : Bundle) (timestamp : Z) : bool :=
  let is_before_min_ts := is_some_and (min_timestamp self) (fun min_ts => timestamp <? min_ts) in
  let is_after_max_ts := is_some_and (max_timestamp self) (fun max_ts => timestamp >? max_ts) in
  is_before_min_ts || is_after_max_ts.

Definition is_prunable (self : Bundle) (bn timestamp : Z) : bool :=
  is_timestamp_out_of_bounds self timestamp || (block_number self <? bn).

(** ** Recovered bundles *)

Section Recovered.
Context `{ET : EthTx}.

Record RecoveredBundle := {
  rb_txs : list SignedTx;
  rb_reverting_tx_hashes : list B256;
  rb_refund : option BundleRefund;
}.

Definition RecoveredBundle_new (bundle : Bundle) (ts : list SignedTx) : RecoveredBundle :=
  {| rb_txs := ts;
     rb_reverting_tx_hashes := reverting_tx_hashes bundle;
     rb_refund := refund bundle |}.

Definition recovered_tx_hashes (self : RecoveredBundle) : list B256 :=
  tx_hash <$> rb_txs self.

Definition is_refund_bundle (self : RecoveredBundle) : bool :=
  bool_decide (is_Some (rb_refund self)).

(** [self.txs.len().checked_sub(1)] *)
Definition last_index {A} (l : list A) : option nat :=
  match length l with O => None | S n => Some n end.

Definition refund_index (self : RecoveredBundle) : option nat :=
  match rb_refund self ≫= index with
  | Some i => Some i
  | None => last_index (rb_txs self)
  end.

Definition refund_recipient (self : RecoveredBundle) : option Address :=
  match rb_refund self ≫= recipient with
  | Some r => Some r
  | None => refund_index self ≫= fun i => tx_signer <$> (rb_txs self !! i)
  end.

(** One transaction of a bundle: decode the envelope, then recover the signer. *)
Definition recover_tx (tx : Bytes) : option SignedTx :=
  decode_enveloped tx ≫= into_ecrecovered.

(** [Bundle::recover_bundles]: a bundle with a transaction that does not
    recover is filtered out. *)
Definition recover_bundles (bundles : list Bundle) : list RecoveredBundle :=
  omap (fun b => RecoveredBundle_new b <$> mapM recover_tx (txs b)) bundles.

(** [Bundle::create_hash] *)
Definition create_hash (ts : list PooledTx) : B256 :=
  keccak256 (concat ((fun t => be_bytes 32 (pooled_hash t)) <$> ts)).
End Recovered.

(** ** Properties *)

(** The two window predicates of the code are each other's negation. *)
Lemma out_of_bounds_within b t :
  is_timestamp_out_of_bounds b t = negb (is_within_timestamp b t).
Proof.
  unfold is_timestamp_out_of_bounds, is_within_timestamp.
  destruct (min_timestamp b), (max_timestamp b); simpl; case_bools; simpl; lia || done.
Qed.

Lemma within_timestamp_spec b t :
  is_within_timestamp b t = true <->
  (forall m, min_timestamp b = Some m -> m <= t) /\ (forall m, max_timestamp b = Some m -> t <= m).
Proof.
  unfold is_within_timestamp.
  destruct (min_timestamp b), (max_timestamp b); simpl; case_bools; simpl;
    split; try done; intros; intuition (simplify_eq; try lia);
    repeat match goal with H : forall _, Some ?x = Some _ -> _ |- _ => specialize (H x eq_refl) end; lia.
Qed.

Lemma within_block_number_spec b bn :
  is_within_block_number b bn = true <-> block_number b = bn.
Proof. unfold is_within_block_number. rewrite Z.eqb_eq. split; congruence. Qed.

(** A bundle that can be served for a block and time is not prunable then. *)
Lemma servable_not_prunable b bn bn' t :
  is_within_block_number b bn = true -> is_within_timestamp b t = true -> bn' <= bn ->
  is_prunable b bn' t = false.
Proof.
  rewrite within_block_number_spec. intros <- Hw Hle. unfold is_prunable.
  rewrite out_of_bounds_within, Hw. simpl. lia.
Qed.

#[export] Hint Resolve servable_not_prunable : builder.
#[export] Hint Rewrite within_block_number_spec within_timestamp_spec : builder.

Lemma refund_amount_bounds_aux br fees cb base_fee :
  0 <= percent br <= 100 ->
  let cost := u64_mul MAX_BUILDER_TRANSFER_GAS_LIMIT base_fee in
  0 <= refund_amount br fees cb base_fee <= u256_saturating_sub (u256_saturating_add fees cb) cost.
Proof.
  intros Hp cost. unfold refund_amount, u256_checked_div. simpl. fold cost.
  assert (Hcost : is_u64 cost) by apply u64_wrap_range.
  set (v := u256_saturating_sub _ _).
  assert (Hv : 0 <= v) by (unfold v, u256_saturating_sub; lia).
  unfold u256_saturating_mul.
  assert (H1 : 0 <= Z.min (v * percent br) U256_MAX <= v * percent br)
    by (unfold U256_MAX; nia).
  split.
  - apply Z.div_pos; lia.
  - apply Z.div_le_upper_bound; nia.
Qed.

Section RecoveredProofs.
Context `{ET : EthTx}.

Lemma recover_bundles_elem (bs : list Bundle) (rb : RecoveredBundle) :
  rb ∈ recover_bundles bs <->
  exists b ts, b ∈ bs /\ Forall2 (fun raw t => recover_tx raw = Some t) (txs b) ts /\
    rb = RecoveredBundle_new b ts.
Proof.
  unfold recover_bundles. rewrite list_elem_of_omap. split.
  - intros (b & Hb & Hrb). destruct (mapM recover_tx (txs b)) as [ts|] eqn:Hm; simplify_eq/=.
    exists b, ts. split_and!; [done| |done]. by apply mapM_Some.
  - intros (b & ts & Hb & Hts & ->). exists b. split; [done|].
    apply mapM_Some in Hts. by rewrite Hts.
Qed.

Lemma recover_bundles_app (l k : list Bundle) :
  recover_bundles (l ++ k) = recover_bundles l ++ recover_bundles k.
Proof. apply omap_app. Qed.

(** the refund never exceeds what the refunded transaction paid, less the
    cost of the transfer that pays the refund; this for every percentage a
    request may carry. *)
Theorem refund_amount_bounded (p : Z) (i : option nat) (r : option Address)
    (br : BundleRefund) (fees cb base_fee : Z) :
  BundleRefund_new (Some p) i r = Some br -> 0 <= p ->
  is_u256 fees -> is_u256 cb -> 0 <= base_fee -> is_u64 (32000 * base_fee) ->
  0 <= refund_amount br fees cb base_fee <= Z.max 0 (fees + cb - 32000 * base_fee).
Proof.
  intros Hnew Hp Hf Hc Hb Hr. injection Hnew as <-.
  pose proof (refund_amount_bounds_aux {| percent := Z.min p 100; index := i; recipient := r |}
    fees cb base_fee ltac:(simpl; lia)) as Hb'. simpl in Hb'.
  unfold MAX_BUILDER_TRANSFER_GAS_LIMIT in *. rewrite u64_mul_small in Hb' by done.
  unfold u256_saturating_sub, u256_saturating_add in Hb'. lia.
Qed.
End RecoveredProofs.

(** ** Evaluation on concrete inputs *)

Definition sample_bundle (h bn : Z) (mn mx : option Z) (u : option Uuid) : Bundle :=
  {| hash := h; txs := []; block_number := bn; min_timestamp := mn; max_timestamp := mx;
     reverting_tx_hashes := []; replacement_uuid := u; refund := None |}.

Lemma refund_amount_bounded_witness :
  0 <= refund_amount {| percent := 80; index := None; recipient := None |} 37000 0 1
    <= Z.max 0 (37000 + 0 - 32000 * 1).
Proof.
  apply (refund_amount_bounded 80 None None); [reflexivity|lia|solve_range|solve_range|lia|solve_range].
Defined.
