(* ===== verification/BundlePool.v ===== *)
(** * The bundle pool

    Models [crates/bundles/src/inner.rs] (the indexed pool), [pool.rs] (the
    shared pool behind its lock) and [metrics.rs] (its counters), with an
    abstract specification of the pool and the proof that the indexed pool
    refines it. *)

From stdpp Require Import prelude list gmap relations.
From S2P Require Import Prelude Types Bundle.

Open Scope Z_scope.

(** ** [Index<K, V>]: a map from keys to lists of values *)

Abbreviation Index := (gmap Z (list B256)).

Definition index_insert (self : Index) (key : Z) (value : B256) : Index :=
  <[key := default [] (self !! key) ++ [value]]> self.

(** [values.retain(|v| v != &hash)] *)
Definition retain_ne (h : B256) (values : list B256) : list B256 :=
  filter (fun v => v <> h) values.

(** [values.retain(|hash| !removed_hashes.contains(hash))] *)
Definition retain_not_in (removed : list B256) (values : list B256) : list B256 :=
  filter (fun v => v ∉ removed) values.

(** ** [BundlePoolInner] *)

Record BundlePoolInner := {
  bundles_map : gmap B256 Bundle;
  block_number_index : Index;
  min_timestamp_index : Index;
  max_timestamp_index : Index;
  uuid_index : Index;
}.

Inductive PoolError := BundleNotFound | BundleReplacementFailed.

#[export] Instance PoolError_eq_dec : EqDecision PoolError.
Proof. solve_decision. Defined.

Definition BundlePoolInner_new : BundlePoolInner :=
  {| bundles_map := ∅; block_number_index := ∅; min_timestamp_index := ∅;
     max_timestamp_index := ∅; uuid_index := ∅ |}.

Definition inner_len (self : BundlePoolInner) : nat := size (bundles_map self).
Definition inner_is_empty (self : BundlePoolInner) : bool :=
  bool_decide (bundles_map self = ∅).

Definition get_by_block_and_ts (self : BundlePoolInner) (h : B256) (bn ts : Z) : option Bundle :=
  match bundles_map self !! h with
  | Some b => if is_within_timestamp b ts && is_within_block_number b bn then Some b else None
  | None => None
  end.

Definition inner_bundles (self : BundlePoolInner) (bn ts : Z) : list Bundle :=
  match block_number_index self !! bn with
  | Some hashes => omap (fun h => get_by_block_and_ts self h bn ts) hashes
  | None => []
  end.

(** [cancel_bundle]: the bundle leaves the map, the minimum timestamp index
    and the block number index. *)
Definition inner_cancel_bundle (self : BundlePoolInner) (h : B256)
  : BundlePoolInner * result PoolError unit :=
  match bundles_map self !! h with
  | Some b =>
      ({| bundles_map := delete h (bundles_map self);
          block_number_index := alter (retain_ne h) (block_number b) (block_number_index self);
          min_timestamp_index :=
            match min_timestamp b with
            | Some key => alter (retain_ne h) key (min_timestamp_index self)
            | None => min_timestamp_index self
            end;
          max_timestamp_index := max_timestamp_index self;
          uuid_index := uuid_index self |},
       Ok tt)
  | None => (self, Err BundleNotFound)
  end.

Definition find_by_uuid (self : BundlePoolInner) (u : Uuid) : option B256 :=
  uuid_index self !! u ≫= head.

Definition handle_replacement_uuid (self : BundlePoolInner) (u : Uuid) (h : B256)
  : BundlePoolInner * result PoolError unit :=
  match find_by_uuid self u with
  | Some h' =>
      let '(self', r) := inner_cancel_bundle self h' in
      (self', map_err (fun _ => BundleReplacementFailed) r)
  | None =>
      ({| bundles_map := bundles_map self;
          block_number_index := block_number_index self;
          min_timestamp_index := min_timestamp_index self;
          max_timestamp_index := max_timestamp_index self;
          uuid_index := index_insert (uuid_index self) u h |},
       Ok tt)
  end.

(** [add_bundle]: a failed replacement is logged and the bundle is added anyway. *)
Definition inner_add_bundle (self : BundlePoolInner) (b : Bundle) : BundlePoolInner * B256 :=
  let h := hash b in
  let self1 :=
    match replacement_uuid b with
    | Some u => fst (handle_replacement_uuid self u h)
    | None => self
    end in
  ({| bundles_map := <[h := b]> (bundles_map self1);
      block_number_index := index_insert (block_number_index self1) (block_number b) h;
      min_timestamp_index :=
        match min_timestamp b with
        | Some t => index_insert (min_timestamp_index self1) t h
        | None => min_timestamp_index self1
        end;
      max_timestamp_index :=
        match max_timestamp b with
        | Some t => index_insert (max_timestamp_index self1) t h
        | None => max_timestamp_index self1
        end;
      uuid_index := uuid_index self1 |},
   h).

(** [prune]: returns the number of bundles removed and the number left. *)
Definition inner_prune (self : BundlePoolInner) (bn ts : Z) : BundlePoolInner * (nat * nat) :=
  let removed_hashes :=
    (filter (fun kv => is_prunable kv.2 bn ts = true) (map_to_list (bundles_map self))).*1 in
  let kept := filter (fun kv => is_prunable kv.2 bn ts = false) (bundles_map self) in
  ({| bundles_map := kept;
      block_number_index := retain_not_in removed_hashes <$> block_number_index self;
      min_timestamp_index := retain_not_in removed_hashes <$> min_timestamp_index self;
      max_timestamp_index := retain_not_in removed_hashes <$> max_timestamp_index self;
      uuid_index := retain_not_in removed_hashes <$> uuid_index self |},
   (length removed_hashes, size kept)).

(** ** [BundlePool]: the pool behind its lock, with its counters

    Acquiring the lock within the timeout is an input of each operation
    ([locked]); when it fails the inner pool is not touched. *)

Record BundlePoolMetrics := {
  successful_bundles_added : Z;
  failed_bundles_added : Z;
  successful_bundles_cancelled : Z;
  failed_bundles_cancelled : Z;
  prunes : Z;
  pruned_bundles : Z;
  bundle_pool_size : Z;
  successful_send_bundle_rpc_requests : Z;
  failed_send_bundle_rpc_requests : Z;
}.

Definition metrics_default : BundlePoolMetrics :=
  {| successful_bundles_added := 0; failed_bundles_added := 0;
     successful_bundles_cancelled := 0; failed_bundles_cancelled := 0;
     prunes := 0; pruned_bundles := 0; bundle_pool_size := 0;
     successful_send_bundle_rpc_requests := 0; failed_send_bundle_rpc_requests := 0 |}.

Definition inc_bundles_added (m : BundlePoolMetrics) (success : bool) : BundlePoolMetrics :=
  {| successful_bundles_added := successful_bundles_added m + (if success then 1 else 0);
     failed_bundles_added := failed_bundles_added m + (if success then 0 else 1);
     successful_bundles_cancelled := successful_bundles_cancelled m;
     failed_bundles_cancelled := failed_bundles_cancelled m;
     prunes := prunes m; pruned_bundles := pruned_bundles m;
     bundle_pool_size := bundle_pool_size m;
     successful_send_bundle_rpc_requests := successful_send_bundle_rpc_requests m;
     failed_send_bundle_rpc_requests := failed_send_bundle_rpc_requests m |}.

Definition inc_bundles_cancelled (m : BundlePoolMetrics) (success : bool) : BundlePoolMetrics :=
  {| successful_bundles_added := successful_bundles_added m;
     failed_bundles_added := failed_bundles_added m;
     successful_bundles_cancelled := successful_bundles_cancelled m + (if success then 1 else 0);
     failed_bundles_cancelled := failed_bundles_cancelled m + (if success then 0 else 1);
     prunes := prunes m; pruned_bundles := pruned_bundles m;
     bundle_pool_size := bundle_pool_size m;
     successful_send_bundle_rpc_requests := successful_send_bundle_rpc_requests m;
     failed_send_bundle_rpc_requests := failed_send_bundle_rpc_requests m |}.

(** [inc_prunes], [inc_pruned_bundles(removed)], [set_bundle_pool_size(len)] *)
Definition record_prune (m : BundlePoolMetrics) (removed len : nat) : BundlePoolMetrics :=
  {| successful_bundles_added := successful_bundles_added m;
     failed_bundles_added := failed_bundles_added m;
     successful_bundles_cancelled := successful_bundles_cancelled m;
     failed_bundles_cancelled := failed_bundles_cancelled m;
     prunes := prunes m + 1;
     pruned_bundles := pruned_bundles m + Z.of_nat removed;
     bundle_pool_size := Z.of_nat len;
     successful_send_bundle_rpc_requests := successful_send_bundle_rpc_requests m;
     failed_send_bundle_rpc_requests := failed_send_bundle_rpc_requests m |}.

(** [inc_send_bundle_rpc_success] and [inc_send_bundle_rpc_failure] *)
Definition inc_send_bundle_rpc (m : BundlePoolMetrics) (success : bool) : BundlePoolMetrics :=
  {| successful_bundles_added := successful_bundles_added m;
     failed_bundles_added := failed_bundles_added m;
     successful_bundles_cancelled := successful_bundles_cancelled m;
     failed_bundles_cancelled := failed_bundles_cancelled m;
     prunes := prunes m; pruned_bundles := pruned_bundles m;
     bundle_pool_size := bundle_pool_size m;
     successful_send_bundle_rpc_requests :=
       successful_send_bundle_rpc_requests m + (if success then 1 else 0);
     failed_send_bundle_rpc_requests :=
       failed_send_bundle_rpc_requests m + (if success then 0 else 1) |}.

Record BundlePool := {
  inner : BundlePoolInner;
  metrics : BundlePoolMetrics;
}.

Definition BundlePool_new : BundlePool :=
  {| inner := BundlePoolInner_new; metrics := metrics_default |}.

Definition pool_add_bundle (locked : bool) (self : BundlePool) (b : Bundle)
  : BundlePool * option B256 :=
  if locked then
    let '(i, h) := inner_add_bundle (inner self) b in
    ({| inner := i; metrics := inc_bundles_added (metrics self) true |}, Some h)
  else ({| inner := inner self; metrics := inc_bundles_added (metrics self) false |}, None).

Definition pool_len (locked : bool) (self : BundlePool) : option nat :=
  if locked then Some (inner_len (inner self)) else None.

Definition pool_is_empty (locked : bool) (self : BundlePool) : option bool :=
  if locked then Some (inner_is_empty (inner self)) else None.

Definition pool_bundles (locked : bool) (self : BundlePool) (bn ts : Z) : option (list Bundle) :=
  if locked then Some (inner_bundles (inner self) bn ts) else None.

Definition pool_cancel_bundle (locked : bool) (self : BundlePool) (h : B256)
  : BundlePool * option (result PoolError unit) :=
  if locked then
    let '(i, r) := inner_cancel_bundle (inner self) h in
    ({| inner := i; metrics := inc_bundles_cancelled (metrics self) true |}, Some r)
  else ({| inner := inner self; metrics := inc_bundles_cancelled (metrics self) false |}, None).

Definition pool_prune (locked : bool) (self : BundlePool) (bn ts : Z) : BundlePool :=
  if locked then
    let '(i, (removed, len)) := inner_prune (inner self) bn ts in
    {| inner := i; metrics := record_prune (metrics self) removed len |}
  else self.

(** ** Operations as data, and runs of the pool *)

Inductive pool_op :=
| OpAdd (b : Bundle)
| OpCancel (h : B256)
| OpPrune (bn ts : Z).

Definition pool_step (self : BundlePoolInner) (op : pool_op) : BundlePoolInner :=
  match op with
  | OpAdd b => fst (inner_add_bundle self b)
  | OpCancel h => fst (inner_cancel_bundle self h)
  | OpPrune bn ts => fst (inner_prune self bn ts)
  end.

Definition pool_run (self : BundlePoolInner) (ops : list pool_op) : BundlePoolInner :=
  foldl pool_step self ops.

(** ** Abstract specification

    The pool is a finite map from hashes to bundles, and a finite map from
    replacement identifiers to the hash that first claimed them.  A query is
    a filter of the map: no index appears. *)

Record PoolSpec := {
  sp_bundles : gmap B256 Bundle;
  sp_claims : gmap Uuid B256;
}.

Definition spec_new : PoolSpec := {| sp_bundles := ∅; sp_claims := ∅ |}.

Definition spec_query (sp : PoolSpec) (bn ts : Z) (b : Bundle) : Prop :=
  sp_bundles sp !! hash b = Some b /\ block_number b = bn /\ is_within_timestamp b ts = true.

Definition spec_step (sp : PoolSpec) (op : pool_op) : PoolSpec :=
  match op with
  | OpAdd b =>
      let claimed := replacement_uuid b ≫= fun u => sp_claims sp !! u in
      {| sp_bundles :=
           <[hash b := b]>
             (match claimed with
              | Some h => delete h (sp_bundles sp)
              | None => sp_bundles sp
              end);
         sp_claims :=
           match replacement_uuid b, claimed with
           | Some u, None => <[u := hash b]> (sp_claims sp)
           | _, _ => sp_claims sp
           end |}
  | OpCancel h => {| sp_bundles := delete h (sp_bundles sp); sp_claims := sp_claims sp |}
  | OpPrune bn ts =>
      {| sp_bundles := filter (fun kv => is_prunable kv.2 bn ts = false) (sp_bundles sp);
         sp_claims :=
           filter (fun uh => is_some_and (sp_bundles sp !! uh.2)
                               (fun b => is_prunable b bn ts) = false) (sp_claims sp) |}
  end.

Definition spec_run (sp : PoolSpec) (ops : list pool_op) : PoolSpec := foldl spec_step sp ops.

(** ** Invariants *)

(** Every stored bundle is stored under its own hash and listed under its
    block number. *)
Definition pool_wf (s : BundlePoolInner) : Prop :=
  forall h b, bundles_map s !! h = Some b ->
    hash b = h /\ h ∈ default [] (block_number_index s !! block_number b).

(** Every identifier was claimed by at most one hash. *)
Definition claims_wf (s : BundlePoolInner) : Prop :=
  forall u, (length (default [] (uuid_index s !! u)) <= 1)%nat.

(** Every listed hash is stored under that block number, and listed once. *)
Definition index_exact (s : BundlePoolInner) : Prop :=
  forall bn, NoDup (default [] (block_number_index s !! bn)) /\
    forall h, h ∈ default [] (block_number_index s !! bn) ->
      exists b, bundles_map s !! h = Some b /\ block_number b = bn.

(** The refinement relation between the indexed pool and its specification. *)
Definition pool_refines (s : BundlePoolInner) (sp : PoolSpec) : Prop :=
  pool_wf s /\ claims_wf s /\ sp_bundles sp = bundles_map s /\
  forall u, sp_claims sp !! u = find_by_uuid s u.

(** An addition is fresh when its hash is not stored at that moment. *)
Fixpoint fresh_adds (s : BundlePoolInner) (ops : list pool_op) : Prop :=
  match ops with
  | [] => True
  | op :: ops' =>
      match op with OpAdd b => bundles_map s !! hash b = None | _ => True end /\
      fresh_adds (pool_step s op) ops'
  end.

(** ** Index lemmas *)

Lemma index_insert_lookup (m : Index) k v k' :
  default [] (index_insert m k v !! k') =
  default [] (m !! k') ++ (if decide (k = k') then [v] else []).
Proof.
  unfold index_insert. rewrite lookup_insert. case_decide; subst; simpl; [done|].
  by rewrite app_nil_r.
Qed.

Lemma retain_ne_lookup h k (m : Index) k' :
  default [] (alter (retain_ne h) k m !! k') =
  (if decide (k = k') then retain_ne h (default [] (m !! k')) else default [] (m !! k')).
Proof.
  rewrite lookup_alter. case_decide; subst; [|done]. by destruct (m !! k').
Qed.

Lemma retain_not_in_lookup r (m : Index) k :
  default [] ((retain_not_in r <$> m) !! k) = retain_not_in r (default [] (m !! k)).
Proof. rewrite lookup_fmap. by destruct (m !! k). Qed.

Lemma elem_of_retain_ne h h' l : h' ∈ retain_ne h l <-> h' <> h /\ h' ∈ l.
Proof. unfold retain_ne. by rewrite list_elem_of_filter. Qed.

Lemma elem_of_retain_not_in r h l : h ∈ retain_not_in r l <-> h ∉ r /\ h ∈ l.
Proof. unfold retain_not_in. by rewrite list_elem_of_filter. Qed.

Lemma removed_hashes_spec (m : gmap B256 Bundle) bn ts h :
  h ∈ (filter (fun kv => is_prunable kv.2 bn ts = true) (map_to_list m)).*1 <->
  exists b, m !! h = Some b /\ is_prunable b bn ts = true.
Proof.
  rewrite list_elem_of_fmap. split.
  - intros ([h' b] & -> & Hf). apply list_elem_of_filter in Hf as [Hp Hin].
    apply elem_of_map_to_list in Hin. eauto.
  - intros (b & Hb & Hp). exists (h, b). split; [done|].
    apply list_elem_of_filter. split; [done|]. by apply elem_of_map_to_list.
Qed.

#[export] Hint Rewrite index_insert_lookup retain_ne_lookup retain_not_in_lookup
  @elem_of_app elem_of_retain_ne elem_of_retain_not_in removed_hashes_spec : pool.

(** ** Preservation *)

Lemma cancel_lookup s h h' :
  bundles_map (fst (inner_cancel_bundle s h)) !! h' =
  if decide (h = h') then None else bundles_map s !! h'.
Proof.
  unfold inner_cancel_bundle. destruct (bundles_map s !! h) eqn:E; simpl.
  - rewrite lookup_delete. done.
  - case_decide; congruence.
Qed.

Lemma cancel_uuid s h : uuid_index (fst (inner_cancel_bundle s h)) = uuid_index s.
Proof. unfold inner_cancel_bundle. by destruct (bundles_map s !! h). Qed.

Lemma cancel_wf s h : pool_wf s -> pool_wf (fst (inner_cancel_bundle s h)).
Proof.
  intros Hwf h' b' Hb'. rewrite cancel_lookup in Hb'. case_decide; [done|].
  destruct (Hwf _ _ Hb') as [-> Hin]. split; [done|].
  unfold inner_cancel_bundle. destruct (bundles_map s !! h); [simpl|done].
  autorewrite with pool. case_decide; [|done]. autorewrite with pool. auto.
Qed.

Lemma cancel_exact s h : pool_wf s -> index_exact s -> index_exact (fst (inner_cancel_bundle s h)).
Proof.
  intros Hwf Hex bn. destruct (Hex bn) as [Hnd Hst].
  unfold inner_cancel_bundle. destruct (bundles_map s !! h) as [b|] eqn:E; [simpl|done].
  destruct (Hwf _ _ E) as [Hh Hin].
  rewrite retain_ne_lookup. case_decide as Hbn; subst.
  - split; [by apply NoDup_filter|]. intros h' [Hne Hh']%elem_of_retain_ne.
    rewrite lookup_delete_ne by done. auto.
  - split; [done|]. intros h' Hh'. rewrite lookup_delete_ne; [auto|].
    intros <-. destruct (Hst _ Hh') as (b' & Hb' & <-). simplify_eq.
Qed.

(** The pool a new bundle is inserted into: after the replacement step. *)
Definition after_replacement (s : BundlePoolInner) (b : Bundle) : BundlePoolInner :=
  match replacement_uuid b with
  | Some u => fst (handle_replacement_uuid s u (hash b))
  | None => s
  end.

Lemma replacement_cases s b (P : BundlePoolInner -> Prop) :
  (forall u h, replacement_uuid b = Some u -> find_by_uuid s u = Some h ->
     P (fst (inner_cancel_bundle s h))) ->
  (forall u, replacement_uuid b = Some u -> find_by_uuid s u = None ->
     P {| bundles_map := bundles_map s; block_number_index := block_number_index s;
          min_timestamp_index := min_timestamp_index s;
          max_timestamp_index := max_timestamp_index s;
          uuid_index := index_insert (uuid_index s) u (hash b) |}) ->
  (replacement_uuid b = None -> P s) ->
  P (after_replacement s b).
Proof.
  intros H1 H2 H3. unfold after_replacement, handle_replacement_uuid.
  destruct (replacement_uuid b) as [u|] eqn:Hu; [|by apply H3].
  destruct (find_by_uuid s u) as [h|] eqn:E; [|by apply (H2 u)].
  specialize (H1 _ _ eq_refl E). by destruct (inner_cancel_bundle s h).
Qed.

Lemma after_replacement_wf s b : pool_wf s -> pool_wf (after_replacement s b).
Proof. intros H. apply replacement_cases; auto using cancel_wf. Qed.

Lemma after_replacement_exact s b :
  pool_wf s -> index_exact s -> index_exact (after_replacement s b).
Proof. intros H H'. apply replacement_cases; auto using cancel_exact. Qed.

Lemma after_replacement_fresh s b h :
  bundles_map s !! h = None -> bundles_map (after_replacement s b) !! h = None.
Proof.
  intros H. apply (replacement_cases s b (fun s' => bundles_map s' !! h = None)); auto.
  intros u h' _ _. rewrite cancel_lookup. by case_decide.
Qed.

Lemma add_eq s b :
  fst (inner_add_bundle s b) =
  {| bundles_map := <[hash b := b]> (bundles_map (after_replacement s b));
     block_number_index :=
       index_insert (block_number_index (after_replacement s b)) (block_number b) (hash b);
     min_timestamp_index :=
       match min_timestamp b with
       | Some t => index_insert (min_timestamp_index (after_replacement s b)) t (hash b)
       | None => min_timestamp_index (after_replacement s b)
       end;
     max_timestamp_index :=
       match max_timestamp b with
       | Some t => index_insert (max_timestamp_index (after_replacement s b)) t (hash b)
       | None => max_timestamp_index (after_replacement s b)
       end;
     uuid_index := uuid_index (after_replacement s b) |}.
Proof. done. Qed.

Lemma add_wf s b : pool_wf s -> pool_wf (fst (inner_add_bundle s b)).
Proof.
  intros Hwf%(after_replacement_wf s b) h b'. rewrite add_eq. simpl.
  rewrite lookup_insert. intros Hb'. autorewrite with pool.
  case_decide; simplify_eq.
  - split; [done|]. rewrite decide_True by done. set_solver.
  - destruct (Hwf _ _ Hb'). split; [done|]. by left.
Qed.

Lemma add_exact s b :
  pool_wf s -> index_exact s -> bundles_map s !! hash b = None ->
  index_exact (fst (inner_add_bundle s b)).
Proof.
  intros Hwf Hex Hf bn. rewrite add_eq. simpl.
  pose proof (after_replacement_fresh s b _ Hf) as Hf'.
  destruct (after_replacement_exact s b Hwf Hex bn) as [Hnd Hst].
  rewrite index_insert_lookup. case_decide as Hbn; subst; rewrite ?app_nil_r.
  - split.
    + apply NoDup_app. split_and!; [done| |apply NoDup_singleton].
      intros h Hh ->%list_elem_of_singleton. destruct (Hst _ Hh). naive_solver.
    + intros h. rewrite elem_of_app, list_elem_of_singleton. intros [Hh| ->].
      * rewrite lookup_insert_ne; [auto|]. intros <-. destruct (Hst _ Hh). naive_solver.
      * exists b. by rewrite lookup_insert_eq.
  - split; [done|]. intros h Hh. rewrite lookup_insert_ne; [auto|].
    intros <-. destruct (Hst _ Hh). naive_solver.
Qed.

Lemma prune_lookup s bn ts h b :
  bundles_map (fst (inner_prune s bn ts)) !! h = Some b <->
  bundles_map s !! h = Some b /\ is_prunable b bn ts = false.
Proof. simpl. by rewrite map_lookup_filter_Some. Qed.

Lemma prune_wf s bn ts : pool_wf s -> pool_wf (fst (inner_prune s bn ts)).
Proof.
  intros Hwf h b [Hb Hp]%prune_lookup. destruct (Hwf _ _ Hb) as [Hh Hin].
  split; [done|]. simpl. autorewrite with pool. split; [|done].
  intros (b' & Hb' & Hp'). congruence.
Qed.

Lemma prune_exact s bn ts : index_exact s -> index_exact (fst (inner_prune s bn ts)).
Proof.
  intros Hex bn'. destruct (Hex bn') as [Hnd Hst]. simpl. rewrite retain_not_in_lookup.
  split; [by apply NoDup_filter|]. intros h. autorewrite with pool. intros [Hr Hh].
  destruct (Hst _ Hh) as (b & Hb & Hbn). exists b. split; [|done].
  apply prune_lookup. split; [done|]. apply not_true_is_false. eauto.
Qed.

Lemma step_wf s op : pool_wf s -> pool_wf (pool_step s op).
Proof. intros H. by destruct op; [apply add_wf | apply cancel_wf | apply prune_wf]. Qed.

Lemma run_wf s ops : pool_wf s -> pool_wf (pool_run s ops).
Proof. revert s. induction ops; intros s Hs; simpl; auto using step_wf. Qed.

Lemma new_wf : pool_wf BundlePoolInner_new.
Proof. intros h b H. by destruct (lookup_empty_Some (M := gmap Z) h b). Qed.

Lemma new_exact : index_exact BundlePoolInner_new.
Proof. intros bn. cbn. split; [constructor|]. by intros h ?%elem_of_nil. Qed.

Lemma run_exact s ops :
  pool_wf s -> index_exact s -> fresh_adds s ops -> index_exact (pool_run s ops).
Proof.
  revert s. induction ops as [|op ops IH]; intros s Hwf Hex Hfr; [done|].
  simpl in *. destruct Hfr as [Hf Hfr]. apply IH; [by apply step_wf| |done].
  destruct op; [by apply add_exact | by apply cancel_exact | by apply prune_exact].
Qed.

(** ** Queries *)

Lemma get_by_block_and_ts_Some s h bn ts b :
  get_by_block_and_ts s h bn ts = Some b <->
  bundles_map s !! h = Some b /\ block_number b = bn /\ is_within_timestamp b ts = true.
Proof.
  unfold get_by_block_and_ts. destruct (bundles_map s !! h) as [b'|]; [|naive_solver].
  destruct (is_within_timestamp b' ts) eqn:Ht, (is_within_block_number b' bn) eqn:Hb; simpl;
    rewrite <- ?not_true_iff_false, ?within_block_number_spec in *; naive_solver.
Qed.

Lemma inner_bundles_default s bn ts :
  inner_bundles s bn ts =
  omap (fun h => get_by_block_and_ts s h bn ts) (default [] (block_number_index s !! bn)).
Proof. unfold inner_bundles. by destruct (block_number_index s !! bn). Qed.

Lemma inner_bundles_elem s bn ts b :
  pool_wf s ->
  b ∈ inner_bundles s bn ts <->
  bundles_map s !! hash b = Some b /\ block_number b = bn /\ is_within_timestamp b ts = true.
Proof.
  intros Hwf. rewrite inner_bundles_default, list_elem_of_omap. split.
  - intros (h & Hh & Hb). apply get_by_block_and_ts_Some in Hb as (Hb & Hbn & Ht).
    destruct (Hwf _ _ Hb) as [-> _]. done.
  - intros (Hb & Hbn & Ht). exists (hash b). split.
    + destruct (Hwf _ _ Hb) as [_ Hin]. by rewrite Hbn in Hin.
    + by apply get_by_block_and_ts_Some.
Qed.

Lemma inner_bundles_NoDup s bn ts :
  pool_wf s -> index_exact s -> NoDup (inner_bundles s bn ts).
Proof.
  intros Hwf Hex. rewrite inner_bundles_default. destruct (Hex bn) as [Hnd _].
  induction Hnd as [|h l Hh Hnd IH]; csimpl; [constructor|].
  destruct (get_by_block_and_ts s h bn ts) as [b|] eqn:E; [|done].
  constructor; [|done]. rewrite list_elem_of_omap. intros (h' & Hh' & E').
  apply get_by_block_and_ts_Some in E as [E _], E' as [E' _].
  destruct (Hwf _ _ E), (Hwf _ _ E'). congruence.
Qed.

(** ** The refinement *)

Lemma find_by_uuid_default s u :
  find_by_uuid s u = head (default [] (uuid_index s !! u)).
Proof. unfold find_by_uuid. by destruct (uuid_index s !! u). Qed.

Lemma claims_new : claims_wf BundlePoolInner_new.
Proof. intros u. change (0 <= 1)%nat. lia. Qed.

Lemma refines_new : pool_refines BundlePoolInner_new spec_new.
Proof. split_and!; [apply new_wf | apply claims_new | done | done]. Qed.

Lemma refines_cancel s sp h :
  pool_refines s sp -> pool_refines (pool_step s (OpCancel h)) (spec_step sp (OpCancel h)).
Proof.
  intros (Hwf & Hcl & Hm & Hu). simpl pool_step. split_and!.
  - by apply cancel_wf.
  - unfold claims_wf. by rewrite cancel_uuid.
  - apply map_eq. intros h'. rewrite cancel_lookup. simpl. rewrite Hm, lookup_delete. done.
  - intros u. unfold find_by_uuid. rewrite cancel_uuid. apply Hu.
Qed.

Lemma refines_prune s sp bn ts :
  pool_refines s sp -> pool_refines (pool_step s (OpPrune bn ts)) (spec_step sp (OpPrune bn ts)).
Proof.
  intros (Hwf & Hcl & Hm & Hu). simpl pool_step. split_and!.
  - by apply prune_wf.
  - intros u. simpl. rewrite retain_not_in_lookup. unfold retain_not_in.
    etrans; [apply length_filter|apply Hcl].
  - simpl. by rewrite Hm.
  - intros u. specialize (Hu u). specialize (Hcl u). simpl.
    rewrite find_by_uuid_default in *. simpl. rewrite retain_not_in_lookup.
    rewrite map_lookup_filter, Hu, Hm. unfold retain_not_in.
    destruct (default [] (uuid_index s !! u)) as [|h [|h' l]]; simpl in *; [done| |lia].
    rewrite filter_cons, filter_nil. case_decide as Hr; rewrite removed_hashes_spec in Hr;
      destruct (bundles_map s !! h) as [b|]; simpl; try case_guard as Hg; try done; exfalso;
      [apply Hr; exists b; by destruct (is_prunable b bn ts) | by destruct Hr as (? & [= <-] & ?); congruence
      | by destruct Hr as (? & ? & ?)].
Qed.

Lemma refines_add s sp b :
  pool_refines s sp -> pool_refines (pool_step s (OpAdd b)) (spec_step sp (OpAdd b)).
Proof.
  intros (Hwf & Hcl & Hm & Hu).
  change (pool_step s (OpAdd b)) with (fst (inner_add_bundle s b)).
  split; [by apply add_wf|]. rewrite add_eq. unfold after_replacement, handle_replacement_uuid. simpl.
  destruct (replacement_uuid b) as [u|]; simpl; [|by rewrite Hm].
  rewrite Hu. destruct (find_by_uuid s u) as [h|] eqn:Hf; simpl.
  - pose proof (cancel_uuid s h) as Hcu. pose proof (cancel_lookup s h) as Hcm.
    destruct (inner_cancel_bundle s h) as [s' r]. simpl in *. split_and!.
    + unfold claims_wf. simpl. by rewrite Hcu.
    + f_equal. apply map_eq. intros h'. by rewrite Hcm, Hm, lookup_delete.
    + intros u'. unfold find_by_uuid. simpl. rewrite Hcu. apply Hu.
  - assert (Hnil : default [] (uuid_index s !! u) = []).
    { rewrite find_by_uuid_default in Hf. by destruct (default [] (uuid_index s !! u)). }
    split_and!.
    + intros u'. simpl. rewrite index_insert_lookup. case_decide; subst.
      * rewrite Hnil. simpl. lia.
      * rewrite app_nil_r. apply Hcl.
    + by rewrite Hm.
    + intros u'. rewrite find_by_uuid_default. simpl.
      rewrite index_insert_lookup, lookup_insert. case_decide; subst.
      * by rewrite Hnil.
      * by rewrite app_nil_r, Hu, find_by_uuid_default.
Qed.

Lemma refines_run s sp ops :
  pool_refines s sp -> pool_refines (pool_run s ops) (spec_run sp ops).
Proof.
  revert s sp. induction ops as [|op ops IH]; intros s sp H; [done|].
  simpl. apply IH. destruct op; [by apply refines_add|by apply refines_cancel|by apply refines_prune].
Qed.

Lemma query_refines s sp bn ts b :
  pool_refines s sp -> b ∈ inner_bundles s bn ts <-> spec_query sp bn ts b.
Proof.
  intros (Hwf & _ & Hm & _). rewrite inner_bundles_elem by done. unfold spec_query. by rewrite Hm.
Qed.

Lemma prune_size s bn ts :
  let '(removed, len) := snd (inner_prune s bn ts) in
  len = size (bundles_map (fst (inner_prune s bn ts))) /\
  (removed + len = size (bundles_map s))%nat.
Proof.
  simpl. split; [done|]. rewrite length_fmap, size_filter_map, <- length_map_to_list.
  induction (map_to_list (bundles_map s)) as [|[h b] l IH]; [done|].
  rewrite !filter_cons. simpl.
  destruct (is_prunable b bn ts); repeat case_decide; simpl in *; try done; lia.
Qed.

Lemma spec_add_unclaimed sp b u :
  replacement_uuid b = Some u -> sp_claims sp !! u = None ->
  spec_step sp (OpAdd b) =
  {| sp_bundles := <[hash b := b]> (sp_bundles sp); sp_claims := <[u := hash b]> (sp_claims sp) |}.
Proof. intros Hu Hc. unfold spec_step. by rewrite Hu; simpl; rewrite Hc. Qed.

Lemma spec_add_claimed sp b u h :
  replacement_uuid b = Some u -> sp_claims sp !! u = Some h ->
  spec_step sp (OpAdd b) =
  {| sp_bundles := <[hash b := b]> (delete h (sp_bundles sp)); sp_claims := sp_claims sp |}.
Proof. intros Hu Hc. unfold spec_step. by rewrite Hu; simpl; rewrite Hc. Qed.

(** ** The pool, as its users see it *)

(** C3: refinement of the abstract pool.  After any sequence of additions,
    cancellations and prunes, a query of the indexed pool returns exactly the
    bundles the abstract pool holds for that block and time. *)
Theorem pool_query_refines (ops : list pool_op) (bn ts : Z) (b : Bundle) :
  b ∈ inner_bundles (pool_run BundlePoolInner_new ops) bn ts <->
  spec_query (spec_run spec_new ops) bn ts b.
Proof. apply query_refines, refines_run, refines_new. Qed.

(** when no addition reuses the hash of a stored bundle, a query lists
    every bundle at most once. *)
Theorem pool_query_no_duplicates (ops : list pool_op) (bn ts : Z) :
  fresh_adds BundlePoolInner_new ops ->
  NoDup (inner_bundles (pool_run BundlePoolInner_new ops) bn ts).
Proof.
  intros Hf. apply inner_bundles_NoDup.
  - apply run_wf, new_wf.
  - apply run_exact; auto using new_wf, new_exact.
Qed.

(** cancelling succeeds exactly on stored bundles; afterwards the cancelled
    hash is never served, every other bundle is served as before, and a failed
    cancellation changes nothing. *)
Theorem cancel_bundle_correct (ops : list pool_op) (h : B256) :
  let s := pool_run BundlePoolInner_new ops in
  let '(s', r) := inner_cancel_bundle s h in
  (r = Ok tt <-> is_Some (bundles_map s !! h)) /\
  (r <> Ok tt -> r = Err BundleNotFound /\ s' = s) /\
  (forall bn ts b, b ∈ inner_bundles s' bn ts <-> b ∈ inner_bundles s bn ts /\ hash b <> h).
Proof.
  intros s. assert (Hwf : pool_wf s) by apply run_wf, new_wf.
  pose proof (cancel_wf s h Hwf) as Hwf'. pose proof (cancel_lookup s h) as Hl.
  unfold inner_cancel_bundle in *. destruct (bundles_map s !! h) as [b0|] eqn:E; simpl in *.
  - split_and!; [done|done|]. intros bn ts b. rewrite !inner_bundles_elem by done. simpl.
    rewrite lookup_delete. case_decide; naive_solver.
  - split_and!; [split; [done|by intros []]|done|]. intros bn ts b.
    rewrite !inner_bundles_elem by done. naive_solver.
Qed.

(** C25: pruning removes exactly the prunable bundles, reports how many left and
    how many stay, and keeps serving every bundle of a current or later block
    whose window contains the pruning time. *)
Theorem prune_correct (ops : list pool_op) (bn ts : Z) :
  let s := pool_run BundlePoolInner_new ops in
  let '(s', (removed, len)) := inner_prune s bn ts in
  (forall h b, bundles_map s' !! h = Some b <->
     bundles_map s !! h = Some b /\ is_prunable b bn ts = false) /\
  len = size (bundles_map s') /\ (removed + len = size (bundles_map s))%nat /\
  (forall bn' b, bn <= bn' -> b ∈ inner_bundles s bn' ts -> b ∈ inner_bundles s' bn' ts).
Proof.
  intros s. assert (Hwf : pool_wf s) by apply run_wf, new_wf.
  pose proof (prune_wf s bn ts Hwf) as Hwf'. pose proof (prune_lookup s bn ts) as Hl.
  pose proof (prune_size s bn ts) as Hs.
  destruct (inner_prune s bn ts) as [s' [removed len]]. simpl in *.
  split_and!; [exact Hl|apply Hs|apply Hs|].
  intros bn' b Hle. rewrite !inner_bundles_elem, Hl by done. intros (Hb & Hbn & Ht).
  split_and!; [done| |done|done]. apply (servable_not_prunable b bn'); [|done|done].
  by apply within_block_number_spec.
Qed.

(** a replacement identifier replaces only once.  The identifier stays
    bound to the first hash that claimed it, so the third bundle sent under one
    identifier does not replace the second: both are served. *)
Theorem replacement_uuid_replaces_once (b1 b2 b3 : Bundle) (u bn ts : Z) :
  replacement_uuid b1 = Some u -> replacement_uuid b2 = Some u -> replacement_uuid b3 = Some u ->
  hash b1 <> hash b2 -> hash b1 <> hash b3 -> hash b2 <> hash b3 ->
  block_number b2 = bn -> is_within_timestamp b2 ts = true ->
  let s := pool_run BundlePoolInner_new [OpAdd b1; OpAdd b2; OpAdd b3] in
  b2 ∈ inner_bundles s bn ts /\ b1 ∉ inner_bundles s (block_number b1) ts.
Proof.
  intros H1 H2 H3 N12 N13 N23 Hbn Hts s.
  pose proof (refines_run _ _ [OpAdd b1; OpAdd b2; OpAdd b3] refines_new) as R.
  cbn [spec_run foldl] in R.
  rewrite (spec_add_unclaimed spec_new b1 u) in R by done.
  rewrite (spec_add_claimed _ b2 u (hash b1)), (spec_add_claimed _ b3 u (hash b1)) in R
    by (done || simpl; by rewrite lookup_insert_eq).
  simpl in R. unfold s. rewrite !(query_refines _ _ _ _ _ R). unfold spec_query. simpl.
  split.
  - by rewrite lookup_insert_ne, lookup_delete_ne, lookup_insert_eq by done.
  - rewrite lookup_insert_ne, lookup_delete_eq by done. by intros (? & _).
Qed.

(** the pool keys bundles by the hash of their transactions, so a bundle
    sent again for another block takes the place of the first: the earlier
    block loses its bundle. *)
Theorem resubmission_drops_earlier_block (s : BundlePoolInner) (b1 b2 : Bundle) (ts : Z) :
  pool_wf s -> hash b1 = hash b2 -> block_number b1 <> block_number b2 ->
  let s' := pool_run s [OpAdd b1; OpAdd b2] in
  b1 ∉ inner_bundles s' (block_number b1) ts /\ bundles_map s' !! hash b1 = Some b2.
Proof.
  intros Hwf Hh Hbn s'. assert (Hl : bundles_map s' !! hash b1 = Some b2).
  { unfold s'. simpl. by rewrite Hh, lookup_insert_eq. }
  split; [|done]. rewrite inner_bundles_elem by by apply run_wf.
  intros (Hb & _). naive_solver.
Qed.

(** what a cancellation leaves behind: the hash of a cancelled bundle stays
    in the maximum timestamp index and its identifier stays claimed. *)
Theorem cancel_leaves_stale_entries (s : BundlePoolInner) (h : B256) :
  max_timestamp_index (fst (inner_cancel_bundle s h)) = max_timestamp_index s /\
  forall u, find_by_uuid (fst (inner_cancel_bundle s h)) u = find_by_uuid s u.
Proof.
  split; [|intros u; unfold find_by_uuid; by rewrite cancel_uuid].
  unfold inner_cancel_bundle. by destruct (bundles_map s !! h).
Qed.

(** the cancellation counters count acquired locks, not cancelled bundles. *)
Theorem cancel_metrics_count_locks (p : BundlePool) (h : B256) :
  bundles_map (inner p) !! h = None ->
  snd (pool_cancel_bundle true p h) = Some (Err BundleNotFound) /\
  successful_bundles_cancelled (metrics (fst (pool_cancel_bundle true p h))) =
    successful_bundles_cancelled (metrics p) + 1.
Proof. intros H. unfold pool_cancel_bundle, inner_cancel_bundle. by rewrite H. Qed.

(** ** Evaluation on concrete inputs *)

Lemma pool_query_no_duplicates_witness :
  let ops := [OpAdd (sample_bundle 1 10 None None None); OpAdd (sample_bundle 2 10 None None None);
              OpCancel 1; OpAdd (sample_bundle 1 10 None (Some 5) None)] in
  NoDup (inner_bundles (pool_run BundlePoolInner_new ops) 10 5) /\
  length (inner_bundles (pool_run BundlePoolInner_new ops) 10 5) = 2%nat.
Proof.
  split; [|vm_compute; reflexivity].
  apply pool_query_no_duplicates. vm_compute. repeat split.
Defined.

Lemma replacement_uuid_replaces_once_witness :
  let b h := sample_bundle h 10 None None (Some 7) in
  b 2 ∈ inner_bundles (pool_run BundlePoolInner_new [OpAdd (b 1); OpAdd (b 2); OpAdd (b 3)]) 10 0 /\
  b 1 ∉ inner_bundles (pool_run BundlePoolInner_new [OpAdd (b 1); OpAdd (b 2); OpAdd (b 3)]) 10 0.
Proof.
  intros b. apply (replacement_uuid_replaces_once (b 1) (b 2) (b 3) 7 10 0); try reflexivity; simpl; lia.
Defined.

Lemma resubmission_drops_earlier_block_witness :
  let b bn := sample_bundle 1 bn None None None in
  b 10 ∉ inner_bundles (pool_run BundlePoolInner_new [OpAdd (b 10); OpAdd (b 11)]) 10 0 /\
  bundles_map (pool_run BundlePoolInner_new [OpAdd (b 10); OpAdd (b 11)]) !! 1 = Some (b 11).
Proof.
  intros b. apply (resubmission_drops_earlier_block BundlePoolInner_new (b 10) (b 11) 0);
    [apply new_wf | reflexivity | simpl; lia].
Defined.

Lemma cancel_metrics_count_locks_witness :
  snd (pool_cancel_bundle true BundlePool_new 1) = Some (Err BundleNotFound) /\
  successful_bundles_cancelled (metrics (fst (pool_cancel_bundle true BundlePool_new 1))) = 0 + 1.
Proof. apply (cancel_metrics_count_locks BundlePool_new 1). reflexivity. Defined.
