(* ===== verification/Rpc.v ===== *)
(** * The bundle RPC

    Models [crates/rpc/src/utils.rs], [send_bundle.rs], [cancel_bundle.rs],
    [send_private_tx.rs] and [lib.rs]: validation of a request, and its effect
    on the bundle pool or the transaction pool. *)

From stdpp Require Import prelude list gmap strings.
From S2P Require Import Prelude Types Bundle BundlePool.

Open Scope Z_scope.

(** The errors of [reth]'s [EthApiError] the program returns. *)
Inductive EthApiError :=
| InvalidParams (msg : string)
| EmptyRawTransactionData
| FailedToDecodeSignedTransaction
| InvalidTransactionSignature
| InternalEthError
| OtherEthApiError (code : nat).

Inductive BundlesApiError := EmptyBundleTransactions | BundleMissingBlockNumber.

Definition bundles_api_error_to_string (e : BundlesApiError) : string :=
  match e with
  | EmptyBundleTransactions => "bundle missing txs"
  | BundleMissingBlockNumber => "bundle missing blockNumber"
  end.

(** [impl From<PoolError> for EthApiError] *)
Definition eth_api_error_from (e : PoolError) : EthApiError :=
  match e with
  | BundleNotFound => InvalidParams "bundle not found"
  | BundleReplacementFailed => InvalidParams "bundle replacement failed"
  end.

Section Rpc.
Context `{ET : EthTx}.

Definition recover_raw_transaction (data : Bytes) : result EthApiError PooledTx :=
  match data with
  | [] => Err EmptyRawTransactionData
  | _ =>
      transaction ← ok_or (pooled_decode_enveloped data) FailedToDecodeSignedTransaction;
      ok_or (pooled_try_into_ecrecovered transaction) InvalidTransactionSignature
  end.

Definition recover_transactions (ts : list Bytes) (bn : Z) : result EthApiError (list PooledTx) :=
  match ts with
  | [] => Err (InvalidParams (bundles_api_error_to_string EmptyBundleTransactions))
  | _ =>
      if bn =? 0 then Err (InvalidParams (bundles_api_error_to_string BundleMissingBlockNumber))
      else collect_results recover_raw_transaction ts
  end.

(** [impl SendBundle for EthSendBundle]; [locked] tells whether the lock of
    the bundle pool is acquired in time *)
Definition send_bundle (locked : bool) (self : EthSendBundle) (bundle_pool : BundlePool)
  : BundlePool * result EthApiError B256 :=
  match recover_transactions (sb_txs self) (sb_block_number self) with
  | Err e => (bundle_pool, Err e)
  | Ok ts =>
      let bundle_hash := create_hash ts in
      let '(bundle_pool, r) := pool_add_bundle locked bundle_pool (Bundle_from (self, bundle_hash)) in
      match r with
      | Some bundle_hash =>
          ({| inner := inner bundle_pool; metrics := inc_send_bundle_rpc (metrics bundle_pool) true |},
           Ok bundle_hash)
      | None =>
          ({| inner := inner bundle_pool; metrics := inc_send_bundle_rpc (metrics bundle_pool) false |},
           Err InternalEthError)
      end
  end.

(** [impl CancelBundle for B256] *)
Definition cancel_bundle (locked : bool) (self : B256) (pool : BundlePool)
  : BundlePool * result EthApiError unit :=
  let '(pool, r) := pool_cancel_bundle locked pool self in
  (pool, match r with
         | None => Err InternalEthError
         | Some r => map_err eth_api_error_from r
         end).

(** [impl PrivateTx for Bytes]: adding a private transaction to the
    transaction pool is a parameter *)
Definition send_private_tx {Pool : Type}
    (add_private_transaction : Pool -> PooledTx -> Pool * result EthApiError B256)
    (self : Bytes) (pool : Pool) : Pool * result EthApiError B256 :=
  match recover_raw_transaction self with
  | Err e => (pool, Err e)
  | Ok recovered => add_private_transaction pool recovered
  end.

(** A request as [BundlesApiServer] dispatches it; the permit that each call
    waits for is not checked. *)
Inductive rpc_request :=
| SendBundle (bundle : EthSendBundle)
| CancelBundle (h : B256).

Definition rpc_step (locked : bool) (pool : BundlePool) (req : rpc_request) : BundlePool :=
  match req with
  | SendBundle b => fst (send_bundle locked b pool)
  | CancelBundle h => fst (cancel_bundle locked h pool)
  end.
End Rpc.

(** ** Properties *)

Section RpcProofs.
Context `{ET : EthTx}.

Lemma recover_transactions_Ok ts bn ps :
  recover_transactions ts bn = Ok ps <->
  ts <> [] /\ bn <> 0 /\
  Forall2 (fun raw p => raw <> [] /\ exists t, pooled_decode_enveloped raw = Some t /\
             pooled_try_into_ecrecovered t = Some p) ts ps.
Proof.
  unfold recover_transactions. destruct ts as [|raw ts]; [split; [done|by intros []]|].
  destruct (Z.eqb_spec bn 0) as [->|Hbn]; [split; [done|naive_solver]|].
  rewrite collect_results_Ok.
  assert (Hraw : forall raw p, recover_raw_transaction raw = Ok p <->
    raw <> [] /\ exists t, pooled_decode_enveloped raw = Some t /\ pooled_try_into_ecrecovered t = Some p).
  { intros r p. unfold recover_raw_transaction. destruct r as [|x r]; [split; [done|by intros []]|].
    destruct (pooled_decode_enveloped (x :: r)) as [t|]; simpl; [|split; [done|naive_solver]].
    destruct (pooled_try_into_ecrecovered t) as [p'|] eqn:Hp; simpl; split; naive_solver. }
  split.
  - intros H. split_and!; [done|done|]. eapply Forall2_impl; [exact H|]. intros r p. apply Hraw.
  - intros (_ & _ & H). eapply Forall2_impl; [exact H|]. intros r p. apply Hraw.
Qed.

Lemma send_bundle_Ok self pool pool' h :
  send_bundle true self pool = (pool', Ok h) ->
  exists ps, recover_transactions (sb_txs self) (sb_block_number self) = Ok ps /\
    h = create_hash ps /\ inner pool' = fst (inner_add_bundle (inner pool) (Bundle_from (self, h))).
Proof.
  unfold send_bundle. destruct (recover_transactions _ _) as [ps|e]; [|done].
  cbn -[inner_add_bundle]. intros [= <- <-]. by exists ps.
Qed.

(** a request to send a bundle succeeds exactly when the bundle has
    transactions and a block number and each transaction decodes and recovers,
    and the pool's lock is acquired; the hash is the one of the transactions,
    and a request that fails leaves the pool as it was. *)
Theorem send_bundle_validates (locked : bool) (self : EthSendBundle) (pool : BundlePool) :
  let '(pool', r) := send_bundle locked self pool in
  ((exists h, r = Ok h) <->
     locked = true /\ sb_txs self <> [] /\ sb_block_number self <> 0 /\
     exists ps, Forall2 (fun raw p => raw <> [] /\ exists t, pooled_decode_enveloped raw = Some t /\
                           pooled_try_into_ecrecovered t = Some p) (sb_txs self) ps) /\
  (forall e, r = Err e -> inner pool' = inner pool) /\
  (forall h, r = Ok h ->
     exists ps, recover_transactions (sb_txs self) (sb_block_number self) = Ok ps /\
       h = create_hash ps /\ inner pool' = fst (inner_add_bundle (inner pool) (Bundle_from (self, h)))).
Proof.
  destruct (send_bundle locked self pool) as [pool' r] eqn:Hs. pose proof Hs as Hs'.
  unfold send_bundle in Hs. destruct (recover_transactions _ _) as [ps|e] eqn:Hr.
  - apply recover_transactions_Ok in Hr as Hv. destruct Hv as (H1 & H2 & H3). destruct locked.
    + cbn -[inner_add_bundle] in Hs. injection Hs as <- <-. split_and!.
      * split; [intros _; split_and!; eauto|by eauto].
      * done.
      * intros h [= <-]. by exists ps.
    + simpl in Hs. injection Hs as <- <-. split_and!; [|done|done]. split; [by intros []|by intros []].
  - injection Hs as <- <-. split_and!; [|done|done]. split; [by intros []|].
    intros (_ & H1 & H2 & ps & H3). assert (recover_transactions (sb_txs self) (sb_block_number self) = Ok ps)
      by by apply recover_transactions_Ok. congruence.
Qed.

(** C26: a bundle that was sent is served for its block whenever its window is open,
    until it is cancelled; cancelling it succeeds and it is served no more. *)
Theorem send_query_cancel (ops : list pool_op) (m : BundlePoolMetrics) (self : EthSendBundle)
    (pool' : BundlePool) (h : B256) (ts : Z) :
  let pool := {| inner := pool_run BundlePoolInner_new ops; metrics := m |} in
  let b := Bundle_from (self, h) in
  send_bundle true self pool = (pool', Ok h) ->
  (b ∈ inner_bundles (inner pool') (sb_block_number self) ts <-> is_within_timestamp b ts = true) /\
  let '(pool'', r) := cancel_bundle true h pool' in
  r = Ok tt /\ forall bn t, b ∉ inner_bundles (inner pool'') bn t.
Proof.
  intros pool b (ps & _ & _ & Hi)%send_bundle_Ok. fold b in Hi.
  assert (Hrun : inner pool' = pool_run BundlePoolInner_new (ops ++ [OpAdd b])).
  { unfold pool_run. rewrite foldl_app. simpl. by rewrite Hi. }
  assert (Hwf : pool_wf (inner pool')) by (rewrite Hrun; apply run_wf, new_wf).
  assert (Hl : bundles_map (inner pool') !! h = Some b) by (rewrite Hi; simpl; apply lookup_insert_eq).
  split.
  - rewrite inner_bundles_elem by done. simpl. split; [by intros (_ & _ & ?)|done].
  - pose proof (cancel_wf (inner pool') h Hwf) as Hwf'. pose proof (cancel_lookup (inner pool') h h) as Hd.
    unfold cancel_bundle, pool_cancel_bundle. unfold inner_cancel_bundle in *. rewrite Hl in *. simpl in *.
    split; [done|]. intros bn t. rewrite inner_bundles_elem by done. simpl.
    rewrite lookup_delete_eq. by intros (? & _).
Qed.
End RpcProofs.

(** ** Evaluation on concrete inputs *)

Import Demo.

Definition sample_request (ts : list Z) (bn : Z) : EthSendBundle :=
  {| sb_txs := le_bytes 32 <$> ts; sb_block_number := bn; sb_min_timestamp := Some 5;
     sb_max_timestamp := None; sb_reverting_tx_hashes := []; sb_replacement_uuid := None;
     sb_refund_percent := None; sb_refund_index := None; sb_refund_recipient := None |}.

Definition sample_sent : BundlePool * result EthApiError B256 :=
  send_bundle true (sample_request [3; 4] 10) BundlePool_new.
Definition sample_hash : B256 := create_hash ([3; 4] : list PooledTx).

Lemma send_query_cancel_witness :
  sample_sent = (sample_sent.1, Ok sample_hash) /\
  Bundle_from (sample_request [3; 4] 10, sample_hash) ∈ inner_bundles (inner sample_sent.1) 10 5 /\
  snd (cancel_bundle true sample_hash sample_sent.1) = Ok tt.
Proof.
  assert (sample_sent = (sample_sent.1, Ok sample_hash)) as Hs by kernel_refl. split; [exact Hs|].
  destruct (send_query_cancel [] metrics_default (sample_request [3; 4] 10) _ _ 5 Hs) as [H1 H2].
  split; [apply H1; reflexivity|].
  destruct (cancel_bundle true sample_hash sample_sent.1) as [p r]. exact (proj1 H2).
Defined.
