(* ===== verification/Validator.v ===== *)
(** * Validators

    Models [crates/primitives/src/validator.rs] (the validator of a slot, the
    schedule of validators, the gas limit of a block) and
    [crates/relay/src/services/validator.rs] (the service that keeps the
    schedule up to date). *)

From stdpp Require Import prelude list gmap strings.
From S2P Require Import Prelude Types.

Open Scope Z_scope.

(** A [BlsPublicKey] and a [BlsSignature], compared for equality. *)
Abbreviation BlsPublicKey := Z (only parsing).
Abbreviation BlsSignature := Z (only parsing).

Record ValidatorScheduleSlotInfo := {
  vi_proposer : BlsPublicKey;
  vi_fee_recipient : Address;
  vi_gas_limit : Z;
  vi_slot : Z;
}.

#[export] Instance ValidatorScheduleSlotInfo_eq_dec : EqDecision ValidatorScheduleSlotInfo.
Proof. solve_decision. Defined.

Definition MIN_GAS_LIMIT : Z := 5000.
Definition GAS_LIMIT_BOUND_DIVISOR : Z := 1024.

(** [suggest_gas_limit]: arithmetic on [u64]. *)
Definition suggest_gas_limit (self : ValidatorScheduleSlotInfo) (parent_gas_limit : Z) : Z :=
  if parent_gas_limit =? 0 then parent_gas_limit
  else
    let delta := u64_sub (parent_gas_limit / GAS_LIMIT_BOUND_DIVISOR) 1 in
    let limit := parent_gas_limit in
    let desired_limit :=
      if vi_gas_limit self <? MIN_GAS_LIMIT then MIN_GAS_LIMIT else vi_gas_limit self in
    if limit <? desired_limit then
      let limit := u64_add parent_gas_limit delta in
      if limit >? desired_limit then desired_limit else limit
    else if limit >? desired_limit then
      let limit := u64_sub parent_gas_limit delta in
      if limit <? desired_limit then desired_limit else limit
    else limit.

(** ** Registrations *)

Record Registration := {
  reg_fee_recipient : Address;
  reg_gas_limit : Z;
  reg_timestamp : Z;
  reg_pubkey : BlsPublicKey;
}.

Record SignedValidatorRegistration := {
  svr_message : Registration;
  svr_signature : BlsSignature;
}.

Record ValidatorRegistrationResponse := {
  vrr_slot : Z;
  vrr_validator_index : option string;
  vrr_entry : SignedValidatorRegistration;
}.

Definition slot_info_from (data : ValidatorRegistrationResponse) : ValidatorScheduleSlotInfo :=
  {| vi_proposer := reg_pubkey (svr_message (vrr_entry data));
     vi_fee_recipient := reg_fee_recipient (svr_message (vrr_entry data));
     vi_gas_limit := reg_gas_limit (svr_message (vrr_entry data));
     vi_slot := vrr_slot data |}.

(** ** The schedule *)

Abbreviation ValidatorSchedule := (gmap Z ValidatorScheduleSlotInfo).

(** [v_relays.entry(slot).or_insert(v_info)] *)
Definition schedule_or_insert (m : ValidatorSchedule) (v : ValidatorScheduleSlotInfo)
  : ValidatorSchedule :=
  match m !! vi_slot v with
  | Some _ => m
  | None => <[vi_slot v := v]> m
  end.

Definition ValidatorSchedule_new (v_info_vec : list ValidatorScheduleSlotInfo)
  : ValidatorSchedule :=
  foldl schedule_or_insert ∅ v_info_vec.

Definition get_by_slot (self : ValidatorSchedule) (slot : Z) : option ValidatorScheduleSlotInfo :=
  self !! slot.

(** ** The schedule service

    A load task is spawned on each tick of the interval; its result arrives on
    a one-shot channel.  Tasks are numbered in the order they are spawned; what
    the channel of a task delivers is an input of the poll. *)

Definition EPOCH_TIME_SECONDS : Z := 32 * 12.

Section Service.
Context {RecvError RelayServiceErr : Type}.

Record ValidatorScheduleService := {
  vs_spawned : nat;
  vs_state_receiver : option nat;
  vs_state : ValidatorSchedule;
  (** the delay the interval was last reset to, none since the last tick *)
  vs_reset_after : option Z;
}.

Definition ValidatorScheduleService_new : ValidatorScheduleService :=
  {| vs_spawned := 0; vs_state_receiver := None; vs_state := ∅; vs_reset_after := None |}.

Definition reset_state (self : ValidatorScheduleService) (schedule : ValidatorSchedule)
  : ValidatorScheduleService :=
  {| vs_spawned := vs_spawned self; vs_state_receiver := vs_state_receiver self;
     vs_state := schedule; vs_reset_after := vs_reset_after self |}.

Definition validator_info (self : ValidatorScheduleService) (slot : Z)
  : option ValidatorScheduleSlotInfo :=
  get_by_slot (vs_state self) slot.

(** one iteration of the tick loop: spawn a task, keep its receiver *)
Definition vs_tick (self : ValidatorScheduleService) : ValidatorScheduleService :=
  {| vs_spawned := S (vs_spawned self); vs_state_receiver := Some (vs_spawned self);
     vs_state := vs_state self; vs_reset_after := None |}.

Definition vs_set_receiver (self : ValidatorScheduleService) (rx : option nat)
  : ValidatorScheduleService :=
  {| vs_spawned := vs_spawned self; vs_state_receiver := rx;
     vs_state := vs_state self; vs_reset_after := vs_reset_after self |}.

Definition vs_retry (self : ValidatorScheduleService) : ValidatorScheduleService :=
  {| vs_spawned := vs_spawned self; vs_state_receiver := vs_state_receiver self;
     vs_state := vs_state self; vs_reset_after := Some 5 |}.

(** [poll]: [ticks] ticks are ready, [rx] is what each channel yields. *)
Definition vs_poll (self : ValidatorScheduleService) (ticks : nat)
    (rx : nat -> poll (result RecvError (result RelayServiceErr ValidatorSchedule)))
  : ValidatorScheduleService :=
  let this := Nat.iter ticks vs_tick self in
  match vs_state_receiver this with
  | Some task =>
      let this := vs_set_receiver this None in
      match rx task with
      | Ready (Ok (Ok schedule)) => reset_state this schedule
      | Ready (Ok (Err _)) => vs_retry this
      | Ready (Err _) => vs_retry this
      | Pending => vs_set_receiver this (Some task)
      end
  | None => this
  end.
End Service.

(** ** Properties *)

Definition desired_gas_limit (v : ValidatorScheduleSlotInfo) : Z :=
  Z.max MIN_GAS_LIMIT (vi_gas_limit v).

Lemma desired_gas_limit_spec v :
  (if vi_gas_limit v <? MIN_GAS_LIMIT then MIN_GAS_LIMIT else vi_gas_limit v) =
  desired_gas_limit v.
Proof. unfold desired_gas_limit. case_bools; lia. Qed.

Lemma delta_bounds parent :
  1024 <= parent < 2 ^ 63 ->
  u64_sub (parent / 1024) 1 = parent / 1024 - 1 /\ 0 <= parent / 1024 - 1 < parent.
Proof.
  intros H. assert (1 <= parent / 1024 < 2 ^ 62).
  { split; [apply Z.div_le_lower_bound; lia|apply Z.div_lt_upper_bound; lia]. }
  rewrite u64_sub_small by (unfold is_u64; lia). split; [done|].
  assert (parent / 1024 <= parent) by (apply Z.div_le_upper_bound; lia). lia.
Qed.

(** away from the wrap-around, the suggestion is the target clamped to the
    bound around the parent *)
Lemma suggest_clamp v parent :
  1024 <= parent < 2 ^ 63 -> vi_gas_limit v < 2 ^ 64 ->
  let delta := parent / 1024 - 1 in
  suggest_gas_limit v parent =
  Z.max (parent - delta) (Z.min (parent + delta) (desired_gas_limit v)).
Proof.
  intros Hp Hg delta. destruct (delta_bounds parent Hp) as [Hd Hr].
  unfold suggest_gas_limit, GAS_LIMIT_BOUND_DIVISOR. rewrite desired_gas_limit_spec, Hd.
  rewrite u64_add_small, u64_sub_small by (unfold is_u64; lia). fold delta.
  case_bools; lia.
Qed.

Lemma suggest_range v parent :
  1024 <= parent < 2 ^ 63 -> vi_gas_limit v < 2 ^ 63 ->
  Z.min parent 5000 <= suggest_gas_limit v parent < 2 ^ 63.
Proof.
  intros Hp Hg. rewrite suggest_clamp by lia. destruct (delta_bounds parent Hp) as [_ Hr].
  unfold desired_gas_limit, MIN_GAS_LIMIT in *. lia.
Qed.

(** C28: the suggested limit stays within the bound the protocol puts around the
    parent's limit, and moves towards the validator's target (raised to 5000)
    as far as the bound lets it. *)
Theorem suggest_gas_limit_clamped (v : ValidatorScheduleSlotInfo) (parent : Z) :
  1024 <= parent < 2 ^ 63 -> 0 <= vi_gas_limit v < 2 ^ 64 ->
  Z.abs (suggest_gas_limit v parent - parent) < parent / 1024 /\
  (Z.abs (desired_gas_limit v - parent) < parent / 1024 ->
     suggest_gas_limit v parent = desired_gas_limit v) /\
  (parent <= desired_gas_limit v -> parent <= suggest_gas_limit v parent <= desired_gas_limit v) /\
  (desired_gas_limit v <= parent -> desired_gas_limit v <= suggest_gas_limit v parent <= parent).
Proof.
  intros Hp Hg. rewrite suggest_clamp by lia. destruct (delta_bounds parent Hp) as [_ Hr]. lia.
Qed.

(** the distance to the target shrinks with every block *)
Lemma suggest_progress v parent :
  2048 <= parent < 2 ^ 63 -> vi_gas_limit v < 2 ^ 63 ->
  Z.abs (desired_gas_limit v - suggest_gas_limit v parent) <=
    Z.max 0 (Z.abs (desired_gas_limit v - parent) - 1).
Proof.
  intros Hp Hg. rewrite suggest_clamp by lia.
  assert (2 <= parent / 1024) by (apply Z.div_le_lower_bound; lia). lia.
Qed.

Lemma suggest_iter v n parent :
  2048 <= parent < 2 ^ 63 -> vi_gas_limit v < 2 ^ 63 ->
  2048 <= Nat.iter n (suggest_gas_limit v) parent < 2 ^ 63 /\
  Z.abs (desired_gas_limit v - Nat.iter n (suggest_gas_limit v) parent) <=
    Z.max 0 (Z.abs (desired_gas_limit v - parent) - Z.of_nat n).
Proof.
  intros Hp Hg. induction n as [|n [IH1 IH2]]; simpl Nat.iter; [lia|].
  set (p := Nat.iter n (suggest_gas_limit v) parent) in *.
  pose proof (suggest_progress v p IH1 Hg). pose proof (suggest_range v p ltac:(lia) Hg). lia.
Qed.

(** C29: the gas limit of a chain of blocks built for one target reaches it:
    after finitely many blocks the limit is the target and stays there. *)
Theorem suggest_gas_limit_converges (v : ValidatorScheduleSlotInfo) (parent : Z) :
  2048 <= parent < 2 ^ 63 -> 0 <= vi_gas_limit v < 2 ^ 63 ->
  exists n, forall m, (n <= m)%nat ->
    Nat.iter m (suggest_gas_limit v) parent = desired_gas_limit v.
Proof.
  intros Hp Hg. exists (Z.to_nat (Z.abs (desired_gas_limit v - parent))). intros m Hm.
  destruct (suggest_iter v m parent Hp) as [_ H]; lia.
Qed.

(** below 1024 the bound underflows: the increment of a limit that should grow
    wraps around, and the suggestion is one less than the parent's limit. *)
Theorem suggest_gas_limit_underflow (v : ValidatorScheduleSlotInfo) (parent : Z) :
  0 < parent < 1024 -> suggest_gas_limit v parent = parent - 1.
Proof.
  intros Hp. unfold suggest_gas_limit, GAS_LIMIT_BOUND_DIVISOR.
  rewrite desired_gas_limit_spec, (Z.div_small parent 1024) by lia.
  assert (5000 <= desired_gas_limit v) by (unfold desired_gas_limit, MIN_GAS_LIMIT; lia).
  assert (Hd : u64_sub 0 1 = 2 ^ 64 - 1) by reflexivity.
  assert (Ha : u64_add parent (2 ^ 64 - 1) = parent - 1).
  { unfold u64_add, u64_wrap. replace (parent + (2 ^ 64 - 1)) with (parent - 1 + 1 * 2 ^ 64) by lia.
    rewrite Z.mod_add by lia. apply Z.mod_small. lia. }
  rewrite Hd, Ha. case_bools; lia.
Qed.

(** ** The schedule *)

Lemma schedule_foldl l (m : ValidatorSchedule) slot :
  foldl schedule_or_insert m l !! slot =
  match m !! slot with
  | Some v => Some v
  | None => head (filter (fun v => vi_slot v = slot) l)
  end.
Proof.
  revert m. induction l as [|v l IH]; intros m; simpl; [by destruct (m !! slot)|].
  rewrite IH, filter_cons. unfold schedule_or_insert.
  destruct (m !! vi_slot v) eqn:Hv; case_decide as Hs; subst.
  - by rewrite Hv.
  - done.
  - by rewrite lookup_insert_eq, Hv.
  - by rewrite lookup_insert_ne.
Qed.

(** the schedule maps a slot to the first registration received for it, and
    to none when no relay registered the slot. *)
Theorem schedule_first_registration_wins (l : list ValidatorScheduleSlotInfo) (slot : Z) :
  get_by_slot (ValidatorSchedule_new l) slot = head (filter (fun v => vi_slot v = slot) l).
Proof. unfold get_by_slot, ValidatorSchedule_new. by rewrite schedule_foldl, lookup_empty. Qed.

Section ServiceProofs.
Context {RecvError RelayServiceErr : Type}.

Lemma vs_ticks self n :
  Nat.iter n vs_tick self =
  match n with
  | O => self
  | S n' => {| vs_spawned := vs_spawned self + n; vs_state_receiver := Some (vs_spawned self + n')%nat;
               vs_state := vs_state self; vs_reset_after := None |}
  end.
Proof.
  induction n as [|n IH]; [done|]. simpl Nat.iter. rewrite IH. unfold vs_tick. destruct n; simpl; f_equal; try lia; f_equal; lia.
Qed.

(** the schedule changes only when the most recent load task delivers a
    schedule, and then becomes that schedule; a failed task keeps the schedule
    and retries in five seconds; the result of a superseded task is not read. *)
Theorem validator_poll_correct (self : ValidatorScheduleService) (ticks : nat)
    (rx : nat -> poll (result RecvError (result RelayServiceErr ValidatorSchedule))) :
  let last := match ticks with
              | O => vs_state_receiver self
              | S n => Some (vs_spawned self + n)%nat
              end in
  let self' := vs_poll self ticks rx in
  vs_state self' =
    match rx <$> last with Some (Ready (Ok (Ok schedule))) => schedule | _ => vs_state self end /\
  vs_state_receiver self' = match rx <$> last with Some Pending => last | _ => None end /\
  (forall e, rx <$> last = Some (Ready e) ->
     (forall s, e <> Ok (Ok s)) -> vs_reset_after self' = Some 5).
Proof.
  intros last self'. unfold self', vs_poll. rewrite vs_ticks.
  assert (Hl : vs_state_receiver
    (match ticks with
     | O => self
     | S n' => {| vs_spawned := vs_spawned self + ticks; vs_state_receiver := Some (vs_spawned self + n')%nat;
                  vs_state := vs_state self; vs_reset_after := None |}
     end) = last) by (unfold last; by destruct ticks).
  assert (Hs : vs_state
    (match ticks with
     | O => self
     | S n' => {| vs_spawned := vs_spawned self + ticks; vs_state_receiver := Some (vs_spawned self + n')%nat;
                  vs_state := vs_state self; vs_reset_after := None |}
     end) = vs_state self) by (by destruct ticks).
  rewrite Hl. clearbody last. destruct last as [task|]; simpl; [|done].
  destruct (rx task) as [[[s|e]|e]|] eqn:E; simpl; split_and!; try done.
  intros e [= <-] H. by destruct (H s).
Qed.
End ServiceProofs.

(** ** Evaluation on concrete inputs *)

Definition sample_validator (gas slot : Z) : ValidatorScheduleSlotInfo :=
  {| vi_proposer := 1; vi_fee_recipient := 2; vi_gas_limit := gas; vi_slot := slot |}.

Lemma suggest_gas_limit_clamped_witness :
  let v := sample_validator 40000000 1 in
  Z.abs (suggest_gas_limit v 20000000 - 20000000) < 20000000 / 1024 /\
  suggest_gas_limit v 20000000 = 20019530.
Proof.
  intros v. split; [|vm_compute; reflexivity].
  apply (suggest_gas_limit_clamped v 20000000); simpl; lia.
Defined.

Lemma suggest_gas_limit_converges_witness :
  exists n, forall m, (n <= m)%nat ->
    Nat.iter m (suggest_gas_limit (sample_validator 30000000 1)) 15000000 = 30000000.
Proof. apply (suggest_gas_limit_converges (sample_validator 30000000 1) 15000000); simpl; lia. Defined.

Lemma suggest_gas_limit_underflow_witness :
  suggest_gas_limit (sample_validator 30000000 1) 1000 = 999.
Proof. apply (suggest_gas_limit_underflow (sample_validator 30000000 1) 1000). lia. Defined.
