(* ===== verification/Chain.v ===== *)
(** * The execution layer

    The interface between the builder and the Ethereum libraries ([reth],
    [revm]) it runs blocks with: the data the program reads and writes, and,
    as the fields of the class [Evm], the functions it calls.  A database is
    the state it observes: reads may fill a cache, which is not observed ([Db] shows
    why this is enough). *)

From stdpp Require Import prelude list gmap strings.
From S2P Require Import Prelude Types.

Open Scope Z_scope.

(** [reth::primitives::constants::eip4844::MAX_DATA_GAS_PER_BLOCK]: six blobs *)
Definition MAX_DATA_GAS_PER_BLOCK : Z := 786432.

(** ** Errors the program matches on *)

Inductive RethError :=
| RethCustom (msg : string)
| RethOther (code : nat).

Inductive InvalidTransaction :=
| NonceTooLow
| OtherInvalidTransaction (code : nat).

Inductive EVMError :=
| EvmTransaction (e : InvalidTransaction)
| EvmHeader (code : nat)
| EvmDatabase (e : RethError)
| EvmCustom (msg : string).

Inductive PayloadBuilderError :=
| MissingParentBlock (hash : B256)
| ChannelClosed
| Internal (e : RethError)
| EvmExecutionError (e : EVMError).

(** ** Blocks *)

Record Withdrawal := {
  wd_index : Z;
  wd_validator_index : Z;
  wd_address : Address;
  wd_amount : Z;
}.

#[export] Instance Withdrawal_eq_dec : EqDecision Withdrawal.
Proof. solve_decision. Defined.

(** [EthPayloadBuilderAttributes] *)
Record PayloadAttributes := {
  pa_id : Z;
  pa_parent : B256;
  pa_timestamp : Z;
  pa_suggested_fee_recipient : Address;
  pa_prev_randao : B256;
  pa_withdrawals : list Withdrawal;
  pa_parent_beacon_block_root : option B256;
}.

(** [revm]'s block environment *)
Record BlockEnv := {
  be_number : Z;
  be_coinbase : Address;
  be_timestamp : Z;
  be_gas_limit : Z;
  be_basefee : Z;
  be_prevrandao : option B256;
  be_blob_gasprice : option Z;
}.

Record Header := {
  hd_parent_hash : B256;
  hd_ommers_hash : B256;
  hd_beneficiary : Address;
  hd_state_root : B256;
  hd_transactions_root : B256;
  hd_receipts_root : B256;
  hd_withdrawals_root : option B256;
  hd_logs_bloom : Bytes;
  hd_timestamp : Z;
  hd_mix_hash : B256;
  hd_nonce : Z;
  hd_base_fee_per_gas : option Z;
  hd_number : Z;
  hd_gas_limit : Z;
  hd_difficulty : Z;
  hd_gas_used : Z;
  hd_extra_data : Bytes;
  hd_parent_beacon_block_root : option B256;
  hd_blob_gas_used : option Z;
  hd_excess_blob_gas : option Z;
}.

(** [TxEip1559], as the builder fills it in for a transfer *)
Record TxEip1559 := {
  t1559_chain_id : Z;
  t1559_nonce : Z;
  t1559_gas_limit : Z;
  t1559_to : Address;
  t1559_value : Z;
  t1559_max_fee_per_gas : Z;
  t1559_max_priority_fee_per_gas : Z;
}.

(** What the program reads of an account: balance and nonce. *)
Record AccountInfo := { ai_balance : Z; ai_nonce : Z }.

(** ** The libraries *)

Class Evm `{ET : EthTx} := {
  (** [TransactionSigned]: a signed transaction without its signer *)
  TransactionSigned : Type;
  into_signed : SignedTx -> TransactionSigned;
  signed_hash : TransactionSigned -> B256;
  is_eip4844 : TransactionSigned -> bool;
  (** the gas limit of a transaction *)
  tx_gas_limit : SignedTx -> Z;
  (** signing: [signature_hash], [sign_message], [from_transaction_and_signature] *)
  TxSignature : Type;
  signature_hash : TxEip1559 -> B256;
  sign_message : Z -> B256 -> option TxSignature;
  from_transaction_and_signature : TxEip1559 -> TxSignature -> RawTx;
  (** the chain specification *)
  ChainSpec : Type;
  is_shanghai_active_at_timestamp : ChainSpec -> Z -> bool;
  is_cancun_active_at_timestamp : ChainSpec -> Z -> bool;
  CfgEnv : Type;
  cfg_chain_id : CfgEnv -> Z;
  (** [attributes.cfg_and_block_env(chain_spec, parent)] *)
  cfg_and_block_env : PayloadAttributes -> ChainSpec -> Header -> CfgEnv * BlockEnv;
  (** the EVM: results, accounts *)
  Log : Type;
  ExecutionResult : Type;
  er_gas_used : ExecutionResult -> Z;
  er_is_success : ExecutionResult -> bool;
  er_logs : ExecutionResult -> list Log;
  Account : Type;
  account_balance : Account -> Z;
  (** databases: the execution database and the simulation cache over it *)
  BundleState : Type;
  bundle_state_default : BundleState;
  CachedReads : Type;
  cached_reads_default : CachedReads;
  StateProvider : Type;
  ExecutionDB : Type;
  SimulationDB : Type;
  (** [State::builder().with_database_ref(cached_reads.as_db(&state))], with or
      without a bundle prestate *)
  exec_db_new : StateProvider -> CachedReads -> option BundleState -> ExecutionDB;
  (** the reads cached in the map the database was built over *)
  db_cached_reads : ExecutionDB -> CachedReads;
  simulation_db : ExecutionDB -> SimulationDB;
  db_basic : ExecutionDB -> Address -> result RethError (option AccountInfo);
  sim_basic : SimulationDB -> Address -> result RethError (option AccountInfo);
  sim_transact : SimulationDB -> CfgEnv -> BlockEnv -> SignedTx ->
    result EVMError (ExecutionResult * gmap Address Account);
  sim_commit : SimulationDB -> gmap Address Account -> SimulationDB;
  db_commit : ExecutionDB -> gmap Address Account -> ExecutionDB;
  post_block_withdrawals_balance_increments :
    ChainSpec -> Z -> list Withdrawal -> list (Address * Z);
  increment_balances : ExecutionDB -> list (Address * Z) -> result RethError ExecutionDB;
  apply_beacon_root_contract_call :
    ChainSpec -> Z -> Z -> option B256 -> CfgEnv -> BlockEnv -> ExecutionDB ->
    result RethError ExecutionDB;
  merge_transitions : ExecutionDB -> ExecutionDB;
  take_bundle : ExecutionDB -> BundleState;
  (** the provider of chain state and the transaction pool *)
  Client : Type;
  state_by_block_hash : Client -> B256 -> result RethError StateProvider;
  state_root : StateProvider -> BundleState -> result RethError B256;
  TxPool : Type;
  Sidecar : Type;
  get_all_blobs_exact : TxPool -> list B256 -> result RethError (list Sidecar);
  (** roots and hashes *)
  calculate_withdrawals_root : list Withdrawal -> B256;
  calculate_transaction_root : list TransactionSigned -> B256;
  calculate_excess_blob_gas : Z -> Z -> Z;
  hash_header : Header -> B256;
  EMPTY_WITHDRAWALS : B256;
  EMPTY_TRANSACTIONS : B256;
  EMPTY_RECEIPTS : B256;
  EMPTY_OMMER_ROOT_HASH : B256;
  BEACON_NONCE : Z;
}.

Section Blocks.
Context `{EV : Evm}.

Record Receipt := {
  rc_tx_type : Z;
  rc_success : bool;
  rc_cumulative_gas_used : Z;
  rc_logs : list Log;
}.

(** [Block { header, body, ommers: vec![], withdrawals }] *)
Record Block := {
  bl_header : Header;
  bl_body : list TransactionSigned;
  bl_withdrawals : option (list Withdrawal);
}.

Record SealedBlock := {
  sl_hash : B256;
  sl_block : Block;
}.

Definition seal_slow (b : Block) : SealedBlock :=
  {| sl_hash := hash_header (bl_header b); sl_block := b |}.

(** [EthBuiltPayload] *)
Record EthBuiltPayload := {
  bp_id : Z;
  bp_block : SealedBlock;
  bp_fees : Z;
  bp_sidecars : list Sidecar;
}.

Definition extend_sidecars (p : EthBuiltPayload) (s : list Sidecar) : EthBuiltPayload :=
  {| bp_id := bp_id p; bp_block := bp_block p; bp_fees := bp_fees p;
     bp_sidecars := bp_sidecars p ++ s |}.
End Blocks.

(** The receipts of a block: [receipts_root_slow] and [block_logs_bloom] of
    [BundleStateWithReceipts], which hold a range of blocks. *)
Class ReceiptRoots `{EV : Evm} := {
  receipts_root_slow : BundleState -> list (list (option Receipt)) -> Z -> Z -> option B256;
  block_logs_bloom : BundleState -> list (list (option Receipt)) -> Z -> Z -> option Bytes;
}.

(** Documented behaviour of the libraries the program relies on when it
    unwraps or adds up gas: an execution that succeeds has a valid fee and uses
    no more gas than its transaction may, which is no more than the block's, and no
    more blob gas than a block has; a
    signed transfer recovers and keeps its gas limit; values fit their types;
    the first block of a range is in the range. *)
Class EvmLaws `{RR : ReceiptRoots} := {
  transact_tip_valid : forall db cfg env t r,
    sim_transact db cfg env t = Ok r -> 0 <= be_basefee env < 2 ^ 64 ->
    is_Some (tx_effective_tip_per_gas t (Some (be_basefee env)));
  er_gas_used_range : forall r, is_u64 (er_gas_used r);
  tx_blob_gas_range : forall t g, tx_blob_gas t = Some g -> is_u64 g;
  tx_tip_range : forall t b g, tx_effective_tip_per_gas t b = Some g -> is_u128 g;
  receipts_root_first : forall b rs n, is_Some (receipts_root_slow b [rs] n n);
  logs_bloom_first : forall b rs n, is_Some (block_logs_bloom b [rs] n n);
  sign_recover : forall key t, exists s,
    sign_message key (signature_hash t) = Some s /\
    is_Some (into_ecrecovered (from_transaction_and_signature t s));
  transact_gas : forall db cfg env t r,
    sim_transact db cfg env t = Ok r ->
    er_gas_used r.1 <= tx_gas_limit t /\ tx_gas_limit t <= be_gas_limit env;
  transact_blob_gas : forall db cfg env t r,
    sim_transact db cfg env t = Ok r -> 0 <= default 0 (tx_blob_gas t) <= MAX_DATA_GAS_PER_BLOCK;
  signed_gas_limit : forall t s r,
    into_ecrecovered (from_transaction_and_signature t s) = Some r ->
    tx_gas_limit r = t1559_gas_limit t;
}.
