(* ===== verification/Db.v ===== *)
(** * The databases a simulation is layered on

    [crates/payload/src/strategy/state/db.rs]: [ExecutionDBRef] lets a cache read an
    execution database through a shared reference, by borrowing it mutably out of a
    [RefCell] for the length of one call, and [simulation_db] puts [revm]'s [CacheDB]
    over it.  A read of a database may change it: it fills its caches.  It may also panic,
    as [State] does when it is asked for the storage of an account it has not loaded.

    [Chain] gives the builder these databases as the states they observe.  The theorem
    of this file is what that rests on: whatever a simulation reads and commits, and however
    the cache uses the reference, the cell is never borrowed twice, the simulation and the
    cache go as they would over a database that no read changes, and the execution database
    has only been read, so it answers as before. *)

From stdpp Require Import prelude list gmap relations.
From S2P Require Import Prelude Types Chain.

Open Scope Z_scope.

(** ** Reading a database

    The four reads of [revm]'s [Database] and [DatabaseRef], one constructor each. *)

Inductive query :=
| Basic (address : Address)
| CodeByHash (code_hash : B256)
| Storage (address : Address) (index : Z)
| BlockHash (number : Z).

Definition answer (Bytecode : Type) (q : query) : Type :=
  match q with
  | Basic _ => option AccountInfo
  | CodeByHash _ => Bytecode
  | Storage _ _ => Z
  | BlockHash _ => B256
  end.

(** [Database]: a read takes [&mut self], and may panic ([None]) *)
Class Database (DbError Bytecode DB : Type) := {
  basic : DB -> Address -> option (result DbError (option AccountInfo) * DB);
  code_by_hash : DB -> B256 -> option (result DbError Bytecode * DB);
  storage : DB -> Address -> Z -> option (result DbError Z * DB);
  block_hash : DB -> Z -> option (result DbError B256 * DB);
}.

(** [DatabaseRef]: a read takes [&self], may change what is behind a cell and panics
    ([None]) when the cell is in use *)
Class DatabaseRef (DbError Bytecode R : Type) := {
  basic_ref : R -> Address -> option (result DbError (option AccountInfo) * R);
  code_by_hash_ref : R -> B256 -> option (result DbError Bytecode * R);
  storage_ref : R -> Address -> Z -> option (result DbError Z * R);
  block_hash_ref : R -> Z -> option (result DbError B256 * R);
}.

Definition read `{Database DbError Bytecode DB} (db : DB) (q : query)
  : option (result DbError (answer Bytecode q) * DB) :=
  match q with
  | Basic a => basic db a
  | CodeByHash h => code_by_hash db h
  | Storage a i => storage db a i
  | BlockHash n => block_hash db n
  end.

Definition read_ref `{DatabaseRef DbError Bytecode R} (r : R) (q : query)
  : option (result DbError (answer Bytecode q) * R) :=
  match q with
  | Basic a => basic_ref r a
  | CodeByHash h => code_by_hash_ref r h
  | Storage a i => storage_ref r a i
  | BlockHash n => block_hash_ref r n
  end.

(** ** [RefCell] *)

Record RefCell (A : Type) := { cell_value : A; cell_borrowed : bool }.
Arguments cell_value {A} _.
Arguments cell_borrowed {A} _.

Definition RefCell_new {A} (value : A) : RefCell A :=
  {| cell_value := value; cell_borrowed := false |}.

(** [borrow_mut] panics when the cell is borrowed *)
Definition borrow_mut {A} (c : RefCell A) : option (A * RefCell A) :=
  if cell_borrowed c then None
  else Some (cell_value c, {| cell_value := cell_value c; cell_borrowed := true |}).

(** what was borrowed is written back and the guard dropped *)
Definition drop_guard {A} (c : RefCell A) (value : A) : RefCell A :=
  {| cell_value := value; cell_borrowed := false |}.

(** [c.borrow_mut().method(..)]: the guard is dropped at the end of the statement *)
Definition with_borrow_mut {A B} (c : RefCell A) (method : A -> option (B * A)) : option (B * RefCell A) :=
  '(value, c') ← borrow_mut c;
  '(res, value') ← method value;
  mret (res, drop_guard c' value').

(** ** [ExecutionDBRef] *)

Record ExecutionDBRef (DB : Type) := { edr_inner : RefCell DB }.
Arguments edr_inner {DB} _.

Definition ExecutionDBRef_from {DB} (value : DB) : ExecutionDBRef DB :=
  {| edr_inner := RefCell_new value |}.

Definition on_inner {DB B} (self : ExecutionDBRef DB) (method : DB -> option (B * DB))
  : option (B * ExecutionDBRef DB) :=
  (fun rc => (rc.1, {| edr_inner := rc.2 |})) <$> with_borrow_mut (edr_inner self) method.

Definition ExecutionDBRef_ref `{Database DbError Bytecode DB}
  : DatabaseRef DbError Bytecode (ExecutionDBRef DB) := {|
  basic_ref self address := on_inner self (fun db => basic db address);
  code_by_hash_ref self code_hash := on_inner self (fun db => code_by_hash db code_hash);
  storage_ref self address index := on_inner self (fun db => storage db address index);
  block_hash_ref self number := on_inner self (fun db => block_hash db number);
|}.
#[export] Existing Instance ExecutionDBRef_ref.

Lemma execution_read_ref `{Database DbError Bytecode DB} (db : DB) q :
  read_ref (ExecutionDBRef_from db) q =
  (fun rd => (rd.1, ExecutionDBRef_from rd.2)) <$> read db q.
Proof.
  destruct q; cbn; unfold on_inner, with_borrow_mut; cbn;
    match goal with |- context [mbind _ ?m] => by destruct m as [[]|] end.
Qed.

(** ** Programs that read

    What a caller does with a database it can only read: it asks, and goes on with the
    answer. *)

Inductive reads (DbError Bytecode A : Type) :=
| Return (x : A)
| Ask (q : query) (k : result DbError (answer Bytecode q) -> reads DbError Bytecode A).
Arguments Return {DbError Bytecode A} x.
Arguments Ask {DbError Bytecode A} q k.

(** over a shared reference *)
Fixpoint run_ref `{DatabaseRef DbError Bytecode R} {A} (p : reads DbError Bytecode A) (r : R) : option (A * R) :=
  match p with
  | Return x => Some (x, r)
  | Ask q k => '(res, r) ← read_ref r q; run_ref (k res) r
  end.

(** over an unchanging view *)
Fixpoint run_view {DbError Bytecode A} (v : forall q, result DbError (answer Bytecode q))
    (p : reads DbError Bytecode A) : A :=
  match p with
  | Return x => x
  | Ask q k => run_view v (k (v q))
  end.

Lemma run_view_ext {DbError Bytecode A} (v v' : forall q, result DbError (answer Bytecode q))
    (p : reads DbError Bytecode A) :
  (forall q, v q = v' q) -> run_view v p = run_view v' p.
Proof. intros Hv. induction p as [x|q k IH]; simpl; [done|]. by rewrite IH, Hv. Qed.

(** ** [CacheDB]

    [revm]'s cache is its own maps and the database below, which it is generic in and so can
    only read: what it does to answer a read is a program over that database.  How it goes
    about it, what it keeps, and what a commit writes, is the library's; nothing is assumed
    of it. *)

Class CacheLib (DbError Bytecode Changes : Type) := {
  Cache : Type;
  Cache_new : Cache;
  cache_read : Cache -> forall q, reads DbError Bytecode (result DbError (answer Bytecode q) * Cache);
  cache_commit : Cache -> Changes -> Cache;
}.

Section CacheDB.
Context `{CL : CacheLib DbError Bytecode Changes}.

Definition CacheDB (R : Type) : Type := Cache * R.
Definition CacheDB_new {R} (r : R) : CacheDB R := (Cache_new, r).

Definition cache_db_read {R} `{!DatabaseRef DbError Bytecode R} (c : CacheDB R) (q : query)
  : option (result DbError (answer Bytecode q) * CacheDB R) :=
  '((res, cache), r) ← run_ref (cache_read c.1 q) c.2;
  mret (res, (cache, r)).

Definition cache_db_commit {R} (c : CacheDB R) (s : Changes) : CacheDB R := (cache_commit c.1 s, c.2).

Definition SimulationDB (DB : Type) : Type := CacheDB (ExecutionDBRef DB).

Definition simulation_db {DB} (db : DB) : SimulationDB DB := CacheDB_new (ExecutionDBRef_from db).

(** ** A simulation

    What [revm] does to the simulation database while it executes transactions: it reads,
    goes on with the answers, and commits state changes. *)

Inductive simulation (A : Type) :=
| SimDone (x : A)
| SimRead (q : query) (k : result DbError (answer Bytecode q) -> simulation A)
| SimCommit (state : Changes) (k : simulation A).
Arguments SimDone {A} x.
Arguments SimRead {A} q k.
Arguments SimCommit {A} state k.

Fixpoint sim_exec {R} `{!DatabaseRef DbError Bytecode R} {A} (p : simulation A) (c : CacheDB R)
  : option (A * CacheDB R) :=
  match p with
  | SimDone x => Some (x, c)
  | SimRead q k => '(res, c) ← cache_db_read c q; sim_exec (k res) c
  | SimCommit s k => sim_exec k (cache_db_commit c s)
  end.

(** the same with the cache over an unchanging view *)
Fixpoint sim_view {A} (v : forall q, result DbError (answer Bytecode q)) (p : simulation A) (cache : Cache)
  : A * Cache :=
  match p with
  | SimDone x => (x, cache)
  | SimRead q k => let '(res, cache) := run_view v (cache_read cache q) in sim_view v (k res) cache
  | SimCommit s k => sim_view v k (cache_commit cache s)
  end.
End CacheDB.
Arguments SimDone {DbError Bytecode Changes A} x.
Arguments SimRead {DbError Bytecode Changes A} q k.
Arguments SimCommit {DbError Bytecode Changes A} state k.

(** Where a read of the database answers, it answers from a view that no read changes. *)
Class DatabaseLaws `{D : Database DbError Bytecode DB} := {
  view : DB -> forall q, result DbError (answer Bytecode q);
  read_answer : forall db q res db', read db q = Some (res, db') -> res = view db q;
  read_view : forall db q res db' q', read db q = Some (res, db') -> view db' q' = view db q';
}.

(** a database that reads lead to from another *)
Definition only_read `{Database DbError Bytecode DB} : DB -> DB -> Prop :=
  rtc (fun db db' => exists q res, read db q = Some (res, db')).

Section Isolation.
Context `{CL : CacheLib DbError Bytecode Changes}.
Context `{D : !Database DbError Bytecode DB} `{DL : !DatabaseLaws (D := D)}.

Lemma only_read_view (db db' : DB) q : only_read db db' -> view db' q = view db q.
Proof.
  induction 1 as [|db1 db2 db3 (q' & res & Hr) _ IH]; [done|]. rewrite IH. by eapply read_view.
Qed.

(** a run that stopped has hit a read that panics, of the database as it then was *)
Definition panics_from (db : DB) : Prop := exists db' q, only_read db db' /\ read db' q = None.

Lemma panics_from_trans db db' : only_read db db' -> panics_from db' -> panics_from db.
Proof. intros H (db2 & q & H2 & Hq). exists db2, q. split; [by etrans|done]. Qed.

(** a program over the reference goes as over the view, and leaves the cell free *)
Lemma run_ref_view {A} (p : reads DbError Bytecode A) : forall db,
  match run_ref p (ExecutionDBRef_from db) with
  | Some (x, r) => x = run_view (view db) p /\ exists db', r = ExecutionDBRef_from db' /\ only_read db db'
  | None => panics_from db
  end.
Proof.
  induction p as [x|q k IH]; intros db; simpl; [split; [done|]; exists db; split; [done|by constructor]|].
  rewrite execution_read_ref. destruct (read db q) as [[res db1]|] eqn:Hr; simpl; [|by exists db, q].
  assert (only_read db db1) as H1 by (apply rtc_once; by eauto).
  specialize (IH res db1). destruct (run_ref (k res) (ExecutionDBRef_from db1)) as [[x r]|].
  - destruct IH as [-> (db2 & -> & H2)]. split; [|exists db2; split; [done|by etrans]].
    rewrite <- (read_answer _ _ _ _ Hr). apply run_view_ext. intros q'. by apply only_read_view.
  - by eapply panics_from_trans.
Qed.

Lemma sim_exec_view {A} (p : simulation (DbError := DbError) (Bytecode := Bytecode) (Changes := Changes) A) :
  forall cache db,
  match sim_exec p (cache, ExecutionDBRef_from db) with
  | Some (x, c) => (x, c.1) = sim_view (view db) p cache /\
      exists db', c.2 = ExecutionDBRef_from db' /\ only_read db db'
  | None => panics_from db
  end.
Proof.
  assert (Hext : forall v v' (p : simulation A) cache, (forall q, v q = v' q) -> sim_view v p cache = sim_view v' p cache).
  { intros v v' p' cache Hv. revert cache. induction p' as [x|q k IH|s k IH]; intros cache; simpl; [done| |done].
    rewrite (run_view_ext v v' _ Hv). by destruct (run_view v' _). }
  induction p as [x|q k IH|s k IH]; intros cache db; simpl.
  - split; [done|]. exists db. split; [done|by constructor].
  - unfold cache_db_read. simpl. pose proof (run_ref_view (cache_read cache q) db) as Hq.
    destruct (run_ref _ _) as [[[res cache1] r]|]; simpl; [|done].
    destruct Hq as [<- (db1 & -> & H1)]. specialize (IH res cache1 db1).
    destruct (sim_exec (k res) _) as [[x c]|]; [|by eapply panics_from_trans].
    destruct IH as [-> (db2 & -> & H2)]. split; [|exists db2; split; [done|by etrans]].
    apply Hext. intros q'. by apply only_read_view.
  - apply IH.
Qed.

(** C24: Simulations are isolated.  Whatever a simulation reads and commits, and however the
    cache it runs on uses the reference below: it never panics on a borrowed cell, only
    where a read of the execution database does; it goes, and leaves the cache, as it
    would over the view of that database when it began, so that what it finds below the
    cache does not depend on its own reads; and afterwards the execution database, back in
    its unborrowed cell, has only been read: it still has that view. *)
Theorem simulation_isolated {A} (db : DB)
    (p : simulation (DbError := DbError) (Bytecode := Bytecode) (Changes := Changes) A) :
  match sim_exec p (simulation_db db) with
  | Some (x, (cache, below)) =>
      (x, cache) = sim_view (view db) p Cache_new /\
      exists db', below = ExecutionDBRef_from db' /\ only_read db db' /\ forall q, view db' q = view db q
  | None => exists db' q, only_read db db' /\ read db' q = None
  end.
Proof.
  pose proof (sim_exec_view p Cache_new db) as H. unfold simulation_db, CacheDB_new.
  destruct (sim_exec p _) as [[x [cache below]]|]; [|done].
  destruct H as [Hx (db' & Hb & Hr)]. split; [done|]. exists db'. split_and!; [done..|].
  intros q. by apply only_read_view.
Qed.
End Isolation.

(** ** An instance

    A database that remembers which accounts it has loaded and panics, like [State], when
    asked for the storage of one it has not; and a cache that loads an account before its
    storage, and knows that an account that does not exist has none, like [CacheDB]. *)

Module DemoDb.

Record chain_db := { chain_accounts : gmap Address AccountInfo; chain_storage : gmap (Address * Z) Z;
                     loaded : list Address }.

#[export] Instance chain_database : Database unit unit chain_db := {
  basic db a :=
    Some (Ok (chain_accounts db !! a),
          {| chain_accounts := chain_accounts db; chain_storage := chain_storage db; loaded := a :: loaded db |});
  code_by_hash db _ := Some (Ok tt, db);
  storage db a i :=
    if bool_decide (a ∈ loaded db) then Some (Ok (default 0 (chain_storage db !! (a, i))), db) else None;
  block_hash db n := Some (if n =? 0 then Err tt else Ok n, db);
}.

#[export] Instance chain_laws : DatabaseLaws (D := chain_database).
Proof.
  exists (fun db q => match q return result unit (answer unit q) with
                      | Basic a => Ok (chain_accounts db !! a)
                      | CodeByHash _ => Ok tt
                      | Storage a i => Ok (default 0 (chain_storage db !! (a, i)))
                      | BlockHash n => if n =? 0 then Err tt else Ok n
                      end).
  - intros db [a|h|a i|n] res db'; simpl; [by intros [= <- _]|by intros [= <- _]| |by intros [= <- _]].
    case_bool_decide; [|done]. by intros [= <- _].
  - intros db [a|h|a i|n] res db' q'; simpl; [by intros [= _ <-]; destruct q'|by intros [= _ <-]| |by intros [= _ <-]].
    case_bool_decide; [|done]. by intros [= _ <-].
Defined.

Record account_cache := {
  ac_accounts : gmap Address (option AccountInfo);
  ac_storage : gmap (Address * Z) Z;
}.

(** the account of an address, read from below when the cache has none *)
Definition ac_account {A} (c : account_cache) (a : Address)
    (k : account_cache -> result unit (option AccountInfo) -> reads unit unit A) : reads unit unit A :=
  match ac_accounts c !! a with
  | Some i => k c (Ok i)
  | None => Ask (Basic a) (fun res =>
      match res with
      | Ok i => k {| ac_accounts := <[a := i]> (ac_accounts c); ac_storage := ac_storage c |} (Ok i)
      | Err e => k c (Err e)
      end)
  end.

#[export] Instance account_cache_lib : CacheLib unit unit (gmap Address AccountInfo) := {
  Cache := account_cache;
  Cache_new := {| ac_accounts := ∅; ac_storage := ∅ |};
  cache_read c q :=
    match q return reads unit unit (result unit (answer unit q) * account_cache) with
    | Basic a => ac_account c a (fun c res => Return (res, c))
    | CodeByHash h => Ask (CodeByHash h) (fun res => Return (res, c))
    | Storage a i =>
        match ac_storage c !! (a, i) with
        | Some v => Return (Ok v, c)
        | None => ac_account c a (fun c res =>
            match res with
            | Ok (Some _) => Ask (Storage a i) (fun res =>
                match res with
                | Ok v => Return (Ok v, {| ac_accounts := ac_accounts c; ac_storage := <[(a, i) := v]> (ac_storage c) |})
                | Err e => Return (Err e, c)
                end)
            | Ok None => Return (Ok 0, c)
            | Err e => Return (Err e, c)
            end)
        end
    | BlockHash n => Ask (BlockHash n) (fun res => Return (res, c))
    end;
  cache_commit c s := {| ac_accounts := (Some <$> s) ∪ ac_accounts c; ac_storage := ac_storage c |};
}.

(** account 1 has ten coins; the simulation reads a slot of its storage, moves the coins to
    account 2, and reads both and a slot of an account that does not exist *)
Definition demo_sim : simulation (DbError := unit) (Bytecode := unit) (Changes := gmap Address AccountInfo)
    (result unit Z * list (result unit (option AccountInfo)) * result unit Z) :=
  SimRead (Storage 1 7) (fun slot =>
    SimCommit (<[1 := {| ai_balance := 0; ai_nonce := 1 |}]> (<[2 := {| ai_balance := 10; ai_nonce := 0 |}]> ∅))
      (SimRead (Basic 1) (fun a1 => SimRead (Basic 2) (fun a2 => SimRead (Storage 3 7) (fun none =>
         SimDone (slot, [a1; a2], none)))))).

Definition demo_db : chain_db :=
  {| chain_accounts := <[1 := {| ai_balance := 10; ai_nonce := 0 |}]> ∅;
     chain_storage := <[(1, 7) := 5]> ∅; loaded := [] |}.

Example demo_simulation :
  (fun xc => (xc.1, loaded (cell_value (edr_inner xc.2.2)))) <$> sim_exec demo_sim (simulation_db demo_db) =
  Some (Ok 5, [Ok (Some {| ai_balance := 0; ai_nonce := 1 |}); Ok (Some {| ai_balance := 10; ai_nonce := 0 |})], Ok 0,
        [3; 1]).
Proof. reflexivity. Qed.
End DemoDb.

Import DemoDb.

Lemma simulation_isolated_witness :
  exists x cache db', sim_exec demo_sim (simulation_db demo_db) = Some (x, (cache, ExecutionDBRef_from db')) /\
    x.1.1 = Ok 5 /\ only_read demo_db db' /\ forall q, view db' q = view demo_db q.
Proof.
  pose proof (simulation_isolated demo_db demo_sim) as H. pose proof demo_simulation as Hs.
  destruct (sim_exec demo_sim (simulation_db demo_db)) as [[x [cache below]]|]; [|done].
  destruct H as [_ (db' & -> & H)]. exists x, cache, db'. split; [done|]. split; [by injection Hs as -> _|exact H].
Defined.
