(* ===== verification/Payload.v ===== *)
(** * Build configurations and builds

    Models [crates/primitives/src/payload.rs] and
    [crates/primitives/src/build/mod.rs]: the static and per-slot
    configuration of a build, and the finished build. *)

From stdpp Require Import prelude list gmap.
From S2P Require Import Prelude Types Bundle Validator Chain.

Open Scope Z_scope.

Section Payload.
Context `{EV : Evm}.

Record PayloadConfig := {
  pc_chain_spec : ChainSpec;
  pc_builder_address : Address;
  pc_secret_key : Z;
  pc_extra_data : Bytes;
}.

Record BuildConfig := {
  bc_slot : Z;
  bc_attributes : PayloadAttributes;
  bc_validator_info : ValidatorScheduleSlotInfo;
  bc_parent_block : SealedBlock;
  bc_block_number : Z;
  bc_initialized_block_env : BlockEnv;
  bc_initialized_cfg : CfgEnv;
  bc_block_gas_limit : Z;
  bc_basefee : Z;
}.

Definition parent_header (c : BuildConfig) : Header := bl_header (sl_block (bc_parent_block c)).

(** [U256::to::<u64>()] and [to::<u128>()] panic out of range. *)
Definition to_u64 (x : Z) : option Z := if (0 <=? x) && (x <? 2 ^ 64) then Some x else None.
Definition to_u128 (x : Z) : option Z := if (0 <=? x) && (x <? 2 ^ 128) then Some x else None.

Definition BuildConfig_new (chain_spec : ChainSpec) (attributes : PayloadAttributes)
    (parent_block : SealedBlock) (slot : Z) (validator : ValidatorScheduleSlotInfo)
  : run PayloadBuilderError BuildConfig :=
  let '(cfg, env) := cfg_and_block_env attributes chain_spec (bl_header (sl_block parent_block)) in
  number ← expect (to_u64 (be_number env));
  mret {| bc_slot := slot;
          bc_attributes := attributes;
          bc_validator_info := validator;
          bc_parent_block := parent_block;
          bc_block_number := number;
          bc_initialized_block_env := env;
          bc_initialized_cfg := cfg;
          bc_block_gas_limit :=
            suggest_gas_limit validator (hd_gas_limit (bl_header (sl_block parent_block)));
          bc_basefee := be_basefee env |}.

Definition env_set_coinbase (e : BlockEnv) (a : Address) : BlockEnv :=
  {| be_number := be_number e; be_coinbase := a; be_timestamp := be_timestamp e;
     be_gas_limit := be_gas_limit e; be_basefee := be_basefee e;
     be_prevrandao := be_prevrandao e; be_blob_gasprice := be_blob_gasprice e |}.

Definition block_env_with_coinbase (self : BuildConfig) (builder_address : Address) : BuildConfig :=
  {| bc_slot := bc_slot self; bc_attributes := bc_attributes self;
     bc_validator_info := bc_validator_info self; bc_parent_block := bc_parent_block self;
     bc_block_number := bc_block_number self;
     bc_initialized_block_env := env_set_coinbase (bc_initialized_block_env self) builder_address;
     bc_initialized_cfg := bc_initialized_cfg self; bc_block_gas_limit := bc_block_gas_limit self;
     bc_basefee := bc_basefee self |}.

(** [Header::default()] and [Block::default()] of [reth] *)
Definition Header_default : Header :=
  {| hd_parent_hash := 0; hd_ommers_hash := EMPTY_OMMER_ROOT_HASH; hd_beneficiary := 0;
     hd_state_root := EMPTY_TRANSACTIONS; hd_transactions_root := EMPTY_TRANSACTIONS;
     hd_receipts_root := EMPTY_RECEIPTS; hd_withdrawals_root := None; hd_logs_bloom := repeat Byte.x00 256;
     hd_timestamp := 0; hd_mix_hash := 0; hd_nonce := 0; hd_base_fee_per_gas := None; hd_number := 0;
     hd_gas_limit := 0; hd_difficulty := 0; hd_gas_used := 0; hd_extra_data := [];
     hd_parent_beacon_block_root := None; hd_blob_gas_used := None; hd_excess_blob_gas := None |}.

Definition Block_default : Block :=
  {| bl_header := Header_default; bl_body := []; bl_withdrawals := None |}.

(** The defaults of both configurations: the default of the chain specification and of a
    public key, and the random key, are given. *)
Definition PayloadConfig_default (chain_spec : ChainSpec) (random_key : Z) : PayloadConfig :=
  {| pc_chain_spec := chain_spec; pc_builder_address := 0; pc_secret_key := random_key;
     pc_extra_data := [] |}.

Definition slot_info_default (public_key : BlsPublicKey) : ValidatorScheduleSlotInfo :=
  {| vi_proposer := public_key; vi_fee_recipient := 0; vi_gas_limit := 0; vi_slot := 0 |}.

Definition BuildConfig_from (chain_spec : ChainSpec) (public_key : BlsPublicKey)
    (attributes : PayloadAttributes) : run PayloadBuilderError BuildConfig :=
  BuildConfig_new chain_spec attributes (seal_slow Block_default) 0 (slot_info_default public_key).

(** ** Builds *)

Record Build := {
  b_id : Z;
  b_validator_info : ValidatorScheduleSlotInfo;
  b_payload : EthBuiltPayload;
  b_bid : Z;
}.

Definition build_header (b : Build) : Header := bl_header (sl_block (bp_block (b_payload b))).

Definition as_block_number_and_ts (self : Build) : Z * Z :=
  (hd_number (build_header self), hd_timestamp (build_header self)).
End Payload.
