(* ===== verification/SimState.v ===== *)
(** * Simulated transactions and bundles

    Models [crates/payload/src/strategy/state/transaction.rs], [bundle.rs] and
    [exec_details.rs]: the outcome of a simulation, its aggregation over a
    bundle, the order of bundles, and the details of an execution. *)

From stdpp Require Import prelude list gmap sorting.
From S2P Require Import Prelude Types Bundle Chain Ofac.

Open Scope Z_scope.

Section SimState.
Context `{EV : Evm}.

(** ** [transaction.rs] *)

Record TransactionSimulationOutcome := {
  to_evm_result : ExecutionResult;
  to_evm_state : gmap Address Account;
  to_gas_used : Z;
  to_blob_gas_used : Z;
  to_fees : Z;
  to_coinbase_transfer : Z;
}.

Record SimulatedTransaction := {
  st_tx : SignedTx;
  st_outcome : TransactionSimulationOutcome;
}.

(** [contains_ofac_addresses]: the first touched address on the list, in the
    iteration order of the map *)
Definition outcome_contains_ofac (self : TransactionSimulationOutcome) : option Address :=
  fst <$> head (filter (fun kv => ofac_address kv.1 = true) (map_to_list (to_evm_state self))).

(** ** [bundle.rs] *)

Record BundleSimulationOutcome := {
  bo_reverted : option nat;
  bo_gas_used : Z;
  bo_blob_gas_used : Z;
  bo_fees : Z;
  bo_coinbase_transfer : Z;
  bo_refund : Z;
}.

Definition outcome_default : BundleSimulationOutcome :=
  {| bo_reverted := None; bo_gas_used := 0; bo_blob_gas_used := 0; bo_fees := 0;
     bo_coinbase_transfer := 0; bo_refund := 0 |}.

(** [add_tx_outcome]: [u64] and [U256] additions *)
Definition add_tx_outcome (self : BundleSimulationOutcome) (t : TransactionSimulationOutcome)
  : BundleSimulationOutcome :=
  {| bo_reverted := bo_reverted self;
     bo_gas_used := u64_add (bo_gas_used self) (to_gas_used t);
     bo_blob_gas_used := u64_add (bo_blob_gas_used self) (to_blob_gas_used t);
     bo_fees := u256_add (bo_fees self) (to_fees t);
     bo_coinbase_transfer := u256_add (bo_coinbase_transfer self) (to_coinbase_transfer t);
     bo_refund := bo_refund self |}.

Definition set_reverted (self : BundleSimulationOutcome) (i : nat) : BundleSimulationOutcome :=
  {| bo_reverted := Some i; bo_gas_used := bo_gas_used self;
     bo_blob_gas_used := bo_blob_gas_used self; bo_fees := bo_fees self;
     bo_coinbase_transfer := bo_coinbase_transfer self; bo_refund := bo_refund self |}.

(** a transaction that failed and is not allowed to *)
Definition forbidden_revert (bundle : RecoveredBundle) (s : SimulatedTransaction) : bool :=
  negb (er_is_success (to_evm_result (st_outcome s))) &&
  negb (bool_decide (tx_hash (st_tx s) ∈ rb_reverting_tx_hashes bundle)).

(** the loop of [from_txs]: sums up to the first forbidden revert *)
Fixpoint from_txs_loop (bundle : RecoveredBundle) (index : nat) (acc : BundleSimulationOutcome)
    (l : list SimulatedTransaction) : BundleSimulationOutcome :=
  match l with
  | [] => acc
  | s :: l' =>
      if forbidden_revert bundle s then set_reverted acc index
      else from_txs_loop bundle (S index) (add_tx_outcome acc (st_outcome s)) l'
  end.

Definition from_txs (bundle : RecoveredBundle) (l : list SimulatedTransaction)
  : BundleSimulationOutcome :=
  from_txs_loop bundle 0 outcome_default l.

Definition total_value (self : BundleSimulationOutcome) : Z :=
  u256_saturating_sub (u256_saturating_add (bo_fees self) (bo_coinbase_transfer self))
    (bo_refund self).

(** [bundle_sort_by_max_value(a, b) != Greater] *)
Definition bundle_sort_by_max_value (a b : BundleSimulationOutcome) : bool :=
  total_value b <=? total_value a.

Record SimulatedBundle := {
  sm_bundle : RecoveredBundle;
  sm_simulated_txs : list SimulatedTransaction;
  sm_outcome : BundleSimulationOutcome;
}.

Definition calculate_refund (self : SimulatedBundle) (base_fee : Z) : Z :=
  match rb_refund (sm_bundle self) with
  | None => 0
  | Some bundle_refund =>
      default 0
        ((fun s => refund_amount bundle_refund (to_fees (st_outcome s))
                     (to_coinbase_transfer (st_outcome s)) base_fee) <$>
         (refund_index (sm_bundle self) ≫= fun i => sm_simulated_txs self !! i))
  end.

Definition set_refund (self : BundleSimulationOutcome) (refund : Z) : BundleSimulationOutcome :=
  {| bo_reverted := bo_reverted self; bo_gas_used := bo_gas_used self;
     bo_blob_gas_used := bo_blob_gas_used self; bo_fees := bo_fees self;
     bo_coinbase_transfer := bo_coinbase_transfer self; bo_refund := refund |}.

Definition SimulatedBundle_new (bundle : RecoveredBundle) (l : list SimulatedTransaction)
    (base_fee : Z) : SimulatedBundle :=
  let outcome := from_txs bundle l in
  let simulated := {| sm_bundle := bundle; sm_simulated_txs := l; sm_outcome := outcome |} in
  let refund := calculate_refund simulated base_fee in
  {| sm_bundle := bundle; sm_simulated_txs := l; sm_outcome := set_refund outcome refund |}.

Definition sort_by_max_value (bundles : list SimulatedBundle) : list SimulatedBundle :=
  sort_by (fun a b => bundle_sort_by_max_value (sm_outcome a) (sm_outcome b)) bundles.

Definition add_tx (self : SimulatedBundle) (t : SimulatedTransaction) : SimulatedBundle :=
  {| sm_bundle := sm_bundle self; sm_simulated_txs := sm_simulated_txs self ++ [t];
     sm_outcome := add_tx_outcome (sm_outcome self) (st_outcome t) |}.

(** [impl BundleValidator for SimulatedBundle] *)
Definition contains_committed_transaction (self : SimulatedBundle) (committed : gset B256) : bool :=
  existsb (fun t => bool_decide (tx_hash t ∈ committed)) (rb_txs (sm_bundle self)).

Definition contains_ofac (self : SimulatedBundle) : bool :=
  existsb ofac_tx (rb_txs (sm_bundle self)).

(** ** [exec_details.rs] *)

Record ExecutionDetails := {
  ed_executed_txs : list TransactionSigned;
  ed_receipts : list (option Receipt);
  ed_cumulative_gas_used : Z;
  ed_cumulative_blob_gas_used : Z;
  ed_sum_fees : Z;
  ed_sum_coinbase_transfers : Z;
  ed_builder_payment : option Z;
  ed_bundle_state : option BundleState;
}.

Definition ExecutionDetails_default : ExecutionDetails :=
  {| ed_executed_txs := []; ed_receipts := []; ed_cumulative_gas_used := 0;
     ed_cumulative_blob_gas_used := 0; ed_sum_fees := 0; ed_sum_coinbase_transfers := 0;
     ed_builder_payment := None; ed_bundle_state := None |}.

Definition set_builder_payment (self : ExecutionDetails) (payment : Z) : ExecutionDetails :=
  {| ed_executed_txs := ed_executed_txs self; ed_receipts := ed_receipts self;
     ed_cumulative_gas_used := ed_cumulative_gas_used self;
     ed_cumulative_blob_gas_used := ed_cumulative_blob_gas_used self;
     ed_sum_fees := ed_sum_fees self;
     ed_sum_coinbase_transfers := ed_sum_coinbase_transfers self;
     ed_builder_payment := Some payment; ed_bundle_state := ed_bundle_state self |}.

Definition set_bundle_state (self : ExecutionDetails) (b : BundleState) : ExecutionDetails :=
  {| ed_executed_txs := ed_executed_txs self; ed_receipts := ed_receipts self;
     ed_cumulative_gas_used := ed_cumulative_gas_used self;
     ed_cumulative_blob_gas_used := ed_cumulative_blob_gas_used self;
     ed_sum_fees := ed_sum_fees self;
     ed_sum_coinbase_transfers := ed_sum_coinbase_transfers self;
     ed_builder_payment := ed_builder_payment self; ed_bundle_state := Some b |}.
End SimState.

(** ** Properties *)

Section SimStateProofs.
Context `{EV : Evm}.

Definition sum_of (f : TransactionSimulationOutcome -> Z) (l : list SimulatedTransaction) : Z :=
  foldr (fun s n => f (st_outcome s) + n) 0 l.

Lemma sum_of_app f l k : sum_of f (l ++ k) = sum_of f l + sum_of f k.
Proof. induction l as [|s l IH]; simpl; [done|]. rewrite IH. lia. Qed.

Lemma u64_wrap_add_l x y : u64_wrap (u64_wrap x + y) = u64_wrap (x + y).
Proof. apply Z.add_mod_idemp_l. lia. Qed.

(** an accumulator after a list of outcomes *)
Definition sums_from (acc : BundleSimulationOutcome) (l : list SimulatedTransaction)
    (o : BundleSimulationOutcome) : Prop :=
  bo_gas_used o = u64_wrap (bo_gas_used acc + sum_of to_gas_used l) /\
  bo_blob_gas_used o = u64_wrap (bo_blob_gas_used acc + sum_of to_blob_gas_used l) /\
  bo_fees o = u256_wrap (bo_fees acc + sum_of to_fees l) /\
  bo_coinbase_transfer o = u256_wrap (bo_coinbase_transfer acc + sum_of to_coinbase_transfer l) /\
  bo_refund o = bo_refund acc.

Lemma add_tx_outcome_sums acc t :
  sums_from acc [t] (add_tx_outcome acc (st_outcome t)).
Proof. unfold sums_from, add_tx_outcome; simpl. by rewrite !Z.add_0_r. Qed.

Lemma sums_from_cons acc s l o :
  sums_from (add_tx_outcome acc (st_outcome s)) l o -> sums_from acc (s :: l) o.
Proof.
  unfold sums_from, add_tx_outcome, u64_add, u256_add; simpl.
  rewrite !u64_wrap_add_l, !u256_wrap_add_l, !Z.add_assoc. done.
Qed.

(** [reverted] is the index of the first forbidden revert, and the sums stop there. *)
Lemma from_txs_loop_spec bundle i acc l :
  let o := from_txs_loop bundle i acc l in
  bo_reverted acc = None ->
  match list_find (fun s => forbidden_revert bundle s = true) l with
  | None => bo_reverted o = None
  | Some (n, _) => bo_reverted o = Some (i + n)%nat
  end.
Proof.
  revert i acc. induction l as [|s l IH]; intros i acc o Hacc; [done|]. unfold o. simpl.
  destruct (forbidden_revert bundle s) eqn:E; case_decide; try congruence; simpl.
  - f_equal. lia.
  - specialize (IH (S i) (add_tx_outcome acc (st_outcome s)) Hacc). simpl in IH.
    destruct (list_find _ l) as [[n x]|]; simpl; [|done]. rewrite IH. f_equal. lia.
Qed.

Lemma from_txs_loop_sums bundle i acc l :
  is_u64 (bo_gas_used acc) -> is_u64 (bo_blob_gas_used acc) ->
  is_u256 (bo_fees acc) -> is_u256 (bo_coinbase_transfer acc) ->
  Forall (fun s => forbidden_revert bundle s = false) l ->
  sums_from acc l (from_txs_loop bundle i acc l).
Proof.
  revert i acc. induction l as [|s l IH]; intros i acc H1 H2 H3 H4 Hl; simpl.
  - unfold sums_from. simpl. rewrite !Z.add_0_r, !u64_wrap_small, !u256_wrap_small by done. done.
  - inversion Hl as [|? ? Hs Hl']; subst. rewrite Hs. apply sums_from_cons, IH; simpl;
      eauto using u64_add_range, u256_add_range.
Qed.

Lemma from_txs_not_reverted bundle l :
  bo_reverted (from_txs bundle l) = None <-> Forall (fun s => forbidden_revert bundle s = false) l.
Proof.
  pose proof (from_txs_loop_spec bundle 0 outcome_default l eq_refl) as H. simpl in H.
  unfold from_txs. destruct (list_find _ l) as [[n x]|] eqn:E.
  - rewrite H. split; [done|]. intros Hall. apply list_find_Some in E as (Hx & Hf & _).
    eapply Forall_lookup_1 in Hall; [|exact Hx]. simpl in *. congruence.
  - rewrite H. split; [intros _|done]. apply list_find_None in E.
    eapply Forall_impl; [exact E|]. intros s. simpl. by destruct (forbidden_revert bundle s).
Qed.

Lemma from_txs_sums bundle l :
  bo_reverted (from_txs bundle l) = None -> sums_from outcome_default l (from_txs bundle l).
Proof.
  intros H%from_txs_not_reverted. apply from_txs_loop_sums; unfold is_u64, is_u256; simpl; lia || done.
Qed.

Lemma outcome_contains_ofac_None o :
  outcome_contains_ofac o = None <->
  forall a acc, to_evm_state o !! a = Some acc -> is_ofac a = false.
Proof.
  unfold outcome_contains_ofac. split.
  - intros H a acc Ha. destruct (is_ofac a) eqn:E; [|done]. exfalso.
    destruct (filter _ _) as [|x l] eqn:F in H; [|done].
    assert (Hin : (a, acc) ∈ filter (fun kv => ofac_address kv.1 = true) (map_to_list (to_evm_state o))).
    { apply list_elem_of_filter. rewrite ofac_address_is_ofac. by rewrite elem_of_map_to_list. }
    rewrite F in Hin. by apply not_elem_of_nil in Hin.
  - intros H. destruct (filter _ _) as [|[a acc] l] eqn:F; [done|]. exfalso.
    assert (Hin : (a, acc) ∈ filter (fun kv => ofac_address kv.1 = true) (map_to_list (to_evm_state o)))
      by (rewrite F; left).
    apply list_elem_of_filter in Hin as [Hf Hin]. rewrite ofac_address_is_ofac in Hf.
    apply elem_of_map_to_list in Hin. simpl in Hf. by rewrite (H a acc Hin) in Hf.
Qed.

(** bundles are tried in order of decreasing value; ties keep the order in
    which the pool returned them, and no bundle is lost or repeated. *)
Theorem sort_by_max_value_correct (bs : list SimulatedBundle) :
  sort_by_max_value bs ≡ₚ bs /\
  StronglySorted (fun a b => total_value (sm_outcome b) <= total_value (sm_outcome a))
    (sort_by_max_value bs) /\
  forall k, List.filter (fun b => total_value (sm_outcome b) =? total_value (sm_outcome k))
              (sort_by_max_value bs) =
            List.filter (fun b => total_value (sm_outcome b) =? total_value (sm_outcome k)) bs.
Proof.
  unfold sort_by_max_value, bundle_sort_by_max_value.
  set (le := fun a b => total_value (sm_outcome b) <=? total_value (sm_outcome a)).
  assert (Htot : forall x y, le x y = true \/ le y x = true) by (unfold le; intros; lia).
  assert (Htr : forall x y z, le x y = true -> le y z = true -> le x z = true) by (unfold le; intros; lia).
  split_and!.
  - apply sort_by_perm.
  - pose proof (sort_by_sorted le Htot Htr bs) as Hs. revert Hs. generalize (sort_by le bs) as l.
    induction 1 as [|x l Hl IH Hx]; constructor; [done|]. eapply Forall_impl; [exact Hx|].
    unfold le. simpl. intros y. lia.
  - intros k.
    assert (He : forall l, List.filter (fun b => total_value (sm_outcome b) =? total_value (sm_outcome k)) l
                   = List.filter (same_rank le k) l).
    { intros l. apply List.filter_ext. intros b. unfold same_rank, le. lia. }
    rewrite !He. by apply sort_by_stable.
Qed.

(** the aggregate of a bundle is rejected at its first failed transaction that
    may not revert; otherwise it carries the sums over all its transactions. *)
Theorem from_txs_correct (bundle : RecoveredBundle) (l : list SimulatedTransaction) :
  let o := from_txs bundle l in
  (forall n, bo_reverted o = Some n <->
     exists s, l !! n = Some s /\ forbidden_revert bundle s = true /\
       forall m s', l !! m = Some s' -> (m < n)%nat -> forbidden_revert bundle s' = false) /\
  (bo_reverted o = None -> sums_from outcome_default l o).
Proof.
  intros o. split; [|apply from_txs_sums]. intros n.
  pose proof (from_txs_loop_spec bundle 0 outcome_default l eq_refl) as H. simpl in H.
  unfold o, from_txs. destruct (list_find _ l) as [[k x]|] eqn:E; rewrite H.
  - apply list_find_Some in E as (Hx & Hf & Hmin). split.
    + intros [= <-]. exists x. split_and!; [done|done|]. intros m s' Hm Hlt.
      specialize (Hmin m s' Hm Hlt). by destruct (forbidden_revert bundle s').
    + intros (s & Hs & Hfs & Hmins). f_equal. destruct (lt_eq_lt_dec k n) as [[Hlt| ->]|Hgt]; [|done|].
      * by rewrite (Hmins k x Hx Hlt) in Hf.
      * by destruct (Hmin n s Hs Hgt).
  - split; [done|]. intros (s & Hs & Hfs & _). apply list_find_None in E.
    eapply Forall_lookup_1 in E; [|exact Hs]. by destruct E.
Qed.
End SimStateProofs.
