(* ===== verification/DemoEvm.v ===== *)
(** * A toy execution layer

    An instance of [Evm] and of its laws on which the models of the builder
    are evaluated: accounts with a balance and a nonce, transactions that pay a
    tip per gas and a direct payment to the coinbase. *)

From stdpp Require Import prelude list gmap.
From S2P Require Import Prelude Types Chain.

Open Scope Z_scope.

Import Demo.

Abbreviation accounts := (gmap Address AccountInfo).

Definition demo_account (m : accounts) (a : Address) : AccountInfo :=
  default {| ai_balance := 0; ai_nonce := 0 |} (m !! a).

Definition demo_credit (m : accounts) (a : Address) (v : Z) : accounts :=
  <[a := {| ai_balance := ai_balance (demo_account m a) + v;
            ai_nonce := ai_nonce (demo_account m a) |}]> m.

Definition demo_bump (m : accounts) (a : Address) : accounts :=
  <[a := {| ai_balance := ai_balance (demo_account m a);
            ai_nonce := ai_nonce (demo_account m a) + 1 |}]> m.

Definition demo_transact (m : accounts) (env : BlockEnv) (t : Demo.demo_tx)
  : result EVMError ((Z * bool) * accounts) :=
  let s := demo_account m (Demo.dt_signer t) in
  let price := Demo.dt_tip t * Demo.dt_gas t + Demo.dt_pay t in
  if Demo.dt_nonce t <? ai_nonce s then Err (EvmTransaction NonceTooLow)
  else if ai_nonce s <? Demo.dt_nonce t then Err (EvmTransaction (OtherInvalidTransaction 0))
  else if (Demo.dt_gas t <? 0) || (be_gas_limit env <? Demo.dt_gas t)
  then Err (EvmTransaction (OtherInvalidTransaction 1))
  else if MAX_DATA_GAS_PER_BLOCK <? u64_wrap (default 0 (Demo.dt_blob t))
  then Err (EvmTransaction (OtherInvalidTransaction 3))
  else if ai_balance s <? price + Demo.dt_value t then Err (EvmTransaction (OtherInvalidTransaction 2))
  else
    let m := demo_bump m (Demo.dt_signer t) in
    let m := demo_credit m (Demo.dt_signer t) (- (price + Demo.dt_value t)) in
    let m := demo_credit m (default 0 (Demo.dt_to t)) (Demo.dt_value t) in
    Ok ((Demo.dt_gas t, Demo.dt_ok t), demo_credit m (be_coinbase env) price).

(** a chain is its accounts; block 0 is unknown *)
#[export] Instance demo_evm : Evm := {|
  TransactionSigned := Demo.demo_tx;
  into_signed t := t;
  signed_hash := Demo.dt_hash;
  is_eip4844 t := bool_decide (is_Some (Demo.dt_blob t));
  tx_gas_limit := Demo.dt_gas;
  TxSignature := Z;
  signature_hash t := t1559_nonce t;
  sign_message key h := Some key;
  from_transaction_and_signature t key :=
    Demo.DemoTx (1 + Z.abs (t1559_nonce t + 1000 * t1559_value t)) key (t1559_nonce t)
      (Some (t1559_to t)) (t1559_value t) 0 (t1559_gas_limit t) 0 None true;
  ChainSpec := unit;
  is_shanghai_active_at_timestamp _ t := 100 <=? t;
  is_cancun_active_at_timestamp _ t := 200 <=? t;
  CfgEnv := unit;
  cfg_chain_id _ := 1;
  cfg_and_block_env a _ parent :=
    (tt, {| be_number := hd_number parent + 1; be_coinbase := 0; be_timestamp := pa_timestamp a;
            be_gas_limit := hd_gas_limit parent; be_basefee := 1; be_prevrandao := None;
            be_blob_gasprice := None |});
  Log := unit;
  ExecutionResult := Z * bool;
  er_gas_used r := u64_wrap r.1;
  er_is_success r := r.2;
  er_logs _ := [];
  Account := AccountInfo;
  account_balance := ai_balance;
  BundleState := accounts;
  bundle_state_default := ∅;
  CachedReads := unit;
  cached_reads_default := tt;
  StateProvider := accounts;
  ExecutionDB := accounts;
  SimulationDB := accounts;
  exec_db_new sp _ prestate := default ∅ prestate ∪ sp;
  db_cached_reads _ := tt;
  simulation_db db := db;
  db_basic db a := Ok (db !! a);
  sim_basic db a := Ok (db !! a);
  sim_transact db _ env t := demo_transact db env t;
  sim_commit db s := s ∪ db;
  db_commit db s := s ∪ db;
  post_block_withdrawals_balance_increments _ _ ws := (fun w => (wd_address w, wd_amount w)) <$> ws;
  increment_balances db l := Ok (foldl (fun m kv => demo_credit m kv.1 kv.2) db l);
  apply_beacon_root_contract_call _ _ _ _ _ _ db := Ok db;
  merge_transitions db := db;
  take_bundle db := db;
  Client := accounts;
  state_by_block_hash c h := if h =? 0 then Err (RethOther 0) else Ok c;
  state_root _ b := Ok (Z.of_nat (size b));
  TxPool := list Demo.demo_tx;
  Sidecar := B256;
  get_all_blobs_exact _ hs := Ok hs;
  calculate_withdrawals_root ws := Z.of_nat (length ws);
  calculate_transaction_root ts := foldr (fun t n => Demo.dt_hash t + 31 * n) 7 ts;
  calculate_excess_blob_gas a b := a + b;
  hash_header h := hd_number h + 1000 * hd_timestamp h + 1000000 * hd_transactions_root h;
  EMPTY_WITHDRAWALS := 0;
  EMPTY_TRANSACTIONS := 7;
  EMPTY_RECEIPTS := 0;
  EMPTY_OMMER_ROOT_HASH := 0;
  BEACON_NONCE := 0;
|}.

#[export] Instance demo_roots : ReceiptRoots := {|
  receipts_root_slow _ rs first n :=
    if first =? n then Some (Z.of_nat (length (concat rs))) else None;
  block_logs_bloom _ rs first n := if first =? n then Some [] else None;
|}.

#[export] Instance demo_laws : EvmLaws.
Proof.
  split; simpl.
  - intros. by eexists.
  - intros r. apply u64_wrap_range.
  - intros t g Hg. destruct (Demo.dt_blob t) as [b|]; [|done]. injection Hg as <-. apply u64_wrap_range.
  - intros t b g [= <-]. apply Z.mod_pos_bound. lia.
  - intros b rs n. by rewrite Z.eqb_refl.
  - intros b rs n. by rewrite Z.eqb_refl.
  - intros key t. eexists. split; [done|].
    destruct (Z.eqb_spec (1 + Z.abs (t1559_nonce t + 1000 * t1559_value t)) 0); [lia|done].
  - intros db _ env t r. unfold demo_transact.
    repeat case_match; try done. intros [= <-]. simpl. unfold u64_wrap.
    rewrite orb_false_iff in *. split; [apply Z.mod_le; lia|lia].
  - intros db _ env t r. unfold demo_transact.
    repeat case_match; try done. intros _. pose proof (u64_wrap_range (default 0 (Demo.dt_blob t))) as [? _].
    destruct (Demo.dt_blob t); simpl in *; lia.
  - intros t s r. destruct (1 + Z.abs _ =? 0); [done|]. by intros [= <-].
Qed.
