(* ===== verification/State.v ===== *)
(** * The build state

    Models [crates/payload/src/strategy/state/mod.rs]: the state machine a
    block is built with.  Transactions and bundles are simulated on a cache over
    the execution database, verified against the limits of the block and
    committed; the state is finally turned into a build.  A method that takes
    [&mut self] and [&mut db] returns the new state and database; on an error
    neither has changed, because every method commits last. *)

From stdpp Require Import prelude list gmap strings pretty.
From S2P Require Import Prelude Types Bundle Validator Chain Payload Ofac SimState.

Open Scope Z_scope.

Inductive BuildStateExecutionError :=
| MaxGasExceeded
| MaxBlobGasExceeded
| PayloadBuilder (e : PayloadBuilderError)
| BundleExection (e : EVMError)
| BundleReverted (i : nat)
| OfacAddressDetected (a : Address)
| BuilderRefundTx (msg : string).

(** The text of library errors and the derived [Debug] of the error type. *)
Class ErrorText := {
  pbe_to_string : PayloadBuilderError -> string;
  evm_error_to_string : EVMError -> string;
  address_to_string : Address -> string;
  bse_debug : BuildStateExecutionError -> string;
}.

Section State.
Context `{EV : Evm} `{RR : !ReceiptRoots} `{ER : ErrorText}.

(** The [#[error]] texts. *)
Definition bse_to_string (e : BuildStateExecutionError) : string :=
  match e with
  | MaxGasExceeded => "Block max gas exceeded"
  | MaxBlobGasExceeded => "Block max blob gas exceeded"
  | PayloadBuilder e => pbe_to_string e
  | BundleExection e => evm_error_to_string e
  | BundleReverted i => "Bundle reverted at tx " ++ pretty i
  | OfacAddressDetected a =>
      "Simulation outcome contains ofac blacklisted address " ++ address_to_string a
  | BuilderRefundTx m => "Builder refund tx failed: " ++ m
  end.

Record BuildState := {
  bs_id : Z;
  bs_timestamp : Z;
  bs_payload_config : PayloadConfig;
  bs_build_config : BuildConfig;
  bs_exec_details : ExecutionDetails;
}.

(** [BuildState::new]: the random identifier is an input *)
Definition BuildState_new (id : Z) (build_config : BuildConfig) (payload_config : PayloadConfig)
    (timestamp : Z) : BuildState :=
  {| bs_id := id; bs_timestamp := timestamp; bs_payload_config := payload_config;
     bs_build_config := block_env_with_coinbase build_config (pc_builder_address payload_config);
     bs_exec_details := ExecutionDetails_default |}.

Definition set_exec_details (self : BuildState) (d : ExecutionDetails) : BuildState :=
  {| bs_id := bs_id self; bs_timestamp := bs_timestamp self;
     bs_payload_config := bs_payload_config self; bs_build_config := bs_build_config self;
     bs_exec_details := d |}.

Definition block_value (self : BuildState) : Z :=
  u256_add (ed_sum_fees (bs_exec_details self)) (ed_sum_coinbase_transfers (bs_exec_details self)).

Definition with_payment (self : BuildState) (builder_payment : Z) : BuildState :=
  set_exec_details self (set_builder_payment (bs_exec_details self) builder_payment).

Definition with_bundle_state (self : BuildState) (b : BundleState) : BuildState :=
  set_exec_details self (set_bundle_state (bs_exec_details self) b).

Definition bs_env (self : BuildState) : BlockEnv := bc_initialized_block_env (bs_build_config self).
Definition bs_cfg (self : BuildState) : CfgEnv := bc_initialized_cfg (bs_build_config self).

(** ** Withdrawals and the beacon root *)

Record WithdrawalsOutcome := {
  wo_withdrawals : option (list Withdrawal);
  wo_withdrawals_root : option B256;
}.

Definition pre_shanghai : WithdrawalsOutcome :=
  {| wo_withdrawals := None; wo_withdrawals_root := None |}.
Definition withdrawals_empty : WithdrawalsOutcome :=
  {| wo_withdrawals := Some []; wo_withdrawals_root := Some EMPTY_WITHDRAWALS |}.

Definition commit_withdrawals (db : ExecutionDB) (chain_spec : ChainSpec) (timestamp : Z)
    (withdrawals : list Withdrawal) : result RethError (ExecutionDB * WithdrawalsOutcome) :=
  if negb (is_shanghai_active_at_timestamp chain_spec timestamp) then Ok (db, pre_shanghai)
  else
    match withdrawals with
    | [] => Ok (db, withdrawals_empty)
    | _ =>
        db' ← increment_balances db
                (post_block_withdrawals_balance_increments chain_spec timestamp withdrawals);
        mret (db', {| wo_withdrawals := Some withdrawals;
                      wo_withdrawals_root := Some (calculate_withdrawals_root withdrawals) |})
    end.

(** [pre_block_beacon_root_contract_call]: the root is the one of the parent block. *)
Definition pre_block_beacon_root_contract_call (self : BuildState) (db : ExecutionDB)
  : result PayloadBuilderError ExecutionDB :=
  map_err Internal
    (apply_beacon_root_contract_call (pc_chain_spec (bs_payload_config self))
       (pa_timestamp (bc_attributes (bs_build_config self)))
       (bc_block_number (bs_build_config self))
       (hd_parent_beacon_block_root (parent_header (bs_build_config self)))
       (bs_cfg self) (bs_env self) db).

(** ** The builder's transfer *)

(** [create_builder_transfer_transaction]: [basic] reads the database it is given. *)
Definition create_builder_transfer_transaction (self : BuildState)
    (basic : Address -> result RethError (option AccountInfo)) (recipient : Address) (payment : Z)
  : run PayloadBuilderError SignedTx :=
  account ← lift_err Internal (basic (pc_builder_address (bs_payload_config self)));
  let nonce := match account with Some a => ai_nonce a | None => 0 end in
  fee ← expect (to_u128 (be_basefee (bs_env self)));
  let new_tx :=
    {| t1559_chain_id := cfg_chain_id (bs_cfg self); t1559_nonce := nonce;
       t1559_gas_limit := MAX_BUILDER_TRANSFER_GAS_LIMIT; t1559_to := recipient;
       t1559_value := payment; t1559_max_fee_per_gas := fee;
       t1559_max_priority_fee_per_gas := 0 |} in
  signature ← expect (sign_message (pc_secret_key (bs_payload_config self)) (signature_hash new_tx));
  expect (into_ecrecovered (from_transaction_and_signature new_tx signature)).

(** ** Verification against the limits of the block *)

(** the two tests both verifications make, in [u64] arithmetic *)
Definition verify_limits (self : BuildState) (gas_used blob_gas_used : Z)
  : result BuildStateExecutionError unit :=
  if u64_add (u64_add (ed_cumulative_gas_used (bs_exec_details self)) gas_used)
       MAX_BUILDER_TRANSFER_GAS_LIMIT >? bc_block_gas_limit (bs_build_config self)
  then Err MaxGasExceeded
  else if u64_add (ed_cumulative_blob_gas_used (bs_exec_details self)) blob_gas_used
            >? MAX_DATA_GAS_PER_BLOCK
  then Err MaxBlobGasExceeded
  else Ok tt.

Definition verify_simulated_transaction (self : BuildState) (s : SimulatedTransaction)
  : result BuildStateExecutionError unit :=
  verify_limits self (to_gas_used (st_outcome s)) (to_blob_gas_used (st_outcome s)).

Definition verify_simulated_bundle (self : BuildState) (s : SimulatedBundle)
  : result BuildStateExecutionError unit :=
  match bo_reverted (sm_outcome s) with
  | Some i => Err (BundleReverted i)
  | None => verify_limits self (bo_gas_used (sm_outcome s)) (bo_blob_gas_used (sm_outcome s))
  end.

(** ** Simulation *)

(** the balance of the coinbase an account read yields *)
Definition balance_or_default (a : option AccountInfo) : Z :=
  match a with Some a => ai_balance a | None => 0 end.

(** [evm_state.get(&coinbase).map(|acct| acct.info.balance).unwrap_or_default()] *)
Definition state_balance (state : gmap Address Account) (a : Address) : Z :=
  match state !! a with Some acct => account_balance acct | None => 0 end.

(** what both simulations compute from an execution result *)
Definition outcome_of (coinbase : Address) (before : Z) (t : SignedTx) (miner_fee : Z)
    (evm_result : ExecutionResult) (evm_state : gmap Address Account)
  : TransactionSimulationOutcome :=
  let gas_used := er_gas_used evm_result in
  let fees := u256_mul miner_fee gas_used in
  let coinbase_diff := u256_saturating_sub (state_balance evm_state coinbase) before in
  {| to_evm_result := evm_result;
     to_evm_state := evm_state;
     to_gas_used := gas_used;
     to_blob_gas_used := default 0 (tx_blob_gas t);
     to_fees := fees;
     to_coinbase_transfer := u256_saturating_sub coinbase_diff fees |}.

Definition simulate_tx_on_db (self : BuildState) (db : SimulationDB) (t : SignedTx)
  : run PayloadBuilderError SimulatedTransaction :=
  account ← lift_err Internal (sim_basic db (be_coinbase (bs_env self)));
  let coinbase_balance_before := balance_or_default account in
  res ← lift_err EvmExecutionError (sim_transact db (bs_cfg self) (bs_env self) t);
  fee ← expect (to_u64 (be_basefee (bs_env self)));
  miner_fee ← expect (tx_effective_tip_per_gas t (Some fee));
  mret {| st_tx := t;
          st_outcome := outcome_of (be_coinbase (bs_env self)) coinbase_balance_before t miner_fee
                          res.1 res.2 |}.

Definition simulate_tx (self : BuildState) (db : ExecutionDB) (t : SignedTx)
  : run PayloadBuilderError SimulatedTransaction :=
  simulate_tx_on_db self (simulation_db db) t.

(** the loop of [simulate_bundle]: every transaction runs on the effects of
    the ones before it *)
Fixpoint simulate_bundle_loop (self : BuildState) (db : SimulationDB)
    (coinbase_balance_before : Z) (simulated_txs : list SimulatedTransaction) (l : list SignedTx)
  : run BuildStateExecutionError (SimulationDB * list SimulatedTransaction) :=
  match l with
  | [] => mret (db, simulated_txs)
  | t :: l' =>
      res ← lift_err (fun e => PayloadBuilder (EvmExecutionError e))
              (sim_transact db (bs_cfg self) (bs_env self) t);
      fee ← expect (to_u64 (bc_basefee (bs_build_config self)));
      miner_fee ← expect (tx_effective_tip_per_gas t (Some fee));
      let coinbase := be_coinbase (bs_env self) in
      let outcome := outcome_of coinbase coinbase_balance_before t miner_fee res.1 res.2 in
      match outcome_contains_ofac outcome with
      | Some ofac_addr => Fail (OfacAddressDetected ofac_addr)
      | None =>
          simulate_bundle_loop self (sim_commit db res.2) (state_balance res.2 coinbase)
            (simulated_txs ++ [{| st_tx := t; st_outcome := outcome |}]) l'
      end
  end.

Definition simulate_refund_tx (self : BuildState) (db : SimulationDB) (simulated : SimulatedBundle)
  : run BuildStateExecutionError (option SimulatedTransaction) :=
  let refund := bo_refund (sm_outcome simulated) in
  if refund =? 0 then mret None
  else
    match refund_recipient (sm_bundle simulated) with
    | None => mret None
    | Some recipient =>
        refund_tx ← run_map_err PayloadBuilder
          (create_builder_transfer_transaction self (sim_basic db) recipient refund);
        refund_simulated_tx ← run_map_err PayloadBuilder (simulate_tx_on_db self db refund_tx);
        if negb (er_is_success (to_evm_result (st_outcome refund_simulated_tx))) then
          Fail (BuilderRefundTx "Transaction reverted")
        else mret (Some refund_simulated_tx)
    end.

Definition simulate_bundle (self : BuildState) (db : ExecutionDB) (bundle : RecoveredBundle)
  : run BuildStateExecutionError SimulatedBundle :=
  let sdb := simulation_db db in
  account ← lift_err (fun e => PayloadBuilder (Internal e)) (sim_basic sdb (be_coinbase (bs_env self)));
  res ← simulate_bundle_loop self sdb (balance_or_default account) [] (rb_txs bundle);
  fee ← expect (to_u64 (bc_basefee (bs_build_config self)));
  let simulated := SimulatedBundle_new bundle res.2 fee in
  match simulate_refund_tx self res.1 simulated with
  | Done (Some refund_simulated_tx) => mret (add_tx simulated refund_simulated_tx)
  | Fail err => Fail (BuilderRefundTx (bse_to_string err))
  | Done None => mret simulated
  | Panicked => Panicked
  end.

(** ** Commit and execution *)

Definition commit_one (acc : ExecutionDetails * ExecutionDB) (s : SimulatedTransaction)
  : ExecutionDetails * ExecutionDB :=
  let '(d, db) := acc in
  let o := st_outcome s in
  let cumulative_gas_used := u64_add (ed_cumulative_gas_used d) (to_gas_used o) in
  ({| ed_executed_txs := ed_executed_txs d ++ [into_signed (st_tx s)];
      ed_receipts := ed_receipts d ++
        [Some {| rc_tx_type := tx_type (st_tx s); rc_success := er_is_success (to_evm_result o);
                 rc_cumulative_gas_used := cumulative_gas_used;
                 rc_logs := er_logs (to_evm_result o) |}];
      ed_cumulative_gas_used := cumulative_gas_used;
      ed_cumulative_blob_gas_used :=
        u64_add (ed_cumulative_blob_gas_used d) (to_blob_gas_used o);
      ed_sum_fees := u256_add (ed_sum_fees d) (to_fees o);
      ed_sum_coinbase_transfers :=
        u256_add (ed_sum_coinbase_transfers d) (to_coinbase_transfer o);
      ed_builder_payment := ed_builder_payment d;
      ed_bundle_state := ed_bundle_state d |},
   db_commit db (to_evm_state o)).

Definition commit (self : BuildState) (db : ExecutionDB) (simulated : list SimulatedTransaction)
  : BuildState * ExecutionDB :=
  let '(d, db) := foldl commit_one (bs_exec_details self, db) simulated in
  (set_exec_details self d, db).

Definition execute_transaction_skip_verify (self : BuildState) (db : ExecutionDB) (t : SignedTx)
    (skip_verify : bool) : run BuildStateExecutionError (BuildState * ExecutionDB) :=
  simulated ← run_map_err PayloadBuilder (simulate_tx self db t);
  _ ← (if negb skip_verify then lift_err id (verify_simulated_transaction self simulated)
       else mret tt);
  mret (commit self db [simulated]).

Definition execute_transaction (self : BuildState) (db : ExecutionDB) (t : SignedTx)
  : run BuildStateExecutionError (BuildState * ExecutionDB) :=
  execute_transaction_skip_verify self db t false.

Definition execute_bundle (self : BuildState) (db : ExecutionDB) (bundle : RecoveredBundle)
  : run BuildStateExecutionError (BuildState * ExecutionDB) :=
  simulated ← simulate_bundle self db bundle;
  _ ← lift_err id (verify_simulated_bundle self simulated);
  mret (commit self db (sm_simulated_txs simulated)).
(** ** Finished builds *)

(** The fields of a Cancun header, computed alike by [into_build] and
    [into_empty_build]: blob sidecars, excess blob gas, blob gas used. *)
Definition cancun_fields (pool : TxPool) (c : BuildConfig) (spec : ChainSpec)
    (d : ExecutionDetails) : run PayloadBuilderError (list Sidecar * option Z * option Z) :=
  if is_cancun_active_at_timestamp spec (pa_timestamp (bc_attributes c)) then
    blob_sidecars ← lift_err Internal
      (get_all_blobs_exact pool
         (signed_hash <$> filter (fun t => is_eip4844 t = true) (ed_executed_txs d)));
    let excess_blob_gas :=
      if is_cancun_active_at_timestamp spec (hd_timestamp (parent_header c)) then
        calculate_excess_blob_gas (default 0 (hd_excess_blob_gas (parent_header c)))
          (default 0 (hd_blob_gas_used (parent_header c)))
      else calculate_excess_blob_gas 0 0 in
    mret (blob_sidecars, Some excess_blob_gas, Some (ed_cumulative_blob_gas_used d))
  else mret ([], None, None).

(** the database the build is finished on: a fresh one over the parent's state
    with the effects of the strategy as its prestate *)
Definition finish_db (self : BuildState) (sp : StateProvider) : ExecutionDB :=
  exec_db_new sp cached_reads_default
    (Some (default bundle_state_default (ed_bundle_state (bs_exec_details self)))).

Definition finish_build (self : BuildState) (block : Block) (sidecars : list Sidecar)
    (fees bid : Z) : Build :=
  let payload := {| bp_id := pa_id (bc_attributes (bs_build_config self));
                    bp_block := seal_slow block; bp_fees := fees; bp_sidecars := [] |} in
  {| b_id := bs_id self; b_validator_info := bc_validator_info (bs_build_config self);
     b_payload := extend_sidecars payload sidecars; b_bid := bid |}.

Definition into_build (self : BuildState) (client : Client) (pool : TxPool)
  : run PayloadBuilderError Build :=
  let c := bs_build_config self in
  let spec := pc_chain_spec (bs_payload_config self) in
  let parent_hash := sl_hash (bc_parent_block c) in
  sp ← lift_err Internal (state_by_block_hash client parent_hash);
  let db := finish_db self sp in
  let builder_payment := default 0 (ed_builder_payment (bs_exec_details self)) in
  builder_payment_tx ← create_builder_transfer_transaction self (db_basic db)
    (vi_fee_recipient (bc_validator_info c)) builder_payment;
  res ← run_map_err (fun err => Internal (RethCustom ("Builder payment tx failed: " ++ bse_debug err)))
    (execute_transaction_skip_verify self db builder_payment_tx true);
  let d := bs_exec_details res.1 in
  wres ← lift_err Internal
    (commit_withdrawals res.2 spec (pa_timestamp (bc_attributes c)) (pa_withdrawals (bc_attributes c)));
  let bundle := take_bundle (merge_transitions wres.1) in
  let receipts := [ed_receipts d] in
  receipts_root ← expect (receipts_root_slow bundle receipts (bc_block_number c) (bc_block_number c));
  logs_bloom ← expect (block_logs_bloom bundle receipts (bc_block_number c) (bc_block_number c));
  sp ← lift_err Internal (state_by_block_hash client parent_hash);
  state_root ← lift_err Internal (state_root sp bundle);
  cancun ← cancun_fields pool c spec d;
  base_fee ← expect (to_u64 (bc_basefee c));
  let header :=
    {| hd_parent_hash := parent_hash;
       hd_ommers_hash := EMPTY_OMMER_ROOT_HASH;
       hd_beneficiary := be_coinbase (bc_initialized_block_env c);
       hd_state_root := state_root;
       hd_transactions_root := calculate_transaction_root (ed_executed_txs d);
       hd_receipts_root := receipts_root;
       hd_withdrawals_root := wo_withdrawals_root wres.2;
       hd_logs_bloom := logs_bloom;
       hd_timestamp := pa_timestamp (bc_attributes c);
       hd_mix_hash := pa_prev_randao (bc_attributes c);
       hd_nonce := BEACON_NONCE;
       hd_base_fee_per_gas := Some base_fee;
       hd_number := u64_add (hd_number (parent_header c)) 1;
       hd_gas_limit := bc_block_gas_limit c;
       hd_difficulty := 0;
       hd_gas_used := ed_cumulative_gas_used d;
       hd_extra_data := pc_extra_data (bs_payload_config self);
       hd_parent_beacon_block_root := pa_parent_beacon_block_root (bc_attributes c);
       hd_blob_gas_used := cancun.2;
       hd_excess_blob_gas := cancun.1.2 |} in
  let block := {| bl_header := header; bl_body := ed_executed_txs d;
                  bl_withdrawals := wo_withdrawals wres.2 |} in
  mret (finish_build self block cancun.1.1 (ed_sum_fees d) builder_payment).

Definition into_empty_build (self : BuildState) (client : Client) (pool : TxPool)
  : run PayloadBuilderError Build :=
  let c := bs_build_config self in
  let spec := pc_chain_spec (bs_payload_config self) in
  let parent_hash := sl_hash (bc_parent_block c) in
  let d := bs_exec_details self in
  sp ← lift_err Internal (state_by_block_hash client parent_hash);
  let db := finish_db self sp in
  wres ← lift_err Internal
    (commit_withdrawals db spec (pa_timestamp (bc_attributes c)) (pa_withdrawals (bc_attributes c)));
  let bundle := take_bundle (merge_transitions wres.1) in
  sp ← lift_err Internal (state_by_block_hash client parent_hash);
  state_root ← lift_err Internal (state_root sp bundle);
  cancun ← cancun_fields pool c spec d;
  base_fee ← expect (to_u64 (bc_basefee c));
  let header :=
    {| hd_parent_hash := parent_hash;
       hd_ommers_hash := EMPTY_OMMER_ROOT_HASH;
       hd_beneficiary := vi_fee_recipient (bc_validator_info c);
       hd_state_root := state_root;
       hd_transactions_root := EMPTY_TRANSACTIONS;
       hd_receipts_root := EMPTY_RECEIPTS;
       hd_withdrawals_root := wo_withdrawals_root wres.2;
       hd_logs_bloom := repeat Byte.x00 256;
       hd_timestamp := pa_timestamp (bc_attributes c);
       hd_mix_hash := pa_prev_randao (bc_attributes c);
       hd_nonce := BEACON_NONCE;
       hd_base_fee_per_gas := Some base_fee;
       hd_number := u64_add (hd_number (parent_header c)) 1;
       hd_gas_limit := bc_block_gas_limit c;
       hd_difficulty := 0;
       hd_gas_used := 0;
       hd_extra_data := pc_extra_data (bs_payload_config self);
       hd_parent_beacon_block_root := pa_parent_beacon_block_root (bc_attributes c);
       hd_blob_gas_used := cancun.2;
       hd_excess_blob_gas := cancun.1.2 |} in
  let block := {| bl_header := header; bl_body := []; bl_withdrawals := wo_withdrawals wres.2 |} in
  mret (finish_build self block cancun.1.1 (ed_sum_fees d) 0).
End State.
