(* ===== verification/StateFacts.v ===== *)
(** * Correctness of the build state

    The theorems about [State]: what executing transactions and bundles keeps
    true of a build, which errors and panics are possible, and what the
    finished build contains. *)

From stdpp Require Import prelude list gmap strings.
From S2P Require Import Prelude Types Bundle Validator Chain Payload Ofac SimState DemoEvm State.

Open Scope Z_scope.

Section StateFacts.
Context `{EL : EvmLaws} `{ER : ErrorText}.

(** ** What a simulated transaction is *)

(** [s] is the outcome of running its transaction in the environment of [st]. *)
Definition sim_of (st : BuildState) (s : SimulatedTransaction) : Prop :=
  exists db before fee tip res,
    sim_transact db (bs_cfg st) (bs_env st) (st_tx s) = Ok res /\
    tx_effective_tip_per_gas (st_tx s) (Some fee) = Some tip /\
    st_outcome s = outcome_of (be_coinbase (bs_env st)) before (st_tx s) tip res.1 res.2.

Lemma sim_of_gas st s :
  sim_of st s ->
  0 <= to_gas_used (st_outcome s) <= be_gas_limit (bs_env st) /\
  to_gas_used (st_outcome s) <= tx_gas_limit (st_tx s) /\
  0 <= to_blob_gas_used (st_outcome s) <= MAX_DATA_GAS_PER_BLOCK.
Proof.
  intros (db & before & fee & tip & res & Ht & _ & ->). simpl.
  pose proof (transact_gas _ _ _ _ _ Ht). pose proof (transact_blob_gas _ _ _ _ _ Ht).
  pose proof (er_gas_used_range res.1) as [? _]. lia.
Qed.

(** a step changes neither the configuration nor the identity of a state *)
Definition same_config (st st' : BuildState) : Prop :=
  bs_id st' = bs_id st /\ bs_payload_config st' = bs_payload_config st /\
  bs_build_config st' = bs_build_config st.

Lemma same_config_sim_of st st' s : same_config st st' -> sim_of st s -> sim_of st' s.
Proof. intros (_ & _ & H). unfold sim_of, bs_cfg, bs_env. by rewrite H. Qed.

Lemma commit_config st db l : same_config st (commit st db l).1.
Proof. unfold commit. by destruct (foldl commit_one _ l). Qed.

(** ** Execution details as a function of the committed transactions *)

Fixpoint receipts_from (cumulative : Z) (l : list SimulatedTransaction) : list (option Receipt) :=
  match l with
  | [] => []
  | s :: l' =>
      let c := cumulative + to_gas_used (st_outcome s) in
      Some {| rc_tx_type := tx_type (st_tx s);
              rc_success := er_is_success (to_evm_result (st_outcome s));
              rc_cumulative_gas_used := c;
              rc_logs := er_logs (to_evm_result (st_outcome s)) |} :: receipts_from c l'
  end.

Record details_of (d : ExecutionDetails) (l : list SimulatedTransaction) : Prop := {
  do_txs : ed_executed_txs d = (fun s => into_signed (st_tx s)) <$> l;
  do_receipts : ed_receipts d = receipts_from 0 l;
  do_gas : ed_cumulative_gas_used d = sum_of to_gas_used l;
  do_blob_gas : ed_cumulative_blob_gas_used d = sum_of to_blob_gas_used l;
  do_fees : ed_sum_fees d = u256_wrap (sum_of to_fees l);
  do_transfers : ed_sum_coinbase_transfers d = u256_wrap (sum_of to_coinbase_transfer l);
}.

Lemma details_of_default : details_of ExecutionDetails_default [].
Proof. by split. Qed.

Lemma receipts_from_app c l k :
  receipts_from c (l ++ k) = receipts_from c l ++ receipts_from (c + sum_of to_gas_used l) k.
Proof.
  revert c. induction l as [|s l IH]; intros c; simpl; [by rewrite Z.add_0_r|].
  by rewrite IH, Z.add_assoc.
Qed.

Definition gas_nonneg (l : list SimulatedTransaction) : Prop :=
  Forall (fun s => 0 <= to_gas_used (st_outcome s) /\ 0 <= to_blob_gas_used (st_outcome s)) l.

Lemma sum_of_nonneg f l : Forall (fun s => 0 <= f (st_outcome s)) l -> 0 <= sum_of f l.
Proof. induction 1; simpl; lia. Qed.

Lemma gas_nonneg_sums l :
  gas_nonneg l -> 0 <= sum_of to_gas_used l /\ 0 <= sum_of to_blob_gas_used l.
Proof.
  intros H. split; apply sum_of_nonneg; (eapply Forall_impl; [exact H|]); simpl; tauto.
Qed.

(** committing appends to the history, as long as the gas counters do not wrap *)
Lemma commit_details st db l k :
  details_of (bs_exec_details st) l -> gas_nonneg l -> gas_nonneg k ->
  sum_of to_gas_used (l ++ k) < 2 ^ 64 -> sum_of to_blob_gas_used (l ++ k) < 2 ^ 64 ->
  details_of (bs_exec_details (commit st db k).1) (l ++ k).
Proof.
  intros Hd Hl Hk Hg Hb.
  assert (forall d, details_of d l -> details_of (foldl commit_one (d, db) k).1 (l ++ k)) as H.
  { clear Hd st. revert l db Hl Hk Hg Hb.
    induction k as [|s k IH]; intros l db Hl Hk Hg Hb d Hd; simpl; [by rewrite app_nil_r|].
    inversion Hk as [|? ? [Hs1 Hs2] Hk']; subst.
    rewrite (cons_middle s l k), (assoc_L (++)) in Hg, Hb |- *.
    apply IH; [by apply Forall_app; split; [|repeat constructor]|done|done|done|].
    rewrite sum_of_app in Hg, Hb.
    pose proof (gas_nonneg_sums k Hk'). pose proof (gas_nonneg_sums l Hl).
    rewrite sum_of_app in Hg, Hb. simpl in Hg, Hb. destruct Hd as [H1 H2 H3 H4 H5 H6].
    split; simpl; rewrite ?sum_of_app, ?fmap_app, ?receipts_from_app; simpl; rewrite ?Z.add_0_r.
    - by rewrite H1.
    - rewrite H2, H3, u64_add_small by solve_range. done.
    - rewrite H3, u64_add_small by solve_range. done.
    - rewrite H4, u64_add_small by solve_range. done.
    - rewrite H5. unfold u256_add. by rewrite u256_wrap_add_l.
    - rewrite H6. unfold u256_add. by rewrite u256_wrap_add_l. }
  unfold commit. specialize (H _ Hd). by destruct (foldl commit_one _ k).
Qed.

(** ** Inversion of the operations *)

Lemma simulate_tx_on_db_Done st db t s :
  simulate_tx_on_db st db t = Done s -> sim_of st s /\ st_tx s = t.
Proof.
  unfold simulate_tx_on_db. intros H. run_inv. subst s. split; [|done].
  eexists db, _, _, _, _. simpl. eauto.
Qed.

Lemma run_map_err_Done {E F T} (f : E -> F) (r : run E T) t :
  run_map_err f r = Done t <-> r = Done t.
Proof. destruct r; simpl; split; congruence. Qed.

Lemma execute_skip_Done st db t skip st' db' :
  execute_transaction_skip_verify st db t skip = Done (st', db') ->
  exists s, simulate_tx st db t = Done s /\ (st', db') = commit st db [s] /\
    (skip = false -> verify_simulated_transaction st s = Ok tt).
Proof.
  unfold execute_transaction_skip_verify. intros H. run_inv. apply run_map_err_Done in Hr.
  eexists. split_and!; [exact Hr|done|]. intros ->. simpl in Hr0.
  apply lift_err_Done in Hr0. by destruct t1.
Qed.

Lemma simulate_bundle_loop_Done st db before acc l sdb sims :
  simulate_bundle_loop st db before acc l = Done (sdb, sims) ->
  exists new, sims = acc ++ new /\ Forall (sim_of st) new /\ st_tx <$> new = l /\
    Forall (fun s => outcome_contains_ofac (st_outcome s) = None) new.
Proof.
  revert db before acc. induction l as [|t l IH]; intros db before acc; simpl; intros H; run_inv.
  - exists []. rewrite app_nil_r. split_and!; [congruence|constructor|done|constructor].
  - destruct (outcome_contains_ofac _) eqn:Ho; [done|].
    apply IH in H as (new & -> & H1 & H2 & H3). eexists (_ :: new).
    split_and!; [by rewrite <- (assoc_L (++))|constructor; [|done]|by csimpl; rewrite H2|by constructor].
    eexists db, before, _, _, _. simpl. eauto.
Qed.

Lemma simulate_refund_tx_Done st db sb r :
  simulate_refund_tx st db sb = Done (Some r) -> sim_of st r.
Proof.
  unfold simulate_refund_tx. destruct (_ =? 0); [done|]. destruct (refund_recipient _); [|done].
  intros H. run_inv. apply run_map_err_Done, simulate_tx_on_db_Done in Hr0 as [Hs _].
  destruct (negb _); [done|]. by injection H as <-.
Qed.

(** [SimulatedBundle_new] sums what it lists; so does adding a transaction *)
Lemma SimulatedBundle_new_sums b l fee :
  bo_reverted (sm_outcome (SimulatedBundle_new b l fee)) = None ->
  bo_gas_used (sm_outcome (SimulatedBundle_new b l fee)) = u64_wrap (sum_of to_gas_used l) /\
  bo_blob_gas_used (sm_outcome (SimulatedBundle_new b l fee)) = u64_wrap (sum_of to_blob_gas_used l).
Proof. simpl. intros H. by apply from_txs_sums in H as (Hg & Hb & _). Qed.

Lemma simulate_bundle_Done st db b sb :
  simulate_bundle st db b = Done sb ->
  exists new refund, sm_simulated_txs sb = new ++ refund /\ Forall (sim_of st) (new ++ refund) /\
    st_tx <$> new = rb_txs b /\ (length refund <= 1)%nat /\
    Forall (fun s => outcome_contains_ofac (st_outcome s) = None) new /\
    (bo_reverted (sm_outcome sb) = None ->
       Forall (fun s => forbidden_revert b s = false) new /\
       bo_gas_used (sm_outcome sb) = u64_wrap (sum_of to_gas_used (new ++ refund)) /\
       bo_blob_gas_used (sm_outcome sb) = u64_wrap (sum_of to_blob_gas_used (new ++ refund))).
Proof.
  unfold simulate_bundle. intros H. run_inv. destruct t0 as [sdb sims]. simpl in H.
  apply simulate_bundle_loop_Done in Hr0 as (new & -> & H1 & H2 & H3). simpl in H.
  destruct (simulate_refund_tx _ _ _) as [[r|]| |] eqn:Hrf; run_inv; try done.
  - subst sb. exists new, [r]. apply simulate_refund_tx_Done in Hrf. simpl. split_and!; try done.
    + apply Forall_app; split; [done|by repeat constructor].
    + intros Hrev. pose proof (SimulatedBundle_new_sums b new t1 Hrev) as [Hg Hb]. simpl in Hg, Hb.
      split; [by apply from_txs_not_reverted|]. rewrite Hg, Hb, !sum_of_app. simpl.
      unfold u64_add. by rewrite !u64_wrap_add_l, !Z.add_0_r.
  - subst sb. exists new, []. rewrite app_nil_r. simpl. split_and!; try done; [lia|].
    intros Hrev. split; [by apply from_txs_not_reverted|].
    by apply (SimulatedBundle_new_sums b new t1).
Qed.
Lemma execute_bundle_Done st db b st' db' :
  execute_bundle st db b = Done (st', db') ->
  exists sb, simulate_bundle st db b = Done sb /\ verify_simulated_bundle st sb = Ok tt /\
    (st', db') = commit st db (sm_simulated_txs sb).
Proof.
  unfold execute_bundle. intros H. run_inv. exists t. destruct t0. eauto.
Qed.

(** ** Executions as sequences of steps *)

(** The executions of a strategy: transactions and bundles, one after the
    other, each on the state the previous one left.  The list is the
    transactions committed so far.  A bundle is assumed to hold fewer than
    2^29 transactions, so that the sum of their gas fits a [u64]. *)
Inductive executes (st0 : BuildState) (db0 : ExecutionDB) :
  BuildState -> ExecutionDB -> list SimulatedTransaction -> Prop :=
| exec_init : executes st0 db0 st0 db0 []
| exec_tx st db l t st' db' s :
    executes st0 db0 st db l ->
    execute_transaction st db t = Done (st', db') ->
    simulate_tx st db t = Done s ->
    executes st0 db0 st' db' (l ++ [s])
| exec_bundle st db l b st' db' sb :
    executes st0 db0 st db l ->
    execute_bundle st db b = Done (st', db') ->
    simulate_bundle st db b = Done sb ->
    Z.of_nat (length (rb_txs b)) < 2 ^ 29 ->
    executes st0 db0 st' db' (l ++ sm_simulated_txs sb).

Definition limits_ok (st : BuildState) : Prop :=
  be_gas_limit (bs_env st) < 2 ^ 32 /\ 0 <= bc_block_gas_limit (bs_build_config st) < 2 ^ 62.

(** The invariant of an execution. *)
Record exec_inv (st0 st : BuildState) (l : list SimulatedTransaction) : Prop := {
  ei_config : same_config st0 st;
  ei_details : details_of (bs_exec_details st) l;
  ei_sims : Forall (sim_of st0) l;
  ei_gas : l = [] \/ sum_of to_gas_used l + MAX_BUILDER_TRANSFER_GAS_LIMIT
                      <= bc_block_gas_limit (bs_build_config st0);
  ei_blob : sum_of to_blob_gas_used l <= MAX_DATA_GAS_PER_BLOCK;
  ei_payment : ed_builder_payment (bs_exec_details st) = ed_builder_payment (bs_exec_details st0);
}.

Lemma sims_gas_nonneg st l : Forall (sim_of st) l -> gas_nonneg l.
Proof.
  intros H. eapply Forall_impl; [exact H|]. intros s Hs. apply sim_of_gas in Hs. simpl. lia.
Qed.

Lemma sims_gas_bound st l :
  Forall (sim_of st) l -> 0 <= be_gas_limit (bs_env st) \/ l = [] ->
  sum_of to_gas_used l <= Z.of_nat (length l) * be_gas_limit (bs_env st) /\
  sum_of to_blob_gas_used l <= Z.of_nat (length l) * MAX_DATA_GAS_PER_BLOCK.
Proof.
  induction 1 as [|s l Hs Hl IH]; intros Hg; simpl; [lia|].
  apply sim_of_gas in Hs as (H1 & _ & H2). rewrite Nat2Z.inj_succ. lia.
Qed.

Lemma verify_limits_Ok st g b :
  verify_limits st g b = Ok tt ->
  u64_add (u64_add (ed_cumulative_gas_used (bs_exec_details st)) g) MAX_BUILDER_TRANSFER_GAS_LIMIT
    <= bc_block_gas_limit (bs_build_config st) /\
  u64_add (ed_cumulative_blob_gas_used (bs_exec_details st)) b <= MAX_DATA_GAS_PER_BLOCK.
Proof.
  unfold verify_limits. rewrite !Z.gtb_ltb.
  destruct (Z.ltb_spec (bc_block_gas_limit (bs_build_config st))
    (u64_add (u64_add (ed_cumulative_gas_used (bs_exec_details st)) g) MAX_BUILDER_TRANSFER_GAS_LIMIT));
    [done|].
  destruct (Z.ltb_spec MAX_DATA_GAS_PER_BLOCK
    (u64_add (ed_cumulative_blob_gas_used (bs_exec_details st)) b)); [done|]. done.
Qed.

Lemma commit_payment st db l :
  ed_builder_payment (bs_exec_details (commit st db l).1) = ed_builder_payment (bs_exec_details st).
Proof.
  unfold commit. destruct (foldl commit_one (bs_exec_details st, db) l) as [d db'] eqn:E. simpl.
  change d with (d, db').1. rewrite <- E. clear E d db'.
  generalize (bs_exec_details st) as d. revert db.
  induction l as [|s l IH]; intros db d; simpl; [done|]. by rewrite IH.
Qed.

(** verified transactions, few enough for their gas to add up, extend an execution *)
Lemma exec_inv_commit st0 st db l k :
  limits_ok st0 -> exec_inv st0 st l -> Forall (sim_of st0) k ->
  Z.of_nat (length k) <= 2 ^ 29 ->
  verify_limits st (u64_wrap (sum_of to_gas_used k)) (u64_wrap (sum_of to_blob_gas_used k)) = Ok tt ->
  exec_inv st0 (commit st db k).1 (l ++ k).
Proof.
  intros [HG HB] [Hc Hd Hl Hg Hb Hp] Hk Hlen Hv.
  destruct (decide (k = [])) as [->|Hne].
  { unfold commit. simpl. rewrite app_nil_r. destruct st; by split. }
  assert (HG0 : 0 <= be_gas_limit (bs_env st0)).
  { destruct k as [|s k]; [done|]. inversion Hk as [|? ? Hs _]; subst.
    apply sim_of_gas in Hs. lia. }
  destruct (sims_gas_bound st0 k Hk (or_introl HG0)) as [Hkg Hkb].
  pose proof (gas_nonneg_sums l (sims_gas_nonneg _ _ Hl)) as [Hlg0 Hlb0].
  pose proof (gas_nonneg_sums k (sims_gas_nonneg _ _ Hk)) as [Hkg0 Hkb0].
  assert (Hlg : sum_of to_gas_used l < 2 ^ 62).
  { destruct Hg as [->|Hg]; [simpl; lia|]. unfold MAX_BUILDER_TRANSFER_GAS_LIMIT in Hg. lia. }
  unfold MAX_DATA_GAS_PER_BLOCK, MAX_BUILDER_TRANSFER_GAS_LIMIT in *.
  assert (sum_of to_gas_used k < 2 ^ 62) by nia.
  assert (sum_of to_blob_gas_used k < 2 ^ 62) by nia.
  apply verify_limits_Ok in Hv as [Hv1 Hv2]. destruct Hc as (Hc1 & Hc2 & Hc3).
  destruct (Hd) as [_ _ Hd3 Hd4 _ _]. rewrite Hd3, Hc3 in Hv1. rewrite Hd4 in Hv2.
  unfold MAX_DATA_GAS_PER_BLOCK, MAX_BUILDER_TRANSFER_GAS_LIMIT in Hv1, Hv2.
  rewrite u64_wrap_small in Hv1 by solve_range. rewrite u64_wrap_small in Hv2 by solve_range.
  rewrite !u64_add_small in Hv1 by (rewrite ?u64_add_small by solve_range; solve_range).
  rewrite u64_add_small in Hv2 by solve_range.
  split.
  - pose proof (commit_config st db k) as (H1 & H2 & H3). repeat split; congruence.
  - apply commit_details; rewrite ?sum_of_app; try done;
      [by eapply sims_gas_nonneg|by eapply sims_gas_nonneg|lia|lia].
  - by apply Forall_app.
  - right. rewrite sum_of_app. unfold MAX_BUILDER_TRANSFER_GAS_LIMIT. lia.
  - rewrite sum_of_app. unfold MAX_DATA_GAS_PER_BLOCK. lia.
  - by rewrite commit_payment.
Qed.

Lemma verify_one st s :
  sim_of st s -> verify_simulated_transaction st s = Ok tt ->
  verify_limits st (u64_wrap (sum_of to_gas_used [s])) (u64_wrap (sum_of to_blob_gas_used [s])) = Ok tt.
Proof.
  intros Hs. unfold verify_simulated_transaction. simpl. rewrite !Z.add_0_r.
  pose proof Hs as (db & before & fee & tip & res & Ht & _ & Ho).
  apply sim_of_gas in Hs as (Hg & _ & Hb). unfold MAX_DATA_GAS_PER_BLOCK in Hb.
  assert (is_u64 (to_gas_used (st_outcome s))) by (rewrite Ho; apply er_gas_used_range).
  by rewrite !u64_wrap_small by solve_range.
Qed.

Lemma verify_bundle_spec st b db sb :
  simulate_bundle st db b = Done sb -> verify_simulated_bundle st sb = Ok tt ->
  verify_limits st (u64_wrap (sum_of to_gas_used (sm_simulated_txs sb)))
    (u64_wrap (sum_of to_blob_gas_used (sm_simulated_txs sb))) = Ok tt.
Proof.
  intros (new & refund & -> & _ & _ & _ & _ & Hrev)%simulate_bundle_Done.
  unfold verify_simulated_bundle. destruct (bo_reverted (sm_outcome sb)); [done|].
  destruct (Hrev eq_refl) as (_ & -> & ->). done.
Qed.

Lemma executes_inv st0 db0 st db l :
  limits_ok st0 -> details_of (bs_exec_details st0) [] ->
  executes st0 db0 st db l -> exec_inv st0 st l.
Proof.
  intros Hlim Hd0. induction 1 as [|st db l t st' db' s Hex IH He Hs|st db l b st' db' sb Hex IH He Hs Hlen].
  - split; try done. by left.
  - apply execute_skip_Done in He as (s' & Hs' & Hcm & Hv). rewrite Hs in Hs'. injection Hs' as <-.
    apply simulate_tx_on_db_Done in Hs as [Hs _]. pose proof (ei_config _ _ _ IH) as Hc.
    change st' with (st', db').1. rewrite Hcm. apply exec_inv_commit; [done|done| |done|].
    + constructor; [|done]. destruct Hc as (? & ? & ?). by apply (same_config_sim_of st).
    + by apply verify_one; auto.
  - apply execute_bundle_Done in He as (sb' & Hs' & Hv & Hcm). rewrite Hs in Hs'. injection Hs' as <-.
    pose proof (ei_config _ _ _ IH) as (? & ? & ?).
    change st' with (st', db').1. rewrite Hcm. apply exec_inv_commit; [done|done| | |].
    + apply simulate_bundle_Done in Hs as (new & r & -> & Hsim & _).
      eapply Forall_impl; [exact Hsim|]. intros s. by apply same_config_sim_of.
    + apply simulate_bundle_Done in Hs as (new & r & -> & _ & Hnew & Hr & _).
      rewrite length_app, <- (length_fmap st_tx new), Hnew. lia.
    + by eapply verify_bundle_spec.
Qed.

(** ** Configurations *)

(** What [BuildConfig::new] establishes, and [BuildState::new] keeps. *)
Definition config_wf (st : BuildState) : Prop :=
  bc_basefee (bs_build_config st) = be_basefee (bs_env st) /\
  0 <= be_basefee (bs_env st) < 2 ^ 64.

Lemma BuildConfig_new_Done spec a parent slot v c :
  BuildConfig_new spec a parent slot v = Done c ->
  bc_basefee c = be_basefee (bc_initialized_block_env c) /\ bc_parent_block c = parent /\
  bc_attributes c = a /\ bc_slot c = slot /\ bc_validator_info c = v /\
  bc_block_gas_limit c = suggest_gas_limit v (hd_gas_limit (bl_header (sl_block parent))).
Proof.
  unfold BuildConfig_new. destruct (cfg_and_block_env _ _ _) as [cfg env]. intros H. run_inv. by subst.
Qed.

Lemma to_u64_small x : 0 <= x < 2 ^ 64 -> to_u64 x = Some x.
Proof.
  intros H. unfold to_u64. destruct (Z.leb_spec 0 x), (Z.ltb_spec x (2 ^ 64)); simpl; lia || done.
Qed.

Lemma to_u128_small x : 0 <= x < 2 ^ 64 -> to_u128 x = Some x.
Proof.
  intros H. unfold to_u128. destruct (Z.leb_spec 0 x), (Z.ltb_spec x (2 ^ 128)); simpl; lia || done.
Qed.

(** ** Errors and panics *)

Lemma run_map_err_Fail {E F T} (f : E -> F) (r : run E T) x :
  run_map_err f r = Fail x <-> exists e, r = Fail e /\ x = f e.
Proof. destruct r; simpl; split; naive_solver. Qed.

Lemma run_map_err_Panicked {E F T} (f : E -> F) (r : run E T) :
  run_map_err f r = Panicked <-> r = Panicked.
Proof. destruct r; simpl; split; congruence. Qed.

Lemma bind_not_Panicked {E T U} (f : T -> run E U) (r : run E T) :
  r <> Panicked -> (forall t, r = Done t -> f t <> Panicked) -> (r ≫= f) <> Panicked.
Proof. intros Hr Hf. destruct r; simpl; [by apply Hf|done|done]. Qed.

Lemma create_transfer_not_Panicked st basic r p :
  config_wf st -> create_builder_transfer_transaction st basic r p <> Panicked.
Proof.
  intros [_ Hb]. unfold create_builder_transfer_transaction.
  apply bind_not_Panicked; [apply lift_err_Panicked|]. intros account _. cbv zeta.
  rewrite to_u128_small by done. simpl.
  set (tx := {| t1559_chain_id := _ |}).
  destruct (sign_recover (pc_secret_key (bs_payload_config st)) tx) as (s & -> & [t Ht]). simpl.
  by rewrite Ht.
Qed.

Lemma simulate_tx_not_Panicked st db t : config_wf st -> simulate_tx_on_db st db t <> Panicked.
Proof.
  intros [_ Hb]. unfold simulate_tx_on_db.
  apply bind_not_Panicked; [apply lift_err_Panicked|]. intros a _. cbv zeta.
  apply bind_not_Panicked; [apply lift_err_Panicked|]. intros res Hres%lift_err_Done.
  rewrite to_u64_small by done. simpl.
  destruct (transact_tip_valid _ _ _ _ _ Hres Hb) as [tip Htip]. by rewrite Htip.
Qed.

Lemma execute_skip_not_Panicked st db t skip :
  config_wf st -> execute_transaction_skip_verify st db t skip <> Panicked.
Proof.
  intros Hc. unfold execute_transaction_skip_verify.
  apply bind_not_Panicked; [rewrite run_map_err_Panicked; by apply simulate_tx_not_Panicked|].
  intros s _. apply bind_not_Panicked; [|done]. destruct skip; simpl; [done|apply lift_err_Panicked].
Qed.

Lemma execute_transaction_not_Panicked st db t : config_wf st -> execute_transaction st db t <> Panicked.
Proof. apply execute_skip_not_Panicked. Qed.

Lemma simulate_bundle_loop_not_Panicked st db before acc l :
  config_wf st -> simulate_bundle_loop st db before acc l <> Panicked.
Proof.
  intros [Hb1 Hb2]. revert db before acc. induction l as [|t l IH]; intros db before acc; simpl; [done|].
  apply bind_not_Panicked; [apply lift_err_Panicked|]. intros res Hres%lift_err_Done.
  rewrite Hb1, to_u64_small by done. simpl.
  destruct (transact_tip_valid _ _ _ _ _ Hres Hb2) as [tip Htip]. rewrite Htip. simpl.
  destruct (outcome_contains_ofac _); [done|apply IH].
Qed.

Lemma simulate_bundle_not_Panicked st db b : config_wf st -> simulate_bundle st db b <> Panicked.
Proof.
  intros Hc. pose proof Hc as [Hb1 Hb2]. unfold simulate_bundle. cbv zeta.
  apply bind_not_Panicked; [apply lift_err_Panicked|]. intros a _.
  apply bind_not_Panicked; [by apply simulate_bundle_loop_not_Panicked|]. intros res _.
  rewrite Hb1, to_u64_small by done. simpl.
  assert (Hr : forall sb, simulate_refund_tx st res.1 sb <> Panicked).
  { intros sb. unfold simulate_refund_tx. destruct (_ =? 0); [done|].
    destruct (refund_recipient _); [|done].
    apply bind_not_Panicked; [rewrite run_map_err_Panicked; by apply create_transfer_not_Panicked|].
    intros t _.
    apply bind_not_Panicked; [rewrite run_map_err_Panicked; by apply simulate_tx_not_Panicked|].
    intros s _. by destruct (negb _). }
  specialize (Hr (SimulatedBundle_new b res.2 (be_basefee (bs_env st)))).
  destruct (simulate_refund_tx _ _ _) as [[?|]| |]; done.
Qed.

Lemma execute_bundle_not_Panicked st db b : config_wf st -> execute_bundle st db b <> Panicked.
Proof.
  intros Hc. unfold execute_bundle.
  apply bind_not_Panicked; [by apply simulate_bundle_not_Panicked|]. intros sb _.
  apply bind_not_Panicked; [apply lift_err_Panicked|done].
Qed.

Lemma verify_transaction_errors st s e :
  verify_simulated_transaction st s = Err e -> e = MaxGasExceeded \/ e = MaxBlobGasExceeded.
Proof.
  unfold verify_simulated_transaction, verify_limits.
  destruct (_ >? _); [intros [= <-]; by left|]. destruct (_ >? _); [intros [= <-]; by right|done].
Qed.

Lemma execute_transaction_errors_aux st db t e :
  execute_transaction st db t = Fail e ->
  e = MaxGasExceeded \/ e = MaxBlobGasExceeded \/ exists e', e = PayloadBuilder e'.
Proof.
  unfold execute_transaction, execute_transaction_skip_verify.
  intros [H|(s & _ & [H|(u & _ & H)]%run_bind_Fail)]%run_bind_Fail; [| |done].
  - apply run_map_err_Fail in H as (e' & _ & ->). eauto.
  - apply lift_err_Fail in H as (e' & H%verify_transaction_errors & ->). unfold id. tauto.
Qed.

(** ** Finished builds *)

(** what [t] has to be to transfer [amount] of the builder's to [recipient]: signed by the
    builder's key, on the configured chain, with no tip at the base fee of the block *)
Definition transfer_of (st : BuildState) (nonce : Z) (recipient : Address) (amount : Z) (t : SignedTx) : Prop :=
  let tx :=
    {| t1559_chain_id := cfg_chain_id (bc_initialized_cfg (bs_build_config st)); t1559_nonce := nonce;
       t1559_gas_limit := 32000; t1559_to := recipient; t1559_value := amount;
       t1559_max_fee_per_gas := be_basefee (bc_initialized_block_env (bs_build_config st));
       t1559_max_priority_fee_per_gas := 0 |} in
  exists signature,
    sign_message (pc_secret_key (bs_payload_config st)) (signature_hash tx) = Some signature /\
    into_ecrecovered (from_transaction_and_signature tx signature) = Some t.

(** the next nonce of an account; one that does not exist has none used *)
Definition next_nonce (account : option AccountInfo) : Z :=
  match account with Some a => ai_nonce a | None => 0 end.

Lemma create_transfer_Done st basic r p t :
  create_builder_transfer_transaction st basic r p = Done t ->
  exists account, basic (pc_builder_address (bs_payload_config st)) = Ok account /\
    transfer_of st (next_nonce account) r p t.
Proof.
  unfold create_builder_transfer_transaction, to_u128. intros H. run_inv.
  destruct (_ && _); [|done]. simplify_eq. eexists. split; [done|]. eexists. by split.
Qed.

Lemma transfer_of_config st st' nonce r p t :
  same_config st st' -> transfer_of st' nonce r p t -> transfer_of st nonce r p t.
Proof. intros (_ & H1 & H2). unfold transfer_of. by rewrite H1, H2. Qed.

Lemma transfer_gas_limit st nonce r p t :
  transfer_of st nonce r p t -> tx_gas_limit t = MAX_BUILDER_TRANSFER_GAS_LIMIT.
Proof. intros (s & _ & H). by apply signed_gas_limit in H. Qed.

Lemma payment_gas_limit st basic r p t :
  create_builder_transfer_transaction st basic r p = Done t ->
  tx_gas_limit t = MAX_BUILDER_TRANSFER_GAS_LIMIT.
Proof. intros (account & _ & H)%create_transfer_Done. by eapply transfer_gas_limit. Qed.

(** what a finished build says, once its pieces are named *)
Lemma into_build_Done st client pool b :
  into_build st client pool = Done b ->
  let c := bs_build_config st in
  let payment := default 0 (ed_builder_payment (bs_exec_details st)) in
  exists sp tx s d,
    state_by_block_hash client (sl_hash (bc_parent_block c)) = Ok sp /\
    create_builder_transfer_transaction st (db_basic (finish_db st sp))
      (vi_fee_recipient (bc_validator_info c)) payment = Done tx /\
    simulate_tx st (finish_db st sp) tx = Done s /\
    d = bs_exec_details (commit st (finish_db st sp) [s]).1 /\
    b_bid b = payment /\ b_id b = bs_id st /\
    bp_fees (b_payload b) = ed_sum_fees d /\
    bl_body (sl_block (bp_block (b_payload b))) = ed_executed_txs d /\
    hd_gas_used (build_header b) = ed_cumulative_gas_used d /\
    hd_gas_limit (build_header b) = bc_block_gas_limit c /\
    hd_transactions_root (build_header b) = calculate_transaction_root (ed_executed_txs d) /\
    hd_parent_hash (build_header b) = sl_hash (bc_parent_block c) /\
    hd_timestamp (build_header b) = pa_timestamp (bc_attributes c) /\
    hd_blob_gas_used (build_header b) =
      (if is_cancun_active_at_timestamp (pc_chain_spec (bs_payload_config st)) (pa_timestamp (bc_attributes c))
       then Some (ed_cumulative_blob_gas_used d) else None) /\
    b_validator_info b = bc_validator_info c.
Proof.
  unfold into_build. intros H. run_inv. apply run_map_err_Done in Hr1.
  destruct t1 as [st' db']. pose proof Hr1 as Hx.
  apply execute_skip_Done in Hx as (s & Hs & Hcm & _).
  eexists _, _, s, (bs_exec_details st'). rewrite <- Hcm.
  split_and!; try done; subst b; simpl; try done.
  unfold cancun_fields in Hr7. simpl in Hr7.
  destruct (is_cancun_active_at_timestamp _ _); run_inv; by subst.
Qed.

(** a strategy hands its result over with the effects of its execution and the
    payment of the bid *)
Definition handed_over (st : BuildState) (b : BundleState) (payment : Z) : BuildState :=
  with_payment (with_bundle_state st b) payment.

Lemma handed_over_details st b p l :
  details_of (bs_exec_details st) l -> details_of (bs_exec_details (handed_over st b p)) l.
Proof. by intros []. Qed.

Lemma payment_sim st db basic r p tx s :
  create_builder_transfer_transaction st basic r p = Done tx -> simulate_tx st db tx = Done s ->
  sim_of st s /\ to_gas_used (st_outcome s) <= MAX_BUILDER_TRANSFER_GAS_LIMIT.
Proof.
  intros Ht [Hs Htx]%simulate_tx_on_db_Done. split; [done|].
  apply payment_gas_limit in Ht. apply sim_of_gas in Hs as (_ & Hs & _). rewrite Htx in Hs. lia.
Qed.

(** the details after the payment of an execution *)
Lemma payment_details st0 db0 st db l b p s sdb :
  limits_ok st0 -> details_of (bs_exec_details st0) [] -> executes st0 db0 st db l ->
  sim_of (handed_over st b p) s -> to_gas_used (st_outcome s) <= MAX_BUILDER_TRANSFER_GAS_LIMIT ->
  details_of (bs_exec_details (commit (handed_over st b p) sdb [s]).1) (l ++ [s]) /\
  (l = [] \/ sum_of to_gas_used (l ++ [s]) <= bc_block_gas_limit (bs_build_config st0)).
Proof.
  intros Hlim Hd0 Hex Hs Hg. pose proof (executes_inv _ _ _ _ _ Hlim Hd0 Hex) as [_ Hd Hl Hgl Hb _].
  destruct Hlim as [_ HB]. pose proof (sims_gas_nonneg _ _ Hl) as Hln.
  apply sim_of_gas in Hs as (H1 & _ & H2).
  unfold MAX_DATA_GAS_PER_BLOCK, MAX_BUILDER_TRANSFER_GAS_LIMIT in *. split.
  - apply commit_details; [by apply handed_over_details|done|by repeat constructor; lia| |];
      rewrite sum_of_app; simpl; [destruct Hgl as [->|?]; simpl; lia|lia].
  - destruct Hgl as [?|Hgl]; [by left|right]. rewrite sum_of_app. simpl. lia.
Qed.

(** ** The theorems *)

(** C4: whatever transactions and bundles a strategy executes, the gas used and the
    gas reserved for the payment stay within the gas limit of the block, the
    blob gas within the limit of a block, and the counters are the exact sums
    over the committed transactions. *)
Theorem execution_within_limits (id ts : Z) (c : BuildConfig) (pc : PayloadConfig)
    (db0 : ExecutionDB) (st : BuildState) (db : ExecutionDB) (l : list SimulatedTransaction) :
  let st0 := BuildState_new id c pc ts in
  limits_ok st0 -> executes st0 db0 st db l ->
  let d := bs_exec_details st in
  (l = [] \/ ed_cumulative_gas_used d + MAX_BUILDER_TRANSFER_GAS_LIMIT <= bc_block_gas_limit c) /\
  ed_cumulative_blob_gas_used d <= MAX_DATA_GAS_PER_BLOCK /\
  ed_cumulative_gas_used d = sum_of to_gas_used l /\
  ed_cumulative_blob_gas_used d = sum_of to_blob_gas_used l.
Proof.
  intros st0 Hlim Hex d. pose proof (executes_inv _ _ _ _ _ Hlim details_of_default Hex) as [_ Hd _ Hg Hb _].
  unfold d. rewrite (do_gas _ _ Hd), (do_blob_gas _ _ Hd). split_and!; [|done..].
  destruct Hg as [?|Hg]; [by left|by right].
Qed.

(** C17: the executed transactions, the receipts and the value of a build are those
    of the committed simulations, in order: one receipt per transaction, with
    the running total of the gas. *)
Theorem execution_details_account (id ts : Z) (c : BuildConfig) (pc : PayloadConfig)
    (db0 : ExecutionDB) (st : BuildState) (db : ExecutionDB) (l : list SimulatedTransaction) :
  let st0 := BuildState_new id c pc ts in
  limits_ok st0 -> executes st0 db0 st db l ->
  ed_executed_txs (bs_exec_details st) = (fun s => into_signed (st_tx s)) <$> l /\
  length (ed_receipts (bs_exec_details st)) = length (ed_executed_txs (bs_exec_details st)) /\
  (forall i r, ed_receipts (bs_exec_details st) !! i = Some r ->
     exists s receipt, l !! i = Some s /\ r = Some receipt /\
       rc_success receipt = er_is_success (to_evm_result (st_outcome s)) /\
       rc_cumulative_gas_used receipt = sum_of to_gas_used (take (S i) l)) /\
  block_value st = u256_wrap (sum_of to_fees l + sum_of to_coinbase_transfer l).
Proof.
  intros st0 Hlim Hex. pose proof (executes_inv _ _ _ _ _ Hlim details_of_default Hex) as [_ Hd _ _ _ _].
  assert (Hrec : forall n k i r, receipts_from n k !! i = Some r ->
    exists s receipt, k !! i = Some s /\ r = Some receipt /\
      rc_success receipt = er_is_success (to_evm_result (st_outcome s)) /\
      rc_cumulative_gas_used receipt = n + sum_of to_gas_used (take (S i) k)).
  { intros n k. revert n. induction k as [|s k IH]; intros n i r; [done|].
    destruct i as [|i]; simpl.
    - intros [= <-]. eexists s, _. split_and!; try done. simpl. lia.
    - intros H. apply IH in H as (s' & rc & H1 & -> & H2 & H3). eexists s', rc.
      split_and!; try done. rewrite H3. simpl. lia. }
  assert (Hlen : forall n k, length (receipts_from n k) = length k).
  { intros n k. revert n. induction k; intros n; simpl; auto. }
  rewrite (do_txs _ _ Hd), (do_receipts _ _ Hd). split_and!.
  - done.
  - by rewrite Hlen, length_fmap.
  - intros i r H. by apply Hrec in H.
  - unfold block_value, u256_add. rewrite (do_fees _ _ Hd), (do_transfers _ _ Hd).
    by rewrite u256_wrap_add_l, Z.add_comm, u256_wrap_add_l, Z.add_comm.
Qed.

(** C5: a finished build extends its parent by the executed transactions followed
    by one more, signed by the builder's key with the next nonce its account has in the
    parent's state after the execution: the transfer of the bid to the validator's fee
    recipient.  It is worth its bid, and uses no more gas than the block may when
    anything was executed, or when the block may hold the transfer at all. *)
Theorem into_build_correct (id ts : Z) (c : BuildConfig) (pc : PayloadConfig)
    (db0 : ExecutionDB) (st : BuildState) (db : ExecutionDB) (l : list SimulatedTransaction)
    (bst : BundleState) (payment : Z) (client : Client) (pool : TxPool) (b : Build) :
  let st0 := BuildState_new id c pc ts in
  limits_ok st0 ->
  executes st0 db0 st db l ->
  into_build (handed_over st bst payment) client pool = Done b ->
  exists sp account tx,
    state_by_block_hash client (sl_hash (bc_parent_block c)) = Ok sp /\
    db_basic (exec_db_new sp cached_reads_default (Some bst)) (pc_builder_address pc) = Ok account /\
    transfer_of st0 (next_nonce account) (vi_fee_recipient (bc_validator_info c)) payment tx /\
    bl_body (sl_block (bp_block (b_payload b))) =
      ((fun s => into_signed (st_tx s)) <$> l) ++ [into_signed tx] /\
    (l <> [] \/ 32000 <= bc_block_gas_limit c -> hd_gas_used (build_header b) <= bc_block_gas_limit c) /\
    hd_gas_limit (build_header b) = bc_block_gas_limit c /\
    hd_parent_hash (build_header b) = sl_hash (bc_parent_block c) /\
    b_bid b = payment /\ b_id b = id.
Proof.
  intros st0 Hlim Hex Hb.
  destruct (executes_inv _ _ _ _ _ Hlim details_of_default Hex) as [Hcfg _ _ _ _ _].
  pose proof Hcfg as (Hc1 & Hc2 & Hc3).
  apply into_build_Done in Hb as (sp & tx & s & d & Hsp & Htx & Hs & Hd & Hbid & Hid & _ & Hbody & Hgu & Hgl & _ & Hph & _ & _).
  destruct (payment_sim _ _ _ _ _ _ _ Htx Hs) as [Hsim Hsg].
  destruct (payment_details _ _ _ _ _ _ _ _ (finish_db (handed_over st bst payment) sp)
    Hlim details_of_default Hex Hsim Hsg) as [Hdet Hgas].
  rewrite <- Hd in Hdet. apply simulate_tx_on_db_Done in Hs as [Hs Hst].
  apply create_transfer_Done in Htx as (account & Hacc & Htx).
  change (bs_build_config (handed_over st bst payment)) with (bs_build_config st) in *.
  change (bs_payload_config (handed_over st bst payment)) with (bs_payload_config st) in *.
  apply (transfer_of_config st0) in Htx; [|done].
  rewrite Hc2 in Hacc. rewrite Hc3 in *. exists sp, account, tx. split_and!; try done.
  - rewrite Hbody, (do_txs _ _ Hdet), fmap_app. simpl. by rewrite Hst.
  - rewrite Hgu, (do_gas _ _ Hdet). destruct Hgas as [->|Hgas]; [|done].
    intros [?|Hmin]; [done|]. simpl. unfold MAX_BUILDER_TRANSFER_GAS_LIMIT in *. lia.
  - by rewrite Hid.
Qed.

(** no execution panics, and executing a transaction fails with none of the
    bundle errors the strategies call unreachable. *)
Theorem execution_total (st : BuildState) (db : ExecutionDB) (t : SignedTx) (b : RecoveredBundle) :
  config_wf st ->
  execute_transaction st db t <> Panicked /\
  execute_bundle st db b <> Panicked /\
  forall e, execute_transaction st db t = Fail e ->
    e = MaxGasExceeded \/ e = MaxBlobGasExceeded \/ exists e', e = PayloadBuilder e'.
Proof.
  intros Hc. split_and!; [by apply execute_skip_not_Panicked|by apply execute_bundle_not_Panicked|].
  intros e. apply execute_transaction_errors_aux.
Qed.

(** C8: a bundle that is executed runs all its transactions in order, none of which
    fails unless the bundle lets it, and none of which touches a blacklisted
    address; at most one transaction, the refund, is added. *)
Theorem execute_bundle_correct (st : BuildState) (db : ExecutionDB) (b : RecoveredBundle)
    (st' : BuildState) (db' : ExecutionDB) :
  execute_bundle st db b = Done (st', db') ->
  exists new refund, (st', db') = commit st db (new ++ refund) /\
    st_tx <$> new = rb_txs b /\ (length refund <= 1)%nat /\
    (forall s, s ∈ new ->
       (er_is_success (to_evm_result (st_outcome s)) = true \/
        tx_hash (st_tx s) ∈ rb_reverting_tx_hashes b) /\
       forall a acct, to_evm_state (st_outcome s) !! a = Some acct -> a ∉ OFAC_LIST).
Proof.
  intros (sb & Hs & Hv & Hcm)%execute_bundle_Done.
  apply simulate_bundle_Done in Hs as (new & r & Heq & _ & Htx & Hr & Hof & Hrev).
  exists new, r. rewrite <- Heq. split_and!; try done. intros s Hin.
  unfold verify_simulated_bundle in Hv. destruct (bo_reverted (sm_outcome sb)); [done|].
  destruct (Hrev eq_refl) as [Hfr _]. rewrite Forall_forall in Hfr, Hof.
  specialize (Hfr s Hin). specialize (Hof s Hin). split.
  - unfold forbidden_revert in Hfr. destruct (er_is_success _); [by left|right]. simpl in Hfr.
    by apply negb_false_iff, bool_decide_eq_true in Hfr.
  - intros a acct Ha. rewrite outcome_contains_ofac_None in Hof. rewrite <- is_ofac_elem.
    by rewrite (Hof a acct Ha).
Qed.

(** C32: a refund never exceeds what the refunded transaction paid to the builder,
    less the cost of the transfer: paying it never costs the builder. *)
Theorem bundle_refund_affordable (st : BuildState) (db : ExecutionDB) (b : RecoveredBundle)
    (sb : SimulatedBundle) :
  simulate_bundle st db b = Done sb ->
  (forall r, rb_refund b = Some r -> 0 <= percent r <= 100) ->
  0 <= bc_basefee (bs_build_config st) -> is_u64 (32000 * bc_basefee (bs_build_config st)) ->
  bo_refund (sm_outcome sb) <> 0 ->
  exists i s, refund_index b = Some i /\ sm_simulated_txs sb !! i = Some s /\
    bo_refund (sm_outcome sb) + 32000 * bc_basefee (bs_build_config st) <=
      to_fees (st_outcome s) + to_coinbase_transfer (st_outcome s).
Proof.
  intros Hsim Hp Hb0 Hb Hr. unfold simulate_bundle in Hsim. run_inv. destruct t0 as [sdb sims].
  unfold to_u64 in Hr2. destruct (_ && _); [|done]. injection Hr2 as <-. cbn [fst snd] in Hsim.
  set (base := bc_basefee (bs_build_config st)) in *.
  assert (exists tail, sm_simulated_txs sb = sims ++ tail /\
    bo_refund (sm_outcome sb) = bo_refund (sm_outcome (SimulatedBundle_new b sims base)))
    as (tail & Htxs & Hro).
  { destruct (simulate_refund_tx _ _ _) as [[r|]| |]; run_inv; try done; subst sb;
      [by exists [r]|exists []]. by rewrite app_nil_r. }
  rewrite Hro in *. simpl in Hr |- *. unfold calculate_refund in *. simpl in *.
  destruct (rb_refund b) as [br|] eqn:Hbr; [|done].
  destruct (refund_index b) as [i|] eqn:Hi; simpl in *; [|done].
  destruct (sims !! i) as [s|] eqn:Hs; simpl in *; [|done].
  exists i, s. split; [done|]. split; [rewrite Htxs; by apply lookup_app_l_Some|].
  pose proof (refund_amount_bounds_aux br (to_fees (st_outcome s)) (to_coinbase_transfer (st_outcome s))
    base (Hp br eq_refl)) as [H0 H1].
  unfold MAX_BUILDER_TRANSFER_GAS_LIMIT in H1. rewrite u64_mul_small in H1 by done.
  unfold u256_saturating_sub, u256_saturating_add in H1. lia.
Qed.

(** the build offered when nothing better is ready has an empty body, but takes
    the blob gas and the fees of the transactions the state has executed. *)
Theorem into_empty_build_header (st : BuildState) (client : Client) (pool : TxPool) (b : Build) :
  into_empty_build st client pool = Done b ->
  bl_body (sl_block (bp_block (b_payload b))) = [] /\ hd_gas_used (build_header b) = 0 /\
  b_bid b = 0 /\ bp_fees (b_payload b) = ed_sum_fees (bs_exec_details st) /\
  hd_blob_gas_used (build_header b) =
    (if is_cancun_active_at_timestamp (pc_chain_spec (bs_payload_config st))
          (pa_timestamp (bc_attributes (bs_build_config st)))
     then Some (ed_cumulative_blob_gas_used (bs_exec_details st)) else None).
Proof.
  unfold into_empty_build. intros H. run_inv. subst b. simpl. split_and!; try done.
  unfold cancun_fields in Hr3. destruct (is_cancun_active_at_timestamp _ _); run_inv; by subst.
Qed.
End StateFacts.

(** ** Evaluation on concrete inputs *)

#[export] Instance demo_text : ErrorText := {|
  pbe_to_string _ := "payload builder error";
  evm_error_to_string _ := "evm error";
  address_to_string _ := "address";
  bse_debug _ := "error";
|}.

Import Demo.

Definition demo_accounts : accounts :=
  list_to_map [(11, {| ai_balance := 10 ^ 9; ai_nonce := 0 |});
               (12, {| ai_balance := 10 ^ 9; ai_nonce := 0 |});
               (5, {| ai_balance := 10 ^ 6; ai_nonce := 3 |})].

Definition demo_header : Header :=
  {| hd_parent_hash := 0; hd_ommers_hash := 0; hd_beneficiary := 0; hd_state_root := 0;
     hd_transactions_root := 7; hd_receipts_root := 0; hd_withdrawals_root := None;
     hd_logs_bloom := []; hd_timestamp := 238; hd_mix_hash := 0; hd_nonce := 0;
     hd_base_fee_per_gas := Some 1; hd_number := 41; hd_gas_limit := 30000000; hd_difficulty := 0;
     hd_gas_used := 0; hd_extra_data := []; hd_parent_beacon_block_root := None;
     hd_blob_gas_used := Some 0; hd_excess_blob_gas := Some 0 |}.

Definition demo_attributes : PayloadAttributes :=
  {| pa_id := 1; pa_parent := 77; pa_timestamp := 250; pa_suggested_fee_recipient := 9;
     pa_prev_randao := 3; pa_withdrawals := []; pa_parent_beacon_block_root := Some 4 |}.

Definition demo_config : BuildConfig :=
  {| bc_slot := 1; bc_attributes := demo_attributes;
     bc_validator_info := {| vi_proposer := 1; vi_fee_recipient := 9; vi_gas_limit := 30000000; vi_slot := 1 |};
     bc_parent_block := {| sl_hash := 77; sl_block := {| bl_header := demo_header; bl_body := []; bl_withdrawals := None |} |};
     bc_block_number := 42;
     bc_initialized_block_env := snd (cfg_and_block_env demo_attributes tt demo_header);
     bc_initialized_cfg := tt; bc_block_gas_limit := 30000000; bc_basefee := 1 |}.

Definition demo_payload_config : PayloadConfig :=
  {| pc_chain_spec := tt; pc_builder_address := 5; pc_secret_key := 5; pc_extra_data := [] |}.

Definition demo_state : BuildState := BuildState_new 1 demo_config demo_payload_config 0.

Definition demo_bundle : RecoveredBundle :=
  {| rb_txs := [simple_tx 101 11 0 2; DemoTx 102 12 0 (Some 11) 50 1 21000 40000 None true];
     rb_reverting_tx_hashes := [];
     rb_refund := BundleRefund_new (Some 90) None None |}.

(** a transaction, then a bundle with a refund *)
Definition demo_step1 : BuildState * ExecutionDB :=
  run_or (demo_state, demo_accounts) (execute_transaction demo_state demo_accounts (simple_tx 100 11 0 1)).
Definition demo_bundle2 : RecoveredBundle :=
  {| rb_txs := [simple_tx 101 11 1 2; DemoTx 102 12 0 (Some 11) 50 1 21000 40000 None true];
     rb_reverting_tx_hashes := [];
     rb_refund := BundleRefund_new (Some 90) None None |}.
Definition demo_step2 : BuildState * ExecutionDB :=
  run_or demo_step1 (execute_bundle demo_step1.1 demo_step1.2 demo_bundle2).

Definition demo_sim_default : SimulatedTransaction :=
  {| st_tx := simple_tx 0 0 0 0;
     st_outcome := {| to_evm_result := (0, false); to_evm_state := ∅; to_gas_used := 0;
                      to_blob_gas_used := 0; to_fees := 0; to_coinbase_transfer := 0 |} |}.
Definition demo_sim1 : SimulatedTransaction :=
  run_or demo_sim_default
    (simulate_tx demo_state demo_accounts (simple_tx 100 11 0 1)).
Definition demo_sim2 : SimulatedBundle :=
  run_or (SimulatedBundle_new demo_bundle [] 0) (simulate_bundle demo_step1.1 demo_step1.2 demo_bundle2).

Lemma demo_executes :
  executes demo_state demo_accounts demo_step2.1 demo_step2.2 ([demo_sim1] ++ sm_simulated_txs demo_sim2).
Proof.
  assert (executes demo_state demo_accounts demo_step1.1 demo_step1.2 [demo_sim1]) as H1.
  { apply (exec_tx _ _ demo_state demo_accounts [] (simple_tx 100 11 0 1)); [constructor| |].
    - run_done (demo_state, demo_accounts).
    - run_done demo_sim_default. }
  apply (exec_bundle _ _ _ _ _ demo_bundle2 _ _ _ H1); [| |simpl; lia].
  - run_done demo_step1.
  - run_done (SimulatedBundle_new demo_bundle [] 0).
Qed.

Lemma demo_limits : limits_ok demo_state.
Proof. repeat split; (kernel_refl || (simpl; lia)). Qed.

Lemma execution_within_limits_witness :
  length (sm_simulated_txs demo_sim2) = 3%nat /\
  let d := bs_exec_details demo_step2.1 in
  ed_cumulative_gas_used d = 95000 /\ ed_cumulative_blob_gas_used d <= MAX_DATA_GAS_PER_BLOCK.
Proof.
  split; [kernel_refl|]. split; [kernel_refl|].
  apply (execution_within_limits 1 0 demo_config demo_payload_config demo_accounts demo_step2.1
    demo_step2.2 ([demo_sim1] ++ sm_simulated_txs demo_sim2)); [apply demo_limits|apply demo_executes].
Defined.

Lemma execution_details_account_witness :
  length (ed_receipts (bs_exec_details demo_step2.1)) = 4%nat /\
  block_value demo_step2.1 = 124000 /\
  (forall i r, ed_receipts (bs_exec_details demo_step2.1) !! i = Some r ->
     exists s receipt, ([demo_sim1] ++ sm_simulated_txs demo_sim2) !! i = Some s /\ r = Some receipt /\
       rc_success receipt = er_is_success (to_evm_result (st_outcome s)) /\
       rc_cumulative_gas_used receipt =
         sum_of to_gas_used (take (S i) ([demo_sim1] ++ sm_simulated_txs demo_sim2))).
Proof.
  split; [kernel_refl|]. split; [kernel_refl|].
  apply (execution_details_account 1 0 demo_config demo_payload_config demo_accounts demo_step2.1
    demo_step2.2 ([demo_sim1] ++ sm_simulated_txs demo_sim2)); [apply demo_limits|apply demo_executes].
Defined.

Definition demo_handed_over : BuildState := handed_over demo_step2.1 demo_step2.2 700.
Definition demo_empty_block : Block :=
  {| bl_header := demo_header; bl_body := []; bl_withdrawals := None |}.
Definition demo_build : Build :=
  run_or (finish_build demo_state demo_empty_block [] 0 0) (into_build demo_handed_over demo_accounts []).

Lemma into_build_correct_witness :
  into_build demo_handed_over demo_accounts [] = Done demo_build /\
  hd_gas_used (build_header demo_build) = 127000 /\ b_bid demo_build = 700.
Proof.
  assert (into_build demo_handed_over demo_accounts [] = Done demo_build) as Hb
    by run_done (finish_build demo_state demo_empty_block [] 0 0).
  split; [exact Hb|]. split; [kernel_refl|].
  destruct (into_build_correct 1 0 demo_config demo_payload_config demo_accounts demo_step2.1 demo_step2.2
    ([demo_sim1] ++ sm_simulated_txs demo_sim2) demo_step2.2 700 demo_accounts [] demo_build
    demo_limits demo_executes Hb)
    as (sp & account & tx & _ & _ & _ & _ & _ & _ & _ & Hbid & _).
  exact Hbid.
Defined.

Lemma execution_total_witness :
  execute_transaction demo_state demo_accounts (simple_tx 100 11 7 1) <> Panicked /\
  execute_bundle demo_state demo_accounts demo_bundle <> Panicked.
Proof.
  destruct (execution_total demo_state demo_accounts (simple_tx 100 11 7 1) demo_bundle) as (H1 & H2 & _).
  { split; [reflexivity|]. simpl. lia. }
  split; [exact H1|exact H2].
Defined.

Lemma execute_bundle_correct_witness :
  exists new refund, (demo_step2.1, demo_step2.2) = commit demo_step1.1 demo_step1.2 (new ++ refund) /\
    st_tx <$> new = rb_txs demo_bundle2.
Proof.
  assert (execute_bundle demo_step1.1 demo_step1.2 demo_bundle2 = Done (demo_step2.1, demo_step2.2))
    as He by run_done demo_step1.
  destruct (execute_bundle_correct _ _ _ _ _ He) as (new & refund & H1 & H2 & _).
  exists new, refund. split; [exact H1|exact H2].
Defined.

(** an empty block that declares the blob gas of two executed blobs *)
Definition demo_blob_step : BuildState * ExecutionDB :=
  run_or (demo_state, demo_accounts)
    (execute_transaction demo_state demo_accounts
       (DemoTx 100 11 0 None 0 1 21000 0 (Some 262144) true)).
Definition demo_empty_build : Build :=
  run_or demo_build (into_empty_build demo_blob_step.1 demo_accounts []).

Lemma into_empty_build_header_witness :
  into_empty_build demo_blob_step.1 demo_accounts [] = Done demo_empty_build /\
  bl_body (sl_block (bp_block (b_payload demo_empty_build))) = [] /\
  hd_blob_gas_used (build_header demo_empty_build) = Some 262144.
Proof.
  assert (into_empty_build demo_blob_step.1 demo_accounts [] = Done demo_empty_build) as Hb
    by run_done demo_build.
  destruct (into_empty_build_header _ _ _ _ Hb) as (H1 & _ & _ & _ & _).
  split; [exact Hb|]. split; [exact H1|kernel_refl].
Defined.

Lemma bundle_refund_affordable_witness :
  exists i s, refund_index demo_bundle2 = Some i /\ sm_simulated_txs demo_sim2 !! i = Some s /\
    26100 + 32000 * 1 <= to_fees (st_outcome s) + to_coinbase_transfer (st_outcome s).
Proof.
  assert (simulate_bundle demo_step1.1 demo_step1.2 demo_bundle2 = Done demo_sim2) as Hs
    by run_done (SimulatedBundle_new demo_bundle [] 0).
  assert (bc_basefee (bs_build_config demo_step1.1) = 1) as Hb by kernel_refl.
  pose proof (bundle_refund_affordable _ _ _ _ Hs) as H. rewrite Hb in H. apply H.
  - intros r [= <-]. simpl. lia.
  - lia.
  - solve_range.
  - apply Z.eqb_neq. kernel_refl.
Defined.
