(* ===== verification/Strategies.v ===== *)
(** * Building strategies

    Models [crates/payload/src/strategy/mod.rs], [empty.rs],
    [mempool/mod.rs], [mempool/strat.rs], [bundle/mod.rs] and
    [bundle/strat.rs]: the three strategies, from the arguments of a build to
    its outcome. *)

From stdpp Require Import prelude list gmap strings.
From S2P Require Import Prelude Types Bundle BundlePool Validator Chain Payload Ofac SimState State.

Open Scope Z_scope.

(** The iterator over the best transactions of the pool
    ([BestTransactions] of [reth]'s transaction pool). *)
Class BestTransactions `{EV : Evm} := {
  PoolTransaction : Type;
  to_recovered_transaction : PoolTransaction -> SignedTx;
  BestTxs : Type;
  best_transactions_with_attributes : TxPool -> Z -> option Z -> BestTxs;
  best_next : BestTxs -> option (PoolTransaction * BestTxs);
  mark_invalid : BestTxs -> PoolTransaction -> BestTxs;
  skip_blobs : BestTxs -> BestTxs;
}.

(** An iterator that ends: its documented behaviour when no transaction enters
    the pool while it runs. *)
Class FiniteBestTransactions `{BT : BestTransactions} := {
  best_remaining : BestTxs -> nat;
  best_next_remaining : forall b t b', best_next b = Some (t, b') ->
    (best_remaining b' < best_remaining b)%nat;
  mark_invalid_remaining : forall b t, (best_remaining (mark_invalid b t) <= best_remaining b)%nat;
  skip_blobs_remaining : forall b, (best_remaining (skip_blobs b) <= best_remaining b)%nat;
}.

Section Strategies.
Context `{BT : BestTransactions} `{RR : !ReceiptRoots} `{ER : ErrorText}.

(** ** Arguments and outcomes *)

(** The cancellation flag is shared and read once per transaction: what each
    read returns is part of the arguments.  So are the random identifier and
    the clock of the new state, and whether the lock of the bundle pool is
    acquired in time. *)
Record BuildArguments := {
  ba_client : Client;
  ba_pool : TxPool;
  ba_bundle_pool : BundlePool;
  ba_cached_reads : CachedReads;
  ba_build_config : BuildConfig;
  ba_cancel : nat -> bool;
  ba_best_build : option BuildState;
  ba_id : Z;
  ba_now : Z;
  ba_locked : bool;
}.

Inductive BuildOutcome :=
| Better (build_state : BuildState) (cached_reads : CachedReads)
| Aborted (block_value : Z) (cached_reads : CachedReads)
| CancelledOutcome.

Inductive TxExecution := JobCancelled | ExecFailed.

(** How a loop over the pool's transactions ends. *)
Inductive loop_end :=
| Finished
| Stopped (e : TxExecution)
| LoopPanicked
| OutOfFuel.

(** ** Errors of a mempool transaction *)

Inductive error_action :=
| GoOn (best : BestTxs)
| StopWith (e : TxExecution)
| Unreachable.

(** the [match err] of both loops *)
Definition on_tx_error (best : BestTxs) (pool_tx : PoolTransaction) (err : BuildStateExecutionError)
  : error_action :=
  match err with
  | OfacAddressDetected _ => GoOn (mark_invalid best pool_tx)
  | MaxGasExceeded => GoOn (mark_invalid best pool_tx)
  | MaxBlobGasExceeded => GoOn (mark_invalid (skip_blobs best) pool_tx)
  | PayloadBuilder (EvmExecutionError (EvmTransaction NonceTooLow)) => GoOn best
  | PayloadBuilder (EvmExecutionError (EvmTransaction _)) => GoOn (mark_invalid best pool_tx)
  | PayloadBuilder _ => StopWith ExecFailed
  | BuilderRefundTx _ | BundleExection _ | BundleReverted _ => Unreachable
  end.

(** ** The mempool strategy *)

(** [MempoolStrat::execute_txs]; [n] counts the reads of the flag *)
Fixpoint execute_txs (fuel : nat) (cancel : nat -> bool) (n : nat) (st : BuildState)
    (db : ExecutionDB) (best_txs : BestTxs) : BuildState * ExecutionDB * loop_end :=
  match fuel with
  | O => (st, db, OutOfFuel)
  | S fuel =>
      match best_next best_txs with
      | None => (st, db, Finished)
      | Some (pool_tx, best_txs) =>
          if cancel n then (st, db, Stopped JobCancelled)
          else
            let t := to_recovered_transaction pool_tx in
            if ofac_tx t then execute_txs fuel cancel (S n) st db (mark_invalid best_txs pool_tx)
            else
              match execute_transaction st db t with
              | Done (st', db') => execute_txs fuel cancel (S n) st' db' best_txs
              | Fail err =>
                  match on_tx_error best_txs pool_tx err with
                  | GoOn best_txs => execute_txs fuel cancel (S n) st db best_txs
                  | StopWith e => (st, db, Stopped e)
                  | Unreachable => (st, db, LoopPanicked)
                  end
              | Panicked => (st, db, LoopPanicked)
              end
      end
  end.

(** ** The bundle strategy *)

(** [filter_map(|bundle| build_state.simulate_bundle(db, bundle).ok())] *)
Fixpoint simulate_all (st : BuildState) (db : ExecutionDB) (bundles : list RecoveredBundle)
  : run PayloadBuilderError (list SimulatedBundle) :=
  match bundles with
  | [] => mret []
  | b :: bundles =>
      match simulate_bundle st db b with
      | Panicked => Panicked
      | Fail _ => simulate_all st db bundles
      | Done s => rest ← simulate_all st db bundles; mret (s :: rest)
      end
  end.

Definition decode_and_filter_bundles (st : BuildState) (db : ExecutionDB) (bundle_pool : BundlePool)
    (locked : bool) : run PayloadBuilderError (list SimulatedBundle) :=
  let bundles :=
    default [] (pool_bundles locked bundle_pool (bc_block_number (bs_build_config st))
                  (pa_timestamp (bc_attributes (bs_build_config st)))) in
  simulations ← simulate_all st db (recover_bundles bundles);
  mret (sort_by_max_value simulations).

(** [commit_selected_bundles]: the greedy selection; the state and the
    database keep the effects of the bundles committed so far *)
Fixpoint commit_selected_bundles (st : BuildState) (db : ExecutionDB) (committed_txs : gset B256)
    (processed_bundles : list SimulatedBundle)
  : BuildState * ExecutionDB * run PayloadBuilderError (gset B256) :=
  match processed_bundles with
  | [] => (st, db, mret committed_txs)
  | bundle :: rest =>
      if contains_ofac bundle then commit_selected_bundles st db committed_txs rest
      else if contains_committed_transaction bundle committed_txs then
        commit_selected_bundles st db committed_txs rest
      else
        match execute_bundle st db (sm_bundle bundle) with
        | Done (st', db') =>
            commit_selected_bundles st' db'
              (committed_txs ∪ list_to_set (recovered_tx_hashes (sm_bundle bundle))) rest
        | Fail (PayloadBuilder err) => (st, db, Fail err)
        | Fail _ => commit_selected_bundles st db committed_txs rest
        | Panicked => (st, db, Panicked)
        end
  end.

(** [BundlesStrat::execute_mempool_txs] *)
Fixpoint execute_mempool_txs (fuel : nat) (cancel : nat -> bool) (n : nat) (st : BuildState)
    (db : ExecutionDB) (committed_txs : gset B256) (best_txs : BestTxs)
  : BuildState * ExecutionDB * gset B256 * loop_end :=
  match fuel with
  | O => (st, db, committed_txs, OutOfFuel)
  | S fuel =>
      match best_next best_txs with
      | None => (st, db, committed_txs, Finished)
      | Some (pool_tx, best_txs) =>
          if cancel n then (st, db, committed_txs, Stopped JobCancelled)
          else
            let t := to_recovered_transaction pool_tx in
            if ofac_tx t then
              execute_mempool_txs fuel cancel (S n) st db committed_txs (mark_invalid best_txs pool_tx)
            else if bool_decide (tx_hash t ∈ committed_txs) then
              execute_mempool_txs fuel cancel (S n) st db committed_txs best_txs
            else
              match execute_transaction st db t with
              | Done (st', db') =>
                  execute_mempool_txs fuel cancel (S n) st' db' ({[tx_hash t]} ∪ committed_txs) best_txs
              | Fail err =>
                  match on_tx_error best_txs pool_tx err with
                  | GoOn best_txs => execute_mempool_txs fuel cancel (S n) st db committed_txs best_txs
                  | StopWith e => (st, db, committed_txs, Stopped e)
                  | Unreachable => (st, db, committed_txs, LoopPanicked)
                  end
              | Panicked => (st, db, committed_txs, LoopPanicked)
              end
      end
  end.

(** ** [try_build] *)

(** [db.merge_transitions(..); build_state.with_bundle_state(db.take_bundle())]
    and the comparison with the best build so far *)
Definition compare_with_best (st : BuildState) (db : ExecutionDB) (best_build : option BuildState)
  : BuildOutcome :=
  let db := merge_transitions db in
  let st := with_bundle_state st (take_bundle db) in
  let current_block_value := block_value st in
  let best_block_value := match best_build with Some best => block_value best | None => 0 end in
  if current_block_value <=? best_block_value
  then Aborted current_block_value (db_cached_reads db)
  else Better st (db_cached_reads db).

(** what every strategy starts from: a database over the parent's state, then a
    new state and the beacon root call *)
Definition open_db (args : BuildArguments) : run PayloadBuilderError ExecutionDB :=
  sp ← lift_err Internal
    (state_by_block_hash (ba_client args) (sl_hash (bc_parent_block (ba_build_config args))));
  mret (exec_db_new sp (ba_cached_reads args) None).

Definition begin_block (config : PayloadConfig) (args : BuildArguments) (db : ExecutionDB)
  : run PayloadBuilderError (BuildState * ExecutionDB) :=
  let st := BuildState_new (ba_id args) (ba_build_config args) config (ba_now args) in
  db ← lift_err id (pre_block_beacon_root_contract_call st db);
  mret (st, db).

Definition best_txs_of (args : BuildArguments) : run PayloadBuilderError BestTxs :=
  let env := bc_initialized_block_env (ba_build_config args) in
  base_fee ← expect (to_u64 (be_basefee env));
  mret (best_transactions_with_attributes (ba_pool args) base_fee (u64_wrap <$> be_blob_gasprice env)).

Definition empty_try_build (config : PayloadConfig) (args : BuildArguments)
  : run PayloadBuilderError BuildOutcome :=
  db ← open_db args;
  start ← begin_block config args db;
  mret (Better start.1 (db_cached_reads start.2)).

(** [None] when the iterator outlives the fuel *)
Definition mempool_try_build (fuel : nat) (config : PayloadConfig) (args : BuildArguments)
  : option (run PayloadBuilderError BuildOutcome) :=
  match (db ← open_db args;
         best_txs ← best_txs_of args;
         start ← begin_block config args db;
         mret (best_txs, start)) with
  | Fail e => Some (Fail e)
  | Panicked => Some Panicked
  | Done (best_txs, (st, db)) =>
      match execute_txs fuel (ba_cancel args) 0 st db best_txs with
      | (st, db, Finished) => Some (Done (compare_with_best st db (ba_best_build args)))
      | (_, _, Stopped JobCancelled) => Some (Done CancelledOutcome)
      | (st, db, Stopped ExecFailed) => Some (Done (Aborted (block_value st) (db_cached_reads db)))
      | (_, _, LoopPanicked) => Some Panicked
      | (_, _, OutOfFuel) => None
      end
  end.

Definition bundles_try_build (fuel : nat) (config : PayloadConfig) (args : BuildArguments)
  : option (run PayloadBuilderError BuildOutcome) :=
  match (best_txs ← best_txs_of args;
         db ← open_db args;
         start ← begin_block config args db;
         processed ← decode_and_filter_bundles start.1 start.2 (ba_bundle_pool args) (ba_locked args);
         mret (best_txs, start, processed)) with
  | Fail e => Some (Fail e)
  | Panicked => Some Panicked
  | Done (best_txs, (st, db), processed_bundles) =>
      match commit_selected_bundles st db ∅ processed_bundles with
      | (_, _, Fail e) => Some (Fail e)
      | (_, _, Panicked) => Some Panicked
      | (st, db, Done committed_txs) =>
          match execute_mempool_txs fuel (ba_cancel args) 0 st db committed_txs best_txs with
          | (st, db, _, Finished) => Some (Done (compare_with_best st db (ba_best_build args)))
          | (_, _, _, Stopped JobCancelled) => Some (Done CancelledOutcome)
          | (st, db, _, Stopped ExecFailed) =>
              Some (Done (Aborted (block_value st) (db_cached_reads db)))
          | (_, _, _, LoopPanicked) => Some Panicked
          | (_, _, _, OutOfFuel) => None
          end
      end
  end.

(** [enum Strategy] and its dispatch *)
Inductive Strategy :=
| EmptyStrat (config : PayloadConfig)
| MempoolStrat (config : PayloadConfig)
| BundlesStrat (config : PayloadConfig).

Definition try_build (fuel : nat) (self : Strategy) (args : BuildArguments)
  : option (run PayloadBuilderError BuildOutcome) :=
  match self with
  | EmptyStrat config => Some (empty_try_build config args)
  | MempoolStrat config => mempool_try_build fuel config args
  | BundlesStrat config => bundles_try_build fuel config args
  end.

Definition strategy_config (self : Strategy) : PayloadConfig :=
  match self with EmptyStrat c => c | MempoolStrat c => c | BundlesStrat c => c end.

(** [build_empty_payload]: the default configuration of [EmptyStrat] is an input *)
Definition build_empty_payload (default_config : PayloadConfig) (args : BuildArguments)
  : run PayloadBuilderError Build :=
  match empty_try_build default_config args with
  | Done (Better build_state _) => into_empty_build build_state (ba_client args) (ba_pool args)
  | Fail err => Fail err
  | _ => Panicked
  end.
End Strategies.
