(* ===== verification/StratFacts.v ===== *)
(** * Correctness of the strategies

    The theorems about [Strategies]: a better build is an execution of
    transactions that pass the OFAC filter, none of them twice, within the
    limits of the block, and worth more than the best build so far; the loops
    end and their unreachable branches are not reached. *)

From stdpp Require Import prelude list gmap strings sorting.
From S2P Require Import Prelude Types Bundle BundlePool Validator Chain Payload Ofac SimState DemoEvm State StateFacts Strategies.

Open Scope Z_scope.

Section StratFacts.
Context `{BT : BestTransactions} `{RR : !ReceiptRoots} `{EL : !EvmLaws} `{ER : ErrorText}.

(** ** Refunds are transfers of the builder *)

Definition is_transfer (st : BuildState) (t : SignedTx) : Prop :=
  exists nonce r p, transfer_of st nonce r p t.

Lemma is_transfer_config st st' t : same_config st st' -> is_transfer st' t -> is_transfer st t.
Proof. intros Hc (nonce & r & p & H). exists nonce, r, p. by eapply transfer_of_config. Qed.

Lemma simulate_bundle_shape st db b sb :
  simulate_bundle st db b = Done sb ->
  sm_bundle sb = b /\
  exists new refund, sm_simulated_txs sb = new ++ refund /\ st_tx <$> new = rb_txs b /\
    Forall (fun s => is_transfer st (st_tx s)) refund.
Proof.
  unfold simulate_bundle. intros H. run_inv. destruct t0 as [sdb sims]. cbn [fst snd] in H.
  apply simulate_bundle_loop_Done in Hr0 as (new & -> & _ & H2 & _). simpl in H.
  destruct (simulate_refund_tx _ _ _) as [[r|]| |] eqn:Hrf; try done; injection H as <-.
  - split; [done|]. exists new, [r]. split_and!; [done|done|]. repeat constructor.
    unfold simulate_refund_tx in Hrf. destruct (_ =? 0); [done|].
    destruct (refund_recipient _); [|done]. run_inv.
    apply run_map_err_Done in Hr0, Hr2. apply simulate_tx_on_db_Done in Hr2 as [_ Htx].
    destruct (negb _); [done|]. injection Hrf as <-. rewrite Htx.
    apply create_transfer_Done in Hr0 as (account & _ & H). by eexists _, _, _.
  - split; [done|]. exists new, []. by rewrite app_nil_r.
Qed.

(** ** Invariants of the loops *)

(** Lists of transactions that have none in common. *)
Definition apart (units : list (list SignedTx)) : Prop :=
  StronglySorted (fun u v => (tx_hash <$> u) ## (tx_hash <$> v)) units.

(** What the bundle strategy keeps true.  [units] are what was committed at once: the
    transactions of a bundle that satisfies [P], or one transaction of the mempool; the
    other committed transactions are refunds. *)
Definition strat_inv (P : RecoveredBundle -> Prop) (st0 : BuildState) (db0 : ExecutionDB)
    (st : BuildState) (db : ExecutionDB) (committed : gset B256) : Prop :=
  exists l units, let own := concat units in
    executes st0 db0 st db l /\
    Forall (fun s => st_tx s ∈ own \/ is_transfer st0 (st_tx s)) l /\
    sublist own (st_tx <$> l) /\
    Forall (fun u => (exists b, P b /\ u = rb_txs b) \/ exists t, u = [t]) units /\
    apart units /\
    committed = list_to_set (tx_hash <$> own) /\
    Forall (fun t => ofac_tx t = false) own.

(** A bundle too short for the gas counters to wrap. *)
Definition bundle_short (b : RecoveredBundle) : Prop := Z.of_nat (length (rb_txs b)) < 2 ^ 29.

Lemma apart_snoc units ts :
  apart units -> (forall t, t ∈ ts -> tx_hash t ∉ tx_hash <$> concat units) -> apart (units ++ [ts]).
Proof.
  induction 1 as [|u units Hs IH Hu]; intros Hn; simpl; [by repeat constructor|]. constructor.
  - apply IH. intros t Ht Hin. apply (Hn t Ht). simpl. rewrite fmap_app. apply elem_of_app. by right.
  - apply Forall_app. split; [done|]. apply Forall_singleton.
    intros h Hh (t & -> & Ht)%list_elem_of_fmap. apply (Hn t Ht). simpl. rewrite fmap_app. apply elem_of_app. by left.
Qed.

Lemma apart_lookup units i j u v t t' :
  apart units -> i <> j -> units !! i = Some u -> units !! j = Some v -> t ∈ u -> t' ∈ v ->
  tx_hash t <> tx_hash t'.
Proof.
  assert (forall i j u v t t', apart units -> (i < j)%nat -> units !! i = Some u -> units !! j = Some v ->
    t ∈ u -> t' ∈ v -> tx_hash t <> tx_hash t') as Hlt.
  { clear. intros i j u v t t' Hs. revert i j. induction Hs as [|u' units Hs IH Hu]; intros [|i] [|j] Hij Hi Hj Ht Ht';
      try done; try lia; simpl in *; [|apply (IH i j); done || lia].
    simplify_eq. rewrite Forall_forall in Hu. intros E.
    apply (Hu v (list_elem_of_lookup_2 _ _ _ Hj) (tx_hash t)); [by apply list_elem_of_fmap_2|].
    rewrite E. by apply list_elem_of_fmap_2. }
  intros Hs Hij Hi Hj Ht Ht' E. destruct (decide (i < j)%nat).
  - by apply (Hlt i j u v t t').
  - by apply (Hlt j i v u t' t); done || lia.
Qed.

(** parts that repeat nothing, put together *)
Lemma apart_NoDup units :
  apart units -> Forall (fun u => NoDup (tx_hash <$> u)) units -> NoDup (tx_hash <$> concat units).
Proof.
  induction 1 as [|u units Hs IH Hu]; intros Hn; simpl; [constructor|].
  inversion Hn as [|? ? Hnd Hn']; subst. rewrite fmap_app. apply NoDup_app. split_and!; [done| |by apply IH].
  intros h Hh (t & -> & Ht)%list_elem_of_fmap. apply list_elem_of_In, in_concat in Ht as (v & Hv & Ht).
  rewrite Forall_forall in Hu. apply (Hu v (proj2 (list_elem_of_In _ _) Hv) (tx_hash t) Hh).
  by apply list_elem_of_fmap_2, list_elem_of_In.
Qed.

Lemma executes_config st0 db0 st db l : executes st0 db0 st db l -> same_config st0 st.
Proof.
  induction 1 as [|st db l t st' db' s Hex IH He Hs|st db l b st' db' sb Hex IH He Hs Hlen].
  - by repeat split.
  - apply execute_skip_Done in He as (s' & _ & Hcm & _).
    pose proof (commit_config st db [s']) as (H1 & H2 & H3). rewrite <- Hcm in *.
    destruct IH as (? & ? & ?). repeat split; simpl in *; congruence.
  - apply execute_bundle_Done in He as (sb' & _ & _ & Hcm).
    pose proof (commit_config st db (sm_simulated_txs sb')) as (H1 & H2 & H3). rewrite <- Hcm in *.
    destruct IH as (? & ? & ?). repeat split; simpl in *; congruence.
Qed.

Lemma config_wf_executes st0 db0 st db l :
  executes st0 db0 st db l -> config_wf st0 -> config_wf st.
Proof. intros (_ & _ & H)%executes_config. unfold config_wf, bs_env. by rewrite H. Qed.

Lemma strat_inv_init P st db : strat_inv P st db st db ∅.
Proof. exists [], []. split_and!; simpl; unfold apart; repeat constructor. Qed.

(** adding [ts], new to the committed set, followed by transfers *)
Lemma strat_inv_extend P st0 db0 st db c st' db' new refund ts :
  strat_inv P st0 db0 st db c ->
  (forall l, executes st0 db0 st db l -> executes st0 db0 st' db' (l ++ new ++ refund)) ->
  st_tx <$> new = ts -> Forall (fun s => is_transfer st (st_tx s)) refund ->
  (exists b, P b /\ ts = rb_txs b) \/ (exists t, ts = [t]) -> Forall (fun t => ofac_tx t = false) ts ->
  (forall t, t ∈ ts -> tx_hash t ∉ c) ->
  strat_inv P st0 db0 st' db' (c ∪ list_to_set (tx_hash <$> ts)).
Proof.
  intros (l & units & Hex & Hl & Hsub & Hun & Hap & -> & Hof) Hext Hts Hr Hts' Hof' Hnew.
  exists (l ++ new ++ refund), (units ++ [ts]). cbv zeta. rewrite concat_app. simpl. rewrite app_nil_r. split_and!.
  - by apply Hext.
  - rewrite !Forall_app. split_and!.
    + eapply Forall_impl; [exact Hl|]. intros s [H|H]; [left|by right]. by apply elem_of_app; left.
    + apply Forall_forall. intros s Hs. left. apply elem_of_app. right. rewrite <- Hts.
      by apply list_elem_of_fmap_2.
    + eapply Forall_impl; [exact Hr|]. intros s H. right.
      eapply is_transfer_config; [by eapply executes_config|done].
  - rewrite !fmap_app, Hts. apply sublist_app; [done|]. by apply sublist_inserts_r.
  - apply Forall_app. split; [done|]. by apply Forall_singleton.
  - apply apart_snoc; [done|]. intros t Ht Hin. apply (Hnew t Ht). by apply elem_of_list_to_set.
  - by rewrite fmap_app, list_to_set_app_L.
  - by apply Forall_app.
Qed.

Lemma not_ofac_bundle sb :
  contains_ofac sb = false -> Forall (fun t => ofac_tx t = false) (rb_txs (sm_bundle sb)).
Proof.
  unfold contains_ofac. intros H. apply Forall_forall. intros t Ht.
  destruct (ofac_tx t) eqn:E; [|done]. rewrite <- H. symmetry. apply existsb_exists.
  exists t. split; [by apply list_elem_of_In|done].
Qed.

Lemma not_committed_bundle sb c t :
  contains_committed_transaction sb c = false -> t ∈ rb_txs (sm_bundle sb) -> tx_hash t ∉ c.
Proof.
  unfold contains_committed_transaction. intros H Ht Hc.
  assert (existsb (fun t => bool_decide (tx_hash t ∈ c)) (rb_txs (sm_bundle sb)) = true); [|congruence].
  apply existsb_exists. exists t. split; [by apply list_elem_of_In|by apply bool_decide_eq_true].
Qed.

Lemma commit_selected_inv P st0 db0 st db c bs :
  strat_inv P st0 db0 st db c ->
  Forall (fun sb => P (sm_bundle sb) /\ bundle_short (sm_bundle sb)) bs ->
  let '(st', db', r) := commit_selected_bundles st db c bs in
  match r with
  | Done c' => strat_inv P st0 db0 st' db' c'
  | _ => True
  end.
Proof.
  revert st db c. induction bs as [|sb bs IH]; intros st db c Hinv Hok; [done|]. simpl.
  inversion Hok as [|? ? [HP Hlen] Hok']; subst.
  destruct (contains_ofac sb) eqn:Hof; [by apply IH|].
  destruct (contains_committed_transaction sb c) eqn:Hcm; [by apply IH|].
  destruct (execute_bundle st db (sm_bundle sb)) as [[st' db']|e|] eqn:He; [|by destruct e; try apply IH|done].
  apply IH; [|done]. pose proof He as (sb' & Hs & _ & _)%execute_bundle_Done.
  pose proof Hs as (_ & new & r & Heq & Hnew & Hr)%simulate_bundle_shape.
  apply (strat_inv_extend P st0 db0 st db c st' db' new r); try done.
  - intros l Hex. rewrite <- Heq. by eapply exec_bundle.
  - left. by exists (sm_bundle sb).
  - by apply not_ofac_bundle.
  - intros t Ht. by eapply not_committed_bundle.
Qed.

(** ** The loops over the mempool *)

Lemma on_tx_error_reachable best t e :
  e = MaxGasExceeded \/ e = MaxBlobGasExceeded \/ (exists e', e = PayloadBuilder e') ->
  on_tx_error best t e <> Unreachable.
Proof.
  intros [->|[->|[e' ->]]]; [done|done|]. simpl. destruct e' as [|? | |e]; try done.
  by destruct e as [[]| | |].
Qed.

(** one executed transaction extends the invariant *)
Lemma strat_inv_tx P st0 db0 st db c t st' db' :
  strat_inv P st0 db0 st db c -> execute_transaction st db t = Done (st', db') ->
  ofac_tx t = false -> tx_hash t ∉ c -> strat_inv P st0 db0 st' db' ({[tx_hash t]} ∪ c).
Proof.
  intros Hinv He Hof Hnew. pose proof He as (s & Hs & _)%execute_skip_Done.
  pose proof Hs as [_ Ht]%simulate_tx_on_db_Done.
  assert (strat_inv P st0 db0 st' db' (c ∪ list_to_set (tx_hash <$> [t]))) as H.
  { apply (strat_inv_extend P st0 db0 st db c st' db' [s] []); try done.
    - intros l Hex. by eapply exec_tx.
    - by csimpl; rewrite Ht.
    - right. by exists t.
    - by constructor.
    - intros t' ->%list_elem_of_singleton. done. }
  csimpl in H. by rewrite (comm_L (∪)), union_empty_r_L in H.
Qed.

Lemma execute_mempool_inv P fuel cancel n st0 db0 st db c best :
  strat_inv P st0 db0 st db c ->
  let '(st', db', c', r) := execute_mempool_txs fuel cancel n st db c best in strat_inv P st0 db0 st' db' c'.
Proof.
  revert n st db c best. induction fuel as [|fuel IH]; intros n st db c best Hinv; [done|]. simpl.
  destruct (best_next best) as [[pt best']|]; [|done].
  destruct (cancel n); [done|].
  destruct (ofac_tx _) eqn:Hof; [by apply IH|].
  case_bool_decide as Hin; [by apply IH|].
  destruct (execute_transaction st db (to_recovered_transaction pt)) as [[st' db']|e|] eqn:He; [| |done].
  - apply IH. by eapply strat_inv_tx.
  - destruct (on_tx_error best' pt e); [by apply IH|done|done].
Qed.

Lemma execute_txs_inv fuel cancel n st0 db0 st db l best :
  executes st0 db0 st db l -> Forall (fun s => ofac_tx (st_tx s) = false) l ->
  let '(st', db', r) := execute_txs fuel cancel n st db best in
  exists l', executes st0 db0 st' db' l' /\ Forall (fun s => ofac_tx (st_tx s) = false) l'.
Proof.
  revert n st db l best. induction fuel as [|fuel IH]; intros n st db l best Hex Hl; simpl; [by eauto|].
  destruct (best_next best) as [[pt best']|]; [|by eauto].
  destruct (cancel n); [by eauto|].
  destruct (ofac_tx _) eqn:Hof; [by eapply IH|].
  destruct (execute_transaction st db (to_recovered_transaction pt)) as [[st' db']|e|] eqn:He; [| |by eauto].
  - pose proof He as (s & Hs & _)%execute_skip_Done.
    pose proof Hs as [_ Ht]%simulate_tx_on_db_Done.
    apply (IH _ _ _ (l ++ [s])); [by eapply exec_tx|].
    apply Forall_app; split; [done|]. repeat constructor. by rewrite Ht.
  - destruct (on_tx_error best' pt e); [by eapply IH|by eauto|by eauto].
Qed.

(** ** No panics *)

Lemma executed_config_wf st db l : config_wf st -> config_wf (commit st db l).1.
Proof. pose proof (commit_config st db l) as (_ & _ & H). unfold config_wf, bs_env. by rewrite H. Qed.

Lemma execute_transaction_config_wf st db t st' db' :
  config_wf st -> execute_transaction st db t = Done (st', db') -> config_wf st'.
Proof.
  intros Hc (s & _ & Hcm & _)%execute_skip_Done. change st' with (st', db').1. rewrite Hcm.
  by apply executed_config_wf.
Qed.

Lemma commit_selected_total st db c bs :
  config_wf st ->
  let '(st', db', r) := commit_selected_bundles st db c bs in config_wf st' /\ r <> Panicked.
Proof.
  revert st db c. induction bs as [|sb bs IH]; intros st db c Hc; [done|]. simpl.
  destruct (contains_ofac sb); [by apply IH|].
  destruct (contains_committed_transaction sb c); [by apply IH|].
  pose proof (execute_bundle_not_Panicked st db (sm_bundle sb) Hc).
  destruct (execute_bundle st db (sm_bundle sb)) as [[st' db']|e|] eqn:He; [|by destruct e; try apply IH|done].
  apply IH. apply execute_bundle_Done in He as (sb' & _ & _ & Hcm).
  change st' with (st', db').1. rewrite Hcm. by apply executed_config_wf.
Qed.

Lemma execute_mempool_total fuel cancel n st db c best :
  config_wf st -> (execute_mempool_txs fuel cancel n st db c best).2 <> LoopPanicked.
Proof.
  revert n st db c best. induction fuel as [|fuel IH]; intros n st db c best Hc; [done|]. simpl.
  destruct (best_next best) as [[pt best']|]; [|done].
  destruct (cancel n); [done|]. destruct (ofac_tx _); [by apply IH|]. case_bool_decide; [by apply IH|].
  pose proof (execute_transaction_not_Panicked st db (to_recovered_transaction pt) Hc).
  destruct (execute_transaction st db (to_recovered_transaction pt)) as [[st' db']|e|] eqn:He; [| |done].
  - apply IH. by eapply execute_transaction_config_wf.
  - apply execute_transaction_errors_aux in He. pose proof (on_tx_error_reachable best' pt e He).
    destruct (on_tx_error best' pt e); [by apply IH|done|done].
Qed.

Lemma execute_txs_total fuel cancel n st db best :
  config_wf st -> (execute_txs fuel cancel n st db best).2 <> LoopPanicked.
Proof.
  revert n st db best. induction fuel as [|fuel IH]; intros n st db best Hc; [done|]. simpl.
  destruct (best_next best) as [[pt best']|]; [|done].
  destruct (cancel n); [done|]. destruct (ofac_tx _); [by apply IH|].
  pose proof (execute_transaction_not_Panicked st db (to_recovered_transaction pt) Hc).
  destruct (execute_transaction st db (to_recovered_transaction pt)) as [[st' db']|e|] eqn:He; [| |done].
  - apply IH. by eapply execute_transaction_config_wf.
  - apply execute_transaction_errors_aux in He. pose proof (on_tx_error_reachable best' pt e He).
    destruct (on_tx_error best' pt e); [by apply IH|done|done].
Qed.

(** ** Termination of the loops *)

Section Termination.
Context `{FB : !FiniteBestTransactions}.

Lemma on_tx_error_remaining best t e best' :
  on_tx_error best t e = GoOn best' -> (best_remaining best' <= best_remaining best)%nat.
Proof.
  assert (Hm := mark_invalid_remaining). assert (Hs := skip_blobs_remaining).
  destruct e as [| |[h| |e|[[|k]|k|e|m]]|e|k|a|m]; simpl; intros [= <-]; try apply Hm; [|done].
  etrans; [apply Hm|apply Hs].
Qed.

Lemma execute_mempool_terminates fuel cancel n st db c best :
  (best_remaining best < fuel)%nat ->
  (execute_mempool_txs fuel cancel n st db c best).2 <> OutOfFuel.
Proof.
  revert n st db c best. induction fuel as [|fuel IH]; intros n st db c best Hf; [lia|]. simpl.
  destruct (best_next best) as [[pt best']|] eqn:Hn; [|done].
  apply best_next_remaining in Hn. destruct (cancel n); [done|].
  destruct (ofac_tx _). { apply IH. pose proof (mark_invalid_remaining best' pt). lia. }
  case_bool_decide. { apply IH. lia. }
  destruct (execute_transaction _ _ _) as [[? ?]|e|]; [apply IH; lia| |done].
  destruct (on_tx_error best' pt e) eqn:He; [|done|done].
  apply on_tx_error_remaining in He. apply IH. lia.
Qed.

Lemma execute_txs_terminates fuel cancel n st db best :
  (best_remaining best < fuel)%nat -> (execute_txs fuel cancel n st db best).2 <> OutOfFuel.
Proof.
  revert n st db best. induction fuel as [|fuel IH]; intros n st db best Hf; [lia|]. simpl.
  destruct (best_next best) as [[pt best']|] eqn:Hn; [|done].
  apply best_next_remaining in Hn. destruct (cancel n); [done|].
  destruct (ofac_tx _). { apply IH. pose proof (mark_invalid_remaining best' pt). lia. }
  destruct (execute_transaction _ _ _) as [[? ?]|e|]; [apply IH; lia| |done].
  destruct (on_tx_error best' pt e) eqn:He; [|done|done].
  apply on_tx_error_remaining in He. apply IH. lia.
Qed.
End Termination.

(** ** Bundles of a build *)

Lemma simulate_all_Done st db bs l :
  simulate_all st db bs = Done l -> Forall (fun sb => sm_bundle sb ∈ bs) l.
Proof.
  revert l. induction bs as [|b bs IH]; intros l; simpl; [intros [= <-]; constructor|].
  assert (Hw : forall l, Forall (fun sb => sm_bundle sb ∈ bs) l ->
    Forall (fun sb => sm_bundle sb ∈ b :: bs) l).
  { intros l' H. eapply Forall_impl; [exact H|]. intros sb Hsb. by right. }
  destruct (simulate_bundle st db b) as [sb|e|] eqn:Hs; [| |done].
  - intros H. run_inv. subst l. apply simulate_bundle_shape in Hs as [Hb _].
    constructor; [rewrite Hb; by left|auto].
  - intros H. auto.
Qed.

Lemma simulate_all_not_Panicked st db bs : config_wf st -> simulate_all st db bs <> Panicked.
Proof.
  intros Hc. induction bs as [|b bs IH]; simpl; [done|].
  pose proof (simulate_bundle_not_Panicked st db b Hc).
  destruct (simulate_bundle st db b); [|done|done]. by apply bind_not_Panicked.
Qed.

(** the bundles the pool serves for the block being built *)
Definition served_bundles (args : BuildArguments) : list RecoveredBundle :=
  recover_bundles (default [] (pool_bundles (ba_locked args) (ba_bundle_pool args)
    (bc_block_number (ba_build_config args)) (pa_timestamp (bc_attributes (ba_build_config args))))).

Lemma decode_and_filter_ok config args db l :
  decode_and_filter_bundles (BuildState_new (ba_id args) (ba_build_config args) config (ba_now args))
    db (ba_bundle_pool args) (ba_locked args) = Done l ->
  Forall (fun sb => sm_bundle sb ∈ served_bundles args) l.
Proof.
  unfold decode_and_filter_bundles. intros H. run_inv. subst l.
  apply simulate_all_Done in Hr. unfold sort_by_max_value. by rewrite sort_by_perm.
Qed.

Definition best_value (args : BuildArguments) : Z :=
  match ba_best_build args with Some best => block_value best | None => 0 end.

Lemma compare_with_best_Better st db args st' r :
  compare_with_best st db (ba_best_build args) = Better st' r ->
  st' = with_bundle_state st (take_bundle (merge_transitions db)) /\
  best_value args < block_value st.
Proof.
  unfold compare_with_best, best_value. cbv zeta.
  destruct (Z.leb_spec (block_value (with_bundle_state st (take_bundle (merge_transitions db))))
    (match ba_best_build args with Some best => block_value best | None => 0 end)) as [|Hlt]; [done|].
  intros [= <- _]. split; [done|]. unfold block_value in *. simpl in *. lia.
Qed.

Lemma begin_block_Done config args db start :
  begin_block config args db = Done start ->
  start.1 = BuildState_new (ba_id args) (ba_build_config args) config (ba_now args).
Proof. unfold begin_block. intros H. run_inv. by subst. Qed.

(** ** The theorems *)

(** C6: a better build of the bundle strategy is worth more than the best build so
    far, and is an execution, from a new state, of units: the transactions of a bundle
    the pool serves for the block, or one transaction of the mempool.  No two units have
    a transaction in common, so that no transaction is committed twice unless one bundle
    repeats it; none is signed by or sent to a blacklisted address; the other
    transactions the build commits are transfers the builder signs.  The served bundles
    have fewer than 2^29 transactions each, for which the gas counters do not wrap. *)
Theorem bundles_build_correct (fuel : nat) (config : PayloadConfig) (args : BuildArguments)
    (st : BuildState) (reads : CachedReads) :
  (forall b, b ∈ served_bundles args -> Z.of_nat (length (rb_txs b)) < 2 ^ 29) ->
  try_build fuel (BundlesStrat config) args = Some (Done (Better st reads)) ->
  let st0 := BuildState_new (ba_id args) (ba_build_config args) config (ba_now args) in
  best_value args < block_value st /\
  exists db0 st' db' l units, let own := concat units in
    executes st0 db0 st' db' l /\ st = with_bundle_state st' (take_bundle (merge_transitions db')) /\
    Forall (fun s => st_tx s ∈ own \/ is_transfer st0 (st_tx s)) l /\
    sublist own (st_tx <$> l) /\
    Forall (fun u => (exists b, b ∈ served_bundles args /\ u = rb_txs b) \/ exists t, u = [t]) units /\
    (forall i j u v t t', i <> j -> units !! i = Some u -> units !! j = Some v -> t ∈ u -> t' ∈ v ->
       tx_hash t <> tx_hash t') /\
    ((forall b, b ∈ served_bundles args -> NoDup (recovered_tx_hashes b)) -> NoDup (tx_hash <$> own)) /\
    Forall (fun t => ofac_tx t = false) own.
Proof.
  intros Hok H st0. simpl in H. unfold bundles_try_build in H.
  destruct (mbind _ _) as [[[best start] processed]| |] eqn:Hb in H; [|done|done].
  run_inv. destruct start as [st1 db1]. simplify_eq/=.
  apply begin_block_Done in Hr1. simpl in Hr1. subst st1.
  assert (Forall (fun sb => sm_bundle sb ∈ served_bundles args /\ bundle_short (sm_bundle sb)) processed) as Hok'.
  { eapply Forall_impl; [by eapply decode_and_filter_ok|]. intros sb Hsb. split; [done|by apply Hok]. }
  pose proof (commit_selected_inv (.∈ served_bundles args) _ db1 _ db1 ∅ processed
    (strat_inv_init _ st0 db1) Hok') as Hinv.
  fold st0 in H. destruct (commit_selected_bundles st0 db1 ∅ processed) as [[st1 db2] [c|e|]]; [|done|done].
  pose proof (execute_mempool_inv _ fuel (ba_cancel args) 0 st0 db1 st1 db2 c best Hinv) as Hinv2.
  destruct (execute_mempool_txs _ _ _ _ _ _ _) as [[[st2 db3] c2] []]; try done;
    [|by destruct e].
  destruct Hinv2 as (l & units & Hex & Hl & Hsub & Hun & Hap & _ & Hof).
  injection H as H. apply compare_with_best_Better in H as [-> Hv]. split; [exact Hv|].
  exists db1, st2, db3, l, units. split_and!; try done; [intros i j u v t t'; by apply apart_lookup|].
  intros Hnd. apply apart_NoDup; [done|]. eapply Forall_impl; [exact Hun|].
  intros u [(b & Hin & ->)|(t & ->)]; [by apply Hnd|apply NoDup_singleton].
Qed.

(** C23: the mempool strategy: as above, with no bundles and no refunds. *)
Theorem mempool_build_correct (fuel : nat) (config : PayloadConfig) (args : BuildArguments)
    (st : BuildState) (reads : CachedReads) :
  try_build fuel (MempoolStrat config) args = Some (Done (Better st reads)) ->
  let st0 := BuildState_new (ba_id args) (ba_build_config args) config (ba_now args) in
  best_value args < block_value st /\
  exists db0 st' db' l,
    executes st0 db0 st' db' l /\ st = with_bundle_state st' (take_bundle (merge_transitions db')) /\
    Forall (fun s => ofac_tx (st_tx s) = false) l.
Proof.
  intros H st0. simpl in H. unfold mempool_try_build in H.
  destruct (mbind _ _) as [[best [st1 db1]]| |] eqn:Hb in H; [|done|done].
  run_inv. simplify_eq/=. apply begin_block_Done in Hr1. simpl in Hr1. subst st1.
  pose proof (execute_txs_inv fuel (ba_cancel args) 0 st0 db1 st0 db1 [] best
    (exec_init _ _) (Forall_nil_2 _)) as Hinv.
  fold st0 in H. destruct (execute_txs _ _ _ _ _ _) as [[st2 db3] []]; try done; [|by destruct e].
  destruct Hinv as (l & Hex & Hl). injection H as H.
  apply compare_with_best_Better in H as [-> Hv]. split; [exact Hv|]. by exists db1, st2, db3, l.
Qed.

(** C30: every strategy ends, without a panic, for whatever bundles the pool serves, when
    the iterator over the mempool ends and the configuration is one [BuildConfig::new]
    makes, with a base fee that is a [u64] like the one in a header: the arms the source
    calls unreachable are. *)
Theorem try_build_total `{FB : !FiniteBestTransactions} (fuel : nat) (self : Strategy)
    (args : BuildArguments) (spec : ChainSpec) :
  (exists a parent slot v, BuildConfig_new spec a parent slot v = Done (ba_build_config args)) ->
  is_u64 (bc_basefee (ba_build_config args)) ->
  (forall base_fee blob_fee,
     (best_remaining (best_transactions_with_attributes (ba_pool args) base_fee blob_fee) < fuel)%nat) ->
  exists r, try_build fuel self args = Some r /\ r <> Panicked.
Proof.
  intros (a & parent & slot & v & Hnew) Hfee Hf. apply BuildConfig_new_Done in Hnew as [Hnew _].
  assert (Hc : forall config, config_wf (BuildState_new (ba_id args) (ba_build_config args) config (ba_now args))).
  { intros config. unfold config_wf, is_u64 in *. simpl. by rewrite <- Hnew. }
  assert (Hbest : exists best, best_txs_of args = Done best /\ (best_remaining best < fuel)%nat).
  { unfold best_txs_of. unfold is_u64 in Hfee. rewrite Hnew in Hfee.
    rewrite to_u64_small by done. simpl. eexists. split; [done|apply Hf]. }
  destruct Hbest as (best & Hbest & Hrem).
  assert (Hbegin : forall config db, begin_block config args db <> Panicked).
  { intros config db. unfold begin_block. apply bind_not_Panicked; [apply lift_err_Panicked|done]. }
  assert (Hopen : open_db args <> Panicked).
  { unfold open_db. apply bind_not_Panicked; [apply lift_err_Panicked|done]. }
  destruct self as [config|config|config]; simpl in *.
  - eexists. split; [done|]. unfold empty_try_build.
    apply bind_not_Panicked; [done|]. intros db _. by apply bind_not_Panicked.
  - unfold mempool_try_build. rewrite Hbest.
    destruct (open_db args) as [db|e|]; simpl; [|by eauto|done].
    specialize (Hbegin config db).
    destruct (begin_block config args db) as [[st1 db1]|e|] eqn:Hb; simpl; [|by eauto|done].
    apply begin_block_Done in Hb. simpl in Hb. subst st1.
    set (st0 := BuildState_new _ _ _ _) in *.
    pose proof (execute_txs_total fuel (ba_cancel args) 0 st0 db1 best (Hc _)) as Hp.
    pose proof (execute_txs_terminates fuel (ba_cancel args) 0 st0 db1 best Hrem) as Ht.
    destruct (execute_txs _ _ _ _ _ _) as [[st2 db3] r]. destruct r as [|[]| |]; by eauto.
  - unfold bundles_try_build. rewrite Hbest. simpl.
    destruct (open_db args) as [db|e|]; simpl; [|by eauto|done].
    specialize (Hbegin config db).
    destruct (begin_block config args db) as [[st1 db1]|e|] eqn:Hb; simpl; [|by eauto|done].
    apply begin_block_Done in Hb. simpl in Hb. subst st1.
    set (st0 := BuildState_new _ _ _ _) in *.
    destruct (decode_and_filter_bundles _ _ _ _) as [processed|e|] eqn:Hd; simpl; [|by eauto|].
    2: { exfalso. revert Hd. unfold decode_and_filter_bundles.
         apply bind_not_Panicked; [apply simulate_all_not_Panicked, Hc|done]. }
    pose proof (commit_selected_total st0 db1 ∅ processed (Hc _)) as Hsel.
    destruct (commit_selected_bundles st0 db1 ∅ processed) as [[st2 db2] [c|e|]]; [|by eauto|by destruct Hsel].
    pose proof (execute_mempool_total fuel (ba_cancel args) 0 st2 db2 c best (proj1 Hsel)) as Hp.
    pose proof (execute_mempool_terminates fuel (ba_cancel args) 0 st2 db2 c best Hrem) as Ht.
    destruct (execute_mempool_txs _ _ _ _ _ _ _) as [[[st3 db3] c3] r]. destruct r as [|[]| |]; by eauto.
Qed.

(** one bundle that fails to execute at its turn aborts the whole build: the
    bundles after it and the mempool are not tried. *)
Theorem failing_bundle_aborts_build (st : BuildState) (db : ExecutionDB) (c : gset B256)
    (sb : SimulatedBundle) (rest : list SimulatedBundle) (e : PayloadBuilderError) :
  contains_ofac sb = false -> contains_committed_transaction sb c = false ->
  execute_bundle st db (sm_bundle sb) = Fail (PayloadBuilder e) ->
  commit_selected_bundles st db c (sb :: rest) = (st, db, Fail e).
Proof. intros H1 H2 H3. simpl. by rewrite H1, H2, H3. Qed.
End StratFacts.

(** ** Evaluation on concrete inputs *)

Import Demo.

#[export] Instance demo_best : BestTransactions := {|
  PoolTransaction := demo_tx;
  to_recovered_transaction t := t;
  BestTxs := list demo_tx;
  best_transactions_with_attributes pool _ _ := pool;
  best_next l := match l with [] => None | t :: l => Some (t, l) end;
  mark_invalid l t := List.filter (fun t' => negb (dt_signer t' =? dt_signer t)) l;
  skip_blobs l := List.filter (fun t => negb (bool_decide (is_Some (dt_blob t)))) l;
|}.

#[export] Instance demo_finite : FiniteBestTransactions.
Proof.
  exists (fun l : list demo_tx => length l); simpl.
  - intros [|t l] t' l' [= <- <-]. simpl. lia.
  - intros l t. apply List.filter_length_le.
  - intros l. apply List.filter_length_le.
Defined.

Definition demo_raw_bundle (h : Z) (ts : list Z) : Bundle :=
  {| hash := h; txs := le_bytes 32 <$> ts; block_number := 42; min_timestamp := None;
     max_timestamp := None; reverting_tx_hashes := []; replacement_uuid := None; refund := None |}.

Definition demo_pool_of (bs : list Bundle) : BundlePool :=
  foldl (fun p b => fst (pool_add_bundle true p b)) BundlePool_new bs.

Definition demo_args (bs : list Bundle) (ts : list demo_tx) (best : option BuildState) : BuildArguments :=
  {| ba_client := demo_accounts; ba_pool := ts; ba_bundle_pool := demo_pool_of bs;
     ba_cached_reads := tt; ba_build_config := demo_config; ba_cancel := fun _ => false;
     ba_best_build := best; ba_id := 1; ba_now := 0; ba_locked := true |}.

(** one bundle of signers 11 and 12, and a mempool with the bundle's first
    transaction, a stale nonce and a next transaction *)
Definition demo_args1 : BuildArguments :=
  demo_args [demo_raw_bundle 900 [111; 112]]
    [simple_tx 111 11 0 1; simple_tx 300 12 0 5; simple_tx 301 11 1 7] None.

(** the state and the reads of a better build *)
Definition is_better (o : option (run PayloadBuilderError BuildOutcome)) : bool :=
  match o with Some (Done (Better _ _)) => true | _ => false end.
Definition better_of (o : option (run PayloadBuilderError BuildOutcome)) : BuildState * CachedReads :=
  match o with Some (Done (Better st r)) => (st, r) | _ => (demo_state, tt) end.

Lemma better_of_Better o :
  is_better o = true -> o = Some (Done (Better (better_of o).1 (better_of o).2)).
Proof. by destruct o as [[[]| |]|]. Qed.

Definition demo_outcome : BuildState * CachedReads :=
  better_of (try_build 10 (BundlesStrat demo_payload_config) demo_args1).

Lemma demo_served b : b ∈ served_bundles demo_args1 -> Z.of_nat (length (rb_txs b)) < 2 ^ 29.
Proof.
  assert (served_bundles demo_args1 =
    [{| rb_txs := [simple_tx 111 11 0 1; simple_tx 112 12 0 1]; rb_reverting_tx_hashes := []; rb_refund := None |}])
    as -> by kernel_refl.
  intros ->%list_elem_of_singleton. simpl. lia.
Qed.

Lemma bundles_build_correct_witness :
  try_build 10 (BundlesStrat demo_payload_config) demo_args1 =
    Some (Done (Better demo_outcome.1 demo_outcome.2)) /\
  0 < block_value demo_outcome.1 /\
  (tx_hash <$> ed_executed_txs (bs_exec_details demo_outcome.1)) = [111; 112; 301].
Proof.
  assert (try_build 10 (BundlesStrat demo_payload_config) demo_args1 =
    Some (Done (Better demo_outcome.1 demo_outcome.2))) as H
    by exact_no_check (better_of_Better (try_build 10 (BundlesStrat demo_payload_config) demo_args1) (eq_refl true)).
  split; [exact H|]. split; [|kernel_refl].
  apply (bundles_build_correct 10 demo_payload_config demo_args1 _ _ demo_served H).
Defined.

Definition demo_outcome2 : BuildState * CachedReads :=
  better_of (try_build 10 (MempoolStrat demo_payload_config) demo_args1).

Lemma mempool_build_correct_witness :
  try_build 10 (MempoolStrat demo_payload_config) demo_args1 =
    Some (Done (Better demo_outcome2.1 demo_outcome2.2)) /\
  0 < block_value demo_outcome2.1.
Proof.
  assert (try_build 10 (MempoolStrat demo_payload_config) demo_args1 =
    Some (Done (Better demo_outcome2.1 demo_outcome2.2))) as H
    by exact_no_check (better_of_Better (try_build 10 (MempoolStrat demo_payload_config) demo_args1) (eq_refl true)).
  split; [exact H|]. apply (mempool_build_correct 10 demo_payload_config demo_args1 _ _ H).
Defined.

Lemma try_build_total_witness :
  exists r, try_build 4 (BundlesStrat demo_payload_config) demo_args1 = Some r /\ r <> Panicked.
Proof.
  apply (try_build_total 4 (BundlesStrat demo_payload_config) demo_args1 tt).
  - exists demo_attributes, (bc_parent_block demo_config), 1, (bc_validator_info demo_config). kernel_refl.
  - simpl. unfold is_u64. lia.
  - intros. simpl. lia.
Defined.

(** two bundles that are both valid at the top of the block, with different
    transactions of one signer and nonce: the build fails *)
Definition demo_conflict : list SimulatedBundle :=
  match decode_and_filter_bundles demo_state demo_accounts
          (demo_pool_of [demo_raw_bundle 900 [111]; demo_raw_bundle 901 [211]]) true with
  | Done l => l
  | _ => []
  end.

Definition demo_after_first : BuildState * ExecutionDB :=
  run_or (demo_state, demo_accounts)
    (execute_bundle demo_state demo_accounts
       (sm_bundle (default demo_sim2 (head demo_conflict)))).

Lemma failing_bundle_aborts_build_witness :
  length demo_conflict = 2%nat /\
  commit_selected_bundles demo_after_first.1 demo_after_first.2 {[111]}
    [default demo_sim2 (demo_conflict !! 1%nat)] =
  (demo_after_first.1, demo_after_first.2, Fail (EvmExecutionError (EvmTransaction NonceTooLow))).
Proof.
  split; [kernel_refl|]. apply failing_bundle_aborts_build; kernel_refl.
Defined.

Example conflicting_bundles_fail_build :
  try_build 10 (BundlesStrat demo_payload_config)
    (demo_args [demo_raw_bundle 900 [111]; demo_raw_bundle 901 [211]] [] None) =
  Some (Fail (EvmExecutionError (EvmTransaction NonceTooLow))).
Proof. kernel_refl. Qed.
