(* ===== verification/Provenance.v ===== *)
(** * Where the transactions of a block come from

    What the strategies of [crates/payload/src/strategy] put into a block: whole
    bundles of the pool, each with at most a refund after it, then transactions of
    the mempool's iterator, and nothing else. *)

From stdpp Require Import prelude list gmap strings.
From S2P Require Import Prelude Types Bundle BundlePool Validator Chain Payload Ofac SimState DemoEvm State StateFacts Strategies StratFacts.

Open Scope Z_scope.

Section Provenance.
Context `{BT : BestTransactions} `{RR : !ReceiptRoots} `{ER : ErrorText}.

(** what an iterator over the mempool may still yield, whatever is marked invalid
    or skipped on the way *)
Inductive yields : BestTxs -> PoolTransaction -> Prop :=
| yields_next best pt best' : best_next best = Some (pt, best') -> yields best pt
| yields_later best pt best' pt' : best_next best = Some (pt', best') -> yields best' pt -> yields best pt
| yields_marked best pt pt' : yields (mark_invalid best pt') pt -> yields best pt
| yields_skipped best pt : yields (skip_blobs best) pt -> yields best pt.

(** a bundle as it is committed: its transactions, none of them blacklisted, then at
    most one transfer of the builder *)
Definition committed_bundle (st : BuildState) (served : Bundle -> Prop)
    (x : RecoveredBundle * list SignedTx) : Prop :=
  (exists b, served b /\ x.1 ∈ recover_bundles [b]) /\
  Forall (fun t => ofac_tx t = false) (rb_txs x.1) /\
  (length x.2 <= 1)%nat /\ Forall (is_transfer st) x.2.

Definition committed_tx (offered : SignedTx -> Prop) (t : SignedTx) : Prop :=
  offered t /\ ofac_tx t = false.

Definition body_of (bundles : list (RecoveredBundle * list SignedTx)) (singles : list SignedTx)
  : list TransactionSigned :=
  into_signed <$> (concat ((fun x => rb_txs x.1 ++ x.2) <$> bundles) ++ singles).

(** [st]'s transactions are whole bundles, then single transactions *)
Definition composed (served : Bundle -> Prop) (offered : SignedTx -> Prop) (st : BuildState) : Prop :=
  exists bundles singles,
    ed_executed_txs (bs_exec_details st) = body_of bundles singles /\
    Forall (committed_bundle st served) bundles /\ Forall (committed_tx offered) singles.

(** ** Committing appends *)

Lemma body_of_snoc bundles rb refund :
  body_of (bundles ++ [(rb, refund)]) [] = body_of bundles [] ++ (into_signed <$> (rb_txs rb ++ refund)).
Proof. unfold body_of. rewrite !app_nil_r, fmap_app, concat_app. csimpl. by rewrite app_nil_r, fmap_app. Qed.

Lemma commit_executed st db l :
  ed_executed_txs (bs_exec_details (commit st db l).1) =
  ed_executed_txs (bs_exec_details st) ++ ((fun s => into_signed (st_tx s)) <$> l).
Proof.
  assert (forall d db, ed_executed_txs (foldl commit_one (d, db) l).1 =
    ed_executed_txs d ++ ((fun s => into_signed (st_tx s)) <$> l)) as H.
  { induction l as [|s l IH]; intros d db'; simpl; [by rewrite app_nil_r|].
    rewrite IH. simpl. by rewrite <- app_assoc. }
  unfold commit. specialize (H (bs_exec_details st) db). by destruct (foldl commit_one _ l).
Qed.

Lemma committed_bundle_config st st' served x :
  same_config st st' -> committed_bundle st served x -> committed_bundle st' served x.
Proof.
  intros Hc (H1 & H2 & H3 & H4). split_and!; try done. eapply Forall_impl; [exact H4|].
  intros t. apply is_transfer_config. destruct Hc as (? & ? & ?). repeat split; congruence.
Qed.

Lemma composed_start id c pc now served offered : composed served offered (BuildState_new id c pc now).
Proof. exists [], []. by repeat split. Qed.

(** a bundle committed while no single transaction is *)
Lemma execute_bundle_composed served st db b bundle st' db' :
  (exists bundles, ed_executed_txs (bs_exec_details st) = body_of bundles [] /\
     Forall (committed_bundle st served) bundles) ->
  execute_bundle st db b = Done (st', db') -> served bundle -> b ∈ recover_bundles [bundle] ->
  Forall (fun t => ofac_tx t = false) (rb_txs b) ->
  exists bundles, ed_executed_txs (bs_exec_details st') = body_of bundles [] /\
     Forall (committed_bundle st' served) bundles.
Proof.
  intros (bundles & Hb & Hf) He Hs Hin Hof. apply execute_bundle_Done in He as (sb & Hsim & _ & Hcm).
  pose proof Hsim as (_ & new & refund & Heq & Hnew & Hr)%simulate_bundle_shape.
  apply simulate_bundle_Done in Hsim as (new' & refund' & Heq' & _ & Hnew' & Hlen & _).
  assert (length refund <= 1)%nat as Hl.
  { apply (f_equal length) in Heq, Heq', Hnew, Hnew'. rewrite !length_app, !length_fmap in *. lia. }
  pose proof (commit_config st db (sm_simulated_txs sb)) as Hc.
  pose proof (commit_executed st db (sm_simulated_txs sb)) as Hx. rewrite <- Hcm in Hc, Hx. simpl in Hc, Hx.
  exists (bundles ++ [(b, st_tx <$> refund)]). split.
  - rewrite Hx, Hb, Heq, body_of_snoc, <- Hnew. by rewrite <- fmap_app, <- list_fmap_compose.
  - apply Forall_app. split; [eapply Forall_impl; [exact Hf|]; intros x; by apply committed_bundle_config|].
    apply Forall_singleton. eapply committed_bundle_config; [exact Hc|]. split_and!; [by eauto|done| |].
    + simpl. by rewrite length_fmap.
    + by apply Forall_fmap.
Qed.

Lemma execute_transaction_composed served offered st db t st' db' :
  composed served offered st -> execute_transaction st db t = Done (st', db') ->
  committed_tx offered t -> composed served offered st'.
Proof.
  intros (bundles & singles & Hb & Hf & Hs) He Ht.
  apply execute_skip_Done in He as (s & Hsim & Hcm & _). apply simulate_tx_on_db_Done in Hsim as [_ Htx].
  pose proof (commit_config st db [s]) as Hc. pose proof (commit_executed st db [s]) as Hx.
  rewrite <- Hcm in Hc, Hx. simpl in Hc, Hx.
  exists bundles, (singles ++ [t]). split_and!.
  - rewrite Hx, Hb, Htx. unfold body_of. by rewrite !fmap_app, <- app_assoc.
  - eapply Forall_impl; [exact Hf|]. intros x. by apply committed_bundle_config.
  - apply Forall_app. split; [done|by apply Forall_singleton].
Qed.

(** ** The loops *)

Definition only_bundles (served : Bundle -> Prop) (st : BuildState) : Prop :=
  exists bundles, ed_executed_txs (bs_exec_details st) = body_of bundles [] /\
    Forall (committed_bundle st served) bundles.

Lemma commit_selected_composed served st db c l :
  only_bundles served st ->
  Forall (fun sb => exists b, served b /\ sm_bundle sb ∈ recover_bundles [b]) l ->
  only_bundles served (commit_selected_bundles st db c l).1.1.
Proof.
  revert st db c. induction l as [|sb l IH]; intros st db c Hst Hl; [done|]. simpl.
  inversion Hl as [|? ? (b & Hb & Hin) Hl']; subst.
  destruct (contains_ofac sb) eqn:Hof; [by apply IH|].
  destruct (contains_committed_transaction sb c); [by apply IH|].
  destruct (execute_bundle st db (sm_bundle sb)) as [[st' db']|e|] eqn:He; [|by destruct e; try apply IH|done].
  apply IH; [|done]. eapply execute_bundle_composed; [exact Hst|exact He|exact Hb|done|].
  by apply not_ofac_bundle.
Qed.

Lemma only_bundles_composed served offered st : only_bundles served st -> composed served offered st.
Proof. intros (bundles & H1 & H2). exists bundles, []. by repeat split. Qed.

Definition yielded (best : BestTxs) (t : SignedTx) : Prop :=
  exists pt, yields best pt /\ to_recovered_transaction pt = t.

(** everything the iterator may yield is offered; it stays so while the loops run *)
Definition covers (offered : SignedTx -> Prop) (best : BestTxs) : Prop :=
  forall t, yielded best t -> offered t.

Lemma covers_next offered best pt best' :
  covers offered best -> best_next best = Some (pt, best') ->
  offered (to_recovered_transaction pt) /\ covers offered best'.
Proof.
  intros Ho Hn. split; [apply Ho; exists pt; split; [by eapply yields_next|done]|].
  intros t (pt' & H & Ht). apply Ho. exists pt'. split; [by eapply yields_later|done].
Qed.

Lemma covers_mark offered best pt : covers offered best -> covers offered (mark_invalid best pt).
Proof. intros Ho t (pt' & H & Ht). apply Ho. exists pt'. split; [by eapply yields_marked|done]. Qed.

Lemma covers_error offered best pt err best' :
  covers offered best -> on_tx_error best pt err = GoOn best' -> covers offered best'.
Proof.
  intros Ho. destruct err as [| |[h| |e|[[|k]|k|e|m]]|e|k|a|m]; simpl; intros [= <-];
    try done; try by apply covers_mark.
  apply covers_mark. intros t (pt' & H & Ht). apply Ho. exists pt'. split; [by eapply yields_skipped|done].
Qed.

Lemma composed_mono (served served' : Bundle -> Prop) (offered offered' : SignedTx -> Prop) st :
  (forall b, served b -> served' b) -> (forall t, offered t -> offered' t) ->
  composed served offered st -> composed served' offered' st.
Proof.
  intros Hs Ho (bundles & singles & H1 & H2 & H3). exists bundles, singles. split_and!; [done| |].
  - eapply Forall_impl; [exact H2|]. intros x ((b & Hb & Hx) & ?). split; [|done]. exists b. by split; [apply Hs|].
  - eapply Forall_impl; [exact H3|]. intros t [Ht ?]. by split; [apply Ho|].
Qed.

Lemma execute_mempool_composed served offered fuel cancel n st db c best :
  composed served offered st -> covers offered best ->
  composed served offered (execute_mempool_txs fuel cancel n st db c best).1.1.1.
Proof.
  revert n st db c best. induction fuel as [|fuel IH]; intros n st db c best Hst Ho; [done|]. simpl.
  destruct (best_next best) as [[pt best']|] eqn:Hn; [|done].
  destruct (cancel n); [done|]. destruct (covers_next _ _ _ _ Ho Hn) as [Hpt Ho'].
  destruct (ofac_tx _) eqn:Hof; [apply IH; [done|by apply covers_mark]|].
  case_bool_decide; [by apply IH|].
  destruct (execute_transaction st db (to_recovered_transaction pt)) as [[st' db']|e|] eqn:He; [| |done].
  - apply IH; [by eapply execute_transaction_composed|done].
  - destruct (on_tx_error best' pt e) as [best''|x|] eqn:Hx; [|done|done].
    apply IH; [done|by eapply covers_error].
Qed.

Lemma execute_txs_composed served offered fuel cancel n st db best :
  composed served offered st -> covers offered best ->
  composed served offered (execute_txs fuel cancel n st db best).1.1.
Proof.
  revert n st db best. induction fuel as [|fuel IH]; intros n st db best Hst Ho; [done|]. simpl.
  destruct (best_next best) as [[pt best']|] eqn:Hn; [|done].
  destruct (cancel n); [done|]. destruct (covers_next _ _ _ _ Ho Hn) as [Hpt Ho'].
  destruct (ofac_tx _) eqn:Hof; [apply IH; [done|by apply covers_mark]|].
  destruct (execute_transaction st db (to_recovered_transaction pt)) as [[st' db']|e|] eqn:He; [| |done].
  - apply IH; [by eapply execute_transaction_composed|done].
  - destruct (on_tx_error best' pt e) as [best''|x|] eqn:Hx; [|done|done].
    apply IH; [done|by eapply covers_error].
Qed.

(** ** The strategies *)

(** the bundles the pool serves for a build, and the transactions the mempool offers *)
Definition served_for (args : BuildArguments) (b : Bundle) : Prop :=
  b ∈ default [] (pool_bundles (ba_locked args) (ba_bundle_pool args)
    (bc_block_number (ba_build_config args)) (pa_timestamp (bc_attributes (ba_build_config args)))).

Definition offered_to (args : BuildArguments) (t : SignedTx) : Prop :=
  exists base_fee blob_fee, yielded (best_transactions_with_attributes (ba_pool args) base_fee blob_fee) t.

Lemma composed_with_bundle_state served offered st b :
  composed served offered st -> composed served offered (with_bundle_state st b).
Proof.
  intros (bundles & singles & H1 & H2 & H3). exists bundles, singles. split_and!; [done| |done].
  eapply Forall_impl; [exact H2|]. intros x. by apply committed_bundle_config.
Qed.

Lemma compare_composed served offered args st db :
  composed served offered st ->
  match compare_with_best st db (ba_best_build args) with
  | Better st' _ => composed served offered st'
  | _ => True
  end.
Proof.
  intros H. destruct (compare_with_best _ _ _) as [st' r| |] eqn:E; [|done|done].
  apply compare_with_best_Better in E as [-> _]. by apply composed_with_bundle_state.
Qed.

Lemma best_txs_offered args best :
  best_txs_of args = Done best -> covers (offered_to args) best.
Proof. unfold best_txs_of. intros H. run_inv. subst best. intros t' Ht. by eexists _, _. Qed.

Lemma decode_and_filter_served config args db l :
  decode_and_filter_bundles (BuildState_new (ba_id args) (ba_build_config args) config (ba_now args))
    db (ba_bundle_pool args) (ba_locked args) = Done l ->
  Forall (fun sb => exists b, served_for args b /\ sm_bundle sb ∈ recover_bundles [b]) l.
Proof.
  unfold decode_and_filter_bundles. intros H. run_inv. subst l.
  apply simulate_all_Done in Hr. unfold sort_by_max_value. rewrite sort_by_perm.
  eapply Forall_impl; [exact Hr|]. intros sb (b & ts & Hb & Hts & E)%recover_bundles_elem.
  exists b. split; [exact Hb|]. apply recover_bundles_elem. exists b, ts. by split_and!; [left|..].
Qed.

(** a better build of any strategy consists of whole bundles the pool serves for its block
    while it is built, each passed as a whole by the filter and followed by at most a
    transfer of the builder, and then of transactions the mempool offered, passed by the
    filter; nothing else, and nothing of a bundle without the rest of it. *)
Theorem better_build_composed (fuel : nat) (s : Strategy) (args : BuildArguments) (st : BuildState)
    (reads : CachedReads) :
  try_build fuel s args = Some (Done (Better st reads)) ->
  composed (served_for args) (offered_to args) st.
Proof.
  destruct s as [config|config|config]; simpl; intros H.
  - injection H as H. unfold empty_try_build in H. run_inv. apply begin_block_Done in Hr0.
    simplify_eq. rewrite Hr0. apply composed_start.
  - unfold mempool_try_build in H.
    destruct (mbind _ _) as [[best [st1 db1]]| |] eqn:Hb in H; [|done|done].
    run_inv. simplify_eq/=. apply begin_block_Done in Hr1. simpl in Hr1. subst st1.
    pose proof (execute_txs_composed (served_for args) _ fuel (ba_cancel args) 0
      (BuildState_new (ba_id args) (ba_build_config args) config (ba_now args)) db1 best
      (composed_start _ _ _ _ _ _) (best_txs_offered _ _ Hr0)) as Hc.
    destruct (execute_txs _ _ _ _ _ _) as [[st2 db2] [|[]| |]]; try done.
    injection H as H. pose proof (compare_composed _ _ args st2 db2 Hc) as Ho. by rewrite H in Ho.
  - unfold bundles_try_build in H.
    destruct (mbind _ _) as [[[best start] processed]| |] eqn:Hb in H; [|done|done].
    run_inv. destruct start as [st1 db1]. simplify_eq/=.
    apply begin_block_Done in Hr1. simpl in Hr1. subst st1.
    pose proof (commit_selected_composed (served_for args)
      (BuildState_new (ba_id args) (ba_build_config args) config (ba_now args)) db1 ∅ processed) as Hs.
    destruct (commit_selected_bundles _ _ _ _) as [[st2 db2] [c|e|]]; [|done|done]. simpl in Hs.
    pose proof (execute_mempool_composed (served_for args) (offered_to args) fuel (ba_cancel args) 0 st2 db2 c best) as Hm.
    destruct (execute_mempool_txs _ _ _ _ _ _ _) as [[[st3 db3] c3] [|[]| |]]; try done.
    injection H as H. pose proof (compare_composed (served_for args) (offered_to args) args st3 db3) as Ho.
    rewrite H in Ho. apply Ho, Hm; [|by apply best_txs_offered].
    apply only_bundles_composed, Hs; [by exists []|by eapply decode_and_filter_served].
Qed.
End Provenance.
