(* ===== verification/Policy.v ===== *)
(** * Bid policies

    Models [crates/payload/src/bidder/policy.rs]: what the bidder knows about
    an auction, and the three policies that turn it into a bid. *)

From stdpp Require Import prelude list.
From Stdlib Require Import SpecFloat.
From S2P Require Import Prelude Types Bundle Validator Chain Payload SimState State DemoEvm StateFacts.

Open Scope Z_scope.

Definition GWEI_TO_WEI : Z := 1000000000.

(** [gwei_to_wei]: a product of two [U256] *)
Definition gwei_to_wei (value : Z) : Z := u256_mul value GWEI_TO_WEI.

(** [BLOCKS_PER_MONTH: f64 = 200000.0], as a binary64 number *)
Definition BLOCKS_PER_MONTH : spec_float := S754_finite false 6871947673600000 (-35).

(** [x as u64]: truncates towards zero, saturates, and maps NaN to 0 *)
Definition f64_as_u64 (x : spec_float) : Z :=
  match x with
  | S754_finite false m e =>
      Z.min (if 0 <=? e then Z.pos m * 2 ^ e else Z.pos m / 2 ^ (- e)) U64_MAX
  | S754_infinity false => U64_MAX
  | _ => 0
  end.

(** [i128] addition and subtraction wrap; [U256::from] of a negative panics *)
Definition i128_wrap (x : Z) : Z := (x + 2 ^ 127) mod 2 ^ 128 - 2 ^ 127.
Definition u256_from_i128 {E} (x : Z) : run E Z := if x <? 0 then Panicked else Done x.

(** [U256] division panics on zero *)
Definition u256_div {E} (x y : Z) : run E Z := expect (u256_checked_div x y).

Section Policy.
Context `{EV : Evm}.

Record AuctionBidInfo := {
  ai_slot : Z;
  ai_block_number : Z;
  ai_auction_time_left : Z;
  ai_bid_count : Z;
  ai_best_block : option BuildState;
  ai_best_block_value : Z;
  ai_best_bid_value : Z;
  ai_last_bid_value : Z;
  ai_best_auction_bid_value : Z;
  ai_last_auction_bid_value : Z;
}.

Definition AuctionBidInfo_new (slot block_number : Z) : AuctionBidInfo :=
  {| ai_slot := slot; ai_block_number := block_number; ai_auction_time_left := 12000;
     ai_bid_count := 0; ai_best_block := None; ai_best_block_value := 0;
     ai_best_bid_value := 0; ai_last_bid_value := 0; ai_best_auction_bid_value := 0;
     ai_last_auction_bid_value := 0 |}.

Definition refresh_time (self : AuctionBidInfo) (time_left : Z) : AuctionBidInfo :=
  {| ai_slot := ai_slot self; ai_block_number := ai_block_number self;
     ai_auction_time_left := time_left; ai_bid_count := ai_bid_count self;
     ai_best_block := ai_best_block self; ai_best_block_value := ai_best_block_value self;
     ai_best_bid_value := ai_best_bid_value self; ai_last_bid_value := ai_last_bid_value self;
     ai_best_auction_bid_value := ai_best_auction_bid_value self;
     ai_last_auction_bid_value := ai_last_auction_bid_value self |}.

Definition update_block_info (self : AuctionBidInfo) (build_state : BuildState) (value : Z)
  : AuctionBidInfo :=
  if value >=? ai_best_block_value self then
    {| ai_slot := ai_slot self; ai_block_number := ai_block_number self;
       ai_auction_time_left := ai_auction_time_left self; ai_bid_count := ai_bid_count self;
       ai_best_block := Some build_state; ai_best_block_value := value;
       ai_best_bid_value := ai_best_bid_value self; ai_last_bid_value := ai_last_bid_value self;
       ai_best_auction_bid_value := ai_best_auction_bid_value self;
       ai_last_auction_bid_value := ai_last_auction_bid_value self |}
  else self.

Definition update_bid_info (self : AuctionBidInfo) (bid : Z) : AuctionBidInfo :=
  {| ai_slot := ai_slot self; ai_block_number := ai_block_number self;
     ai_auction_time_left := ai_auction_time_left self;
     ai_bid_count := u64_add (ai_bid_count self) 1;
     ai_best_block := ai_best_block self; ai_best_block_value := ai_best_block_value self;
     ai_best_bid_value := Z.max (ai_best_bid_value self) bid; ai_last_bid_value := bid;
     ai_best_auction_bid_value := ai_best_auction_bid_value self;
     ai_last_auction_bid_value := ai_last_auction_bid_value self |}.

Definition update_auction_bid_info (self : AuctionBidInfo) (bid : Z) : AuctionBidInfo :=
  {| ai_slot := ai_slot self; ai_block_number := ai_block_number self;
     ai_auction_time_left := ai_auction_time_left self; ai_bid_count := ai_bid_count self;
     ai_best_block := ai_best_block self; ai_best_block_value := ai_best_block_value self;
     ai_best_bid_value := ai_best_bid_value self; ai_last_bid_value := ai_last_bid_value self;
     ai_best_auction_bid_value := Z.max (ai_best_auction_bid_value self) bid;
     ai_last_auction_bid_value := bid |}.

(** ** The policies *)

Record LinearSurplusConfig := {
  ls_offset : Z;
  ls_max_block_subsidy : Z;
  ls_min_bid_surplus : Z;
  ls_max_bid_surplus : Z;
}.

Inductive BidSelectionPolicies :=
| NoProfitPolicy (offset : Z)
| LinearSurplusPolicy (c : LinearSurplusConfig)
| DevnetPolicy.

(** [LinearSurplusPolicy::new] *)
Definition LinearSurplusPolicy_new (offset monthly_subsidy_budget : Z) (market_share : spec_float)
    (min_bid_surplus max_bid_surplus : Z) : run Empty_set LinearSurplusConfig :=
  let target_winning_blocks := f64_as_u64 (SFmul 53 1024 market_share BLOCKS_PER_MONTH) in
  max_block_subsidy ← u256_div (gwei_to_wei monthly_subsidy_budget) target_winning_blocks;
  mret {| ls_offset := offset; ls_max_block_subsidy := max_block_subsidy;
          ls_min_bid_surplus := gwei_to_wei min_bid_surplus;
          ls_max_bid_surplus := gwei_to_wei max_bid_surplus |}.

(** [block_value] is the same for the three policies. *)
Definition policy_block_value (self : BidSelectionPolicies) (d : ExecutionDetails) : Z :=
  u256_add (ed_sum_fees d) (ed_sum_coinbase_transfers d).

Definition is_better_block_value (self : BidSelectionPolicies) (best new : ExecutionDetails) : bool :=
  policy_block_value self new >? policy_block_value self best.

(** the cost of the transfer that pays the bid *)
Definition bid_transaction_gas_fees (best_block : BuildState) : Z :=
  u256_mul (bc_basefee (bs_build_config best_block)) MAX_BUILDER_TRANSFER_GAS_LIMIT.

Definition no_profit_compute_bid (offset : Z) (info : AuctionBidInfo) : option Z :=
  let time_left := ai_auction_time_left info in
  if time_left >? offset then None
  else
    match ai_best_block info with
    | Some best_block =>
        Some (u256_saturating_sub (ai_best_block_value info) (bid_transaction_gas_fees best_block))
    | None => None
    end.

(** the surplus over the auction's top bid *)
Definition linear_surplus (self : LinearSurplusConfig) (time_left : Z) : run Empty_set Z :=
  let bid_surplus_diff := u256_saturating_sub (ls_max_bid_surplus self) (ls_min_bid_surplus self) in
  bid_window ← u256_from_i128 (i128_wrap (ls_offset self + 1000));
  time_into_offset ← u256_from_i128 (i128_wrap (ls_offset self - time_left));
  q ← u256_div (u256_mul bid_surplus_diff time_into_offset) bid_window;
  mret (u256_saturating_add q (ls_min_bid_surplus self)).

Definition linear_compute_bid (self : LinearSurplusConfig) (info : AuctionBidInfo)
  : run Empty_set (option Z) :=
  let time_left := ai_auction_time_left info in
  if time_left >? ls_offset self then mret None
  else
    match ai_best_block info with
    | Some best_block =>
        let total_value :=
          u256_saturating_sub (ai_best_block_value info) (bid_transaction_gas_fees best_block) in
        to_bid_surplus ← linear_surplus self time_left;
        let to_bid_value := u256_add (ai_best_auction_bid_value info) to_bid_surplus in
        let max_bid_value := u256_add (ls_max_block_subsidy self) total_value in
        let bid_value := Z.min max_bid_value to_bid_value in
        if bid_value <? ai_best_auction_bid_value info then mret None else mret (Some bid_value)
    | None => mret None
    end.

Definition devnet_compute_bid (info : AuctionBidInfo) : option Z := Some (ai_best_block_value info).

Definition compute_bid (self : BidSelectionPolicies) (info : AuctionBidInfo)
  : run Empty_set (option Z) :=
  match self with
  | NoProfitPolicy offset => mret (no_profit_compute_bid offset info)
  | LinearSurplusPolicy c => linear_compute_bid c info
  | DevnetPolicy => mret (devnet_compute_bid info)
  end.
End Policy.

(** ** Properties *)

Lemma i128_wrap_small x : - 2 ^ 127 <= x < 2 ^ 127 -> i128_wrap x = x.
Proof. intros H. unfold i128_wrap. rewrite Z.mod_small by lia. lia. Qed.

Section PolicyProofs.
Context `{EV : Evm}.

(** Values of an auction stay far below the width of their type: the total
    supply of ether is below 2^100 wei. *)
Definition realistic (c : LinearSurplusConfig) (info : AuctionBidInfo) : Prop :=
  0 <= ai_best_auction_bid_value info < 2 ^ 200 /\ 0 <= ai_best_block_value info < 2 ^ 200 /\
  0 <= ls_max_block_subsidy c < 2 ^ 200 /\ 0 <= ls_min_bid_surplus c < 2 ^ 150 /\
  0 <= ls_max_bid_surplus c < 2 ^ 150 /\ - 1000 < ls_offset c < 2 ^ 60 /\
  - 2 ^ 60 < ai_auction_time_left info.

Lemma linear_surplus_spec c info :
  realistic c info -> ai_auction_time_left info <= ls_offset c ->
  linear_surplus c (ai_auction_time_left info) =
  Done (Z.max 0 (ls_max_bid_surplus c - ls_min_bid_surplus c)
        * (ls_offset c - ai_auction_time_left info) / (ls_offset c + 1000) + ls_min_bid_surplus c).
Proof.
  intros (_ & _ & _ & Hmin & Hmax & Ho & Ht) Hle. unfold linear_surplus. cbv zeta.
  rewrite !i128_wrap_small by lia. unfold u256_from_i128.
  destruct (Z.ltb_spec (ls_offset c + 1000) 0); [lia|].
  destruct (Z.ltb_spec (ls_offset c - ai_auction_time_left info) 0); [lia|]. cbn [mbind run_bind].
  set (d := u256_saturating_sub _ _).
  assert (Hd : d = Z.max 0 (ls_max_bid_surplus c - ls_min_bid_surplus c))
    by (unfold d, u256_saturating_sub; lia).
  set (n := ls_offset c - ai_auction_time_left info) in *.
  assert (Hdn : 0 <= d * n < 2 ^ 150 * 2 ^ 62) by (split; [|apply Z.mul_lt_mono_nonneg]; nia).
  rewrite u256_mul_small by (unfold is_u256; lia).
  unfold u256_div, u256_checked_div. destruct (Z.eqb_spec (ls_offset c + 1000) 0); [lia|].
  cbn [expect mbind run_bind]. unfold mret, run_ret. f_equal. rewrite <- Hd.
  assert (0 <= d * n / (ls_offset c + 1000) <= d * n).
  { split; [apply Z.div_pos; lia|apply Z.div_le_upper_bound; nia]. }
  unfold u256_saturating_add, U256_MAX. lia.
Qed.

Lemma linear_compute_bid_spec c info bid :
  realistic c info -> linear_compute_bid c info = Done (Some bid) ->
  exists best surplus,
    ai_auction_time_left info <= ls_offset c /\ ai_best_block info = Some best /\
    linear_surplus c (ai_auction_time_left info) = Done surplus /\ ls_min_bid_surplus c <= surplus /\
    bid = Z.min (ls_max_block_subsidy c + Z.max 0 (ai_best_block_value info - bid_transaction_gas_fees best))
            (u256_add (ai_best_auction_bid_value info) surplus) /\
    ai_best_auction_bid_value info <= bid.
Proof.
  intros Hr. unfold linear_compute_bid. cbv zeta. rewrite Z.gtb_ltb.
  destruct (Z.ltb_spec (ls_offset c) (ai_auction_time_left info)); [done|].
  destruct (ai_best_block info) as [best|]; [|done]. intros Hb. run_inv.
  pose proof (linear_surplus_spec c info Hr ltac:(lia)) as Hs. rewrite Hr0 in Hs.
  exists best, t. destruct Hr as (H1 & H2 & H3 & H4 & H5 & H6 & H7).
  assert (Hfee : 0 <= bid_transaction_gas_fees best) by apply u256_wrap_range.
  assert (Hmx : u256_add (ls_max_block_subsidy c)
      (u256_saturating_sub (ai_best_block_value info) (bid_transaction_gas_fees best)) =
    ls_max_block_subsidy c + Z.max 0 (ai_best_block_value info - bid_transaction_gas_fees best)).
  { rewrite u256_add_small; unfold u256_saturating_sub, is_u256; lia. }
  rewrite Hmx in Hb. split_and!; try done.
  - injection Hs as ->.
    assert (0 <= Z.max 0 (ls_max_bid_surplus c - ls_min_bid_surplus c)
      * (ls_offset c - ai_auction_time_left info) / (ls_offset c + 1000)); [|lia].
    apply Z.div_pos; [nia|lia].
  - destruct (_ <? _) eqn:Hlt in Hb; [done|]. by injection Hb as <-.
  - destruct (Z.ltb_spec (Z.min (ls_max_block_subsidy c +
      Z.max 0 (ai_best_block_value info - bid_transaction_gas_fees best))
      (u256_add (ai_best_auction_bid_value info) t)) (ai_best_auction_bid_value info)); [done|].
    by injection Hb as <-.
Qed.

(** C9: without a subsidy the builder bids just what a block leaves it: it bids exactly from
    the offset on and when it has a block, and then the value of the block less the cost of
    the transfer that pays the bid, at the block's base fee.  When the block is worth less
    than that cost the bid is zero, not none, and the transfer alone costs more than the
    block earns. *)
Theorem no_profit_policy_exact (offset : Z) (info : AuctionBidInfo) :
  0 <= ai_best_block_value info ->
  exists r, compute_bid (NoProfitPolicy offset) info = Done r /\
    forall bid, r = Some bid <->
      ai_auction_time_left info <= offset /\
      exists best, ai_best_block info = Some best /\
        let cost := u256_wrap (bc_basefee (bs_build_config best) * 32000) in
        (cost <= ai_best_block_value info -> bid + cost = ai_best_block_value info) /\
        (ai_best_block_value info < cost -> bid = 0).
Proof.
  intros Hv. exists (no_profit_compute_bid offset info). split; [done|]. intros bid.
  unfold no_profit_compute_bid. cbv zeta. rewrite Z.gtb_ltb.
  destruct (Z.ltb_spec offset (ai_auction_time_left info)); [split; [done|lia]|].
  destruct (ai_best_block info) as [best|]; [|split; [done|naive_solver]].
  unfold bid_transaction_gas_fees, u256_mul, MAX_BUILDER_TRANSFER_GAS_LIMIT, u256_saturating_sub.
  set (cost := u256_wrap _). assert (0 <= cost) by apply u256_wrap_range. split.
  - intros [= <-]. split; [done|]. exists best. split; [done|]. lia.
  - intros (_ & best' & [= <-] & H1 & H2). fold cost in H1, H2. f_equal. lia.
Qed.

(** C10: the linear policy outbids the auction by at least nothing and at most its
    surplus, and never spends more than the subsidy beyond the block's value:
    in the bidding window the surplus grows from its minimum to its maximum. *)
Theorem linear_policy_bounds (c : LinearSurplusConfig) (info : AuctionBidInfo) (bid : Z) :
  realistic c info -> ls_min_bid_surplus c <= ls_max_bid_surplus c ->
  - 1000 <= ai_auction_time_left info ->
  compute_bid (LinearSurplusPolicy c) info = Done (Some bid) ->
  ai_auction_time_left info <= ls_offset c /\
  (exists best, ai_best_block info = Some best /\
     bid <= ls_max_block_subsidy c + Z.max 0 (ai_best_block_value info - bid_transaction_gas_fees best)) /\
  ai_best_auction_bid_value info <= bid <= ai_best_auction_bid_value info + ls_max_bid_surplus c /\
  (bid < ai_best_auction_bid_value info + ls_min_bid_surplus c ->
     exists best, ai_best_block info = Some best /\
       bid = ls_max_block_subsidy c + Z.max 0 (ai_best_block_value info - bid_transaction_gas_fees best)).
Proof.
  intros Hr Hmm Ht Hb. simpl in Hb.
  destruct (linear_compute_bid_spec c info bid Hr Hb) as (best & s & H1 & H2 & H3 & Hmin & H4 & H5).
  rewrite (linear_surplus_spec c info Hr H1) in H3. injection H3 as H3.
  destruct Hr as (R1 & R2 & R3 & R4 & R5 & R6 & R7).
  assert (Hs : s <= ls_max_bid_surplus c).
  { rewrite <- H3. rewrite Z.max_r by lia.
    assert ((ls_max_bid_surplus c - ls_min_bid_surplus c) * (ls_offset c - ai_auction_time_left info)
      / (ls_offset c + 1000) <= ls_max_bid_surplus c - ls_min_bid_surplus c); [|lia].
    apply Z.div_le_upper_bound; nia. }
  rewrite u256_add_small in H4 by (unfold is_u256; lia).
  split_and!; [done| |lia|lia|].
  - exists best. split; [done|lia].
  - intros Hlt. exists best. split; [done|lia].
Qed.

(** outside the window the policy is not safe: more than a second after the
    slot starts the surplus exceeds its maximum, and an offset of minus one
    second divides by zero. *)
Theorem linear_policy_outside_window (c : LinearSurplusConfig) (info : AuctionBidInfo) :
  realistic c info ->
  (ai_auction_time_left info <= ls_offset c ->
   ls_min_bid_surplus c < ls_max_bid_surplus c ->
   ai_auction_time_left info + ls_offset c + 1000 < - 1000 ->
   exists s, linear_surplus c (ai_auction_time_left info) = Done s /\ ls_max_bid_surplus c < s) /\
  linear_surplus {| ls_offset := - 1000; ls_max_block_subsidy := ls_max_block_subsidy c;
                    ls_min_bid_surplus := ls_min_bid_surplus c;
                    ls_max_bid_surplus := ls_max_bid_surplus c |} (- 1000) = Panicked.
Proof.
  intros Hr. split; [|done]. intros Hle Hmm Ht. rewrite linear_surplus_spec by done.
  eexists. split; [done|]. destruct Hr as (_ & _ & _ & _ & _ & Ho & _).
  rewrite Z.max_r by lia.
  set (d := ls_max_bid_surplus c - ls_min_bid_surplus c).
  assert (d + 1 <= d * (ls_offset c - ai_auction_time_left info) / (ls_offset c + 1000)); [|lia].
  apply Z.div_le_lower_bound; [lia|]. unfold d. nia.
Qed.

(** the subsidy per block, over the blocks the policy aims to win, stays within
    the monthly budget. *)
Theorem subsidy_within_budget (offset budget mn mx : Z) (share : spec_float) (c : LinearSurplusConfig) :
  LinearSurplusPolicy_new offset budget share mn mx = Done c -> is_u64 budget ->
  ls_max_block_subsidy c * f64_as_u64 (SFmul 53 1024 share BLOCKS_PER_MONTH) <= budget * GWEI_TO_WEI.
Proof.
  unfold LinearSurplusPolicy_new. set (n := f64_as_u64 _). intros H Hb. run_inv. subst c. simpl.
  unfold u256_div, u256_checked_div in Hr.
  destruct (Z.eqb_spec n 0); [done|]. simpl in Hr. injection Hr as <-.
  unfold gwei_to_wei, GWEI_TO_WEI in *. rewrite u256_mul_small by (unfold is_u64, is_u256 in *; lia).
  assert (0 <= n).
  { unfold n, f64_as_u64. destruct (SFmul _ _ _ _) as [[]|[]| |[] m e]; try (unfold U64_MAX; lia).
    unfold U64_MAX. apply Z.min_glb; [|lia]. destruct (Z.leb_spec 0 e); [lia|]. apply Z.div_pos; lia. }
  rewrite Z.mul_comm. apply Z.mul_div_le. lia.
Qed.
End PolicyProofs.

(** ** Evaluation on concrete inputs *)

Definition demo_linear : LinearSurplusConfig :=
  {| ls_offset := 1000; ls_max_block_subsidy := 1000; ls_min_bid_surplus := 100; ls_max_bid_surplus := 300 |}.

Definition demo_info (time_left : Z) : AuctionBidInfo :=
  {| ai_slot := 1; ai_block_number := 42; ai_auction_time_left := time_left; ai_bid_count := 0;
     ai_best_block := Some demo_state; ai_best_block_value := 50000; ai_best_bid_value := 0;
     ai_last_bid_value := 0; ai_best_auction_bid_value := 18000; ai_last_auction_bid_value := 18000 |}.

Lemma no_profit_policy_exact_witness :
  compute_bid (NoProfitPolicy 1000) (demo_info 500) = Done (Some 18000) /\
  bc_basefee (bs_build_config demo_state) * 32000 = 32000.
Proof.
  destruct (no_profit_policy_exact 1000 (demo_info 500)) as (r & H & Hr); [simpl; lia|].
  rewrite H. split; [|kernel_refl]. f_equal. apply Hr. split; [simpl; lia|].
  exists demo_state. split; [reflexivity|]. assert (u256_wrap (bc_basefee (bs_build_config demo_state) * 32000) = 32000) as ->
    by kernel_refl. simpl. lia.
Defined.

Lemma linear_policy_bounds_witness :
  compute_bid (LinearSurplusPolicy demo_linear) (demo_info 500) = Done (Some 18150) /\
  18000 <= 18150 <= 18000 + 300.
Proof.
  assert (compute_bid (LinearSurplusPolicy demo_linear) (demo_info 500) = Done (Some 18150)) as H by kernel_refl.
  split; [exact H|].
  apply (linear_policy_bounds demo_linear (demo_info 500) 18150);
    [repeat split; simpl; lia|simpl; lia|simpl; lia|exact H].
Defined.

Lemma linear_policy_outside_window_witness :
  exists s, linear_surplus demo_linear (- 4000) = Done s /\ 300 < s.
Proof.
  destruct (linear_policy_outside_window demo_linear (demo_info (- 4000))) as [H _];
    [repeat split; simpl; lia|].
  apply H; simpl; lia.
Defined.

(** a market share of one half: 100000 blocks a month *)
Definition demo_share : spec_float := S754_finite false 4503599627370496 (-53).
Definition demo_policy : LinearSurplusConfig :=
  match LinearSurplusPolicy_new 1000 250000 demo_share 1 2 with Done c => c | _ => demo_linear end.

Lemma subsidy_within_budget_witness :
  ls_max_block_subsidy demo_policy = 2500000000 /\
  ls_max_block_subsidy demo_policy * f64_as_u64 (SFmul 53 1024 demo_share BLOCKS_PER_MONTH)
    <= 250000 * GWEI_TO_WEI.
Proof.
  split; [kernel_refl|].
  apply (subsidy_within_budget 1000 250000 1 2 demo_share demo_policy); [kernel_refl|solve_range].
Defined.
