(* ===== verification/Bid.v ===== *)
(** * Bids

    Models [crates/primitives/src/bid.rs] and [signer.rs]: the bid for a build,
    its execution payload, the domain it is signed in, and its trace. *)

From stdpp Require Import prelude list gmap strings.
From S2P Require Import Prelude Types Bundle Validator Chain Payload SimState DemoEvm State StateFacts.

Open Scope Z_scope.

Record Bid := {
  bid_slot : Z;
  bid_parent_hash : B256;
  bid_block_hash : B256;
  bid_builder_pubkey : BlsPublicKey;
  bid_proposer_pubkey : BlsPublicKey;
  bid_proposer_fee_recipient : Address;
  bid_gas_limit : Z;
  bid_gas_used : Z;
  bid_value : Z;
}.

(** [AlloyWithdrawal], from a [Withdrawal] *)
Record AlloyWithdrawal := {
  aw_index : Z;
  aw_validator_index : Z;
  aw_address : Address;
  aw_amount : Z;
}.

Definition AlloyWithdrawal_from (w : Withdrawal) : AlloyWithdrawal :=
  {| aw_index := wd_index w; aw_validator_index := wd_validator_index w;
     aw_address := wd_address w; aw_amount := wd_amount w |}.

(** [reth]'s [ExecutionPayloadV1], [V2] and [V3], nested as they are there *)
Record ExecutionPayloadV1 := {
  v1_parent_hash : B256;
  v1_fee_recipient : Address;
  v1_state_root : B256;
  v1_receipts_root : B256;
  v1_logs_bloom : Bytes;
  v1_prev_randao : B256;
  v1_block_number : Z;
  v1_gas_limit : Z;
  v1_gas_used : Z;
  v1_timestamp : Z;
  v1_extra_data : Bytes;
  v1_base_fee_per_gas : Z;
  v1_block_hash : B256;
  v1_transactions : list Bytes;
}.

Record ExecutionPayloadV2 := {
  v2_payload_inner : ExecutionPayloadV1;
  v2_withdrawals : list Withdrawal;
}.

Record ExecutionPayloadV3 := {
  v3_payload_inner : ExecutionPayloadV2;
  v3_blob_gas_used : Z;
  v3_excess_blob_gas : Z;
}.

Record ExecutionPayload := {
  ep_parent_hash : B256;
  ep_fee_recipient : Address;
  ep_state_root : B256;
  ep_receipts_root : B256;
  ep_logs_bloom : Bytes;
  ep_prev_randao : B256;
  ep_block_number : Z;
  ep_gas_limit : Z;
  ep_gas_used : Z;
  ep_timestamp : Z;
  ep_extra_data : Bytes;
  ep_base_fee_per_gas : Z;
  ep_block_hash : B256;
  ep_transactions : list Bytes;
  ep_withdrawals : list AlloyWithdrawal;
  ep_blob_gas_used : Z;
  ep_excess_blob_gas : Z;
}.

(** [impl From<AlloyExecutionPayload> for ExecutionPayload] *)
Definition ExecutionPayload_from (alloy : ExecutionPayloadV3) : ExecutionPayload :=
  let payload := v2_payload_inner (v3_payload_inner alloy) in
  {| ep_parent_hash := v1_parent_hash payload;
     ep_fee_recipient := v1_fee_recipient payload;
     ep_state_root := v1_state_root payload;
     ep_receipts_root := v1_receipts_root payload;
     ep_logs_bloom := v1_logs_bloom payload;
     ep_prev_randao := v1_prev_randao payload;
     ep_block_number := v1_block_number payload;
     ep_gas_limit := v1_gas_limit payload;
     ep_gas_used := v1_gas_used payload;
     ep_timestamp := v1_timestamp payload;
     ep_extra_data := v1_extra_data payload;
     ep_base_fee_per_gas := v1_base_fee_per_gas payload;
     ep_block_hash := v1_block_hash payload;
     ep_transactions := v1_transactions payload;
     ep_withdrawals := AlloyWithdrawal_from <$> v2_withdrawals (v3_payload_inner alloy);
     ep_blob_gas_used := v3_blob_gas_used alloy;
     ep_excess_blob_gas := v3_excess_blob_gas alloy |}.

(** ** Signing *)

(** The BLS library and the hash-tree roots. *)
Class Bls := {
  BlsSecretKey : Type;
  bls_public_key : BlsSecretKey -> BlsPublicKey;
  bls_sign : BlsSecretKey -> B256 -> BlsSignature;
  bls_verify : BlsSignature -> BlsPublicKey -> B256 -> bool;
  (** [ForkData { .. }.tree_hash_root()], 32 bytes *)
  fork_data_root : Bytes -> Bytes -> Bytes;
  (** [message.signing_root(domain)] *)
  signing_root : Bid -> Bytes -> B256;
}.

Section Signer.
Context `{BL : Bls}.

(** [BuilderDomain::default()] *)
Definition BuilderDomain_default : Bytes := [Byte.x00; Byte.x00; Byte.x00; Byte.x01].

Record BlsSigner := {
  sg_secret_key : BlsSecretKey;
  sg_fork_version : Bytes;
  sg_genesis_validators_root : Bytes;
}.

Definition BlsSigner_new (secret_key : BlsSecretKey) (fork_version : Bytes) : BlsSigner :=
  {| sg_secret_key := secret_key; sg_fork_version := fork_version;
     sg_genesis_validators_root := repeat Byte.x00 32 |}.

Definition compute_builder_domain (self : BlsSigner) : Bytes :=
  BuilderDomain_default ++
  take 28 (fork_data_root (sg_fork_version self) (sg_genesis_validators_root self)).

Definition signer_public_key (self : BlsSigner) : BlsPublicKey := bls_public_key (sg_secret_key self).

Definition signer_sign (self : BlsSigner) (message : Bid) : BlsSignature :=
  bls_sign (sg_secret_key self) (signing_root message (compute_builder_domain self)).
End Signer.

(** ** Bids of builds *)

Section Bids.
Context `{EV : Evm} `{BL : Bls}.

Definition Bid_new (build : Build) (builder_pubkey : BlsPublicKey) : Bid :=
  let block := bp_block (b_payload build) in
  {| bid_slot := vi_slot (b_validator_info build);
     bid_parent_hash := hd_parent_hash (bl_header (sl_block block));
     bid_block_hash := sl_hash block;
     bid_builder_pubkey := builder_pubkey;
     bid_proposer_pubkey := vi_proposer (b_validator_info build);
     bid_proposer_fee_recipient := vi_fee_recipient (b_validator_info build);
     bid_gas_limit := hd_gas_limit (bl_header (sl_block block));
     bid_gas_used := hd_gas_used (bl_header (sl_block block));
     bid_value := b_bid build |}.

(** [ExecutionPayloadEnvelopeV3]: the payload and the blobs *)
Record Envelope := {
  ev_execution_payload : ExecutionPayloadV3;
  ev_blobs_bundle : list Sidecar;
}.

Record SignedBid := {
  sbd_message : Bid;
  sbd_execution_payload : ExecutionPayload;
  sbd_blobs_bundle : list Sidecar;
  sbd_signature : BlsSignature;
}.

Definition SignedBid_new (message : Bid) (payload_envelope : Envelope) (signer : BlsSigner)
  : SignedBid :=
  {| sbd_message := message;
     sbd_execution_payload := ExecutionPayload_from (ev_execution_payload payload_envelope);
     sbd_blobs_bundle := ev_blobs_bundle payload_envelope;
     sbd_signature := signer_sign signer message |}.

Record BidTrace := {
  bt_slot : Z;
  bt_parent_hash : B256;
  bt_block_hash : B256;
  bt_builder_pubkey : BlsPublicKey;
  bt_proposer_pubkey : BlsPublicKey;
  bt_proposer_fee_recipient : Address;
  bt_gas_limit : Z;
  bt_gas_used : Z;
  bt_value : Z;
  bt_num_tx : Z;
  bt_block_number : Z;
  bt_timestamp : Z;
  bt_timestamp_ms : Z;
  bt_optimistic_submission : option bool;
}.

(** [to_trace]: the clock is an input *)
Definition to_trace (now_ms : Z) (self : SignedBid) : BidTrace :=
  {| bt_slot := bid_slot (sbd_message self);
     bt_parent_hash := bid_parent_hash (sbd_message self);
     bt_block_hash := bid_block_hash (sbd_message self);
     bt_builder_pubkey := bid_builder_pubkey (sbd_message self);
     bt_proposer_pubkey := bid_proposer_pubkey (sbd_message self);
     bt_proposer_fee_recipient := bid_proposer_fee_recipient (sbd_message self);
     bt_gas_limit := bid_gas_limit (sbd_message self);
     bt_gas_used := bid_gas_used (sbd_message self);
     bt_value := bid_value (sbd_message self);
     bt_num_tx := Z.of_nat (length (ep_transactions (sbd_execution_payload self)));
     bt_block_number := ep_block_number (sbd_execution_payload self);
     bt_timestamp := ep_timestamp (sbd_execution_payload self);
     bt_timestamp_ms := now_ms;
     bt_optimistic_submission := Some true |}.

(** [has_hash]: [B256]'s [Display] is the library's *)
Definition has_hash (b256_to_string : B256 -> string) (self : BidTrace) (block_hash : string) : bool :=
  String.eqb (b256_to_string (bt_block_hash self)) block_hash.

Definition signed_bid_block_number (self : SignedBid) : Z :=
  ep_block_number (sbd_execution_payload self).
End Bids.

(** [ExecutionPayloadEnvelopeV3::from(EthBuiltPayload)] of [reth], and its
    documented behaviour: the payload is the block's, transaction by
    transaction. *)
Class EnvelopeFrom `{EV : Evm} := {
  envelope_from : EthBuiltPayload -> Envelope;
  envelope_block : forall p,
    let payload := v2_payload_inner (v3_payload_inner (ev_execution_payload (envelope_from p))) in
    let h := bl_header (sl_block (bp_block p)) in
    v1_block_hash payload = sl_hash (bp_block p) /\
    v1_parent_hash payload = hd_parent_hash h /\
    v1_block_number payload = hd_number h /\ v1_timestamp payload = hd_timestamp h /\
    v1_gas_limit payload = hd_gas_limit h /\ v1_gas_used payload = hd_gas_used h /\
    length (v1_transactions payload) = length (bl_body (sl_block (bp_block p)));
}.

Section BidProofs.
Context `{EF : EnvelopeFrom} `{BL : Bls}.

(** what the bidder submits is consistent: the message of a signed bid and the
    payload it carries name the same block, its trace reports the block's
    transactions, and the signature is over that message. *)
Theorem signed_bid_consistent (build : Build) (signer : BlsSigner) (now_ms : Z) :
  (forall key root, bls_verify (bls_sign key root) (bls_public_key key) root = true) ->
  let sb := SignedBid_new (Bid_new build (signer_public_key signer)) (envelope_from (b_payload build)) signer in
  let t := to_trace now_ms sb in
  bid_block_hash (sbd_message sb) = ep_block_hash (sbd_execution_payload sb) /\
  bid_parent_hash (sbd_message sb) = ep_parent_hash (sbd_execution_payload sb) /\
  bid_gas_used (sbd_message sb) = ep_gas_used (sbd_execution_payload sb) /\
  bid_value (sbd_message sb) = b_bid build /\
  (signed_bid_block_number sb, bt_timestamp t) = as_block_number_and_ts build /\
  bt_num_tx t = Z.of_nat (length (bl_body (sl_block (bp_block (b_payload build))))) /\
  bls_verify (sbd_signature sb) (bid_builder_pubkey (sbd_message sb))
    (signing_root (sbd_message sb) (compute_builder_domain signer)) = true.
Proof.
  intros Hv sb t. pose proof (envelope_block (b_payload build)) as (H1 & H2 & H3 & H4 & H5 & H6 & H7).
  unfold as_block_number_and_ts, signed_bid_block_number. simpl.
  rewrite H1, H2, H3, H4, H6, H7. split_and!; try done. apply Hv.
Qed.
End BidProofs.

(** ** Evaluation on concrete inputs *)

Import Demo.

#[export] Instance demo_bls : Bls := {|
  BlsSecretKey := Z;
  bls_public_key key := key + 1;
  bls_sign key root := 1000 * root + key + 1;
  bls_verify sig pk root := sig =? 1000 * root + pk;
  fork_data_root v g := repeat Byte.xff 32;
  signing_root b d := bid_block_hash b + Z.of_nat (length d);
|}.

#[export] Instance demo_envelope : EnvelopeFrom.
Proof.
  refine {| envelope_from p :=
    {| ev_execution_payload :=
         {| v3_payload_inner :=
              {| v2_payload_inner :=
                   let h := bl_header (sl_block (bp_block p)) in
                   {| v1_parent_hash := hd_parent_hash h; v1_fee_recipient := hd_beneficiary h;
                      v1_state_root := hd_state_root h; v1_receipts_root := hd_receipts_root h;
                      v1_logs_bloom := hd_logs_bloom h; v1_prev_randao := hd_mix_hash h;
                      v1_block_number := hd_number h; v1_gas_limit := hd_gas_limit h;
                      v1_gas_used := hd_gas_used h; v1_timestamp := hd_timestamp h;
                      v1_extra_data := hd_extra_data h;
                      v1_base_fee_per_gas := default 0 (hd_base_fee_per_gas h);
                      v1_block_hash := sl_hash (bp_block p);
                      v1_transactions := (fun t => le_bytes 32 (Demo.dt_hash t)) <$> bl_body (sl_block (bp_block p)) |};
                 v2_withdrawals := default [] (bl_withdrawals (sl_block (bp_block p))) |};
            v3_blob_gas_used := 0; v3_excess_blob_gas := 0 |};
       ev_blobs_bundle := bp_sidecars p |} |}.
  intros p. simpl. rewrite length_fmap. done.
Defined.

Lemma signed_bid_consistent_witness :
  let signer := BlsSigner_new (5 : BlsSecretKey) (repeat Byte.x00 4) in
  let sb := SignedBid_new (Bid_new demo_build (signer_public_key signer))
              (envelope_from (b_payload demo_build)) signer in
  bid_block_hash (sbd_message sb) = ep_block_hash (sbd_execution_payload sb) /\
  bt_num_tx (to_trace 0 sb) = 5.
Proof.
  intros signer sb. split; [|kernel_refl].
  assert (forall key root, bls_verify (bls_sign key root) (bls_public_key key) root = true) as Hv.
  { intros key root. simpl. apply Z.eqb_eq. lia. }
  exact (proj1 (signed_bid_consistent demo_build signer 0 Hv)).
Defined.
