(* ===== verification/Bidder.v ===== *)
(** * The bidder service

    Models [crates/payload/src/bidder/service.rs]: the service that follows the
    auction of a slot, keeps the best build it was sent, and bids when its
    policy says so; and the finalisation of a bid. *)

From stdpp Require Import prelude list strings.
From S2P Require Import Prelude Types Bundle Validator Chain Payload SimState DemoEvm State StateFacts Policy Bid.

Open Scope Z_scope.

Section Bidder.
Context `{EV : Evm} {RecvError RelayServiceErr : Type}.

(** [bd_top_bid] is the pending request of the auction's top bid: the block
    number it asks for. *)
Record BidderService := {
  bd_top_bid : option Z;
  bd_policy : BidSelectionPolicies;
  bd_auction_bid_info : option AuctionBidInfo;
}.

Definition BidderService_new (policy : BidSelectionPolicies) : BidderService :=
  {| bd_top_bid := None; bd_policy := policy; bd_auction_bid_info := None |}.

Definition set_info (self : BidderService) (info : option AuctionBidInfo) : BidderService :=
  {| bd_top_bid := bd_top_bid self; bd_policy := bd_policy self; bd_auction_bid_info := info |}.

Definition set_top_bid (self : BidderService) (rx : option Z) : BidderService :=
  {| bd_top_bid := rx; bd_policy := bd_policy self; bd_auction_bid_info := bd_auction_bid_info self |}.

Definition on_new_slot_auction (self : BidderService) (slot block_number : Z) : BidderService :=
  set_info self (Some (AuctionBidInfo_new slot block_number)).

Definition spawn_top_bid_request (self : BidderService) : BidderService :=
  match bd_auction_bid_info self with
  | Some info => set_top_bid self (Some (ai_block_number info))
  | None => self
  end.

(** one message of the auction channel *)
Definition on_auction_message (self : BidderService) (msg : Z * Z) : BidderService :=
  if is_none_or (bd_auction_bid_info self) (fun info => ai_slot info <? msg.1)
  then on_new_slot_auction self msg.1 msg.2
  else self.

(** what the channel of a top bid delivers; the value of a trace is read *)
Abbreviation top_bid_result := (result RecvError (result RelayServiceErr (option Z))).

Definition poll_top_bid (self : BidderService) (rx : poll top_bid_result) : BidderService :=
  match bd_top_bid self with
  | Some request =>
      match rx with
      | Ready r =>
          let this := set_top_bid self None in
          let this :=
            match r with
            | Ok (Ok (Some top_bid)) =>
                set_info this ((fun info => update_auction_bid_info info top_bid) <$> bd_auction_bid_info this)
            | Ok (Ok None) => this
            | _ => this
            end in
          spawn_top_bid_request this
      | Pending => self
      end
  | None => spawn_top_bid_request self
  end.

(** one build of the channel of builds *)
Definition on_build (self : BidderService) (build_state : BuildState) : BidderService :=
  let slot := bc_slot (bs_build_config build_state) in
  match bd_auction_bid_info self with
  | None => self
  | Some info =>
      if slot <? ai_slot info then self
      else if slot >? ai_slot info then self
      else
        let is_better :=
          match ai_best_block info with
          | Some block =>
              is_better_block_value (bd_policy self) (bs_exec_details block) (bs_exec_details build_state)
          | None => true
          end in
        if negb is_better then self
        else
          let value := policy_block_value (bd_policy self) (bs_exec_details build_state) in
          set_info self (Some (update_block_info info build_state value))
  end.

(** the end of [poll]: refresh the time and bid when the policy does *)
Definition try_bid (self : BidderService) (time_left : Z)
  : run Empty_set (BidderService * option (BuildState * Z)) :=
  match bd_auction_bid_info self with
  | None => mret (self, None)
  | Some info =>
      let info := refresh_time info time_left in
      bid ← compute_bid (bd_policy self) info;
      match bid, ai_best_block info with
      | Some bid_value, Some build_state =>
          mret (set_info self (Some (update_bid_info info bid_value)), Some (build_state, bid_value))
      | _, _ => mret (set_info self (Some info), None)
      end
  end.

(** What a poll finds in its channels, and the clock. *)
Record PollInput := {
  pi_auctions : list (Z * Z);
  pi_auctions_closed : bool;
  pi_top_bid : poll top_bid_result;
  pi_builds : list BuildState;
  pi_builds_closed : bool;
  pi_time_left : Z -> Z;
}.

(** [poll]: [Ready] when a channel is closed, otherwise [Pending]; the bid that
    was spawned, if any *)
Definition bidder_poll (self : BidderService) (i : PollInput)
  : run Empty_set (BidderService * poll unit * option (BuildState * Z)) :=
  let this := foldl on_auction_message self (pi_auctions i) in
  if pi_auctions_closed i then mret (this, Ready tt, None)
  else
    let this := poll_top_bid this (pi_top_bid i) in
    let this := foldl on_build this (pi_builds i) in
    if pi_builds_closed i then mret (this, Ready tt, None)
    else
      let time_left :=
        match bd_auction_bid_info this with Some info => pi_time_left i (ai_slot info) | None => 0 end in
      res ← try_bid this time_left;
      mret (res.1, Pending, res.2).
End Bidder.

(** ** Finalisation *)

Section Finalize.
Context `{EF : EnvelopeFrom} `{BL : Bls} `{RR : !ReceiptRoots} `{ER : ErrorText}.

Inductive BidderServiceError :=
| SendState
| UnexpectedExecutionResult (msg : string)
| Finalize (msg : string)
| BidderPayloadBuilder (e : PayloadBuilderError)
| BuilderPayment (e : BuildStateExecutionError).

Definition build_submission_with_builder_payment (client : Client) (pool : TxPool)
    (build_state : BuildState) (bid : Z) : run BidderServiceError Build :=
  run_map_err (fun err => Finalize (pbe_to_string err))
    (into_build (with_payment build_state bid) client pool).

Inductive finalize_outcome :=
| Submitted (signed_bid : SignedBid) (accepted : bool)
| FailedFinalize (e : BidderServiceError).

(** [finalize_and_submit_build]: [submit_bid] is the relay handle's *)
Definition finalize_and_submit_build (client : Client) (pool : TxPool)
    (submit_bid : SignedBid -> bool) (build_state : BuildState) (bid : Z) (signer : BlsSigner)
  : run Empty_set finalize_outcome :=
  match build_submission_with_builder_payment client pool build_state bid with
  | Done build =>
      let message := Bid_new build (signer_public_key signer) in
      let signed_bid := SignedBid_new message (envelope_from (b_payload build)) signer in
      mret (Submitted signed_bid (submit_bid signed_bid))
  | Fail e => mret (FailedFinalize e)
  | Panicked => Panicked
  end.
End Finalize.

(** ** Properties *)

Section BidderProofs.
Context `{EV : Evm} {RecvError RelayServiceErr : Type}.

(** the best block of an auction is of its slot, and its value is recorded *)
Definition info_ok (policy : BidSelectionPolicies) (info : AuctionBidInfo) : Prop :=
  match ai_best_block info with
  | Some st => bc_slot (bs_build_config st) = ai_slot info /\
               ai_best_block_value info = policy_block_value policy (bs_exec_details st)
  | None => ai_best_block_value info = 0
  end.

Definition bidder_inv (s : BidderService) : Prop :=
  forall info, bd_auction_bid_info s = Some info -> info_ok (bd_policy s) info.

(** the slot of the auction, none before the first *)
Definition auction_slot (s : BidderService) : option Z := ai_slot <$> bd_auction_bid_info s.

Definition slot_le (a b : option Z) : Prop :=
  match a, b with Some x, Some y => x <= y | Some _, None => False | None, _ => True end.

Lemma slot_le_refl a : slot_le a a.
Proof. destruct a; simpl; [lia|done]. Qed.

Lemma slot_le_trans a b c : slot_le a b -> slot_le b c -> slot_le a c.
Proof. destruct a, b, c; simpl; try done; lia. Qed.

(** a step that keeps the policy and the invariant, and does not go back *)
Definition good_step (s s' : BidderService) : Prop :=
  (bidder_inv s -> bidder_inv s') /\ bd_policy s' = bd_policy s /\
  slot_le (auction_slot s) (auction_slot s').

Lemma good_step_refl s : good_step s s.
Proof. split_and!; [done|done|apply slot_le_refl]. Qed.

Lemma good_step_trans s1 s2 s3 : good_step s1 s2 -> good_step s2 s3 -> good_step s1 s3.
Proof.
  intros (H1 & H2 & H3) (H4 & H5 & H6). split_and!; [auto|congruence|by eapply slot_le_trans].
Qed.

Lemma on_auction_message_good s msg : good_step s (on_auction_message s msg).
Proof.
  unfold on_auction_message. destruct (is_none_or _ _) eqn:H; [|apply good_step_refl].
  split_and!; [|done|].
  - intros _ info [= <-]. done.
  - unfold auction_slot. simpl. destruct (bd_auction_bid_info s) as [info|]; simpl in *; [lia|done].
Qed.

Lemma spawn_top_bid_good s : good_step s (spawn_top_bid_request s).
Proof.
  unfold spawn_top_bid_request. destruct (bd_auction_bid_info s) eqn:E; [|apply good_step_refl].
  split_and!; [|done|apply slot_le_refl]. intros H info'. apply H.
Qed.

Lemma set_top_bid_good s rx : good_step s (set_top_bid s rx).
Proof. split_and!; [|done|apply slot_le_refl]. intros H info. apply H. Qed.

Lemma set_info_good s (f : AuctionBidInfo -> AuctionBidInfo) :
  (forall info, info_ok (bd_policy s) info -> info_ok (bd_policy s) (f info)) ->
  (forall info, ai_slot (f info) = ai_slot info) ->
  good_step s (set_info s (f <$> bd_auction_bid_info s)).
Proof.
  intros Hf Hs. split_and!; [|done|].
  - intros H info Hi. simpl in Hi. destruct (bd_auction_bid_info s) as [i|] eqn:E; [|done].
    injection Hi as <-. apply Hf. by apply H.
  - unfold auction_slot. simpl. destruct (bd_auction_bid_info s) as [i|]; simpl; [|done]. rewrite Hs. lia.
Qed.

Lemma poll_top_bid_good s (rx : poll (result RecvError (result RelayServiceErr (option Z)))) :
  good_step s (poll_top_bid s rx).
Proof.
  unfold poll_top_bid. destruct (bd_top_bid s); [|apply spawn_top_bid_good].
  destruct rx as [r|]; [|apply good_step_refl].
  eapply good_step_trans; [apply (set_top_bid_good s None)|].
  destruct r as [[[v|]|]|]; try apply spawn_top_bid_good.
  eapply good_step_trans; [|apply spawn_top_bid_good]. by apply set_info_good.
Qed.

Lemma on_build_good s b : good_step s (on_build s b).
Proof.
  unfold on_build. destruct (bd_auction_bid_info s) as [info|] eqn:E; [|apply good_step_refl].
  destruct (Z.ltb_spec (bc_slot (bs_build_config b)) (ai_slot info)); [apply good_step_refl|].
  rewrite Z.gtb_ltb.
  destruct (Z.ltb_spec (ai_slot info) (bc_slot (bs_build_config b))); [apply good_step_refl|].
  destruct (negb _); [apply good_step_refl|]. split_and!; [|done|].
  - intros H1 info' [= <-]. specialize (H1 info E). unfold update_block_info.
    destruct (_ >=? _); [|done]. split; simpl; [lia|done].
  - unfold auction_slot. rewrite E. simpl. unfold update_block_info. destruct (_ >=? _); simpl; lia.
Qed.

Lemma foldl_good {A} (f : BidderService -> A -> BidderService) l s :
  (forall s a, good_step s (f s a)) -> good_step s (foldl f s l).
Proof.
  intros Hf. revert s. induction l as [|a l IH]; intros s; simpl; [apply good_step_refl|].
  by eapply good_step_trans; [apply Hf|].
Qed.

Lemma try_bid_spec s t s' bid :
  try_bid s t = Done (s', bid) ->
  good_step s s' /\ auction_slot s' = auction_slot s /\
  forall st v, bid = Some (st, v) ->
    exists info, bd_auction_bid_info s = Some info /\ ai_best_block info = Some st /\
      compute_bid (bd_policy s) (refresh_time info t) = Done (Some v).
Proof.
  unfold try_bid. destruct (bd_auction_bid_info s) as [info|] eqn:E.
  - intros H. run_inv. destruct t0 as [v|]; simpl in H;
      [destruct (ai_best_block info) as [st|] eqn:Hb|]; injection H as <- <-.
    + split; [|split; [unfold auction_slot; by rewrite E|]].
      * split_and!; [|done|unfold auction_slot; rewrite E; apply slot_le_refl].
        intros H info' [= <-]. by apply (H info E).
      * intros st' v' [= <- <-]. by exists info.
    + split; [|split; [unfold auction_slot; by rewrite E|done]]. split_and!; [|done|unfold auction_slot; rewrite E; apply slot_le_refl].
      intros H info' [= <-]. by apply (H info E).
    + split; [|split; [unfold auction_slot; by rewrite E|done]]. split_and!; [|done|unfold auction_slot; rewrite E; apply slot_le_refl].
      intros H info' [= <-]. by apply (H info E).
  - intros [= <- <-]. split; [apply good_step_refl|done].
Qed.

(** the best block after a series of builds *)
Lemma on_build_best s b info :
  bidder_inv s -> bd_auction_bid_info s = Some info ->
  exists info', bd_auction_bid_info (on_build s b) = Some info' /\ ai_slot info' = ai_slot info /\
    ai_best_block_value info <= ai_best_block_value info' /\
    (bc_slot (bs_build_config b) = ai_slot info ->
       policy_block_value (bd_policy s) (bs_exec_details b) <= ai_best_block_value info') /\
    (ai_best_block info' = ai_best_block info \/ ai_best_block info' = Some b).
Proof.
  intros Hinv E. unfold on_build. rewrite E. specialize (Hinv info E).
  destruct (Z.ltb_spec (bc_slot (bs_build_config b)) (ai_slot info)).
  { exists info. split_and!; try done; try lia. by left. }
  rewrite Z.gtb_ltb. destruct (Z.ltb_spec (ai_slot info) (bc_slot (bs_build_config b))).
  { exists info. split_and!; try done; try lia. by left. }
  pose proof (u256_add_range (ed_sum_fees (bs_exec_details b)) (ed_sum_coinbase_transfers (bs_exec_details b))) as [Hv _].
  fold (policy_block_value (bd_policy s) (bs_exec_details b)) in Hv.
  destruct (negb _) eqn:Hneg.
  - exists info. split_and!; try done; [|by left]. intros _.
    unfold info_ok in Hinv. destruct (ai_best_block info) as [st|]; [|done].
    apply negb_true_iff in Hneg. unfold is_better_block_value in Hneg. destruct Hinv as [_ ->]. lia.
  - eexists. split; [done|]. unfold update_block_info. rewrite Z.geb_leb.
    destruct (Z.leb_spec (ai_best_block_value info) (policy_block_value (bd_policy s) (bs_exec_details b)));
      simpl; split_and!; try done; try lia; first [by right|by left].
Qed.

Lemma on_builds_best l s info :
  bidder_inv s -> bd_auction_bid_info s = Some info ->
  exists info', bd_auction_bid_info (foldl on_build s l) = Some info' /\ ai_slot info' = ai_slot info /\
    ai_best_block_value info <= ai_best_block_value info' /\
    (forall b, b ∈ l -> bc_slot (bs_build_config b) = ai_slot info ->
       policy_block_value (bd_policy s) (bs_exec_details b) <= ai_best_block_value info') /\
    (ai_best_block info' = ai_best_block info \/ exists b, b ∈ l /\ ai_best_block info' = Some b).
Proof.
  revert s info. induction l as [|b l IH]; intros s info Hinv E.
  - exists info. split_and!; try done; [by intros b ?%not_elem_of_nil|by left].
  - destruct (on_build_best s b info Hinv E) as (i1 & E1 & S1 & L1 & M1 & B1).
    pose proof (on_build_good s b) as (G1 & G2 & _).
    destruct (IH (on_build s b) i1 (G1 Hinv) E1) as (i2 & E2 & S2 & L2 & M2 & B2).
    rewrite G2 in M2. exists i2. simpl. split_and!; [done|congruence|lia| |].
    + intros b' [->|Hb']%elem_of_cons Hs; [specialize (M1 Hs); lia|].
      apply M2; [done|congruence].
    + destruct B2 as [B2|(b' & Hb' & B2)].
      * destruct B1 as [B1|B1]; [left; congruence|right]. exists b. split; [left|congruence].
      * right. exists b'. split; [by right|done].
Qed.

(** what a poll keeps, and what it bids *)
Lemma bidder_poll_spec (s : BidderService) (i : PollInput (RecvError:=RecvError) (RelayServiceErr:=RelayServiceErr))
    (s' : BidderService) (p : poll unit) (bid : option (BuildState * Z)) :
  bidder_inv s -> bidder_poll s i = Done (s', p, bid) ->
  bidder_inv s' /\ bd_policy s' = bd_policy s /\ slot_le (auction_slot s) (auction_slot s') /\
  forall st v, bid = Some (st, v) ->
    exists info, auction_slot s' = Some (ai_slot info) /\ ai_best_block info = Some st /\
      bc_slot (bs_build_config st) = ai_slot info /\ ai_best_block_value info = block_value st /\
      compute_bid (bd_policy s) info = Done (Some v).
Proof.
  intros Hinv. unfold bidder_poll.
  pose proof (foldl_good on_auction_message (pi_auctions i) s on_auction_message_good) as G1.
  set (s1 := foldl on_auction_message s (pi_auctions i)) in *.
  assert (Hclose : forall x, good_step s x -> Done (x, Ready tt, None) = Done (E:=Empty_set) (s', p, bid) ->
    bidder_inv s' /\ bd_policy s' = bd_policy s /\ slot_le (auction_slot s) (auction_slot s') /\
    forall st v, bid = Some (st, v) -> False).
  { intros x (X1 & X2 & X3) [= <- <- <-]. split_and!; auto. done. }
  destruct (pi_auctions_closed i).
  { intros H. destruct (Hclose _ G1 H) as (? & ? & ? & Hn). split_and!; try done. intros st v Hb. by destruct (Hn st v Hb). }
  assert (G2 : good_step s (foldl on_build (poll_top_bid s1 (pi_top_bid i)) (pi_builds i))).
  { eapply good_step_trans; [|apply foldl_good, on_build_good].
    eapply good_step_trans; [exact G1|apply poll_top_bid_good]. }
  set (s2 := foldl on_build _ _) in *. destruct (pi_builds_closed i).
  { intros H. destruct (Hclose _ G2 H) as (? & ? & ? & Hn). split_and!; try done. intros st v Hb. by destruct (Hn st v Hb). }
  intros H. run_inv. destruct t as [s3 b3]. injection H as <- <- <-.
  apply try_bid_spec in Hr as (G3 & Hsl & Hb).
  destruct G2 as (G21 & G22 & G23).
  pose proof (good_step_trans _ _ _ (conj G21 (conj G22 G23)) G3) as (X1 & X2 & X3).
  split_and!; [by apply X1|done|done|]. intros st v Hbid.
  destruct (Hb st v Hbid) as (info & E & Hbest & Hc).
  pose proof (G21 Hinv info E) as Hok. unfold info_ok in Hok. rewrite Hbest in Hok. destruct Hok as [Hs Hv].
  eexists. split; [|split; [|split; [|split; [|rewrite <- G22; exact Hc]]]]; try done.
  cbn [fst]. rewrite Hsl. unfold auction_slot. by rewrite E.
Qed.

(** what is known of the auction *)
Definition info_in (P : AuctionBidInfo -> Prop) (s : BidderService) : Prop :=
  forall info, bd_auction_bid_info s = Some info -> P info.

(** the value a channel of a top bid delivers *)
Definition top_bid_of (rx : poll (result RecvError (result RelayServiceErr (option Z)))) : option Z :=
  match rx with Ready (Ok (Ok v)) => v | _ => None end.

Lemma foldl_info {A} (P : AuctionBidInfo -> Prop) (f : BidderService -> A -> BidderService) (l : list A) s :
  (forall s a, a ∈ l -> info_in P s -> info_in P (f s a)) -> info_in P s -> info_in P (foldl f s l).
Proof.
  revert s. induction l as [|a l IH]; intros s Hf Hs; simpl; [done|].
  apply IH; [intros s' b Hb; apply Hf; by right|apply Hf; [left|done]].
Qed.

(** A property of auctions that every update keeps is kept by a poll, and the bid is
    computed from an auction that has it. *)
Lemma bidder_poll_info (P : AuctionBidInfo -> Prop) (s : BidderService)
    (i : PollInput (RecvError:=RecvError) (RelayServiceErr:=RelayServiceErr)) s' p bid :
  (forall slot bn, P (AuctionBidInfo_new slot bn)) ->
  (forall info v, top_bid_of (pi_top_bid i) = Some v -> P info -> P (update_auction_bid_info info v)) ->
  (forall info b, b ∈ pi_builds i -> P info -> P (update_block_info info b (block_value b))) ->
  (forall info t, P info -> P (refresh_time info t)) ->
  (forall info v, compute_bid (bd_policy s) info = Done (Some v) -> P info -> P (update_bid_info info v)) ->
  info_in P s -> bidder_poll s i = Done (s', p, bid) ->
  info_in P s' /\ forall st v, bid = Some (st, v) ->
    exists info, P info /\ ai_best_block info = Some st /\ compute_bid (bd_policy s) info = Done (Some v).
Proof.
  intros Hnew Htop Hblock Htime Hbid Hs. unfold bidder_poll.
  pose proof (foldl_good on_auction_message (pi_auctions i) s on_auction_message_good) as (_ & Q1 & _).
  assert (H1 : info_in P (foldl on_auction_message s (pi_auctions i))).
  { apply foldl_info; [|done]. intros s1 msg _ H. unfold on_auction_message.
    destruct (is_none_or _ _); [|done]. by intros info [= <-]. }
  set (s1 := foldl on_auction_message _ _) in *. intros H.
  destruct (pi_auctions_closed i); [injection H as <- <- <-; by split|].
  assert (H2 : info_in P (poll_top_bid s1 (pi_top_bid i))).
  { assert (Hspawn : forall x, info_in P x -> info_in P (spawn_top_bid_request x))
      by (intros x Hx; unfold spawn_top_bid_request; by destruct (bd_auction_bid_info x) eqn:E).
    unfold poll_top_bid. destruct (bd_top_bid s1); [|by apply Hspawn].
    destruct (pi_top_bid i) as [r|]; [|done]. apply Hspawn. destruct r as [[[v|]|]|]; try exact H1.
    intros info. simpl. destruct (bd_auction_bid_info s1) as [info1|] eqn:E; [|done].
    intros [= <-]. by apply Htop, H1. }
  pose proof (poll_top_bid_good s1 (pi_top_bid i)) as (_ & Q2 & _).
  set (s2 := poll_top_bid _ _) in *.
  assert (H3 : info_in P (foldl on_build s2 (pi_builds i))).
  { apply foldl_info; [|done]. intros s3 b Hb H3. unfold on_build.
    destruct (bd_auction_bid_info s3) as [info3|] eqn:E; [|done].
    destruct (_ <? _); [done|]. destruct (_ >? _); [done|]. destruct (negb _); [done|].
    intros info [= <-]. by apply (Hblock _ b Hb), H3. }
  pose proof (foldl_good on_build (pi_builds i) s2 on_build_good) as (_ & Q3 & _).
  set (s3 := foldl on_build _ _) in *.
  destruct (pi_builds_closed i); [injection H as <- <- <-; by split|].
  run_inv. destruct t as [s4 b4]. injection H as <- <- <-. cbn [fst snd].
  assert (Hpol : bd_policy s3 = bd_policy s) by (rewrite Q3, Q2, Q1; done).
  rewrite <- Hpol in *. clearbody s3. revert Hr.
  generalize (match bd_auction_bid_info s3 with Some info => pi_time_left i (ai_slot info) | None => 0 end) as t.
  intros t Hr. unfold try_bid in Hr.
  destruct (bd_auction_bid_info s3) as [info|] eqn:E; [|injection Hr as <- <-; by split].
  specialize (Htime info t (H3 info E)). cbv zeta in Hr. run_inv.
  destruct t0 as [v|]; [destruct (ai_best_block (refresh_time info t)) as [st|] eqn:Hb|];
    injection Hr as <- <-; (split; [intros info' [= <-]|]); try done; [by apply Hbid|].
  intros st' v' [= <- <-]. by eexists.
Qed.

(** every best block satisfies [Q] *)
Definition best_in (Q : BuildState -> Prop) (s : BidderService) : Prop :=
  info_in (fun info => forall st, ai_best_block info = Some st -> Q st) s.

Lemma bidder_poll_in (Q : BuildState -> Prop) (s : BidderService)
    (i : PollInput (RecvError:=RecvError) (RelayServiceErr:=RelayServiceErr)) s' p bid :
  bidder_poll s i = Done (s', p, bid) -> best_in Q s -> (forall b, b ∈ pi_builds i -> Q b) ->
  best_in Q s' /\ forall st v, bid = Some (st, v) -> Q st.
Proof.
  intros H Hs Hb.
  destruct (bidder_poll_info (fun info => forall st, ai_best_block info = Some st -> Q st) s i s' p bid)
    as [H1 H2]; try done.
  - intros info b Hin HP st. unfold update_block_info. destruct (_ >=? _); [|apply HP].
    intros [= <-]. by apply Hb.
  - split; [done|]. intros st v E. destruct (H2 st v E) as (info & HP & Hbest & _). by apply HP.
Qed.

(** a poll never goes back to an earlier slot, and bids at most once: on a block
    of the current auction's slot, the value the policy computes from the
    recorded value of that block. *)
Theorem bidder_poll_correct (s : BidderService) (i : PollInput (RecvError:=RecvError) (RelayServiceErr:=RelayServiceErr))
    (s' : BidderService) (p : poll unit) (bid : option (BuildState * Z)) :
  bidder_inv s -> bidder_poll s i = Done (s', p, bid) ->
  bidder_inv s' /\ bd_policy s' = bd_policy s /\ slot_le (auction_slot s) (auction_slot s') /\
  forall st v, bid = Some (st, v) ->
    exists info, auction_slot s' = Some (ai_slot info) /\ ai_best_block info = Some st /\
      bc_slot (bs_build_config st) = ai_slot info /\ ai_best_block_value info = block_value st /\
      compute_bid (bd_policy s) info = Done (Some v).
Proof. apply bidder_poll_spec. Qed.

(** C7: after its builds are read, the auction's block is the most valuable one it
    was sent for its slot. *)
Theorem bidder_keeps_best_build (s : BidderService) (l : list BuildState) (info : AuctionBidInfo) :
  bidder_inv s -> bd_auction_bid_info s = Some info ->
  exists info', bd_auction_bid_info (foldl on_build s l) = Some info' /\ ai_slot info' = ai_slot info /\
    (forall b, b ∈ l -> bc_slot (bs_build_config b) = ai_slot info ->
       block_value b <= ai_best_block_value info') /\
    (ai_best_block info' = ai_best_block info \/ exists b, b ∈ l /\ ai_best_block info' = Some b).
Proof.
  intros Hinv E. destruct (on_builds_best l s info Hinv E) as (i & H1 & H2 & _ & H3 & H4). by exists i.
Qed.

(** the top bid of the previous block is applied to a new auction: a request
    that was pending when the auction started is credited to it, whatever block
    it was made for. *)
Theorem stale_top_bid_applied (s : BidderService) (request slot block_number v : Z) (info : AuctionBidInfo) :
  bd_top_bid s = Some request -> bd_auction_bid_info s = Some info ->
  ai_slot info < slot -> request <> block_number -> 0 <= v ->
  let s' := poll_top_bid (on_auction_message s (slot, block_number))
              (Ready (Ok (Ok (Some v))) : poll (result RecvError (result RelayServiceErr (option Z)))) in
  exists info', bd_auction_bid_info s' = Some info' /\ ai_block_number info' = block_number /\
    ai_best_auction_bid_value info' = v.
Proof.
  intros Ht Hi Hs Hn Hv s'. unfold s', on_auction_message. rewrite Hi. simpl.
  destruct (Z.ltb_spec (ai_slot info) slot); [|lia]. unfold poll_top_bid. simpl. rewrite Ht. simpl.
  eexists. split; [done|]. simpl. split; [done|lia].
Qed.
End BidderProofs.

Section FinalizeProofs.
Context `{EF : EnvelopeFrom} `{BL : Bls} `{RR : !ReceiptRoots} `{ER : ErrorText}.

(** A submission and its block: the message is that of the state's configuration, the
    payload is the block of the message, and the body of the block is what the state has
    executed, then [tx]. *)
Record submission_of_block (st : BuildState) (bid : Z) (signer : BlsSigner) (sb : SignedBid)
    (build : Build) (tx : SignedTx) : Prop := {
  su_slot : bid_slot (sbd_message sb) = vi_slot (bc_validator_info (bs_build_config st));
  su_parent : bid_parent_hash (sbd_message sb) = sl_hash (bc_parent_block (bs_build_config st));
  su_proposer : bid_proposer_pubkey (sbd_message sb) = vi_proposer (bc_validator_info (bs_build_config st));
  su_recipient : bid_proposer_fee_recipient (sbd_message sb) =
    vi_fee_recipient (bc_validator_info (bs_build_config st));
  su_value : bid_value (sbd_message sb) = bid;
  su_hash : bid_block_hash (sbd_message sb) = sl_hash (bp_block (b_payload build));
  su_payload : ep_block_hash (sbd_execution_payload sb) = bid_block_hash (sbd_message sb);
  su_timestamp : ep_timestamp (sbd_execution_payload sb) = pa_timestamp (bc_attributes (bs_build_config st));
  su_body : bl_body (sl_block (bp_block (b_payload build))) =
    ed_executed_txs (bs_exec_details st) ++ [into_signed tx];
  su_signature : sbd_signature sb = signer_sign signer (sbd_message sb);
}.

Lemma finalize_block (client : Client) (pool : TxPool) (submit_bid : SignedBid -> bool)
    (st : BuildState) (bid : Z) (signer : BlsSigner) (sb : SignedBid) (ok : bool) :
  finalize_and_submit_build client pool submit_bid st bid signer = Done (Submitted sb ok) ->
  ok = submit_bid sb /\ exists build sp tx,
    into_build (with_payment st bid) client pool = Done build /\
    create_builder_transfer_transaction (with_payment st bid)
      (db_basic (finish_db (with_payment st bid) sp))
      (vi_fee_recipient (bc_validator_info (bs_build_config st))) bid = Done tx /\
    submission_of_block st bid signer sb build tx.
Proof.
  unfold finalize_and_submit_build, build_submission_with_builder_payment.
  destruct (into_build (with_payment st bid) client pool) as [build|e|] eqn:Hb; [|done|done].
  simpl. intros [= <- <-]. split; [done|]. pose proof Hb as Hb'.
  apply into_build_Done in Hb as (sp & tx & s & d & _ & Htx & Hs & Hd & Hbid & _ & _ & Hbody & _ & _ & _ & Hph & Hts & _ & Hvi).
  pose proof (envelope_block (b_payload build)) as (H1 & H2 & H3 & H4 & _).
  change (bs_build_config (with_payment st bid)) with (bs_build_config st) in *.
  exists build, sp, tx. split; [done|]. split; [exact Htx|].
  split; simpl; rewrite ?Hvi; try done.
  - by rewrite H4, <- Hts.
  - rewrite Hbody, Hd. by apply simulate_tx_on_db_Done in Hs as [_ <-].
Qed.

(** what is submitted for a bid is a block that pays the bid: the message
    carries its value and the slot's validator, the payload is the block of the
    message, and the last transaction of the block is the transfer of the bid to
    the validator's fee recipient. *)
Theorem finalize_submits_bid (client : Client) (pool : TxPool) (submit_bid : SignedBid -> bool)
    (st : BuildState) (bid : Z) (signer : BlsSigner) (sb : SignedBid) (ok : bool) :
  finalize_and_submit_build client pool submit_bid st bid signer = Done (Submitted sb ok) ->
  exists build sp account tx,
    into_build (with_payment st bid) client pool = Done build /\
    bid_value (sbd_message sb) = bid /\
    bid_block_hash (sbd_message sb) = ep_block_hash (sbd_execution_payload sb) /\
    ok = submit_bid sb /\
    db_basic (finish_db st sp) (pc_builder_address (bs_payload_config st)) = Ok account /\
    transfer_of st (next_nonce account) (vi_fee_recipient (bc_validator_info (bs_build_config st))) bid tx /\
    last (bl_body (sl_block (bp_block (b_payload build)))) = Some (into_signed tx).
Proof.
  intros (Hok & build & sp & tx & Hb & (account & Ha & Htx)%create_transfer_Done & [])%finalize_block.
  exists build, sp, account, tx.
  split_and!; try done. rewrite su_body0. apply last_snoc.
Qed.
End FinalizeProofs.

(** ** Evaluation on concrete inputs *)

Import Demo.

Definition demo_build_state : BuildState := with_bundle_state demo_step2.1 demo_step2.2.

Definition demo_bidder : BidderService :=
  {| bd_top_bid := Some 41; bd_policy := NoProfitPolicy 1000;
     bd_auction_bid_info := Some (AuctionBidInfo_new 0 41) |}.

Definition demo_poll : PollInput (RecvError:=unit) (RelayServiceErr:=unit) :=
  {| pi_auctions := [(1, 42)]; pi_auctions_closed := false; pi_top_bid := Pending;
     pi_builds := [demo_build_state]; pi_builds_closed := false; pi_time_left := fun _ => 900 |}.

Definition demo_polled : BidderService * poll unit * option (BuildState * Z) :=
  run_or (demo_bidder, Pending, None) (bidder_poll demo_bidder demo_poll).

Lemma demo_bidder_inv : bidder_inv demo_bidder.
Proof. intros info [= <-]. reflexivity. Qed.

Lemma bidder_poll_correct_witness :
  demo_polled.2 = Some (demo_build_state, 92000) /\
  slot_le (auction_slot demo_bidder) (auction_slot demo_polled.1.1).
Proof.
  split; [kernel_refl|].
  assert (bidder_poll demo_bidder demo_poll = Done (demo_polled.1.1, demo_polled.1.2, demo_polled.2)) as H
    by exact_no_check (run_or_Done_triple (demo_bidder, Pending, None)
         (bidder_poll demo_bidder demo_poll) (eq_refl true)).
  exact (proj1 (proj2 (proj2 (bidder_poll_correct _ _ _ _ _ demo_bidder_inv H)))).
Defined.

Lemma bidder_keeps_best_build_witness :
  exists info', bd_auction_bid_info
    (foldl on_build (on_new_slot_auction demo_bidder 1 42) [demo_build_state; demo_state]) = Some info' /\
    block_value demo_build_state <= ai_best_block_value info'.
Proof.
  assert (bidder_inv (on_new_slot_auction demo_bidder 1 42)) as Hinv by (intros info [= <-]; reflexivity).
  destruct (bidder_keeps_best_build _ [demo_build_state; demo_state] _ Hinv eq_refl) as (i & H1 & _ & H2 & _).
  exists i. split; [exact H1|]. apply H2; [left|reflexivity].
Defined.

Lemma stale_top_bid_applied_witness :
  exists info', bd_auction_bid_info
    (poll_top_bid (on_auction_message demo_bidder (1, 42))
      (Ready (Ok (Ok (Some 77))) : poll (result unit (result unit (option Z))))) = Some info' /\
    ai_block_number info' = 42 /\ ai_best_auction_bid_value info' = 77.
Proof.
  apply (stale_top_bid_applied demo_bidder 41 1 42 77 (AuctionBidInfo_new 0 41));
    [reflexivity|reflexivity|simpl; lia|lia|lia].
Defined.

Definition is_submitted (r : run Empty_set finalize_outcome) : bool :=
  match r with Done (Submitted _ true) => true | _ => false end.
Definition submitted_or (x : SignedBid) (r : run Empty_set finalize_outcome) : SignedBid :=
  match r with Done (Submitted sb _) => sb | _ => x end.

Lemma submitted_or_Done x r : is_submitted r = true -> r = Done (Submitted (submitted_or x r) true).
Proof. by destruct r as [[? []|]| |]. Qed.

Definition demo_signer : BlsSigner := BlsSigner_new (5 : BlsSecretKey) (repeat Byte.x00 4).
Definition demo_finalized : run Empty_set finalize_outcome :=
  finalize_and_submit_build demo_accounts [] (fun _ => true) demo_build_state 700 demo_signer.
Definition demo_other_bid : SignedBid :=
  SignedBid_new (Bid_new demo_build 0) (envelope_from (b_payload demo_build)) demo_signer.
Definition demo_signed_bid : SignedBid := submitted_or demo_other_bid demo_finalized.

Lemma finalize_submits_bid_witness :
  demo_finalized = Done (Submitted demo_signed_bid true) /\ bid_value (sbd_message demo_signed_bid) = 700.
Proof.
  assert (demo_finalized = Done (Submitted demo_signed_bid true)) as H
    by exact_no_check (submitted_or_Done demo_other_bid demo_finalized (eq_refl true)).
  split; [exact H|].
  destruct (finalize_submits_bid _ _ _ _ _ _ _ _ H) as (b & sp & account & tx & _ & Hv & _). exact Hv.
Defined.
