(* ===== verification/AuctionLog.v ===== *)
(** * The bidder's record of an auction

    What [crates/payload/src/bidder/service.rs] keeps about an auction, against a log of what
    happened in it: the builds of its slot, the top bids the bidder was told, and the bids
    it made.  The log is written by an abstract auctioneer that only appends; the theorem
    is that the record of the service is, field by field, a function of the log. *)

From stdpp Require Import prelude list.
From S2P Require Import Prelude Types Bundle Validator Chain Payload SimState DemoEvm State StateFacts Policy Bid Bidder.

Open Scope Z_scope.

Section AuctionLog.
Context `{EV : Evm} {RecvError RelayServiceErr : Type}.
Abbreviation PollInput := (PollInput (RecvError:=RecvError) (RelayServiceErr:=RelayServiceErr)).

(** ** The log *)

Record AuctionLog := {
  al_slot : Z;
  al_block_number : Z;
  al_builds : list BuildState;
  al_top_bids : list Z;
  al_bids : list Z;
}.

(** an auction starts with its message, when it is the first or of a later slot *)
Definition log_message (log : option AuctionLog) (msg : Z * Z) : option AuctionLog :=
  let fresh := {| al_slot := msg.1; al_block_number := msg.2; al_builds := []; al_top_bids := []; al_bids := [] |} in
  match log with
  | Some l => if decide (al_slot l < msg.1) then Some fresh else Some l
  | None => Some fresh
  end.

Definition log_top_bids (log : option AuctionLog) (vs : list Z) : option AuctionLog :=
  (fun l => {| al_slot := al_slot l; al_block_number := al_block_number l; al_builds := al_builds l;
               al_top_bids := al_top_bids l ++ vs; al_bids := al_bids l |}) <$> log.

(** the builds of another slot are not of the auction *)
Definition log_builds (log : option AuctionLog) (builds : list BuildState) : option AuctionLog :=
  (fun l => {| al_slot := al_slot l; al_block_number := al_block_number l;
               al_builds := al_builds l ++ filter (fun b => bc_slot (bs_build_config b) = al_slot l) builds;
               al_top_bids := al_top_bids l; al_bids := al_bids l |}) <$> log.

Definition log_bids (log : option AuctionLog) (vs : list Z) : option AuctionLog :=
  (fun l => {| al_slot := al_slot l; al_block_number := al_block_number l; al_builds := al_builds l;
               al_top_bids := al_top_bids l; al_bids := al_bids l ++ vs |}) <$> log.

(** the values the channel of a top bid delivers *)
Definition told (rx : poll (result RecvError (result RelayServiceErr (option Z)))) : list Z :=
  match rx with Ready (Ok (Ok (Some v))) => [v] | _ => [] end.

(** A poll: its messages, the answer to the question an earlier poll has asked (there is one
    when there was an auction then), its builds, and the bid it makes. *)
Definition log_poll (log : option AuctionLog) (i : PollInput) (bid : option (BuildState * Z)) : option AuctionLog :=
  let log1 := foldl log_message log (pi_auctions i) in
  let log2 := log_top_bids log1 (match log with Some _ => told (pi_top_bid i) | None => [] end) in
  let log3 := log_builds log2 (pi_builds i) in
  log_bids log3 (match bid with Some b => [b.2] | None => [] end).

(** The runs of a bidder with their log and all its bids; a poll that is ready is the last. *)
Inductive bidder_runs (policy : BidSelectionPolicies) : BidderService -> option AuctionLog ->
    list (BuildState * Z) -> Prop :=
| runs_new : bidder_runs policy (BidderService_new policy) None []
| runs_poll s log bids i s' bid :
    bidder_runs policy s log bids -> bidder_poll s i = Done (s', Pending, bid) ->
    bidder_runs policy s' (log_poll log i bid)
      (bids ++ match bid with Some b => [b] | None => [] end).

(** ** What the record has to be *)

Definition maximum (l : list Z) : Z := foldl Z.max 0 l.

(** the first of the most valuable builds *)
Definition best_build (builds : list BuildState) (best : option BuildState) (value : Z) : Prop :=
  match best with
  | None => builds = [] /\ value = 0
  | Some st => value = block_value st /\ exists k, builds !! k = Some st /\
      forall j b, builds !! j = Some b ->
        block_value b <= block_value st /\ ((j < k)%nat -> block_value b < block_value st)
  end.

Record recorded (info : AuctionBidInfo) (log : AuctionLog) : Prop := {
  rc_slot : ai_slot info = al_slot log;
  rc_block_number : ai_block_number info = al_block_number log;
  rc_best : best_build (al_builds log) (ai_best_block info) (ai_best_block_value info);
  rc_bid_count : ai_bid_count info = Z.of_nat (length (al_bids log)) mod 2 ^ 64;
  rc_best_bid : ai_best_bid_value info = maximum (al_bids log);
  rc_last_bid : ai_last_bid_value info = default 0 (last (al_bids log));
  rc_best_top_bid : ai_best_auction_bid_value info = maximum (al_top_bids log);
  rc_last_top_bid : ai_last_auction_bid_value info = default 0 (last (al_top_bids log));
}.

Definition record_of (info : option AuctionBidInfo) (log : option AuctionLog) : Prop :=
  match info, log with
  | Some info, Some log => recorded info log
  | None, None => True
  | _, _ => False
  end.

(** ** Properties *)

Lemma maximum_snoc l v : maximum (l ++ [v]) = Z.max (maximum l) v.
Proof. unfold maximum. by rewrite foldl_app. Qed.

Lemma block_value_nonneg st : 0 <= block_value st.
Proof. apply u256_add_range. Qed.

Lemma best_build_better builds best value b :
  best_build builds best value -> best = None \/ value < block_value b ->
  best_build (builds ++ [b]) (Some b) (block_value b).
Proof.
  intros H Hb. split; [done|]. exists (length builds). rewrite lookup_app_r, Nat.sub_diag by lia.
  split; [done|]. intros j x [Hj|[Hl Hj]]%lookup_app_Some.
  - destruct best as [st|]; [|by destruct H as [-> _]]. destruct H as (-> & k & Hk & Hmax).
    destruct Hb as [|Hb]; [done|]. destruct (Hmax j x Hj). lia.
  - apply list_lookup_singleton_Some in Hj as [Hj <-]. lia.
Qed.

Lemma best_build_worse builds st value b :
  best_build builds (Some st) value -> block_value b <= value -> best_build (builds ++ [b]) (Some st) value.
Proof.
  intros (-> & k & Hk & Hmax) Hb. split; [done|]. exists k. split; [by apply lookup_app_l_Some|].
  intros j x [Hj|[Hl Hj]]%lookup_app_Some; [by apply Hmax|].
  apply list_lookup_singleton_Some in Hj as [Hj <-]. apply lookup_lt_Some in Hk. lia.
Qed.

(** *** The steps of a poll *)

Lemma recorded_message s log msg :
  record_of (bd_auction_bid_info s) log ->
  record_of (bd_auction_bid_info (on_auction_message s msg)) (log_message log msg).
Proof.
  unfold on_auction_message, log_message.
  destruct (bd_auction_bid_info s) as [info|] eqn:E, log as [l|]; try done; simpl.
  intros H. rewrite (rc_slot _ _ H). destruct (Z.ltb_spec (al_slot l) msg.1), (decide _); try lia;
    [by split|by rewrite E].
Qed.

Lemma recorded_spawn s log :
  record_of (bd_auction_bid_info s) log ->
  record_of (bd_auction_bid_info (spawn_top_bid_request s)) log /\
  (is_Some log -> is_Some (bd_top_bid (spawn_top_bid_request s))).
Proof.
  unfold spawn_top_bid_request. destruct (bd_auction_bid_info s) as [info|] eqn:E, log as [l|]; simpl; try done.
  - intros H. rewrite E. split; [done|by eexists].
  - rewrite E. split; [done|by intros []].
Qed.

Lemma log_top_bids_nil log : log_top_bids log [] = log.
Proof. destruct log as [[]|]; [|done]. unfold log_top_bids. simpl. by rewrite app_nil_r. Qed.

Lemma log_bids_nil log : log_bids log [] = log.
Proof. destruct log as [[]|]; [|done]. unfold log_bids. simpl. by rewrite app_nil_r. Qed.

Lemma recorded_top_bid s log (rx : poll (result RecvError (result RelayServiceErr (option Z)))) :
  record_of (bd_auction_bid_info s) log ->
  let log' := log_top_bids log (match bd_top_bid s with Some _ => told rx | None => [] end) in
  record_of (bd_auction_bid_info (poll_top_bid s rx)) log' /\
  (is_Some log' -> is_Some (bd_top_bid (poll_top_bid s rx))).
Proof.
  intros H. unfold poll_top_bid. destruct (bd_top_bid s) as [request|] eqn:Hq; cbv zeta.
  2:{ rewrite log_top_bids_nil. by apply recorded_spawn. }
  destruct rx as [r|]; cbn [told]; [|rewrite log_top_bids_nil, Hq; by split].
  assert (Hn : record_of (bd_auction_bid_info (set_top_bid s None)) log) by done.
  destruct r as [[[v|]|]|]; cbn [told]; try (rewrite log_top_bids_nil; by apply recorded_spawn).
  apply recorded_spawn. simpl. destruct (bd_auction_bid_info s) as [info|], log as [l|]; try done.
  destruct H. split; simpl; try done; [by rewrite maximum_snoc; congruence|by rewrite last_snoc].
Qed.

Lemma log_builds_cons log b builds : log_builds log (b :: builds) = log_builds (log_builds log [b]) builds.
Proof.
  destruct log as [[]|]; [|done]. unfold log_builds. simpl. rewrite !filter_cons, filter_nil. simpl.
  by case_decide; rewrite <- app_assoc.
Qed.

Lemma recorded_build s log b :
  record_of (bd_auction_bid_info s) log ->
  record_of (bd_auction_bid_info (on_build s b)) (log_builds log [b]).
Proof.
  unfold on_build. destruct (bd_auction_bid_info s) as [info|] eqn:E; [|rewrite E; by destruct log].
  destruct log as [l|]; [|done]. intros H.
  assert (Hother : bc_slot (bs_build_config b) <> al_slot l -> log_builds (Some l) [b] = Some l).
  { intros Hn. unfold log_builds. simpl. rewrite filter_cons_False, filter_nil, app_nil_r by done. by destruct l. }
  rewrite (rc_slot _ _ H).
  destruct (Z.ltb_spec (bc_slot (bs_build_config b)) (al_slot l)); [rewrite Hother, E by lia; done|].
  rewrite Z.gtb_ltb.
  destruct (Z.ltb_spec (al_slot l) (bc_slot (bs_build_config b))); [rewrite Hother, E by lia; done|].
  assert (Hs : bc_slot (bs_build_config b) = al_slot l) by lia.
  unfold log_builds. simpl. rewrite filter_cons_True, filter_nil by done.
  pose proof (block_value_nonneg b) as Hv. pose proof (rc_best _ _ H) as Hbest.
  change (policy_block_value (bd_policy s) (bs_exec_details b)) with (block_value b).
  unfold is_better_block_value.
  destruct (ai_best_block info) as [st|] eqn:Hst; cbn [negb].
  - change (policy_block_value (bd_policy s) (bs_exec_details b)) with (block_value b).
    change (policy_block_value (bd_policy s) (bs_exec_details st)) with (block_value st).
    assert (ai_best_block_value info = block_value st) as Hval by apply Hbest.
    rewrite Z.gtb_ltb. destruct (Z.ltb_spec (block_value st) (block_value b)); cbn [negb].
    + unfold update_block_info. rewrite Z.geb_leb. destruct (Z.leb_spec (ai_best_block_value info) (block_value b)); [|lia].
      destruct H. split; try done. simpl. eapply best_build_better; [exact Hbest|right; lia].
    + rewrite E. destruct H. split; try done. simpl. rewrite Hst. apply best_build_worse; [done|lia].
  - assert (ai_best_block_value info = 0) as Hval by apply Hbest.
    unfold update_block_info. rewrite Z.geb_leb. destruct (Z.leb_spec (ai_best_block_value info) (block_value b)); [|lia].
    destruct H. split; try done. simpl. eapply best_build_better; [exact Hbest|by left].
Qed.

Lemma recorded_builds builds : forall s log,
  record_of (bd_auction_bid_info s) log ->
  record_of (bd_auction_bid_info (foldl on_build s builds)) (log_builds log builds).
Proof.
  induction builds as [|b builds IH]; intros s log H; simpl.
  - unfold log_builds. destruct log as [[]|]; simpl; [|done]. by rewrite filter_nil, app_nil_r.
  - rewrite log_builds_cons. by apply IH, recorded_build.
Qed.

Lemma recorded_messages msgs : forall s log,
  record_of (bd_auction_bid_info s) log ->
  record_of (bd_auction_bid_info (foldl on_auction_message s msgs)) (foldl log_message log msgs).
Proof. induction msgs as [|m msgs IH]; intros s log H; simpl; [done|]. by apply IH, recorded_message. Qed.

Lemma u64_wrap_succ n : u64_add (Z.of_nat n mod 2 ^ 64) 1 = Z.of_nat (S n) mod 2 ^ 64.
Proof. unfold u64_add, u64_wrap. rewrite Zplus_mod_idemp_l. f_equal. lia. Qed.

(** the bid is on the build of the record *)
Lemma recorded_try_bid s log t s' bid :
  record_of (bd_auction_bid_info s) log -> try_bid s t = Done (s', bid) ->
  let log' := log_bids log (match bid with Some b => [b.2] | None => [] end) in
  record_of (bd_auction_bid_info s') log' /\ bd_top_bid s' = bd_top_bid s /\
  forall st v, bid = Some (st, v) -> exists l, log' = Some l /\ best_build (al_builds l) (Some st) (block_value st).
Proof.
  unfold try_bid. destruct (bd_auction_bid_info s) as [info|] eqn:E.
  2:{ intros H [= <- <-]. cbv zeta. rewrite log_bids_nil, E. by split_and!. }
  destruct log as [l|]; [|done]. intros H Hb. simpl in H.
  assert (recorded (refresh_time info t) l) as Hr by by destruct H.
  run_inv. destruct t0 as [v|]; simpl in Hb; [destruct (ai_best_block info) as [st|] eqn:Hst|];
    injection Hb as <- <-; cbv zeta; try (rewrite log_bids_nil; by split_and!).
  pose proof (rc_best _ _ H) as Hbest. rewrite Hst in Hbest.
  assert (ai_best_block_value info = block_value st) as Hval by apply Hbest. rewrite Hval in Hbest.
  split_and!; [|done|].
  - destruct Hr. split; simpl in *; try done.
    + rewrite rc_bid_count0, length_app, Nat.add_1_r. apply u64_wrap_succ.
    + by rewrite maximum_snoc, rc_best_bid0.
    + by rewrite last_snoc.
  - intros st' v' [= <- <-]. eexists. by split.
Qed.

Lemma on_messages_top_bid msgs s : bd_top_bid (foldl on_auction_message s msgs) = bd_top_bid s.
Proof.
  revert s. induction msgs as [|m msgs IH]; intros s; simpl; [done|]. rewrite IH.
  unfold on_auction_message. by destruct (is_none_or _ _).
Qed.

Lemma on_builds_top_bid builds s : bd_top_bid (foldl on_build s builds) = bd_top_bid s.
Proof.
  revert s. induction builds as [|b builds IH]; intros s; simpl; [done|]. rewrite IH.
  unfold on_build. destruct (bd_auction_bid_info s); [|done].
  destruct (bc_slot _ <? _); [done|]. destruct (bc_slot _ >? _); [done|]. by destruct (negb _).
Qed.

Lemma poll_top_bid_none (s : BidderService) (rx : poll (result RecvError (result RelayServiceErr (option Z)))) :
  bd_auction_bid_info s = None -> bd_top_bid s = None -> bd_top_bid (poll_top_bid s rx) = None.
Proof. intros Hi Hq. unfold poll_top_bid, spawn_top_bid_request. by rewrite Hq, Hi. Qed.

(** between polls: the record, and a question that was asked when there is an auction *)
Definition run_inv_of (s : BidderService) (log : option AuctionLog) : Prop :=
  record_of (bd_auction_bid_info s) log /\ (is_Some (bd_top_bid s) <-> is_Some log).

Lemma poll_recorded s log (i : PollInput) s' bid :
  run_inv_of s log -> bidder_poll s i = Done (s', Pending, bid) ->
  run_inv_of s' (log_poll log i bid) /\
  forall st v, bid = Some (st, v) -> exists l,
    log_poll log i bid = Some l /\ best_build (al_builds l) (Some st) (block_value st).
Proof.
  intros [Hrec Hq]. unfold bidder_poll, log_poll.
  destruct (pi_auctions_closed i); [done|]. destruct (pi_builds_closed i); [done|]. intros H. run_inv.
  destruct t as [s3 b3]. injection H as <- <-. cbn [fst snd].
  pose proof (recorded_messages (pi_auctions i) s log Hrec) as H1.
  pose proof (on_messages_top_bid (pi_auctions i) s) as Hq1.
  set (s1 := foldl on_auction_message s _) in *. set (log1 := foldl log_message log _) in *.
  assert (match log with Some _ => told (pi_top_bid i) | None => [] end =
    match bd_top_bid s1 with Some _ => told (pi_top_bid i) | None => [] end) as ->.
  { rewrite Hq1. destruct log, (bd_top_bid s); try done.
    - destruct (proj2 Hq) as [? [=]]. by eexists.
    - destruct (proj1 Hq) as [? [=]]. by eexists. }
  destruct (recorded_top_bid s1 log1 (pi_top_bid i) H1) as [H2 Hq2].
  set (log2 := log_top_bids log1 _) in *.
  assert (is_Some (bd_top_bid (poll_top_bid s1 (pi_top_bid i))) <-> is_Some log2) as Hq2'.
  { split; [|exact Hq2]. intros [q Hx]. destruct log2 as [l2|] eqn:El; [by eexists|]. exfalso.
    destruct log1 as [l1|] eqn:El1; [done|]. destruct (bd_auction_bid_info s1) eqn:Ei; [done|].
    assert (bd_top_bid s1 = None) as Hn.
    { rewrite Hq1. destruct (bd_top_bid s) as [x|]; [|done]. destruct (proj1 Hq) as [l Hl]; [by eexists|].
      exfalso. unfold log1 in El1. clear -El1 Hl. rewrite Hl in El1. clear Hl. revert l El1.
      induction (pi_auctions i) as [|m ms IH]; intros l; simpl; [done|]. case_decide; apply IH. }
    by rewrite (poll_top_bid_none _ _ Ei Hn) in Hx. }
  pose proof (recorded_builds (pi_builds i) _ _ H2) as H3.
  pose proof (on_builds_top_bid (pi_builds i) (poll_top_bid s1 (pi_top_bid i))) as Hq3.
  destruct (recorded_try_bid _ _ _ _ _ H3 Hr) as (H4 & Hq4 & Hb).
  split; [|exact Hb]. split; [exact H4|]. rewrite Hq4, Hq3, Hq2'. unfold log_bids, log_builds.
  by rewrite !fmap_is_Some.
Qed.

Lemma runs_recorded policy s log bids : bidder_runs policy s log bids -> run_inv_of s log.
Proof.
  induction 1 as [|s log bids i s' bid _ IH Hp]; [split; [done|by split; intros []]|].
  by apply (poll_recorded s log i).
Qed.

(** C31: the record the bidder has of an auction is that of the auction's log.  After any
    sequence of polls it knows an auction exactly when one was announced, the one of the
    latest slot that was; its best block is the first of the most valuable builds of
    that slot it was sent since, its count and its largest and last bid are those of the
    bids it made in the auction, and its largest and last top bid those it was told in
    it, when it had asked.  Whatever bid a poll makes is on the best block of the log. *)
Theorem bidder_refines_log (policy : BidSelectionPolicies) (s : BidderService) (log : option AuctionLog)
    (bids : list (BuildState * Z)) :
  bidder_runs policy s log bids ->
  record_of (bd_auction_bid_info s) log /\
  forall (i : PollInput) s' st v, bidder_poll s i = Done (s', Pending, Some (st, v)) ->
    exists l, log_poll log i (Some (st, v)) = Some l /\ best_build (al_builds l) (Some st) (block_value st) /\
      last (al_bids l) = Some v.
Proof.
  intros H%runs_recorded. split; [apply H|]. intros i s' st v Hp.
  destruct (proj2 (poll_recorded s log i s' _ H Hp) st v eq_refl) as (l & Hl & Hbest).
  exists l. split_and!; [done..|]. unfold log_poll, log_bids in Hl.
  apply fmap_Some in Hl as (l' & _ & ->). apply last_snoc.
Qed.
End AuctionLog.

(** ** Evaluation on concrete inputs *)

Import Demo.

(** a first poll finds the message of an auction and a build; a second one is told a top bid *)
Definition demo_second : PollInput (RecvError:=unit) (RelayServiceErr:=unit) :=
  {| pi_auctions := []; pi_auctions_closed := false; pi_top_bid := Ready (Ok (Ok (Some 77)));
     pi_builds := [demo_state]; pi_builds_closed := false; pi_time_left := fun _ => 500 |}.

Definition demo_poll_of (s : BidderService) (i : PollInput (RecvError:=unit) (RelayServiceErr:=unit))
  : BidderService * poll unit * option (BuildState * Z) := run_or (s, Pending, None) (bidder_poll s i).

Definition demo_bidder1 : BidderService * poll unit * option (BuildState * Z) :=
  demo_poll_of (BidderService_new (NoProfitPolicy 1000)) demo_poll.
Definition demo_bidder2 : BidderService * poll unit * option (BuildState * Z) :=
  demo_poll_of demo_bidder1.1.1 demo_second.

Definition demo_log : option AuctionLog :=
  log_poll (log_poll None demo_poll (Some (demo_build_state, 92000))) demo_second (Some (demo_build_state, 92000)).

Lemma demo_bidder_run : bidder_runs (NoProfitPolicy 1000) (RecvError:=unit) (RelayServiceErr:=unit) demo_bidder2.1.1 demo_log
  [(demo_build_state, 92000); (demo_build_state, 92000)].
Proof.
  assert (bidder_poll (BidderService_new (NoProfitPolicy 1000)) demo_poll =
    Done (demo_bidder1.1.1, Pending, Some (demo_build_state, 92000))) as H1
    by exact_no_check (eq_refl (bidder_poll (BidderService_new (NoProfitPolicy 1000)) demo_poll)).
  assert (bidder_poll demo_bidder1.1.1 demo_second =
    Done (demo_bidder2.1.1, Pending, Some (demo_build_state, 92000))) as H2
    by exact_no_check (eq_refl (bidder_poll demo_bidder1.1.1 demo_second)).
  eapply (runs_poll _ _ _ [_] demo_second _ (Some _)); [|exact H2].
  eapply (runs_poll _ _ _ [] demo_poll _ (Some _)); [|exact H1]. constructor.
Qed.

Lemma demo_log_says : (fun l => (al_top_bids l, al_bids l)) <$> demo_log = Some ([77], [92000; 92000]).
Proof. kernel_refl. Qed.

Lemma bidder_refines_log_witness :
  exists info log, bd_auction_bid_info demo_bidder2.1.1 = Some info /\ demo_log = Some log /\
    recorded info log /\ al_top_bids log = [77] /\ al_bids log = [92000; 92000] /\ ai_bid_count info = 2.
Proof.
  destruct (bidder_refines_log _ _ _ _ demo_bidder_run) as [H _]. pose proof demo_log_says as Hs.
  revert H Hs. generalize demo_log. generalize (bd_auction_bid_info demo_bidder2.1.1).
  intros [info|] [log|] H Hs; try done. exists info, log.
  assert (al_top_bids log = [77] /\ al_bids log = [92000; 92000]) as [Ht Hb] by (injection Hs as -> ->; done).
  split_and!; try done. rewrite (rc_bid_count _ _ H), Hb. reflexivity.
Defined.
