(* ===== verification/PayloadService.v ===== *)
(** * The payload builder service

    Models [crates/payload/src/service/mod.rs] and the traits of
    [crates/payload/src/traits.rs]: the service that drives payload jobs and
    answers commands about them, against the interface of its generator. *)

From stdpp Require Import prelude list.
From S2P Require Import Prelude Types Bundle Validator Chain Payload SimState DemoEvm State StateFacts.

Open Scope Z_scope.

(** The traits [PayloadJob] and [PayloadJobGenerator]: what the service is told
    about jobs.  Polling a job may change it. *)
Class PayloadJobGenerator `{EV : Evm} := {
  Job : Type;
  PayloadFuture : Type;
  job_poll : Job -> poll (result PayloadBuilderError unit) * Job;
  job_best_payload : Job -> result PayloadBuilderError Build;
  job_payload_attributes : Job -> result PayloadBuilderError PayloadAttributes;
  (** the future, whether the job is kept alive, and the job *)
  job_resolve : Job -> PayloadFuture * bool * Job;
  Generator : Type;
  new_payload_job : Generator -> BuildConfig -> result PayloadBuilderError Job;
}.

(** [Vec::swap_remove]: the last element takes the place of the removed one. *)
Definition swap_remove {A} (l : list A) (i : nat) : option (A * list A) :=
  match l !! i, last l with
  | Some x, Some z =>
      let l' := take (length l - 1) l in
      Some (x, if decide (i = length l - 1)%nat then l' else <[i := z]> l')
  | _, _ => None
  end.

Section Service.
Context `{PG : PayloadJobGenerator}.

Record PayloadBuilderService := {
  sv_generator : Generator;
  sv_payload_jobs : list (Job * Z);
  sv_active_jobs : Z;
  sv_initiated_jobs : Z;
  sv_failed_jobs : Z;
}.

Definition PayloadBuilderService_new (g : Generator) : PayloadBuilderService :=
  {| sv_generator := g; sv_payload_jobs := []; sv_active_jobs := 0; sv_initiated_jobs := 0;
     sv_failed_jobs := 0 |}.

Definition set_jobs (self : PayloadBuilderService) (jobs : list (Job * Z)) : PayloadBuilderService :=
  {| sv_generator := sv_generator self; sv_payload_jobs := jobs;
     sv_active_jobs := sv_active_jobs self; sv_initiated_jobs := sv_initiated_jobs self;
     sv_failed_jobs := sv_failed_jobs self |}.

(** [metrics.set_active_jobs(len)] and [metrics.inc_failed_jobs()] *)
Definition set_active (self : PayloadBuilderService) : PayloadBuilderService :=
  {| sv_generator := sv_generator self; sv_payload_jobs := sv_payload_jobs self;
     sv_active_jobs := Z.of_nat (length (sv_payload_jobs self));
     sv_initiated_jobs := sv_initiated_jobs self; sv_failed_jobs := sv_failed_jobs self |}.
Definition inc_failed (self : PayloadBuilderService) : PayloadBuilderService :=
  {| sv_generator := sv_generator self; sv_payload_jobs := sv_payload_jobs self;
     sv_active_jobs := sv_active_jobs self; sv_initiated_jobs := sv_initiated_jobs self;
     sv_failed_jobs := sv_failed_jobs self + 1 |}.
Definition inc_initiated (self : PayloadBuilderService) : PayloadBuilderService :=
  {| sv_generator := sv_generator self; sv_payload_jobs := sv_payload_jobs self;
     sv_active_jobs := sv_active_jobs self; sv_initiated_jobs := sv_initiated_jobs self + 1;
     sv_failed_jobs := sv_failed_jobs self |}.

Definition find_job (self : PayloadBuilderService) (id : Z) : option (Job * Z) :=
  snd <$> list_find (fun jid => jid.2 = id) (sv_payload_jobs self).

Definition contains_payload (self : PayloadBuilderService) (id : Z) : bool :=
  existsb (fun jid => jid.2 =? id) (sv_payload_jobs self).

Definition best_payload (self : PayloadBuilderService) (id : Z)
  : option (result PayloadBuilderError Build) :=
  (fun jid => job_best_payload jid.1) <$> find_job self id.

Definition payload_attributes (self : PayloadBuilderService) (id : Z)
  : option (result PayloadBuilderError PayloadAttributes) :=
  (fun jid => job_payload_attributes jid.1) <$> find_job self id.

(** [resolve]: the job is removed, keeping the order of the others, unless it
    asks to be kept alive *)
Definition resolve (self : PayloadBuilderService) (id : Z)
  : PayloadBuilderService * option PayloadFuture :=
  match list_find (fun jid => jid.2 = id) (sv_payload_jobs self) with
  | None => (self, None)
  | Some (pos, (job, jid)) =>
      let '(fut, keep_alive, job) := job_resolve job in
      if keep_alive then (set_jobs self (<[pos := (job, jid)]> (sv_payload_jobs self)), Some fut)
      else (set_jobs self (delete pos (sv_payload_jobs self)), Some fut)
  end.

(** one index of the loop over the jobs *)
Definition poll_job_at (self : PayloadBuilderService) (idx : nat) : PayloadBuilderService :=
  match swap_remove (sv_payload_jobs self) idx with
  | None => self
  | Some ((job, id), rest) =>
      let this := set_jobs self rest in
      match job_poll job with
      | (Ready (Ok _), _) => set_active this
      | (Ready (Err _), _) => set_active (inc_failed this)
      | (Pending, job) => set_jobs this (sv_payload_jobs this ++ [(job, id)])
      end
  end.

(** [for idx in (0..len).rev()] *)
Fixpoint poll_jobs_below (n : nat) (self : PayloadBuilderService) : PayloadBuilderService :=
  match n with
  | O => self
  | S idx => poll_jobs_below idx (poll_job_at self idx)
  end.

Definition poll_jobs (self : PayloadBuilderService) : PayloadBuilderService :=
  poll_jobs_below (length (sv_payload_jobs self)) self.

Inductive PayloadServiceCommand :=
| BuildNewPayload (config : BuildConfig)
| BestPayload (id : Z)
| PayloadAttributesCmd (id : Z)
| Resolve (id : Z).

Inductive reply :=
| NewPayloadReply (r : result PayloadBuilderError Z)
| BestPayloadReply (r : option (result PayloadBuilderError Build))
| PayloadAttributesReply (r : option (result PayloadBuilderError PayloadAttributes))
| ResolveReply (r : option PayloadFuture).

(** one command: the service, the answer, whether a job was created *)
Definition on_command (self : PayloadBuilderService) (cmd : PayloadServiceCommand)
  : PayloadBuilderService * reply * bool :=
  match cmd with
  | BuildNewPayload config =>
      let id := pa_id (bc_attributes config) in
      if contains_payload self id then (self, NewPayloadReply (Ok id), false)
      else
        match new_payload_job (sv_generator self) config with
        | Ok job =>
            let this := inc_initiated self in
            (set_jobs this (sv_payload_jobs this ++ [(job, id)]), NewPayloadReply (Ok id), true)
        | Err err => (inc_failed self, NewPayloadReply (Err err), false)
        end
  | BestPayload id => (self, BestPayloadReply (best_payload self id), false)
  | PayloadAttributesCmd id => (self, PayloadAttributesReply (payload_attributes self id), false)
  | Resolve id => let '(this, r) := resolve self id in (this, ResolveReply r, false)
  end.

Fixpoint on_commands (self : PayloadBuilderService) (cmds : list PayloadServiceCommand)
  : PayloadBuilderService * list reply * bool :=
  match cmds with
  | [] => (self, [], false)
  | cmd :: cmds =>
      let '(this, r, n1) := on_command self cmd in
      let '(this, rs, n2) := on_commands this cmds in
      (this, r :: rs, n1 || n2)
  end.

(** [poll]: [batches] are the commands each drain of the channel finds *)
Fixpoint service_poll (self : PayloadBuilderService) (batches : list (list PayloadServiceCommand))
  : PayloadBuilderService * list reply :=
  let this := poll_jobs self in
  match batches with
  | [] => (this, [])
  | cmds :: batches =>
      let '(this, rs, new_job) := on_commands this cmds in
      if new_job then
        let '(this, rs') := service_poll this batches in (this, rs ++ rs')
      else (this, rs)
  end.
End Service.

(** ** Properties *)

Section ServiceProofs.
Context `{PG : PayloadJobGenerator}.

(** [swap_remove] on a list split at the index *)
Lemma swap_remove_app {A} (l : list A) x k :
  exists k', swap_remove (l ++ x :: k) (length l) = Some (x, l ++ k') /\ k' ≡ₚ k.
Proof.
  unfold swap_remove. rewrite list_lookup_middle by done.
  assert (Hlen : (length (l ++ x :: k) - 1 = length l + length k)%nat) by (rewrite length_app; simpl; lia).
  rewrite Hlen. destruct k as [|y k _] using rev_ind.
  - rewrite last_snoc. exists []. simpl. rewrite decide_True by lia.
    split; [|done]. rewrite Nat.add_0_r, app_nil_r, take_app_length. done.
  - rewrite app_comm_cons, app_assoc, last_snoc. exists (y :: k).
    rewrite length_app. simpl length. rewrite decide_False by lia.
    split; [|by rewrite Permutation_app_comm].
    assert (Ht : take (length l + (length k + 1)) ((l ++ x :: k) ++ [y]) = l ++ x :: k).
    { rewrite take_app_le by (rewrite length_app; simpl; lia).
      apply take_ge. rewrite length_app. simpl. lia. }
    rewrite Ht. f_equal. f_equal. by rewrite insert_app_r_alt, Nat.sub_diag by lia.
Qed.

(** what a poll leaves of a job *)
Definition after_poll (jid : Job * Z) : option (Job * Z) :=
  match job_poll jid.1 with
  | (Pending, job) => Some (job, jid.2)
  | _ => None
  end.

Lemma poll_job_at_app self l x k :
  sv_payload_jobs self = l ++ x :: k ->
  exists k', sv_payload_jobs (poll_job_at self (length l)) = l ++ k' /\
    k' ≡ₚ option_list (after_poll x) ++ k /\
    sv_generator (poll_job_at self (length l)) = sv_generator self.
Proof.
  intros E. unfold poll_job_at. rewrite E.
  destruct (swap_remove_app l x k) as (k' & -> & Hk). destruct x as [job id]. unfold after_poll. simpl.
  destruct (job_poll job) as [[[u|e]|] job']; simpl.
  - by exists k'.
  - by exists k'.
  - exists (k' ++ [(job', id)]). rewrite app_assoc. split_and!; [done| |done].
    rewrite Hk. by rewrite Permutation_app_comm.
Qed.

Lemma poll_jobs_below_app l self k :
  sv_payload_jobs self = l ++ k ->
  sv_payload_jobs (poll_jobs_below (length l) self) ≡ₚ omap after_poll l ++ k.
Proof.
  revert self k. induction l as [|x l IH] using rev_ind; intros self k E.
  - simpl in *. by rewrite E.
  - rewrite length_app, Nat.add_comm. simpl poll_jobs_below. rewrite <- app_assoc in E. simpl in E.
    destruct (poll_job_at_app self l x k E) as (k' & E' & Hk & _).
    rewrite (IH _ _ E'), Hk, omap_app, <- app_assoc. f_equiv. simpl.
    destruct (after_poll x); done.
Qed.

(** polling polls every job exactly once: afterwards the service holds, in some
    order, exactly the jobs that are still pending, as their poll left them. *)
Theorem poll_jobs_once (self : PayloadBuilderService) :
  sv_payload_jobs (poll_jobs self) ≡ₚ omap after_poll (sv_payload_jobs self).
Proof.
  unfold poll_jobs. rewrite (poll_jobs_below_app (sv_payload_jobs self) self []) by by rewrite app_nil_r.
  by rewrite app_nil_r.
Qed.

(** every payload has at most one job *)
Definition unique_jobs (self : PayloadBuilderService) : Prop := NoDup (sv_payload_jobs self).*2.

Lemma after_poll_ids l : (omap after_poll l).*2 `sublist_of` l.*2.
Proof.
  induction l as [|x l IH]; [constructor|]. csimpl. unfold after_poll at 1.
  destruct (job_poll x.1) as [[r|] job]; csimpl; [by apply sublist_cons|by apply sublist_skip].
Qed.

Lemma poll_jobs_unique self : unique_jobs self -> unique_jobs (poll_jobs self).
Proof.
  unfold unique_jobs. intros H.
  rewrite (fmap_Permutation snd _ _ (poll_jobs_once self)).
  by eapply sublist_NoDup; [|apply after_poll_ids].
Qed.

Lemma resolve_jobs self id :
  unique_jobs self ->
  let '(self', r) := resolve self id in
  (forall j, (j, id) ∈ sv_payload_jobs self -> exists fut, r = Some fut) /\
  ((forall j, (j, id) ∉ sv_payload_jobs self) -> self' = self /\ r = None) /\
  (sv_payload_jobs self').*2 `sublist_of` (sv_payload_jobs self).*2 /\
  (forall j id', id' <> id -> (j, id') ∈ sv_payload_jobs self' <-> (j, id') ∈ sv_payload_jobs self) /\
  (forall j j', (j, id) ∈ sv_payload_jobs self -> (job_resolve j).1.2 = false -> (j', id) ∉ sv_payload_jobs self').
Proof.
  intros Hu. unfold resolve. destruct (list_find _ _) as [[pos [job jid]]|] eqn:Hf.
  - apply list_find_Some in Hf as (Hl & Hid & _). simpl in Hid. subst jid.
    destruct (job_resolve job) as [[fut keep] job'] eqn:Hr.
    assert (Hsplit : exists l k, sv_payload_jobs self = l ++ (job, id) :: k /\ length l = pos).
    { exists (take pos (sv_payload_jobs self)), (drop (S pos) (sv_payload_jobs self)).
      split; [by rewrite take_drop_middle|]. apply length_take_le. apply lookup_lt_Some in Hl. lia. }
    destruct Hsplit as (l & k & E & <-). unfold unique_jobs in Hu. rewrite E in Hu |- *.
    rewrite fmap_app, fmap_cons in Hu. simpl in Hu. apply NoDup_app in Hu as (_ & Hlk & Hk).
    assert (Hnl : forall j, (j, id) ∉ l).
    { intros j Hj. apply (Hlk id); [by apply (list_elem_of_fmap_2 snd _ (j, id))|left]. }
    assert (Hnk : forall j, (j, id) ∉ k).
    { intros j Hj. apply NoDup_cons in Hk as [Hk _]. apply Hk. by apply (list_elem_of_fmap_2 snd _ (j, id)). }
    destruct keep; simpl.
    + rewrite insert_app_r_alt, Nat.sub_diag by lia. simpl. split_and!; [by eauto| | | |].
      * intros H. exfalso. apply (H job). set_solver.
      * rewrite !fmap_app, !fmap_cons. done.
      * intros j id' Hne. rewrite !elem_of_app, !elem_of_cons. naive_solver.
      * intros j j' Hj Hkeep. exfalso.
        apply elem_of_app in Hj as [Hj|[[= ->]|Hj]%elem_of_cons]; [by apply (Hnl j)| |by apply (Hnk j)].
        by rewrite Hr in Hkeep.
    + rewrite delete_middle. split_and!; [by eauto| | | |].
      * intros H. exfalso. apply (H job). set_solver.
      * rewrite !fmap_app, fmap_cons. apply sublist_app; [done|by apply sublist_cons].
      * intros j id' Hne. rewrite !elem_of_app, elem_of_cons. naive_solver.
      * intros j j' _ _ [Hj|Hj]%elem_of_app; [by apply (Hnl j')|by apply (Hnk j')].
  - apply list_find_None in Hf. rewrite Forall_forall in Hf.
    assert (Hno : forall j, (j, id) ∉ sv_payload_jobs self) by (intros j Hj; by apply (Hf _ Hj)).
    split_and!; [intros j Hj; by destruct (Hno j)|done|done|done|]. intros j j' Hj. by destruct (Hno j).
Qed.

Lemma contains_payload_spec self id :
  contains_payload self id = true <-> id ∈ (sv_payload_jobs self).*2.
Proof.
  unfold contains_payload. rewrite existsb_exists, list_elem_of_fmap. split.
  - intros (x & Hx & He%Z.eqb_eq). exists x. split; [done|by apply list_elem_of_In].
  - intros (x & -> & Hx). exists x. split; [by apply list_elem_of_In|apply Z.eqb_refl].
Qed.

Lemma on_command_unique self cmd : unique_jobs self -> unique_jobs (on_command self cmd).1.1.
Proof.
  intros Hu. destruct cmd as [config|id|id|id]; simpl; [|done|done|].
  - destruct (contains_payload self _) eqn:Hc; [done|].
    destruct (new_payload_job _ _) as [job|e]; [|done]. unfold unique_jobs in *. simpl.
    rewrite fmap_app. apply NoDup_app. split_and!; [done| |apply NoDup_singleton].
    intros id Hid ->%list_elem_of_singleton. apply contains_payload_spec in Hid. simpl in Hid. congruence.
  - pose proof (resolve_jobs self id Hu) as H. destruct (resolve self id) as [self' r]. simpl.
    destruct H as (_ & _ & Hs & _). by eapply sublist_NoDup.
Qed.

Lemma on_commands_unique self cmds : unique_jobs self -> unique_jobs (on_commands self cmds).1.1.
Proof.
  revert self. induction cmds as [|cmd cmds IH]; intros self Hu; [done|]. simpl.
  pose proof (on_command_unique self cmd Hu) as H1. destruct (on_command self cmd) as [[this r] n1].
  specialize (IH this H1). destruct (on_commands this cmds) as [[this' rs] n2]. done.
Qed.

(** C16: whatever the commands, a payload never has two jobs. *)
Theorem service_jobs_unique (self : PayloadBuilderService)
    (batches : list (list PayloadServiceCommand)) :
  unique_jobs self -> unique_jobs (service_poll self batches).1.
Proof.
  revert self. induction batches as [|cmds batches IH]; intros self Hu; simpl; [by apply poll_jobs_unique|].
  pose proof (on_commands_unique _ cmds (poll_jobs_unique self Hu)) as H1.
  destruct (on_commands (poll_jobs self) cmds) as [[this rs] new_job]. destruct new_job; [|done].
  specialize (IH this H1). destruct (service_poll this batches). done.
Qed.

(** resolving a payload answers exactly when the payload has a job, ends that
    job unless it asks to live on, and leaves every other job alone. *)
Theorem resolve_correct (self : PayloadBuilderService) (id : Z) :
  unique_jobs self ->
  let '(self', r) := resolve self id in
  (r = None <-> contains_payload self id = false) /\
  (forall j id', id' <> id -> (j, id') ∈ sv_payload_jobs self' <-> (j, id') ∈ sv_payload_jobs self) /\
  (forall j, (j, id) ∈ sv_payload_jobs self -> (job_resolve j).1.2 = false ->
     contains_payload self' id = false).
Proof.
  intros Hu. pose proof (resolve_jobs self id Hu) as H. destruct (resolve self id) as [self' r].
  destruct H as (H1 & H2 & _ & H4 & H5).
  assert (Hc : forall s, contains_payload s id = false <-> forall j, (j, id) ∉ sv_payload_jobs s).
  { intros s. rewrite <- not_true_iff_false, contains_payload_spec, list_elem_of_fmap. split.
    - intros Hn j Hj. apply Hn. by exists (j, id).
    - intros Hn ([j i] & -> & Hj). by apply (Hn j). }
  split_and!; [|done|].
  - rewrite Hc. split.
    + intros -> j Hj. by destruct (H1 j Hj).
    + intros Hn. by apply H2.
  - intros j Hj Hk. apply Hc. intros j'. by eapply H5.
Qed.
End ServiceProofs.

(** ** Evaluation on concrete inputs *)

Import Demo.

(** a job that finishes after as many polls as its number *)
#[export] Instance demo_generator : PayloadJobGenerator := {|
  Job := nat;
  PayloadFuture := unit;
  job_poll j := match j with O => (Ready (Ok tt), O) | S j => (Pending, j) end;
  job_best_payload _ := Err ChannelClosed;
  job_payload_attributes _ := Ok demo_attributes;
  job_resolve j := (tt, false, j);
  Generator := nat;
  new_payload_job g c := Ok g;
|}.

Definition demo_service : PayloadBuilderService :=
  set_jobs (PayloadBuilderService_new (2%nat : Generator))
    [((0%nat : Job), 7); ((3%nat : Job), 8); ((1%nat : Job), 9)].

Lemma demo_service_unique : unique_jobs demo_service.
Proof. apply (bool_decide_eq_true_1 _). kernel_refl. Qed.

Lemma service_jobs_unique_witness :
  unique_jobs (service_poll demo_service [[BuildNewPayload demo_config; BuildNewPayload demo_config]]).1 /\
  (sv_payload_jobs (service_poll demo_service [[BuildNewPayload demo_config; BuildNewPayload demo_config]]).1).*2
    = [1; 8].
Proof. split; [|kernel_refl]. apply service_jobs_unique, demo_service_unique. Defined.

Lemma resolve_correct_witness :
  contains_payload (resolve demo_service 8).1 8 = false /\ (resolve demo_service 8).2 = Some tt.
Proof.
  split; [|kernel_refl].
  destruct (resolve demo_service 8) as [s r] eqn:E.
  pose proof (resolve_correct demo_service 8 demo_service_unique) as H. rewrite E in H.
  apply (proj2 (proj2 H) 3%nat); [|reflexivity]. right. left.
Defined.
