(* ===== verification/Logs.v ===== *)
(** * Log lines

    The texts that name a build in the logs: [to_log] and the [Debug] implementations of
    build configurations, build states, builds and the commands of the payload service
    ([crates/primitives/src/payload.rs], [build/mod.rs],
    [crates/payload/src/strategy/state/mod.rs], [service/mod.rs]); and the macros of
    [crates/primitives/src/build/log.rs], which give an event the fields of its
    context. *)

From Stdlib Require Import Ascii.
From stdpp Require Import prelude list strings pretty.
From S2P Require Import Prelude Numerals Types Bundle BundlePool Validator Chain Payload SimState State PayloadService.

Open Scope Z_scope.
Open Scope string_scope.

(** The texts of the libraries' types: the eight bytes of a build's identifier and of a
    payload's, and the sender of a oneshot channel. *)
Class LogText := {
  b64_debug : Z -> string;
  b64_display : Z -> string;
  payload_id_debug : Z -> string;
  payload_id_display : Z -> string;
  oneshot_sender_debug : string;
}.

Section Texts.
Context `{EV : Evm} `{LT : LogText}.

(** ** [BuildId]: derived [Debug], and [Display] *)

Definition build_id_debug (id : Z) : string := "BuildId(" +:+ b64_debug id +:+ ")".

Definition build_id_display (id : Z) : string := b64_display id.

(** ** [to_log] and [Debug] *)

Definition BuildConfig_to_log (self : BuildConfig) : string :=
  "slot = " +:+ pretty (bc_slot self) +:+ ", block_number = " +:+ pretty (bc_block_number self).

Definition BuildConfig_debug (self : BuildConfig) : string :=
  " slot = " +:+ pretty (bc_slot self) +:+ ", block_number = " +:+ pretty (bc_block_number self).

Definition BuildState_to_log (self : BuildState) : string :=
  "build_id = " +:+ build_id_debug (bs_id self) +:+ ", slot = " +:+ pretty (bc_slot (bs_build_config self)) +:+
  ", block_number = " +:+ pretty (bc_block_number (bs_build_config self)).

Definition BuildState_debug (self : BuildState) : string :=
  "build_id = " +:+ build_id_debug (bs_id self) +:+ ", slot = " +:+ pretty (bc_slot (bs_build_config self)) +:+
  ", block_number = " +:+ pretty (bc_block_number (bs_build_config self)).

Definition Build_debug (self : Build) : string :=
  let '(block_number, timestamp) := as_block_number_and_ts self in
  let slot := vi_slot (b_validator_info self) in
  "build_id = " +:+ build_id_debug (b_id self) +:+ ", timestamp = " +:+ pretty timestamp +:+
  ", slot = " +:+ pretty slot +:+ ", block_number = " +:+ pretty block_number.

(** ** Commands *)

(** [debug_tuple(name).field(..).finish()] *)
Definition debug_tuple (name : string) (fields : list string) : string :=
  name +:+ "(" +:+ String.concat ", " fields +:+ ")".

Definition command_debug (self : PayloadServiceCommand) : string :=
  match self with
  | BuildNewPayload f0 => debug_tuple "BuildNewPayload" [BuildConfig_debug f0; oneshot_sender_debug]
  | BestPayload f0 => debug_tuple "BestPayload" [payload_id_debug f0; oneshot_sender_debug]
  | PayloadAttributesCmd f0 => debug_tuple "PayloadAttributes" [payload_id_debug f0; oneshot_sender_debug]
  | Resolve f0 => debug_tuple "Resolve" [payload_id_debug f0]
  end.
End Texts.

(** ** [log.rs] *)

Inductive Level := TRACE | DEBUG | INFO | WARN | ERROR.

(** an event of the [tracing] library, its fields as they print *)
Record LogEvent := {
  le_level : Level;
  le_target : string;
  le_fields : list (string * string);
}.

(** what the macros ask of a context, and of a build *)
Class LogContext (C : Type) := {
  ctx_id : C -> Z;
  ctx_timestamp : C -> Z;
  ctx_slot : C -> Z;
  ctx_block_number : C -> Z;
}.

Class LogBuild (B C : Type) := {
  build_context : B -> C;
  build_log_id : B -> Z;
}.

Section Macros.
Context `{LT : LogText} {C : Type} `{LogContext C}.

(** the fields of a context, and then those of the call *)
Definition context_event (level : Level) (target : string) (context : C) (tts : list (string * string)) : LogEvent := {|
  le_level := level;
  le_target := target;
  le_fields :=
    [("id", payload_id_display (ctx_id context)); ("ts", pretty (ctx_timestamp context));
     ("slot", pretty (ctx_slot context)); ("block", pretty (ctx_block_number context))] ++ tts;
|}.

Definition context_trace := context_event TRACE.
Definition context_debug := context_event DEBUG.
Definition context_info := context_event INFO.
Definition context_warn := context_event WARN.
Definition context_error := context_event ERROR.

Context {B : Type} `{LogBuild B C}.

Abbreviation build_fields build tts := (("build_id", build_id_display (build_log_id build)) :: tts).

Definition build_trace (target : string) (build : B) (tts : list (string * string)) : LogEvent :=
  context_trace target (build_context build) (build_fields build tts).
Definition build_debug (target : string) (build : B) (tts : list (string * string)) : LogEvent :=
  context_debug target (build_context build) (build_fields build tts).
Definition build_info (target : string) (build : B) (tts : list (string * string)) : LogEvent :=
  context_info target (build_context build) (build_fields build tts).
Definition build_warn (target : string) (build : B) (tts : list (string * string)) : LogEvent :=
  context_warn target (build_context build) (build_fields build tts).
Definition build_error (target : string) (build : B) (tts : list (string * string)) : LogEvent :=
  context_error target (build_context build) (build_fields build tts).
End Macros.

(** ** Properties: a log line tells builds apart *)

Fixpoint has_char (c : ascii) (s : string) : bool :=
  match s with EmptyString => false | String d s => Ascii.eqb c d || has_char c s end.

(** text up to the first separator *)
Lemma split_at_char c s1 s2 r1 r2 :
  has_char c s1 = false -> has_char c s2 = false ->
  s1 +:+ String c r1 = s2 +:+ String c r2 -> s1 = s2 /\ r1 = r2.
Proof.
  revert s2. induction s1 as [|a s1 IH]; intros [|b s2] H1 H2; simpl in *.
  - by intros [= <-].
  - intros [= -> _]. by rewrite Ascii.eqb_refl in H2.
  - intros [= <- _]. by rewrite Ascii.eqb_refl in H1.
  - intros [= <- E]. apply orb_false_iff in H1 as [_ H1], H2 as [_ H2]. by destruct (IH s2 H1 H2 E) as [-> ->].
Qed.

Lemma parse_digits_no_comma s acc x : parse_digits acc s = Some x -> has_char "," s = false.
Proof.
  revert acc. induction s as [|a s IH]; intros acc; [done|]. cbn [parse_digits has_char].
  intros (d & Hd & (y & _ & (z & _ & Hp)%bind_Some)%bind_Some)%bind_Some.
  rewrite (IH _ Hp), orb_false_r. apply Ascii.eqb_neq. intros <-. discriminate Hd.
Qed.

Lemma pretty_no_comma x : 0 <= x < 2 ^ 64 -> has_char "," (pretty x) = false.
Proof.
  intros Hx%u64_from_pretty. revert Hx. generalize (pretty x). intros [|a s]; [done|]. unfold u64_from_str.
  destruct (decide (a = "+"%char)) as [->|Ha].
  - destruct s as [|b s]; [done|]. intros Hp%parse_digits_no_comma. exact Hp.
  - intros Hp. eapply parse_digits_no_comma. destruct a as [[] [] [] [] [] [] [] []]; try exact Hp; by destruct Ha.
Qed.

Lemma pretty_u64_inj x y : 0 <= x < 2 ^ 64 -> 0 <= y < 2 ^ 64 -> pretty x = pretty y -> x = y.
Proof. intros Hx%u64_from_pretty Hy%u64_from_pretty E. rewrite E, Hy in Hx. by injection Hx as ->. Qed.

Lemma append_inj s r1 r2 : s +:+ r1 = s +:+ r2 -> r1 = r2.
Proof. induction s as [|a s IH]; [done|]. simpl. intros [= E]. by apply IH. Qed.

(** the text after a slot has its block *)
Lemma slot_and_block s1 b1 s2 b2 :
  is_u64 s1 -> is_u64 s2 -> is_u64 b1 -> is_u64 b2 ->
  pretty s1 +:+ ", block_number = " +:+ pretty b1 = pretty s2 +:+ ", block_number = " +:+ pretty b2 ->
  s1 = s2 /\ b1 = b2.
Proof.
  intros Hs1 Hs2 Hb1 Hb2 E. apply split_at_char in E as [E1 E2]; [|by apply pretty_no_comma..].
  split; [by apply pretty_u64_inj|]. apply pretty_u64_inj; [done..|]. exact (append_inj " block_number = " _ _ E2).
Qed.

Lemma to_log_injective `{EV : Evm} (c1 c2 : BuildConfig) :
  is_u64 (bc_slot c1) -> is_u64 (bc_slot c2) -> is_u64 (bc_block_number c1) -> is_u64 (bc_block_number c2) ->
  BuildConfig_to_log c1 = BuildConfig_to_log c2 ->
  bc_slot c1 = bc_slot c2 /\ bc_block_number c1 = bc_block_number c2.
Proof. intros H1 H2 H3 H4 E. apply slot_and_block; try done. exact (append_inj "slot = " _ _ E). Qed.

(** a line of a build is a line of its context with the build's name among its fields *)
Lemma build_line_names_build `{LT : LogText} `{LC : LogContext C} `{LB : !LogBuild B C} (target : string) (build : B)
    (tts : list (string * string)) :
  Forall (fun e => le_target e = target /\
      le_fields e = (le_fields (context_event TRACE target (build_context build) []) ++
                     ("build_id", build_id_display (build_log_id build)) :: tts)%list)
    [build_trace target build tts; build_debug target build tts; build_info target build tts;
     build_warn target build tts; build_error target build tts].
Proof. by repeat constructor. Qed.
