(* ===== verification/Clock.v ===== *)
(** * The network clock

    Models [crates/consensus_layer/src/clock.rs]: slots and their times.  The
    current time, in nanoseconds, is an argument of the operations that read it. *)

From stdpp Require Import prelude strings pretty.
From S2P Require Import Prelude.

Open Scope Z_scope.

Definition MAINNET_GENESIS_TS : Z := 1606824023.
Definition HOLESKY_GENESIS_TS : Z := 1695902100.
Definition SECONDS_PER_SLOT : Z := 12.

Inductive NetworkClockErr :=
| UnsupportedChain (chain : Z)
| DevnetGenesis.

(** its messages *)
Definition clock_err_to_string (e : NetworkClockErr) : string :=
  match e with
  | UnsupportedChain chain => "Unsupported chain: " ++ pretty chain
  | DevnetGenesis => "Could not read devnet genesis file"
  end%string.

(** Both in nanoseconds. *)
Record NetworkClock := {
  genesis_ts : Z;
  seconds_per_slot : Z;
}.

Definition NetworkClock_new (genesis seconds : Z) : NetworkClock :=
  {| genesis_ts := genesis * 1000000000; seconds_per_slot := seconds * 1000000000 |}.

(** [u64::try_from(..).expect(..)] *)
Definition expect_u64 {E} (x : Z) : run E Z :=
  if (0 <=? x) && (x <? 2 ^ 64) then Done x else Panicked.

Definition u128_wrap (x : Z) : Z := x mod 2 ^ 128.

Definition current_slot (self : NetworkClock) (current_time : Z) : run Empty_set (option Z) :=
  if current_time <? genesis_ts self then mret None
  else
    slot ← expect_u64 ((current_time - genesis_ts self) / seconds_per_slot self);
    mret (Some slot).

Definition slot_timestamp_nanos (self : NetworkClock) (slot : Z) : Z :=
  u128_wrap (slot * seconds_per_slot self + genesis_ts self).

Definition slot_timestamp (self : NetworkClock) (slot : Z) : Z :=
  u64_wrap (slot_timestamp_nanos self slot / 1000000000).

(** the duration, in nanoseconds, until a slot; none has passed when it began *)
Definition time_until_slot (self : NetworkClock) (current_time slot : Z) : run Empty_set Z :=
  let target := slot_timestamp_nanos self slot in
  if target <? current_time then mret 0 else expect_u64 (target - current_time).

(** [i128] division truncates towards zero *)
Definition time_until_slot_signed_ms (self : NetworkClock) (current_time slot : Z) : Z :=
  Z.quot (slot_timestamp_nanos self slot - current_time) 1000000.

(** the time [slot_deadline] sleeps, in nanoseconds *)
Definition slot_deadline (self : NetworkClock) (current_time target_slot deadline : Z)
  : run Empty_set Z :=
  slot_auction_ends ← time_until_slot self current_time target_slot;
  mret (if slot_auction_ends <? deadline then 0 else slot_auction_ends - deadline).

(** [try_from_chain]: chains by their identifier; the genesis of the devnet is
    read from a file *)
Definition try_from_chain (chain : Z) (devnet_genesis_ts : result NetworkClockErr Z)
  : result NetworkClockErr NetworkClock :=
  args ← (if chain =? 1 then Ok (MAINNET_GENESIS_TS, SECONDS_PER_SLOT)
          else if chain =? 17000 then Ok (HOLESKY_GENESIS_TS, SECONDS_PER_SLOT)
          else if chain =? 32382 then ts ← devnet_genesis_ts; Ok (ts, SECONDS_PER_SLOT)
          else Err (UnsupportedChain chain));
  mret (NetworkClock_new args.1 args.2).

(** ** Properties *)

Lemma slot_nanos_small g s slot :
  is_u64 g -> 0 < s < 2 ^ 20 -> 0 <= slot < 2 ^ 64 ->
  slot_timestamp_nanos (NetworkClock_new g s) slot = (slot * s + g) * 1000000000.
Proof.
  unfold is_u64. intros Hg Hs Hslot. unfold slot_timestamp_nanos, u128_wrap. simpl.
  assert (0 <= slot * s < 2 ^ 84) by nia. rewrite Z.mod_small by lia. lia.
Qed.

(** C40: the slot at a time is the one that has begun and whose successor has not;
    the clock's timestamp of a slot is exact, and is a time of that slot. *)
Theorem clock_slots_partition_time (g s t : Z) :
  is_u64 g -> 0 < s < 2 ^ 20 -> 0 <= t < 2 ^ 80 ->
  let clock := NetworkClock_new g s in
  match current_slot clock t with
  | Done (Some slot) =>
      slot_timestamp_nanos clock slot <= t < slot_timestamp_nanos clock (slot + 1) /\
      current_slot clock (slot_timestamp_nanos clock slot) = Done (Some slot) /\
      slot_timestamp clock slot = u64_wrap (g + s * slot) /\
      exists d, time_until_slot clock t (slot + 1) = Done d /\ 0 < d <= s * 1000000000
  | Done None => t < g * 1000000000
  | _ => False
  end.
Proof.
  intros Hg Hs Ht clock. unfold current_slot at 1.
  destruct (Z.ltb_spec t (genesis_ts clock)) as [|Hge]; [done|]. simpl in Hge.
  set (q := (t - genesis_ts clock) / seconds_per_slot clock).
  assert (Hq : q = (t - g * 1000000000) / (s * 1000000000)) by done.
  unfold is_u64 in Hg.
  pose proof (Z.mul_div_le (t - g * 1000000000) (s * 1000000000) ltac:(lia)) as Hlo.
  pose proof (Z.mul_succ_div_gt (t - g * 1000000000) (s * 1000000000) ltac:(lia)) as Hhi.
  rewrite <- Hq in Hlo, Hhi.
  assert (Hq0 : 0 <= q) by (rewrite Hq; apply Z.div_pos; lia).
  assert (Hq1 : q < 2 ^ 63) by (rewrite Hq; apply Z.div_lt_upper_bound; lia).
  unfold expect_u64. destruct (Z.leb_spec 0 q); [|lia]. destruct (Z.ltb_spec q (2 ^ 64)); [|lia].
  cbn [andb mbind run_bind mret run_ret].
  assert (Hn : slot_timestamp_nanos clock q = (q * s + g) * 1000000000)
    by (apply slot_nanos_small; unfold is_u64; lia).
  assert (Hn1 : slot_timestamp_nanos clock (q + 1) = ((q + 1) * s + g) * 1000000000)
    by (apply slot_nanos_small; unfold is_u64; lia).
  split_and!.
  - rewrite Hn. lia.
  - rewrite Hn1. lia.
  - unfold current_slot. rewrite Hn. simpl.
    destruct (Z.ltb_spec ((q * s + g) * 1000000000) (g * 1000000000)); [nia|].
    replace ((q * s + g) * 1000000000 - g * 1000000000) with (q * (s * 1000000000)) by lia.
    rewrite Z.div_mul by lia. unfold expect_u64.
    destruct (Z.leb_spec 0 q); [|lia]. destruct (Z.ltb_spec q (2 ^ 64)); [|lia]. done.
  - unfold slot_timestamp. rewrite Hn, Z.div_mul by lia. f_equal. lia.
  - unfold time_until_slot. cbv zeta. rewrite Hn1.
    destruct (Z.ltb_spec (((q + 1) * s + g) * 1000000000) t); [lia|].
    unfold expect_u64.
    destruct (Z.leb_spec 0 (((q + 1) * s + g) * 1000000000 - t)); [|lia].
    destruct (Z.ltb_spec (((q + 1) * s + g) * 1000000000 - t) (2 ^ 64)); [|lia].
    eexists. split; [done|lia].
Qed.

Lemma clock_slots_partition_time_witness :
  current_slot (NetworkClock_new MAINNET_GENESIS_TS SECONDS_PER_SLOT) 1700000000000000000
    = Done (Some 7764664) /\
  slot_timestamp_nanos (NetworkClock_new MAINNET_GENESIS_TS SECONDS_PER_SLOT) 7764664
    <= 1700000000000000000.
Proof.
  split; [reflexivity|].
  pose proof (clock_slots_partition_time MAINNET_GENESIS_TS SECONDS_PER_SLOT 1700000000000000000) as H.
  unfold MAINNET_GENESIS_TS, SECONDS_PER_SLOT in H.
  specialize (H ltac:(unfold is_u64; lia) ltac:(lia) ltac:(lia)).
  destruct H as ((H & _) & _). exact H.
Defined.
