(* ===== verification/RelayCache.v ===== *)
(** * The cache of the internal relay

    Models [RelayBidCache] of [crates/relay/src/internal_relay.rs]: the bids of
    the last blocks, and the queries of the relay's handlers. *)

From stdpp Require Import prelude list gmap.
From S2P Require Import Prelude Types Bundle Validator Chain Payload SimState DemoEvm State StateFacts Policy Bid Bidder.

Open Scope Z_scope.

Definition MAX_CACHE_BLOCK_SIZE : Z := 4.

Section Cache.
Context `{EV : Evm} `{BL : !Bls}.

Record RelayBidCache := {
  rb_last_block : Z;
  rb_cache : gmap Z (list (SignedBid * BidTrace));
}.

Definition RelayBidCache_default : RelayBidCache := {| rb_last_block := 0; rb_cache := ∅ |}.

(** [resize]: drops the blocks that have expired *)
Definition cache_resize (self : RelayBidCache) : RelayBidCache :=
  if rb_last_block self <? MAX_CACHE_BLOCK_SIZE then self
  else
    {| rb_last_block := rb_last_block self;
       rb_cache := filter (fun kv => ~ kv.1 <= rb_last_block self - MAX_CACHE_BLOCK_SIZE) (rb_cache self) |}.

(** [insert]: [now_ms] is the clock the trace is stamped with *)
Definition cache_insert (self : RelayBidCache) (now_ms : Z) (bid : SignedBid) : RelayBidCache :=
  let block_number := signed_bid_block_number bid in
  let trace := to_trace now_ms bid in
  let cache :=
    match rb_cache self !! block_number with
    | None => <[block_number := [(bid, trace)]]> (rb_cache self)
    | Some bids => <[block_number := bids ++ [(bid, trace)]]> (rb_cache self)
    end in
  cache_resize {| rb_last_block := Z.max (rb_last_block self) block_number; rb_cache := cache |}.

Definition get_all_bids (self : RelayBidCache) (block_number : Z)
  : option (list (SignedBid * BidTrace)) :=
  rb_cache self !! block_number.

Definition get_best_bid (self : RelayBidCache) (block_number timestamp : Z) : option SignedBid :=
  match get_all_bids self block_number with
  | Some bids =>
      fst <$> max_by_key (fun bt => bid_value (sbd_message bt.1))
                (filter (fun bt => bt_timestamp_ms bt.2 < timestamp) bids)
  | None => None
  end.

(** [get_bid_traces_handler]: none is a rejection *)
Definition get_bid_traces (self : RelayBidCache) (block_number : Z) : option (list BidTrace) :=
  (fun bids => bids.*2) <$> get_all_bids self block_number.

Definition cache_run (l : list (Z * SignedBid)) : RelayBidCache :=
  foldl (fun c x => cache_insert c x.1 x.2) RelayBidCache_default l.
End Cache.

(** ** Properties *)

Section CacheProofs.
Context `{EV : Evm} `{BL : !Bls}.

(** Specification: the bids received for a block, in order, and the highest
    block seen. *)
Definition bids_for (l : list (Z * SignedBid)) (bn : Z) : list (SignedBid * BidTrace) :=
  (fun x => (x.2, to_trace x.1 x.2)) <$> filter (fun x => signed_bid_block_number x.2 = bn) l.

Definition highest_block (l : list (Z * SignedBid)) : Z :=
  foldl (fun n x => Z.max n (signed_bid_block_number x.2)) 0 l.

Definition live (l : list (Z * SignedBid)) (bn : Z) : Prop :=
  highest_block l < 4 \/ highest_block l - 4 < bn.

Lemma cache_last l : rb_last_block (cache_run l) = highest_block l.
Proof.
  induction l as [|x l IH] using rev_ind; [done|].
  unfold cache_run, highest_block in *. rewrite !foldl_app. simpl. rewrite <- IH.
  unfold cache_insert, cache_resize. simpl. by case_match.
Qed.

Lemma cache_insert_lookup c now bid bn :
  rb_cache (cache_insert c now bid) !! bn =
  (if decide (Z.max (rb_last_block c) (signed_bid_block_number bid) < 4 \/
              Z.max (rb_last_block c) (signed_bid_block_number bid) - 4 < bn)
   then if decide (signed_bid_block_number bid = bn)
        then Some (default [] (rb_cache c !! bn) ++ [(bid, to_trace now bid)])
        else rb_cache c !! bn
   else None).
Proof.
  unfold cache_insert, cache_resize, MAX_CACHE_BLOCK_SIZE. simpl.
  set (n := Z.max _ _). 
  set (m := match rb_cache c !! signed_bid_block_number bid with
            | Some bids => <[signed_bid_block_number bid := bids ++ [(bid, to_trace now bid)]]> (rb_cache c)
            | None => <[signed_bid_block_number bid := [(bid, to_trace now bid)]]> (rb_cache c)
            end).
  assert (Hm : m !! bn = if decide (signed_bid_block_number bid = bn)
        then Some (default [] (rb_cache c !! bn) ++ [(bid, to_trace now bid)])
        else rb_cache c !! bn).
  { unfold m. case_decide as E.
    - subst bn. destruct (rb_cache c !! signed_bid_block_number bid); by rewrite lookup_insert_eq.
    - destruct (rb_cache c !! signed_bid_block_number bid); by rewrite lookup_insert_ne. }
  rewrite <- Hm. clearbody m. destruct (Z.ltb_spec n 4); simpl.
  - rewrite decide_True by lia. done.
  - rewrite map_lookup_filter. destruct (m !! bn) as [x|]; simpl.
    + case_guard as Hg; [rewrite decide_True by lia; done|rewrite decide_False by lia; done].
    + clear Hm. by case_decide.
Qed.

Lemma highest_block_app l x :
  highest_block (l ++ [x]) = Z.max (highest_block l) (signed_bid_block_number x.2).
Proof. unfold highest_block. by rewrite foldl_app. Qed.

Lemma cached_or_default {A} (P : Prop) `{Decision P} (l : list A) :
  P -> default [] (if decide (P /\ l <> []) then Some l else None) = l.
Proof. intros HP. case_decide as E; [done|]. simpl. destruct l; naive_solver. Qed.

Lemma cache_lookup l bn :
  rb_cache (cache_run l) !! bn =
  (if decide (live l bn /\ bids_for l bn <> []) then Some (bids_for l bn) else None).
Proof.
  induction l as [|[now bid] l IH] using rev_ind.
  - rewrite decide_False; [done|]. by intros [_ ?].
  - unfold cache_run. rewrite foldl_app. simpl. fold (cache_run l).
    rewrite cache_insert_lookup, cache_last, IH.
    assert (Hb : bids_for (l ++ [(now, bid)]) bn = bids_for l bn ++
      (if decide (signed_bid_block_number bid = bn) then [(bid, to_trace now bid)] else [])).
    { unfold bids_for. rewrite filter_app, fmap_app. f_equal. rewrite filter_cons, filter_nil. simpl.
      by destruct (decide (signed_bid_block_number bid = bn)). }
    rewrite Hb. unfold live. rewrite highest_block_app. simpl.
    destruct (decide (Z.max (highest_block l) (signed_bid_block_number bid) < 4 \/
                      Z.max (highest_block l) (signed_bid_block_number bid) - 4 < bn)) as [Hl|Hl].
    + unfold live in IH. rewrite (cached_or_default (highest_block l < 4 \/ highest_block l - 4 < bn) (bids_for l bn)) by lia.
      destruct (decide (signed_bid_block_number bid = bn)) as [E|E].
      * rewrite decide_True; [done|]. split; [done|]. by destruct (bids_for l bn).
      * rewrite app_nil_r. apply decide_ext. split; (intros [_ ?]; split; [lia|done]).
    + rewrite decide_False; [done|]. by intros [? _].
Qed.

(** C12: the cache holds exactly the bids of the last four blocks: all the bids sent
    for a block that is at most three below the highest seen, in order, and
    nothing of any earlier block. *)
Theorem cache_holds_recent_bids (l : list (Z * SignedBid)) (bn : Z) :
  get_all_bids (cache_run l) bn =
  (if decide (live l bn /\ bids_for l bn <> []) then Some (bids_for l bn) else None).
Proof. apply cache_lookup. Qed.

(** the best bid of a block at a time is the most valuable of the recent bids
    received before that time, and there is none only if none was. *)
Theorem best_bid_correct (l : list (Z * SignedBid)) (bn ts : Z) :
  live l bn ->
  match get_best_bid (cache_run l) bn ts with
  | Some b =>
      (exists now, (now, b) ∈ l /\ now < ts /\ signed_bid_block_number b = bn) /\
      forall now b', (now, b') ∈ l -> now < ts -> signed_bid_block_number b' = bn ->
        bid_value (sbd_message b') <= bid_value (sbd_message b)
  | None => forall now b', (now, b') ∈ l -> now < ts -> signed_bid_block_number b' <> bn
  end.
Proof.
  intros Hlive. unfold get_best_bid, get_all_bids. rewrite cache_lookup.
  assert (Hin : forall b t, (b, t) ∈ bids_for l bn <->
    exists now, (now, b) ∈ l /\ signed_bid_block_number b = bn /\ t = to_trace now b).
  { intros b t. unfold bids_for. rewrite list_elem_of_fmap. split.
    - intros ([now b'] & [= -> ->] & [Hbn Hx]%list_elem_of_filter). by exists now.
    - intros (now & Hx & Hbn & ->). exists (now, b). split; [done|]. by apply list_elem_of_filter. }
  case_decide as E.
  - destruct (max_by_key _ _) as [[b t]|] eqn:M; simpl.
    + apply max_by_key_Some in M as [Hm Hmax]. apply list_elem_of_filter in Hm as [Ht Hm].
      apply Hin in Hm as (now & Hx & Hbn & ->). split; [by exists now|].
      intros now' b' Hx' Ht' Hbn'. apply (Hmax (b', to_trace now' b')).
      apply list_elem_of_filter. split; [done|]. apply Hin. by exists now'.
    + apply max_by_key_None in M. intros now b' Hx Ht Hbn.
      assert ((b', to_trace now b') ∈ filter (fun bt => bt_timestamp_ms bt.2 < ts) (bids_for l bn)) as Hf.
      { apply list_elem_of_filter. split; [done|]. apply Hin. by exists now. }
      rewrite M in Hf. by apply not_elem_of_nil in Hf.
  - intros now b' Hx Ht Hbn. apply E. split; [done|]. intros Hnil.
    assert ((b', to_trace now b') ∈ bids_for l bn) as Hf by (apply Hin; by exists now).
    rewrite Hnil in Hf. by apply not_elem_of_nil in Hf.
Qed.
End CacheProofs.

(** ** Evaluation on concrete inputs *)

Import Demo.

Definition demo_inserts : list (Z * SignedBid) := [(10, demo_signed_bid); (11, demo_signed_bid)].

Lemma demo_live : live demo_inserts 42.
Proof. right. apply Z.ltb_lt. kernel_refl. Qed.

Lemma best_bid_correct_witness :
  bool_decide (is_Some (get_best_bid (cache_run demo_inserts) 42 11)) = true /\
  match get_best_bid (cache_run demo_inserts) 42 11 with
  | Some b => exists now, (now, b) ∈ demo_inserts /\ now < 11
  | None => False
  end.
Proof.
  assert (bool_decide (is_Some (get_best_bid (cache_run demo_inserts) 42 11)) = true) as Hb by kernel_refl.
  split; [exact Hb|]. pose proof (best_bid_correct demo_inserts 42 11 demo_live) as H.
  destruct (get_best_bid _ _ _).
  - destruct H as [(now & H1 & H2 & _) _]. by exists now.
  - discriminate Hb.
Defined.
