(* ===== verification/Job.v ===== *)
(** * Build jobs

    Models [crates/payload/src/job/stream_job.rs], [interval_job.rs],
    [build_utils.rs] and [metrics.rs], and the generator of
    [crates/payload/src/generator/mod.rs]: the futures that keep one building
    task in flight, as state machines over their polls.  A task is the closure
    that is spawned; what it finds when it runs, and what its channel delivers,
    are inputs. *)

From stdpp Require Import prelude list gmap strings.
From Stdlib Require Import Sorting.Sorted.
From S2P Require Import Prelude Types Bundle BundlePool Validator Chain Payload Ofac SimState DemoEvm State StateFacts Strategies StratFacts.

Open Scope Z_scope.

(** What the receiving end of a oneshot channel reads: an error when the sender
    was dropped, as it is when the task panics. *)
Inductive RecvError := ChannelDropped.
Abbreviation received T := (result RecvError (result PayloadBuilderError T)).

Section Job.
Context `{BT : BestTransactions} `{RR : !ReceiptRoots} `{ER : ErrorText}.

(** ** Tasks *)

(** [Cancelled]: a shared flag; nothing in the program stores to it. *)
Record Cancelled := { cancelled_flag : bool }.
Definition Cancelled_default : Cancelled := {| cancelled_flag := false |}.
Definition is_cancelled (self : Cancelled) : bool := cancelled_flag self.

(** What the closure of [spawn_blocking] captures of the job. *)
Record BuildTask := {
  tk_cached_reads : CachedReads;
  tk_build_config : BuildConfig;
  tk_cancel : Cancelled;
  tk_best_build : option BuildState;
  tk_strategy : Strategy;
}.

(** What the task finds when it runs: the contents of the stores its handles
    share, the random identifier and the clock, the lock of the bundle pool. *)
Record TaskEnv := {
  te_client : Client;
  te_pool : TxPool;
  te_bundle_pool : BundlePool;
  te_id : Z;
  te_now : Z;
  te_locked : bool;
}.

Definition task_args (t : BuildTask) (e : TaskEnv) : BuildArguments :=
  {| ba_client := te_client e; ba_pool := te_pool e; ba_bundle_pool := te_bundle_pool e;
     ba_cached_reads := tk_cached_reads t; ba_build_config := tk_build_config t;
     ba_cancel := fun _ => is_cancelled (tk_cancel t); ba_best_build := tk_best_build t;
     ba_id := te_id e; ba_now := te_now e; ba_locked := te_locked e |}.

(** [strategy.try_build(args)] *)
Definition run_task (fuel : nat) (t : BuildTask) (e : TaskEnv)
  : option (run PayloadBuilderError BuildOutcome) :=
  try_build fuel (tk_strategy t) (task_args t e).

(** [From<oneshot::error::RecvError>]: the library's conversion *)
Definition recv_error_into (e : RecvError) : PayloadBuilderError := ChannelClosed.

(** [res.map_err(Into::into).and_then(|res| res)] *)
Definition flatten_received {T} (r : received T) : result PayloadBuilderError T :=
  match r with Ok res => res | Err e => Err (recv_error_into e) end.

(** [PendingBuild::poll] *)
Definition pending_build_poll (rx : poll (received BuildOutcome))
  : poll (result PayloadBuilderError BuildOutcome) :=
  match rx with Ready r => Ready (flatten_received r) | Pending => Pending end.

(** the result a run of the task sends *)
Definition sent_by (fuel : nat) (t : BuildTask) (e : TaskEnv) : option (received BuildOutcome) :=
  match run_task fuel t e with
  | Some (Done o) => Some (Ok (Ok o))
  | Some (Fail err) => Some (Ok (Err err))
  | Some Panicked => Some (Err ChannelDropped)
  | None => None
  end.

(** The channel of a task delivers nothing but what a run of the task sends. *)
Definition delivers (t : BuildTask) (rx : poll (received BuildOutcome)) : Prop :=
  forall r, rx = Ready r -> r = Err ChannelDropped \/ exists fuel e, sent_by fuel t e = Some r.

Record PayloadBuilderMetrics := {
  pm_initiated_payload_builds : Z;
  pm_successful_payload_builds : Z;
  pm_failed_payload_builds : Z;
}.

Definition metrics_default : PayloadBuilderMetrics :=
  {| pm_initiated_payload_builds := 0; pm_successful_payload_builds := 0;
     pm_failed_payload_builds := 0 |}.

Definition inc_initiated_payload_builds (m : PayloadBuilderMetrics) : PayloadBuilderMetrics :=
  {| pm_initiated_payload_builds := pm_initiated_payload_builds m + 1;
     pm_successful_payload_builds := pm_successful_payload_builds m;
     pm_failed_payload_builds := pm_failed_payload_builds m |}.
Definition inc_successful_payload_builds (m : PayloadBuilderMetrics) : PayloadBuilderMetrics :=
  {| pm_initiated_payload_builds := pm_initiated_payload_builds m;
     pm_successful_payload_builds := pm_successful_payload_builds m + 1;
     pm_failed_payload_builds := pm_failed_payload_builds m |}.
Definition inc_failed_payload_builds (m : PayloadBuilderMetrics) : PayloadBuilderMetrics :=
  {| pm_initiated_payload_builds := pm_initiated_payload_builds m;
     pm_successful_payload_builds := pm_successful_payload_builds m;
     pm_failed_payload_builds := pm_failed_payload_builds m + 1 |}.

(** ** The fields both jobs have *)

Record BuildJob := {
  bj_build_config : BuildConfig;
  bj_best_build : option BuildState;
  bj_pending_build : option BuildTask;
  bj_cached_reads : option CachedReads;
  bj_metrics : PayloadBuilderMetrics;
  bj_strategy : Strategy;
}.

Definition job_new (strategy : Strategy) (build_config : BuildConfig) : BuildJob :=
  {| bj_build_config := build_config; bj_best_build := None; bj_pending_build := None;
     bj_cached_reads := None; bj_metrics := metrics_default; bj_strategy := strategy |}.

Definition set_pending (self : BuildJob) (p : option BuildTask) : BuildJob :=
  {| bj_build_config := bj_build_config self; bj_best_build := bj_best_build self;
     bj_pending_build := p; bj_cached_reads := bj_cached_reads self;
     bj_metrics := bj_metrics self; bj_strategy := bj_strategy self |}.
Definition set_best (self : BuildJob) (b : option BuildState) : BuildJob :=
  {| bj_build_config := bj_build_config self; bj_best_build := b;
     bj_pending_build := bj_pending_build self; bj_cached_reads := bj_cached_reads self;
     bj_metrics := bj_metrics self; bj_strategy := bj_strategy self |}.
Definition set_cached_reads (self : BuildJob) (r : option CachedReads) : BuildJob :=
  {| bj_build_config := bj_build_config self; bj_best_build := bj_best_build self;
     bj_pending_build := bj_pending_build self; bj_cached_reads := r;
     bj_metrics := bj_metrics self; bj_strategy := bj_strategy self |}.
Definition upd_metrics (f : PayloadBuilderMetrics -> PayloadBuilderMetrics) (self : BuildJob) : BuildJob :=
  {| bj_build_config := bj_build_config self; bj_best_build := bj_best_build self;
     bj_pending_build := bj_pending_build self; bj_cached_reads := bj_cached_reads self;
     bj_metrics := f (bj_metrics self); bj_strategy := bj_strategy self |}.

(** What a poll does besides changing the job, in order. *)
Inductive JobEffect :=
| RegisterDeadline
| RegisterInterval
| SpawnTask (t : BuildTask)
| MakeBid (build_state : BuildState)
| RegisterBuild
| ResetInterval
| WakeSelf.

(** [if this.pending_build.is_none()]: the new task takes the cached reads *)
Definition new_task (self : BuildJob) : BuildTask :=
  {| tk_cached_reads := default cached_reads_default (bj_cached_reads self);
     tk_build_config := bj_build_config self; tk_cancel := Cancelled_default;
     tk_best_build := bj_best_build self; tk_strategy := bj_strategy self |}.

Definition start_build (self : BuildJob) : BuildJob * list JobEffect :=
  match bj_pending_build self with
  | Some _ => (self, [])
  | None =>
      let task := new_task self in
      let this := upd_metrics inc_initiated_payload_builds self in
      (set_pending (set_cached_reads this None) (Some task), [SpawnTask task])
  end.

(** ** The stream job *)

Record StreamPoll := {
  sp_deadline : bool;
  sp_build : poll (received BuildOutcome);
}.

(** [match fut.poll_unpin(cx)], the pending build having been taken *)
Definition stream_on_build (self : BuildJob) (fut : BuildTask)
    (res : poll (result PayloadBuilderError BuildOutcome))
  : run Empty_set (BuildJob * list JobEffect) :=
  match res with
  | Ready (Ok (Better build_state cached_reads)) =>
      let this := upd_metrics inc_successful_payload_builds self in
      let this := set_best (set_cached_reads this (Some cached_reads)) (Some build_state) in
      Done (this, [MakeBid build_state; WakeSelf])
  | Ready (Ok (Aborted _ cached_reads)) => Done (set_cached_reads self (Some cached_reads), [WakeSelf])
  | Ready (Ok CancelledOutcome) => Panicked
  | Ready (Err _) => Done (upd_metrics inc_failed_payload_builds self, [])
  | Pending => Done (set_pending self (Some fut), [RegisterBuild])
  end.

(** [StreamBuildJob::poll] *)
Definition stream_poll (self : BuildJob) (i : StreamPoll)
  : run Empty_set (BuildJob * poll (result PayloadBuilderError unit) * list JobEffect) :=
  if sp_deadline i then Done (self, Ready (Ok tt), [])
  else
    let '(this, spawned) := start_build self in
    match bj_pending_build this with
    | Some fut =>
        res ← stream_on_build (set_pending this None) fut (pending_build_poll (sp_build i));
        mret (res.1, Pending, RegisterDeadline :: spawned ++ res.2)
    | None => Done (this, Pending, RegisterDeadline :: spawned)
    end.

(** [best_payload], [payload_attributes] and [resolve] are [unimplemented!()] *)
Definition stream_best_payload (self : BuildJob) : run PayloadBuilderError Build := Panicked.
Definition stream_payload_attributes (self : BuildJob) : run PayloadBuilderError PayloadAttributes :=
  Panicked.
Definition stream_resolve (self : BuildJob) : run Empty_set unit := Panicked.

(** ** The generator of stream jobs *)

(** [JobGeneratorConfig]: durations in milliseconds *)
Record JobGeneratorConfig := {
  jc_interval : Z;
  jc_deadline : Z;
  jc_max_payload_tasks : Z;
  jc_payload_config : PayloadConfig;
}.

(** the setters *)
Definition jc_set_interval (self : JobGeneratorConfig) (interval : Z) : JobGeneratorConfig :=
  {| jc_interval := interval; jc_deadline := jc_deadline self;
     jc_max_payload_tasks := jc_max_payload_tasks self; jc_payload_config := jc_payload_config self |}.

Definition jc_set_deadline (self : JobGeneratorConfig) (deadline : Z) : JobGeneratorConfig :=
  {| jc_interval := jc_interval self; jc_deadline := deadline;
     jc_max_payload_tasks := jc_max_payload_tasks self; jc_payload_config := jc_payload_config self |}.

Definition jc_set_payload_config (self : JobGeneratorConfig) (payload_config : PayloadConfig) : JobGeneratorConfig :=
  {| jc_interval := jc_interval self; jc_deadline := jc_deadline self;
     jc_max_payload_tasks := jc_max_payload_tasks self; jc_payload_config := payload_config |}.

(** [max_payload_tasks]: an assertion *)
Definition jc_set_max_payload_tasks (self : JobGeneratorConfig) (n : Z) : option JobGeneratorConfig :=
  if 0 <? n then
    Some {| jc_interval := jc_interval self; jc_deadline := jc_deadline self;
            jc_max_payload_tasks := n; jc_payload_config := jc_payload_config self |}
  else None.

(** [impl Default]: the payload configuration's default is an input *)
Definition JobGeneratorConfig_default (payload_config : PayloadConfig) : JobGeneratorConfig :=
  {| jc_interval := 1000; jc_deadline := 12000; jc_max_payload_tasks := 3;
     jc_payload_config := payload_config |}.

(** [new_payload_job]: the job, and the time of its deadline *)
Definition stream_new_payload_job (config : JobGeneratorConfig) (now : Z) (build_config : BuildConfig)
  : result PayloadBuilderError (BuildJob * Z) :=
  Ok (job_new (BundlesStrat (jc_payload_config config)) build_config, now + jc_deadline config).

(** ** The interval job *)

(** [ip_ticks] ticks are ready before the interval is pending again. *)
Record IntervalPoll := {
  ip_deadline : bool;
  ip_ticks : nat;
  ip_build : poll (received BuildOutcome);
}.

(** [while this.interval.poll_tick(cx).is_ready()] *)
Fixpoint interval_ticks (n : nat) (self : BuildJob) : BuildJob * list JobEffect :=
  match n with
  | O => (self, [RegisterInterval])
  | S n =>
      let '(this, spawned) := start_build self in
      let '(this, rest) := interval_ticks n this in
      (this, spawned ++ rest)
  end.

Definition interval_on_build (self : BuildJob) (fut : BuildTask)
    (res : poll (result PayloadBuilderError BuildOutcome))
  : run Empty_set (BuildJob * list JobEffect) :=
  match res with
  | Ready (Ok outcome) =>
      let this := upd_metrics inc_successful_payload_builds self in
      match outcome with
      | Better build_state cached_reads =>
          Done (set_best (set_cached_reads this (Some cached_reads)) (Some build_state), [ResetInterval])
      | Aborted _ cached_reads => Done (set_cached_reads this (Some cached_reads), [ResetInterval])
      | CancelledOutcome => Panicked
      end
  | Ready (Err _) => Done (upd_metrics inc_failed_payload_builds self, [])
  | Pending => Done (set_pending self (Some fut), [RegisterBuild])
  end.

(** [IntervalBuildJob::poll] *)
Definition interval_poll (self : BuildJob) (i : IntervalPoll)
  : run Empty_set (BuildJob * poll (result PayloadBuilderError unit) * list JobEffect) :=
  if ip_deadline i then Done (self, Ready (Ok tt), [])
  else
    let '(this, spawned) := interval_ticks (ip_ticks i) self in
    match bj_pending_build this with
    | Some fut =>
        res ← interval_on_build (set_pending this None) fut (pending_build_poll (ip_build i));
        mret (res.1, Pending, RegisterDeadline :: spawned ++ res.2)
    | None => Done (this, Pending, RegisterDeadline :: spawned)
    end.

(** the arguments of an empty payload *)
Definition empty_args (build_config : BuildConfig) (e : TaskEnv) : BuildArguments :=
  {| ba_client := te_client e; ba_pool := te_pool e; ba_bundle_pool := te_bundle_pool e;
     ba_cached_reads := cached_reads_default; ba_build_config := build_config;
     ba_cancel := fun _ => is_cancelled Cancelled_default; ba_best_build := None;
     ba_id := te_id e; ba_now := te_now e; ba_locked := te_locked e |}.

(** [best_payload]: the stores at the time of the call are an input, the
    configuration of [EmptyStrat::default()] is *)
Definition interval_best_payload (default_config : PayloadConfig) (self : BuildJob) (e : TaskEnv)
  : run PayloadBuilderError Build :=
  match bj_best_build self with
  | Some best_build => into_empty_build best_build (te_client e) (te_pool e)
  | None => build_empty_payload default_config (empty_args (bj_build_config self) e)
  end.

Definition interval_payload_attributes (self : BuildJob) : result PayloadBuilderError PayloadAttributes :=
  Ok (bc_attributes (bj_build_config self)).

(** [ResolveBestPayload]: [rb_empty_payload] is the configuration the spawned
    task builds an empty payload for. *)
Record ResolveBestPayload := {
  rb_best_payload : option Build;
  rb_maybe_better : option BuildTask;
  rb_empty_payload : option BuildConfig;
}.

(** [ResolveBestPayload::poll]; [expect] panics when there is neither *)
Definition resolve_poll (self : ResolveBestPayload) (rx : poll (received Build))
  : run Empty_set (ResolveBestPayload * poll (result PayloadBuilderError Build)) :=
  match rb_best_payload self with
  | Some best =>
      Done ({| rb_best_payload := None; rb_maybe_better := rb_maybe_better self;
               rb_empty_payload := rb_empty_payload self |}, Ready (Ok best))
  | None =>
      match rb_empty_payload self with
      | None => Panicked
      | Some empty_payload =>
          match rx with
          | Ready r =>
              Done ({| rb_best_payload := None; rb_maybe_better := rb_maybe_better self;
                       rb_empty_payload := None |}, Ready (flatten_received r))
          | Pending => Done (self, Pending)
          end
      end
  end.

(** [resolve]: the future, whether to keep the job alive ([KeepPayloadJobAlive::No]), the
    job *)
Definition interval_resolve (self : BuildJob) (e : TaskEnv)
  : run Empty_set (ResolveBestPayload * bool * BuildJob) :=
  let this := set_best self None in
  best_build ←
    match bj_best_build self with
    | Some build_state =>
        match into_empty_build build_state (te_client e) (te_pool e) with
        | Done build => Done (Some build)
        | Fail _ => Done None
        | Panicked => Panicked
        end
    | None => Done None
    end;
  mret ({| rb_best_payload := best_build; rb_maybe_better := None;
           rb_empty_payload :=
             match best_build with None => Some (bj_build_config self) | Some _ => None end |},
        false, this).

(** the task spawned by [resolve] *)
Definition empty_payload_task (default_config : PayloadConfig) (build_config : BuildConfig) (e : TaskEnv)
  : run PayloadBuilderError Build :=
  build_empty_payload default_config (empty_args build_config e).
End Job.

(** ** What a task can send *)

Section TaskFacts.
Context `{BT : BestTransactions} `{RR : !ReceiptRoots} `{ER : ErrorText}.

#[export] Instance same_config_preorder : PreOrder same_config.
Proof.
  split; [by repeat split|].
  intros s1 s2 s3 (H1 & H2 & H3) (H4 & H5 & H6). repeat split; congruence.
Qed.

Lemma execute_transaction_config st db t st' db' :
  execute_transaction st db t = Done (st', db') -> same_config st st'.
Proof.
  intros (s & _ & Hcm & _)%execute_skip_Done. pose proof (commit_config st db [s]). by rewrite <- Hcm in *.
Qed.

Lemma execute_bundle_config st db b st' db' :
  execute_bundle st db b = Done (st', db') -> same_config st st'.
Proof.
  intros (sb & _ & _ & Hcm)%execute_bundle_Done.
  pose proof (commit_config st db (sm_simulated_txs sb)). by rewrite <- Hcm in *.
Qed.

Lemma commit_selected_config st db c bs : same_config st (commit_selected_bundles st db c bs).1.1.
Proof.
  revert st db c. induction bs as [|sb bs IH]; intros st db c; simpl; [done|].
  destruct (contains_ofac sb); [done|]. destruct (contains_committed_transaction sb c); [done|].
  destruct (execute_bundle st db (sm_bundle sb)) as [[st' db']|e|] eqn:He; [|by destruct e|done].
  etrans; [by eapply execute_bundle_config|done].
Qed.

Lemma on_tx_error_stop best t e x : on_tx_error best t e = StopWith x -> x = ExecFailed.
Proof. destruct e as [| |[h| |e|[[|k]|k|e|m]]|e|k|a|m]; simpl; congruence. Qed.

(** how a loop whose flag is never set can end *)
Definition not_cancelled (r : loop_end) : Prop := r <> Stopped JobCancelled.

Lemma execute_txs_quiet fuel cancel n st db best :
  (forall n, cancel n = false) ->
  let '(st', _, r) := execute_txs fuel cancel n st db best in same_config st st' /\ not_cancelled r.
Proof.
  intros Hc. revert n st db best. induction fuel as [|fuel IH]; intros n st db best; [done|]. simpl.
  destruct (best_next best) as [[pt best']|]; [|done]. rewrite Hc. destruct (ofac_tx _); [apply IH|].
  destruct (execute_transaction st db _) as [[st' db']|e|] eqn:He; [| |done].
  - specialize (IH (S n) st' db' best'). destruct (execute_txs _ _ _ _ _ _) as [[s d] r].
    destruct IH as [H1 H2]. split; [|done]. etrans; [by eapply execute_transaction_config|done].
  - destruct (on_tx_error best' pt e) as [b|x|] eqn:Ht; [apply IH| |done].
    apply on_tx_error_stop in Ht as ->. done.
Qed.

Lemma execute_mempool_quiet fuel cancel n st db c best :
  (forall n, cancel n = false) ->
  let '(st', _, _, r) := execute_mempool_txs fuel cancel n st db c best in
  same_config st st' /\ not_cancelled r.
Proof.
  intros Hc. revert n st db c best. induction fuel as [|fuel IH]; intros n st db c best; [done|]. simpl.
  destruct (best_next best) as [[pt best']|]; [|done]. rewrite Hc. destruct (ofac_tx _); [apply IH|].
  case_bool_decide; [apply IH|].
  destruct (execute_transaction st db _) as [[st' db']|e|] eqn:He; [| |done].
  - specialize (IH (S n) st' db' ({[tx_hash (to_recovered_transaction pt)]} ∪ c) best').
    destruct (execute_mempool_txs _ _ _ _ _ _ _) as [[[s d] c'] r].
    destruct IH as [H1 H2]. split; [|done]. etrans; [by eapply execute_transaction_config|done].
  - destruct (on_tx_error best' pt e) as [b|x|] eqn:Ht; [apply IH| |done].
    apply on_tx_error_stop in Ht as ->. done.
Qed.

(** a strategy that compares its result with the best build so far *)
Definition selective (s : Strategy) : bool :=
  match s with EmptyStrat _ => false | _ => true end.

(** what a build inherits from its arguments *)
Definition build_of (s : Strategy) (c : BuildConfig) (st : BuildState) : Prop :=
  bs_build_config st = block_env_with_coinbase c (pc_builder_address (strategy_config s)) /\
  bs_payload_config st = strategy_config s.

Lemma compare_with_best_outcome config args st db :
  same_config (BuildState_new (ba_id args) (ba_build_config args) config (ba_now args)) st ->
  match compare_with_best st db (ba_best_build args) with
  | Better st' _ =>
      bs_build_config st' = block_env_with_coinbase (ba_build_config args) (pc_builder_address config) /\
      bs_payload_config st' = config /\ best_value args < block_value st'
  | Aborted _ _ => True
  | CancelledOutcome => False
  end.
Proof.
  intros (_ & H2 & H3). destruct (compare_with_best st db (ba_best_build args)) as [st' r|v r|] eqn:E; [|done|].
  - apply compare_with_best_Better in E as [-> Hv]. split_and!; [exact H3|exact H2|exact Hv].
  - unfold compare_with_best in E. cbv zeta in E. by destruct (_ <=? _).
Qed.

(** Whatever a task finds, a better build it sends is of its configuration, and
    worth more than the best build it was given; it is never cancelled. *)
Lemma try_build_outcome fuel s args o :
  (forall n, ba_cancel args n = false) -> try_build fuel s args = Some (Done o) ->
  match o with
  | Better st _ =>
      build_of s (ba_build_config args) st /\
      (selective s = true -> best_value args < block_value st)
  | Aborted _ _ => True
  | CancelledOutcome => False
  end.
Proof.
  intros Hc. destruct s as [config|config|config]; simpl; intros H.
  - injection H as H. unfold empty_try_build in H. run_inv. apply begin_block_Done in Hr0. subst o.
    rewrite Hr0. repeat split. done.
  - unfold mempool_try_build in H.
    destruct (mbind _ _) as [[best [st1 db1]]| |] eqn:Hb in H; [|done|done].
    run_inv. simplify_eq/=. apply begin_block_Done in Hr1. simpl in Hr1. subst st1.
    set (st0 := BuildState_new _ _ _ _) in *.
    pose proof (execute_txs_quiet fuel (ba_cancel args) 0 st0 db1 best Hc) as Hq.
    destruct (execute_txs _ _ _ _ _ _) as [[st2 db2] []]; try done; destruct Hq as [Hq Hn].
    + injection H as <-. pose proof (compare_with_best_outcome config args st2 db2 Hq) as Ho.
      destruct (compare_with_best _ _ _); [|done|done]. destruct Ho as (? & ? & ?). done.
    + destruct e; [by destruct Hn|]. by injection H as <-.
  - unfold bundles_try_build in H.
    destruct (mbind _ _) as [[[best start] processed]| |] eqn:Hb in H; [|done|done].
    run_inv. destruct start as [st1 db1]. simplify_eq/=.
    apply begin_block_Done in Hr1. simpl in Hr1. subst st1.
    set (st0 := BuildState_new _ _ _ _) in *.
    pose proof (commit_selected_config st0 db1 ∅ processed) as Hs.
    destruct (commit_selected_bundles _ _ _ _) as [[st2 db2] [c|e|]]; [|done|done]. simpl in Hs.
    pose proof (execute_mempool_quiet fuel (ba_cancel args) 0 st2 db2 c best Hc) as Hq.
    destruct (execute_mempool_txs _ _ _ _ _ _ _) as [[[st3 db3] c3] []]; try done; destruct Hq as [Hq Hn].
    + injection H as <-.
      pose proof (compare_with_best_outcome config args st3 db3 (transitivity Hs Hq)) as Ho.
      destruct (compare_with_best _ _ _); [|done|done]. destruct Ho as (? & ? & ?). done.
    + destruct e; [by destruct Hn|]. by injection H as <-.
Qed.

(** a task as the jobs make them *)
Definition task_ok (job : BuildJob) (t : BuildTask) : Prop :=
  tk_cancel t = Cancelled_default /\ tk_build_config t = bj_build_config job /\
  tk_strategy t = bj_strategy job.

Definition task_best_value (t : BuildTask) : Z :=
  match tk_best_build t with Some best => block_value best | None => 0 end.

(** what the channel of such a task delivers *)
Lemma delivers_outcome job t rx o :
  task_ok job t -> delivers t rx -> pending_build_poll rx = Ready (Ok o) ->
  match o with
  | Better st _ =>
      build_of (bj_strategy job) (bj_build_config job) st /\
      (selective (bj_strategy job) = true -> task_best_value t < block_value st)
  | Aborted _ _ => True
  | CancelledOutcome => False
  end.
Proof.
  intros (Hc & Hb & Hs) Hd Hp. destruct rx as [r|]; [|done]. simpl in Hp.
  destruct (Hd r eq_refl) as [->|(fuel & e & Hsent)]; [done|].
  unfold sent_by, run_task in Hsent.
  destruct (try_build _ _ _) as [[o'|err|]|] eqn:Ht; try done; injection Hsent as <-; [|done|done].
  simpl in Hp. injection Hp as ->.
  apply try_build_outcome in Ht; [|intros n; simpl; by rewrite Hc].
  rewrite <- Hs, <- Hb. exact Ht.
Qed.
End TaskFacts.

(** ** The jobs as transition systems *)

Section JobProofs.
Context `{BT : BestTransactions} `{RR : !ReceiptRoots} `{ER : ErrorText}.

(** the task whose channel the next poll reads *)
Definition pending_task (job : BuildJob) : BuildTask := default (new_task job) (bj_pending_build job).

Definition bids_of (effs : list JobEffect) : list BuildState :=
  omap (fun e => match e with MakeBid st => Some st | _ => None end) effs.
Definition spawned_by (effs : list JobEffect) : list BuildTask :=
  omap (fun e => match e with SpawnTask t => Some t | _ => None end) effs.

(** The polls of a stream job, with the builds it sent to the bidder so far. *)
Inductive stream_steps (job0 : BuildJob) : BuildJob -> list BuildState -> Prop :=
| stream_start : stream_steps job0 job0 []
| stream_next job bids i job' p effs :
    stream_steps job0 job bids ->
    delivers (pending_task job) (sp_build i) ->
    stream_poll job i = Done (job', p, effs) ->
    stream_steps job0 job' (bids ++ bids_of effs).

(** The polls of an interval job. *)
Inductive interval_steps (job0 : BuildJob) : BuildJob -> Prop :=
| interval_start : interval_steps job0 job0
| interval_next job i job' p effs :
    interval_steps job0 job ->
    delivers (pending_task job) (ip_build i) ->
    interval_poll job i = Done (job', p, effs) ->
    interval_steps job0 job'.

(** What both jobs keep: the configuration, and a pending task that was given
    the best build so far. *)
Record job_ok (s : Strategy) (c : BuildConfig) (job : BuildJob) : Prop := {
  jo_strategy : bj_strategy job = s;
  jo_config : bj_build_config job = c;
  jo_best : forall st, bj_best_build job = Some st -> build_of s c st;
  jo_pending : forall t, bj_pending_build job = Some t ->
    task_ok job t /\ tk_best_build t = bj_best_build job;
}.

Definition job_best_value (job : BuildJob) : Z :=
  match bj_best_build job with Some st => block_value st | None => 0 end.

Lemma job_new_ok s c : job_ok s c (job_new s c).
Proof. by split. Qed.

Lemma pending_task_ok s c job :
  job_ok s c job -> task_ok job (pending_task job) /\ tk_best_build (pending_task job) = bj_best_build job.
Proof.
  intros [_ _ _ Hp]. unfold pending_task. destruct (bj_pending_build job) as [t|]; [by apply Hp|done].
Qed.

Lemma start_build_spec s c job :
  job_ok s c job ->
  let '(job', effs) := start_build job in
  job_ok s c job' /\ bj_pending_build job' = Some (pending_task job) /\
  bj_best_build job' = bj_best_build job /\ bids_of effs = [] /\
  match bj_pending_build job with
  | Some _ => job' = job /\ effs = []
  | None => bj_metrics job' = inc_initiated_payload_builds (bj_metrics job) /\
            effs = [SpawnTask (new_task job)]
  end.
Proof.
  intros Hok. unfold start_build, pending_task. destruct (bj_pending_build job) as [t|] eqn:E.
  - by rewrite E.
  - split_and!; [|done..]. destruct Hok as [H1 H2 H3 _]. split; [done..|]. by intros t [= <-].
Qed.

(** the three ways the result of a task changes a job *)
Lemma job_ok_better s c job st r :
  job_ok s c job -> bj_pending_build job = None -> build_of s c st ->
  job_ok s c (set_best (set_cached_reads job (Some r)) (Some st)).
Proof.
  intros [H1 H2 H3 _] Hn Hb. split; [done|done| |simpl; by rewrite Hn]. by intros st' [= <-].
Qed.

Lemma job_ok_reads s c job r : job_ok s c job -> job_ok s c (set_cached_reads job r).
Proof. by intros []. Qed.

Lemma job_ok_metrics s c job f : job_ok s c job -> job_ok s c (upd_metrics f job).
Proof. by intros []. Qed.

Lemma job_ok_taken s c job : job_ok s c job -> job_ok s c (set_pending job None).
Proof. by intros []. Qed.

Lemma set_pending_id job t :
  bj_pending_build job = Some t -> set_pending (set_pending job None) (Some t) = job.
Proof. destruct job. simpl. by intros ->. Qed.

(** one poll of a stream job whose deadline has not passed *)
Lemma stream_poll_cases s c job i :
  job_ok s c job -> delivers (pending_task job) (sp_build i) -> sp_deadline i = false ->
  exists job' effs, stream_poll job i = Done (job', Pending, effs) /\ job_ok s c job' /\
    match pending_build_poll (sp_build i) with
    | Ready (Ok (Better st _)) =>
        build_of s c st /\ (selective s = true -> job_best_value job < block_value st) /\
        bj_best_build job' = Some st /\ bids_of effs = [st] /\
        pm_successful_payload_builds (bj_metrics job') = pm_successful_payload_builds (bj_metrics job) + 1
    | _ =>
        bj_best_build job' = bj_best_build job /\ bids_of effs = [] /\
        pm_successful_payload_builds (bj_metrics job') = pm_successful_payload_builds (bj_metrics job)
    end.
Proof.
  intros Hok Hd Hdl. unfold stream_poll. rewrite Hdl.
  pose proof (pending_task_ok s c job Hok) as [Hto Htb].
  pose proof (start_build_spec s c job Hok) as Hst.
  destruct (start_build job) as [this spawned]. destruct Hst as (Hok' & Hp & Hb & Hbids & Hm).
  assert (pm_successful_payload_builds (bj_metrics this) = pm_successful_payload_builds (bj_metrics job)) as Hms.
  { destruct (bj_pending_build job); destruct Hm as [Hm _]; by rewrite Hm. }
  rewrite Hp. pose proof (delivers_outcome job (pending_task job) (sp_build i)) as Ho.
  assert (Hbo : forall effs, bids_of (RegisterDeadline :: spawned ++ effs) = bids_of effs).
  { intros effs. unfold bids_of in *. csimpl. by rewrite omap_app, Hbids. }
  destruct (pending_build_poll (sp_build i)) as [[o|e]|]; simpl.
  - specialize (Ho o Hto Hd eq_refl). destruct o as [st r|v r|]; [| |done]; simpl.
    + destruct Ho as [Hbo1 Hbo2]. rewrite (jo_strategy _ _ _ Hok), (jo_config _ _ _ Hok) in *.
      eexists _, _. split; [done|]. split; [by apply job_ok_better; [apply job_ok_metrics, job_ok_taken|..]|].
      rewrite Hbo. simpl. rewrite Hms. split_and!; try done.
      intros Hs. specialize (Hbo2 Hs). unfold task_best_value in Hbo2. by rewrite Htb in Hbo2.
    + eexists _, _. split; [done|]. split; [by apply job_ok_reads, job_ok_taken|]. by rewrite Hbo.
  - eexists _, _. split; [done|]. split; [by apply job_ok_metrics, job_ok_taken|]. by rewrite Hbo.
  - eexists _, _. rewrite set_pending_id by done. split; [done|]. by rewrite Hbo.
Qed.

Lemma StronglySorted_snoc {A} (R : A -> A -> Prop) l x :
  StronglySorted R l -> Forall (fun y => R y x) l -> StronglySorted R (l ++ [x]).
Proof.
  induction 1 as [|y l Hs IH Hy]; intros Hx; simpl; [repeat constructor|].
  inversion Hx; subst. constructor; [by apply IH|]. apply Forall_app; split; [done|by repeat constructor].
Qed.

(** what the builds of a job look like so far *)
Record bids_ok (s : Strategy) (c : BuildConfig) (job : BuildJob) (bids : list BuildState) : Prop := {
  bo_job : job_ok s c job;
  bo_builds : Forall (build_of s c) bids;
  bo_last : bj_best_build job = last bids;
  bo_count : pm_successful_payload_builds (bj_metrics job) = Z.of_nat (length bids);
  bo_sorted : selective s = true -> StronglySorted (fun a b => block_value a < block_value b) bids;
  bo_bound : selective s = true -> Forall (fun a => block_value a <= job_best_value job) bids;
}.

Lemma stream_steps_ok s c job bids : stream_steps (job_new s c) job bids -> bids_ok s c job bids.
Proof.
  induction 1 as [|job bids i job' p effs _ IH Hd Hp].
  { split; [apply job_new_ok|done|done|done|constructor|constructor]. }
  destruct IH as [I1 I2 I3 I4 I5 I6]. destruct (sp_deadline i) eqn:Hdl.
  { unfold stream_poll in Hp. rewrite Hdl in Hp. injection Hp as <- <- <-. by rewrite app_nil_r. }
  destruct (stream_poll_cases s c job i I1 Hd Hdl) as (j & es & Heq & Hok & Hcase).
  rewrite Heq in Hp. injection Hp as <- <- <-.
  destruct (pending_build_poll (sp_build i)) as [[[st r| |]|]|];
    [|(destruct Hcase as (H1 & -> & H3); rewrite app_nil_r; split; try done;
       [congruence|congruence|unfold job_best_value in *; by rewrite H1])..].
  destruct Hcase as (H1 & H2 & H3 & -> & H5). split; [done| | | | |].
  - apply Forall_app; split; [done|by apply Forall_singleton].
  - by rewrite last_snoc.
  - rewrite length_app, H5, I4. simpl. lia.
  - intros Hs. apply StronglySorted_snoc; [by apply I5|].
    eapply Forall_impl; [by apply I6|]. intros a Ha. specialize (H2 Hs). cbv beta in *. lia.
  - intros Hs. specialize (H2 Hs). unfold job_best_value at 1. rewrite H3.
    apply Forall_app; split; [|by apply Forall_singleton].
    eapply Forall_impl; [by apply I6|]. intros a Ha. simpl in *. lia.
Qed.

(** C11: the builds a stream job sends to the bidder are of the job's configuration,
    and each is worth strictly more than the ones before it; the last one is the
    job's best build.  No sequence of polls reaches the unreachable arm. *)
Theorem stream_job_bids_improve (s : Strategy) (c : BuildConfig) (job : BuildJob) (bids : list BuildState) :
  selective s = true -> stream_steps (job_new s c) job bids ->
  Forall (fun st => 0 < block_value st) (take 1 bids) /\
  StronglySorted (fun a b => block_value a < block_value b) bids /\
  Forall (build_of s c) bids /\
  bj_best_build job = last bids /\
  pm_successful_payload_builds (bj_metrics job) = Z.of_nat (length bids) /\
  forall i, delivers (pending_task job) (sp_build i) -> stream_poll job i <> Panicked.
Proof.
  intros Hs Hst. pose proof (stream_steps_ok _ _ _ _ Hst) as [I1 I2 I3 I4 I5 I6].
  split_and!; try auto.
  - clear -Hs Hst. induction Hst as [|job bids i job' p effs Hst IH Hd Hp]; [constructor|].
    destruct bids as [|b bids]; [|done]. simpl.
    pose proof (stream_steps_ok _ _ _ _ Hst) as [I1 _ I3 _ _ _].
    destruct (sp_deadline i) eqn:Hdl.
    { unfold stream_poll in Hp. rewrite Hdl in Hp. injection Hp as <- <- <-. constructor. }
    destruct (stream_poll_cases s c job i I1 Hd Hdl) as (j & es & Heq & Hok & Hcase).
    rewrite Heq in Hp. injection Hp as <- <- <-.
    destruct (pending_build_poll (sp_build i)) as [[[st r| |]|]|];
      [|by destruct Hcase as (_ & -> & _)..].
    destruct Hcase as (_ & H2 & _ & -> & _). specialize (H2 Hs).
    unfold job_best_value in H2. rewrite I3 in H2. by repeat constructor.
  - intros i Hd Hp. destruct (sp_deadline i) eqn:Hdl; [unfold stream_poll in Hp; by rewrite Hdl in Hp|].
    destruct (stream_poll_cases s c job i I1 Hd Hdl) as (j & es & Heq & _). congruence.
Qed.

(** what will poll the job again, other than its deadline *)
Definition wakers (effs : list JobEffect) : list JobEffect :=
  omap (fun e => match e with
    | RegisterBuild | RegisterInterval | WakeSelf => Some e | _ => None end) effs.

(** a stream job that is still pending arranges to be polled again, by its task
    or at once, except when its task failed: then only the deadline will wake it,
    and no task is running. *)
Theorem stream_job_wakeups (job : BuildJob) (i : StreamPoll) (job' : BuildJob)
    (p : poll (result PayloadBuilderError unit)) (effs : list JobEffect) :
  stream_poll job i = Done (job', p, effs) -> sp_deadline i = false ->
  p = Pending /\
  (wakers effs = [] <-> exists e, pending_build_poll (sp_build i) = Ready (Err e)) /\
  (wakers effs = [] -> bj_pending_build job' = None /\
     pm_failed_payload_builds (bj_metrics job') = pm_failed_payload_builds (bj_metrics job) + 1).
Proof.
  unfold stream_poll. intros H Hdl. rewrite Hdl in H.
  assert (Hs : exists this spawned, start_build job = (this, spawned) /\ bj_pending_build this <> None /\
    wakers spawned = [] /\
    pm_failed_payload_builds (bj_metrics this) = pm_failed_payload_builds (bj_metrics job)).
  { unfold start_build. destruct (bj_pending_build job) as [t|] eqn:E; eexists _, _; split; [done| |done|];
      [by rewrite E|done]. }
  destruct Hs as (this & spawned & Heq & Hp & Hw & Hm). rewrite Heq in H.
  destruct (bj_pending_build this) as [fut|]; [|done].
  assert (Hwa : forall l, wakers (RegisterDeadline :: spawned ++ l) = wakers l).
  { intros l. unfold wakers in *. csimpl. by rewrite omap_app, Hw. }
  destruct (pending_build_poll (sp_build i)) as [[[st r|v r|]|e]|]; simpl in H; try done;
    injection H as <- <- <-; rewrite Hwa; simpl; (split; [done|]);
    (split; [split; [try done|by intros [? ?]]|try done]).
  - by eauto.
  - intros _. by rewrite Hm.
Qed.
(** however many ticks are ready, at most one task is started *)
Lemma interval_ticks_spec s c n job :
  job_ok s c job ->
  let '(job', effs) := interval_ticks n job in
  job_ok s c job' /\ bj_best_build job' = bj_best_build job /\
  pending_task job' = pending_task job /\
  ((job' = job /\ spawned_by effs = []) \/
   (bj_pending_build job = None /\ job' = (start_build job).1 /\ spawned_by effs = [new_task job])).
Proof.
  revert job. induction n as [|n IH]; intros job Hok; simpl; [by split_and!; try done; left|].
  pose proof (start_build_spec s c job Hok) as Hst.
  destruct (start_build job) as [this spawned] eqn:Hsb. destruct Hst as (Hok' & Hp & Hb & _ & Hm).
  specialize (IH this Hok'). destruct (interval_ticks n this) as [this' rest].
  destruct IH as (H1 & H2 & H3 & H4). split; [done|]. split; [congruence|].
  split; [rewrite H3; unfold pending_task at 1; by rewrite Hp|].
  assert (Hrest : this' = this /\ spawned_by rest = []).
  { destruct H4 as [?|(Hn & _)]; [done|congruence]. }
  destruct Hrest as [-> Hrest]. unfold spawned_by in *. rewrite omap_app, Hrest, app_nil_r. simpl.
  destruct (bj_pending_build job).
  - left. by destruct Hm as [-> ->].
  - right. by destruct Hm as [_ ->].
Qed.

(** the counters of an interval job account for its tasks *)
Definition metrics_ok (job : BuildJob) : Prop :=
  pm_initiated_payload_builds (bj_metrics job) =
    pm_successful_payload_builds (bj_metrics job) + pm_failed_payload_builds (bj_metrics job) +
    match bj_pending_build job with Some _ => 1 | None => 0 end.

Lemma start_build_metrics job : metrics_ok job -> metrics_ok (start_build job).1.
Proof.
  unfold metrics_ok, start_build. destruct (bj_pending_build job) eqn:E; simpl; [by rewrite E|lia].
Qed.

(** one poll of an interval job *)
Lemma interval_poll_cases s c job i :
  job_ok s c job -> metrics_ok job -> delivers (pending_task job) (ip_build i) ->
  exists job' p effs, interval_poll job i = Done (job', p, effs) /\ job_ok s c job' /\ metrics_ok job' /\
    (bj_best_build job' = bj_best_build job \/
     exists st, bj_best_build job' = Some st /\
       (selective s = true -> job_best_value job < block_value st)) /\
    (length (spawned_by effs) <= 1)%nat.
Proof.
  intros Hok Hmet Hd. unfold interval_poll. destruct (ip_deadline i).
  { eexists _, _, _. split; [done|]. split_and!; try done; [by left|simpl; lia]. }
  pose proof (interval_ticks_spec s c (ip_ticks i) job Hok) as Ht.
  destruct (interval_ticks (ip_ticks i) job) as [this spawned].
  destruct Ht as (Hok' & Hb & Hpt & Hcase).
  assert (Hmet' : metrics_ok this).
  { destruct Hcase as [[-> _]|(_ & -> & _)]; [done|by apply start_build_metrics]. }
  assert (Hlen : forall l, spawned_by l = [] ->
    (length (spawned_by (RegisterDeadline :: spawned ++ l)) <= 1)%nat).
  { intros l Hl. unfold spawned_by in *. csimpl. rewrite omap_app, Hl, app_nil_r.
    destruct Hcase as [[_ ->]|(_ & _ & ->)]; simpl; lia. }
  destruct (bj_pending_build this) as [fut|] eqn:Hpend.
  2: { eexists _, _, _. split; [done|]. split_and!; try done; [by left|].
       rewrite <- (app_nil_r spawned). by apply Hlen. }
  assert (fut = pending_task job) as ->.
  { rewrite <- Hpt. unfold pending_task. by rewrite Hpend. }
  pose proof (pending_task_ok s c job Hok) as [Hto Htb].
  pose proof (delivers_outcome job (pending_task job) (ip_build i)) as Ho.
  assert (Hm : pm_initiated_payload_builds (bj_metrics this) =
    pm_successful_payload_builds (bj_metrics this) + pm_failed_payload_builds (bj_metrics this) + 1).
  { unfold metrics_ok in Hmet'. by rewrite Hpend in Hmet'. }
  destruct (pending_build_poll (ip_build i)) as [[o|e]|]; simpl.
  - specialize (Ho o Hto Hd eq_refl). destruct o as [st r|v r|]; [| |done]; simpl.
    + destruct Ho as [Hbo1 Hbo2]. rewrite (jo_strategy _ _ _ Hok), (jo_config _ _ _ Hok) in *.
      eexists _, _, _. split; [done|]. split_and!.
      * by apply job_ok_better; [apply job_ok_metrics, job_ok_taken|..].
      * unfold metrics_ok. simpl. lia.
      * right. exists st. split; [done|]. intros Hs. specialize (Hbo2 Hs).
        unfold task_best_value in Hbo2. by rewrite Htb in Hbo2.
      * by apply Hlen.
    + eexists _, _, _. split; [done|]. split_and!.
      * by apply job_ok_reads, job_ok_metrics, job_ok_taken.
      * unfold metrics_ok. simpl. lia.
      * by left.
      * by apply Hlen.
  - eexists _, _, _. split; [done|]. split_and!.
    + by apply job_ok_metrics, job_ok_taken.
    + unfold metrics_ok. simpl. lia.
    + by left.
    + by apply Hlen.
  - eexists _, _, _. rewrite set_pending_id by done. split; [done|]. split_and!; try done; [by left|by apply Hlen].
Qed.

Lemma interval_steps_ok s c job :
  interval_steps (job_new s c) job -> job_ok s c job /\ metrics_ok job.
Proof.
  induction 1 as [|job i job' p effs _ [I1 I2] Hd Hp]; [split; [apply job_new_ok|done]|].
  destruct (interval_poll_cases s c job i I1 I2 Hd) as (j & q & es & Heq & H1 & H2 & _).
  rewrite Heq in Hp. by injection Hp as <- <- <-.
Qed.

(** C38: an interval job has at most one task in flight, and its counters say so: every task it
    started has succeeded, has failed or is pending.  A poll never panics, starts
    at most one task, and never replaces the best build by a lesser one. *)
Theorem interval_job_correct (s : Strategy) (c : BuildConfig) (job : BuildJob) (i : IntervalPoll) :
  interval_steps (job_new s c) job -> delivers (pending_task job) (ip_build i) ->
  metrics_ok job /\
  exists job' p effs, interval_poll job i = Done (job', p, effs) /\ metrics_ok job' /\
    (length (spawned_by effs) <= 1)%nat /\
    (selective s = true -> job_best_value job <= job_best_value job').
Proof.
  intros Hst Hd. pose proof (interval_steps_ok s c job Hst) as [H1 H2]. split; [done|].
  destruct (interval_poll_cases s c job i H1 H2 Hd) as (job' & p & effs & Heq & _ & H3 & H4 & H5).
  exists job', p, effs. split_and!; try done. intros Hs. unfold job_best_value at 2.
  destruct H4 as [->|(st & -> & Hv)]; [unfold job_best_value; lia|]. specialize (Hv Hs). lia.
Qed.

(** ** Resolving an interval job *)

Lemma into_empty_build_body st client pool b :
  into_empty_build st client pool = Done b ->
  bl_body (sl_block (bp_block (b_payload b))) = [] /\
  hd_parent_hash (build_header b) = sl_hash (bc_parent_block (bs_build_config st)).
Proof. unfold into_empty_build. intros H. run_inv. by subst b. Qed.

(** a block without transactions on the parent of the configuration *)
Definition empty_block_on (c : BuildConfig) (b : Build) : Prop :=
  bl_body (sl_block (bp_block (b_payload b))) = [] /\
  hd_parent_hash (build_header b) = sl_hash (bc_parent_block c).

Lemma build_of_empty s c st client pool b :
  build_of s c st -> into_empty_build st client pool = Done b -> empty_block_on c b.
Proof. intros [H _] [H1 H2]%into_empty_build_body. split; [done|]. rewrite H2, H. done. Qed.

Lemma build_empty_payload_ok config c e b :
  build_empty_payload config (empty_args c e) = Done b -> empty_block_on c b.
Proof.
  unfold build_empty_payload.
  destruct (empty_try_build config (empty_args c e)) as [o|err|] eqn:He; [|done|done].
  destruct o as [st r|v r|]; [|done|done]. apply build_of_empty with (s := EmptyStrat config).
  eapply (try_build_outcome 0 (EmptyStrat config) (empty_args c e) (Better st r)); [done|].
  simpl. by rewrite He.
Qed.

(** resolving an interval job ends it, and its future never fails to answer: it
    is ready at once with the best build, or waits for the empty payload.  Either way the
    payload handed to the consensus layer is a block without transactions on the
    parent of the slot: a best build serves only to skip the empty task. *)
Theorem interval_resolve_empty (default_config : PayloadConfig) (s : Strategy) (c : BuildConfig)
    (job : BuildJob) (e : TaskEnv) (fut : ResolveBestPayload) (keep : bool) (job' : BuildJob) :
  interval_steps (job_new s c) job -> interval_resolve job e = Done (fut, keep, job') ->
  keep = false /\ bj_best_build job' = None /\ rb_maybe_better fut = None /\
  (rb_best_payload fut = None <-> rb_empty_payload fut <> None) /\
  forall rx, exists fut' r, resolve_poll fut rx = Done (fut', r) /\
    (r = Pending -> fut' = fut /\ rx = Pending) /\
    forall b, r = Ready (Ok b) ->
      (forall b', rx = Ready (Ok (Ok b')) -> exists e', empty_payload_task default_config c e' = Done b') ->
      empty_block_on c b.
Proof.
  intros Hst. pose proof (interval_steps_ok s c job Hst) as [Hok _].
  assert (Hempty : forall rx, exists fut' r,
    resolve_poll {| rb_best_payload := None; rb_maybe_better := None;
                    rb_empty_payload := Some (bj_build_config job) |} rx = Done (fut', r) /\
    (r = Pending -> fut' = {| rb_best_payload := None; rb_maybe_better := None;
                    rb_empty_payload := Some (bj_build_config job) |} /\ rx = Pending) /\
    forall b, r = Ready (Ok b) ->
      (forall b', rx = Ready (Ok (Ok b')) -> exists e', empty_payload_task default_config c e' = Done b') ->
      empty_block_on c b).
  { intros [r|]; unfold resolve_poll; simpl; eexists _, _; (split; [done|]); (split; [done|]); [|done].
    intros b [= Hr] Hd. destruct r as [[b'|]|]; try done. simpl in Hr. injection Hr as ->.
    destruct (Hd b eq_refl) as [e' He']. by eapply build_empty_payload_ok. }
  unfold interval_resolve. destruct (bj_best_build job) as [st|] eqn:Hbest.
  - destruct (into_empty_build st (te_client e) (te_pool e)) as [b|err|] eqn:Hi; [| |done];
      intros [= <- <- <-]; split_and!; try done.
    intros rx. eexists _, _. split; [done|]. split; [done|]. intros b' [= ->] _.
    eapply build_of_empty; [by eapply (jo_best _ _ _ Hok)|done].
  - intros [= <- <- <-]. by split_and!.
Qed.
End JobProofs.

(** ** Evaluation on concrete inputs *)

Import Demo.

Definition demo_job : BuildJob := job_new (BundlesStrat demo_payload_config) demo_config.

(** the stores the task of [demo_job] finds: those of [demo_args1] *)
Definition demo_env : TaskEnv :=
  {| te_client := demo_accounts; te_pool := ba_pool demo_args1;
     te_bundle_pool := ba_bundle_pool demo_args1; te_id := 1; te_now := 0; te_locked := true |}.

Definition demo_received : received BuildOutcome :=
  Ok (Ok (Better demo_outcome.1 demo_outcome.2)).

Lemma sent_by_Done fuel t e o : run_task fuel t e = Some (Done o) -> sent_by fuel t e = Some (Ok (Ok o)).
Proof. unfold sent_by. by intros ->. Qed.

Lemma demo_sent : sent_by 10 (pending_task demo_job) demo_env = Some demo_received.
Proof.
  apply sent_by_Done.
  exact_no_check (better_of_Better (try_build 10 (BundlesStrat demo_payload_config) demo_args1) (eq_refl true)).
Qed.

Lemma demo_delivers : delivers (pending_task demo_job) (Ready demo_received).
Proof. intros r [= <-]. right. exists 10%nat, demo_env. exact demo_sent. Qed.

Lemma demo_stream_steps : exists job, stream_steps demo_job job [demo_outcome.1].
Proof.
  eexists. apply (stream_next demo_job demo_job [] {| sp_deadline := false; sp_build := Ready demo_received |}
    _ Pending [RegisterDeadline; SpawnTask (new_task demo_job); MakeBid demo_outcome.1; WakeSelf]);
    [constructor|exact demo_delivers|reflexivity].
Qed.

Lemma stream_job_bids_improve_witness :
  exists job, stream_steps demo_job job [demo_outcome.1] /\
    bj_best_build job = Some demo_outcome.1 /\ pm_successful_payload_builds (bj_metrics job) = 1 /\
    block_value demo_outcome.1 = 189000.
Proof.
  destruct demo_stream_steps as [job H]. exists job.
  pose proof (stream_job_bids_improve (BundlesStrat demo_payload_config) demo_config job _ eq_refl H)
    as (_ & _ & _ & H1 & H2 & _).
  split; [exact H|]. split; [exact H1|]. split; [exact H2|kernel_refl].
Defined.

(** a poll that finds its task failed leaves nothing to wake the job *)
Lemma stream_job_wakeups_witness :
  exists job' effs,
    stream_poll demo_job {| sp_deadline := false; sp_build := Ready (Ok (Err ChannelClosed)) |}
      = Done (job', Pending, effs) /\ wakers effs = [] /\ bj_pending_build job' = None.
Proof.
  eexists _, _. split; [reflexivity|].
  pose proof (stream_job_wakeups demo_job {| sp_deadline := false; sp_build := Ready (Ok (Err ChannelClosed)) |}
    _ Pending _ eq_refl eq_refl) as (_ & Hw & Hn).
  assert (Hx := proj2 Hw (ex_intro _ ChannelClosed eq_refl)). split; [exact Hx|exact (proj1 (Hn Hx))].
Defined.

Lemma interval_job_correct_witness :
  exists job' p effs, interval_poll demo_job {| ip_deadline := false; ip_ticks := 3; ip_build := Ready demo_received |}
    = Done (job', p, effs) /\ metrics_ok job' /\ (length (spawned_by effs) <= 1)%nat.
Proof.
  destruct (interval_job_correct (BundlesStrat demo_payload_config) demo_config demo_job
    {| ip_deadline := false; ip_ticks := 3; ip_build := Ready demo_received |}
    (interval_start _) demo_delivers) as (_ & job' & p & effs & H1 & H2 & H3 & _).
  exists job', p, effs. split; [exact H1|]. split; [exact H2|exact H3].
Defined.

Lemma interval_resolve_empty_witness :
  exists fut job', interval_resolve demo_job demo_env = Done (fut, false, job') /\
    rb_best_payload fut = None /\ rb_empty_payload fut <> None.
Proof.
  eexists _, _. split; [reflexivity|].
  pose proof (interval_resolve_empty demo_payload_config (BundlesStrat demo_payload_config) demo_config
    demo_job demo_env _ _ _ (interval_start _) eq_refl) as (_ & _ & _ & H & _).
  split; [reflexivity|exact (proj1 H eq_refl)].
Defined.
