(* ===== verification/TaskGuard.v ===== *)
(** * The guard of the build tasks

    Models [PayloadTaskGuard] of [crates/payload/src/job/build_utils.rs] and the
    acquisition at the head of the tasks that jobs spawn
    ([stream_job.rs], [interval_job.rs]): how many builds run at once, and in which order
    the others wait.  The tasks of all the jobs of a generator share one guard. *)

From stdpp Require Import prelude list gmap.
From S2P Require Import Prelude Types Bundle BundlePool Validator Chain Payload Ofac SimState DemoEvm State StateFacts Strategies StratFacts Job.

Open Scope Z_scope.

Section TaskGuard.
Context `{BT : BestTransactions} `{RR : !ReceiptRoots} `{ER : ErrorText}.

(** [PayloadTaskGuard(Arc<Semaphore>)] with the tasks that use it: those spawned that have
    not asked for a permit yet, those in the semaphore's queue, oldest first, those
    that run with a permit, and what the ones that ended have sent. *)
Record PayloadTaskGuard := {
  tg_permits : nat;
  tg_spawned : list BuildTask;
  tg_waiting : list BuildTask;
  tg_running : list BuildTask;
  tg_sent : list (BuildTask * received BuildOutcome);
}.

Definition PayloadTaskGuard_new (max_payload_tasks : nat) : PayloadTaskGuard :=
  {| tg_permits := max_payload_tasks; tg_spawned := []; tg_waiting := []; tg_running := []; tg_sent := [] |}.

(** [spawn_blocking]: the task will run *)
Definition guard_spawn (self : PayloadTaskGuard) (t : BuildTask) : PayloadTaskGuard :=
  {| tg_permits := tg_permits self; tg_spawned := tg_spawned self ++ [t]; tg_waiting := tg_waiting self;
     tg_running := tg_running self; tg_sent := tg_sent self |}.

(** [guard.0.acquire().await] of the [i]-th task: a permit if there is one, or the end of
    the queue *)
Definition guard_acquire (self : PayloadTaskGuard) (i : nat) : option PayloadTaskGuard :=
  t ← tg_spawned self !! i;
  let spawned := delete i (tg_spawned self) in
  match tg_permits self with
  | S permits =>
      Some {| tg_permits := permits; tg_spawned := spawned; tg_waiting := tg_waiting self;
              tg_running := tg_running self ++ [t]; tg_sent := tg_sent self |}
  | O =>
      Some {| tg_permits := 0; tg_spawned := spawned; tg_waiting := tg_waiting self ++ [t];
              tg_running := tg_running self; tg_sent := tg_sent self |}
  end.

(** The [i]-th running task ends: it sends its result ([tx.send], or the sender dropped in a
    panic), and its permit, dropped, goes to the head of the queue or back. *)
Definition guard_finish (fuel : nat) (self : PayloadTaskGuard) (i : nat) (e : TaskEnv) : option PayloadTaskGuard :=
  t ← tg_running self !! i;
  r ← sent_by fuel t e;
  let running := delete i (tg_running self) in
  let sent := tg_sent self ++ [(t, r)] in
  match tg_waiting self with
  | next :: waiting =>
      Some {| tg_permits := tg_permits self; tg_spawned := tg_spawned self; tg_waiting := waiting;
              tg_running := running ++ [next]; tg_sent := sent |}
  | [] =>
      Some {| tg_permits := S (tg_permits self); tg_spawned := tg_spawned self; tg_waiting := [];
              tg_running := running; tg_sent := sent |}
  end.

(** Jobs, the executor and the semaphore interleave in whatever order. *)
Inductive guard_step : PayloadTaskGuard -> PayloadTaskGuard -> Prop :=
| step_spawn self t : guard_step self (guard_spawn self t)
| step_acquire self i self' : guard_acquire self i = Some self' -> guard_step self self'
| step_finish fuel self i e self' : guard_finish fuel self i e = Some self' -> guard_step self self'.

Definition guard_reachable (max_payload_tasks : nat) : PayloadTaskGuard -> Prop :=
  rtc guard_step (PayloadTaskGuard_new max_payload_tasks).

(** ** Properties *)

(** every permit is free or held by a running task; tasks wait only while none is free;
    what was sent is what a run of its task sends *)
Definition guard_inv (n : nat) (self : PayloadTaskGuard) : Prop :=
  (tg_permits self + length (tg_running self) = n)%nat /\
  (tg_waiting self <> [] -> tg_permits self = 0%nat) /\
  Forall (fun x => delivers x.1 (Ready x.2)) (tg_sent self).

Lemma guard_step_inv n self self' : guard_step self self' -> guard_inv n self -> guard_inv n self'.
Proof.
  intros Hs (Hn & Hw & Hd). destruct Hs as [self t|self i self' H|fuel self i e self' H].
  - done.
  - apply bind_Some in H as (t & Ht & H). cbv zeta in H. unfold guard_inv.
    destruct (tg_permits self) as [|p] eqn:Hp; simplify_eq; simpl; split_and!; try done.
    + rewrite length_app. simpl. lia.
    + intros Hq%Hw. lia.
  - apply bind_Some in H as (t & Ht & (r & Hr & H)%bind_Some). cbv zeta in H. unfold guard_inv.
    assert (Forall (fun x => delivers x.1 (Ready x.2)) (tg_sent self ++ [(t, r)])) as Hd'.
    { apply Forall_app. split; [done|]. constructor; [|constructor]. intros r' [= <-]. right. by exists fuel, e. }
    pose proof (length_delete (tg_running self) i ltac:(by eexists)) as Hl.
    pose proof (lookup_lt_Some _ _ _ Ht).
    destruct (tg_waiting self) as [|next waiting]; simplify_eq; simpl; split_and!; try done.
    + lia.
    + rewrite length_app. simpl. lia.
    + intros _. by apply Hw.
Qed.

Lemma guard_reachable_inv n self : guard_reachable n self -> guard_inv n self.
Proof.
  unfold guard_reachable. assert (guard_inv n (PayloadTaskGuard_new n)) as H by (split; [apply Nat.add_0_r|done]).
  revert H. generalize (PayloadTaskGuard_new n). intros s H Hr. induction Hr as [s|s s' s'' Hs _ IH]; [done|].
  apply IH. by eapply guard_step_inv.
Qed.

Lemma guard_finish_next fuel self i e t r next waiting :
  tg_running self !! i = Some t -> sent_by fuel t e = Some r -> tg_waiting self = next :: waiting ->
  guard_finish fuel self i e =
  Some {| tg_permits := tg_permits self; tg_spawned := tg_spawned self; tg_waiting := waiting;
          tg_running := delete i (tg_running self) ++ [next]; tg_sent := tg_sent self ++ [(t, r)] |}.
Proof. intros Ht Hr Hw. unfold guard_finish. rewrite Ht. simpl. rewrite Hr. simpl. by rewrite Hw. Qed.

Lemma guard_finish_fifo fuel self i e self' next waiting :
  tg_waiting self = next :: waiting -> guard_finish fuel self i e = Some self' ->
  tg_waiting self' = waiting /\ last (tg_running self') = Some next.
Proof.
  intros Hq (t & Ht & (r & Hr & H)%bind_Some)%bind_Some. cbv zeta in H. rewrite Hq in H. simplify_eq. simpl.
  split; [done|apply last_snoc].
Qed.

(** in every interleaving of spawns, acquisitions and ends of tasks no more than
    the configured number of builds run at once; a task waits only while that many run,
    whichever job they are of; when one of them ends the one that has waited
    longest starts; and a task's channel delivers only what a run of it sends. *)
Theorem guard_bounds_builds (max_payload_tasks fuel i : nat) (self self' : PayloadTaskGuard) (e : TaskEnv)
    (next : BuildTask) (waiting : list BuildTask) :
  guard_reachable max_payload_tasks self ->
  (length (tg_running self) <= max_payload_tasks)%nat /\
  (tg_waiting self = next :: waiting ->
     length (tg_running self) = max_payload_tasks /\
     (guard_finish fuel self i e = Some self' ->
        tg_waiting self' = waiting /\ last (tg_running self') = Some next)) /\
  (forall t r, (t, r) ∈ tg_sent self -> delivers t (Ready r)).
Proof.
  intros (Hn & Hw & Hd)%guard_reachable_inv. split_and!.
  - lia.
  - intros Hq. split; [rewrite Hw in Hn by (by rewrite Hq); lia|]. by apply guard_finish_fifo.
  - intros t r Hin. rewrite Forall_forall in Hd. exact (Hd _ Hin).
Qed.
End TaskGuard.

(** ** Evaluation on concrete inputs

    Two builds for one permit. *)

Import Demo.

Definition guard1 : PayloadTaskGuard :=
  {| tg_permits := 0; tg_spawned := []; tg_waiting := [new_task demo_job]; tg_running := [pending_task demo_job];
     tg_sent := [] |}.

Lemma guard1_reachable : guard_reachable 1 guard1.
Proof.
  unfold guard_reachable. eapply rtc_l; [apply (step_spawn _ (pending_task demo_job))|].
  eapply rtc_l; [apply (step_spawn _ (new_task demo_job))|].
  eapply rtc_l; [by apply (step_acquire _ 0)|]. apply rtc_once. by apply (step_acquire _ 0).
Qed.

Definition guard2 : PayloadTaskGuard :=
  {| tg_permits := 0; tg_spawned := []; tg_waiting := []; tg_running := [new_task demo_job];
     tg_sent := [(pending_task demo_job, demo_received)] |}.

Lemma guard1_finish : guard_finish 10 guard1 0 demo_env = Some guard2.
Proof. exact (guard_finish_next 10 guard1 0 demo_env _ _ _ [] eq_refl demo_sent eq_refl). Qed.

Lemma guard_bounds_builds_witness :
  length (tg_running guard1) = 1%nat /\ last (tg_running guard2) = Some (new_task demo_job).
Proof.
  destruct (guard_bounds_builds 1 10 0 guard1 guard2 demo_env (new_task demo_job) [] guard1_reachable)
    as (_ & H & _).
  destruct (H eq_refl) as [H1 H2]. split; [exact H1|]. exact (proj2 (H2 guard1_finish)).
Defined.
