(* ===== verification/Generators.v ===== *)
(** * The generators of jobs

    Models [StreamJobGenerator] of [crates/payload/src/generator/mod.rs] with the handles
    its jobs share.  Handles that are clones of one another are references: the
    semaphores live in a store, a generator allocates one, and its jobs carry its
    reference.  [world_step] lets any number of generators make jobs, and the jobs, the
    executor and the semaphores move in any order. *)

From stdpp Require Import prelude list gmap.
From S2P Require Import Prelude Types Bundle BundlePool Validator Chain Payload Ofac SimState DemoEvm State StateFacts Strategies StratFacts Job TaskGuard.

Open Scope Z_scope.

Section Generators.
Context `{BT : BestTransactions} `{RR : !ReceiptRoots} `{ER : ErrorText}.

(** a clone of a pool, an executor or a handle, by the object it points to *)
Abbreviation Ref := nat.

Record StreamJobGenerator := {
  sg_client : Client;
  sg_pool : Ref;
  sg_bundle_pool : Ref;
  sg_executor : Ref;
  sg_config : JobGeneratorConfig;
  sg_payload_task_guard : Ref;
  sg_bidder_handle : Ref;
}.

Record StreamBuildJob := {
  sj_job : BuildJob;
  sj_client : Client;
  sj_pool : Ref;
  sj_bundle_pool : Ref;
  sj_executor : Ref;
  sj_bidder_handle : Ref;
  sj_deadline : Z;
  sj_payload_task_guard : Ref;
}.

(** [StreamJobGenerator::new], over the store of semaphores *)
Definition StreamJobGenerator_new (guards : list PayloadTaskGuard) (client : Client)
    (pool bundle_pool executor : Ref) (config : JobGeneratorConfig) (bidder_handle : Ref)
  : list PayloadTaskGuard * StreamJobGenerator :=
  (guards ++ [PayloadTaskGuard_new (Z.to_nat (jc_max_payload_tasks config))],
   {| sg_client := client; sg_pool := pool; sg_bundle_pool := bundle_pool; sg_executor := executor;
      sg_config := config; sg_payload_task_guard := length guards; sg_bidder_handle := bidder_handle |}).

(** [new_payload_job]: what the job is, and the handles it is given *)
Definition generator_new_payload_job (self : StreamJobGenerator) (now : Z) (build_config : BuildConfig)
  : result PayloadBuilderError StreamBuildJob :=
  job_deadline ← stream_new_payload_job (sg_config self) now build_config;
  mret {| sj_job := job_deadline.1; sj_client := sg_client self; sj_pool := sg_pool self;
          sj_bundle_pool := sg_bundle_pool self; sj_executor := sg_executor self;
          sj_bidder_handle := sg_bidder_handle self; sj_deadline := job_deadline.2;
          sj_payload_task_guard := sg_payload_task_guard self |}.

Definition set_job (self : StreamBuildJob) (job : BuildJob) : StreamBuildJob :=
  {| sj_job := job; sj_client := sj_client self; sj_pool := sj_pool self; sj_bundle_pool := sj_bundle_pool self;
     sj_executor := sj_executor self; sj_bidder_handle := sj_bidder_handle self;
     sj_deadline := sj_deadline self; sj_payload_task_guard := sj_payload_task_guard self |}.

(** the tasks a poll spawns, each of which captures a clone of the job's guard *)
Definition spawned_tasks (effects : list JobEffect) : list BuildTask :=
  omap (fun e => match e with SpawnTask t => Some t | _ => None end) effects.

Definition spawn_on (guards : list PayloadTaskGuard) (guard : Ref) (ts : list BuildTask) : list PayloadTaskGuard :=
  alter (fun g => foldl guard_spawn g ts) guard guards.

(** ** Generators, jobs and semaphores together *)

(** [gw_jobs] and [gw_log] say which generator made a job and whose job spawned a task. *)
Record GeneratorWorld := {
  gw_guards : list PayloadTaskGuard;
  gw_generators : list StreamJobGenerator;
  gw_jobs : list (nat * StreamBuildJob);
  gw_log : list (nat * BuildTask);
}.

Definition no_generators : GeneratorWorld := {| gw_guards := []; gw_generators := []; gw_jobs := []; gw_log := [] |}.

Inductive world_step : GeneratorWorld -> GeneratorWorld -> Prop :=
| step_new_generator w client pool bundle_pool executor config bidder_handle guards g :
    StreamJobGenerator_new (gw_guards w) client pool bundle_pool executor config bidder_handle = (guards, g) ->
    world_step w {| gw_guards := guards; gw_generators := gw_generators w ++ [g]; gw_jobs := gw_jobs w; gw_log := gw_log w |}
| step_new_job w i g now build_config job :
    gw_generators w !! i = Some g -> generator_new_payload_job g now build_config = Ok job ->
    world_step w {| gw_guards := gw_guards w; gw_generators := gw_generators w; gw_jobs := gw_jobs w ++ [(i, job)];
                    gw_log := gw_log w |}
| step_poll w k i job inp job' res effects :
    gw_jobs w !! k = Some (i, job) -> stream_poll (sj_job job) inp = Done (job', res, effects) ->
    world_step w
      {| gw_guards := spawn_on (gw_guards w) (sj_payload_task_guard job) (spawned_tasks effects);
         gw_generators := gw_generators w; gw_jobs := <[k := (i, set_job job job')]> (gw_jobs w);
         gw_log := gw_log w ++ ((fun t => (i, t)) <$> spawned_tasks effects) |}
| step_drop_job w k :
    world_step w {| gw_guards := gw_guards w; gw_generators := gw_generators w; gw_jobs := delete k (gw_jobs w);
                    gw_log := gw_log w |}
| step_task_acquires w r g k g' :
    gw_guards w !! r = Some g -> guard_acquire g k = Some g' ->
    world_step w {| gw_guards := <[r := g']> (gw_guards w); gw_generators := gw_generators w; gw_jobs := gw_jobs w;
                    gw_log := gw_log w |}
| step_task_ends w r g fuel k e g' :
    gw_guards w !! r = Some g -> guard_finish fuel g k e = Some g' ->
    world_step w {| gw_guards := <[r := g']> (gw_guards w); gw_generators := gw_generators w; gw_jobs := gw_jobs w;
                    gw_log := gw_log w |}.

Definition world_reachable : GeneratorWorld -> Prop := rtc world_step no_generators.

(** the tasks the jobs of the [i]-th generator have spawned *)
Definition tasks_of (i : nat) (log : list (nat * BuildTask)) : list BuildTask :=
  (filter (fun x => x.1 = i) log).*2.

(** ** Lemmas *)

(** the tasks a guard knows of, each at its stage *)
Definition guard_tasks (self : PayloadTaskGuard) : list BuildTask :=
  tg_spawned self ++ tg_waiting self ++ tg_running self ++ (tg_sent self).*1.

Lemma guard_spawn_tasks self t : guard_tasks (guard_spawn self t) ≡ₚ guard_tasks self ++ [t].
Proof. unfold guard_tasks. simpl. rewrite <- !app_assoc. apply Permutation_app_head. by rewrite (Permutation_app_comm [t]), !app_assoc. Qed.

Lemma guard_spawns_tasks ts self : guard_tasks (foldl guard_spawn self ts) ≡ₚ guard_tasks self ++ ts.
Proof.
  revert self. induction ts as [|t ts IH]; intros self; simpl; [by rewrite app_nil_r|].
  by rewrite IH, guard_spawn_tasks, <- app_assoc.
Qed.

(** the [k]-th of some tasks goes to another stage *)
Lemma task_moves (l a b c : list BuildTask) k t :
  l !! k = Some t -> delete k l ++ a ++ [t] ++ b ++ c ≡ₚ l ++ a ++ b ++ c.
Proof.
  intros H%delete_Permutation. revert H. generalize (delete k l). intros rest ->. simpl.
  by rewrite <- !Permutation_middle.
Qed.

Lemma guard_acquire_tasks self k self' : guard_acquire self k = Some self' -> guard_tasks self' ≡ₚ guard_tasks self.
Proof.
  intros (t & Ht & H)%bind_Some. cbv zeta in H. unfold guard_tasks.
  destruct (tg_permits self) as [|p]; simplify_eq; simpl.
  - rewrite <- (task_moves _ (tg_waiting self) (tg_running self) (tg_sent self).*1 k t Ht), <- app_assoc. done.
  - rewrite <- (task_moves _ (tg_waiting self) (tg_running self) (tg_sent self).*1 k t Ht).
    apply Permutation_app_head, Permutation_app_head. simpl. rewrite <- app_assoc. simpl. apply Permutation_sym, Permutation_middle.
Qed.

Lemma guard_finish_tasks fuel self k e self' :
  guard_finish fuel self k e = Some self' -> guard_tasks self' ≡ₚ guard_tasks self.
Proof.
  intros (t & Ht & (r & Hr & H)%bind_Some)%bind_Some. cbv zeta in H. unfold guard_tasks.
  assert (delete k (tg_running self) ++ (tg_sent self).*1 ++ [t] ≡ₚ tg_running self ++ (tg_sent self).*1) as E.
  { pose proof (task_moves _ (tg_sent self).*1 [] [] k t Ht) as E. by rewrite !app_nil_r in E. }
  destruct (tg_waiting self) as [|next waiting]; simplify_eq; simpl; apply Permutation_app_head; rewrite fmap_app.
  - exact E.
  - rewrite <- app_assoc. simpl. rewrite app_assoc. etransitivity; [apply Permutation_sym, Permutation_middle|]. apply perm_skip. by rewrite <- app_assoc, E.
Qed.

(** *** The semaphores keep their invariants *)

Lemma guard_spawns_inv n ts self : guard_inv n self -> guard_inv n (foldl guard_spawn self ts).
Proof.
  revert self. induction ts as [|t ts IH]; intros self H; [done|]. simpl. apply IH.
  eapply guard_step_inv; [apply step_spawn|done].
Qed.

Lemma tasks_of_app i l l' : tasks_of i (l ++ l') = tasks_of i l ++ tasks_of i l'.
Proof. unfold tasks_of. by rewrite filter_app, fmap_app. Qed.

Lemma tasks_of_own i (ts : list BuildTask) : tasks_of i ((fun t => (i, t)) <$> ts) = ts.
Proof.
  unfold tasks_of. induction ts as [|t ts IH]; [done|]. rewrite fmap_cons, filter_cons_True by done. by rewrite fmap_cons, IH.
Qed.

Lemma tasks_of_other i j (ts : list BuildTask) : i <> j -> tasks_of j ((fun t => (i, t)) <$> ts) = [].
Proof.
  intros Hij. unfold tasks_of. induction ts as [|t ts IH]; [done|]. by rewrite fmap_cons, filter_cons_False by (simpl; done).
Qed.

(** what a generator's semaphore holds *)
Definition governs (log : list (nat * BuildTask)) (i : nat) (g : StreamJobGenerator) (guard : PayloadTaskGuard) : Prop :=
  guard_inv (Z.to_nat (jc_max_payload_tasks (sg_config g))) guard /\ tasks_of i log ≡ₚ guard_tasks guard.

(** the [i]-th generator has the [i]-th semaphore, its jobs too, and every task of a job of
    it is there; nothing is logged of a generator that is not there yet *)
Definition world_inv (w : GeneratorWorld) : Prop :=
  length (gw_guards w) = length (gw_generators w) /\
  (forall i g, gw_generators w !! i = Some g -> sg_payload_task_guard g = i) /\
  (forall i g guard, gw_generators w !! i = Some g -> gw_guards w !! i = Some guard -> governs (gw_log w) i g guard) /\
  (forall k i job, gw_jobs w !! k = Some (i, job) -> sj_payload_task_guard job = i /\ (i < length (gw_generators w))%nat) /\
  (forall i, (length (gw_generators w) <= i)%nat -> tasks_of i (gw_log w) = []).

Lemma governs_spawn log i g guard ts :
  governs log i g guard -> governs (log ++ ((fun t => (i, t)) <$> ts)) i g (foldl guard_spawn guard ts).
Proof.
  intros [Hi Ht]. split; [by apply guard_spawns_inv|]. by rewrite tasks_of_app, tasks_of_own, guard_spawns_tasks, Ht.
Qed.

Lemma governs_other log i j g guard ts :
  i <> j -> governs log j g guard -> governs (log ++ ((fun t => (i, t)) <$> ts)) j g guard.
Proof. intros Hij [Hi Ht]. split; [done|]. by rewrite tasks_of_app, tasks_of_other, app_nil_r. Qed.

Lemma governs_moves log i g guard guard' :
  guard_step guard guard' -> guard_tasks guard' ≡ₚ guard_tasks guard -> governs log i g guard -> governs log i g guard'.
Proof. intros Hs Hp [Hi Ht]. split; [by eapply guard_step_inv|]. by rewrite Hp. Qed.

(** a semaphore moves by itself *)
Lemma world_guard_inv w r guard guard' :
  gw_guards w !! r = Some guard -> guard_step guard guard' -> guard_tasks guard' ≡ₚ guard_tasks guard -> world_inv w ->
  world_inv {| gw_guards := <[r := guard']> (gw_guards w); gw_generators := gw_generators w; gw_jobs := gw_jobs w;
               gw_log := gw_log w |}.
Proof.
  intros Hr Hs Hp (Hl & Hg & Hgov & Hj & Hlog). split_and!; simpl; try done.
  - by rewrite length_insert.
  - intros i g gd Hi [(-> & <- & _)|(Hne & Hgd)]%list_lookup_insert_Some; [|by eapply Hgov].
    eapply governs_moves; [done..|]. by eapply Hgov.
Qed.

Lemma world_new_generator_inv w client pool bundle_pool executor config bidder_handle guards g :
  StreamJobGenerator_new (gw_guards w) client pool bundle_pool executor config bidder_handle = (guards, g) ->
  world_inv w ->
  world_inv {| gw_guards := guards; gw_generators := gw_generators w ++ [g]; gw_jobs := gw_jobs w; gw_log := gw_log w |}.
Proof.
  intros [= <- <-] (Hl & Hg & Hgov & Hj & Hlog). split_and!; simpl.
  - rewrite !length_app. simpl. lia.
  - intros i g [[_ Hi]|[-> <-]]%lookup_snoc_Some; [by apply Hg|done].
  - intros i g gd [[Hlt Hi]|[-> <-]]%lookup_snoc_Some [[Hlt' Hgd]|[E <-]]%lookup_snoc_Some; try lia; [by eapply Hgov|].
    + split.
      * split; [apply Nat.add_0_r|done].
      * rewrite Hlog by lia. done.
  - intros k i job [Hi Hlt]%Hj. rewrite length_app. split; [done|lia].
  - intros i Hi. apply Hlog. rewrite length_app in Hi. lia.
Qed.

Lemma world_poll_inv w k i job job' effects :
  gw_jobs w !! k = Some (i, job) -> world_inv w ->
  world_inv {| gw_guards := spawn_on (gw_guards w) (sj_payload_task_guard job) (spawned_tasks effects);
               gw_generators := gw_generators w; gw_jobs := <[k := (i, set_job job job')]> (gw_jobs w);
               gw_log := gw_log w ++ ((fun t => (i, t)) <$> spawned_tasks effects) |}.
Proof.
  intros Hk (Hl & Hg & Hgov & Hj & Hlog). destruct (Hj _ _ _ Hk) as [Hr Hi]. unfold spawn_on. rewrite Hr.
  split_and!; simpl; try done.
  - by rewrite length_alter.
  - intros j g gd Hgj Hgd. destruct (decide (i = j)) as [<-|Hij].
    + rewrite list_lookup_alter_eq in Hgd. apply fmap_Some in Hgd as (gd' & Hgd & ->).
      apply governs_spawn. by eapply Hgov.
    + rewrite list_lookup_alter_ne in Hgd by done. apply governs_other; [done|]. by eapply Hgov.
  - intros k' j jb [(-> & [= <- <-] & _)|(Hne & Hgd)]%list_lookup_insert_Some; [done|by eapply Hj].
  - intros j Hlj. rewrite tasks_of_app, Hlog, tasks_of_other by (done || lia). done.
Qed.

Lemma world_step_inv w w' : world_step w w' -> world_inv w -> world_inv w'.
Proof.
  destruct 1 as [w client pool bundle_pool executor config bidder_handle guards g Hg
    |w i g now build_config job Hg Hjob|w k i job inp job' res effects Hk Hp|w k|w r g k g' Hr Ha
    |w r g fuel k e g' Hr Hf]; intros H.
  - by eapply world_new_generator_inv.
  - destruct H as (Hl & Hgs & Hgov & Hj & Hlog). split_and!; simpl; try done.
    intros k j jb [[_ Hi]|[-> [= <- <-]]]%lookup_snoc_Some; [by eapply Hj|].
    unfold generator_new_payload_job, stream_new_payload_job in Hjob. simpl in Hjob. injection Hjob as <-. simpl.
    split; [by apply Hgs|by eapply lookup_lt_Some].
  - by apply world_poll_inv.
  - destruct H as (Hl & Hgs & Hgov & Hj & Hlog). split_and!; simpl; try done.
    intros k' i job Hk'. destruct (decide (k' < k)%nat) as [Hlt|Hge].
    + rewrite list_lookup_delete_lt in Hk' by done. by eapply Hj.
    + rewrite list_lookup_delete_ge in Hk' by lia. by eapply Hj.
  - eapply world_guard_inv; [done| |by eapply guard_acquire_tasks|done]. by eapply step_acquire.
  - eapply world_guard_inv; [done| |by eapply guard_finish_tasks|done]. by eapply step_finish.
Qed.

Lemma world_reachable_inv w : world_reachable w -> world_inv w.
Proof.
  unfold world_reachable. assert (world_inv no_generators) as H by (split_and!; intros; simpl in *; done).
  revert H. generalize no_generators. intros w0 H Hr. induction Hr as [|w0 w1 w2 Hs _ IH]; [done|].
  apply IH. by eapply world_step_inv.
Qed.

(** C39: of all the jobs a generator has made, whenever they spawn builds, no more than
    its configured number run at once; a build waits only while that many run, and when
    one of them ends the one that has waited longest starts; every build any of them has spawned is spawned, waiting, running or ended, and only in the
    generator's own semaphore, which no other generator shares. *)
Theorem generator_bounds_builds (w : GeneratorWorld) (i : nat) (g : StreamJobGenerator) :
  world_reachable w -> gw_generators w !! i = Some g ->
  exists guard, gw_guards w !! sg_payload_task_guard g = Some guard /\
    (length (tg_running guard) <= Z.to_nat (jc_max_payload_tasks (sg_config g)))%nat /\
    (tg_waiting guard <> [] -> length (tg_running guard) = Z.to_nat (jc_max_payload_tasks (sg_config g))) /\
    (forall next waiting fuel k e guard', tg_waiting guard = next :: waiting ->
       guard_finish fuel guard k e = Some guard' ->
       tg_waiting guard' = waiting /\ last (tg_running guard') = Some next) /\
    tasks_of i (gw_log w) ≡ₚ tg_spawned guard ++ tg_waiting guard ++ tg_running guard ++ (tg_sent guard).*1 /\
    Forall (fun x => delivers x.1 (Ready x.2)) (tg_sent guard) /\
    (forall k job, gw_jobs w !! k = Some (i, job) -> sj_payload_task_guard job = sg_payload_task_guard g) /\
    (forall j g', gw_generators w !! j = Some g' -> j <> i -> sg_payload_task_guard g' <> sg_payload_task_guard g).
Proof.
  intros (Hl & Hgs & Hgov & Hj & _)%world_reachable_inv Hg.
  destruct (lookup_lt_is_Some_2 (gw_guards w) i) as [guard Hguard]; [rewrite Hl; by eapply lookup_lt_Some|].
  destruct (Hgov i g guard Hg Hguard) as ((Hn & Hw & Hd) & Ht).
  exists guard. rewrite (Hgs i g Hg). split_and!; try done.
  - lia.
  - intros Hq%Hw. lia.
  - intros. by eapply guard_finish_fifo.
  - intros k job Hk. by destruct (Hj k i job Hk).
  - intros j g' Hg' Hne. by rewrite (Hgs j g' Hg').
Qed.
End Generators.

(** ** Evaluation on concrete inputs

    Two jobs of a generator that allows one build at a time. *)

Import Demo.

Definition demo_generator_config : JobGeneratorConfig :=
  {| jc_interval := 1000; jc_deadline := 12000; jc_max_payload_tasks := 1; jc_payload_config := demo_payload_config |}.

Definition demo_generator : StreamJobGenerator :=
  (StreamJobGenerator_new [] demo_accounts 0 1 2 demo_generator_config 3).2.

Lemma demo_new_job : exists job,
  generator_new_payload_job demo_generator 0 demo_config = Ok job /\ sj_job job = demo_job /\ sj_payload_task_guard job = 0%nat.
Proof. by eexists. Qed.

Lemma demo_first_poll : exists job' effects,
  stream_poll demo_job {| sp_deadline := false; sp_build := Pending |} = Done (job', Pending, effects) /\
  spawned_tasks effects = [new_task demo_job].
Proof. by do 2 eexists. Qed.

Lemma demo_generator_step :
  world_step no_generators {| gw_guards := [PayloadTaskGuard_new 1]; gw_generators := [demo_generator]; gw_jobs := [];
                              gw_log := [] |}.
Proof.
  eapply (step_new_generator no_generators _ _ _ _ demo_generator_config _ _ demo_generator). unfold demo_generator. reflexivity.
Qed.

Lemma demo_two_builds : exists w,
  world_reachable w /\ gw_generators w = [demo_generator] /\
  gw_guards w = [{| tg_permits := 0; tg_spawned := []; tg_waiting := [new_task demo_job];
                    tg_running := [new_task demo_job]; tg_sent := [] |}] /\
  gw_log w = [(0%nat, new_task demo_job); (0%nat, new_task demo_job)].
Proof.
  destruct demo_new_job as (job & Hnew & Hjob & Href). destruct demo_first_poll as (job' & effects & Hpoll & Hsp).
  eexists. split.
  { unfold world_reachable. eapply rtc_l; [exact demo_generator_step|].
    eapply rtc_l; [by eapply (step_new_job _ 0)|]. eapply rtc_l; [by eapply (step_new_job _ 0)|].
    rewrite <- Hjob in Hpoll.
    eapply rtc_l; [by eapply (step_poll _ 0)|]. eapply rtc_l; [by eapply (step_poll _ 1)|]. simpl. rewrite Hsp, Href.
    eapply rtc_l; [by eapply (step_task_acquires _ 0 _ 0)|]. apply rtc_once. by eapply (step_task_acquires _ 0 _ 0). }
  done.
Qed.

Lemma generator_bounds_builds_witness : exists w guard,
  gw_guards w = [guard] /\ length (tg_running guard) = 1%nat /\ tasks_of 0 (gw_log w) ≡ₚ guard_tasks guard.
Proof.
  destruct demo_two_builds as (w & Hw & Hg & Hguards & Hlog).
  destruct (generator_bounds_builds w 0 demo_generator Hw ltac:(by rewrite Hg)) as (guard & Hguard & _ & Hn & _ & Ht & _).
  exists w, guard. rewrite Hguards in Hguard. injection Hguard as <-. split; [done|]. split; [by apply Hn|exact Ht].
Defined.
