(* ===== verification/Handles.v ===== *)
(** * The handles of the payload service and of the bidder

    Models [PayloadBuilderHandle] of [crates/payload/src/service/mod.rs] and
    [BidderServiceHandle] of [crates/payload/src/bidder/service.rs]: what a
    caller is told, whether the service is there, gone, or goes before it answers. *)

From stdpp Require Import prelude list.
From S2P Require Import Prelude Types Bundle Validator Chain Payload SimState DemoEvm State StateFacts Strategies Policy Bid Bidder PayloadService Job.

Open Scope Z_scope.

(** The other end of the channel of commands. *)
Inductive ServiceEnd := Running | Gone | GoesBeforeAnswering.

(** what the caller's [send] and its receiver give *)
Inductive Call (R : Type) :=
| SendFailed
| ReplyDropped
| Replied (r : R).
Arguments SendFailed {R}.
Arguments ReplyDropped {R}.
Arguments Replied {R} r.

Section PayloadHandle.
Context `{PG : PayloadJobGenerator}.

Definition ask (e : ServiceEnd) (self : PayloadBuilderService) (cmd : PayloadServiceCommand)
  : PayloadBuilderService * Call reply :=
  match e with
  | Gone => (self, SendFailed)
  | GoesBeforeAnswering => (self, ReplyDropped)
  | Running => let '(this, r, _) := on_command self cmd in (this, Replied r)
  end.

(** [resolve]: [fut.await] is the future's output *)
Definition handle_resolve (e : ServiceEnd) (await : PayloadFuture -> result PayloadBuilderError Build)
    (self : PayloadBuilderService) (id : Z)
  : PayloadBuilderService * option (result PayloadBuilderError Build) :=
  match ask e self (Resolve id) with
  | (this, Replied (ResolveReply r)) => (this, await <$> r)
  | (this, ReplyDropped) => (this, Some (Err (recv_error_into ChannelDropped)))
  | (this, _) => (this, None)
  end.

Definition handle_best_payload (e : ServiceEnd) (self : PayloadBuilderService) (id : Z)
  : PayloadBuilderService * option (result PayloadBuilderError Build) :=
  match ask e self (BestPayload id) with
  | (this, Replied (BestPayloadReply r)) => (this, r)
  | (this, _) => (this, None)
  end.

Definition handle_payload_attributes (e : ServiceEnd) (self : PayloadBuilderService) (id : Z)
  : PayloadBuilderService * option (result PayloadBuilderError PayloadAttributes) :=
  match ask e self (PayloadAttributesCmd id) with
  | (this, Replied (PayloadAttributesReply r)) => (this, r)
  | (this, _) => (this, None)
  end.

(** [build_new_payload]: a failed send only drops the sender of the reply *)
Definition handle_build_new_payload (e : ServiceEnd) (self : PayloadBuilderService) (config : BuildConfig)
  : PayloadBuilderService * received Z :=
  match ask e self (BuildNewPayload config) with
  | (this, Replied (NewPayloadReply r)) => (this, Ok r)
  | (this, _) => (this, Err ChannelDropped)
  end.

Definition handle_new_payload (e : ServiceEnd) (self : PayloadBuilderService) (config : BuildConfig)
  : PayloadBuilderService * result PayloadBuilderError Z :=
  let '(this, r) := handle_build_new_payload e self config in (this, flatten_received r).
End PayloadHandle.

Section BidderHandle.
Context `{EV : Evm} `{ER : ErrorText}.

(** The two channels of the bidder, and whether the bidder is there to read them. *)
Record BidderServiceHandle := {
  bh_open : bool;
  bh_builds : list BuildState;
  bh_auctions : list (Z * Z);
}.

Definition make_bid (self : BidderServiceHandle) (state : BuildState)
  : result BidderServiceError unit * BidderServiceHandle :=
  if bh_open self
  then (Ok tt, {| bh_open := true; bh_builds := bh_builds self ++ [state]; bh_auctions := bh_auctions self |})
  else (Err SendState, self).

Definition on_auction_start (self : BidderServiceHandle) (slot block_number : Z) : BidderServiceHandle :=
  if bh_open self
  then {| bh_open := true; bh_builds := bh_builds self; bh_auctions := bh_auctions self ++ [(slot, block_number)] |}
  else self.
End BidderHandle.

(** ** Properties *)

Section HandleProofs.
Context `{PG : PayloadJobGenerator}.

Lemma contains_after_push self jid id :
  contains_payload (set_jobs self (sv_payload_jobs self ++ [jid])) id = contains_payload self id || (jid.2 =? id).
Proof. unfold contains_payload. simpl. rewrite existsb_app. simpl. by rewrite orb_false_r. Qed.

Lemma find_none self id :
  contains_payload self id = false -> list_find (fun jid : Job * Z => jid.2 = id) (sv_payload_jobs self) = None.
Proof.
  intros H. apply list_find_None, Forall_forall. intros x Hx Hid.
  assert (contains_payload self id = true) as H'; [|congruence].
  apply contains_payload_spec. rewrite <- Hid. by apply list_elem_of_fmap_2.
Qed.

(** resolving the payload that was added last *)
Lemma resolve_last self job id :
  contains_payload self id = false ->
  resolve (set_jobs self (sv_payload_jobs self ++ [(job, id)])) id =
    (set_jobs self (sv_payload_jobs self ++ (if (job_resolve job).1.2 then [((job_resolve job).2, id)] else [])),
     Some (job_resolve job).1.1).
Proof.
  intros H. unfold resolve. simpl. rewrite list_find_app_r by by apply find_none. simpl.
  rewrite decide_True by done. simpl. destruct (job_resolve job) as [[fut []] job']; simpl.
  - by rewrite insert_app_r_alt, Nat.sub_diag by lia.
  - by rewrite delete_middle.
Qed.

(** a payload's life seen through the handle: asking for a payload that has no job starts
    one and gives its identifier; asking again gives the same identifier and starts
    nothing; resolving gives what the job's future gives, and when the job does
    not ask to live on, the payload is forgotten: resolving it again, or asking for its
    best block or its attributes, gives nothing. *)
Theorem payload_session (await : PayloadFuture -> result PayloadBuilderError Build)
    (self : PayloadBuilderService) (config : BuildConfig) (job : Job) :
  let id := pa_id (bc_attributes config) in
  unique_jobs self -> contains_payload self id = false ->
  new_payload_job (sv_generator self) config = Ok job ->
  exists s1 s2,
    handle_new_payload Running self config = (s1, Ok id) /\
    sv_payload_jobs s1 = sv_payload_jobs self ++ [(job, id)] /\
    handle_new_payload Running s1 config = (s1, Ok id) /\
    handle_resolve Running await s1 id = (s2, Some (await (job_resolve job).1.1)) /\
    ((job_resolve job).1.2 = false ->
       sv_payload_jobs s2 = sv_payload_jobs self /\
       (handle_resolve Running await s2 id).2 = None /\
       (handle_best_payload Running s2 id).2 = None /\
       (handle_payload_attributes Running s2 id).2 = None).
Proof.
  intros id Hu Hc Hj.
  set (s1 := set_jobs (inc_initiated self) (sv_payload_jobs self ++ [(job, id)])).
  assert (handle_new_payload Running self config = (s1, Ok id)) as H1.
  { unfold handle_new_payload, handle_build_new_payload, ask. simpl. fold id. by rewrite Hc, Hj. }
  assert (contains_payload s1 id = true) as Hc1.
  { unfold s1. change (sv_payload_jobs self) with (sv_payload_jobs (inc_initiated self)).
    rewrite contains_after_push. simpl. by rewrite Z.eqb_refl, orb_true_r. }
  assert (handle_new_payload Running s1 config = (s1, Ok id)) as H2.
  { unfold handle_new_payload, handle_build_new_payload, ask. simpl. fold id. by rewrite Hc1. }
  pose proof (resolve_last (inc_initiated self) job id Hc) as Hr.
  exists s1, (resolve s1 id).1. split_and!; [done|done|done| |].
  - unfold handle_resolve, ask. simpl. unfold s1. simpl in Hr |- *. by rewrite Hr.
  - intros Hk. unfold s1. simpl in Hr |- *. rewrite Hr, Hk, app_nil_r.
    set (s2 := set_jobs _ _). simpl. assert (contains_payload s2 id = false) as Hc2 by done.
    pose proof (find_none s2 id Hc2) as Hf. split_and!; [done|..].
    + unfold handle_resolve, ask. simpl. unfold resolve. by rewrite Hf.
    + unfold handle_best_payload, ask. simpl. unfold best_payload, find_job. by rewrite Hf.
    + unfold handle_payload_attributes, ask. simpl. unfold payload_attributes, find_job. by rewrite Hf.
Qed.
End HandleProofs.

Section BidderHandleProofs.
Context `{EV : Evm} `{ER : ErrorText}.

(** sending [f x] for every [x], in order *)
Definition send_bids (h : BidderServiceHandle) (l : list BuildState) : BidderServiceHandle :=
  foldl (fun h st => (make_bid h st).2) h l.

(** A bidder that is there finds what was sent to it, each channel in the order of the sends and
    neither disturbed by the other; one that is gone is sent nothing, and only
    the sender of a build is told. *)
Theorem bidder_handle_order (h : BidderServiceHandle) (l : list BuildState) (auction : Z * Z) (st : BuildState) :
  let h' := on_auction_start (send_bids h l) auction.1 auction.2 in
  (bh_open h = true -> bh_builds h' = bh_builds h ++ l /\ bh_auctions h' = bh_auctions h ++ [auction]) /\
  (bh_open h = false -> h' = h /\ (make_bid h' st).1 = Err SendState).
Proof.
  assert (bh_open h = true -> send_bids h l =
    {| bh_open := true; bh_builds := bh_builds h ++ l; bh_auctions := bh_auctions h |}) as Ho.
  { revert h. induction l as [|x l IH]; intros [[] b a] H; try discriminate; simpl in *.
    - by rewrite app_nil_r.
    - unfold make_bid. simpl. rewrite IH by done. simpl. by rewrite <- app_assoc. }
  assert (bh_open h = false -> send_bids h l = h) as Hc.
  { intros H. clear Ho. induction l as [|x l IH]; [done|]. simpl. unfold make_bid. by rewrite H. }
  split.
  - intros H. rewrite (Ho H). by destruct auction.
  - intros H. rewrite (Hc H). unfold on_auction_start, make_bid. by rewrite !H.
Qed.
End BidderHandleProofs.
