(* ===== verification/MainService.v ===== *)
(** * The block builder service

    Models [bin/builder/src/service.rs]: the service that turns the consensus
    layer's events into build configurations, prunes the bundle pool, and
    starts a payload job and an auction for each new slot. *)

From stdpp Require Import prelude list gmap strings.
From S2P Require Import Prelude Types Bundle BundlePool Validator Chain Payload SimState DemoEvm State StateFacts.

Open Scope Z_scope.

(** The blocks a client can read: [BlockReaderIdExt]. *)
Class BlockReader `{EV : Evm} := {
  latest_block : Client -> result RethError (option Block);
  find_block_by_hash : Client -> B256 -> result RethError (option Block);
}.

Section MainService.
Context `{BR : BlockReader}.

(** The channel of the consensus layer, the handles and the client are read in
    [poll]: what they hold then is an input.  The bundle pool is shared. *)
Record BlockBuilderService := {
  bb_payload_config : PayloadConfig;
  bb_slot : Z;
  bb_bundle_pool : BundlePool;
}.

Definition BlockBuilderService_new (c : PayloadConfig) (pool : BundlePool) : BlockBuilderService :=
  {| bb_payload_config := c; bb_slot := 0; bb_bundle_pool := pool |}.

Definition set_slot (self : BlockBuilderService) (slot : Z) : BlockBuilderService :=
  {| bb_payload_config := bb_payload_config self; bb_slot := slot;
     bb_bundle_pool := bb_bundle_pool self |}.

Definition parent_block (client : Client) (attributes : PayloadAttributes)
  : result PayloadBuilderError SealedBlock :=
  if pa_parent attributes =? 0 then
    o ← map_err Internal (latest_block client);
    block ← ok_or o (MissingParentBlock (pa_parent attributes));
    mret (seal_slow block)
  else
    o ← map_err Internal (find_block_by_hash client (pa_parent attributes));
    block ← ok_or o (MissingParentBlock (pa_parent attributes));
    mret {| sl_hash := pa_parent attributes; sl_block := block |}.

(** [build_configs]: an error is logged; the conversions of [BuildConfig::new]
    may panic *)
Definition build_configs (self : BlockBuilderService) (client : Client) (schedule : ValidatorSchedule)
    (attributes : PayloadAttributes) (slot : Z) : run Empty_set (option BuildConfig) :=
  match parent_block client attributes with
  | Err _ => Done None
  | Ok parent =>
      match get_by_slot schedule slot with
      | None => Done None
      | Some validator_info =>
          match BuildConfig_new (pc_chain_spec (bb_payload_config self)) attributes parent slot
                  validator_info with
          | Done config => Done (Some config)
          | _ => Panicked
          end
      end
  end.

Definition prune_bundle_pool (self : BlockBuilderService) (locked : bool) (configs : BuildConfig)
  : BlockBuilderService :=
  let prune_block := u64_sub (bc_block_number configs) 1 in
  let prune_timestamp := u64_sub (pa_timestamp (bc_attributes configs)) 12 in
  {| bb_payload_config := bb_payload_config self; bb_slot := bb_slot self;
     bb_bundle_pool := pool_prune locked (bb_bundle_pool self) prune_block prune_timestamp |}.

(** What a poll finds: the events of the stream and whether it has ended, the
    clock, the client, the schedule, the lock of the bundle pool. *)
Record MainPoll := {
  mp_events : list (PayloadAttributes * Z);
  mp_terminated : bool;
  mp_now : Z;
  mp_client : Client;
  mp_schedule : ValidatorSchedule;
  mp_locked : bool;
}.

(** What it sends: a configuration to the payload service, then the slot and
    block number of an auction to the bidder. *)
Inductive MainMessage :=
| SendBuildNewPayload (config : BuildConfig)
| SendAuctionStart (slot block_number : Z).

Definition main_poll (self : BlockBuilderService) (i : MainPoll)
  : run Empty_set (BlockBuilderService * poll unit * list MainMessage) :=
  if mp_terminated i then Done (self, Ready tt, [])
  else
    match last (mp_events i) with
    | None => Done (self, Pending, [])
    | Some (attributes, slot) =>
        if bb_slot self =? slot then Done (self, Pending, [])
        else if pa_timestamp attributes <=? mp_now i then Done (self, Pending, [])
        else
          let this := set_slot self slot in
          configs ← build_configs this (mp_client i) (mp_schedule i) attributes slot;
          match configs with
          | None => Done (this, Pending, [])
          | Some configs =>
              let this := prune_bundle_pool this (mp_locked i) configs in
              Done (this, Pending,
                    [SendBuildNewPayload configs; SendAuctionStart slot (bc_block_number configs)])
          end
    end.
End MainService.

(** ** Properties *)

Section MainProofs.
Context `{BR : BlockReader}.

(** an event the service acts on *)
Definition event_accepted (self : BlockBuilderService) (i : MainPoll) (attributes : PayloadAttributes)
    (slot : Z) : Prop :=
  mp_terminated i = false /\ last (mp_events i) = Some (attributes, slot) /\
  bb_slot self <> slot /\ mp_now i < pa_timestamp attributes.

(** the configuration of an event: its parent, its validator, the environment *)
Definition config_of (self : BlockBuilderService) (i : MainPoll) (attributes : PayloadAttributes)
    (slot : Z) (c : BuildConfig) : Prop :=
  parent_block (mp_client i) attributes = Ok (bc_parent_block c) /\
  mp_schedule i !! slot = Some (bc_validator_info c) /\
  bc_slot c = slot /\ bc_attributes c = attributes /\
  bc_initialized_block_env c = (cfg_and_block_env attributes (pc_chain_spec (bb_payload_config self))
    (parent_header c)).2 /\
  bc_block_number c = be_number (bc_initialized_block_env c).

Lemma BuildConfig_new_inv spec a parent slot v c :
  BuildConfig_new spec a parent slot v = Done c ->
  bc_parent_block c = parent /\ bc_validator_info c = v /\ bc_slot c = slot /\ bc_attributes c = a /\
  bc_initialized_block_env c = (cfg_and_block_env a spec (parent_header c)).2 /\
  bc_block_number c = be_number (bc_initialized_block_env c).
Proof.
  unfold BuildConfig_new. destruct (cfg_and_block_env _ _ _) as [cfg env] eqn:E. intros H. run_inv.
  subst c. unfold parent_header. simpl. rewrite E. unfold to_u64 in Hr.
  destruct (_ && _); [|done]. injection Hr as <-. done.
Qed.

Lemma build_configs_Some self client schedule a slot c :
  build_configs self client schedule a slot = Done (Some c) ->
  parent_block client a = Ok (bc_parent_block c) /\ schedule !! slot = Some (bc_validator_info c) /\
  bc_slot c = slot /\ bc_attributes c = a /\
  bc_initialized_block_env c = (cfg_and_block_env a (pc_chain_spec (bb_payload_config self))
    (parent_header c)).2 /\
  bc_block_number c = be_number (bc_initialized_block_env c).
Proof.
  unfold build_configs. destruct (parent_block client a) as [parent|e]; [|done].
  destruct (get_by_slot schedule slot) as [v|] eqn:Hv; [|done].
  destruct (BuildConfig_new _ _ _ _ _) as [c'| |] eqn:Hc; [|done|done]. intros [= ->].
  apply BuildConfig_new_inv in Hc as (<- & <- & H). done.
Qed.

(** C13: a poll acts on the last event only, and on it only when its slot is new and its
    timestamp lies ahead.  Then it sends one configuration and starts one auction,
    which agree on slot and block number; the configuration is that of the event,
    of the parent it names and of the slot's validator.  Otherwise it sends
    nothing, and changes at most the slot. *)
Theorem main_poll_correct (self : BlockBuilderService) (i : MainPoll) (self' : BlockBuilderService)
    (p : poll unit) (msgs : list MainMessage) :
  main_poll self i = Done (self', p, msgs) ->
  (p = Ready tt <-> mp_terminated i = true) /\
  ((exists a slot c, event_accepted self i a slot /\ config_of self i a slot c /\
      msgs = [SendBuildNewPayload c; SendAuctionStart slot (bc_block_number c)] /\
      bb_slot self' = slot /\
      bb_bundle_pool self' = pool_prune (mp_locked i) (bb_bundle_pool self)
        (u64_sub (bc_block_number c) 1) (u64_sub (pa_timestamp a) 12)) \/
   (msgs = [] /\ bb_bundle_pool self' = bb_bundle_pool self /\
    (bb_slot self' = bb_slot self \/
     exists a slot, event_accepted self i a slot /\ bb_slot self' = slot /\
       (is_ok (parent_block (mp_client i) a) = false \/ mp_schedule i !! slot = None)))).
Proof.
  unfold main_poll. destruct (mp_terminated i) eqn:Ht.
  { intros [= <- <- <-]. split; [done|]. right. split_and!; try done. by left. }
  destruct (last (mp_events i)) as [[a slot]|] eqn:Hl.
  2: { intros [= <- <- <-]. split; [done|]. right. split_and!; try done. by left. }
  destruct (Z.eqb_spec (bb_slot self) slot) as [|Hne].
  { intros [= <- <- <-]. split; [done|]. right. split_and!; try done. by left. }
  destruct (Z.leb_spec (pa_timestamp a) (mp_now i)) as [|Hts].
  { intros [= <- <- <-]. split; [done|]. right. split_and!; try done. by left. }
  intros H. assert (Hacc : event_accepted self i a slot) by done.
  destruct (build_configs _ _ _ _ _) as [[c|]| |] eqn:Hc; [| |done|done];
    simpl in H; injection H as <- <- <-; (split; [done|]).
  - apply build_configs_Some in Hc. left. exists a, slot, c. split; [done|]. split; [done|].
    destruct Hc as (_ & _ & _ & <- & _). by split_and!.
  - right. split_and!; try done. right. exists a, slot. split; [done|]. split; [done|].
    unfold build_configs in Hc. destruct (parent_block _ a); [right|by left].
    unfold get_by_slot in Hc. destruct (mp_schedule i !! slot); [|done].
    by destruct (BuildConfig_new _ _ _ _ _).
Qed.

(** a slot is given up on the first failure: once an event of a slot has been
    accepted and its parent block or its validator was missing, every later event
    of that slot is ignored, whatever is known by then, as long as no other slot
    comes in between. *)
Theorem failed_slot_not_retried (self self' : BlockBuilderService) (i i' : MainPoll) (p : poll unit)
    (a a' : PayloadAttributes) (slot : Z) :
  event_accepted self i a slot ->
  is_ok (parent_block (mp_client i) a) = false \/ mp_schedule i !! slot = None ->
  main_poll self i = Done (self', p, []) ->
  mp_terminated i' = false -> last (mp_events i') = Some (a', slot) ->
  main_poll self' i' = Done (self', Pending, []).
Proof.
  intros (Ht & Hl & Hne & Hts) Hmiss H Ht' Hl'. unfold main_poll in H. rewrite Ht, Hl in H.
  destruct (Z.eqb_spec (bb_slot self) slot); [done|].
  destruct (Z.leb_spec (pa_timestamp a) (mp_now i)); [lia|].
  assert (build_configs (set_slot self slot) (mp_client i) (mp_schedule i) a slot = Done None) as Hc.
  { unfold build_configs, get_by_slot. destruct Hmiss as [Hm| ->]; [by destruct (parent_block _ a)|].
    by destruct (parent_block _ a). }
  rewrite Hc in H. injection H as <- <-. unfold main_poll. rewrite Ht', Hl'. simpl. by rewrite Z.eqb_refl.
Qed.

(** ** Pruning before a build *)

(** the bundles a build of [c] will be served *)
Definition build_bundles (self : BlockBuilderService) (c : BuildConfig) : list Bundle :=
  inner_bundles (inner (bb_bundle_pool self)) (bc_block_number c) (pa_timestamp (bc_attributes c)).

Lemma pool_prune_inner p bn ts : inner (pool_prune true p bn ts) = (inner_prune (inner p) bn ts).1.
Proof. unfold pool_prune. by destruct (inner_prune (inner p) bn ts) as [i [r l]]. Qed.

Lemma build_bundles_pruned self c b :
  pool_wf (inner (bb_bundle_pool self)) -> 1 <= bc_block_number c < 2 ^ 64 ->
  12 <= pa_timestamp (bc_attributes c) < 2 ^ 64 ->
  b ∈ build_bundles (prune_bundle_pool self true c) c <->
  b ∈ build_bundles self c /\ is_within_timestamp b (pa_timestamp (bc_attributes c) - 12) = true.
Proof.
  intros Hwf Hn Ht. unfold build_bundles, prune_bundle_pool. cbn [bb_bundle_pool]. rewrite pool_prune_inner.
  rewrite (u64_sub_small (bc_block_number c)), (u64_sub_small (pa_timestamp _)) by (unfold is_u64; lia).
  rewrite !inner_bundles_elem, prune_lookup by (done || by apply prune_wf).
  unfold is_prunable. rewrite out_of_bounds_within, orb_false_iff, negb_false_iff, Z.ltb_ge.
  split; [naive_solver|]. intros ((H1 & H2 & H3) & H4). split_and!; try done. lia.
Qed.

(** C36: the pruning that precedes a build loses bundles of that very build: of the
    bundles the pool would serve for the block, exactly those survive that were
    already valid twelve seconds before the block's timestamp.  A bundle that becomes
    valid with the block is removed before it can be built. *)
Theorem prune_loses_new_bundles (self : BlockBuilderService) (c : BuildConfig) (b : Bundle) (m : Z) :
  pool_wf (inner (bb_bundle_pool self)) -> 1 <= bc_block_number c < 2 ^ 64 ->
  12 <= pa_timestamp (bc_attributes c) < 2 ^ 64 ->
  b ∈ build_bundles self c -> min_timestamp b = Some m ->
  (b ∈ build_bundles (prune_bundle_pool self true c) c <-> m <= pa_timestamp (bc_attributes c) - 12) /\
  (pa_timestamp (bc_attributes c) - 12 < m ->
     bundles_map (inner (bb_bundle_pool (prune_bundle_pool self true c))) !! hash b = None).
Proof.
  intros Hwf Hn Ht Hb Hm. rewrite build_bundles_pruned by done.
  pose proof Hb as Hb'. unfold build_bundles in Hb'. apply inner_bundles_elem in Hb' as (Hs & Hbn & Hw); [|done].
  apply within_timestamp_spec in Hw as [_ Hw].
  assert (Hiff : is_within_timestamp b (pa_timestamp (bc_attributes c) - 12) = true <->
    m <= pa_timestamp (bc_attributes c) - 12).
  { rewrite within_timestamp_spec. split; [naive_solver|]. intros Hle. split; [naive_solver|].
    intros m' Hm'. specialize (Hw m' Hm'). lia. }
  split; [naive_solver|]. intros Hlt. cbn [bb_bundle_pool prune_bundle_pool]. rewrite pool_prune_inner.
  rewrite (u64_sub_small (pa_timestamp _)) by (unfold is_u64; lia).
  destruct (bundles_map (inner_prune _ _ _).1 !! hash b) as [b'|] eqn:E; [|done].
  apply prune_lookup in E as [E Hp]. rewrite Hs in E. injection E as <-.
  unfold is_prunable in Hp. rewrite out_of_bounds_within in Hp.
  apply orb_false_iff in Hp as [Hp _]. apply negb_false_iff, Hiff in Hp. lia.
Qed.
End MainProofs.

(** ** Evaluation on concrete inputs *)

Import Demo.

Definition demo_parent : Block := {| bl_header := demo_header; bl_body := []; bl_withdrawals := None |}.

(** every client knows block 77 and no other *)
#[export] Instance demo_reader : BlockReader := {|
  latest_block _ := Ok (Some demo_parent);
  find_block_by_hash _ h := Ok (if h =? 77 then Some demo_parent else None);
|}.

Definition demo_info1 : ValidatorScheduleSlotInfo :=
  {| vi_proposer := 1; vi_fee_recipient := 9; vi_gas_limit := 30000000; vi_slot := 1 |}.

Definition demo_attrs (parent : B256) : PayloadAttributes :=
  {| pa_id := 1; pa_parent := parent; pa_timestamp := 250; pa_suggested_fee_recipient := 9;
     pa_prev_randao := 3; pa_withdrawals := []; pa_parent_beacon_block_root := Some 4 |}.

(** bundles for block 42: always valid, and valid from the block on *)
Definition demo_bundle_at (h : Z) (mn : option Z) : Bundle :=
  {| hash := h; txs := []; block_number := 42; min_timestamp := mn; max_timestamp := None;
     reverting_tx_hashes := []; replacement_uuid := None; refund := None |}.
Definition demo_bundle_pool : BundlePool :=
  {| inner := pool_run BundlePoolInner_new [OpAdd (demo_bundle_at 900 None); OpAdd (demo_bundle_at 901 (Some 250))];
     metrics := metrics_default |}.

Definition demo_main : BlockBuilderService := BlockBuilderService_new demo_payload_config demo_bundle_pool.

Definition demo_input (events : list (PayloadAttributes * Z)) : MainPoll :=
  {| mp_events := events; mp_terminated := false; mp_now := 240; mp_client := demo_accounts;
     mp_schedule := <[1 := demo_info1]> ∅; mp_locked := true |}.

Definition demo_main_polled : BlockBuilderService * poll unit * list MainMessage :=
  run_or (demo_main, Pending, []) (main_poll demo_main (demo_input [(demo_attrs 5, 3); (demo_attrs 77, 1)])).

Lemma main_poll_correct_witness :
  length demo_main_polled.2 = 2%nat /\ bb_slot demo_main_polled.1.1 = 1 /\
  (demo_main_polled.1.2 = Ready tt <-> false = true).
Proof.
  split; [kernel_refl|]. split; [kernel_refl|].
  assert (main_poll demo_main (demo_input [(demo_attrs 5, 3); (demo_attrs 77, 1)]) =
    Done (demo_main_polled.1.1, demo_main_polled.1.2, demo_main_polled.2)) as H
    by exact_no_check (run_or_Done_triple (demo_main, Pending, [])
         (main_poll demo_main (demo_input [(demo_attrs 5, 3); (demo_attrs 77, 1)])) (eq_refl true)).
  exact (proj1 (main_poll_correct _ _ _ _ _ H)).
Defined.

(** the parent is unknown, then known *)
Lemma failed_slot_not_retried_witness :
  main_poll (set_slot demo_main 1) (demo_input [(demo_attrs 77, 1)]) = Done (set_slot demo_main 1, Pending, []).
Proof.
  apply (failed_slot_not_retried demo_main (set_slot demo_main 1) (demo_input [(demo_attrs 5, 1)])
    (demo_input [(demo_attrs 77, 1)]) Pending (demo_attrs 5) (demo_attrs 77) 1).
  - split_and!; [reflexivity|reflexivity|simpl; lia|simpl; lia].
  - left. reflexivity.
  - reflexivity.
  - reflexivity.
  - reflexivity.
Defined.

Lemma prune_loses_new_bundles_witness :
  demo_bundle_at 901 (Some 250) ∈ build_bundles demo_main demo_config /\
  bundles_map (inner (bb_bundle_pool (prune_bundle_pool demo_main true demo_config))) !! 901 = None.
Proof.
  assert (pool_wf (inner (bb_bundle_pool demo_main))) as Hwf by apply run_wf, new_wf.
  assert (demo_bundle_at 901 (Some 250) ∈ build_bundles demo_main demo_config) as Hin.
  { apply inner_bundles_elem; [exact Hwf|]. split_and!; reflexivity. }
  split; [exact Hin|].
  apply (prune_loses_new_bundles demo_main demo_config (demo_bundle_at 901 (Some 250)) 250 Hwf);
    [simpl; lia|simpl; lia|exact Hin|reflexivity|simpl; lia].
Defined.
