(* ===== verification/EmptyJob.v ===== *)
(** * Jobs of empty blocks

    Models [crates/payload/src/generator/empty.rs] and [job/empty.rs]: the payload jobs
    the node itself is given, whose payloads are the empty ones of reth's builder; and
    [bin/builder/src/cli_ext.rs], which gives the node that service. *)

From stdpp Require Import prelude list gmap strings.
From S2P Require Import Prelude Types Bundle BundlePool Validator Chain Payload SimState DemoEvm State StateFacts PayloadService MainService.

Open Scope Z_scope.

Section EmptyJob.
Context `{BR : BlockReader}.

(** reth's [PayloadConfig] *)
Record RethPayloadConfig := {
  rp_parent_block : SealedBlock;
  rp_extra_data : Bytes;
  rp_attributes : PayloadAttributes;
  rp_chain_spec : ChainSpec;
}.

(** reth's [Builder::build_empty_payload] *)
Context (reth_empty_payload : Client -> RethPayloadConfig -> result PayloadBuilderError EthBuiltPayload).

Record EmptyBlockPayloadJob := {
  ej_config : RethPayloadConfig;
  ej_client : Client;
}.

Record EmptyBlockPayloadJobGenerator := {
  eg_client : Client;
  eg_chain_spec : ChainSpec;
}.

(** [new_payload_job]: the parent is found as the main service finds it *)
Definition empty_new_payload_job (self : EmptyBlockPayloadJobGenerator) (attributes : PayloadAttributes)
  : result PayloadBuilderError EmptyBlockPayloadJob :=
  parent ← parent_block (eg_client self) attributes;
  mret {| ej_config := {| rp_parent_block := parent; rp_extra_data := []; rp_attributes := attributes;
                          rp_chain_spec := eg_chain_spec self |};
          ej_client := eg_client self |}.

Definition empty_best_payload (self : EmptyBlockPayloadJob) : result PayloadBuilderError EthBuiltPayload :=
  reth_empty_payload (ej_client self) (ej_config self).

Definition empty_payload_attributes (self : EmptyBlockPayloadJob) : result PayloadBuilderError PayloadAttributes :=
  Ok (rp_attributes (ej_config self)).

(** [resolve]: a future that is ready, and [KeepPayloadJobAlive::No] *)
Definition empty_resolve (self : EmptyBlockPayloadJob)
  : result PayloadBuilderError EthBuiltPayload * bool * EmptyBlockPayloadJob :=
  (empty_best_payload self, false, self).

Definition empty_poll (self : EmptyBlockPayloadJob)
  : poll (result PayloadBuilderError unit) * EmptyBlockPayloadJob := (Pending, self).

(** [with_builder]: the pool, the executor, the configuration and the builder are kept for
    the jobs, in which nothing reads them *)
Definition empty_with_builder {Pool Tasks Config Builder : Type} (client : Client) (pool : Pool)
    (executor : Tasks) (config : Config) (chain_spec : ChainSpec) (builder : Builder)
  : EmptyBlockPayloadJobGenerator := {| eg_client := client; eg_chain_spec := chain_spec |}.
End EmptyJob.

(** ** The node's payload service *)

(** [reth]'s configuration of the payload builder and of its jobs, and the pool, the task
    executor and the Ethereum builder of the node *)
Class RethNode := {
  NodePool : Type;
  NodeTasks : Type;
  EthereumPayloadBuilder : Type;
  ethereum_payload_builder_default : EthereumPayloadBuilder;
  PayloadBuilderConf : Type;
  conf_interval : PayloadBuilderConf -> Z;
  conf_deadline : PayloadBuilderConf -> Z;
  conf_max_payload_tasks : PayloadBuilderConf -> Z;
  conf_extradata_bytes : PayloadBuilderConf -> Bytes;
  conf_max_gas_limit : PayloadBuilderConf -> Z;
  RethJobGeneratorConfig : Type;
  job_config_default : RethJobGeneratorConfig;
  job_config_interval : RethJobGeneratorConfig -> Z -> RethJobGeneratorConfig;
  job_config_deadline : RethJobGeneratorConfig -> Z -> RethJobGeneratorConfig;
  job_config_max_payload_tasks : RethJobGeneratorConfig -> Z -> RethJobGeneratorConfig;
  job_config_extradata : RethJobGeneratorConfig -> Bytes -> RethJobGeneratorConfig;
  job_config_max_gas_limit : RethJobGeneratorConfig -> Z -> RethJobGeneratorConfig;
}.

Section EmptyBuilder.
Context `{BR : BlockReader} `{RN : RethNode}.

Record BuilderContext := {
  cx_chain_spec : ChainSpec;
  cx_provider : Client;
  cx_task_executor : NodeTasks;
  cx_payload_builder_config : PayloadBuilderConf;
}.

(** reth's service: its generator, and the provider whose canonical states it follows *)
Record RethPayloadBuilderService := {
  rs_generator : EmptyBlockPayloadJobGenerator;
  rs_canonical_states : Client;
}.

Inductive EmptyBuilder := EmptyBuilder_default.

(** [spawn_payload_service]: the critical task it spawns, by its name; the handle it returns is
    that of the service *)
Definition spawn_payload_service (self : EmptyBuilder) (ctx : BuilderContext) (pool : NodePool)
  : string * RethPayloadBuilderService :=
  let chain_spec := cx_chain_spec ctx in
  let conf := cx_payload_builder_config ctx in
  let payload_generator :=
    empty_with_builder (cx_provider ctx) pool (cx_task_executor ctx)
      (job_config_max_gas_limit
        (job_config_extradata
          (job_config_max_payload_tasks
            (job_config_deadline (job_config_interval job_config_default (conf_interval conf)) (conf_deadline conf))
            (conf_max_payload_tasks conf))
          (conf_extradata_bytes conf))
        (conf_max_gas_limit conf))
      chain_spec ethereum_payload_builder_default in
  ("reth payload-builder service"%string,
   {| rs_generator := payload_generator; rs_canonical_states := cx_provider ctx |}).
End EmptyBuilder.

(** ** Properties *)

Section EmptyJobProofs.
Context `{BR : BlockReader}.
Context (reth_empty_payload : Client -> RethPayloadConfig -> result PayloadBuilderError EthBuiltPayload).

(** a job answers with reth's empty payload on the parent block its attributes name, the same
    each time, and ends when it is resolved; it is not made when that block is
    unknown.  Left alone it never ends: only a resolution removes it. *)
Theorem empty_job_correct (self : EmptyBlockPayloadJobGenerator) (attributes : PayloadAttributes) :
  match empty_new_payload_job self attributes with
  | Ok job =>
      (exists parent, parent_block (eg_client self) attributes = Ok parent /\
         empty_best_payload reth_empty_payload job = reth_empty_payload (eg_client self)
           {| rp_parent_block := parent; rp_extra_data := []; rp_attributes := attributes;
              rp_chain_spec := eg_chain_spec self |}) /\
      empty_payload_attributes job = Ok attributes /\
      empty_resolve reth_empty_payload job = (empty_best_payload reth_empty_payload job, false, job) /\
      forall n, Nat.iter n (fun j => (empty_poll j).2) job = job /\
                (empty_poll (Nat.iter n (fun j => (empty_poll j).2) job)).1 = Pending
  | Err e => parent_block (eg_client self) attributes = Err e
  end.
Proof.
  unfold empty_new_payload_job. destruct (parent_block (eg_client self) attributes) as [parent|e] eqn:E; [|done].
  simpl. split_and!; [by exists parent|done|done|]. intros n. split; [by induction n|done].
Qed.

(** the payloads of the node itself are empty: whatever attributes it is asked to build on,
    the job its service makes answers with reth's empty payload on the parent block *)
Lemma node_payloads_empty `{RN : RethNode} (ctx : BuilderContext) (pool : NodePool) (attributes : PayloadAttributes)
    (parent : SealedBlock) :
  parent_block (cx_provider ctx) attributes = Ok parent ->
  exists job,
    empty_new_payload_job (rs_generator (spawn_payload_service EmptyBuilder_default ctx pool).2) attributes = Ok job /\
    empty_best_payload reth_empty_payload job = reth_empty_payload (cx_provider ctx)
      {| rp_parent_block := parent; rp_extra_data := []; rp_attributes := attributes;
         rp_chain_spec := cx_chain_spec ctx |}.
Proof.
  intros Hp. eexists. split; [unfold empty_new_payload_job; cbn [rs_generator spawn_payload_service snd empty_with_builder eg_client]; by rewrite Hp|done].
Qed.
End EmptyJobProofs.
