(* ===== verification/Consensus.v ===== *)
(** * The consensus layer's events

    Models [crates/consensus_layer/src/lib.rs], [connection.rs] and [types.rs]:
    the stream of payload attributes with its reconnection, the conversion of
    an event to the attributes of a build, and the names of forks. *)

From stdpp Require Import prelude list strings.
From S2P Require Import Prelude Types Chain.

Open Scope Z_scope.

(** ** [types.rs] *)

(** [str::to_lowercase].  Letters outside ASCII are left alone: none of them
    becomes a letter of a fork's name. *)
Definition ascii_to_lower (c : Ascii.ascii) : Ascii.ascii :=
  let n := Ascii.N_of_ascii c in
  if ((65 <=? n) && (n <=? 90))%N then Ascii.ascii_of_N (n + 32) else c.

Fixpoint to_lowercase (s : string) : string :=
  match s with
  | EmptyString => EmptyString
  | String c s => String (ascii_to_lower c) (to_lowercase s)
  end.

Inductive ForkName := Base | Altair | Merge | Capella | Deneb.

#[export] Instance ForkName_eq_dec : EqDecision ForkName.
Proof. solve_decision. Defined.

(** [impl FromStr for ForkName]: the error is a message *)
Definition ForkName_from_str (fork_name : string) : result string ForkName :=
  let s := to_lowercase fork_name in
  if decide (s = "phase0" \/ s = "base") then Ok Base
  else if decide (s = "altair") then Ok Altair
  else if decide (s = "bellatrix" \/ s = "merge") then Ok Merge
  else if decide (s = "capella") then Ok Capella
  else if decide (s = "deneb") then Ok Deneb
  else Err ("unknown fork name: " ++ fork_name)%string.

(** [impl Display for ForkName] *)
Definition ForkName_to_string (self : ForkName) : string :=
  match self with
  | Base => "phase0"
  | Altair => "altair"
  | Merge => "bellatrix"
  | Capella => "capella"
  | Deneb => "deneb"
  end.

Record LighthouseWithdrawal := {
  lw_index : Z;
  lw_validator_index : Z;
  lw_address : Address;
  lw_amount : Z;
}.

Record SsePayloadAttributes := {
  ssa_timestamp : Z;
  ssa_prev_randao : B256;
  ssa_suggested_fee_recipient : Address;
  ssa_withdrawals : list LighthouseWithdrawal;
}.

Record SseExtendedPayloadAttributes := {
  sse_proposal_slot : Z;
  sse_proposer_index : Z;
  sse_parent_block_root : B256;
  sse_parent_block_number : Z;
  sse_parent_block_hash : B256;
  sse_payload_attributes : SsePayloadAttributes;
}.

Record ForkVersionedResponse := {
  fvr_version : option ForkName;
  fvr_data : SseExtendedPayloadAttributes;
}.

(** [From<&LighthouseWithdrawal> for Withdrawal]: the fields of [reth]'s type *)
Definition Withdrawal_from (w : LighthouseWithdrawal) : Withdrawal :=
  {| wd_index := lw_index w; wd_validator_index := lw_validator_index w;
     wd_address := lw_address w; wd_amount := lw_amount w |}.

Definition to_reth_withdrawals (self : list LighthouseWithdrawal) : option (list Withdrawal) :=
  match self with [] => None | _ => Some (Withdrawal_from <$> self) end.

(** [PayloadAttributes] of the engine API *)
Record RpcPayloadAttributes := {
  rpa_timestamp : Z;
  rpa_prev_randao : B256;
  rpa_suggested_fee_recipient : Address;
  rpa_withdrawals : option (list Withdrawal);
  rpa_parent_beacon_block_root : option B256;
}.

(** [EthPayloadBuilderAttributes::new] and its documented behaviour: the fields
    of the request, with no withdrawals when there are none, and an identifier
    derived from it. *)
Class EthAttributes := {
  eth_attributes_new : B256 -> RpcPayloadAttributes -> PayloadAttributes;
  eth_attributes_fields : forall parent a,
    let r := eth_attributes_new parent a in
    pa_parent r = parent /\ pa_timestamp r = rpa_timestamp a /\
    pa_suggested_fee_recipient r = rpa_suggested_fee_recipient a /\
    pa_prev_randao r = rpa_prev_randao a /\
    pa_withdrawals r = default [] (rpa_withdrawals a) /\
    pa_parent_beacon_block_root r = rpa_parent_beacon_block_root a;
}.

(** ** [connection.rs]: the task that connects

    [connection_task]: what its attempts to subscribe give, in order; the stream it returns,
    and the seconds it has slept until then.  It has no result while every attempt has
    failed. *)
Definition RETRY_SECONDS : Z := 5.

Fixpoint connection_task {SubscribeError Stream : Type} (attempts : list (result SubscribeError Stream))
  : option (Stream * Z) :=
  match attempts with
  | [] => None
  | Ok stream :: _ => Some (stream, 0)
  | Err _ :: attempts => (fun r => (r.1, RETRY_SECONDS + r.2)) <$> connection_task attempts
  end.

(** the task ends with the first attempt that succeeds, five seconds later for each that
    failed before it, however many those are *)
Lemma connection_task_correct {SubscribeError Stream : Type} (attempts : list (result SubscribeError Stream))
    (stream : Stream) (slept : Z) :
  connection_task attempts = Some (stream, slept) <->
  exists n, attempts !! n = Some (Ok stream) /\ slept = RETRY_SECONDS * Z.of_nat n /\
    forall k, (k < n)%nat -> exists e, attempts !! k = Some (Err e).
Proof.
  revert slept. induction attempts as [|[s|e] attempts IH]; intros slept; simpl.
  - split; [done|]. by intros (n & H & _).
  - split.
    + intros [= -> <-]. exists 0%nat. split_and!; [done|done|lia].
    + intros ([|n] & H & -> & Hk); [by injection H as ->|]. by destruct (Hk 0%nat ltac:(lia)).
  - rewrite fmap_Some. split.
    + intros ([s d] & H & [= -> ->]). apply IH in H as (n & Hn & -> & Hk). exists (S n). split_and!; [done|simpl; lia|].
      intros [|k] Hlt; [by exists e|]. apply (Hk k). lia.
    + intros ([|n] & H & -> & Hk); [done|]. exists (stream, RETRY_SECONDS * Z.of_nat n). split; [|f_equal; simpl; lia].
      apply IH. exists n. split_and!; [done|done|]. intros k Hlt. apply (Hk (S k)). lia.
Qed.

Section Consensus.
Context `{EA : EthAttributes} {JoinError StreamError : Type}.

Definition into_reth_payload_attributes (self : ForkVersionedResponse) : PayloadAttributes :=
  let pl_attr :=
    {| rpa_timestamp := ssa_timestamp (sse_payload_attributes (fvr_data self));
       rpa_prev_randao := ssa_prev_randao (sse_payload_attributes (fvr_data self));
       rpa_suggested_fee_recipient :=
         ssa_suggested_fee_recipient (sse_payload_attributes (fvr_data self));
       rpa_withdrawals := to_reth_withdrawals (ssa_withdrawals (sse_payload_attributes (fvr_data self)));
       rpa_parent_beacon_block_root := Some (sse_parent_block_root (fvr_data self)) |} in
  eth_attributes_new (sse_parent_block_hash (fvr_data self)) pl_attr.

(** ** [connection.rs]

    Connection tasks are numbered in the order they are spawned, and a stream by
    the task that opened it.  [rx] is what the handle of each task yields;
    polling a handle again once it has completed panics. *)

Record ClConnection := {
  cn_inner : nat;
  cn_completed : bool;
}.

(** [ClConnection::new]: the number of tasks spawned so far, and the connection *)
Definition ClConnection_new (spawned : nat) : nat * ClConnection :=
  (S spawned, {| cn_inner := spawned; cn_completed := false |}).

Definition is_ready {A} (p : poll A) : bool := match p with Ready _ => true | Pending => false end.

(** [ClConnection::poll] *)
Definition connection_poll (spawned : nat) (self : ClConnection) (rx : nat -> poll (result JoinError unit))
  : run Empty_set (nat * ClConnection * poll nat) :=
  if cn_completed self then Panicked
  else
    match rx (cn_inner self) with
    | Ready (Ok _) =>
        Done (spawned, {| cn_inner := cn_inner self; cn_completed := true |}, Ready (cn_inner self))
    | Ready (Err _) =>
        Done (S spawned, {| cn_inner := spawned; cn_completed := is_ready (rx spawned) |}, Pending)
    | Pending => Done (spawned, self, Pending)
    end.

(** ** [lib.rs] *)

Record ConsensusLayer := {
  cl_spawned : nat;
  cl_connection : ClConnection;
  cl_payload_stream : option nat;
}.

Definition ConsensusLayer_new : ConsensusLayer :=
  let '(spawned, connection) := ClConnection_new 0 in
  {| cl_spawned := spawned; cl_connection := connection; cl_payload_stream := None |}.

(** What a poll finds: the next item of the stream it has, and the handles. *)
Record ConsensusPoll := {
  cp_stream : nat -> poll (option (result StreamError ForkVersionedResponse));
  cp_handles : nat -> poll (result JoinError unit);
}.

(** What will poll it again: the stream or the connection it waits for, or itself. *)
Inductive ConsensusWake := StreamWake | ConnectionWake | SelfWake.

Definition poll_next (self : ConsensusLayer) (i : ConsensusPoll)
  : run Empty_set (ConsensusLayer * poll (option (PayloadAttributes * Z)) * list ConsensusWake) :=
  match cl_payload_stream self with
  | Some stream =>
      match cp_stream i stream with
      | Ready (Some (Ok payload)) =>
          Done (self, Ready (Some (into_reth_payload_attributes payload,
                                   sse_proposal_slot (fvr_data payload))), [])
      | Ready (Some (Err _)) => Done (self, Pending, [])
      | Ready None =>
          let '(spawned, connection) := ClConnection_new (cl_spawned self) in
          res ← connection_poll spawned connection (cp_handles i);
          mret ({| cl_spawned := res.1.1; cl_connection := res.1.2;
                   cl_payload_stream := cl_payload_stream self |}, Pending,
                if cn_completed res.1.2 then [] else [ConnectionWake])
      | Pending => Done (self, Pending, [StreamWake])
      end
  | None =>
      res ← connection_poll (cl_spawned self) (cl_connection self) (cp_handles i);
      match res with
      | (spawned, connection, Ready stream) =>
          Done ({| cl_spawned := spawned; cl_connection := connection;
                   cl_payload_stream := Some stream |}, Pending, [SelfWake])
      | (spawned, connection, Pending) =>
          Done ({| cl_spawned := spawned; cl_connection := connection; cl_payload_stream := None |},
                Pending, if cn_completed connection then [] else [ConnectionWake])
      end
  end.

(** A run of polls, with the items it yields. *)
Fixpoint consensus_run (self : ConsensusLayer) (inputs : list ConsensusPoll)
  : run Empty_set (ConsensusLayer * list (PayloadAttributes * Z)) :=
  match inputs with
  | [] => Done (self, [])
  | i :: inputs =>
      res ← poll_next self i;
      rest ← consensus_run res.1.1 inputs;
      mret (rest.1, match res.1.2 with Ready (Some item) => item :: rest.2 | _ => rest.2 end)
  end.
End Consensus.

(** ** Properties *)

Section ConsensusProofs.
Context `{EA : EthAttributes} {JoinError StreamError : Type}.

Abbreviation ConsensusPoll := (ConsensusPoll (JoinError:=JoinError) (StreamError:=StreamError)).

(** an event of the consensus layer becomes the attributes of its slot, field by
    field: parent, timestamp, fee recipient, randomness, the withdrawals in order,
    and the root of the parent beacon block. *)
Theorem payload_event_converted (self : ConsensusLayer) (i : ConsensusPoll) (self' : ConsensusLayer)
    (a : PayloadAttributes) (slot : Z) (w : list ConsensusWake) :
  poll_next self i = Done (self', Ready (Some (a, slot)), w) ->
  exists stream e, cl_payload_stream self = Some stream /\
    cp_stream i stream = Ready (Some (Ok e)) /\ self' = self /\
    let d := fvr_data e in let p := sse_payload_attributes d in
    slot = sse_proposal_slot d /\ pa_parent a = sse_parent_block_hash d /\
    pa_timestamp a = ssa_timestamp p /\ pa_prev_randao a = ssa_prev_randao p /\
    pa_suggested_fee_recipient a = ssa_suggested_fee_recipient p /\
    pa_parent_beacon_block_root a = Some (sse_parent_block_root d) /\
    pa_withdrawals a = Withdrawal_from <$> ssa_withdrawals p.
Proof.
  unfold poll_next. destruct (cl_payload_stream self) as [stream|].
  - destruct (cp_stream i stream) as [[[e|e]|]|] eqn:Hs; try done.
    + intros [= <- <- <- _]. exists stream, e.
      pose proof (eth_attributes_fields (sse_parent_block_hash (fvr_data e))
        {| rpa_timestamp := ssa_timestamp (sse_payload_attributes (fvr_data e));
           rpa_prev_randao := ssa_prev_randao (sse_payload_attributes (fvr_data e));
           rpa_suggested_fee_recipient :=
             ssa_suggested_fee_recipient (sse_payload_attributes (fvr_data e));
           rpa_withdrawals := to_reth_withdrawals (ssa_withdrawals (sse_payload_attributes (fvr_data e)));
           rpa_parent_beacon_block_root := Some (sse_parent_block_root (fvr_data e)) |})
        as (H1 & H2 & H3 & H4 & H5 & H6).
      split_and!; try done. etrans; [exact H5|]. simpl. by destruct (ssa_withdrawals _).
    + cbn [ClConnection_new]. intros H. run_inv. congruence.
  - intros H. run_inv. destruct t as [[sp c] [s|]]; simpl in H; run_inv; congruence.
Qed.

(** what reachable connections look like *)
Definition consensus_ok (s : ConsensusLayer) : Prop :=
  cl_payload_stream s = None -> cn_completed (cl_connection s) = false.

(** a task that was only just spawned has not completed yet *)
Definition fresh_pending (s : ConsensusLayer) (i : ConsensusPoll) : Prop :=
  forall n, (cl_spawned s <= n)%nat -> cp_handles i n = Pending.

Lemma connection_poll_fresh (s : ConsensusLayer) (i : ConsensusPoll) :
  fresh_pending s i ->
  connection_poll (S (cl_spawned s)) {| cn_inner := cl_spawned s; cn_completed := false |} (cp_handles i) =
    Done (S (cl_spawned s), {| cn_inner := cl_spawned s; cn_completed := false |}, Pending).
Proof. intros Hf. unfold connection_poll. simpl. rewrite Hf by lia. done. Qed.

(** the stream never ends and polling it never panics; before the first
    connection it always waits for one; an item leaves it unchanged; only an error of the stream
    leaves it without anything to wake it. *)
Theorem consensus_poll_total (s : ConsensusLayer) (i : ConsensusPoll) :
  consensus_ok s -> fresh_pending s i ->
  exists s' p w, poll_next s i = Done (s', p, w) /\ p <> Ready None /\ consensus_ok s' /\
    (p = Pending -> w = [] <->
       exists stream e, cl_payload_stream s = Some stream /\ cp_stream i stream = Ready (Some (Err e))).
Proof.
  intros Hok Hf. unfold poll_next. destruct (cl_payload_stream s) as [stream|] eqn:Hs.
  - destruct (cp_stream i stream) as [[[e|e]|]|] eqn:Hi.
    + eexists _, _, _. split; [done|]. split_and!; [done|done|done].
    + eexists _, _, _. split; [done|]. split_and!; [done|done|]. intros _. split; [|done]. by eauto.
    + cbn [ClConnection_new]. rewrite connection_poll_fresh by done.
      eexists _, _, _. split; [done|]. split_and!; [done|done|]. intros _. split; [done|].
      intros (? & ? & [= <-] & H). congruence.
    + eexists _, _, _. split; [done|]. split_and!; [done|done|]. intros _. split; [done|].
      intros (? & ? & [= <-] & H). congruence.
  - unfold connection_poll. rewrite (Hok Hs). destruct (cp_handles i (cn_inner (cl_connection s))) as [[u|e]|].
    + eexists _, _, _. split; [done|]. split_and!; [done|done|]. intros _. split; [done|]. by intros (? & ? & ? & _).
    + rewrite (Hf (cl_spawned s)) by lia. eexists _, _, _. split; [done|]. split_and!; [done|done|].
      intros _. split; [done|]. by intros (? & ? & ? & _).
    + cbn [mbind run_bind]. rewrite (Hok Hs). eexists _, _, _. split; [done|]. split_and!; [done|intros _; by apply Hok|].
      intros _. split; [done|]. by intros (? & ? & ? & _).
Qed.

Lemma poll_next_keeps_stream (s : ConsensusLayer) (i : ConsensusPoll) s' p w stream :
  cl_payload_stream s = Some stream -> poll_next s i = Done (s', p, w) ->
  cl_payload_stream s' = Some stream /\
  (cp_stream i stream = Ready None -> p = Pending /\ (cl_spawned s < cl_spawned s')%nat).
Proof.
  intros Hs. unfold poll_next. rewrite Hs.
  destruct (cp_stream i stream) as [[[e|e]|]|]; try by intros [= <- <- <-].
  cbn [ClConnection_new]. unfold connection_poll. simpl.
  destruct (cp_handles i (cl_spawned s)) as [[u|e]|]; intros [= <- <- <-]; simpl; (split; [done|]);
    intros _; split; [done|lia|done|lia|done|lia].
Qed.

(** C35: a stream is never replaced.  Once connected, the builder reads that first stream
    for ever; when it ends, every poll opens a new connection and yields
    nothing: the streams of the new connections are never read. *)
Theorem ended_stream_never_replaced (s s' : ConsensusLayer) (stream : nat)
    (inputs : list ConsensusPoll) (items : list (PayloadAttributes * Z)) :
  cl_payload_stream s = Some stream ->
  (forall i, i ∈ inputs -> cp_stream i stream = Ready None) ->
  consensus_run s inputs = Done (s', items) ->
  items = [] /\ cl_payload_stream s' = Some stream /\
  (cl_spawned s + length inputs <= cl_spawned s')%nat.
Proof.
  revert s. induction inputs as [|i inputs IH]; intros s Hs Hin H; simpl in H; run_inv.
  { simplify_eq. split_and!; [done|done|simpl; lia]. }
  destruct t as [[s1 p] w], t0 as [s2 items1]. simpl in *. simplify_eq.
  destruct (poll_next_keeps_stream s i s1 p w stream Hs Hr) as [Hs1 Hp].
  destruct Hp as [-> Hlt]; [apply Hin; left|].
  destruct (IH s1 Hs1) as (-> & H2 & Hn); [|done|].
  { intros j Hj. apply Hin. by right. }
  split_and!; [done|done|lia].
Qed.
End ConsensusProofs.

(** ** Names of forks *)

Definition fork_names (f : ForkName) : list string :=
  match f with
  | Base => ["phase0"; "base"] | Altair => ["altair"] | Merge => ["bellatrix"; "merge"]
  | Capella => ["capella"] | Deneb => ["deneb"]
  end.

(** the names of forks: what is printed parses back, and a string parses to a fork exactly
    when it is one of its names, in any letter case; every other string is an
    error that quotes it. *)
Theorem fork_name_roundtrip (f : ForkName) (s : string) :
  ForkName_from_str (ForkName_to_string f) = Ok f /\
  (ForkName_from_str s = Ok f <-> to_lowercase s ∈ fork_names f) /\
  (is_ok (ForkName_from_str s) = false -> ForkName_from_str s = Err ("unknown fork name: " ++ s)%string).
Proof.
  split; [by destruct f|]. unfold ForkName_from_str. generalize (to_lowercase s) as l. intros l. split.
  - split.
    + repeat case_decide; intros [= <-]; set_solver.
    + destruct f; simpl; rewrite ?elem_of_cons, ?elem_of_nil; intros H;
        repeat case_decide; try done; exfalso; naive_solver.
  - by repeat case_decide.
Qed.

(** ** Evaluation on concrete inputs *)

#[export] Instance demo_eth_attributes : EthAttributes.
Proof.
  refine {| eth_attributes_new parent a :=
    {| pa_id := rpa_timestamp a + parent; pa_parent := parent; pa_timestamp := rpa_timestamp a;
       pa_suggested_fee_recipient := rpa_suggested_fee_recipient a; pa_prev_randao := rpa_prev_randao a;
       pa_withdrawals := default [] (rpa_withdrawals a);
       pa_parent_beacon_block_root := rpa_parent_beacon_block_root a |} |}.
  intros parent a. done.
Defined.

Definition demo_event : ForkVersionedResponse :=
  {| fvr_version := Some Capella;
     fvr_data :=
       {| sse_proposal_slot := 1; sse_proposer_index := 2; sse_parent_block_root := 4;
          sse_parent_block_number := 41; sse_parent_block_hash := 77;
          sse_payload_attributes :=
            {| ssa_timestamp := 250; ssa_prev_randao := 3; ssa_suggested_fee_recipient := 9;
               ssa_withdrawals := [{| lw_index := 1; lw_validator_index := 2; lw_address := 3; lw_amount := 100 |}] |} |} |}.

Definition demo_consensus : ConsensusLayer :=
  {| cl_spawned := 1; cl_connection := {| cn_inner := 0; cn_completed := true |}; cl_payload_stream := Some 0%nat |}.

Definition demo_consensus_input (x : option (result unit ForkVersionedResponse)) :
    ConsensusPoll (JoinError:=unit) (StreamError:=unit) :=
  {| cp_stream _ := Ready x; cp_handles _ := Pending |}.

Lemma payload_event_converted_witness :
  exists a, poll_next demo_consensus (demo_consensus_input (Some (Ok demo_event))) =
      Done (demo_consensus, Ready (Some (a, 1)), []) /\
    pa_parent a = 77 /\ length (pa_withdrawals a) = 1%nat.
Proof.
  eexists. split; [reflexivity|].
  destruct (payload_event_converted demo_consensus (demo_consensus_input (Some (Ok demo_event)))
    demo_consensus _ 1 [] eq_refl) as (stream & e & _ & He & _ & _ & H1 & _ & _ & _ & _ & H2).
  injection He as <-. split; [exact H1|]. rewrite H2. reflexivity.
Defined.

Lemma consensus_poll_total_witness :
  exists s' p w, poll_next ConsensusLayer_new (demo_consensus_input None) = Done (s', p, w) /\ p <> Ready None.
Proof.
  destruct (consensus_poll_total ConsensusLayer_new (demo_consensus_input None)) as (s' & p & w & H1 & H2 & _).
  - intros _. reflexivity.
  - intros n _. reflexivity.
  - exists s', p, w. split; [exact H1|exact H2].
Defined.

Lemma ended_stream_never_replaced_witness :
  exists s' items,
    consensus_run demo_consensus [demo_consensus_input None; demo_consensus_input None]
      = Done (s', items) /\ items = [] /\ cl_spawned s' = 3%nat.
Proof.
  eexists _, _. split; [reflexivity|].
  destruct (ended_stream_never_replaced demo_consensus _ 0 [demo_consensus_input None; demo_consensus_input None] _
    eq_refl ltac:(intros i [->|[->|Hi%elem_of_nil]%elem_of_cons]%elem_of_cons; done) eq_refl) as (H & _).
  split; [exact H|reflexivity].
Defined.
