(* ===== verification/Ssz.v ===== *)
(** * Encodings of the primitive types

    Models [crates/primitives/src/ssz.rs] and the tree hashes of
    [crates/primitives/src/blst/mod.rs]: how blooms, hashes, integers, addresses
    and byte strings are written in SSZ and read back, against the interface
    of a codec. *)

From stdpp Require Import prelude list strings.
From S2P Require Import Prelude Types.

Open Scope Z_scope.

(** ** Interface

    The traits [Encode] and [Decode] of the library.  A type of variable length
    keeps the library's fixed length, that of an offset. *)

Inductive DecodeError :=
| InvalidByteLength (len expected : nat)
| BytesInvalid (msg : string).

Class SszEncode (A : Type) := {
  is_ssz_fixed_len : bool;
  ssz_fixed_len : nat;
  ssz_bytes_len : A -> nat;
  ssz_append : A -> Bytes -> Bytes;
  as_ssz_bytes : A -> Bytes;
}.
#[global] Arguments is_ssz_fixed_len A {_}.
#[global] Arguments ssz_fixed_len A {_}.

Class SszDecode (A : Type) := {
  decode_is_ssz_fixed_len : bool;
  decode_ssz_fixed_len : nat;
  from_ssz_bytes : Bytes -> result DecodeError A;
}.
#[global] Arguments decode_is_ssz_fixed_len A {_}.
#[global] Arguments decode_ssz_fixed_len A {_}.

(** What a container relies on: the two sides agree on the layout; a value is
    written in as many bytes as announced, after what is already there; what is written
    is read back; and what is read was written, so that no two byte strings are
    read as one value. *)
Class SszCodec (A : Type) `{SszEncode A, SszDecode A} (wf : A -> Prop) : Prop := {
  codec_layout : is_ssz_fixed_len A = decode_is_ssz_fixed_len A /\
    (is_ssz_fixed_len A = true -> ssz_fixed_len A = decode_ssz_fixed_len A);
  codec_append : forall x buf, wf x -> ssz_append x buf = buf ++ as_ssz_bytes x;
  codec_len : forall x, wf x -> length (as_ssz_bytes x) = ssz_bytes_len x;
  codec_fixed : forall x, is_ssz_fixed_len A = true -> ssz_bytes_len x = ssz_fixed_len A;
  codec_roundtrip : forall x, wf x -> from_ssz_bytes (as_ssz_bytes x) = Ok x;
  codec_canonical : forall bs x, from_ssz_bytes bs = Ok x -> wf x /\ as_ssz_bytes x = bs;
  codec_rejects : forall bs, is_ssz_fixed_len A = true -> length bs <> ssz_fixed_len A ->
    from_ssz_bytes bs = Err (InvalidByteLength (length bs) (ssz_fixed_len A));
}.

(** ** The wrapper types *)

Record SszBloom := MkBloom { bloom_data : Bytes }.
Record SszB256 := MkB256 { b256_word : B256 }.
Record SszU256 := MkU256 { u256_value : Z }.
Record SszU64 := MkU64 { u64_value : Z }.
Record SszAddress := MkAddress { address_word : Address }.
Record SszBytes := MkBytes { bytes_data : Bytes }.

Definition bloom_wf (b : SszBloom) : Prop := length (bloom_data b) = 256%nat.
Definition b256_wf (b : SszB256) : Prop := is_u256 (b256_word b).
Definition u256_wf (u : SszU256) : Prop := is_u256 (u256_value u).
Definition u64_wf (u : SszU64) : Prop := is_u64 (u64_value u).
Definition address_wf (a : SszAddress) : Prop := 0 <= address_word a < 2 ^ 160.
Definition bytes_wf (b : SszBytes) : Prop := True.

(** The library's encoding of [Hash256] and [FixedBytes<32>], to which [B256]
    delegates: 32 bytes, the most significant first. *)
Class Hash256Ssz := {
  hash256_append : B256 -> Bytes -> Bytes;
  hash256_bytes_len : B256 -> nat;
  hash256_from_ssz_bytes : Bytes -> result DecodeError B256;
  hash256_append_spec : forall h buf, is_u256 h -> hash256_append h buf = buf ++ be_bytes 32 h;
  hash256_len : forall h, hash256_bytes_len h = 32%nat;
  hash256_read : forall h, is_u256 h -> hash256_from_ssz_bytes (be_bytes 32 h) = Ok h;
  hash256_canonical : forall bs h, hash256_from_ssz_bytes bs = Ok h -> is_u256 h /\ be_bytes 32 h = bs;
  hash256_rejects : forall bs, length bs <> 32%nat ->
    hash256_from_ssz_bytes bs = Err (InvalidByteLength (length bs) 32);
}.

(** [impl Encode] and [impl Decode]; [as_ssz_bytes] is the trait's default, an
    append to an empty buffer, where the type does not override it *)

Definition bloom_encode : SszEncode SszBloom := {|
  is_ssz_fixed_len := true;
  ssz_fixed_len := 256%nat;
  ssz_bytes_len _ := 256%nat;
  ssz_append self buf := buf ++ bloom_data self;
  as_ssz_bytes self := [] ++ bloom_data self;
|}.
#[export] Existing Instance bloom_encode.

Definition bloom_decode : SszDecode SszBloom := {|
  decode_is_ssz_fixed_len := true;
  decode_ssz_fixed_len := 256%nat;
  from_ssz_bytes bytes :=
    if bool_decide (length bytes <> 256%nat) then Err (InvalidByteLength (length bytes) 256)
    else Ok (MkBloom bytes);
|}.
#[export] Existing Instance bloom_decode.

Definition b256_encode `{Hash256Ssz} : SszEncode SszB256 := {|
  is_ssz_fixed_len := true;
  ssz_fixed_len := 32%nat;
  ssz_bytes_len self := hash256_bytes_len (b256_word self);
  ssz_append self buf := hash256_append (b256_word self) buf;
  as_ssz_bytes self := hash256_append (b256_word self) [];
|}.
#[export] Existing Instance b256_encode.

Definition b256_decode `{Hash256Ssz} : SszDecode SszB256 := {|
  decode_is_ssz_fixed_len := true;
  decode_ssz_fixed_len := 32%nat;
  from_ssz_bytes bytes :=
    match hash256_from_ssz_bytes bytes with Ok h => Ok (MkB256 h) | Err e => Err e end;
|}.
#[export] Existing Instance b256_decode.

Definition u256_encode : SszEncode SszU256 := {|
  is_ssz_fixed_len := true;
  ssz_fixed_len := 32%nat;
  ssz_bytes_len _ := 32%nat;
  ssz_append self buf := buf ++ le_bytes 32 (u256_value self);
  as_ssz_bytes self := [] ++ le_bytes 32 (u256_value self);
|}.
#[export] Existing Instance u256_encode.

Definition u256_decode : SszDecode SszU256 := {|
  decode_is_ssz_fixed_len := true;
  decode_ssz_fixed_len := 32%nat;
  from_ssz_bytes bytes :=
    if bool_decide (length bytes <> 32%nat) then Err (InvalidByteLength (length bytes) 32)
    else Ok (MkU256 (le_value bytes));
|}.
#[export] Existing Instance u256_decode.

Definition bytes_encode : SszEncode SszBytes := {|
  is_ssz_fixed_len := false;
  ssz_fixed_len := 4%nat;
  ssz_bytes_len self := length (bytes_data self);
  ssz_append self buf := buf ++ bytes_data self;
  as_ssz_bytes self := bytes_data self;
|}.
#[export] Existing Instance bytes_encode.

Definition bytes_decode : SszDecode SszBytes := {|
  decode_is_ssz_fixed_len := false;
  decode_ssz_fixed_len := 4%nat;
  from_ssz_bytes bytes := Ok (MkBytes bytes);
|}.
#[export] Existing Instance bytes_decode.

Definition u64_encode : SszEncode SszU64 := {|
  is_ssz_fixed_len := true;
  ssz_fixed_len := 8%nat;
  ssz_bytes_len _ := 8%nat;
  ssz_append self buf := buf ++ le_bytes 8 (u64_value self);
  as_ssz_bytes self := [] ++ le_bytes 8 (u64_value self);
|}.
#[export] Existing Instance u64_encode.

Definition u64_decode : SszDecode SszU64 := {|
  decode_is_ssz_fixed_len := true;
  decode_ssz_fixed_len := 8%nat;
  from_ssz_bytes bytes :=
    if bool_decide (length bytes <> 8%nat) then Err (InvalidByteLength (length bytes) 8)
    else Ok (MkU64 (le_value bytes));
|}.
#[export] Existing Instance u64_decode.

Definition address_encode : SszEncode SszAddress := {|
  is_ssz_fixed_len := true;
  ssz_fixed_len := 20%nat;
  ssz_bytes_len _ := 20%nat;
  ssz_append self buf := buf ++ be_bytes 20 (address_word self);
  as_ssz_bytes self := [] ++ be_bytes 20 (address_word self);
|}.
#[export] Existing Instance address_encode.

Definition be_value (bs : Bytes) : Z := le_value (rev bs).

Definition address_decode : SszDecode SszAddress := {|
  decode_is_ssz_fixed_len := true;
  decode_ssz_fixed_len := 20%nat;
  from_ssz_bytes bytes :=
    if bool_decide (length bytes <> 20%nat) then Err (InvalidByteLength (length bytes) 20)
    else Ok (MkAddress (be_value bytes));
|}.
#[export] Existing Instance address_decode.

(** ** Tree hashes *)

(** [TreeHash] for [B256], [U256] and [Address]: the packed encoding of a
    vector or basic value, and the root, 32 bytes both *)
Definition b256_tree_hash_root (self : SszB256) : Bytes := be_bytes 32 (b256_word self).
Definition u256_tree_hash_root (self : SszU256) : Bytes := le_bytes 32 (u256_value self).
Definition address_tree_hash_root (self : SszAddress) : Bytes :=
  be_bytes 20 (address_word self) ++ repeat Byte.x00 12.

(** ** Merkle trees of the specification *)

Definition BYTES_PER_CHUNK : nat := 32.
Definition ZERO_CHUNK : Bytes := repeat Byte.x00 BYTES_PER_CHUNK.

(** the root of the tree of this depth, missing leaves being zero *)
Fixpoint merkle_tree (hash : Bytes -> Bytes -> Bytes) (depth : nat) (leaves : list Bytes) : Bytes :=
  match depth with
  | O => default ZERO_CHUNK (head leaves)
  | S depth =>
      hash (merkle_tree hash depth (take (2 ^ depth) leaves))
           (merkle_tree hash depth (drop (2 ^ depth) leaves))
  end.

(** bytes in chunks, the last one padded with zeros *)
Fixpoint chunks (n : nat) (bs : Bytes) : list Bytes :=
  match n with
  | O => []
  | S n =>
      let h := take BYTES_PER_CHUNK bs in
      (h ++ repeat Byte.x00 (BYTES_PER_CHUNK - length h)) :: chunks n (drop BYTES_PER_CHUNK bs)
  end.

Abbreviation chunked := (Forall (fun l : Bytes => length l = BYTES_PER_CHUNK)).

(** ** Properties *)

#[local] Arguments le_bytes : simpl never.
#[local] Arguments be_bytes : simpl never.
#[local] Arguments le_value : simpl never.

Lemma le_value_inj n x y :
  0 <= x < 256 ^ Z.of_nat n -> 0 <= y < 256 ^ Z.of_nat n -> le_bytes n x = le_bytes n y -> x = y.
Proof.
  intros Hx Hy H. apply (f_equal le_value) in H. by rewrite !le_value_bytes, !Z.mod_small in H.
Qed.

Lemma le_value_of_bytes n x : 0 <= x < 256 ^ Z.of_nat n -> le_value (le_bytes n x) = x.
Proof. intros Hx. by rewrite le_value_bytes, Z.mod_small. Qed.

Lemma be_value_of_bytes n x : 0 <= x < 256 ^ Z.of_nat n -> be_value (be_bytes n x) = x.
Proof. intros Hx. unfold be_value, be_bytes. by rewrite rev_involutive, le_value_of_bytes. Qed.

Lemma be_bytes_of_value bs : be_bytes (length bs) (be_value bs) = bs.
Proof.
  unfold be_bytes, be_value. rewrite <- (length_rev bs), le_bytes_value. apply rev_involutive.
Qed.

Lemma be_value_range bs : 0 <= be_value bs < 256 ^ Z.of_nat (length bs).
Proof. unfold be_value. rewrite <- length_rev. apply le_value_range. Qed.

(** the well-formed values of a codec, in other words *)
Lemma codec_iff {A} `{SszEncode A, SszDecode A} (wf wf' : A -> Prop) :
  (forall x, wf x <-> wf' x) -> SszCodec A wf -> SszCodec A wf'.
Proof.
  intros Hw [H1 H2 H3 H4 H5 H6 H7]. split; try done.
  - intros x buf Hx%Hw. by apply H2.
  - intros x Hx%Hw. by apply H3.
  - intros x Hx%Hw. by apply H5.
  - intros bs x [Hx ?]%H6. apply Hw in Hx. done.
Qed.

#[export] Instance bloom_codec : SszCodec SszBloom bloom_wf.
Proof.
  split; simpl; try done.
  - intros [d] H. unfold bloom_wf in H. simpl in *. by rewrite bool_decide_eq_false_2 by lia.
  - intros bs x. case_bool_decide as Hl; [done|]. intros [= <-]. split; [|done]. unfold bloom_wf. simpl. lia.
  - intros bs _ Hl. by rewrite bool_decide_eq_true_2.
Qed.

(** the laws of a codec whose bytes are [enc x], of length [n], and whose value is
    [dec bs] *)
Lemma fixed_roundtrip {A} (n : nat) (enc : A -> Bytes) (dec : Bytes -> A) (wf : A -> Prop) :
  (forall x, wf x -> length (enc x) = n) -> (forall x, wf x -> dec (enc x) = x) ->
  (forall bs, length bs = n -> wf (dec bs) /\ enc (dec bs) = bs) ->
  let read bytes := if bool_decide (length bytes <> n) then Err (InvalidByteLength (length bytes) n)
                    else Ok (dec bytes) in
  (forall x, wf x -> read (enc x) = Ok x) /\
  (forall bs x, read bs = Ok x -> wf x /\ enc x = bs) /\
  (forall bs, length bs <> n -> read bs = Err (InvalidByteLength (length bs) n)).
Proof.
  intros H1 H2 H3 read. unfold read. split_and!.
  - intros x Hx. rewrite bool_decide_eq_false_2 by (rewrite H1 by done; lia). by rewrite H2.
  - intros bs x. case_bool_decide as Hl; [done|]. intros [= <-]. apply H3. lia.
  - intros bs Hl. by rewrite bool_decide_eq_true_2.
Qed.

#[export] Instance u256_codec : SszCodec SszU256 u256_wf.
Proof.
  destruct (fixed_roundtrip 32 (fun u => le_bytes 32 (u256_value u)) (fun bs => MkU256 (le_value bs)) u256_wf)
    as (H1 & H2 & H3).
  - intros x _. apply length_le_bytes.
  - intros [x] Hx. simpl. f_equal. by apply le_value_of_bytes.
  - intros bs Hl. unfold u256_wf, is_u256. simpl u256_value. rewrite <- Hl. split; [|apply le_bytes_value].
    pose proof (le_value_range bs) as H. rewrite Hl in H. exact H.
  - split; try done; intros; first [apply length_le_bytes|by apply H3].
Qed.

#[export] Instance u64_codec : SszCodec SszU64 u64_wf.
Proof.
  destruct (fixed_roundtrip 8 (fun u => le_bytes 8 (u64_value u)) (fun bs => MkU64 (le_value bs)) u64_wf)
    as (H1 & H2 & H3).
  - intros x _. apply length_le_bytes.
  - intros [x] Hx. simpl. f_equal. by apply le_value_of_bytes.
  - intros bs Hl. unfold u64_wf, is_u64. simpl u64_value. rewrite <- Hl. split; [|apply le_bytes_value].
    pose proof (le_value_range bs) as H. rewrite Hl in H. exact H.
  - split; try done; intros; first [apply length_le_bytes|by apply H3].
Qed.

#[export] Instance address_codec : SszCodec SszAddress address_wf.
Proof.
  destruct (fixed_roundtrip 20 (fun a => be_bytes 20 (address_word a)) (fun bs => MkAddress (be_value bs)) address_wf)
    as (H1 & H2 & H3).
  - intros x _. apply length_be_bytes.
  - intros [x] Hx. simpl. f_equal. by apply be_value_of_bytes.
  - intros bs Hl. unfold address_wf. simpl address_word. rewrite <- Hl. split; [|apply be_bytes_of_value].
    pose proof (be_value_range bs) as H. rewrite Hl in H. exact H.
  - split; try done; intros; first [apply length_be_bytes|by apply H3].
Qed.

#[export] Instance bytes_codec : SszCodec SszBytes bytes_wf.
Proof.
  split; simpl; try done.
  - by intros [d] _.
  - by intros bs [d] [= <-].
Qed.

#[export] Instance b256_codec `{Hash256Ssz} : SszCodec SszB256 b256_wf.
Proof.
  split; simpl; try done.
  - intros x buf Hx. rewrite !hash256_append_spec by done. done.
  - intros x Hx. rewrite hash256_append_spec, hash256_len by done. apply length_be_bytes.
  - intros x _. apply hash256_len.
  - intros [x] Hx. simpl. rewrite hash256_append_spec by done. simpl. by rewrite hash256_read.
  - intros bs x. destruct (hash256_from_ssz_bytes bs) as [h|e] eqn:E; [|done]. intros [= <-].
    apply hash256_canonical in E as [Hh Hb]. split; [done|]. simpl. by rewrite hash256_append_spec.
  - intros bs _ Hl. by rewrite hash256_rejects.
Qed.

(** every primitive type of a bid has a lawful SSZ codec: values read back as they were
    written, in the number of bytes announced; every byte string of a type's
    length is the encoding of exactly one value; any other length is refused
    with the two lengths. *)
Theorem ssz_primitives_lawful `{Hash256Ssz} :
  SszCodec SszBloom bloom_wf /\ SszCodec SszB256 b256_wf /\ SszCodec SszU256 u256_wf /\
  SszCodec SszU64 u64_wf /\ SszCodec SszAddress address_wf /\ SszCodec SszBytes bytes_wf.
Proof. split_and!; apply _. Qed.

(** the tree hash roots of hashes, integers and addresses are 32 bytes and
    determine the value: no two messages that differ in one of them have the
    same leaf. *)
Theorem tree_hash_roots_injective :
  (forall x, length (b256_tree_hash_root x) = 32%nat /\ length (u256_tree_hash_root (MkU256 (b256_word x))) = 32%nat) /\
  (forall x, length (address_tree_hash_root x) = 32%nat) /\
  (forall x y, b256_wf x -> b256_wf y -> b256_tree_hash_root x = b256_tree_hash_root y -> x = y) /\
  (forall x y, u256_wf x -> u256_wf y -> u256_tree_hash_root x = u256_tree_hash_root y -> x = y) /\
  (forall x y, address_wf x -> address_wf y -> address_tree_hash_root x = address_tree_hash_root y -> x = y).
Proof.
  unfold b256_tree_hash_root, u256_tree_hash_root, address_tree_hash_root, b256_wf, u256_wf, address_wf, is_u256.
  split_and!.
  - intros x. split; [apply length_be_bytes|apply length_le_bytes].
  - intros x. by rewrite length_app, length_be_bytes, repeat_length.
  - intros [x] [y] Hx Hy E. cbn [b256_word] in *. apply (f_equal be_value) in E.
    rewrite !be_value_of_bytes in E by done. congruence.
  - intros [x] [y] Hx Hy E. cbn [u256_value] in *. apply le_value_inj in E; [congruence|done|done].
  - intros [x] [y] Hx Hy E. cbn [address_word] in *. apply app_inj_1 in E as [E _]; [|by rewrite !length_be_bytes].
    apply (f_equal be_value) in E. rewrite !be_value_of_bytes in E by done. congruence.
Qed.

(** *** Merkle trees *)

Lemma merkle_tree_length hash depth leaves :
  (forall l r, length (hash l r) = BYTES_PER_CHUNK) -> chunked leaves ->
  length (merkle_tree hash depth leaves) = BYTES_PER_CHUNK.
Proof.
  intros Hh Hl. destruct depth as [|depth]; cbn [merkle_tree]; [|apply Hh].
  destruct Hl as [|l leaves Hl _]; [apply repeat_length|exact Hl].
Qed.

Lemma chunks_length n bs : length (chunks n bs) = n.
Proof. revert bs. induction n as [|n IH]; intros bs; [done|]. cbn [chunks length]. by rewrite IH. Qed.

Lemma chunks_chunked n bs : chunked (chunks n bs).
Proof.
  revert bs. induction n as [|n IH]; intros bs; cbn [chunks]; constructor; [|apply IH].
  rewrite length_app, repeat_length. pose proof (length_take bs BYTES_PER_CHUNK). lia.
Qed.

Lemma chunks_inj n b1 b2 :
  length b1 = length b2 -> (length b1 <= BYTES_PER_CHUNK * n)%nat -> chunks n b1 = chunks n b2 -> b1 = b2.
Proof.
  revert b1 b2. induction n as [|n IH]; intros b1 b2 Hl Hn.
  - intros _. destruct b1, b2; simpl in *; done || lia.
  - cbn [chunks]. intros [= H1 H2].
    assert (length (take BYTES_PER_CHUNK b1) = length (take BYTES_PER_CHUNK b2)) as Ht by by rewrite !length_take, Hl.
    apply app_inj_1 in H1 as [H1 _]; [|done].
    apply IH in H2; [|by rewrite !length_drop, Hl|rewrite length_drop; lia].
    rewrite <- (take_drop BYTES_PER_CHUNK b1), <- (take_drop BYTES_PER_CHUNK b2). by rewrite H1, H2.
Qed.

(** ** Evaluation on concrete inputs *)

(** a toy hash of two nodes *)
Definition demo_hash (l r : Bytes) : Bytes := be_bytes 32 (be_value l + 3 * be_value r).

Lemma demo_hash_len l r : length (demo_hash l r) = BYTES_PER_CHUNK.
Proof. apply length_be_bytes. Qed.

Lemma merkle_value hash depth leaves :
  (forall l r, length (hash l r) = BYTES_PER_CHUNK) -> chunked leaves ->
  be_bytes 32 (be_value (merkle_tree hash depth leaves)) = merkle_tree hash depth leaves.
Proof.
  intros Hh Hl. rewrite <- (merkle_tree_length _ depth leaves Hh Hl) at 1. apply be_bytes_of_value.
Qed.

#[export] Instance demo_hash256 : Hash256Ssz.
Proof.
  refine {| hash256_append h buf := buf ++ be_bytes 32 h; hash256_bytes_len _ := 32%nat;
            hash256_from_ssz_bytes bs :=
              if bool_decide (length bs <> 32%nat) then Err (InvalidByteLength (length bs) 32)
              else Ok (be_value bs) |}; try done.
  - intros h Hh. rewrite bool_decide_eq_false_2 by (rewrite length_be_bytes; lia).
    by rewrite be_value_of_bytes.
  - intros bs h. case_bool_decide as Hl; [done|]. intros [= <-].
    assert (length bs = 32%nat) as E by lia. rewrite <- E. split; [|apply be_bytes_of_value].
    pose proof (be_value_range bs) as H. rewrite E in H. exact H.
  - intros bs Hl. by rewrite bool_decide_eq_true_2.
Defined.

Example ssz_u256_50 : as_ssz_bytes (MkU256 50) = byte_of_Z 50 :: repeat Byte.x00 31.
Proof. reflexivity. Qed.

Lemma ssz_primitives_lawful_witness :
  from_ssz_bytes (as_ssz_bytes (MkB256 77)) = Ok (MkB256 77) /\
  from_ssz_bytes (A:=SszU256) [Byte.x00] = Err (InvalidByteLength 1 32).
Proof.
  destruct (ssz_primitives_lawful (H := demo_hash256)) as (_ & H1 & H2 & _).
  split; [apply H1; split; reflexivity || (simpl; lia)|apply H2; [reflexivity|done]].
Defined.
