(* ===== verification/Blst.v ===== *)
(** * BLS keys and signatures

    Models [crates/primitives/src/blst/]: the wrappers of the BLS library's
    points, with their checks of lengths, of the point at infinity and of the
    zero key, their SSZ and textual encodings ([macros.rs]), and the signer's
    use of them. *)

From stdpp Require Import prelude list strings.
From S2P Require Import Prelude Types Validator Chain Payload Bid Ssz.

Open Scope Z_scope.

Definition PUBLIC_KEY_BYTES_LEN : nat := 48.
Definition SECRET_KEY_BYTES_LEN : nat := 32.
Definition SIGNATURE_BYTES_LEN : nat := 96.

(** ** The libraries *)

(** [blst::min_pk]: points, their bytes, signing and verification. *)
Class BlstLib := {
  BlstError : Type;
  PublicKeyPoint : Type;
  compress : PublicKeyPoint -> Bytes;
  key_validate : Bytes -> result BlstError PublicKeyPoint;
  SignaturePoint : Type;
  sig_to_bytes : SignaturePoint -> Bytes;
  sig_from_bytes : Bytes -> result BlstError SignaturePoint;
  (** message, domain separation tag, augmentation, key: whether it succeeds *)
  sig_verify : SignaturePoint -> Bytes -> Bytes -> Bytes -> PublicKeyPoint -> bool;
  SecretKeyPoint : Type;
  sk_to_pk : SecretKeyPoint -> PublicKeyPoint;
  sk_sign : SecretKeyPoint -> Bytes -> Bytes -> Bytes -> SignaturePoint;
  sk_from_bytes : Bytes -> result BlstError SecretKeyPoint;
  sk_to_bytes : SecretKeyPoint -> Bytes;
  (** [BLS_SIG_BLS12381G2_XMD:SHA-256_SSWU_RO_POP_], in bytes *)
  DST : Bytes;
  (** [tree_hash::merkle_root] *)
  merkle_root : Bytes -> nat -> B256;
}.

(** [serde_utils::hex] *)
Class HexLib := {
  hex_encode : Bytes -> string;
  hex_decode : string -> result string Bytes;
  hex_roundtrip : forall bs, hex_decode (hex_encode bs) = Ok bs;
}.

Section Blst.
Context `{BS : BlstLib}.

Inductive Error :=
| Blst (e : BlstError)
| InvalidKeyByteLength (got expected : nat)
| InvalidSecretKeyLength (got expected : nat)
| InvalidInfinityPublicKey
| InvalidZeroSecretKey.

(** ** Public keys *)

Definition INFINITY_PUBLIC_KEY : Bytes := Byte.xc0 :: repeat Byte.x00 47.

Record GenericPublicKey := { pk_point : PublicKeyPoint }.

(** [TPublicKey::deserialize] for the library's points *)
Definition point_deserialize (bytes : Bytes) : result Error PublicKeyPoint :=
  if bool_decide (length bytes <> PUBLIC_KEY_BYTES_LEN)
  then Err (InvalidKeyByteLength (length bytes) PUBLIC_KEY_BYTES_LEN)
  else map_err Blst (key_validate bytes).

Definition pk_from_point (point : PublicKeyPoint) : GenericPublicKey := {| pk_point := point |}.

Definition pk_serialize (self : GenericPublicKey) : Bytes := compress (pk_point self).

Definition pk_deserialize (bytes : Bytes) : result Error GenericPublicKey :=
  if bool_decide (bytes = INFINITY_PUBLIC_KEY) then Err InvalidInfinityPublicKey
  else point ← point_deserialize bytes; mret {| pk_point := point |}.

(** [PartialEq] compares the compressed bytes *)
Definition pk_eq (self other : GenericPublicKey) : bool :=
  bool_decide (pk_serialize self = pk_serialize other).

(** ** Signatures *)

Definition INFINITY_SIGNATURE : Bytes := Byte.xc0 :: repeat Byte.x00 95.
Definition NONE_SIGNATURE : Bytes := repeat Byte.x00 SIGNATURE_BYTES_LEN.

Record GenericSignature := {
  sig_point : option SignaturePoint;
  sig_is_infinity : bool;
}.

Definition sig_empty : GenericSignature := {| sig_point := None; sig_is_infinity := false |}.

Definition sig_is_empty (self : GenericSignature) : bool :=
  match sig_point self with None => true | Some _ => false end.

Definition sig_serialize (self : GenericSignature) : Bytes :=
  match sig_point self with Some point => sig_to_bytes point | None => NONE_SIGNATURE end.

Definition sig_deserialize (bytes : Bytes) : result Error GenericSignature :=
  point ← (if bool_decide (bytes = NONE_SIGNATURE) then Ok None
           else p ← map_err Blst (sig_from_bytes bytes); mret (Some p));
  mret {| sig_point := point; sig_is_infinity := bool_decide (bytes = INFINITY_SIGNATURE) |}.

Definition sig_from_point (point : SignaturePoint) (is_infinity : bool) : GenericSignature :=
  {| sig_point := Some point; sig_is_infinity := is_infinity |}.

(** [verify]: an empty signature verifies nothing *)
Definition sig_verifies (self : GenericSignature) (pubkey : GenericPublicKey) (msg : Bytes) : bool :=
  match sig_point self with
  | Some point => sig_verify point msg DST [] (pk_point pubkey)
  | None => false
  end.

(** ** Secret keys *)

Record GenericSecretKey := { sk_point : SecretKeyPoint }.

Definition gsk_sign (self : GenericSecretKey) (msg : Bytes) : GenericSignature :=
  sig_from_point (sk_sign (sk_point self) msg DST []) false.

Definition gsk_public_key (self : GenericSecretKey) : GenericPublicKey :=
  pk_from_point (sk_to_pk (sk_point self)).

Definition gsk_serialize (self : GenericSecretKey) : Bytes := sk_to_bytes (sk_point self).

Definition gsk_deserialize (bytes : Bytes) : result Error GenericSecretKey :=
  if bool_decide (length bytes <> SECRET_KEY_BYTES_LEN)
  then Err (InvalidSecretKeyLength (length bytes) SECRET_KEY_BYTES_LEN)
  else if forallb (fun b => bool_decide (b = Byte.x00)) bytes then Err InvalidZeroSecretKey
  else p ← map_err Blst (sk_from_bytes bytes); mret {| sk_point := p |}.

(** ** The macros

    [impl_tree_hash!], [impl_ssz_encode!], [impl_ssz_decode!], [impl_display!]
    and [impl_from_str!], over the serialisation of a type; [error_debug] is
    the derived [Debug] of the errors. *)

Definition div_ceil (x y : nat) : nat := (x + (y - 1)) / y.

Definition macro_tree_hash_root (serialized : Bytes) (byte_size : nat) : B256 :=
  merkle_root serialized (div_ceil byte_size 32).

Definition macro_ssz_encode {A} (byte_size : nat) (serialize : A -> Bytes) : SszEncode A :=
  {| is_ssz_fixed_len := true; ssz_fixed_len := byte_size; ssz_bytes_len _ := byte_size;
     ssz_append self buf := buf ++ serialize self; as_ssz_bytes self := [] ++ serialize self |}.

Definition macro_ssz_decode {A} (error_debug : Error -> string) (byte_size : nat)
    (deserialize : Bytes -> result Error A) : SszDecode A :=
  {| decode_is_ssz_fixed_len := true; decode_ssz_fixed_len := byte_size;
     from_ssz_bytes bytes :=
       if bool_decide (length bytes <> byte_size) then Err (InvalidByteLength (length bytes) byte_size)
       else map_err (fun e => BytesInvalid (error_debug e)) (deserialize bytes) |}.

Definition macro_display `{HX : HexLib} {A} (serialize : A -> Bytes) (self : A) : string :=
  hex_encode (serialize self).

Definition macro_from_str `{HX : HexLib} {A} (error_debug : Error -> string)
    (deserialize : Bytes -> result Error A) (s : string) : result string A :=
  bytes ← hex_decode s;
  map_err error_debug (deserialize bytes).
End Blst.

(** Documented behaviour of the library: compressed bytes have their length and determine the
    point; validation accepts what it compresses to, and only that, save the point at
    infinity; signatures are never all zero bytes; a key's signatures verify; the
    bytes of a secret key are 32, not all zero, and read back. *)
Class BlstLaws `{BS : BlstLib} := {
  compress_length : forall p, length (compress p) = PUBLIC_KEY_BYTES_LEN;
  key_validate_compress : forall p, compress p <> INFINITY_PUBLIC_KEY -> key_validate (compress p) = Ok p;
  key_validate_canonical : forall bs p, length bs = PUBLIC_KEY_BYTES_LEN -> key_validate bs = Ok p -> compress p = bs;
  sig_length : forall s, length (sig_to_bytes s) = SIGNATURE_BYTES_LEN;
  sig_nonzero : forall s, sig_to_bytes s <> NONE_SIGNATURE;
  sig_read : forall s, sig_from_bytes (sig_to_bytes s) = Ok s;
  sig_canonical : forall bs s, length bs = SIGNATURE_BYTES_LEN -> sig_from_bytes bs = Ok s -> sig_to_bytes s = bs;
  sign_verifies : forall k msg dst aug, sig_verify (sk_sign k msg dst aug) msg dst aug (sk_to_pk k) = true;
  pk_not_infinity : forall k, compress (sk_to_pk k) <> INFINITY_PUBLIC_KEY;
  sign_not_infinity : forall k msg dst aug, sig_to_bytes (sk_sign k msg dst aug) <> INFINITY_SIGNATURE;
  sk_length : forall k, length (sk_to_bytes k) = SECRET_KEY_BYTES_LEN;
  sk_nonzero : forall k, exists b, b ∈ sk_to_bytes k /\ b <> Byte.x00;
  sk_read : forall k, sk_from_bytes (sk_to_bytes k) = Ok k;
}.

(** ** Properties *)

Section BlstProofs.
Context `{BL : BlstLaws} `{HX : HexLib} (error_debug : Error -> string).

(** what a key read from bytes or derived from a secret key looks like *)
Definition pk_wf (k : GenericPublicKey) : Prop := pk_serialize k <> INFINITY_PUBLIC_KEY.

(** a signature whose flag says what its bytes are *)
Definition sig_wf (s : GenericSignature) : Prop :=
  sig_is_infinity s = bool_decide (sig_serialize s = INFINITY_SIGNATURE).

Lemma pk_roundtrip k : pk_wf k -> pk_deserialize (pk_serialize k) = Ok k.
Proof.
  intros Hk. unfold pk_deserialize, point_deserialize. rewrite bool_decide_eq_false_2 by done.
  unfold pk_serialize. rewrite bool_decide_eq_false_2 by (rewrite compress_length; tauto).
  rewrite key_validate_compress by done. by destruct k.
Qed.

Lemma pk_canonical bs k : pk_deserialize bs = Ok k -> pk_wf k /\ pk_serialize k = bs.
Proof.
  unfold pk_deserialize, point_deserialize. case_bool_decide as Hi; [done|].
  case_bool_decide as Hl; [done|].
  destruct (key_validate bs) as [p|e] eqn:Hv; [|done]. intros [= <-].
  assert (pk_serialize {| pk_point := p |} = bs) as E.
  { apply key_validate_canonical; [|done]. destruct (decide (length bs = PUBLIC_KEY_BYTES_LEN)); tauto. }
  unfold pk_wf. by rewrite E.
Qed.

Lemma none_not_infinity : NONE_SIGNATURE <> INFINITY_SIGNATURE.
Proof. intros H. apply (f_equal head) in H. discriminate H. Qed.

Lemma sig_roundtrip s : sig_wf s -> sig_deserialize (sig_serialize s) = Ok s.
Proof.
  unfold sig_wf, sig_deserialize, sig_serialize.
  destruct s as [[p|] i]; cbn [sig_point sig_is_infinity]; intros ->.
  - rewrite (bool_decide_eq_false_2 (sig_to_bytes p = NONE_SIGNATURE)) by apply sig_nonzero.
    by rewrite sig_read.
  - by rewrite (bool_decide_eq_true_2 (NONE_SIGNATURE = NONE_SIGNATURE)).
Qed.

Lemma sig_canonical_bytes bs s :
  length bs = SIGNATURE_BYTES_LEN -> sig_deserialize bs = Ok s -> sig_wf s /\ sig_serialize s = bs.
Proof.
  intros Hl. unfold sig_deserialize. destruct (decide (bs = NONE_SIGNATURE)) as [Hn|Hn];
    [rewrite (bool_decide_eq_true_2 (bs = NONE_SIGNATURE)) by done
    |rewrite (bool_decide_eq_false_2 (bs = NONE_SIGNATURE)) by done].
  - intros [= <-]. subst bs. by split.
  - destruct (sig_from_bytes bs) as [p|e] eqn:Hf; [|done]. intros [= <-].
    assert (sig_to_bytes p = bs) as E by by apply sig_canonical.
    unfold sig_wf, sig_serialize. simpl. by rewrite E.
Qed.

Lemma sig_serialize_length s : length (sig_serialize s) = SIGNATURE_BYTES_LEN.
Proof.
  unfold sig_serialize. destruct (sig_point s); [apply sig_length|].
  unfold NONE_SIGNATURE. apply repeat_length.
Qed.

(** the laws of a codec that the macros generate *)
Lemma macro_codec {A} (n : nat) (ser : A -> Bytes) (de : Bytes -> result Error A) (wf : A -> Prop) :
  (forall x, length (ser x) = n) -> (forall x, wf x -> de (ser x) = Ok x) ->
  (forall bs x, length bs = n -> de bs = Ok x -> wf x /\ ser x = bs) ->
  @SszCodec A (macro_ssz_encode n ser) (macro_ssz_decode error_debug n de) wf.
Proof.
  intros Hl Hr Hc. split; simpl; try done.
  - intros x Hx. rewrite bool_decide_eq_false_2 by (rewrite Hl; tauto). by rewrite Hr.
  - intros bs x. case_bool_decide as Hb; [done|].
    destruct (de bs) as [y|e] eqn:E; [|done]. intros [= <-]. apply Hc; [|done].
    destruct (decide (length bs = n)); tauto.
  - intros bs _ Hb. by rewrite bool_decide_eq_true_2.
Qed.

(** public keys and signatures have lawful SSZ codecs: keys other than the point at infinity, and
    signatures whose infinity flag is right, which every deserialised one's is,
    read back as they were written. *)
Theorem bls_codecs_lawful :
  @SszCodec _ (macro_ssz_encode PUBLIC_KEY_BYTES_LEN pk_serialize)
    (macro_ssz_decode error_debug PUBLIC_KEY_BYTES_LEN pk_deserialize) pk_wf /\
  @SszCodec _ (macro_ssz_encode SIGNATURE_BYTES_LEN sig_serialize)
    (macro_ssz_decode error_debug SIGNATURE_BYTES_LEN sig_deserialize) sig_wf.
Proof.
  split; apply macro_codec.
  - intros k. apply compress_length.
  - apply pk_roundtrip.
  - intros bs x _. apply pk_canonical.
  - apply sig_serialize_length.
  - apply sig_roundtrip.
  - apply sig_canonical_bytes.
Qed.

(** what the checks of the wrappers refuse: the infinity public key, a public or
    secret key of the wrong length, the zero secret key.  The all-zero
    signature is accepted as the empty one, and verifies nothing. *)
Theorem bls_deserialize_errors (bs : Bytes) (pk : GenericPublicKey) (msg : Bytes) :
  pk_deserialize INFINITY_PUBLIC_KEY = Err InvalidInfinityPublicKey /\
  (length bs <> PUBLIC_KEY_BYTES_LEN ->
     pk_deserialize bs = Err (InvalidKeyByteLength (length bs) PUBLIC_KEY_BYTES_LEN)) /\
  (length bs <> SECRET_KEY_BYTES_LEN ->
     gsk_deserialize bs = Err (InvalidSecretKeyLength (length bs) SECRET_KEY_BYTES_LEN)) /\
  gsk_deserialize (repeat Byte.x00 SECRET_KEY_BYTES_LEN) = Err InvalidZeroSecretKey /\
  sig_deserialize NONE_SIGNATURE = Ok sig_empty /\ sig_is_empty sig_empty = true /\
  sig_verifies sig_empty pk msg = false.
Proof.
  split_and!; try done.
  - intros Hl. unfold pk_deserialize, point_deserialize.
    rewrite bool_decide_eq_false_2 by (intros ->; by apply Hl). by rewrite bool_decide_eq_true_2.
  - intros Hl. unfold gsk_deserialize. by rewrite bool_decide_eq_true_2.
Qed.

(** keys and signatures survive the trip through text: a secret key, its public key
    and its signatures print and parse back, the signature with its public
    key verifies the message, and it is neither empty nor at infinity. *)
Theorem bls_sign_roundtrip (key : GenericSecretKey) (msg : Bytes) :
  let s := gsk_sign key msg in let pk := gsk_public_key key in
  macro_from_str error_debug gsk_deserialize (macro_display gsk_serialize key) = Ok key /\
  macro_from_str error_debug pk_deserialize (macro_display pk_serialize pk) = Ok pk /\
  macro_from_str error_debug sig_deserialize (macro_display sig_serialize s) = Ok s /\
  sig_verifies s pk msg = true /\ sig_is_empty s = false /\ sig_is_infinity s = false.
Proof.
  intros s pk. unfold macro_from_str, macro_display. rewrite !hex_roundtrip. simpl.
  split_and!; try done.
  - unfold gsk_deserialize, gsk_serialize. rewrite bool_decide_eq_false_2 by (rewrite sk_length; tauto).
    destruct (forallb _ _) eqn:Hz.
    + rewrite forallb_forall in Hz. destruct (sk_nonzero (sk_point key)) as (b & Hb & Hn).
      apply list_elem_of_In in Hb. specialize (Hz b Hb). by apply bool_decide_eq_true in Hz.
    + rewrite sk_read. by destruct key.
  - rewrite pk_roundtrip; [done|]. apply pk_not_infinity.
  - rewrite sig_roundtrip; [done|]. unfold sig_wf. simpl.
    rewrite bool_decide_eq_false_2; [done|apply sign_not_infinity].
  - apply sign_verifies.
Qed.
End BlstProofs.

(** ** The signer's interface

    [Bls] of [Bid.v], implemented by the wrappers: a public key or signature is
    the number its bytes spell. *)

Section Implementation.
Context `{BS : BlstLib} (fork_root : Bytes -> Bytes -> Bytes) (bid_root : Bid -> Bytes -> B256).

Definition blst_bls : Bls :=
  {| BlsSecretKey := GenericSecretKey;
     bls_public_key k := be_value (pk_serialize (gsk_public_key k));
     bls_sign k root := be_value (sig_serialize (gsk_sign k (be_bytes 32 root)));
     bls_verify s pk root :=
       match sig_deserialize (be_bytes SIGNATURE_BYTES_LEN s), pk_deserialize (be_bytes PUBLIC_KEY_BYTES_LEN pk) with
       | Ok s, Ok pk => sig_verifies s pk (be_bytes 32 root)
       | _, _ => false
       end;
     fork_data_root := fork_root;
     signing_root := bid_root |}.

Lemma blst_verifies `{BL : !BlstLaws} (key : @BlsSecretKey blst_bls) (root : B256) :
  @bls_verify blst_bls (@bls_sign blst_bls key root) (@bls_public_key blst_bls key) root = true.
Proof.
  cbn [bls_verify bls_sign bls_public_key blst_bls].
  rewrite <- (sig_serialize_length (gsk_sign key (be_bytes 32 root))), be_bytes_of_value.
  assert (length (pk_serialize (gsk_public_key key)) = PUBLIC_KEY_BYTES_LEN) as Hl by apply compress_length.
  rewrite <- Hl, be_bytes_of_value.
  rewrite sig_roundtrip, pk_roundtrip; [apply sign_verifies|apply pk_not_infinity|].
  unfold sig_wf. simpl. rewrite bool_decide_eq_false_2; [done|apply sign_not_infinity].
Qed.

(** the wrappers keep the promise the bids are built on: what a key signs, sent and
    read back as bytes, verifies under its public key. *)
Theorem blst_implements_bls `{BL : !BlstLaws} (key : @BlsSecretKey blst_bls) (root : B256) :
  @bls_verify blst_bls (@bls_sign blst_bls key root) (@bls_public_key blst_bls key) root = true.
Proof. apply blst_verifies. Qed.
End Implementation.

(** ** Evaluation on concrete inputs

    A toy library with two keys; a signature names the key that made it. *)

Definition demo_point_bytes (n : nat) (k : bool) : Bytes :=
  (if k then Byte.x01 else Byte.x02) :: repeat Byte.x00 n.

Definition demo_point_read (n : nat) (bs : Bytes) : result unit bool :=
  if bool_decide (bs = demo_point_bytes n true) then Ok true
  else if bool_decide (bs = demo_point_bytes n false) then Ok false else Err tt.

Lemma demo_point_read_bytes n k : demo_point_read n (demo_point_bytes n k) = Ok k.
Proof.
  unfold demo_point_read. destruct k; [by rewrite bool_decide_eq_true_2|].
  rewrite bool_decide_eq_false_2 by done. by rewrite bool_decide_eq_true_2.
Qed.

Lemma demo_point_read_Ok n bs k : demo_point_read n bs = Ok k -> demo_point_bytes n k = bs.
Proof. unfold demo_point_read. repeat case_bool_decide; by intros [= <-]. Qed.

Definition toy_blst (hash : Bytes -> Bytes -> Bytes) : BlstLib := {|
  BlstError := unit;
  PublicKeyPoint := bool;
  compress := demo_point_bytes 47;
  key_validate := demo_point_read 47;
  SignaturePoint := bool;
  sig_to_bytes := demo_point_bytes 95;
  sig_from_bytes := demo_point_read 95;
  sig_verify s msg dst aug pk := eqb s pk;
  SecretKeyPoint := bool;
  sk_to_pk k := k;
  sk_sign k _ _ _ := k;
  sk_from_bytes := demo_point_read 31;
  sk_to_bytes := demo_point_bytes 31;
  DST := [];
  merkle_root bs n := be_value (merkle_tree hash (Nat.log2_up n) (chunks n bs));
|}.

Lemma toy_blst_laws hash : @BlstLaws (toy_blst hash).
Proof.
  split; simpl; try done.
  - intros p _. apply demo_point_read_bytes.
  - intros bs p _. apply demo_point_read_Ok.
  - intros [] H; discriminate (f_equal head H).
  - apply demo_point_read_bytes.
  - intros bs s _. apply demo_point_read_Ok.
  - intros k _ _ _. apply eqb_reflx.
  - intros [] H; discriminate (f_equal head H).
  - intros [] _ _ _ H; discriminate (f_equal head H).
  - intros [].
    + exists Byte.x01. split; [left|done].
    + exists Byte.x02. split; [left|done].
  - apply demo_point_read_bytes.
Qed.

#[export] Instance demo_blst : BlstLib := toy_blst demo_hash.
#[export] Instance demo_blst_laws : BlstLaws := toy_blst_laws demo_hash.

#[export] Instance demo_hex : HexLib.
Proof.
  refine {| hex_encode := String.string_of_list_byte; hex_decode s := Ok (String.list_byte_of_string s) |}.
  intros bs. by rewrite String.list_byte_of_string_of_list_byte.
Defined.

Definition demo_secret : GenericSecretKey := {| sk_point := true |}.

Lemma bls_codecs_lawful_witness :
  @from_ssz_bytes _ (macro_ssz_decode (fun _ => EmptyString) PUBLIC_KEY_BYTES_LEN pk_deserialize)
    (pk_serialize (gsk_public_key demo_secret)) = Ok (gsk_public_key demo_secret).
Proof.
  exact (codec_roundtrip (SszCodec := proj1 (bls_codecs_lawful (fun _ => EmptyString)))
    (gsk_public_key demo_secret) (pk_not_infinity true)).
Defined.

Lemma bls_deserialize_errors_witness :
  pk_deserialize [Byte.x00] = Err (InvalidKeyByteLength 1 PUBLIC_KEY_BYTES_LEN).
Proof.
  apply (bls_deserialize_errors [Byte.x00] (gsk_public_key demo_secret) []). discriminate.
Defined.

Lemma bls_sign_roundtrip_witness :
  sig_verifies (gsk_sign demo_secret []) (gsk_public_key demo_secret) [] = true.
Proof.
  exact (proj1 (proj2 (proj2 (proj2 (bls_sign_roundtrip (fun _ => EmptyString) demo_secret []))))).
Defined.

Lemma blst_implements_bls_witness :
  @bls_verify (blst_bls (fun _ _ => []) (fun _ _ => 5))
    (@bls_sign (blst_bls (fun _ _ => []) (fun _ _ => 5)) demo_secret 5)
    (@bls_public_key (blst_bls (fun _ _ => []) (fun _ _ => 5)) demo_secret) 5 = true.
Proof. exact (blst_implements_bls (fun _ _ => []) (fun _ _ => 5) demo_secret 5). Defined.
