(* ===== verification/BlsTraits.v ===== *)
(** * The traits of keys and signatures

    [crates/primitives/src/blst/] is generic: the wrappers [GenericPublicKey],
    [GenericSignature] and [GenericSecretKey] work over any points that implement the
    traits [TPublicKey], [TSignature] and [TSecretKey], and the program uses them at the
    points of the library.  Here are the traits with what they promise, the wrappers over
    them, the library's implementations, and the proof that at those the wrappers are the
    definitions of [Blst]. *)

From stdpp Require Import prelude list strings.
From S2P Require Import Prelude Types Validator Chain Payload Bid Ssz Blst.

Open Scope Z_scope.

(** Key generation, from 32 bytes or more of entropy; and the default point. *)
Class BlstKeyGen `{BS : BlstLib} := {
  key_gen : Bytes -> Bytes -> result BlstError SecretKeyPoint;
  key_gen_total : forall ikm info, (32 <= length ikm)%nat -> exists k, key_gen ikm info = Ok k;
  public_key_point_default : PublicKeyPoint;
}.

(** ** The traits *)

Section Traits.
Context `{BS : BlstLib}.

Class TPublicKey (Pub : Type) := {
  tpk_serialize : Pub -> Bytes;
  tpk_deserialize : Bytes -> result Error Pub;
}.

Class TSignature (Pub Sig : Type) := {
  tsig_serialize : Sig -> Bytes;
  tsig_deserialize : Bytes -> result Error Sig;
  tsig_verify : Sig -> Pub -> Bytes -> bool;
}.

(** [random] is given the 32 bytes it draws *)
Class TSecretKey (Sig Pub Sec : Type) := {
  tsk_random : Bytes -> run Empty_set Sec;
  tsk_sign : Sec -> Bytes -> Sig;
  tsk_public_key : Sec -> Pub;
  tsk_deserialize : Bytes -> result Error Sec;
  tsk_serialize : Sec -> Bytes;
}.

(** *** What an implementation promises *)

Class TPublicKeyLaws (Pub : Type) `{TPublicKey Pub} : Prop := {
  tpk_length : forall p, length (tpk_serialize p) = PUBLIC_KEY_BYTES_LEN;
  tpk_read : forall p, tpk_serialize p <> INFINITY_PUBLIC_KEY -> tpk_deserialize (tpk_serialize p) = Ok p;
  tpk_canonical : forall bs p, tpk_deserialize bs = Ok p -> tpk_serialize p = bs;
}.

Class TSignatureLaws (Pub Sig : Type) `{TSignature Pub Sig} : Prop := {
  tsig_length : forall s, length (tsig_serialize s) = SIGNATURE_BYTES_LEN;
  tsig_nonzero : forall s, tsig_serialize s <> NONE_SIGNATURE;
  tsig_read : forall s, tsig_deserialize (tsig_serialize s) = Ok s;
  tsig_canonical : forall bs s, length bs = SIGNATURE_BYTES_LEN -> tsig_deserialize bs = Ok s -> tsig_serialize s = bs;
}.

Class TSecretKeyLaws (Sig Pub Sec : Type) `{TPublicKey Pub, TSignature Pub Sig, TSecretKey Sig Pub Sec} : Prop := {
  tsk_random_total : forall ikm, length ikm = 32%nat -> exists k, tsk_random ikm = Done k;
  tsk_length : forall k, length (tsk_serialize k) = SECRET_KEY_BYTES_LEN;
  tsk_nonzero : forall k, exists b, b ∈ tsk_serialize k /\ b <> Byte.x00;
  tsk_read : forall k, tsk_deserialize (tsk_serialize k) = Ok k;
  tsk_verifies : forall k msg, tsig_verify (tsk_sign k msg) (tsk_public_key k) msg = true;
  tsk_public_not_infinity : forall k, tpk_serialize (tsk_public_key k) <> INFINITY_PUBLIC_KEY;
  tsk_sign_not_infinity : forall k msg, tsig_serialize (tsk_sign k msg) <> INFINITY_SIGNATURE;
}.

(** ** The wrappers *)

Record GenPublicKey (Pub : Type) := { gpk_point : Pub }.

Record GenSignature (Pub Sig : Type) := { gsig_point : option Sig; gsig_is_infinity : bool }.

Record GenSecretKey (Sig Pub Sec : Type) := { gsk_point : Sec }.

Arguments gpk_point {Pub}.
Arguments gsig_point {Pub Sig}.
Arguments gsig_is_infinity {Pub Sig}.
Arguments gsk_point {Sig Pub Sec}.

Section PublicKeys.
Context {Pub : Type} `{TPublicKey Pub}.

Definition gpk_from_point (point : Pub) : GenPublicKey Pub := {| gpk_point := point |}.

Definition gpk_serialize (self : GenPublicKey Pub) : Bytes := tpk_serialize (gpk_point self).

Definition gpk_deserialize (bytes : Bytes) : result Error (GenPublicKey Pub) :=
  if bool_decide (bytes = INFINITY_PUBLIC_KEY) then Err InvalidInfinityPublicKey
  else point ← tpk_deserialize bytes; mret {| gpk_point := point |}.

(** [PartialEq] *)
Definition gpk_eq (self other : GenPublicKey Pub) : bool :=
  bool_decide (gpk_serialize self = gpk_serialize other).

(** *** [impl_ssz_encode!], [impl_ssz_decode!], [impl_display!], [impl_debug!], [impl_from_str!] *)

Definition gpk_encode : SszEncode (GenPublicKey Pub) := macro_ssz_encode PUBLIC_KEY_BYTES_LEN gpk_serialize.

Definition gpk_decode (error_debug : Error -> string) : SszDecode (GenPublicKey Pub) :=
  macro_ssz_decode error_debug PUBLIC_KEY_BYTES_LEN gpk_deserialize.

Definition gpk_display `{HX : HexLib} (self : GenPublicKey Pub) : string := macro_display gpk_serialize self.

Definition gpk_debug `{HX : HexLib} (self : GenPublicKey Pub) : string := hex_encode (gpk_serialize self).

Definition gpk_as_hex_string `{HX : HexLib} (self : GenPublicKey Pub) : string := gpk_debug self.

Definition gpk_from_str `{HX : HexLib} (error_debug : Error -> string) (s : string)
  : result string (GenPublicKey Pub) := macro_from_str error_debug gpk_deserialize s.
End PublicKeys.

Section Signatures.
Context {Pub Sig : Type} `{TSignature Pub Sig}.

Definition gsig_empty : GenSignature Pub Sig := {| gsig_point := None; gsig_is_infinity := false |}.

Definition gsig_is_empty (self : GenSignature Pub Sig) : bool :=
  match gsig_point self with None => true | Some _ => false end.

Definition gsig_serialize (self : GenSignature Pub Sig) : Bytes :=
  match gsig_point self with Some point => tsig_serialize point | None => NONE_SIGNATURE end.

Definition gsig_deserialize (bytes : Bytes) : result Error (GenSignature Pub Sig) :=
  point ← (if bool_decide (bytes = NONE_SIGNATURE) then Ok None
           else p ← tsig_deserialize bytes; mret (Some p));
  mret {| gsig_point := point; gsig_is_infinity := bool_decide (bytes = INFINITY_SIGNATURE) |}.

Definition gsig_from_point (point : Sig) (is_infinity : bool) : GenSignature Pub Sig :=
  {| gsig_point := Some point; gsig_is_infinity := is_infinity |}.

Definition gsig_verify (self : GenSignature Pub Sig) (pubkey : GenPublicKey Pub) (msg : Bytes) : bool :=
  match gsig_point self with
  | Some point => tsig_verify point (gpk_point pubkey) msg
  | None => false
  end.
Definition gsig_encode : SszEncode (GenSignature Pub Sig) := macro_ssz_encode SIGNATURE_BYTES_LEN gsig_serialize.

Definition gsig_decode (error_debug : Error -> string) : SszDecode (GenSignature Pub Sig) :=
  macro_ssz_decode error_debug SIGNATURE_BYTES_LEN gsig_deserialize.

Definition gsig_display `{HX : HexLib} (self : GenSignature Pub Sig) : string := macro_display gsig_serialize self.

Definition gsig_debug `{HX : HexLib} (self : GenSignature Pub Sig) : string := hex_encode (gsig_serialize self).

Definition gsig_from_str `{HX : HexLib} (error_debug : Error -> string) (s : string)
  : result string (GenSignature Pub Sig) := macro_from_str error_debug gsig_deserialize s.
End Signatures.

Section SecretKeys.
Context {Sig Pub Sec : Type} `{TSecretKey Sig Pub Sec}.

Definition gsec_random (ikm : Bytes) : run Empty_set (GenSecretKey Sig Pub Sec) :=
  point ← tsk_random ikm; mret {| gsk_point := point |}.

Definition gsec_sign (self : GenSecretKey Sig Pub Sec) (msg : Bytes) : GenSignature Pub Sig :=
  let is_infinity := false in
  gsig_from_point (tsk_sign (gsk_point self) msg) is_infinity.

Definition gsec_public_key (self : GenSecretKey Sig Pub Sec) : GenPublicKey Pub :=
  gpk_from_point (tsk_public_key (gsk_point self)).

Definition gsec_deserialize (bytes : Bytes) : result Error (GenSecretKey Sig Pub Sec) :=
  if bool_decide (length bytes <> SECRET_KEY_BYTES_LEN)
  then Err (InvalidSecretKeyLength (length bytes) SECRET_KEY_BYTES_LEN)
  else if forallb (fun b => bool_decide (b = Byte.x00)) bytes then Err InvalidZeroSecretKey
  else p ← tsk_deserialize bytes; mret {| gsk_point := p |}.

Definition gsec_serialize (self : GenSecretKey Sig Pub Sec) : Bytes := tsk_serialize (gsk_point self).

Definition gsec_display `{HX : HexLib} (self : GenSecretKey Sig Pub Sec) : string := macro_display gsec_serialize self.

Definition gsec_from_str `{HX : HexLib} (error_debug : Error -> string) (s : string)
  : result string (GenSecretKey Sig Pub Sec) := macro_from_str error_debug gsec_deserialize s.
End SecretKeys.
End Traits.

Arguments gpk_point {Pub}.
Arguments gsig_point {Pub Sig}.
Arguments gsig_is_infinity {Pub Sig}.
Arguments gsk_point {Sig Pub Sec}.

(** ** The library's points *)

Section Library.
Context `{KG : BlstKeyGen}.

Definition lib_public_key : TPublicKey PublicKeyPoint := {|
  tpk_serialize := compress;
  tpk_deserialize := point_deserialize;
|}.

Definition lib_signature : TSignature PublicKeyPoint SignaturePoint := {|
  tsig_serialize := sig_to_bytes;
  tsig_deserialize bytes := map_err Blst (sig_from_bytes bytes);
  tsig_verify self pubkey msg := sig_verify self msg DST [] pubkey;
|}.

Definition lib_secret_key : TSecretKey SignaturePoint PublicKeyPoint SecretKeyPoint := {|
  tsk_random ikm := match key_gen ikm [] with Ok key => Done key | Err _ => Panicked end;
  tsk_sign self msg := sk_sign self msg DST [];
  tsk_public_key := sk_to_pk;
  tsk_deserialize bytes := map_err Blst (sk_from_bytes bytes);
  tsk_serialize := sk_to_bytes;
|}.

(** [BlsPublicKey::default] and [BlsSignature::default] *)
Definition gpk_default : GenPublicKey PublicKeyPoint := {| gpk_point := public_key_point_default |}.

Definition gsig_default : GenSignature PublicKeyPoint SignaturePoint := gsig_empty.
End Library.
#[export] Existing Instances lib_public_key lib_signature lib_secret_key.

(** ** Properties *)

(** the wrappers over any points that keep the promises of their traits *)
Section Generic.
Context `{BS : BlstLib} {Sig Pub Sec : Type} `{TSecretKeyLaws Sig Pub Sec}.
Context `{!TPublicKeyLaws Pub} `{!TSignatureLaws Pub Sig} `{HX : HexLib} (error_debug : Error -> string).

Definition gpk_wf (k : GenPublicKey Pub) : Prop := gpk_serialize k <> INFINITY_PUBLIC_KEY.

Definition gsig_wf (s : GenSignature Pub Sig) : Prop :=
  gsig_is_infinity s = bool_decide (gsig_serialize s = INFINITY_SIGNATURE).

Lemma gpk_roundtrip k : gpk_wf k -> gpk_deserialize (gpk_serialize k) = Ok k.
Proof.
  intros Hk. unfold gpk_deserialize. rewrite bool_decide_eq_false_2 by done.
  unfold gpk_serialize. rewrite tpk_read by done. by destruct k.
Qed.

Lemma gpk_canonical bs k : gpk_deserialize bs = Ok k -> gpk_wf k /\ gpk_serialize k = bs.
Proof.
  unfold gpk_deserialize. case_bool_decide as Hi; [done|].
  destruct (tpk_deserialize bs) as [p|e] eqn:Hp; [|done]. intros [= <-].
  assert (gpk_serialize {| gpk_point := p |} = bs) as E by by apply tpk_canonical. unfold gpk_wf. by rewrite E.
Qed.

Lemma gsig_roundtrip s : gsig_wf s -> gsig_deserialize (gsig_serialize s) = Ok s.
Proof.
  unfold gsig_wf, gsig_deserialize, gsig_serialize. destruct s as [[p|] i]; cbn [gsig_point gsig_is_infinity]; intros ->.
  - rewrite (bool_decide_eq_false_2 (tsig_serialize p = NONE_SIGNATURE)) by apply tsig_nonzero. by rewrite tsig_read.
  - by rewrite (bool_decide_eq_true_2 (NONE_SIGNATURE = NONE_SIGNATURE)).
Qed.

Lemma gsig_canonical bs s :
  length bs = SIGNATURE_BYTES_LEN -> gsig_deserialize bs = Ok s -> gsig_wf s /\ gsig_serialize s = bs.
Proof.
  intros Hl. unfold gsig_deserialize. destruct (decide (bs = NONE_SIGNATURE)) as [Hn|Hn];
    [rewrite (bool_decide_eq_true_2 (bs = NONE_SIGNATURE)) by done
    |rewrite (bool_decide_eq_false_2 (bs = NONE_SIGNATURE)) by done].
  - intros [= <-]. subst bs. by split.
  - destruct (tsig_deserialize bs) as [p|e] eqn:Hf; [|done]. intros [= <-].
    assert (tsig_serialize p = bs) as E by by apply tsig_canonical.
    unfold gsig_wf, gsig_serialize. cbn [gsig_point gsig_is_infinity]. by rewrite E.
Qed.

Lemma gsig_length s : length (gsig_serialize s) = SIGNATURE_BYTES_LEN.
Proof. unfold gsig_serialize. destruct (gsig_point s); [apply tsig_length|]. apply repeat_length. Qed.

(** their SSZ codecs are lawful, and their text parses back *)
Lemma generic_codecs_lawful :
  @SszCodec _ gpk_encode (gpk_decode error_debug) gpk_wf /\
  @SszCodec _ gsig_encode (gsig_decode error_debug) gsig_wf /\
  (forall k, gpk_wf k -> gpk_from_str error_debug (gpk_display k) = Ok k) /\
  (forall s, gsig_wf s -> gsig_from_str error_debug (gsig_display s) = Ok s).
Proof.
  split_and!.
  - apply macro_codec; [intros k; apply tpk_length|apply gpk_roundtrip|intros bs x _; apply gpk_canonical].
  - apply macro_codec; [apply gsig_length|apply gsig_roundtrip|apply gsig_canonical].
  - intros k Hk. unfold gpk_from_str, gpk_display, macro_from_str, macro_display. rewrite hex_roundtrip. simpl.
    by rewrite gpk_roundtrip.
  - intros s Hs. unfold gsig_from_str, gsig_display, macro_from_str, macro_display. rewrite hex_roundtrip. simpl.
    by rewrite gsig_roundtrip.
Qed.

(** drawing a key never fails; the key prints and parses back, and its signatures
    verify, are not empty and are lawful, as is its public key *)
Lemma generic_key_correct (ikm msg : Bytes) :
  length ikm = 32%nat ->
  exists key, gsec_random ikm = Done key /\
    gsec_from_str error_debug (gsec_display key) = Ok key /\
    gsig_verify (gsec_sign key msg) (gsec_public_key key) msg = true /\
    gsig_is_empty (gsec_sign key msg) = false /\ gsig_wf (gsec_sign key msg) /\ gpk_wf (gsec_public_key key).
Proof.
  intros Hl. destruct (tsk_random_total ikm Hl) as [k Hk].
  assert (gsec_random ikm = Done {| gsk_point := k |}) as Hr by (unfold gsec_random; by rewrite Hk).
  eexists. split; [exact Hr|]. split_and!; try done.
  - unfold gsec_from_str, gsec_display, macro_from_str, macro_display. rewrite hex_roundtrip. simpl.
    unfold gsec_deserialize, gsec_serialize. cbn [gsk_point].
    rewrite bool_decide_eq_false_2 by (rewrite tsk_length; tauto).
    destruct (forallb _ _) eqn:Hz; [|by rewrite tsk_read].
    rewrite forallb_forall in Hz. destruct (tsk_nonzero k) as (b & Hb & Hn).
    apply list_elem_of_In in Hb. specialize (Hz b Hb). by apply bool_decide_eq_true in Hz.
  - apply tsk_verifies.
  - unfold gsig_wf. symmetry. apply bool_decide_eq_false_2, tsk_sign_not_infinity.
  - apply tsk_public_not_infinity.
Qed.

(** C21: the wrappers keep their contract over any points that keep the traits': keys and
    signatures have lawful SSZ encodings and read back from their text; drawing a key from
    32 bytes never fails, and the key reads back from its text; what it signs, sent with
    its public key and both read back from their bytes, verifies; the key at infinity,
    secret keys of another length and the zero key are refused, and the signature of all
    zeros is the empty one, which verifies nothing. *)
Theorem generic_keys_correct (ikm msg bs : Bytes) (pk : GenPublicKey Pub) :
  length ikm = 32%nat ->
  @SszCodec _ gpk_encode (gpk_decode error_debug) gpk_wf /\
  @SszCodec _ gsig_encode (gsig_decode error_debug) gsig_wf /\
  (forall k, gpk_wf k -> gpk_from_str error_debug (gpk_display k) = Ok k) /\
  (forall s, gsig_wf s -> gsig_from_str error_debug (gsig_display s) = Ok s) /\
  (exists key s k, gsec_random ikm = Done key /\
     gsec_from_str error_debug (gsec_display key) = Ok key /\
     gsig_deserialize (gsig_serialize (gsec_sign key msg)) = Ok s /\
     gpk_deserialize (gpk_serialize (gsec_public_key key)) = Ok k /\
     gsig_verify s k msg = true /\ gsig_is_empty s = false) /\
  gpk_deserialize INFINITY_PUBLIC_KEY = Err InvalidInfinityPublicKey /\
  (length bs <> SECRET_KEY_BYTES_LEN ->
     gsec_deserialize bs = Err (InvalidSecretKeyLength (length bs) SECRET_KEY_BYTES_LEN)) /\
  gsec_deserialize (repeat Byte.x00 SECRET_KEY_BYTES_LEN) = Err InvalidZeroSecretKey /\
  gsig_deserialize NONE_SIGNATURE = Ok gsig_empty /\ gsig_verify gsig_empty pk msg = false.
Proof.
  intros Hl. destruct generic_codecs_lawful as (Hpk & Hsig & Hpt & Hst).
  destruct (generic_key_correct ikm msg Hl) as (key & Hr & Ht & Hv & He & Hs & Hp).
  split_and!; try done.
  - exists key, (gsec_sign key msg), (gsec_public_key key).
    split_and!; [done|done|by apply gsig_roundtrip|by apply gpk_roundtrip|done|done].
  - intros Hb. unfold gsec_deserialize. by rewrite bool_decide_eq_true_2.
Qed.
End Generic.

(** the library's points keep those promises *)
Section LibraryLaws.
Context `{BL : BlstLaws} `{KG : !BlstKeyGen}.

#[export] Instance lib_public_key_laws : TPublicKeyLaws PublicKeyPoint.
Proof.
  split; simpl.
  - apply compress_length.
  - intros p Hp. unfold point_deserialize. rewrite bool_decide_eq_false_2 by (rewrite compress_length; tauto).
    by rewrite key_validate_compress.
  - intros bs p. unfold point_deserialize. case_bool_decide as Hl; [done|].
    destruct (key_validate bs) as [q|e] eqn:E; [|done]. intros [= <-].
    apply key_validate_canonical; [|done]. destruct (decide (length bs = PUBLIC_KEY_BYTES_LEN)); tauto.
Qed.

#[export] Instance lib_signature_laws : TSignatureLaws PublicKeyPoint SignaturePoint.
Proof.
  split; simpl.
  - apply sig_length.
  - apply sig_nonzero.
  - intros s. by rewrite sig_read.
  - intros bs s Hl. destruct (sig_from_bytes bs) as [q|e] eqn:E; [|done]. intros [= <-]. by apply sig_canonical.
Qed.

#[export] Instance lib_secret_key_laws : TSecretKeyLaws SignaturePoint PublicKeyPoint SecretKeyPoint.
Proof.
  split; simpl.
  - intros ikm Hl. destruct (key_gen_total ikm []) as [k Hk]; [lia|]. exists k. by rewrite Hk.
  - apply sk_length.
  - apply sk_nonzero.
  - intros k. by rewrite sk_read.
  - intros k msg. apply sign_verifies.
  - apply pk_not_infinity.
  - intros k msg. apply sign_not_infinity.
Qed.
End LibraryLaws.

(** at the library's points the wrappers are those of [Blst] *)
Section Instances.
Context `{KG : BlstKeyGen}.

Definition pk_of (k : GenPublicKey PublicKeyPoint) : GenericPublicKey := {| pk_point := gpk_point k |}.
Definition sig_of (s : GenSignature PublicKeyPoint SignaturePoint) : GenericSignature :=
  {| sig_point := gsig_point s; sig_is_infinity := gsig_is_infinity s |}.
Definition sk_of (k : GenSecretKey SignaturePoint PublicKeyPoint SecretKeyPoint) : GenericSecretKey :=
  {| sk_point := gsk_point k |}.

Lemma wrappers_are_generic :
  (forall k, pk_serialize (pk_of k) = gpk_serialize k) /\
  (forall bs, pk_deserialize bs = (k ← gpk_deserialize bs; mret (pk_of k))) /\
  (forall k k', pk_eq (pk_of k) (pk_of k') = gpk_eq k k') /\
  (forall s, sig_serialize (sig_of s) = gsig_serialize s) /\
  (forall bs, sig_deserialize bs = (s ← gsig_deserialize bs; mret (sig_of s))) /\
  (forall s k msg, sig_verifies (sig_of s) (pk_of k) msg = gsig_verify s k msg) /\
  (forall k msg, gsk_sign (sk_of k) msg = sig_of (gsec_sign k msg)) /\
  (forall k, gsk_public_key (sk_of k) = pk_of (gsec_public_key k)) /\
  (forall bs, gsk_deserialize bs = (k ← gsec_deserialize bs; mret (sk_of k))) /\
  (forall k, gsk_serialize (sk_of k) = gsec_serialize k).
Proof.
  split_and!; intros; try done.
  - unfold pk_deserialize, gpk_deserialize. case_bool_decide; [done|]. simpl. by destruct (point_deserialize bs).
  - unfold sig_deserialize, gsig_deserialize. destruct (bool_decide (bs = NONE_SIGNATURE)); simpl; [done|]. by destruct (sig_from_bytes bs).
  - unfold gsk_deserialize, gsec_deserialize. case_bool_decide; [done|]. destruct (forallb _ _); [done|].
    simpl. by destruct (sk_from_bytes bs).
Qed.
End Instances.

(** ** Evaluation on concrete inputs *)

#[export] Instance demo_key_gen : BlstKeyGen.
Proof.
  refine {| key_gen ikm _ := if bool_decide (32 <= length ikm)%nat then Ok (bool_decide (head ikm = Some Byte.x00)) else Err tt;
            public_key_point_default := true |}.
  intros ikm _ Hl. rewrite bool_decide_eq_true_2 by done. by eexists.
Defined.

Example demo_random_key :
  gsec_random (repeat Byte.x00 32) = Done {| gsk_point := true |} /\ gsec_random (Sec := SecretKeyPoint) [] = Panicked.
Proof. done. Qed.

Lemma generic_keys_correct_witness :
  exists key s k, gsec_random (Sec := SecretKeyPoint) (repeat Byte.x00 32) = Done key /\
    gsig_deserialize (gsig_serialize (gsec_sign key [])) = Ok s /\
    gpk_deserialize (gpk_serialize (gsec_public_key key)) = Ok k /\ gsig_verify s k [] = true.
Proof.
  destruct (generic_keys_correct (Sig := SignaturePoint) (Pub := PublicKeyPoint) (Sec := SecretKeyPoint)
    (fun _ => EmptyString) (repeat Byte.x00 32) [] [] gpk_default eq_refl)
    as (_ & _ & _ & _ & (key & s & k & H1 & _ & H2 & H3 & H4 & _) & _).
  exists key, s, k. split; [exact H1|]. split; [exact H2|]. split; [exact H3|exact H4].
Defined.
