(* ===== verification/Wrappers.v ===== *)
(** * The wrappers of primitive types

    The newtypes of [crates/primitives/src/lib.rs] and of [bid.rs] around the libraries'
    words and bytes, with the conversions into and out of them, and the default of a
    signed bid.  [AsRef] and [From] are the traits of those names. *)

From stdpp Require Import prelude list strings.
From S2P Require Import Prelude Types Validator Chain Payload SimState State Bid Ssz Blst BlsTraits.

Open Scope Z_scope.

Class AsRef (A B : Type) := as_ref : A -> B.
Class From (A B : Type) := from : A -> B.

(** a wrapper is its content *)
Class Newtype (A B : Type) `{AsRef A B, From B A} : Prop := {
  as_ref_from : forall x : B, as_ref (from x : A) = x;
  from_as_ref : forall x : A, from (as_ref x : B) = x;
}.

(** a hash as the tree hashing library has it: 32 bytes *)
Record Hash256 := MkHash256 { hash_bytes : Bytes }.
Definition hash256_wf (h : Hash256) : Prop := length (hash_bytes h) = 32%nat.

(** [BloomInput::Hash], and the text of 32 bytes *)
Class AlloyPrimitives := {
  bloom_of_hash : Bytes -> Bytes;
  fixed_bytes_display : B256 -> string;
}.

(** ** [lib.rs] *)

Definition bytes_as_ref : AsRef SszBytes Bytes := bytes_data.
Definition bytes_from : From Bytes SszBytes := MkBytes.
Definition bloom_as_ref : AsRef SszBloom Bytes := bloom_data.
Definition bloom_from : From Bytes SszBloom := MkBloom.
Definition b256_as_ref : AsRef SszB256 B256 := b256_word.
Definition b256_from : From B256 SszB256 := MkB256.
Definition u64_as_ref : AsRef SszU64 Z := u64_value.
Definition u64_from : From Z SszU64 := MkU64.
Definition u256_as_ref : AsRef SszU256 Z := u256_value.
Definition u256_from : From Z SszU256 := MkU256.
Definition address_as_ref : AsRef SszAddress Address := address_word.
Definition address_from : From Address SszAddress := MkAddress.
#[export] Existing Instances bytes_as_ref bytes_from bloom_as_ref bloom_from b256_as_ref b256_from u64_as_ref u64_from
  u256_as_ref u256_from address_as_ref address_from.

(** a bloom of one hash *)
Definition bloom_from_hash `{AlloyPrimitives} : From Hash256 SszBloom := fun hash => MkBloom (bloom_of_hash (hash_bytes hash)).

Definition hash256_from_b256 : From SszB256 Hash256 := fun alloy => MkHash256 (be_bytes 32 (b256_word alloy)).
Definition b256_from_hash256 : From Hash256 SszB256 := fun hash => MkB256 (be_value (hash_bytes hash)).
#[export] Existing Instances bloom_from_hash hash256_from_b256 b256_from_hash256.

Definition b256_display `{AlloyPrimitives} (self : SszB256) : string := fixed_bytes_display (b256_word self).

(** ** [bid.rs] *)

Record AlloyExecutionPayload := MkAlloyPayload { alloy_payload : ExecutionPayloadV3 }.

Definition alloy_payload_from : From ExecutionPayloadV3 AlloyExecutionPayload := MkAlloyPayload.
Definition alloy_payload_as_ref : AsRef AlloyExecutionPayload ExecutionPayloadV3 := alloy_payload.
#[export] Existing Instances alloy_payload_from alloy_payload_as_ref.

(** [From<u64>]: both types hold every [u64] *)
Record U64Number := MkU64Number { u64_number : Z }.

Definition u64_from_u64 : From U64Number SszU64 := fun uinteger => MkU64 (u64_number uinteger).
Definition u256_from_u64 : From U64Number SszU256 := fun uinteger => MkU256 (u64_number uinteger).
#[export] Existing Instances u64_from_u64 u256_from_u64.

(** the derived defaults: zeros and nothing, and the default key *)
Section Defaults.
Context `{EV : Evm} `{KG : BlstKeyGen}.

Definition default_key : BlsPublicKey := be_value (gpk_serialize gpk_default).

Definition Bid_default : Bid :=
  {| bid_slot := 0; bid_parent_hash := 0; bid_block_hash := 0; bid_builder_pubkey := default_key;
     bid_proposer_pubkey := default_key; bid_proposer_fee_recipient := 0; bid_gas_limit := 0; bid_gas_used := 0;
     bid_value := 0 |}.

Definition ExecutionPayload_default : ExecutionPayload :=
  {| ep_parent_hash := 0; ep_fee_recipient := 0; ep_state_root := 0; ep_receipts_root := 0;
     ep_logs_bloom := repeat Byte.x00 256; ep_prev_randao := 0; ep_block_number := 0; ep_gas_limit := 0;
     ep_gas_used := 0; ep_timestamp := 0; ep_extra_data := []; ep_base_fee_per_gas := 0; ep_block_hash := 0;
     ep_transactions := []; ep_withdrawals := []; ep_blob_gas_used := 0; ep_excess_blob_gas := 0 |}.

Definition SignedBid_default : SignedBid :=
  {| sbd_message := Bid_default; sbd_execution_payload := ExecutionPayload_default; sbd_blobs_bundle := [];
     sbd_signature := be_value (gsig_serialize gsig_default) |}.
End Defaults.

(** ** Properties *)

#[export] Instance bytes_newtype : Newtype SszBytes Bytes.
Proof. by split; [|intros []]. Qed.
#[export] Instance bloom_newtype : Newtype SszBloom Bytes.
Proof. by split; [|intros []]. Qed.
#[export] Instance b256_newtype : Newtype SszB256 B256.
Proof. by split; [|intros []]. Qed.
#[export] Instance u64_newtype : Newtype SszU64 Z.
Proof. by split; [|intros []]. Qed.
#[export] Instance u256_newtype : Newtype SszU256 Z.
Proof. by split; [|intros []]. Qed.
#[export] Instance address_newtype : Newtype SszAddress Address.
Proof. by split; [|intros []]. Qed.
#[export] Instance alloy_payload_newtype : Newtype AlloyExecutionPayload ExecutionPayloadV3.
Proof. by split; [|intros []]. Qed.

(** the two hash types hold the same hashes *)
Lemma hash256_conversions :
  (forall b : SszB256, b256_wf b -> from (from b : Hash256) = b) /\
  (forall h : Hash256, hash256_wf h -> from (from h : SszB256) = h) /\
  (forall b : SszB256, hash256_wf (from b)).
Proof.
  split_and!.
  - intros [w] Hw. unfold from, b256_from_hash256, hash256_from_b256. cbn [hash_bytes b256_word].
    by rewrite be_value_of_bytes.
  - intros [bs] Hb. unfold hash256_wf in Hb. cbn [hash_bytes] in Hb.
    unfold from, b256_from_hash256, hash256_from_b256. cbn [hash_bytes b256_word]. by rewrite <- Hb, be_bytes_of_value.
  - intros b. apply length_be_bytes.
Qed.

(** a [u64] survives in either type *)
Lemma u64_conversions (n : U64Number) :
  as_ref (from n : SszU64) = u64_number n /\ as_ref (from n : SszU256) = u64_number n.
Proof. done. Qed.

(** a default signature reads back as the empty one; a default key, when the library's
    default point is the one at infinity, is refused *)
Lemma default_keys `{BL : BlstLaws} `{KG : !BlstKeyGen} :
  gsig_deserialize (gsig_serialize gsig_default) = Ok gsig_empty /\
  (compress public_key_point_default = INFINITY_PUBLIC_KEY ->
   gpk_deserialize (gpk_serialize gpk_default) = Err InvalidInfinityPublicKey).
Proof.
  split.
  - by apply gsig_roundtrip.
  - intros Hi. unfold gpk_deserialize, gpk_serialize. cbn. rewrite Hi. by rewrite bool_decide_eq_true_2.
Qed.
