(* ===== verification/Signing.v ===== *)
(** * Signing roots

    Models what a bid's signature is over: the derived [TreeHash] of [Bid]
    ([crates/primitives/src/bid.rs]), of [SigningData] and [SignedRoot]
    ([blst/mod.rs]) and of [ForkData] ([signer.rs]), down to the library's hash of
    two nodes, and the signer's interface with all of them in place. *)

From stdpp Require Import prelude list.
From S2P Require Import Prelude Types Validator Chain Payload Bid Ssz Blst.

Open Scope Z_scope.

(** ** The library *)

(** The library [tree_hash]: the hash of two nodes, its Merkle hashers, of bytes
    ([merkle_root] of [BlstLib]) and of the roots of a structure's fields, and the
    roots of [u64] and [[u8; 4]].  The laws are the SSZ specification's. *)
Class TreeHashLib `{BS : BlstLib} := {
  hash32_concat : Bytes -> Bytes -> Bytes;
  merkle_hasher : list Bytes -> B256;
  std_u64_tree_hash_root : Z -> B256;
  bytes4_tree_hash_root : Bytes -> B256;
  hash32_concat_len : forall l r, length (hash32_concat l r) = BYTES_PER_CHUNK;
  merkle_hasher_spec : forall leaves, Forall (fun l => length l = BYTES_PER_CHUNK) leaves -> leaves <> [] ->
    be_bytes 32 (merkle_hasher leaves) = merkle_tree hash32_concat (Nat.log2_up (length leaves)) leaves;
  merkle_root_spec : forall bs n, n <> 0%nat -> (length bs <= BYTES_PER_CHUNK * n)%nat ->
    be_bytes 32 (merkle_root bs n) = merkle_tree hash32_concat (Nat.log2_up n) (chunks n bs);
  std_u64_root_spec : forall x, is_u64 x ->
    be_bytes 32 (std_u64_tree_hash_root x) = le_bytes 8 x ++ repeat Byte.x00 24;
}.

Section Signing.
Context `{BS : BlstLib} `{TH : !TreeHashLib}.

(** ** [TreeHash] of [Bid], derived *)

Definition pubkey_tree_hash_root (k : BlsPublicKey) : Bytes :=
  be_bytes 32 (macro_tree_hash_root (be_bytes PUBLIC_KEY_BYTES_LEN k) PUBLIC_KEY_BYTES_LEN).

(** the roots of its fields, in their order *)
Definition bid_field_roots (b : Bid) : list Bytes :=
  [ be_bytes 32 (std_u64_tree_hash_root (bid_slot b));
    b256_tree_hash_root (MkB256 (bid_parent_hash b));
    b256_tree_hash_root (MkB256 (bid_block_hash b));
    pubkey_tree_hash_root (bid_builder_pubkey b);
    pubkey_tree_hash_root (bid_proposer_pubkey b);
    address_tree_hash_root (MkAddress (bid_proposer_fee_recipient b));
    be_bytes 32 (std_u64_tree_hash_root (bid_gas_limit b));
    be_bytes 32 (std_u64_tree_hash_root (bid_gas_used b));
    u256_tree_hash_root (MkU256 (bid_value b)) ].

Definition bid_tree_hash_root (b : Bid) : B256 := merkle_hasher (bid_field_roots b).

(** ** [SigningData] and [ForkData] *)

Record SigningData := { sd_object_root : B256; sd_domain : Bytes }.

Definition signing_data_tree_hash_root (self : SigningData) : B256 :=
  merkle_hasher [be_bytes 32 (sd_object_root self); sd_domain self].

(** [SignedRoot::signing_root] *)
Definition bid_signing_root (self : Bid) (domain : Bytes) : B256 :=
  signing_data_tree_hash_root {| sd_object_root := bid_tree_hash_root self; sd_domain := domain |}.

Record ForkData := { fd_current_version : Bytes; fd_genesis_validators_root : Bytes }.

Definition fork_data_tree_hash_root (self : ForkData) : B256 :=
  merkle_hasher [be_bytes 32 (bytes4_tree_hash_root (fd_current_version self)); fd_genesis_validators_root self].

(** the signer's interface over the libraries *)
Definition signing_bls : Bls :=
  blst_bls
    (fun current_version genesis_validators_root =>
       be_bytes 32 (fork_data_tree_hash_root
         {| fd_current_version := current_version; fd_genesis_validators_root := genesis_validators_root |}))
    bid_signing_root.

(** ** Properties *)

(** the pairs of nodes that are hashed in a tree, from its root down *)
Fixpoint tree_pairs (depth : nat) (leaves : list Bytes) : list (Bytes * Bytes) :=
  match depth with
  | O => []
  | S depth =>
      let l := take (2 ^ depth) leaves in
      let r := drop (2 ^ depth) leaves in
      (merkle_tree hash32_concat depth l, merkle_tree hash32_concat depth r) ::
        tree_pairs depth l ++ tree_pairs depth r
  end.

Definition pubkey_pairs (k : BlsPublicKey) : list (Bytes * Bytes) :=
  tree_pairs 1 (chunks 2 (be_bytes PUBLIC_KEY_BYTES_LEN k)).

(** those of a bid under a domain: of its two keys, of its nine fields, and of its root with
    the domain *)
Definition bid_pairs (b : Bid) (domain : Bytes) : list (Bytes * Bytes) :=
  tree_pairs 1 [be_bytes 32 (bid_tree_hash_root b); domain] ++
  tree_pairs 4 (bid_field_roots b) ++
  pubkey_pairs (bid_builder_pubkey b) ++ pubkey_pairs (bid_proposer_pubkey b).

(** two different pairs of nodes, one of each list, with one hash *)
Definition collision (ps ps' : list (Bytes * Bytes)) : Prop :=
  exists p p', p ∈ ps /\ p' ∈ ps' /\ p <> p' /\ hash32_concat p.1 p.2 = hash32_concat p'.1 p'.2.

(** what holds unless a collision is found among the pairs *)
Definition binding (ps ps' : list (Bytes * Bytes)) (P : Prop) : Prop := P \/ collision ps ps'.

Lemma binding_bind ps ps' (P Q : Prop) : binding ps ps' P -> (P -> binding ps ps' Q) -> binding ps ps' Q.
Proof. intros [H|H] HQ; [by apply HQ|by right]. Qed.

Lemma binding_and ps ps' (P Q : Prop) : binding ps ps' P -> binding ps ps' Q -> binding ps ps' (P /\ Q).
Proof. unfold binding. tauto. Qed.

Lemma binding_impl ps ps' (P Q : Prop) : (P -> Q) -> binding ps ps' P -> binding ps ps' Q.
Proof. unfold binding. tauto. Qed.

Lemma binding_mono ps ps' qs qs' (P : Prop) :
  ps ⊆ qs -> ps' ⊆ qs' -> binding ps ps' P -> binding qs qs' P.
Proof. intros H H' [HP|(p & p' & H1 & H2 & ?)]; [by left|right]. exists p, p'. split_and!; naive_solver. Qed.

Lemma hash_binding ps ps' l r l' r' :
  (l, r) ∈ ps -> (l', r') ∈ ps' -> hash32_concat l r = hash32_concat l' r' ->
  binding ps ps' (l = l' /\ r = r').
Proof.
  intros Hp Hp' H. destruct (decide ((l, r) = (l', r'))) as [[= -> ->]|Hn]; [by left|].
  right. by exists (l, r), (l', r').
Qed.

(** a root determines its leaves *)
Lemma merkle_tree_binding depth l1 l2 :
  chunked l1 -> chunked l2 -> length l1 = length l2 -> (length l1 <= 2 ^ depth)%nat ->
  merkle_tree hash32_concat depth l1 = merkle_tree hash32_concat depth l2 ->
  binding (tree_pairs depth l1) (tree_pairs depth l2) (l1 = l2).
Proof.
  revert l1 l2. induction depth as [|depth IH]; intros l1 l2 H1 H2 Hl Hd; cbn [merkle_tree].
  - intros He. left. destruct l1 as [|x [|]], l2 as [|y [|]]; simpl in *; try lia; [done|by subst].
  - rewrite Nat.pow_succ_r' in Hd. intros He. cbn [tree_pairs].
    eapply hash_binding in He; [|left|left]. apply (binding_bind _ _ _ _ He). intros [Ht Hr].
    apply IH in Ht; [|by apply Forall_take|by apply Forall_take|by rewrite !length_take, Hl|rewrite length_take; lia].
    apply IH in Hr; [|by apply Forall_drop|by apply Forall_drop|by rewrite !length_drop, Hl|rewrite length_drop; lia].
    eapply binding_mono in Ht; [eapply binding_mono in Hr; [eapply binding_impl; [|exact (binding_and _ _ _ _ Ht Hr)]|..]|..];
      [|intros p Hp; right; apply elem_of_app; by (left + right)..].
    intros [E1 E2].
    rewrite <- (take_drop (2 ^ depth) l1), <- (take_drop (2 ^ depth) l2). by rewrite E1, E2.
Qed.

Lemma merkle_hasher_binding l1 l2 depth :
  chunked l1 -> chunked l2 -> length l1 = length l2 -> l1 <> [] -> Nat.log2_up (length l1) = depth ->
  be_bytes 32 (merkle_hasher l1) = be_bytes 32 (merkle_hasher l2) ->
  binding (tree_pairs depth l1) (tree_pairs depth l2) (l1 = l2).
Proof.
  intros H1 H2 Hl Hn Hd He. rewrite !merkle_hasher_spec in He; [|done| |done|done]; [|intros ->; by destruct l1].
  rewrite <- Hl, Hd in He. apply merkle_tree_binding in He; try done. rewrite <- Hd.
  destruct l1 as [|x l1]; [done|]. apply Nat.log2_log2_up_spec. simpl. lia.
Qed.

Lemma pubkey_root_binding k k' :
  0 <= k < 256 ^ Z.of_nat PUBLIC_KEY_BYTES_LEN -> 0 <= k' < 256 ^ Z.of_nat PUBLIC_KEY_BYTES_LEN ->
  pubkey_tree_hash_root k = pubkey_tree_hash_root k' -> binding (pubkey_pairs k) (pubkey_pairs k') (k = k').
Proof.
  intros Hk Hk'. unfold pubkey_tree_hash_root, macro_tree_hash_root.
  change (div_ceil PUBLIC_KEY_BYTES_LEN 32) with 2%nat.
  assert (forall x, length (be_bytes PUBLIC_KEY_BYTES_LEN x) <= BYTES_PER_CHUNK * 2)%nat as Hn
    by (intros x; rewrite length_be_bytes; unfold PUBLIC_KEY_BYTES_LEN, BYTES_PER_CHUNK; lia).
  rewrite !merkle_root_spec by done. intros He.
  apply merkle_tree_binding in He; [|apply chunks_chunked|apply chunks_chunked|by rewrite !chunks_length|by rewrite chunks_length].
  eapply binding_impl; [|exact He]. intros E. apply chunks_inj in E; [|by rewrite !length_be_bytes|apply Hn].
  apply (f_equal be_value) in E. by rewrite !be_value_of_bytes in E.
Qed.

Lemma std_u64_root_inj x y : is_u64 x -> is_u64 y ->
  be_bytes 32 (std_u64_tree_hash_root x) = be_bytes 32 (std_u64_tree_hash_root y) -> x = y.
Proof.
  intros Hx Hy. rewrite !std_u64_root_spec by done. intros [E _]%app_inj_1; [|by rewrite !length_le_bytes].
  by apply le_value_inj in E.
Qed.

(** the fields of a bid hold values of their types *)
Definition bid_typed (b : Bid) : Prop :=
  is_u64 (bid_slot b) /\ is_u256 (bid_parent_hash b) /\ is_u256 (bid_block_hash b) /\
  0 <= bid_builder_pubkey b < 256 ^ Z.of_nat PUBLIC_KEY_BYTES_LEN /\
  0 <= bid_proposer_pubkey b < 256 ^ Z.of_nat PUBLIC_KEY_BYTES_LEN /\
  0 <= bid_proposer_fee_recipient b < 2 ^ 160 /\
  is_u64 (bid_gas_limit b) /\ is_u64 (bid_gas_used b) /\ is_u256 (bid_value b).

Lemma bid_field_roots_chunked b : chunked (bid_field_roots b).
Proof.
  repeat apply Forall_cons_2; try apply Forall_nil_2; try apply length_be_bytes;
    [apply tree_hash_roots_injective|apply length_le_bytes].
Qed.

Lemma cons_both {A} (x y : A) l k : x :: l = y :: k -> x = y /\ l = k.
Proof. by intros [= -> ->]. Qed.

Lemma bid_field_roots_binding b b' : bid_typed b -> bid_typed b' ->
  bid_field_roots b = bid_field_roots b' ->
  binding (pubkey_pairs (bid_builder_pubkey b) ++ pubkey_pairs (bid_proposer_pubkey b))
    (pubkey_pairs (bid_builder_pubkey b') ++ pubkey_pairs (bid_proposer_pubkey b')) (b = b').
Proof.
  destruct tree_hash_roots_injective as (_ & _ & Hb & Hu & Ha).
  intros (H1 & H2 & H3 & H4 & H5 & H6 & H7 & H8 & H9) (G1 & G2 & G3 & G4 & G5 & G6 & G7 & G8 & G9).
  unfold bid_field_roots. intros (E1 & (E2 & (E3 & (E4 & (E5 & (E6 & (E7 & (E8 & (E9 & _)%cons_both)%cons_both)%cons_both)%cons_both)%cons_both)%cons_both)%cons_both)%cons_both)%cons_both.
  apply std_u64_root_inj in E1, E7, E8; try done.
  apply Hb in E2; [|done|done]. apply Hb in E3; [|done|done]. apply Ha in E6; [|done|done].
  apply Hu in E9; [|done|done]. apply pubkey_root_binding in E4, E5; try done.
  eapply binding_mono in E4; [eapply binding_mono in E5; [eapply binding_impl; [|exact (binding_and _ _ _ _ E4 E5)]|..]|..];
    [|intros p Hp; apply elem_of_app; by (left + right)..].
  intros [K1 K2]. destruct b, b'. simpl in *. congruence.
Qed.

Lemma bid_signing_root_binding b b' d d' :
  bid_typed b -> bid_typed b' -> length d = BYTES_PER_CHUNK -> length d' = BYTES_PER_CHUNK ->
  bid_signing_root b d = bid_signing_root b' d' -> binding (bid_pairs b d) (bid_pairs b' d') (b = b' /\ d = d').
Proof.
  intros Hb Hb' Hd Hd' He. apply (f_equal (be_bytes 32)) in He.
  apply (merkle_hasher_binding _ _ 1) in He;
    [|repeat apply Forall_cons_2; try apply Forall_nil_2; done || apply length_be_bytes..|done|done|done].
  cbn [sd_object_root sd_domain] in He.
  eapply binding_mono in He; [apply (binding_bind _ _ _ _ He)|intros p Hp; apply elem_of_app; by left..].
  intros (E & (-> & _)%cons_both)%cons_both.
  apply (merkle_hasher_binding _ _ 4) in E; [|apply bid_field_roots_chunked..|done|done|done].
  eapply binding_mono in E; [apply (binding_bind _ _ _ _ E)|intros p Hp; unfold bid_pairs; rewrite !elem_of_app; tauto..].
  intros E'. apply bid_field_roots_binding in E'; [|done|done].
  eapply binding_mono; [| |eapply binding_impl; [|exact E']; done];
    (intros p Hp; unfold bid_pairs; rewrite !elem_of_app in *; tauto).
Qed.

Lemma tree_pairs_length depth leaves : length (tree_pairs depth leaves) = (2 ^ depth - 1)%nat.
Proof.
  revert leaves. induction depth as [|depth IH]; intros leaves; [done|]. cbn [tree_pairs length].
  rewrite length_app, !IH, Nat.pow_succ_r'. pose proof (Nat.pow_nonzero 2 depth). lia.
Qed.

Lemma compute_builder_domain_length (signer : @BlsSigner signing_bls) :
  length (@compute_builder_domain signing_bls signer) = BYTES_PER_CHUNK.
Proof.
  unfold compute_builder_domain, signing_bls. cbn [fork_data_root blst_bls].
  rewrite length_app, length_take, length_be_bytes. done.
Qed.

(** C22: a bid's signature binds the bid: it verifies under the signer's key for the bid and the
    builder domain; and if another bid, or the bid under another domain, has the same
    signing root, then among the eighteen pairs of nodes hashed for the one and the
    eighteen hashed for the other there are two different ones with one hash. *)
Theorem signature_binds_bid `{BL : !BlstLaws} (signer : @BlsSigner signing_bls) (message message' : Bid)
    (domain' : Bytes) :
  let domain := @compute_builder_domain signing_bls signer in
  bid_typed message -> bid_typed message' -> length domain' = 32%nat ->
  @bls_verify signing_bls (@signer_sign signing_bls signer message) (@signer_public_key signing_bls signer)
    (@signing_root signing_bls message domain) = true /\
  length (bid_pairs message domain) = 18%nat /\
  (@signing_root signing_bls message' domain' = @signing_root signing_bls message domain ->
     (message' = message /\ domain' = domain) \/
     exists p p', p ∈ bid_pairs message' domain' /\ p' ∈ bid_pairs message domain /\ p <> p' /\
       hash32_concat p.1 p.2 = hash32_concat p'.1 p'.2).
Proof.
  intros domain Hm Hm' Hd. split_and!; [by apply blst_verifies| |].
  - unfold bid_pairs, pubkey_pairs. by rewrite !length_app, !tree_pairs_length.
  - intros He. apply bid_signing_root_binding in He; done || apply compute_builder_domain_length.
Qed.
End Signing.

(** ** Evaluation on concrete inputs *)

Definition toy_tree_hash (hash : Bytes -> Bytes -> Bytes)
    (hash_len : forall l r, length (hash l r) = BYTES_PER_CHUNK) : @TreeHashLib (toy_blst hash).
Proof.
  refine (@Build_TreeHashLib (toy_blst hash) hash
    (fun leaves => be_value (merkle_tree hash (Nat.log2_up (length leaves)) leaves))
    (fun x => be_value (le_bytes 8 x ++ repeat Byte.x00 24))
    (fun bs => be_value (bs ++ repeat Byte.x00 28)) hash_len _ _ _).
  - intros leaves Hl _. by apply merkle_value.
  - intros bs n _ _. apply (merkle_value hash), chunks_chunked. exact hash_len.
  - intros x _. pose proof (be_bytes_of_value (le_bytes 8 x ++ repeat Byte.x00 24)) as H.
    rewrite length_app, length_le_bytes, repeat_length in H. exact H.
Defined.

#[export] Instance demo_tree_hash : @TreeHashLib demo_blst := toy_tree_hash demo_hash demo_hash_len.

Definition demo_message : Bid :=
  {| bid_slot := 7; bid_parent_hash := 1; bid_block_hash := 2; bid_builder_pubkey := 3;
     bid_proposer_pubkey := 4; bid_proposer_fee_recipient := 5; bid_gas_limit := 30000000;
     bid_gas_used := 21000; bid_value := 50 |}.

Lemma demo_message_typed : bid_typed demo_message.
Proof. unfold bid_typed, is_u64, is_u256. cbn -[Z.pow]. split_and!; done || lia. Qed.

Definition demo_tree_signer : @BlsSigner signing_bls := @BlsSigner_new signing_bls demo_secret (repeat Byte.x00 4).

Lemma signature_binds_bid_witness :
  @bls_verify signing_bls (@signer_sign signing_bls demo_tree_signer demo_message)
    (@signer_public_key signing_bls demo_tree_signer)
    (@signing_root signing_bls demo_message (@compute_builder_domain signing_bls demo_tree_signer)) = true.
Proof.
  apply (signature_binds_bid demo_tree_signer demo_message demo_message (repeat Byte.x00 32)).
  - apply demo_message_typed.
  - apply demo_message_typed.
  - reflexivity.
Defined.
