(* ===== verification/Sha256.v ===== *)
(** * SHA-256

    The hash of two nodes that the tree hash library uses, after FIPS 180-4, and the
    library [TreeHashLib] over it: an instance on which signing roots and the builder's
    domain are the real ones, and on which the tests of [crates/primitives/src/signer.rs]
    are evaluated. *)

From stdpp Require Import prelude list.
From S2P Require Import Prelude Types Validator Chain Payload Bid Ssz Blst Signing.

Open Scope Z_scope.

(** ** 32-bit words *)

Definition word (x : Z) : Z := Z.land x 0xffffffff.
Definition rotr (n x : Z) : Z := Z.lor (Z.shiftr x n) (word (Z.shiftl x (32 - n))).

Definition Ch (x y z : Z) : Z := Z.lxor (Z.land x y) (Z.land (Z.lxor x 0xffffffff) z).
Definition Maj (x y z : Z) : Z := Z.lxor (Z.lxor (Z.land x y) (Z.land x z)) (Z.land y z).
Definition Sigma0 (x : Z) : Z := Z.lxor (Z.lxor (rotr 2 x) (rotr 13 x)) (rotr 22 x).
Definition Sigma1 (x : Z) : Z := Z.lxor (Z.lxor (rotr 6 x) (rotr 11 x)) (rotr 25 x).
Definition sigma0 (x : Z) : Z := Z.lxor (Z.lxor (rotr 7 x) (rotr 18 x)) (Z.shiftr x 3).
Definition sigma1 (x : Z) : Z := Z.lxor (Z.lxor (rotr 17 x) (rotr 19 x)) (Z.shiftr x 10).

(** The constants: the first 32 bits of the fractional parts of the cube roots of the
    first 64 primes, and of the square roots of the first eight. *)
Definition is_prime (n : Z) : bool :=
  forallb (fun d => negb (n mod d =? 0)) (Z.of_nat <$> seq 2 (Z.to_nat n - 2)).

Definition primes : list Z := List.filter is_prime (Z.of_nat <$> seq 2 310).

(** the integer cube root, bit by bit *)
Fixpoint icbrt (bits : nat) (n root : Z) : Z :=
  match bits with
  | O => root
  | S bits =>
      let root' := root + Z.shiftl 1 (Z.of_nat bits) in
      icbrt bits n (if root' * root' * root' <=? n then root' else root)
  end.

Definition K : list Z := (fun p => word (icbrt 36 (Z.shiftl p 96) 0)) <$> primes.

Definition H0 : list Z := (fun p => word (Z.sqrt (Z.shiftl p 64))) <$> take 8 primes.

Example constants : length K = 64%nat /\ head K = Some 0x428a2f98 /\ last K = Some 0xc67178f2 /\
  length H0 = 8%nat /\ last H0 = Some 0x5be0cd19.
Proof. split_and!; kernel_refl. Qed.

(** ** Blocks *)

(** the schedule, of which [w] holds the last 16 words, newest first *)
Fixpoint schedule (n : nat) (w : list Z) : list Z :=
  match n with
  | O => []
  | S n =>
      let x := word (sigma1 (nth 1 w 0) + nth 6 w 0 + sigma0 (nth 14 w 0) + nth 15 w 0) in
      x :: schedule n (x :: take 15 w)
  end.

Fixpoint rounds (kw : list (Z * Z)) (s : list Z) : list Z :=
  match kw, s with
  | (k, w) :: kw, [a; b; c; d; e; f; g; h] =>
      let t1 := word (h + Sigma1 e + Ch e f g + k + w) in
      let t2 := word (Sigma0 a + Maj a b c) in
      rounds kw [word (t1 + t2); a; b; c; word (d + t1); e; f; g]
  | _, _ => s
  end.

Fixpoint words (n : nat) (bs : Bytes) : list Z :=
  match n with
  | O => []
  | S n => be_value (take 4 bs) :: words n (drop 4 bs)
  end.

Definition compress_block (h : list Z) (block : Bytes) : list Z :=
  let w := words 16 block in
  zip_with (fun x y => word (x + y)) h (rounds (zip K (w ++ schedule 48 (rev w))) h).

(** the digest of 64 bytes: their block, and the one of the padding *)
Definition sha256_64 (bs : Bytes) : Bytes :=
  let padding := Byte.x80 :: repeat Byte.x00 55 ++ be_bytes 8 512 in
  concat (be_bytes 4 <$> compress_block (compress_block H0 bs) padding).

(** [hash32_concat]: the digest of both nodes *)
Definition sha256_nodes (l r : Bytes) : Bytes := sha256_64 (l ++ r).

(** ** Digests are 32 bytes *)

Lemma rounds_length kw s : length s = 8%nat -> length (rounds kw s) = 8%nat.
Proof.
  revert s. induction kw as [|[k w] kw IH]; intros s Hs; [done|].
  do 8 (destruct s as [|? s]; [done|]). destruct s; [|done]. by apply IH.
Qed.

Lemma compress_block_length h block : length h = 8%nat -> length (compress_block h block) = 8%nat.
Proof. intros Hh. unfold compress_block. by rewrite length_zip_with, rounds_length, Hh. Qed.

Lemma concat_be_bytes n l : length (concat (be_bytes n <$> l)) = (length l * n)%nat.
Proof. induction l as [|x l IH]; [done|]. csimpl. rewrite length_app, length_be_bytes. lia. Qed.

Lemma sha256_length l r : length (sha256_nodes l r) = BYTES_PER_CHUNK.
Proof. unfold sha256_nodes, sha256_64. cbv zeta. by rewrite concat_be_bytes, !compress_block_length. Qed.

(** ** The signer over it *)

#[export] Instance sha256_blst : BlstLib | 100 := toy_blst sha256_nodes.
#[export] Instance sha256_tree_hash : @TreeHashLib sha256_blst | 100 := toy_tree_hash sha256_nodes sha256_length.

(** [can_compute_b_domain]: the domains of the main network and of a devnet *)
Definition sha256_signer (fork_version : Bytes) : @BlsSigner (@signing_bls sha256_blst sha256_tree_hash) :=
  @BlsSigner_new (@signing_bls sha256_blst sha256_tree_hash) (@Build_GenericSecretKey sha256_blst true) fork_version.

Definition can_compute_b_domain (fork_version : Bytes) : Z :=
  be_value (@compute_builder_domain (@signing_bls sha256_blst sha256_tree_hash) (sha256_signer fork_version)).

Example mainnet_domain :
  can_compute_b_domain (repeat Byte.x00 4) = 0x00000001f5a5fd42d16a20302798ef6ed309979b43003d2320d9f0e8ea9831a9.
Proof. kernel_refl. Qed.

Example devnet_domain :
  can_compute_b_domain [Byte.x20; Byte.x00; Byte.x00; Byte.x89] =
  0x00000001e4b3c03845c9cd15780441feed2a67053b9cc4ae1547af5747433120.
Proof. kernel_refl. Qed.
