(* ===== verification/SszContainer.v ===== *)
(** * SSZ containers and lists

    The interface of what [#[derive(Encode, Decode)]] and the library's codec of
    [Vec] promise, on which [BidSsz] builds the encodings of bids; and an
    implementation of the interface after the SSZ specification, which shows
    that it can be kept. *)

From stdpp Require Import prelude list strings.
From S2P Require Import Prelude Types Ssz.

Open Scope Z_scope.

(** ** Parts

    A field as the encoder sees it: whether its type is of fixed length, that
    length, and its bytes. *)
Record SszPart := {
  part_fixed : bool;
  part_len : nat;
  part_bytes : Bytes;
}.

Definition BYTES_PER_LENGTH_OFFSET : nat := 4.

(** the shape of a field, as encoder and decoder know it from its type: whether it is
    fixed, and the length it takes among the heads *)
Abbreviation shape := (bool * nat)%type.
Definition head_shape (fixed : bool) (len : nat) : shape :=
  (fixed, if fixed then len else BYTES_PER_LENGTH_OFFSET).
Definition encode_shape (A : Type) `{SszEncode A} : shape := head_shape (is_ssz_fixed_len A) (ssz_fixed_len A).
Definition decode_shape (A : Type) `{SszDecode A} : shape :=
  head_shape (decode_is_ssz_fixed_len A) (decode_ssz_fixed_len A).
Definition part_shape (p : SszPart) : shape := (part_fixed p, part_len p).

Definition part {A} `{SszEncode A} (x : A) : SszPart :=
  {| part_fixed := (encode_shape A).1; part_len := (encode_shape A).2; part_bytes := as_ssz_bytes x |}.

(** the length of the part of a container before its variable parts *)
Definition head_len (s : shape) : nat := if s.1 then s.2 else BYTES_PER_LENGTH_OFFSET.
Definition heads_len (l : list shape) : nat := sum_list_with head_len l.

(** the bytes after the heads *)
Definition tail_bytes (p : SszPart) : Bytes := if part_fixed p then [] else part_bytes p.

(** the offsets of the variable parts, the first of which is at [pos] *)
Fixpoint part_offsets (pos : nat) (parts : list SszPart) : list nat :=
  match parts with
  | [] => []
  | p :: parts =>
      if part_fixed p then part_offsets pos parts else pos :: part_offsets (pos + length (part_bytes p)) parts
  end.

Definition part_ok (p : SszPart) : Prop := part_fixed p = true -> length (part_bytes p) = part_len p.

(** every offset fits in its four bytes *)
Definition offsets_fit (parts : list SszPart) : Prop :=
  Forall (fun o => Z.of_nat o < 2 ^ 32) (part_offsets (heads_len (part_shape <$> parts)) parts).

(** the parts of these shapes with these contents *)
Definition parts_of (shapes : list shape) (contents : list Bytes) : list SszPart :=
  zip_with (fun s bs => {| part_fixed := s.1; part_len := s.2; part_bytes := bs |}) shapes contents.

(** ** The library *)

(** [container_append] is [SszEncoder] as the derived code uses it, [container_split] the
    derived reader, slices or [SszDecoderBuilder].  What is written is read back; what is
    read is what was written; a container of fixed parts has one length, and any
    other is refused. *)
Class SszLib := {
  container_encode : list SszPart -> Bytes;
  container_split : list shape -> Bytes -> result DecodeError (list Bytes);
  container_length : forall parts, Forall part_ok parts ->
    length (container_encode parts) =
    (heads_len (part_shape <$> parts) + sum_list_with (fun p => length (tail_bytes p)) parts)%nat;
  container_read : forall parts, Forall part_ok parts -> offsets_fit parts ->
    container_split (part_shape <$> parts) (container_encode parts) = Ok (part_bytes <$> parts);
  container_canonical : forall shapes bs contents, container_split shapes bs = Ok contents ->
    length contents = length shapes /\ Forall part_ok (parts_of shapes contents) /\
    offsets_fit (parts_of shapes contents) /\ container_encode (parts_of shapes contents) = bs;
  container_rejects : forall shapes bs, forallb fst shapes = true -> length bs <> heads_len shapes ->
    container_split shapes bs = Err (InvalidByteLength (length bs) (heads_len shapes));
  (** [Vec]: the items one after the other, or a container of them *)
  list_split : shape -> Bytes -> result DecodeError (list Bytes);
  list_read : forall s parts, Forall (fun p => part_shape p = s) parts -> Forall part_ok parts ->
    offsets_fit parts -> (s.1 = true -> s.2 <> 0%nat) ->
    list_split s (container_encode parts) = Ok (part_bytes <$> parts);
  list_canonical : forall s bs contents, list_split s bs = Ok contents ->
    let parts := parts_of (replicate (length contents) s) contents in
    Forall part_ok parts /\ offsets_fit parts /\ container_encode parts = bs;
}.

(** ** Derived codecs *)

Section Derive.
Context `{SL : SszLib}.

Definition derive_encode {A} (shapes : list shape) (parts : A -> list SszPart) : SszEncode A := {|
  is_ssz_fixed_len := forallb fst shapes;
  ssz_fixed_len := if forallb fst shapes then heads_len shapes else BYTES_PER_LENGTH_OFFSET;
  ssz_bytes_len x :=
    if forallb fst shapes then heads_len shapes
    else (heads_len shapes + sum_list_with (fun p => length (tail_bytes p)) (parts x))%nat;
  ssz_append x buf := buf ++ container_encode (parts x);
  as_ssz_bytes x := [] ++ container_encode (parts x);
|}.

Definition derive_decode {A} (shapes : list shape) (of_parts : list Bytes -> result DecodeError A) : SszDecode A := {|
  decode_is_ssz_fixed_len := forallb fst shapes;
  decode_ssz_fixed_len := if forallb fst shapes then heads_len shapes else BYTES_PER_LENGTH_OFFSET;
  from_ssz_bytes bytes := pieces ← container_split shapes bytes; of_parts pieces;
|}.

Definition list_encode {A} `{SszEncode A} : SszEncode (list A) := {|
  is_ssz_fixed_len := false;
  ssz_fixed_len := BYTES_PER_LENGTH_OFFSET;
  ssz_bytes_len l := length (container_encode (part <$> l));
  ssz_append l buf := buf ++ container_encode (part <$> l);
  as_ssz_bytes l := [] ++ container_encode (part <$> l);
|}.

Definition list_decode {A} `{SszDecode A} : SszDecode (list A) := {|
  decode_is_ssz_fixed_len := false;
  decode_ssz_fixed_len := BYTES_PER_LENGTH_OFFSET;
  from_ssz_bytes bytes := pieces ← list_split (decode_shape A) bytes; collect_results from_ssz_bytes pieces;
|}.
End Derive.

(** ** Laws *)

Lemma part_ok_codec {A} `{SszCodec A wf} (x : A) : wf x -> part_ok (part x).
Proof. intros Hx Hf. simpl in *. rewrite codec_len, Hf by done. by apply codec_fixed. Qed.

Lemma codec_shape {A} `{SszCodec A wf} : decode_shape A = encode_shape A.
Proof.
  destruct codec_layout as [Hf Hl]. unfold decode_shape, encode_shape, head_shape. rewrite <- Hf.
  destruct (is_ssz_fixed_len A); [|done]. by rewrite Hl.
Qed.

Lemma parts_of_shapes (parts : list SszPart) shapes :
  part_shape <$> parts = shapes -> parts_of shapes (part_bytes <$> parts) = parts.
Proof.
  intros <-. unfold parts_of. induction parts as [|[f n bs] parts IH]; [done|]. csimpl. by rewrite IH.
Qed.

Lemma tail_fixed (parts : list SszPart) :
  forallb fst (part_shape <$> parts) = true -> sum_list_with (fun p => length (tail_bytes p)) parts = 0%nat.
Proof.
  induction parts as [|p parts IH]; [done|]. csimpl. intros [Hp Hps]%andb_prop.
  unfold tail_bytes at 1. simpl in Hp. rewrite Hp. by rewrite IH.
Qed.

Section DeriveLaws.
Context `{SL : SszLib}.

(** The laws of a derived codec: both sides know the same shapes, the parts of a
    value are those of its fields, and the fields read back. *)
Lemma derive_codec {A} (shapes dshapes : list shape) (parts : A -> list SszPart)
    (of_parts : list Bytes -> result DecodeError A) (wf : A -> Prop) :
  dshapes = shapes ->
  (forall x, part_shape <$> parts x = shapes) ->
  (forall x, wf x -> Forall part_ok (parts x)) ->
  (forall x, wf x -> of_parts (part_bytes <$> parts x) = Ok x) ->
  (forall pieces x, length pieces = length shapes -> of_parts pieces = Ok x ->
     wf x /\ part_bytes <$> parts x = pieces) ->
  @SszCodec A (derive_encode shapes parts) (derive_decode dshapes of_parts)
    (fun x => wf x /\ offsets_fit (parts x)).
Proof.
  intros -> Hsh Hok Hr Hc. split; simpl.
  - done.
  - intros x buf _. done.
  - intros x [Hx _]. rewrite container_length by by apply Hok. rewrite Hsh.
    destruct (forallb fst shapes) eqn:Hf; [|done]. rewrite tail_fixed by by rewrite Hsh. lia.
  - intros x Hf. by rewrite Hf.
  - intros x [Hx Ho]. rewrite <- (Hsh x), container_read by (done || by apply Hok). by apply Hr.
  - intros bs x (pieces & Hp & Hx)%result_bind_Ok.
    apply container_canonical in Hp as (Hl & Hpo & Ho & <-).
    apply Hc in Hx as [Hw <-]; [|done]. rewrite parts_of_shapes in * by done. done.
  - intros bs Hf Hl. rewrite Hf in Hl. by rewrite container_rejects, Hf.
Qed.

(** The laws of [Vec]; items of a fixed length are not empty. *)
Lemma list_codec {A} `{HC : SszCodec A wf} :
  (is_ssz_fixed_len A = true -> ssz_fixed_len A <> 0%nat) ->
  @SszCodec (list A) list_encode list_decode
    (fun l => Forall wf l /\ offsets_fit (part <$> l)).
Proof.
  intros Hn. pose proof (codec_shape (H1 := HC)) as Hs. split; simpl; try done.
  - intros l [Hl Ho]. rewrite Hs, (list_read (encode_shape A)); simpl; [| | |done|by intros Hf; rewrite Hf; apply Hn].
    + apply collect_results_Ok. rewrite <- list_fmap_compose. clear Ho.
      induction Hl as [|x l Hx _ IH]; csimpl; constructor; [by apply codec_roundtrip|done].
    + apply Forall_fmap, Forall_true. done.
    + apply Forall_fmap. eapply Forall_impl; [exact Hl|]. intros x. by apply part_ok_codec.
  - intros bs l (pieces & Hp & Hl)%result_bind_Ok. apply collect_results_Ok in Hl.
    rewrite Hs in Hp. apply list_canonical in Hp as (_ & Ho & Hb).
    assert (Forall wf l /\ parts_of (replicate (length pieces) (encode_shape A)) pieces = part <$> l) as [Hw He].
    { clear Ho Hb. induction Hl as [|p x pieces l Hx _ [IH1 IH2]]; [done|].
      apply codec_canonical in Hx as [Hwf <-]. split; [by constructor|]. csimpl. unfold parts_of in *. csimpl.
      by rewrite IH2. }
    rewrite He in *. done.
Qed.
End DeriveLaws.

(** ** Structures

    The fields of a structure as nested pairs, in the order of its declaration; the
    derived codec of a structure is that of its fields. *)

Class SszEncodeFields (T : Type) := {
  fields_encode_shapes : list shape;
  fields_parts : T -> list SszPart;
}.
#[global] Arguments fields_encode_shapes T {_}.

Class SszDecodeFields (T : Type) := {
  fields_decode_shapes : list shape;
  fields_read : list Bytes -> result DecodeError T;
}.
#[global] Arguments fields_decode_shapes T {_}.

#[export] Instance no_fields_encode : SszEncodeFields unit :=
  {| fields_encode_shapes := []; fields_parts _ := [] |}.

#[export] Instance more_fields_encode {A T} `{SszEncode A, SszEncodeFields T} : SszEncodeFields (A * T) := {|
  fields_encode_shapes := encode_shape A :: fields_encode_shapes T;
  fields_parts xt := part xt.1 :: fields_parts xt.2;
|}.

#[export] Instance no_fields_decode : SszDecodeFields unit := {|
  fields_decode_shapes := [];
  fields_read pieces := match pieces with [] => Ok tt | _ => Err (BytesInvalid "fields"%string) end;
|}.

#[export] Instance more_fields_decode {A T} `{SszDecode A, SszDecodeFields T} : SszDecodeFields (A * T) := {|
  fields_decode_shapes := decode_shape A :: fields_decode_shapes T;
  fields_read pieces :=
    match pieces with
    | piece :: pieces => x ← from_ssz_bytes piece; t ← fields_read pieces; mret (x, t)
    | [] => Err (BytesInvalid "fields"%string)
    end;
|}.

Class SszFieldsLaws (T : Type) `{SszEncodeFields T, SszDecodeFields T} (wf : T -> Prop) : Prop := {
  fields_agree : fields_decode_shapes T = fields_encode_shapes T;
  fields_parts_shapes : forall t, part_shape <$> fields_parts t = fields_encode_shapes T;
  fields_parts_ok : forall t, wf t -> Forall part_ok (fields_parts t);
  fields_roundtrip : forall t, wf t -> fields_read (part_bytes <$> fields_parts t) = Ok t;
  fields_canonical : forall pieces t, fields_read pieces = Ok t ->
    wf t /\ part_bytes <$> fields_parts t = pieces;
}.

#[export] Instance no_fields_laws : SszFieldsLaws unit (fun _ => True).
Proof. split; try done; [by intros []|by intros [] [] [= ]]. Qed.

#[export] Instance more_fields_laws {A T} `{SszCodec A wfA, SszFieldsLaws T wfT} :
  SszFieldsLaws (A * T) (fun xt => wfA xt.1 /\ wfT xt.2).
Proof.
  split; simpl.
  - by rewrite codec_shape, fields_agree.
  - intros [x t]. csimpl. by rewrite fields_parts_shapes.
  - intros [x t] [Hx Ht]. constructor; [by apply part_ok_codec|by apply fields_parts_ok].
  - intros [x t] [Hx Ht]. cbn [fst snd] in *. csimpl. rewrite codec_roundtrip by done. simpl.
    by rewrite fields_roundtrip.
  - intros [|piece pieces] [x t]; [done|]. intros (y & Hy & (u & Hu & [= -> ->])%result_bind_Ok)%result_bind_Ok.
    apply codec_canonical in Hy as [Hx <-]. apply fields_canonical in Hu as [Ht <-]. done.
Qed.

Section Struct.
Context `{SL : SszLib} {A T : Type}.

Definition struct_encode `{SszEncodeFields T} (fields : A -> T) : SszEncode A :=
  derive_encode (fields_encode_shapes T) (fun x => fields_parts (fields x)).

Definition struct_decode `{SszDecodeFields T} (of_fields : T -> A) : SszDecode A :=
  derive_decode (fields_decode_shapes T) (fun pieces => t ← fields_read pieces; mret (of_fields t)).

Lemma struct_codec (fields : A -> T) (of_fields : T -> A) `{FL : SszFieldsLaws T wf} :
  (forall x, of_fields (fields x) = x) -> (forall t, fields (of_fields t) = t) ->
  @SszCodec A (struct_encode fields) (struct_decode of_fields)
    (fun x => wf (fields x) /\ offsets_fit (fields_parts (fields x))).
Proof.
  intros H1 H2. apply (derive_codec _ _ _ _ (fun x => wf (fields x))).
  - apply fields_agree.
  - intros x. apply fields_parts_shapes.
  - intros x. apply fields_parts_ok.
  - intros x Hx. rewrite fields_roundtrip by done. simpl. by rewrite H1.
  - intros pieces x _ (t & Ht & [= <-])%result_bind_Ok. rewrite H2. by apply fields_canonical.
Qed.
End Struct.

(** *** When offsets fit *)

Lemma part_offsets_fixed pos parts : forallb fst (part_shape <$> parts) = true -> part_offsets pos parts = [].
Proof. induction parts as [|p parts IH]; [done|]. csimpl. intros [-> Hps]%andb_prop. by apply IH. Qed.

(** a structure of fixed fields has no offsets *)
Lemma offsets_fit_fixed parts : forallb fst (part_shape <$> parts) = true -> offsets_fit parts.
Proof. intros Hf. unfold offsets_fit. by rewrite part_offsets_fixed. Qed.

Lemma part_offsets_bound pos parts :
  Forall (fun o => o <= pos + sum_list_with (fun p => length (tail_bytes p)) parts)%nat (part_offsets pos parts).
Proof.
  revert pos. induction parts as [|p parts IH]; intros pos; simpl; [constructor|].
  unfold tail_bytes at 1. destruct (part_fixed p); simpl; [apply IH|]. constructor; [lia|].
  eapply Forall_impl; [apply IH|]. simpl. intros o Ho. lia.
Qed.

(** the offsets fit in what is encoded in less than four gigabytes *)
Lemma offsets_fit_length `{SL : SszLib} parts :
  Forall part_ok parts -> Z.of_nat (length (container_encode parts)) < 2 ^ 32 -> offsets_fit parts.
Proof.
  intros Hok. rewrite container_length by done. intros Hl. unfold offsets_fit.
  eapply Forall_impl; [apply part_offsets_bound|]. simpl. intros o Ho. lia.
Qed.

(** a part is not longer than the container it is in *)
Lemma part_le_container `{SL : SszLib} parts p :
  Forall part_ok parts -> p ∈ parts -> (length (part_bytes p) <= length (container_encode parts))%nat.
Proof.
  intros Hok Hp. rewrite container_length by done. induction Hp as [p parts|p q parts Hp IH];
    apply Forall_cons in Hok as [Hq Hok].
  - csimpl. unfold heads_len, tail_bytes at 1. simpl. unfold head_len at 1. simpl. unfold part_ok in Hq.
    destruct (part_fixed p); [rewrite Hq by done|]; simpl; lia.
  - specialize (IH Hok). csimpl. unfold heads_len in *. simpl. lia.
Qed.

(** ** An implementation after the specification *)

Definition offset_bytes (o : nat) : Bytes := le_bytes BYTES_PER_LENGTH_OFFSET (Z.of_nat o).

(** the heads: fixed parts in place, offsets for the others *)
Fixpoint spec_heads (pos : nat) (parts : list SszPart) : Bytes :=
  match parts with
  | [] => []
  | p :: parts =>
      if part_fixed p then part_bytes p ++ spec_heads pos parts
      else offset_bytes pos ++ spec_heads (pos + length (part_bytes p)) parts
  end.

Definition spec_tails (parts : list SszPart) : Bytes := concat (tail_bytes <$> parts).

Definition spec_encode (parts : list SszPart) : Bytes :=
  spec_heads (heads_len (part_shape <$> parts)) parts ++ spec_tails parts.

(** the heads read back: the bytes of a fixed part, the offset of another, and what follows *)
Fixpoint spec_items (shapes : list shape) (bs : Bytes) : option (list (Bytes + nat) * Bytes) :=
  match shapes with
  | [] => Some ([], bs)
  | s :: shapes =>
      if bool_decide (head_len s <= length bs)%nat then
        '(items, rest) ← spec_items shapes (drop (head_len s) bs);
        let h := take (head_len s) bs in
        Some ((if s.1 then inl h else inr (Z.to_nat (le_value h))) :: items, rest)
      else None
  end.

Fixpoint first_offset (items : list (Bytes + nat)) : option nat :=
  match items with
  | [] => None
  | inl _ :: items => first_offset items
  | inr o :: _ => Some o
  end.

(** the variable parts cut at the offsets, [tail] being at [pos] *)
Fixpoint spec_cut (items : list (Bytes + nat)) (pos : nat) (tail : Bytes) : option (list Bytes) :=
  match items with
  | [] => if bool_decide (tail = []) then Some [] else None
  | inl b :: items => (fun l => b :: l) <$> spec_cut items pos tail
  | inr o :: items =>
      let next := default (pos + length tail)%nat (first_offset items) in
      if bool_decide (o = pos /\ pos <= next <= pos + length tail)%nat
      then (fun l => take (next - pos) tail :: l) <$> spec_cut items next (drop (next - pos) tail)
      else None
  end.

Definition spec_split (shapes : list shape) (bs : Bytes) : result DecodeError (list Bytes) :=
  if forallb fst shapes && bool_decide (length bs <> heads_len shapes)
  then Err (InvalidByteLength (length bs) (heads_len shapes))
  else ok_or ('(items, tail) ← spec_items shapes bs; spec_cut items (heads_len shapes) tail)
         (BytesInvalid "offsets"%string).

(** the items of a list: its first offset, or its length, tells how many *)
Definition spec_list_split (s : shape) (bs : Bytes) : result DecodeError (list Bytes) :=
  if bool_decide (bs = []) then Ok []
  else if s.1 then
    if bool_decide (s.2 <> 0 /\ length bs mod s.2 = 0)%nat
    then spec_split (replicate (length bs / s.2) s) bs else Err (InvalidByteLength (length bs) s.2)
  else spec_split (replicate (Z.to_nat (le_value (take 4 bs)) / 4) s) bs.

(** what the heads of parts read back as *)
Fixpoint items_of (pos : nat) (parts : list SszPart) : list (Bytes + nat) :=
  match parts with
  | [] => []
  | p :: parts =>
      if part_fixed p then inl (part_bytes p) :: items_of pos parts
      else inr pos :: items_of (pos + length (part_bytes p)) parts
  end.

#[local] Arguments le_value : simpl never.

Lemma offset_bytes_length o : length (offset_bytes o) = BYTES_PER_LENGTH_OFFSET.
Proof. apply length_le_bytes. Qed.

Lemma offset_bytes_value (o : nat) : Z.of_nat o < 2 ^ 32 -> Z.to_nat (le_value (offset_bytes o)) = o.
Proof.
  intros H. unfold offset_bytes, BYTES_PER_LENGTH_OFFSET. rewrite le_value_of_bytes by lia. apply Nat2Z.id.
Qed.

#[local] Opaque offset_bytes.

Lemma spec_heads_length pos parts :
  Forall part_ok parts -> length (spec_heads pos parts) = heads_len (part_shape <$> parts).
Proof.
  intros H. revert pos. induction H as [|p parts Hp _ IH]; intros pos; [done|]. csimpl.
  unfold head_len. simpl. destruct (part_fixed p) eqn:Hf; rewrite length_app, IH; [by rewrite Hp|].
  by rewrite offset_bytes_length.
Qed.

Lemma spec_items_heads pos parts tail :
  Forall part_ok parts -> Forall (fun o => Z.of_nat o < 2 ^ 32) (part_offsets pos parts) ->
  spec_items (part_shape <$> parts) (spec_heads pos parts ++ tail) = Some (items_of pos parts, tail).
Proof.
  intros H. revert pos. induction H as [|p parts Hp _ IH]; intros pos Ho; [done|]. csimpl.
  unfold head_len. simpl. simpl in Ho. destruct (part_fixed p) eqn:Hf.
  - rewrite <- (Hp Hf), <- app_assoc, take_app_length, drop_app_length, IH by done.
    rewrite bool_decide_eq_true_2 by (rewrite length_app; lia). done.
  - inversion Ho as [|? ? Hpos Ho']; subst. rewrite <- app_assoc.
    rewrite bool_decide_eq_true_2 by (rewrite length_app, offset_bytes_length; lia).
    rewrite take_app_length', drop_app_length', IH by (done || apply offset_bytes_length). simpl.
    by rewrite offset_bytes_value.
Qed.

Lemma first_offset_items pos parts :
  first_offset (items_of pos parts) =
  if existsb (fun p => negb (part_fixed p)) parts then Some pos else None.
Proof.
  revert pos. induction parts as [|p parts IH]; intros pos; [done|]. simpl.
  destruct (part_fixed p); simpl; [apply IH|done].
Qed.

Lemma spec_tails_none parts :
  existsb (fun p => negb (part_fixed p)) parts = false -> spec_tails parts = [].
Proof.
  unfold spec_tails. induction parts as [|p parts IH]; [done|]. csimpl. unfold tail_bytes at 1.
  destruct (part_fixed p); simpl; [apply IH|done].
Qed.

Lemma spec_cut_items pos parts : spec_cut (items_of pos parts) pos (spec_tails parts) = Some (part_bytes <$> parts).
Proof.
  revert pos. induction parts as [|p parts IH]; intros pos; [done|]. csimpl.
  assert (spec_tails (p :: parts) = tail_bytes p ++ spec_tails parts) as -> by done.
  unfold tail_bytes. destruct (part_fixed p) eqn:Hf; csimpl; [by rewrite IH|].
  rewrite first_offset_items.
  assert (default (pos + length (part_bytes p ++ spec_tails parts))%nat
    (if existsb (fun p => negb (part_fixed p)) parts then Some (pos + length (part_bytes p))%nat else None) =
    (pos + length (part_bytes p))%nat) as ->.
  { destruct (existsb _ parts) eqn:Hx; simpl; [done|].
    by rewrite (spec_tails_none parts Hx), app_nil_r. }
  rewrite bool_decide_eq_true_2 by (rewrite length_app; lia).
  replace (pos + length (part_bytes p) - pos)%nat with (length (part_bytes p)) by lia.
  by rewrite take_app_length, drop_app_length, IH.
Qed.

Lemma spec_encode_length parts : Forall part_ok parts ->
  length (spec_encode parts) =
  (heads_len (part_shape <$> parts) + sum_list_with (fun p => length (tail_bytes p)) parts)%nat.
Proof.
  intros H. unfold spec_encode. rewrite length_app, spec_heads_length by done. f_equal.
  unfold spec_tails. clear H. induction parts as [|p parts IH]; [done|]. csimpl. by rewrite length_app, IH.
Qed.

Lemma spec_read parts : Forall part_ok parts -> offsets_fit parts ->
  spec_split (part_shape <$> parts) (spec_encode parts) = Ok (part_bytes <$> parts).
Proof.
  intros Hp Ho. unfold spec_split. destruct (forallb fst (part_shape <$> parts)) eqn:Hf; simpl.
  - rewrite bool_decide_eq_false_2; [|rewrite spec_encode_length, tail_fixed by done; lia].
    unfold spec_encode. rewrite spec_items_heads by done. simpl. by rewrite spec_cut_items.
  - unfold spec_encode. rewrite spec_items_heads by done. simpl. by rewrite spec_cut_items.
Qed.

(** the bytes of the heads *)
Definition item_bytes (i : Bytes + nat) : Bytes := match i with inl b => b | inr o => offset_bytes o end.
Definition item_ok (s : shape) (i : Bytes + nat) : Prop :=
  match i with
  | inl b => s.1 = true /\ length b = s.2
  | inr o => s.1 = false /\ Z.of_nat o < 2 ^ 32
  end.

Lemma spec_heads_items pos parts : spec_heads pos parts = concat (item_bytes <$> items_of pos parts).
Proof.
  revert pos. induction parts as [|p parts IH]; intros pos; [done|]. csimpl.
  destruct (part_fixed p); csimpl; by rewrite IH.
Qed.

Lemma part_offsets_items pos parts (P : nat -> Prop) :
  Forall P (part_offsets pos parts) <-> Forall (fun i => match i with inl _ => True | inr o => P o end) (items_of pos parts).
Proof.
  revert pos. induction parts as [|p parts IH]; intros pos; [done|]. simpl.
  destruct (part_fixed p); rewrite !Forall_cons, IH; naive_solver.
Qed.

Lemma read_offset h : length h = BYTES_PER_LENGTH_OFFSET ->
  offset_bytes (Z.to_nat (le_value h)) = h /\ Z.of_nat (Z.to_nat (le_value h)) < 2 ^ 32.
Proof.
  intros Hl. pose proof (le_value_range h) as Hr. rewrite Hl in Hr. unfold BYTES_PER_LENGTH_OFFSET in Hr.
  rewrite Z2Nat.id by lia. split; [|exact (proj2 Hr)]. Transparent offset_bytes. unfold offset_bytes.
  rewrite <- Hl, Z2Nat.id by lia. apply le_bytes_value.
Qed.
#[local] Opaque offset_bytes.

Lemma spec_items_inv shapes bs items tail :
  spec_items shapes bs = Some (items, tail) ->
  bs = concat (item_bytes <$> items) ++ tail /\ Forall2 item_ok shapes items.
Proof.
  revert bs items. induction shapes as [|[f n] shapes IH]; intros bs items; simpl; [by intros [= <- <-]|].
  case_bool_decide as Hl; [|done]. intros ([items' rest] & Hi & [= <- <-])%bind_Some.
  apply IH in Hi as [Hbs Hok]. unfold head_len in *. destruct f; simpl in Hl, Hbs; csimpl.
  - rewrite <- app_assoc, <- Hbs, take_drop. split; [done|]. constructor; [|done].
    split; [done|]. by apply length_take_le.
  - assert (length (take BYTES_PER_LENGTH_OFFSET bs) = BYTES_PER_LENGTH_OFFSET) as Ht by (apply length_take_le; lia).
    apply read_offset in Ht as [Ht1 Ht2]. rewrite Ht1, <- app_assoc, <- Hbs, take_drop. split; [done|].
    constructor; [by split|done].
Qed.

Lemma spec_cut_inv shapes items pos tail contents :
  Forall2 item_ok shapes items -> spec_cut items pos tail = Some contents ->
  length contents = length shapes /\ items = items_of pos (parts_of shapes contents) /\
  tail = spec_tails (parts_of shapes contents) /\ Forall part_ok (parts_of shapes contents).
Proof.
  intros H. revert pos tail contents. induction H as [|[f n] i shapes items Hi _ IH]; intros pos tail contents; simpl.
  { case_bool_decide; [|done]. intros [= <-]. by subst. }
  destruct i as [b|o]; simpl in Hi; destruct Hi as [-> Hi].
  - intros (l & Hl & ->)%fmap_Some. apply IH in Hl as (H1 & H2 & H3 & H4). unfold parts_of in *. csimpl.
    split_and!; [by rewrite H1|by rewrite <- H2|done|]. constructor; [by intros _|done].
  - case_bool_decide as Hc; [|done]. destruct Hc as [-> Hc].
    set (next := default _ _) in *. intros (l & Hl & ->)%fmap_Some.
    apply IH in Hl as (H1 & H2 & H3 & H4). unfold parts_of in *. csimpl.
    assert (pos + length (take (next - pos) tail) = next)%nat as E by (rewrite length_take; lia).
    split_and!; [by rewrite H1|by rewrite E, <- H2| |by constructor; [intros [=]|]].
    unfold spec_tails in *. csimpl. rewrite <- H3. unfold tail_bytes. simpl. by rewrite take_drop.
Qed.

Lemma parts_of_shape shapes contents :
  length contents = length shapes -> part_shape <$> parts_of shapes contents = shapes.
Proof.
  revert contents. induction shapes as [|[f n] shapes IH]; intros [|c contents] H; try done.
  unfold parts_of in *. csimpl. f_equal. apply IH. simpl in H. lia.
Qed.

Lemma spec_canonical shapes bs contents : spec_split shapes bs = Ok contents ->
  length contents = length shapes /\ Forall part_ok (parts_of shapes contents) /\
  offsets_fit (parts_of shapes contents) /\ spec_encode (parts_of shapes contents) = bs.
Proof.
  unfold spec_split. destruct (forallb fst shapes && _); [done|].
  destruct (spec_items shapes bs) as [[items tail]|] eqn:Hi; simpl; [|done].
  destruct (spec_cut items (heads_len shapes) tail) as [l|] eqn:Hc; simpl; [|done]. intros [= <-].
  apply spec_items_inv in Hi as [-> Hok]. apply (spec_cut_inv shapes) in Hc as (H1 & H2 & H3 & H4); [|done].
  pose proof (parts_of_shape shapes l H1) as Hs. split_and!; [done|done| |].
  - unfold offsets_fit. rewrite Hs, part_offsets_items, <- H2.
    rewrite Forall_forall. intros [b|o] Hin; [done|]. apply list_elem_of_lookup in Hin as [k Hk].
    eapply Forall2_lookup_r in Hok as (s & _ & Ho); [|exact Hk]. exact (proj2 Ho).
  - unfold spec_encode. by rewrite Hs, spec_heads_items, <- H2, <- H3.
Qed.

Lemma spec_rejects shapes bs : forallb fst shapes = true -> length bs <> heads_len shapes ->
  spec_split shapes bs = Err (InvalidByteLength (length bs) (heads_len shapes)).
Proof. intros Hf Hl. unfold spec_split. rewrite Hf. simpl. by rewrite bool_decide_eq_true_2. Qed.

(** *** Lists *)

Lemma shapes_replicate s (parts : list SszPart) :
  Forall (fun p => part_shape p = s) parts -> part_shape <$> parts = replicate (length parts) s.
Proof. induction 1 as [|p parts <- _ IH]; [done|]. csimpl. by rewrite IH. Qed.

Lemma heads_replicate n s : heads_len (replicate n s) = (n * head_len s)%nat.
Proof. induction n as [|n IH]; [done|]. simpl. unfold heads_len in *. simpl. by rewrite IH. Qed.

Lemma spec_encode_first p parts :
  part_fixed p = false -> exists rest,
    spec_encode (p :: parts) = offset_bytes (heads_len (part_shape <$> p :: parts)) ++ rest.
Proof. intros Hf. unfold spec_encode. simpl. rewrite Hf. rewrite <- app_assoc. by eexists. Qed.

Lemma spec_list_read s parts :
  Forall (fun p => part_shape p = s) parts -> Forall part_ok parts -> offsets_fit parts ->
  (s.1 = true -> s.2 <> 0%nat) -> spec_list_split s (spec_encode parts) = Ok (part_bytes <$> parts).
Proof.
  intros Hs Hok Hfit Hn. unfold spec_list_split. pose proof (spec_read parts Hok Hfit) as Hr.
  pose proof (spec_encode_length parts Hok) as Hlen.
  rewrite (shapes_replicate s) in Hr, Hlen by done. rewrite heads_replicate in Hlen.
  destruct parts as [|p parts]; [done|].
  assert (part_shape p = s) as <- by by inversion Hs.
  assert (0 < head_len (part_shape p))%nat as Hpos.
  { unfold head_len. destruct (part_shape p).1; [specialize (Hn eq_refl)|unfold BYTES_PER_LENGTH_OFFSET]; lia. }
  rewrite bool_decide_eq_false_2; [|intros E; rewrite E in Hlen; simpl in Hlen; lia].
  unfold head_len in Hlen. destruct (part_shape p).1 eqn:Hf.
  - assert (forallb fst (part_shape <$> p :: parts) = true) as Hall.
    { rewrite (shapes_replicate _ _ Hs). apply forallb_forall. intros x Hx.
      apply list_elem_of_In, elem_of_replicate in Hx as [-> _]. done. }
    rewrite tail_fixed, Nat.add_0_r in Hlen by done. specialize (Hn eq_refl). rewrite Hlen.
    rewrite Nat.Div0.mod_mul, Nat.div_mul, bool_decide_eq_true_2 by done. exact Hr.
  - destruct (spec_encode_first p parts Hf) as [rest He].
    assert (part_offsets (heads_len (part_shape <$> p :: parts)) (p :: parts) =
      heads_len (part_shape <$> p :: parts) :: part_offsets (heads_len (part_shape <$> p :: parts) + length (part_bytes p)) parts)
      as Eo by (simpl; simpl in Hf; by rewrite Hf).
    unfold offsets_fit in Hfit. rewrite Eo in Hfit. apply Forall_cons in Hfit as [Hfit _].
    assert (Z.to_nat (le_value (take 4 (spec_encode (p :: parts)))) / 4 = length (p :: parts))%nat as ->; [|exact Hr].
    rewrite He, take_app_length' by (symmetry; apply offset_bytes_length).
    rewrite offset_bytes_value by done. rewrite (shapes_replicate _ _ Hs), heads_replicate.
    replace (head_len (part_shape p)) with BYTES_PER_LENGTH_OFFSET by (unfold head_len; by rewrite Hf).
    by apply Nat.div_mul.
Qed.

Lemma spec_list_canonical s bs contents : spec_list_split s bs = Ok contents ->
  let parts := parts_of (replicate (length contents) s) contents in
  Forall part_ok parts /\ offsets_fit parts /\ spec_encode parts = bs.
Proof.
  unfold spec_list_split. case_bool_decide as Hb; [intros [= <-]; subst; repeat constructor|].
  assert (forall n, spec_split (replicate n s) bs = Ok contents ->
    let parts := parts_of (replicate (length contents) s) contents in
    Forall part_ok parts /\ offsets_fit parts /\ spec_encode parts = bs) as H.
  { intros n (Hl & H1 & H2 & H3)%spec_canonical. rewrite length_replicate in Hl. by rewrite Hl. }
  destruct s.1; [|apply H]. case_bool_decide; [apply H|done].
Qed.

#[export] Instance spec_lib : SszLib := {|
  container_encode := spec_encode;
  container_split := spec_split;
  container_length := spec_encode_length;
  container_read := spec_read;
  container_canonical := spec_canonical;
  container_rejects := spec_rejects;
  list_split := spec_list_split;
  list_read := spec_list_read;
  list_canonical := spec_list_canonical;
|}.
