(* ===== verification/BidSsz.v ===== *)
(** * Signed bids in SSZ

    Models the derived [Encode] and [Decode] of [crates/primitives/src/bid.rs],
    the bytes in which relays receive a signed bid: field by field over the
    codecs of [Ssz.v] and [Blst.v], in the containers of [SszContainer.v]. *)

From stdpp Require Import prelude list strings.
From S2P Require Import Prelude Types Bundle Validator Chain Payload SimState DemoEvm State StateFacts Bid Ssz Blst SszContainer.

Open Scope Z_scope.

(** ** Field types

    The codecs of [u64] and of [BlobsBundleV1] are the libraries'. *)

Record StdU64 := MkStdU64 { std_value : Z }.

Class StdSsz := {
  std_u64_encode : SszEncode StdU64;
  std_u64_decode : SszDecode StdU64;
  std_u64_fixed : is_ssz_fixed_len StdU64 = true;
  std_u64_codec : SszCodec StdU64 (fun x => is_u64 (std_value x));
}.
#[export] Existing Instance std_u64_encode.
#[export] Existing Instance std_u64_decode.
#[export] Existing Instance std_u64_codec.

Record SszBlobs `{EV : Evm} := MkBlobs { blobs_sidecars : list Sidecar }.
#[global] Arguments MkBlobs {_ _} _.
#[global] Arguments blobs_sidecars {_ _} _.

Class BlobsSsz `{EV : Evm} := {
  blobs_wf : list Sidecar -> Prop;
  blobs_encode : SszEncode SszBlobs;
  blobs_decode : SszDecode SszBlobs;
  blobs_variable : is_ssz_fixed_len SszBlobs = false;
  blobs_codec : SszCodec SszBlobs (fun b => blobs_wf (blobs_sidecars b));
}.
#[export] Existing Instance blobs_encode.
#[export] Existing Instance blobs_decode.
#[export] Existing Instance blobs_codec.

(** public keys and signatures, which bids hold as the numbers their bytes spell *)
Record SszPublicKey := MkPublicKey { pubkey_word : BlsPublicKey }.
Record SszSignature := MkSignature { signature_word : BlsSignature }.

Section BidSsz.
Context `{SL : SszLib} `{HS : Hash256Ssz} `{SU : StdSsz} `{BS : BlstLib} (error_debug : Error -> string).

Definition pubkey_encode : SszEncode SszPublicKey :=
  macro_ssz_encode PUBLIC_KEY_BYTES_LEN (fun k => be_bytes PUBLIC_KEY_BYTES_LEN (pubkey_word k)).
Definition pubkey_decode : SszDecode SszPublicKey :=
  macro_ssz_decode error_debug PUBLIC_KEY_BYTES_LEN
    (fun bytes => k ← pk_deserialize bytes; mret (MkPublicKey (be_value (pk_serialize k)))).

Definition signature_encode : SszEncode SszSignature :=
  macro_ssz_encode SIGNATURE_BYTES_LEN (fun s => be_bytes SIGNATURE_BYTES_LEN (signature_word s)).
Definition signature_decode : SszDecode SszSignature :=
  macro_ssz_decode error_debug SIGNATURE_BYTES_LEN
    (fun bytes => s ← sig_deserialize bytes; mret (MkSignature (be_value (sig_serialize s)))).

#[local] Existing Instances pubkey_encode pubkey_decode signature_encode signature_decode.

(** ** [Bid] *)

Abbreviation BidFields :=
  (StdU64 * (SszB256 * (SszB256 * (SszPublicKey * (SszPublicKey * (SszAddress *
  (StdU64 * (StdU64 * (SszU256 * unit)))))))))%type.

Definition bid_fields (b : Bid) : BidFields :=
  (MkStdU64 (bid_slot b), (MkB256 (bid_parent_hash b), (MkB256 (bid_block_hash b),
  (MkPublicKey (bid_builder_pubkey b), (MkPublicKey (bid_proposer_pubkey b),
  (MkAddress (bid_proposer_fee_recipient b),
  (MkStdU64 (bid_gas_limit b), (MkStdU64 (bid_gas_used b), (MkU256 (bid_value b), tt))))))))).

Definition bid_of_fields (t : BidFields) : Bid :=
  let '(slot, (parent_hash, (block_hash, (builder_pubkey, (proposer_pubkey, (fee_recipient,
       (gas_limit, (gas_used, (value, _))))))))) := t in
  {| bid_slot := std_value slot;
     bid_parent_hash := b256_word parent_hash;
     bid_block_hash := b256_word block_hash;
     bid_builder_pubkey := pubkey_word builder_pubkey;
     bid_proposer_pubkey := pubkey_word proposer_pubkey;
     bid_proposer_fee_recipient := address_word fee_recipient;
     bid_gas_limit := std_value gas_limit;
     bid_gas_used := std_value gas_used;
     bid_value := u256_value value |}.

Definition bid_encode : SszEncode Bid := struct_encode bid_fields.
Definition bid_decode : SszDecode Bid := struct_decode bid_of_fields.

(** ** [AlloyWithdrawal] *)

Abbreviation WithdrawalFields := (StdU64 * (StdU64 * (SszAddress * (StdU64 * unit))))%type.

Definition withdrawal_fields (w : AlloyWithdrawal) : WithdrawalFields :=
  (MkStdU64 (aw_index w), (MkStdU64 (aw_validator_index w), (MkAddress (aw_address w),
  (MkStdU64 (aw_amount w), tt)))).

Definition withdrawal_of_fields (t : WithdrawalFields) : AlloyWithdrawal :=
  let '(index, (validator_index, (address, (amount, _)))) := t in
  {| aw_index := std_value index; aw_validator_index := std_value validator_index;
     aw_address := address_word address; aw_amount := std_value amount |}.

Definition withdrawal_encode : SszEncode AlloyWithdrawal := struct_encode withdrawal_fields.
Definition withdrawal_decode : SszDecode AlloyWithdrawal := struct_decode withdrawal_of_fields.

#[local] Existing Instances bid_encode bid_decode withdrawal_encode withdrawal_decode.

(** ** [ExecutionPayload] *)

(** [Vec<Bytes>] and [Vec<AlloyWithdrawal>] *)
Definition transactions_encode : SszEncode (list SszBytes) := list_encode.
Definition transactions_decode : SszDecode (list SszBytes) := list_decode.
Definition withdrawals_encode : SszEncode (list AlloyWithdrawal) := list_encode.
Definition withdrawals_decode : SszDecode (list AlloyWithdrawal) := list_decode.

#[local] Existing Instances transactions_encode transactions_decode withdrawals_encode withdrawals_decode.

Abbreviation PayloadFields :=
  (SszB256 * (SszAddress * (SszB256 * (SszB256 * (SszBloom * (SszB256 *
  (StdU64 * (StdU64 * (StdU64 * (StdU64 * (SszBytes * (SszU256 * (SszB256 *
  (list SszBytes * (list AlloyWithdrawal * (StdU64 * (StdU64 * unit)))))))))))))))))%type.

Definition payload_fields (p : ExecutionPayload) : PayloadFields :=
  (MkB256 (ep_parent_hash p), (MkAddress (ep_fee_recipient p), (MkB256 (ep_state_root p),
  (MkB256 (ep_receipts_root p), (MkBloom (ep_logs_bloom p), (MkB256 (ep_prev_randao p),
  (MkStdU64 (ep_block_number p), (MkStdU64 (ep_gas_limit p), (MkStdU64 (ep_gas_used p),
  (MkStdU64 (ep_timestamp p), (MkBytes (ep_extra_data p), (MkU256 (ep_base_fee_per_gas p),
  (MkB256 (ep_block_hash p), (MkBytes <$> ep_transactions p, (ep_withdrawals p,
  (MkStdU64 (ep_blob_gas_used p), (MkStdU64 (ep_excess_blob_gas p), tt))))))))))))))))).

Definition payload_of_fields (t : PayloadFields) : ExecutionPayload :=
  let '(parent_hash, (fee_recipient, (state_root, (receipts_root, (logs_bloom, (prev_randao,
       (block_number, (gas_limit, (gas_used, (timestamp, (extra_data, (base_fee_per_gas,
       (block_hash, (transactions, (withdrawals, (blob_gas_used, (excess_blob_gas,
       _))))))))))))))))) := t in
  {| ep_parent_hash := b256_word parent_hash;
     ep_fee_recipient := address_word fee_recipient;
     ep_state_root := b256_word state_root;
     ep_receipts_root := b256_word receipts_root;
     ep_logs_bloom := bloom_data logs_bloom;
     ep_prev_randao := b256_word prev_randao;
     ep_block_number := std_value block_number;
     ep_gas_limit := std_value gas_limit;
     ep_gas_used := std_value gas_used;
     ep_timestamp := std_value timestamp;
     ep_extra_data := bytes_data extra_data;
     ep_base_fee_per_gas := u256_value base_fee_per_gas;
     ep_block_hash := b256_word block_hash;
     ep_transactions := bytes_data <$> transactions;
     ep_withdrawals := withdrawals;
     ep_blob_gas_used := std_value blob_gas_used;
     ep_excess_blob_gas := std_value excess_blob_gas |}.

Definition payload_encode : SszEncode ExecutionPayload := struct_encode payload_fields.
Definition payload_decode : SszDecode ExecutionPayload := struct_decode payload_of_fields.

#[local] Existing Instances payload_encode payload_decode.

(** ** [SignedBid] *)

Section SignedBid.
Context `{EV : Evm} `{BZ : !BlobsSsz}.

Abbreviation SignedBidFields := (Bid * (ExecutionPayload * (SszBlobs * (SszSignature * unit))))%type.

Definition signed_bid_fields (sb : SignedBid) : SignedBidFields :=
  (sbd_message sb, (sbd_execution_payload sb, (MkBlobs (sbd_blobs_bundle sb),
  (MkSignature (sbd_signature sb), tt)))).

Definition signed_bid_of_fields (t : SignedBidFields) : SignedBid :=
  let '(message, (execution_payload, (blobs_bundle, (signature, _)))) := t in
  {| sbd_message := message;
     sbd_execution_payload := execution_payload;
     sbd_blobs_bundle := blobs_sidecars blobs_bundle;
     sbd_signature := signature_word signature |}.

Definition signed_bid_encode : SszEncode SignedBid := struct_encode signed_bid_fields.
Definition signed_bid_decode : SszDecode SignedBid := struct_decode signed_bid_of_fields.
End SignedBid.
End BidSsz.

(** ** Properties *)

(** the words of keys and signatures that their bytes can spell *)
Definition pubkey_in_range `{BS : BlstLib} (w : BlsPublicKey) : Prop :=
  exists k, pk_wf k /\ w = be_value (pk_serialize k).
Definition signature_in_range `{BS : BlstLib} (w : BlsSignature) : Prop :=
  exists s, sig_wf s /\ w = be_value (sig_serialize s).

(** every field holds a value of its type *)
Definition bid_in_range `{BS : BlstLib} (b : Bid) : Prop :=
  is_u64 (bid_slot b) /\ is_u256 (bid_parent_hash b) /\ is_u256 (bid_block_hash b) /\
  pubkey_in_range (bid_builder_pubkey b) /\ pubkey_in_range (bid_proposer_pubkey b) /\
  0 <= bid_proposer_fee_recipient b < 2 ^ 160 /\
  is_u64 (bid_gas_limit b) /\ is_u64 (bid_gas_used b) /\ is_u256 (bid_value b).

Definition withdrawal_in_range (w : AlloyWithdrawal) : Prop :=
  is_u64 (aw_index w) /\ is_u64 (aw_validator_index w) /\ 0 <= aw_address w < 2 ^ 160 /\ is_u64 (aw_amount w).

Definition payload_in_range (p : ExecutionPayload) : Prop :=
  is_u256 (ep_parent_hash p) /\ 0 <= ep_fee_recipient p < 2 ^ 160 /\ is_u256 (ep_state_root p) /\
  is_u256 (ep_receipts_root p) /\ length (ep_logs_bloom p) = 256%nat /\ is_u256 (ep_prev_randao p) /\
  is_u64 (ep_block_number p) /\ is_u64 (ep_gas_limit p) /\ is_u64 (ep_gas_used p) /\
  is_u64 (ep_timestamp p) /\ is_u256 (ep_base_fee_per_gas p) /\ is_u256 (ep_block_hash p) /\
  Forall withdrawal_in_range (ep_withdrawals p) /\
  is_u64 (ep_blob_gas_used p) /\ is_u64 (ep_excess_blob_gas p).

Definition signed_bid_in_range `{EV : Evm} `{BZ : !BlobsSsz} `{BS : BlstLib} (sb : SignedBid) : Prop :=
  bid_in_range (sbd_message sb) /\ payload_in_range (sbd_execution_payload sb) /\
  blobs_wf (sbd_blobs_bundle sb) /\ signature_in_range (sbd_signature sb).

(** pairs and the wrappers in them, taken apart *)
Ltac fields := repeat intros [? ?]; repeat intros [];
  repeat match goal with
  | x : _ * _ |- _ => destruct x | x : unit |- _ => destruct x
  | x : StdU64 |- _ => destruct x | x : SszB256 |- _ => destruct x | x : SszU256 |- _ => destruct x
  | x : SszAddress |- _ => destruct x | x : SszBloom |- _ => destruct x | x : SszBytes |- _ => destruct x
  | x : SszPublicKey |- _ => destruct x | x : SszSignature |- _ => destruct x
  end; try done.

Section BidSszLaws.
Context `{SL : SszLib} `{HS : Hash256Ssz} `{SU : StdSsz} `{BL : BlstLaws} (error_debug : Error -> string).

#[local] Existing Instances pubkey_encode signature_encode bid_encode withdrawal_encode withdrawal_decode
  transactions_encode transactions_decode withdrawals_encode withdrawals_decode payload_encode payload_decode.
#[local] Instance read_pubkey : SszDecode SszPublicKey := pubkey_decode error_debug.
#[local] Instance read_signature : SszDecode SszSignature := signature_decode error_debug.
#[local] Instance read_bid : SszDecode Bid := bid_decode error_debug.

#[local] Arguments be_bytes : simpl never.
#[local] Arguments be_value : simpl never.
#[local] Arguments pk_wf : simpl never.

Lemma pubkey_codec : SszCodec SszPublicKey (fun k => pubkey_in_range (pubkey_word k)).
Proof.
  unfold pubkey_encode, read_pubkey, pubkey_decode. apply macro_codec.
  - intros k. apply length_be_bytes.
  - intros [w] (k & Hk & E). cbn [pubkey_word] in *. subst w.
    rewrite <- (compress_length (pk_point k)), be_bytes_of_value. fold (pk_serialize k). by rewrite pk_roundtrip.
  - intros bs [w] Hl (k & [Hk <-]%pk_canonical & [= <-])%result_bind_Ok. split; [by exists k|].
    cbn [pubkey_word]. by rewrite <- Hl, be_bytes_of_value.
Qed.

Lemma signature_codec : SszCodec SszSignature (fun s => signature_in_range (signature_word s)).
Proof.
  unfold signature_encode, read_signature, signature_decode. apply macro_codec.
  - intros s. apply length_be_bytes.
  - intros [w] (s & Hs & E). cbn [signature_word] in *. subst w.
    rewrite <- (sig_serialize_length s), be_bytes_of_value. by rewrite sig_roundtrip.
  - intros bs [w] Hl (s & [Hs <-]%sig_canonical_bytes & [= <-])%result_bind_Ok; [|done]. split; [by exists s|].
    cbn [signature_word]. by rewrite <- Hl, be_bytes_of_value.
Qed.
#[local] Existing Instances pubkey_codec signature_codec.

(** fields of fixed length only *)
Ltac fixed_fields := apply offsets_fit_fixed; cbn; rewrite !std_u64_fixed; reflexivity.

Lemma bid_codec : SszCodec Bid bid_in_range.
Proof.
  eapply codec_iff; [|apply (struct_codec bid_fields bid_of_fields); [by intros []|fields]].
  intros b. simpl. unfold bid_in_range, b256_wf, u256_wf, address_wf. simpl.
  split; [naive_solver|]. intros H. split; [naive_solver|fixed_fields].
Qed.

Lemma withdrawal_codec : SszCodec AlloyWithdrawal withdrawal_in_range.
Proof.
  eapply codec_iff; [|apply (struct_codec withdrawal_fields withdrawal_of_fields); [by intros []|fields]].
  intros w. simpl. unfold withdrawal_in_range, address_wf. simpl.
  split; [naive_solver|]. intros H. split; [naive_solver|fixed_fields].
Qed.
#[local] Existing Instances bid_codec withdrawal_codec.

Lemma transactions_codec :
  SszCodec (list SszBytes) (fun l => offsets_fit (part <$> l)).
Proof.
  eapply codec_iff; [|apply list_codec; discriminate].
  intros l. simpl. split; [by intros []|]. split; [by apply Forall_true|done].
Qed.

Lemma withdrawals_fixed (l : list AlloyWithdrawal) : offsets_fit (part <$> l).
Proof.
  apply offsets_fit_fixed. rewrite <- list_fmap_compose. induction l as [|w l IH]; [done|]. csimpl.
  rewrite IH. cbn. by rewrite !std_u64_fixed.
Qed.

Lemma withdrawals_codec :
  SszCodec (list AlloyWithdrawal) (Forall withdrawal_in_range).
Proof.
  eapply codec_iff; [|apply list_codec]; [|].
  - intros l. simpl. split; [by intros []|]. intros H. split; [done|apply withdrawals_fixed].
  - intros _. simpl. rewrite std_u64_fixed. cbn. lia.
Qed.
#[local] Existing Instances transactions_codec withdrawals_codec.

Lemma bytes_fmap (l : list Bytes) : bytes_data <$> (MkBytes <$> l) = l.
Proof. rewrite <- list_fmap_compose. apply list_fmap_id. Qed.

Lemma fmap_bytes (l : list SszBytes) : MkBytes <$> (bytes_data <$> l) = l.
Proof. induction l as [|[d] l IH]; [done|]. csimpl. by rewrite IH. Qed.

(** the offsets of a payload and of its transactions fit *)
Definition payload_offsets (p : ExecutionPayload) : Prop :=
  offsets_fit (part <$> (MkBytes <$> ep_transactions p)) /\ offsets_fit (fields_parts (payload_fields p)).

Lemma payload_codec :
  SszCodec ExecutionPayload (fun p => payload_in_range p /\ payload_offsets p).
Proof.
  eapply codec_iff; [|apply (struct_codec payload_fields payload_of_fields)].
  - intros p. unfold payload_in_range, payload_offsets, b256_wf, u256_wf, address_wf, bloom_wf, bytes_wf. simpl. split; naive_solver.
  - intros []. simpl. unfold payload_fields. simpl. by rewrite bytes_fmap.
  - fields. simpl. unfold payload_fields. simpl. by rewrite fmap_bytes.
Qed.
#[local] Existing Instance payload_codec.

(** what is not longer than four gigabytes *)
Definition short (bs : Bytes) : Prop := Z.of_nat (length bs) < 2 ^ 32.

Lemma short_part parts p :
  Forall part_ok parts -> p ∈ parts -> short (container_encode parts) -> short (part_bytes p).
Proof. intros Hok Hp Hs. pose proof (part_le_container parts p Hok Hp). unfold short in *. lia. Qed.

Lemma variable_ok {A} `{SszEncode A} (x : A) : is_ssz_fixed_len A = false -> part_ok (part x).
Proof. intros Hv Hf. simpl in Hf. congruence. Qed.

Lemma payload_variable : is_ssz_fixed_len ExecutionPayload = false.
Proof. cbn. by rewrite !std_u64_fixed. Qed.

Ltac parts_ok :=
  repeat (constructor; [first [by apply variable_ok|apply variable_ok, payload_variable|by apply part_ok_codec|apply part_ok_codec; naive_solver]|]);
  constructor.

Lemma payload_parts_ok p : payload_in_range p -> Forall part_ok (fields_parts (payload_fields p)).
Proof.
  unfold payload_in_range. intros H. simpl. parts_ok.
Qed.

Lemma payload_short p : payload_in_range p -> short (as_ssz_bytes p) -> payload_offsets p.
Proof.
  intros Hp Hs. pose proof (payload_parts_ok p Hp) as Hok. split; [|by apply offsets_fit_length].
  apply offsets_fit_length.
  - apply Forall_fmap, Forall_true. intros b. by apply variable_ok.
  - assert (short (as_ssz_bytes (MkBytes <$> ep_transactions p))) as Ht; [|exact Ht].
    apply (short_part _ (part (MkBytes <$> ep_transactions p)) Hok); [|exact Hs].
    do 13 right. left.
Qed.

Section SignedBidLaws.
Context `{EV : Evm} `{BZ : !BlobsSsz}.

#[local] Existing Instance signed_bid_encode.
#[local] Instance read_signed_bid : SszDecode SignedBid := signed_bid_decode error_debug.

Lemma signed_bid_codec :
  SszCodec SignedBid (fun sb => (signed_bid_in_range sb /\ payload_offsets (sbd_execution_payload sb)) /\
    offsets_fit (fields_parts (signed_bid_fields sb))).
Proof.
  eapply codec_iff; [|apply (struct_codec signed_bid_fields signed_bid_of_fields)].
  - intros sb. unfold signed_bid_in_range. simpl. split; naive_solver.
  - by intros [].
  - by intros (m & p & [b] & [s] & []).
Qed.

Lemma signed_bid_short sb : signed_bid_in_range sb -> short (as_ssz_bytes sb) ->
  payload_offsets (sbd_execution_payload sb) /\ offsets_fit (fields_parts (signed_bid_fields sb)).
Proof.
  intros (Hm & Hp & Hb & Hs) Hl.
  assert (Forall part_ok (fields_parts (signed_bid_fields sb))) as Hok.
  { simpl. parts_ok. }
  split; [|by apply offsets_fit_length]. apply payload_short; [done|].
  apply (short_part _ (part (sbd_execution_payload sb)) Hok); [|done].
  right. left.
Qed.

(** C19: a signed bid survives the trip to a relay: whatever its fields, of their types' ranges,
    if it is encoded in less than four gigabytes then the bytes, as many as
    announced, read back as the same bid; and bytes that read as a bid are exactly
    what that bid is written as, so that no two byte strings carry one bid. *)
Theorem signed_bid_ssz_roundtrip (sb : SignedBid) (buf : Bytes) :
  signed_bid_in_range sb -> Z.of_nat (length (as_ssz_bytes sb)) < 2 ^ 32 ->
  from_ssz_bytes (as_ssz_bytes sb) = Ok sb /\
  length (as_ssz_bytes sb) = ssz_bytes_len sb /\
  ssz_append sb buf = buf ++ as_ssz_bytes sb /\
  forall bs sb', from_ssz_bytes bs = Ok sb' -> signed_bid_in_range sb' /\ as_ssz_bytes sb' = bs.
Proof.
  intros Hr Hl. pose proof signed_bid_codec as HC. destruct (signed_bid_short sb Hr Hl) as [H1 H2].
  split_and!; [by apply codec_roundtrip|by apply codec_len|done|].
  intros bs sb' H. apply codec_canonical in H as [[[? ?] ?] ?]. done.
Qed.
End SignedBidLaws.
End BidSszLaws.

(** What the bidder makes is in range: the key and the signature it puts in a bid
    are read back as they were. *)
Theorem signer_words_in_range `{BL : BlstLaws} (fork_root : Bytes -> Bytes -> Bytes) (bid_root : Bid -> Bytes -> B256)
    (key : @BlsSecretKey (blst_bls fork_root bid_root)) (root : B256) :
  pubkey_in_range (@bls_public_key (blst_bls fork_root bid_root) key) /\
  signature_in_range (@bls_sign (blst_bls fork_root bid_root) key root).
Proof.
  split; [exists (gsk_public_key key)|exists (gsk_sign key (be_bytes 32 root))]; split; try done.
  - apply pk_not_infinity.
  - unfold sig_wf. simpl. rewrite bool_decide_eq_false_2; [done|apply sign_not_infinity].
Qed.

(** ** Evaluation on concrete inputs *)

Import Demo.

(** the codec of a type that is another in disguise *)
Definition map_encode {A B} `{SszEncode A} (f : B -> A) : SszEncode B := {|
  is_ssz_fixed_len := is_ssz_fixed_len A;
  ssz_fixed_len := ssz_fixed_len A;
  ssz_bytes_len x := ssz_bytes_len (f x);
  ssz_append x buf := ssz_append (f x) buf;
  as_ssz_bytes x := as_ssz_bytes (f x);
|}.

Definition map_decode {A B} `{SszDecode A} (g : A -> B) : SszDecode B := {|
  decode_is_ssz_fixed_len := decode_is_ssz_fixed_len A;
  decode_ssz_fixed_len := decode_ssz_fixed_len A;
  from_ssz_bytes bs := x ← from_ssz_bytes bs; mret (g x);
|}.

Lemma map_codec {A B} `{HC : SszCodec A wf} (f : B -> A) (g : A -> B) :
  (forall x, g (f x) = x) -> (forall y, f (g y) = y) ->
  @SszCodec B (map_encode f) (map_decode g) (fun x => wf (f x)).
Proof.
  intros H1 H2. split; simpl.
  - apply codec_layout.
  - intros x buf. apply codec_append.
  - intros x. apply codec_len.
  - intros x. apply codec_fixed.
  - intros x Hx. rewrite codec_roundtrip by done. simpl. by rewrite H1.
  - intros bs x (y & Hy & [= <-])%result_bind_Ok. rewrite H2. by apply codec_canonical.
  - intros bs Hf Hl. by rewrite codec_rejects.
Qed.

Lemma demo_std_codec :
  @SszCodec StdU64 (map_encode (fun x => MkU64 (std_value x))) (map_decode (fun x => MkStdU64 (u64_value x)))
    (fun x => is_u64 (std_value x)).
Proof. apply (map_codec (wf := u64_wf)); by intros []. Qed.

#[export] Instance demo_std : StdSsz :=
  Build_StdSsz (map_encode (fun x => MkU64 (std_value x))) (map_decode (fun x => MkStdU64 (u64_value x))) eq_refl demo_std_codec.

Definition demo_blobs_words (b : SszBlobs (EV := demo_evm)) : list SszB256 := map MkB256 (blobs_sidecars b).
Definition demo_words_blobs (l : list SszB256) : SszBlobs (EV := demo_evm) := MkBlobs (EV := demo_evm) (map b256_word l).

Lemma demo_hash_nonempty : is_ssz_fixed_len SszB256 = true -> ssz_fixed_len SszB256 <> 0%nat.
Proof. intros _. cbn. lia. Qed.

Lemma demo_blobs_codec :
  @SszCodec (SszBlobs (EV := demo_evm)) (@map_encode _ _ list_encode demo_blobs_words)
    (@map_decode _ _ list_decode demo_words_blobs)
    (fun b => Forall is_u256 (blobs_sidecars (EV := demo_evm) b)).
Proof.
  eapply codec_iff; [|apply (map_codec (HC := list_codec (A := SszB256) demo_hash_nonempty))].
  - intros [l]. unfold demo_blobs_words. simpl. rewrite Forall_map. split; [by intros []|].
    intros H. split; [done|]. apply offsets_fit_fixed. clear H. induction l as [|h l IH]; [done|]. csimpl. by rewrite IH.
  - intros [l]. unfold demo_words_blobs, demo_blobs_words. simpl. by rewrite map_map, map_id.
  - intros l. unfold demo_blobs_words. simpl. induction l as [|[h] l IH]; [done|]. simpl. by rewrite IH.
Qed.

#[export] Instance demo_blobs_ssz : BlobsSsz :=
  Build_BlobsSsz _ _ (Forall is_u256) (@map_encode _ _ list_encode demo_blobs_words)
    (@map_decode _ _ list_decode demo_words_blobs) eq_refl demo_blobs_codec.

Definition demo_signed_bid : SignedBid :=
  let key := be_value (pk_serialize (gsk_public_key demo_secret)) in
  {| sbd_message :=
       {| bid_slot := 7; bid_parent_hash := 1; bid_block_hash := 2; bid_builder_pubkey := key;
          bid_proposer_pubkey := key; bid_proposer_fee_recipient := 3; bid_gas_limit := 30000000;
          bid_gas_used := 21000; bid_value := 50 |};
     sbd_execution_payload :=
       {| ep_parent_hash := 1; ep_fee_recipient := 3; ep_state_root := 4; ep_receipts_root := 5;
          ep_logs_bloom := repeat Byte.x00 256; ep_prev_randao := 6; ep_block_number := 9;
          ep_gas_limit := 30000000; ep_gas_used := 21000; ep_timestamp := 12; ep_extra_data := [Byte.x61];
          ep_base_fee_per_gas := 8; ep_block_hash := 2; ep_transactions := [[Byte.x01; Byte.x02]; []];
          ep_withdrawals := [{| aw_index := 1; aw_validator_index := 2; aw_address := 3; aw_amount := 4 |}];
          ep_blob_gas_used := 0; ep_excess_blob_gas := 0 |};
     sbd_blobs_bundle := [77];
     sbd_signature := be_value (sig_serialize (gsk_sign demo_secret [])) |}.

Lemma demo_signed_bid_in_range : signed_bid_in_range demo_signed_bid.
Proof.
  assert (pubkey_in_range (be_value (pk_serialize (gsk_public_key demo_secret)))) as Hk
    by (exists (gsk_public_key demo_secret); split; [apply (@pk_not_infinity demo_blst _ true)|done]).
  unfold signed_bid_in_range, bid_in_range, payload_in_range, withdrawal_in_range, is_u64, is_u256.
  cbn -[be_value pk_serialize sig_serialize gsk_public_key gsk_sign Z.pow]. split_and!; try done; try lia.
  - constructor; [simpl; lia|constructor].
  - constructor; [unfold is_u256; lia|constructor].
  - exists (gsk_sign demo_secret []). done.
Qed.

Lemma demo_signed_bid_short : Z.of_nat (length (@as_ssz_bytes _ signed_bid_encode demo_signed_bid)) <? 2 ^ 32 = true.
Proof. kernel_refl. Qed.

Lemma signed_bid_ssz_roundtrip_witness :
  @from_ssz_bytes _ (signed_bid_decode (fun _ => EmptyString)) (@as_ssz_bytes _ signed_bid_encode demo_signed_bid) =
  Ok demo_signed_bid.
Proof.
  apply (signed_bid_ssz_roundtrip (fun _ => EmptyString) demo_signed_bid []).
  - apply demo_signed_bid_in_range.
  - apply Z.ltb_lt, demo_signed_bid_short.
Defined.
