(* ===== verification/BidJson.v ===== *)
(** * Bids in JSON

    Models the [Serialize] and [Deserialize] of [crates/primitives/src/bid.rs] and
    [blst/macros.rs]: the JSON in which relays and the internal relay exchange
    bids and traces.  Numbers are decimal strings, keys and signatures
    hexadecimal; a structure is an object, read whatever the order of its fields
    and whatever else it holds.  Errors are not told apart.  The numbers of bids are read
    from strings of the input itself, so that a deserializer that does not lend them (a
    reader, or a value in memory) reads no bid at all; here the input lends them. *)

From stdpp Require Import prelude list strings pretty.
From S2P Require Import Prelude Numerals Types Bundle Validator Chain Payload SimState DemoEvm State StateFacts Bid Ssz Blst SszContainer BidSsz.

Open Scope Z_scope.

(** ** Values of JSON, and types that are read from them *)

Inductive Json :=
| JNull
| JBool (b : bool)
| JNumber (n : Z)
| JString (s : string)
| JArray (l : list Json)
| JObject (fields : list (string * Json)).

(** [of_missing]: what a structure's field of the type is when it is not there *)
Class Serde (A : Type) := {
  to_json : A -> Json;
  of_json : Json -> option A;
  of_missing : option A;
}.

(** what was written is read back, and what is read is a value of the type *)
Class SerdeCodec (A : Type) `{Serde A} (wf : A -> Prop) : Prop := {
  json_roundtrip : forall x, wf x -> of_json (to_json x) = Some x;
  json_typed : forall j x, of_json j = Some x -> wf x;
  missing_typed : forall x, of_missing = Some x -> wf x;
}.

(** ** The repository's types *)

(** [from_u64_to_str] and [from_str_to_u64], and [DisplayFromStr] *)
#[export] Instance u64_serde : Serde StdU64 := {|
  to_json x := JString (from_u64_to_str (std_value x));
  of_json j :=
    match j with
    | JString s => match from_str_to_u64 s with Ok value => Some (MkStdU64 value) | Err _ => None end
    | _ => None
    end;
  of_missing := None;
|}.

(** [impl_serde_serialize!] and [impl_serde_deserialize!] *)
Definition macro_serde `{BS : BlstLib} `{HX : HexLib} {A} (error_debug : Error -> string)
    (serialize : A -> Bytes) (deserialize : Bytes -> result Error A) : Serde A := {|
  to_json self := JString (macro_display serialize self);
  of_json j :=
    match j with
    | JString string =>
        match macro_from_str error_debug deserialize string with Ok x => Some x | Err _ => None end
    | _ => None
    end;
  of_missing := None;
|}.

(** [Vec] and [Option] *)
Definition vec_serde {A} `{Serde A} : Serde (list A) := {|
  to_json l := JArray (to_json <$> l);
  of_json j := match j with JArray l => mapM of_json l | _ => None end;
  of_missing := None;
|}.

#[export] Instance option_bool_serde : Serde (option bool) := {|
  to_json x := match x with Some b => JBool b | None => JNull end;
  of_json j := match j with JBool b => Some (Some b) | JNull => Some None | _ => None end;
  of_missing := Some None;
|}.

(** ** The libraries' types

    Hashes, addresses, blooms, byte strings and 256-bit numbers of [reth]; the last are
    read from decimal strings too, as [Bid] writes them. *)
Class AlloySerde := {
  b256_serde : Serde SszB256;
  address_serde : Serde SszAddress;
  bloom_serde : Serde SszBloom;
  bytes_serde : Serde SszBytes;
  u256_serde : Serde SszU256;
  b256_serde_codec : SerdeCodec SszB256 b256_wf;
  address_serde_codec : SerdeCodec SszAddress address_wf;
  bloom_serde_codec : SerdeCodec SszBloom bloom_wf;
  bytes_serde_codec : SerdeCodec SszBytes bytes_wf;
  u256_serde_codec : SerdeCodec SszU256 u256_wf;
  u256_of_decimal : forall v, is_u256 v -> of_json (JString (pretty v)) = Some (MkU256 v);
}.
#[export] Existing Instances b256_serde address_serde bloom_serde bytes_serde u256_serde
  b256_serde_codec address_serde_codec bloom_serde_codec bytes_serde_codec u256_serde_codec.

Class BlobsSerde `{EV : Evm} := {
  blobs_serde : Serde SszBlobs;
  blobs_serde_codec : SerdeCodec SszBlobs (fun _ => True);
}.
#[export] Existing Instances blobs_serde blobs_serde_codec.

(** a field of type [U256] with [serialize_with = "from_u256_to_str"] *)
Record DecU256 := MkDecU256 { dec_value : Z }.

#[export] Instance dec_u256_serde `{AlloySerde} : Serde DecU256 := {|
  to_json x := JString (from_u256_to_str (dec_value x));
  of_json j := u ← of_json j; Some (MkDecU256 (u256_value u));
  of_missing := None;
|}.

(** ** Structures, as [derive] reads and writes them *)

Class JsonFields (T : Type) := {
  json_values : T -> list Json;
  json_read : list (option Json) -> option T;
}.

#[export] Instance no_json_fields : JsonFields unit := {|
  json_values _ := [];
  json_read l := match l with [] => Some tt | _ => None end;
|}.

#[export] Instance more_json_fields {A T} `{Serde A, JsonFields T} : JsonFields (A * T) := {|
  json_values xt := to_json xt.1 :: json_values xt.2;
  json_read l :=
    match l with
    | v :: l => x ← (match v with Some j => of_json j | None => of_missing end); t ← json_read l; Some (x, t)
    | [] => None
    end;
|}.

(** a field of an object: absent, there, or a duplicate *)
Definition json_field (kvs : list (string * Json)) (name : string) : option (option Json) :=
  match filter (fun kv => kv.1 = name) kvs with
  | [] => Some None
  | [kv] => Some (Some kv.2)
  | _ => None
  end.

Definition struct_serde {A T} `{JsonFields T} (names : list string) (fields : A -> T) (of_fields : T -> A)
  : Serde A := {|
  to_json x := JObject (zip names (json_values (fields x)));
  of_json j :=
    match j with
    | JObject kvs => values ← mapM (json_field kvs) names; t ← json_read values; Some (of_fields t)
    | JArray l =>
        if bool_decide (length l = length names) then t ← json_read (Some <$> l); Some (of_fields t) else None
    | _ => None
    end;
  of_missing := None;
|}.

(** ** The structures of [bid.rs] *)

Section BidJson.
Context `{AS : AlloySerde} `{BS : BlstLib} `{HX : HexLib} (error_debug : Error -> string).

Definition pubkey_serde : Serde SszPublicKey :=
  macro_serde error_debug (fun k => be_bytes PUBLIC_KEY_BYTES_LEN (pubkey_word k))
    (fun bytes => k ← pk_deserialize bytes; mret (MkPublicKey (be_value (pk_serialize k)))).
Definition signature_serde : Serde SszSignature :=
  macro_serde error_debug (fun s => be_bytes SIGNATURE_BYTES_LEN (signature_word s))
    (fun bytes => s ← sig_deserialize bytes; mret (MkSignature (be_value (sig_serialize s)))).
#[local] Existing Instances pubkey_serde signature_serde.

Definition bid_names : list string :=
  ["slot"; "parent_hash"; "block_hash"; "builder_pubkey"; "proposer_pubkey"; "proposer_fee_recipient";
   "gas_limit"; "gas_used"; "value"]%string.

Abbreviation BidJsonFields :=
  (StdU64 * (SszB256 * (SszB256 * (SszPublicKey * (SszPublicKey * (SszAddress *
  (StdU64 * (StdU64 * (DecU256 * unit)))))))))%type.

Definition bid_json_fields (b : Bid) : BidJsonFields :=
  (MkStdU64 (bid_slot b), (MkB256 (bid_parent_hash b), (MkB256 (bid_block_hash b),
  (MkPublicKey (bid_builder_pubkey b), (MkPublicKey (bid_proposer_pubkey b),
  (MkAddress (bid_proposer_fee_recipient b),
  (MkStdU64 (bid_gas_limit b), (MkStdU64 (bid_gas_used b), (MkDecU256 (bid_value b), tt))))))))).

Definition bid_of_json_fields (t : BidJsonFields) : Bid :=
  let '(slot, (parent_hash, (block_hash, (builder_pubkey, (proposer_pubkey, (fee_recipient,
       (gas_limit, (gas_used, (value, _))))))))) := t in
  {| bid_slot := std_value slot;
     bid_parent_hash := b256_word parent_hash;
     bid_block_hash := b256_word block_hash;
     bid_builder_pubkey := pubkey_word builder_pubkey;
     bid_proposer_pubkey := pubkey_word proposer_pubkey;
     bid_proposer_fee_recipient := address_word fee_recipient;
     bid_gas_limit := std_value gas_limit;
     bid_gas_used := std_value gas_used;
     bid_value := dec_value value |}.

Definition bid_serde : Serde Bid := struct_serde bid_names bid_json_fields bid_of_json_fields.

Definition withdrawal_names : list string := ["index"; "validator_index"; "address"; "amount"]%string.

Definition withdrawal_serde : Serde AlloyWithdrawal :=
  struct_serde withdrawal_names withdrawal_fields withdrawal_of_fields.
#[local] Existing Instances bid_serde withdrawal_serde.

Definition transactions_serde : Serde (list SszBytes) := vec_serde.
Definition withdrawals_serde : Serde (list AlloyWithdrawal) := vec_serde.
#[local] Existing Instances transactions_serde withdrawals_serde.

Definition payload_names : list string :=
  ["parent_hash"; "fee_recipient"; "state_root"; "receipts_root"; "logs_bloom"; "prev_randao";
   "block_number"; "gas_limit"; "gas_used"; "timestamp"; "extra_data"; "base_fee_per_gas";
   "block_hash"; "transactions"; "withdrawals"; "blob_gas_used"; "excess_blob_gas"]%string.

Abbreviation PayloadJsonFields :=
  (SszB256 * (SszAddress * (SszB256 * (SszB256 * (SszBloom * (SszB256 *
  (StdU64 * (StdU64 * (StdU64 * (StdU64 * (SszBytes * (DecU256 * (SszB256 *
  (list SszBytes * (list AlloyWithdrawal * (StdU64 * (StdU64 * unit)))))))))))))))))%type.

Definition payload_json_fields (p : ExecutionPayload) : PayloadJsonFields :=
  (MkB256 (ep_parent_hash p), (MkAddress (ep_fee_recipient p), (MkB256 (ep_state_root p),
  (MkB256 (ep_receipts_root p), (MkBloom (ep_logs_bloom p), (MkB256 (ep_prev_randao p),
  (MkStdU64 (ep_block_number p), (MkStdU64 (ep_gas_limit p), (MkStdU64 (ep_gas_used p),
  (MkStdU64 (ep_timestamp p), (MkBytes (ep_extra_data p), (MkDecU256 (ep_base_fee_per_gas p),
  (MkB256 (ep_block_hash p), (MkBytes <$> ep_transactions p, (ep_withdrawals p,
  (MkStdU64 (ep_blob_gas_used p), (MkStdU64 (ep_excess_blob_gas p), tt))))))))))))))))).

Definition payload_of_json_fields (t : PayloadJsonFields) : ExecutionPayload :=
  let '(parent_hash, (fee_recipient, (state_root, (receipts_root, (logs_bloom, (prev_randao,
       (block_number, (gas_limit, (gas_used, (timestamp, (extra_data, (base_fee_per_gas,
       (block_hash, (transactions, (withdrawals, (blob_gas_used, (excess_blob_gas,
       _))))))))))))))))) := t in
  {| ep_parent_hash := b256_word parent_hash;
     ep_fee_recipient := address_word fee_recipient;
     ep_state_root := b256_word state_root;
     ep_receipts_root := b256_word receipts_root;
     ep_logs_bloom := bloom_data logs_bloom;
     ep_prev_randao := b256_word prev_randao;
     ep_block_number := std_value block_number;
     ep_gas_limit := std_value gas_limit;
     ep_gas_used := std_value gas_used;
     ep_timestamp := std_value timestamp;
     ep_extra_data := bytes_data extra_data;
     ep_base_fee_per_gas := dec_value base_fee_per_gas;
     ep_block_hash := b256_word block_hash;
     ep_transactions := bytes_data <$> transactions;
     ep_withdrawals := withdrawals;
     ep_blob_gas_used := std_value blob_gas_used;
     ep_excess_blob_gas := std_value excess_blob_gas |}.

Definition payload_serde : Serde ExecutionPayload :=
  struct_serde payload_names payload_json_fields payload_of_json_fields.

Definition bid_trace_names : list string :=
  ["slot"; "parent_hash"; "block_hash"; "builder_pubkey"; "proposer_pubkey"; "proposer_fee_recipient";
   "gas_limit"; "gas_used"; "value"; "num_tx"; "block_number"; "timestamp"; "timestamp_ms";
   "optimistic_submission"]%string.

Abbreviation BidTraceFields :=
  (StdU64 * (SszB256 * (SszB256 * (SszPublicKey * (SszPublicKey * (SszAddress *
  (StdU64 * (StdU64 * (SszU256 * (StdU64 * (StdU64 * (StdU64 * (StdU64 * (option bool * unit))))))))))))))%type.

Definition bid_trace_fields (t : BidTrace) : BidTraceFields :=
  (MkStdU64 (bt_slot t), (MkB256 (bt_parent_hash t), (MkB256 (bt_block_hash t),
  (MkPublicKey (bt_builder_pubkey t), (MkPublicKey (bt_proposer_pubkey t),
  (MkAddress (bt_proposer_fee_recipient t),
  (MkStdU64 (bt_gas_limit t), (MkStdU64 (bt_gas_used t), (MkU256 (bt_value t),
  (MkStdU64 (bt_num_tx t), (MkStdU64 (bt_block_number t), (MkStdU64 (bt_timestamp t),
  (MkStdU64 (bt_timestamp_ms t), (bt_optimistic_submission t, tt)))))))))))))).

Definition bid_trace_of_fields (t : BidTraceFields) : BidTrace :=
  let '(slot, (parent_hash, (block_hash, (builder_pubkey, (proposer_pubkey, (fee_recipient,
       (gas_limit, (gas_used, (value, (num_tx, (block_number, (timestamp, (timestamp_ms,
       (optimistic_submission, _)))))))))))))) := t in
  {| bt_slot := std_value slot;
     bt_parent_hash := b256_word parent_hash;
     bt_block_hash := b256_word block_hash;
     bt_builder_pubkey := pubkey_word builder_pubkey;
     bt_proposer_pubkey := pubkey_word proposer_pubkey;
     bt_proposer_fee_recipient := address_word fee_recipient;
     bt_gas_limit := std_value gas_limit;
     bt_gas_used := std_value gas_used;
     bt_value := u256_value value;
     bt_num_tx := std_value num_tx;
     bt_block_number := std_value block_number;
     bt_timestamp := std_value timestamp;
     bt_timestamp_ms := std_value timestamp_ms;
     bt_optimistic_submission := optimistic_submission |}.

Definition bid_trace_serde : Serde BidTrace :=
  struct_serde bid_trace_names bid_trace_fields bid_trace_of_fields.
#[local] Existing Instances payload_serde bid_trace_serde.

Section SignedBid.
Context `{EV : Evm} `{BJ : !BlobsSerde}.

Definition signed_bid_names : list string :=
  ["message"; "execution_payload"; "blobs_bundle"; "signature"]%string.

Definition signed_bid_serde : Serde SignedBid :=
  struct_serde signed_bid_names signed_bid_fields signed_bid_of_fields.
End SignedBid.
End BidJson.

(** ** Laws *)

Class JsonFieldsLaws (T : Type) `{JsonFields T} (wf : T -> Prop) : Prop := {
  values_roundtrip : forall t, wf t -> json_read (Some <$> json_values t) = Some t;
  values_typed : forall l t, json_read l = Some t -> wf t;
}.

#[export] Instance no_json_fields_laws : JsonFieldsLaws unit (fun _ => True).
Proof. split; [by intros []|done]. Qed.

#[export] Instance more_json_fields_laws {A T} `{SerdeCodec A wfA, JsonFieldsLaws T wfT} :
  JsonFieldsLaws (A * T) (fun xt => wfA xt.1 /\ wfT xt.2).
Proof.
  split; simpl.
  - intros [x t] [Hx Ht]. cbn [fst snd] in *. rewrite json_roundtrip by done. simpl. by rewrite values_roundtrip.
  - intros [|v l] t; [done|]. intros (x & Hx & (u & Hu & [= <-])%bind_Some)%bind_Some. simpl.
    split; [|by eapply values_typed]. destruct v; [by eapply json_typed|by apply missing_typed].
Qed.

Lemma zip_keys (names : list string) (values : list Json) :
  length names = length values -> (zip names values).*1 = names.
Proof. intros Hl. apply fst_zip. lia. Qed.

Lemma filter_no_key (kvs : list (string * Json)) name :
  name ∉ kvs.*1 -> filter (fun kv => kv.1 = name) kvs = [].
Proof.
  induction kvs as [|kv kvs IH]; [done|]. rewrite fmap_cons, not_elem_of_cons. intros [Hn Hkvs].
  rewrite filter_cons_False by congruence. by apply IH.
Qed.

(** a key that occurs once is found, wherever it is *)
Lemma json_field_found kvs name v : NoDup kvs.*1 -> (name, v) ∈ kvs -> json_field kvs name = Some (Some v).
Proof.
  intros Hnd Hin. unfold json_field.
  assert (filter (fun kv => kv.1 = name) kvs = [(name, v)]) as ->; [|done].
  induction kvs as [|kv kvs IH]; [by apply not_elem_of_nil in Hin|].
  rewrite fmap_cons in Hnd. apply NoDup_cons in Hnd as [Hn Hnd]. apply elem_of_cons in Hin as [<-|Hin].
  - rewrite filter_cons_True by done. by rewrite filter_no_key.
  - rewrite filter_cons_False; [by apply IH|]. intros <-. apply Hn. apply list_elem_of_fmap. by exists (kv.1, v).
Qed.

Lemma json_field_app kvs extra name :
  name ∉ extra.*1 -> json_field (kvs ++ extra) name = json_field kvs name.
Proof. intros Hn. unfold json_field. by rewrite filter_app, (filter_no_key extra), app_nil_r. Qed.

Lemma json_field_perm kvs kvs' name v :
  kvs ≡ₚ kvs' -> json_field kvs name = Some (Some v) -> json_field kvs' name = Some (Some v).
Proof.
  intros Hp. unfold json_field. assert (filter (fun kv => kv.1 = name) kvs ≡ₚ filter (fun kv => kv.1 = name) kvs') as Hf
    by by rewrite Hp.
  destruct (filter _ kvs) as [|kv [|]]; try done. apply Permutation_singleton_l in Hf. by rewrite <- Hf.
Qed.

(** the fields of an object are found among others and in any order *)
Lemma json_fields_found names values extra kvs :
  NoDup names -> length names = length values -> (forall name, name ∈ names -> name ∉ extra.*1) ->
  zip names values ++ extra ≡ₚ kvs -> mapM (json_field kvs) names = Some (Some <$> values).
Proof.
  intros Hnd Hl He Hp. apply mapM_Some, Forall2_same_length_lookup. split; [by rewrite length_fmap|].
  intros i name ov Hi (v & -> & Hv)%list_lookup_fmap_Some.
  eapply json_field_perm; [exact Hp|]. rewrite json_field_app by (apply He; by eapply list_elem_of_lookup_2).
  apply json_field_found; [by rewrite zip_keys|]. apply list_elem_of_lookup. exists i.
  apply lookup_zip_with_Some. by exists name, v.
Qed.

Section StructLaws.
Context {A T : Type} `{FL : JsonFieldsLaws T wf} (names : list string) (fields : A -> T) (of_fields : T -> A).
Hypothesis names_distinct : NoDup names.
Hypothesis names_all : forall x, length names = length (json_values (fields x)).
Hypothesis of_to : forall x, of_fields (fields x) = x.
Hypothesis to_of : forall t, fields (of_fields t) = t.

#[local] Instance the_serde : Serde A := struct_serde names fields of_fields.

(** an object with the fields of a value reads as the value, whatever the order of the
    fields and whatever other fields there are; so do the fields in an array *)
Lemma struct_reads x extra kvs :
  wf (fields x) -> (forall name, name ∈ names -> name ∉ extra.*1) ->
  zip names (json_values (fields x)) ++ extra ≡ₚ kvs ->
  of_json (JObject kvs) = Some x /\ of_json (JArray (json_values (fields x))) = Some x.
Proof.
  intros Hx He Hp. split; simpl.
  - rewrite (json_fields_found names (json_values (fields x)) extra kvs) by done. simpl.
    rewrite values_roundtrip by done. simpl. by rewrite of_to.
  - rewrite bool_decide_eq_true_2 by done. rewrite values_roundtrip by done. simpl. by rewrite of_to.
Qed.

Lemma struct_serde_codec : SerdeCodec A (fun x => wf (fields x)).
Proof.
  split; [| |done].
  - intros x Hx. apply (struct_reads x []); [done|by intros ? _ ?%elem_of_nil|by rewrite app_nil_r].
  - intros [| | | |l|kvs] x; try done; simpl.
    + case_bool_decide; [|done]. intros (t & Ht & [= <-])%bind_Some. rewrite to_of. by eapply values_typed.
    + intros (values & _ & (t & Ht & [= <-])%bind_Some)%bind_Some. rewrite to_of. by eapply values_typed.
Qed.
End StructLaws.

Lemma vec_serde_codec {A} `{SerdeCodec A wf} : @SerdeCodec (list A) vec_serde (Forall wf).
Proof.
  split; [| |done]; simpl.
  - intros l Hl. apply mapM_Some. induction Hl as [|x l Hx _ IH]; csimpl; constructor; [by apply json_roundtrip|done].
  - intros [| | | |l|] x; try done. intros Hx%mapM_Some.
    induction Hx as [|j y l ys Hy _ IH]; constructor; [by eapply json_typed|done].
Qed.

#[export] Instance u64_serde_codec : SerdeCodec StdU64 (fun x => is_u64 (std_value x)).
Proof.
  split; [| |done].
  - intros [x] Hx. simpl in *. destruct (u64_str_roundtrip x x EmptyString Hx) as [-> _]. done.
  - intros [| | |s| |] [x]; try done. simpl. pose proof (u64_from_str_range s) as Hr. unfold from_str_to_u64.
    destruct (u64_from_str s) as [v|]; [|done]. intros [= <-]. by apply Hr.
Qed.

#[export] Instance option_bool_codec : SerdeCodec (option bool) (fun _ => True).
Proof. split; [by intros [b|]|done|done]. Qed.

#[export] Instance dec_u256_codec `{AlloySerde} : SerdeCodec DecU256 (fun x => is_u256 (dec_value x)).
Proof.
  split; [| |done].
  - intros [v] Hv. simpl. unfold from_u256_to_str. by rewrite u256_of_decimal.
  - intros j [v]. simpl. intros (u & Hu & [= <-])%bind_Some. by apply json_typed in Hu.
Qed.

Lemma macro_serde_codec `{BS : BlstLib} `{HX : HexLib} {A} (error_debug : Error -> string)
    (ser : A -> Bytes) (de : Bytes -> result Error A) (wf : A -> Prop) :
  (forall x, wf x -> de (ser x) = Ok x) -> (forall bs x, de bs = Ok x -> wf x) ->
  @SerdeCodec A (macro_serde error_debug ser de) wf.
Proof.
  intros Hr Hc. split; [| |done]; simpl; unfold macro_from_str, macro_display.
  - intros x Hx. rewrite hex_roundtrip. simpl. by rewrite Hr.
  - intros [| | |s| |] x; try done. destruct (hex_decode s) as [bs|]; [|done]. simpl.
    destruct (de bs) as [y|] eqn:E; [|done]. intros [= <-]. by eapply Hc.
Qed.

(** ** Bids and traces *)

Definition bid_trace_in_range `{BS : BlstLib} (t : BidTrace) : Prop :=
  is_u64 (bt_slot t) /\ is_u256 (bt_parent_hash t) /\ is_u256 (bt_block_hash t) /\
  pubkey_in_range (bt_builder_pubkey t) /\ pubkey_in_range (bt_proposer_pubkey t) /\
  0 <= bt_proposer_fee_recipient t < 2 ^ 160 /\
  is_u64 (bt_gas_limit t) /\ is_u64 (bt_gas_used t) /\ is_u256 (bt_value t) /\
  is_u64 (bt_num_tx t) /\ is_u64 (bt_block_number t) /\ is_u64 (bt_timestamp t) /\ is_u64 (bt_timestamp_ms t).

Lemma serde_iff {A} `{Serde A} (wf wf' : A -> Prop) :
  (forall x, wf x <-> wf' x) -> SerdeCodec A wf -> SerdeCodec A wf'.
Proof. intros Hw [H1 H2 H3]. split; naive_solver. Qed.

Section BidJsonLaws.
Context `{AS : AlloySerde} `{BL : BlstLaws} `{HX : HexLib} (error_debug : Error -> string).

#[local] Instance json_pubkey : Serde SszPublicKey := pubkey_serde error_debug.
#[local] Instance json_signature : Serde SszSignature := signature_serde error_debug.
#[local] Instance json_bid : Serde Bid := bid_serde error_debug.
#[local] Existing Instances withdrawal_serde transactions_serde withdrawals_serde payload_serde.
#[local] Instance json_bid_trace : Serde BidTrace := bid_trace_serde error_debug.

#[local] Arguments be_bytes : simpl never.
#[local] Arguments be_value : simpl never.

Lemma pubkey_serde_codec : SerdeCodec SszPublicKey (fun k => pubkey_in_range (pubkey_word k)).
Proof.
  apply macro_serde_codec.
  - intros [w] (k & Hk & E). cbn [pubkey_word] in *. subst w.
    rewrite <- (compress_length (pk_point k)), be_bytes_of_value. fold (pk_serialize k). by rewrite pk_roundtrip.
  - intros bs [w] (k & [Hk <-]%pk_canonical & [= <-])%result_bind_Ok. by exists k.
Qed.

(** a signature read from bytes of whatever length is written as one of its own *)
Lemma signature_serde_codec : SerdeCodec SszSignature (fun s => signature_in_range (signature_word s)).
Proof.
  apply macro_serde_codec.
  - intros [w] (s & Hs & E). cbn [signature_word] in *. subst w.
    rewrite <- (sig_serialize_length s), be_bytes_of_value. by rewrite sig_roundtrip.
  - intros bs [w] (s & _ & [= <-])%result_bind_Ok.
    exists {| sig_point := sig_point s; sig_is_infinity := bool_decide (sig_serialize s = INFINITY_SIGNATURE) |}.
    done.
Qed.
#[local] Existing Instances pubkey_serde_codec signature_serde_codec.

Ltac json_fields := fields; repeat match goal with x : DecU256 |- _ => destruct x end; try done.

Ltac distinct := apply (bool_decide_eq_true_1 _); reflexivity.

Lemma bid_serde_codec : SerdeCodec Bid bid_in_range.
Proof.
  eapply serde_iff; [|apply (struct_serde_codec bid_names bid_json_fields bid_of_json_fields);
    [distinct|done|by intros []|json_fields]].
  intros b. simpl. unfold bid_in_range, b256_wf, address_wf. simpl. naive_solver.
Qed.

Lemma withdrawal_serde_codec : SerdeCodec AlloyWithdrawal withdrawal_in_range.
Proof.
  eapply serde_iff; [|apply (struct_serde_codec withdrawal_names withdrawal_fields withdrawal_of_fields);
    [distinct|done|by intros []|json_fields]].
  intros w. simpl. unfold withdrawal_in_range, address_wf. simpl. naive_solver.
Qed.
#[local] Existing Instances bid_serde_codec withdrawal_serde_codec.

#[local] Instance transactions_serde_codec : SerdeCodec (list SszBytes) (Forall bytes_wf) := vec_serde_codec.
#[local] Instance withdrawals_serde_codec : SerdeCodec (list AlloyWithdrawal) (Forall withdrawal_in_range) :=
  vec_serde_codec.

Lemma payload_serde_codec : SerdeCodec ExecutionPayload payload_in_range.
Proof.
  eapply serde_iff; [|apply (struct_serde_codec payload_names payload_json_fields payload_of_json_fields);
    [distinct|done| |]].
  - intros p. simpl. unfold payload_in_range, b256_wf, address_wf, bloom_wf, bytes_wf. simpl.
    assert (Forall (fun _ : SszBytes => True) (MkBytes <$> ep_transactions p)) by by apply Forall_true. naive_solver.
  - intros []. unfold payload_json_fields. simpl. by rewrite bytes_fmap.
  - json_fields. unfold payload_json_fields. simpl. by rewrite fmap_bytes.
Qed.
#[local] Existing Instance payload_serde_codec.

(** the fields of a trace are those of a bid and four more numbers *)
Lemma bid_trace_serde_codec : SerdeCodec BidTrace bid_trace_in_range.
Proof.
  eapply serde_iff; [|apply (struct_serde_codec bid_trace_names bid_trace_fields bid_trace_of_fields);
    [distinct|done|by intros []|json_fields]].
  intros t. simpl. unfold bid_trace_in_range, b256_wf, u256_wf, address_wf. simpl. naive_solver.
Qed.

Section SignedBidJson.
Context `{EV : Evm} `{BJ : !BlobsSerde}.

#[local] Instance json_signed_bid : Serde SignedBid := signed_bid_serde error_debug.

Definition signed_bid_words_in_range (sb : SignedBid) : Prop :=
  bid_in_range (sbd_message sb) /\ payload_in_range (sbd_execution_payload sb) /\
  signature_in_range (sbd_signature sb).

Lemma signed_bid_reads (sb : SignedBid) extra kvs :
  signed_bid_words_in_range sb -> (forall name, name ∈ signed_bid_names -> name ∉ extra.*1) ->
  zip signed_bid_names (json_values (signed_bid_fields sb)) ++ extra ≡ₚ kvs ->
  of_json (JObject kvs) = Some sb /\ of_json (JArray (json_values (signed_bid_fields sb))) = Some sb.
Proof.
  intros (Hm & Hp & Hs). apply (struct_reads signed_bid_names signed_bid_fields signed_bid_of_fields);
    [distinct|done|by intros []|done].
Qed.

Lemma signed_bid_serde_codec : SerdeCodec SignedBid signed_bid_words_in_range.
Proof.
  eapply serde_iff; [|apply (struct_serde_codec signed_bid_names signed_bid_fields signed_bid_of_fields);
    [distinct|done|by intros []|by intros (m & p & [b] & [s] & [])]].
  intros sb. simpl. unfold signed_bid_words_in_range. naive_solver.
Qed.

(** C20: bids and traces survive the trip in JSON: a bid or a trace whose fields are in
    their types' ranges reads back from what it is written as; a bid also from an
    object with its fields in another order and with other fields beside them, and
    from an array; and whatever reads as a bid or a trace is in range. *)
Theorem bid_json_roundtrip (sb : SignedBid) (t : BidTrace) (extra kvs : list (string * Json)) :
  signed_bid_words_in_range sb -> bid_trace_in_range t ->
  (forall name, name ∈ signed_bid_names -> name ∉ extra.*1) ->
  zip signed_bid_names (json_values (signed_bid_fields sb)) ++ extra ≡ₚ kvs ->
  of_json (to_json sb) = Some sb /\ of_json (to_json t) = Some t /\
  of_json (JObject kvs) = Some sb /\ of_json (JArray (json_values (signed_bid_fields sb))) = Some sb /\
  (forall j sb', of_json j = Some sb' -> signed_bid_words_in_range sb') /\
  (forall j t', of_json j = Some t' -> bid_trace_in_range t').
Proof.
  intros Hsb Ht He Hp. pose proof signed_bid_serde_codec as H1. pose proof bid_trace_serde_codec as H2.
  split_and!; [by apply json_roundtrip|by apply json_roundtrip|by eapply signed_bid_reads..
    |apply json_typed|apply json_typed].
Qed.
End SignedBidJson.
End BidJsonLaws.

(** ** Evaluation on concrete inputs *)

Import Demo.

(** decimal numbers of any width *)
Fixpoint demo_parse (acc : Z) (s : string) : option Z :=
  match s with
  | EmptyString => Some acc
  | String a s => d ← digit_of a; demo_parse (acc * 10 + d) s
  end.

Lemma demo_parse_go x s : demo_parse 0 (pretty_N_go x s) = demo_parse (Z.of_N x) s.
Proof.
  revert s. induction (N.lt_wf_0 x) as [x _ IH]; intros s.
  destruct (decide (x = 0)%N) as [->|Hn]; [by rewrite pretty_N_go_0|].
  destruct (div_mod_10 x) as (Hd & Hm & _ & _).
  rewrite pretty_N_go_step, IH by (lia || by apply N.div_lt; lia).
  cbn [demo_parse]. rewrite digit_of_char by done. cbn [mbind option_bind]. by rewrite <- Hd.
Qed.

Lemma demo_parse_pretty x : 0 <= x -> demo_parse 0 (pretty x) = Some x.
Proof.
  intros Hx. destruct x as [|p|p]; [reflexivity| |lia].
  change (pretty (Z.pos p)) with (pretty (N.pos p)). unfold pretty, pretty_N. rewrite decide_False by done.
  by rewrite demo_parse_go.
Qed.

(** words and bytes as strings *)
Definition demo_word_serde {A} (n : nat) (word : A -> Z) (mk : Z -> A) : Serde A := {|
  to_json x := JString (String.string_of_list_byte (be_bytes n (word x)));
  of_json j :=
    match j with
    | JString s => let bs := String.list_byte_of_string s in if Nat.eqb (length bs) n then Some (mk (be_value bs)) else None
    | _ => None
    end;
  of_missing := None;
|}.

Lemma demo_word_codec {A} (n : nat) (word : A -> Z) (mk : Z -> A) :
  (forall x, mk (word x) = x) -> (forall w, word (mk w) = w) ->
  @SerdeCodec A (demo_word_serde n word mk) (fun x => 0 <= word x < 256 ^ Z.of_nat n).
Proof.
  intros H1 H2. split; [| |done]; cbn -[be_bytes be_value].
  - intros x Hx. by rewrite String.list_byte_of_string_of_list_byte, length_be_bytes, Nat.eqb_refl, be_value_of_bytes, H1.
  - intros [| | |s| |] x; try done. destruct (Nat.eqb_spec (length (String.list_byte_of_string s)) n) as [<-|]; [|done].
    intros [= <-]. rewrite H2. apply be_value_range.
Qed.

Definition demo_bytes_serde {A} (ok : nat -> bool) (data : A -> Bytes) (mk : Bytes -> A) : Serde A := {|
  to_json x := JString (String.string_of_list_byte (data x));
  of_json j :=
    match j with
    | JString s => let bs := String.list_byte_of_string s in if ok (length bs) then Some (mk bs) else None
    | _ => None
    end;
  of_missing := None;
|}.

Lemma demo_bytes_codec {A} (ok : nat -> bool) (data : A -> Bytes) (mk : Bytes -> A) :
  (forall x, mk (data x) = x) -> (forall bs, data (mk bs) = bs) ->
  @SerdeCodec A (demo_bytes_serde ok data mk) (fun x => ok (length (data x)) = true).
Proof.
  intros H1 H2. split; [| |done]; simpl.
  - intros x Hx. by rewrite String.list_byte_of_string_of_list_byte, Hx, H1.
  - intros [| | |s| |] x; try done. destruct (ok _) eqn:Hs; [|done]. intros [= <-]. by rewrite H2.
Qed.

Definition demo_u256_serde : Serde SszU256 := {|
  to_json u := JString (pretty (u256_value u));
  of_json j :=
    match j with
    | JString s => v ← demo_parse 0 s; if bool_decide (is_u256 v) then Some (MkU256 v) else None
    | _ => None
    end;
  of_missing := None;
|}.

Lemma demo_u256_of_decimal v : is_u256 v -> @of_json _ demo_u256_serde (JString (pretty v)) = Some (MkU256 v).
Proof. intros Hv. simpl. rewrite demo_parse_pretty by apply Hv. simpl. by rewrite bool_decide_eq_true_2. Qed.

Lemma demo_u256_codec : @SerdeCodec _ demo_u256_serde u256_wf.
Proof.
  split; [| |done].
  - intros [v] Hv. by apply demo_u256_of_decimal.
  - intros [| | |s| |] [v]; try done. simpl. intros (w & _ & H)%bind_Some.
    case_bool_decide; [|done]. by injection H as <-.
Qed.

#[export] Instance demo_alloy : AlloySerde.
Proof.
  refine (Build_AlloySerde (demo_word_serde 32 b256_word MkB256)
    (demo_word_serde 20 address_word MkAddress)
    (demo_bytes_serde (fun n => Nat.eqb n 256) bloom_data MkBloom) (demo_bytes_serde (fun _ => true) bytes_data MkBytes)
    demo_u256_serde _ _ _ _ demo_u256_codec demo_u256_of_decimal).
  - apply demo_word_codec; by intros [].
  - apply demo_word_codec; by intros [].
  - eapply serde_iff; [|apply demo_bytes_codec; by intros []]. intros d. apply Nat.eqb_eq.
  - eapply serde_iff; [|apply demo_bytes_codec; by intros []]. done.
Defined.

(** a blob is a number in its execution layer: its sign and its digits *)
Definition demo_sidecar_json (n : Z) : Json := JArray [JBool (n <? 0); JString (pretty (Z.abs n))].

Definition demo_sidecar_of_json (j : Json) : option Z :=
  match j with
  | JArray [JBool b; JString s] => n ← demo_parse 0 s; Some (if b then - n else n)
  | _ => None
  end.

Lemma demo_sidecar_roundtrip n : demo_sidecar_of_json (demo_sidecar_json n) = Some n.
Proof. simpl. rewrite demo_parse_pretty by lia. simpl. f_equal. destruct (Z.ltb_spec n 0); lia. Qed.

Definition demo_blobs_serde : Serde (SszBlobs (EV := demo_evm)) := {|
  to_json b := JArray (map demo_sidecar_json (blobs_sidecars b));
  of_json j :=
    match j with
    | JArray l => l ← mapM demo_sidecar_of_json l; Some (MkBlobs (EV := demo_evm) l)
    | _ => None
    end;
  of_missing := None;
|}.

Lemma demo_blobs_serde_codec : @SerdeCodec _ demo_blobs_serde (fun _ => True).
Proof.
  split; try done. intros [l] _. simpl.
  assert (mapM demo_sidecar_of_json (map demo_sidecar_json l) = Some l) as ->; [|done].
  induction l as [|n l IH]; [done|]. cbn [map mapM]. rewrite demo_sidecar_roundtrip. simpl in *. by rewrite IH.
Qed.

#[export] Instance demo_blobs_json : BlobsSerde := Build_BlobsSerde _ _ demo_blobs_serde demo_blobs_serde_codec.

Lemma demo_words_in_range : signed_bid_words_in_range demo_signed_bid.
Proof. destruct demo_signed_bid_in_range as (Hm & Hp & _ & Hs). done. Qed.

Definition demo_trace : BidTrace := to_trace 250000 demo_signed_bid.

Lemma demo_trace_in_range : bid_trace_in_range demo_trace.
Proof.
  destruct demo_signed_bid_in_range as ((H1 & H2 & H3 & H4 & H5 & H6 & H7 & H8 & H9) & Hp & _).
  unfold bid_trace_in_range. split_and!; try done; by (split; compute).
Qed.

Lemma bid_json_roundtrip_witness :
  let no_text := fun _ : Error => EmptyString in
  let to_json := @to_json _ (signed_bid_serde no_text) in
  let of_json := @of_json _ (signed_bid_serde no_text) in
  match to_json demo_signed_bid with
  | JObject fields => of_json (JObject (("version"%string, JNumber 1) :: fields))
  | _ => None
  end = Some demo_signed_bid.
Proof.
  refine (proj1 (proj2 (proj2 (bid_json_roundtrip (fun _ => EmptyString) demo_signed_bid demo_trace
    [("version"%string, JNumber 1)] _ demo_words_in_range demo_trace_in_range _ _)))).
  - intros name Hn. apply (bool_decide_eq_true_1 (name ∉ ["version"%string])).
    revert name Hn. apply Forall_forall. by repeat constructor.
  - symmetry. apply Permutation_cons_append.
Defined.
