(* ===== verification/JsonText.v ===== *)
(** * JSON as text

    The last step of the encodings of [BidJson]: the text that [serde_json] prints and
    parses, as the interface [JsonText]; the values the program writes stay within the
    numbers that library keeps ([json_fits]).  Also the derived JSON of the validators'
    registrations of [crates/primitives/src/validator.rs]. *)

From stdpp Require Import prelude list strings.
From Stdlib Require Import Ascii.
From S2P Require Import Prelude Numerals Types Bundle Validator Chain Payload SimState DemoEvm State StateFacts Bid Ssz Blst SszContainer BidSsz BidJson.

Open Scope Z_scope.

(** ** Printing and parsing *)

(** the numbers that are read as they were written: those of [i64] and [u64] *)
Fixpoint json_fits (j : Json) : Prop :=
  match j with
  | JNumber n => - 2 ^ 63 <= n < 2 ^ 64
  | JArray l => foldr (fun j P => json_fits j /\ P) True l
  | JObject kvs => foldr (fun kv P => json_fits kv.2 /\ P) True kvs
  | _ => True
  end.

(** [serde_json::to_string] and [from_str], up to the tree *)
Class JsonText := {
  json_text : Json -> string;
  json_parse : string -> option Json;
  json_parse_text : forall j, json_fits j -> json_parse (json_text j) = Some j;
}.

Definition to_text `{JsonText} {A} `{Serde A} (x : A) : string := json_text (to_json x).
Definition of_text `{JsonText} {A} `{Serde A} (s : string) : option A := json_parse s ≫= of_json.

Class SerdeFits (A : Type) `{Serde A} : Prop := serde_fits : forall x : A, json_fits (to_json x).
Class FieldsFit (T : Type) `{JsonFields T} : Prop := fields_fit : forall t : T, Forall json_fits (json_values t).

(** the libraries' types are written within those numbers: as strings, and blobs as strings in arrays *)
Class AlloyFits `{AS : AlloySerde} : Prop := {
  b256_fits : SerdeFits SszB256;
  address_fits : SerdeFits SszAddress;
  bloom_fits : SerdeFits SszBloom;
  bytes_fits : SerdeFits SszBytes;
  u256_fits : SerdeFits SszU256;
}.
#[export] Existing Instances b256_fits address_fits bloom_fits bytes_fits u256_fits.

(** [Option]: [null], or the value; a missing field is none *)
Definition option_serde {A} `{Serde A} : Serde (option A) := {|
  to_json x := match x with Some x => to_json x | None => JNull end;
  of_json j := match j with JNull => Some None | _ => Some <$> of_json j end;
  of_missing := Some None;
|}.

#[export] Instance string_serde : Serde string := {|
  to_json s := JString s;
  of_json j := match j with JString s => Some s | _ => None end;
  of_missing := None;
|}.

(** ** The structures of [validator.rs] *)

Section ValidatorJson.
Context `{AS : AlloySerde} `{BS : BlstLib} `{HX : HexLib} (error_debug : Error -> string).

#[local] Instance write_pubkey : Serde SszPublicKey := pubkey_serde error_debug.
#[local] Instance write_signature : Serde SszSignature := signature_serde error_debug.
#[local] Instance write_index : Serde (option string) := option_serde.

Definition registration_names : list string := ["fee_recipient"; "gas_limit"; "timestamp"; "pubkey"]%string.

Abbreviation RegistrationFields := (SszAddress * (StdU64 * (StdU64 * (SszPublicKey * unit))))%type.

Definition registration_fields (r : Registration) : RegistrationFields :=
  (MkAddress (reg_fee_recipient r), (MkStdU64 (reg_gas_limit r), (MkStdU64 (reg_timestamp r),
  (MkPublicKey (reg_pubkey r), tt)))).

Definition registration_of_fields (t : RegistrationFields) : Registration :=
  let '(fee_recipient, (gas_limit, (timestamp, (pubkey, _)))) := t in
  {| reg_fee_recipient := address_word fee_recipient;
     reg_gas_limit := std_value gas_limit;
     reg_timestamp := std_value timestamp;
     reg_pubkey := pubkey_word pubkey |}.

Definition registration_serde : Serde Registration :=
  struct_serde registration_names registration_fields registration_of_fields.
#[local] Existing Instance registration_serde.

Definition signed_registration_names : list string := ["message"; "signature"]%string.

Abbreviation SignedRegistrationFields := (Registration * (SszSignature * unit))%type.

Definition signed_registration_fields (r : SignedValidatorRegistration) : SignedRegistrationFields :=
  (svr_message r, (MkSignature (svr_signature r), tt)).

Definition signed_registration_of_fields (t : SignedRegistrationFields) : SignedValidatorRegistration :=
  let '(message, (signature, _)) := t in
  {| svr_message := message; svr_signature := signature_word signature |}.

Definition signed_registration_serde : Serde SignedValidatorRegistration :=
  struct_serde signed_registration_names signed_registration_fields signed_registration_of_fields.
#[local] Existing Instance signed_registration_serde.

Definition registration_response_names : list string := ["slot"; "validator_index"; "entry"]%string.

Abbreviation ResponseFields := (StdU64 * (option string * (SignedValidatorRegistration * unit)))%type.

Definition registration_response_fields (r : ValidatorRegistrationResponse) : ResponseFields :=
  (MkStdU64 (vrr_slot r), (vrr_validator_index r, (vrr_entry r, tt))).

Definition registration_response_of_fields (t : ResponseFields) : ValidatorRegistrationResponse :=
  let '(slot, (validator_index, (entry, _))) := t in
  {| vrr_slot := std_value slot; vrr_validator_index := validator_index; vrr_entry := entry |}.

Definition registration_response_serde : Serde ValidatorRegistrationResponse :=
  struct_serde registration_response_names registration_response_fields registration_response_of_fields.
End ValidatorJson.

(** ** Laws *)

Lemma of_to_text `{JsonText} {A} `{HC : SerdeCodec A wf} `{!SerdeFits A} (x : A) :
  wf x -> of_text (to_text x) = Some x.
Proof.
  intros Hx. unfold of_text, to_text. rewrite json_parse_text by apply serde_fits. cbn. by apply json_roundtrip.
Qed.

Lemma option_serde_codec {A} `{HC : SerdeCodec A wf} :
  (forall x, wf x -> to_json x <> JNull) -> @SerdeCodec (option A) option_serde (fun x => forall y, x = Some y -> wf y).
Proof.
  intros Hn. split; simpl.
  - intros [x|] Hx; [|done]. specialize (Hx x eq_refl). pose proof (json_roundtrip x Hx) as Hr.
    specialize (Hn x Hx). destruct (to_json x); simpl in *; try done; by rewrite Hr.
  - intros j x Hj y ->. assert (of_json j = Some y) as Hy.
    { destruct j; simplify_option_eq; done. }
    by eapply json_typed.
  - by intros x [= <-] y.
Qed.

#[export] Instance string_serde_codec : SerdeCodec string (fun _ => True).
Proof. by split. Qed.

#[export] Instance no_fields_fit : FieldsFit unit.
Proof. by constructor. Qed.

#[export] Instance more_fields_fit {A T} `{Serde A, !SerdeFits A, JsonFields T, !FieldsFit T} : FieldsFit (A * T).
Proof. intros [x t]. constructor; [apply serde_fits|apply fields_fit]. Qed.

Lemma foldr_fits (l : list Json) : Forall json_fits l -> foldr (fun j P => json_fits j /\ P) True l.
Proof. by induction 1. Qed.

Lemma struct_fits {A T} `{JsonFields T, !FieldsFit T} names (fields : A -> T) (of_fields : T -> A) :
  @SerdeFits A (struct_serde names fields of_fields).
Proof.
  intros x. simpl. pose proof (fields_fit (fields x)) as Hf. revert names.
  induction Hf as [|j l Hj _ IH]; intros [|name names]; simpl; done.
Qed.

Lemma vec_fits {A} `{Serde A, !SerdeFits A} : @SerdeFits (list A) vec_serde.
Proof.
  intros l. simpl. apply foldr_fits. induction l as [|x l IH]; [done|]. constructor; [apply serde_fits|done].
Qed.

Lemma option_fits {A} `{Serde A, !SerdeFits A} : @SerdeFits (option A) option_serde.
Proof. intros [x|]; [exact (serde_fits x)|done]. Qed.

#[export] Instance string_fits : SerdeFits string.
Proof. by intros x. Qed.
#[export] Instance u64_fits : SerdeFits StdU64.
Proof. by intros x. Qed.
#[export] Instance dec_u256_fits `{AlloySerde} : SerdeFits DecU256.
Proof. by intros x. Qed.
#[export] Instance option_bool_fits : SerdeFits (option bool).
Proof. by intros [b|]. Qed.

Lemma macro_fits `{BS : BlstLib} `{HX : HexLib} {A} error_debug (ser : A -> Bytes) de :
  @SerdeFits A (macro_serde error_debug ser de).
Proof. by intros x. Qed.

(** every field of a registration holds a value of its type *)
Definition registration_in_range `{BS : BlstLib} (r : ValidatorRegistrationResponse) : Prop :=
  let message := svr_message (vrr_entry r) in
  is_u64 (vrr_slot r) /\ 0 <= reg_fee_recipient message < 2 ^ 160 /\ is_u64 (reg_gas_limit message) /\
  is_u64 (reg_timestamp message) /\ pubkey_in_range (reg_pubkey message) /\
  signature_in_range (svr_signature (vrr_entry r)).

Ltac distinct := apply (bool_decide_eq_true_1 _); reflexivity.

Section TextLaws.
Context `{AS : AlloySerde} `{AF : !AlloyFits} `{BL : BlstLaws} `{HX : HexLib} (error_debug : Error -> string).

#[local] Instance text_pubkey : Serde SszPublicKey := pubkey_serde error_debug.
#[local] Instance text_signature : Serde SszSignature := signature_serde error_debug.
#[local] Instance text_bid : Serde Bid := bid_serde error_debug.
#[local] Existing Instances withdrawal_serde transactions_serde withdrawals_serde payload_serde.
#[local] Instance text_bid_trace : Serde BidTrace := bid_trace_serde error_debug.
#[local] Instance text_index : Serde (option string) := option_serde.
#[local] Instance text_registration : Serde Registration := registration_serde error_debug.
#[local] Instance text_signed_registration : Serde SignedValidatorRegistration := signed_registration_serde error_debug.
#[local] Instance text_response : Serde ValidatorRegistrationResponse := registration_response_serde error_debug.

#[local] Existing Instances pubkey_serde_codec signature_serde_codec.

#[local] Instance index_codec : SerdeCodec (option string) (fun _ => True).
Proof. eapply serde_iff; [|by apply (option_serde_codec (wf := fun _ : string => True))]. naive_solver. Qed.

Lemma registration_codec : SerdeCodec Registration (fun r =>
  0 <= reg_fee_recipient r < 2 ^ 160 /\ is_u64 (reg_gas_limit r) /\ is_u64 (reg_timestamp r) /\
  pubkey_in_range (reg_pubkey r)).
Proof.
  eapply serde_iff; [|apply (struct_serde_codec registration_names registration_fields registration_of_fields);
    [distinct|done|by intros []|fields]].
  intros r. simpl. unfold address_wf. simpl. naive_solver.
Qed.
#[local] Existing Instance registration_codec.

Lemma signed_registration_codec : SerdeCodec SignedValidatorRegistration (fun r =>
  (0 <= reg_fee_recipient (svr_message r) < 2 ^ 160 /\ is_u64 (reg_gas_limit (svr_message r)) /\
   is_u64 (reg_timestamp (svr_message r)) /\ pubkey_in_range (reg_pubkey (svr_message r))) /\
  signature_in_range (svr_signature r)).
Proof.
  eapply serde_iff; [|apply (struct_serde_codec signed_registration_names signed_registration_fields
    signed_registration_of_fields); [distinct|done|by intros []|fields]].
  intros r. simpl. naive_solver.
Qed.
#[local] Existing Instance signed_registration_codec.

Lemma registration_response_codec : SerdeCodec ValidatorRegistrationResponse registration_in_range.
Proof.
  eapply serde_iff; [|apply (struct_serde_codec registration_response_names registration_response_fields
    registration_response_of_fields); [distinct|done|by intros []|fields]].
  intros r. unfold registration_in_range. simpl. naive_solver.
Qed.

#[local] Instance pubkey_fits : SerdeFits SszPublicKey := macro_fits _ _ _.
#[local] Instance signature_fits : SerdeFits SszSignature := macro_fits _ _ _.
#[local] Instance index_fits : SerdeFits (option string) := option_fits.
#[local] Instance registration_fits : SerdeFits Registration := struct_fits _ _ _.
#[local] Instance signed_registration_fits : SerdeFits SignedValidatorRegistration := struct_fits _ _ _.
#[local] Instance bid_fits : SerdeFits Bid := struct_fits _ _ _.
#[local] Instance withdrawal_fits : SerdeFits AlloyWithdrawal := struct_fits _ _ _.
#[local] Instance transactions_fits : SerdeFits (list SszBytes) := vec_fits.
#[local] Instance withdrawals_fits : SerdeFits (list AlloyWithdrawal) := vec_fits.
#[local] Instance payload_fits : SerdeFits ExecutionPayload := struct_fits _ _ _.

Lemma registration_response_fits : SerdeFits ValidatorRegistrationResponse.
Proof. apply struct_fits. Qed.

Lemma bid_trace_fits : SerdeFits BidTrace.
Proof. apply struct_fits. Qed.

Lemma signed_bid_fits `{EV : Evm} `{BJ : !BlobsSerde} `{BF : !SerdeFits SszBlobs} :
  @SerdeFits SignedBid (signed_bid_serde error_debug).
Proof. apply struct_fits. Qed.
End TextLaws.

(** ** Evaluation on concrete inputs *)

Import Demo.

#[export] Instance demo_alloy_fits : AlloyFits.
Proof. by split. Qed.

#[export] Instance demo_blobs_fit : SerdeFits (SszBlobs (EV := demo_evm)).
Proof. intros [l]. simpl. apply foldr_fits. induction l; by constructor. Qed.

(** a text with a mark before each value: strings as in JSON, no commas, numbers as
    strings of nine bytes *)
Module DemoText.

Definition quote : Ascii.ascii := "034"%char.
Definition backslash : Ascii.ascii := "092"%char.

Fixpoint print_string (s rest : string) : string :=
  match s with
  | EmptyString => String quote rest
  | String a s =>
      if decide (a = quote \/ a = backslash) then String backslash (String a (print_string s rest))
      else String a (print_string s rest)
  end.

Fixpoint read_string (s : string) : option (string * string) :=
  match s with
  | EmptyString => None
  | String a s =>
      if decide (a = quote) then Some (EmptyString, s)
      else if decide (a = backslash) then
        match s with
        | String b s => '(w, rest) ← read_string s; Some (String b w, rest)
        | EmptyString => None
        end
      else '(w, rest) ← read_string s; Some (String a w, rest)
  end.

Lemma read_print_string s rest : read_string (print_string s rest) = Some (s, rest).
Proof.
  induction s as [|a s IH]; [done|]. cbn [print_string]. case_decide as H.
  - cbn [read_string]. rewrite decide_False, decide_True by done. by rewrite IH.
  - cbn [read_string]. rewrite !decide_False by tauto. by rewrite IH.
Qed.

Lemma print_string_length s rest : (String.length rest < String.length (print_string s rest))%nat.
Proof. induction s as [|a s IH]; simpl; [lia|]. case_decide; simpl; lia. Qed.

Definition number_string (n : Z) : string := String.string_of_list_byte (be_bytes 9 (n + 2 ^ 63)).
Definition string_number (s : string) : Z := be_value (String.list_byte_of_string s) - 2 ^ 63.

Fixpoint print (j : Json) (rest : string) : string :=
  match j with
  | JNull => String "n" rest
  | JBool true => String "t" rest
  | JBool false => String "f" rest
  | JNumber n => String "#" (print_string (number_string n) rest)
  | JString s => String quote (print_string s rest)
  | JArray l => String "[" (foldr print (String "]" rest) l)
  | JObject kvs => String "{" (foldr (fun kv r => String ":" (print_string kv.1 (print kv.2 r))) (String "}" rest) kvs)
  end.

Fixpoint read (fuel : nat) (s : string) : option (Json * string) :=
  match fuel, s with
  | S fuel, String a s =>
      if decide (a = "n"%char) then Some (JNull, s)
      else if decide (a = "t"%char) then Some (JBool true, s)
      else if decide (a = "f"%char) then Some (JBool false, s)
      else if decide (a = "#"%char) then '(w, s) ← read_string s; Some (JNumber (string_number w), s)
      else if decide (a = quote) then '(w, s) ← read_string s; Some (JString w, s)
      else if decide (a = "["%char) then '(l, s) ← read_items fuel s; Some (JArray l, s)
      else if decide (a = "{"%char) then '(kvs, s) ← read_fields fuel s; Some (JObject kvs, s)
      else None
  | _, _ => None
  end
with read_items (fuel : nat) (s : string) : option (list Json * string) :=
  match fuel, s with
  | S fuel, String a rest =>
      if decide (a = "]"%char) then Some ([], rest)
      else '(j, s) ← read fuel s; '(l, s) ← read_items fuel s; Some (j :: l, s)
  | _, _ => None
  end
with read_fields (fuel : nat) (s : string) : option (list (string * Json) * string) :=
  match fuel, s with
  | S fuel, String a rest =>
      if decide (a = "}"%char) then Some ([], rest)
      else '(w, s) ← read_string rest; '(j, s) ← read fuel s; '(kvs, s) ← read_fields fuel s; Some ((w, j) :: kvs, s)
  | _, _ => None
  end.

Lemma number_roundtrip n : json_fits (JNumber n) -> string_number (number_string n) = n.
Proof.
  simpl. intros Hn. unfold string_number, number_string.
  rewrite String.list_byte_of_string_of_list_byte, be_value_of_bytes; simpl; lia.
Qed.

(** every value is marked *)
Lemma print_length : forall j rest, (String.length rest < String.length (print j rest))%nat.
Proof.
  fix IH 1. intros [|[]|n|s|l|kvs] rest; cbn [print String.length]; try lia.
  - pose proof (print_string_length (number_string n) rest). lia.
  - pose proof (print_string_length s rest). lia.
  - assert (String.length rest < String.length (foldr print (String "]" rest) l))%nat; [|lia].
    induction l as [|j l IHl]; cbn [foldr]; [simpl; lia|]. pose proof (IH j (foldr print (String "]" rest) l)). lia.
  - set (f := fun kv r => String ":" (print_string (fst kv) (print (snd kv) r))).
    assert (String.length rest < String.length (foldr f (String "}" rest) kvs))%nat; [|lia].
    induction kvs as [|[w j] kvs IHl]; cbn [foldr]; [simpl; lia|]. unfold f at 1. cbn [fst snd String.length].
    pose proof (IH j (foldr f (String "}" rest) kvs)). pose proof (print_string_length w (print j (foldr f (String "}" rest) kvs))).
    lia.
Qed.

Lemma print_head j rest : exists a s, print j rest = String a s /\ a <> "]"%char.
Proof. destruct j as [|[]| | | |]; by repeat eexists. Qed.

Definition print_field (kv : string * Json) (r : string) : string := String ":" (print_string kv.1 (print kv.2 r)).

Lemma print_fields rest kvs :
  print (JObject kvs) rest = String "{" (foldr print_field (String "}" rest) kvs).
Proof. done. Qed.

Lemma items_length l rest : (String.length rest < String.length (foldr print (String "]" rest) l))%nat.
Proof. induction l as [|j l IH]; cbn [foldr]; [simpl; lia|]. pose proof (print_length j (foldr print (String "]" rest) l)). lia. Qed.

Lemma fields_length kvs rest : (String.length rest < String.length (foldr print_field (String "}" rest) kvs))%nat.
Proof.
  induction kvs as [|[w j] kvs IH]; cbn [foldr]; [simpl; lia|]. set (r := foldr print_field _ kvs) in *.
  unfold print_field. cbn [fst snd String.length]. pose proof (print_length j r).
  pose proof (print_string_length w (print j r)). lia.
Qed.

Ltac decide_chars := repeat (rewrite decide_False by done); try rewrite decide_True by done.

(** enough fuel is as many steps as there are characters *)
Lemma read_print n :
  (forall j rest, json_fits j -> (String.length (print j rest) <= n + String.length rest)%nat ->
     read n (print j rest) = Some (j, rest)) /\
  (forall l rest, Forall json_fits l ->
     (String.length (foldr print (String "]" rest) l) <= n + String.length rest)%nat ->
     read_items n (foldr print (String "]" rest) l) = Some (l, rest)) /\
  (forall kvs rest, Forall (fun kv => json_fits kv.2) kvs ->
     (String.length (foldr print_field (String "}" rest) kvs) <= n + String.length rest)%nat ->
     read_fields n (foldr print_field (String "}" rest) kvs) = Some (kvs, rest)).
Proof.
  induction n as [|n (IHj & IHl & IHk)]; split_and!.
  - intros j rest _ Hn. pose proof (print_length j rest). lia.
  - intros l rest _ Hn. pose proof (items_length l rest). lia.
  - intros kvs rest _ Hn. pose proof (fields_length kvs rest). lia.
  - intros [|[]|k|s|l|kvs] rest Hj Hn.
    1-3: done.
    + cbn [print read]. decide_chars. rewrite read_print_string. cbn [mbind option_bind]. by rewrite number_roundtrip.
    + cbn [print read]. decide_chars. by rewrite read_print_string.
    + cbn [print read]. decide_chars. rewrite IHl; [done| |cbn [print String.length] in Hn; lia].
      simpl in Hj. clear Hn. induction l as [|j l IH]; [done|]. destruct Hj. constructor; [done|by apply IH].
    + rewrite print_fields in *. cbn [read]. decide_chars. rewrite IHk; [done| |cbn [String.length] in Hn; lia].
      simpl in Hj. clear Hn. induction kvs as [|kv l IH]; [done|]. destruct Hj. constructor; [done|by apply IH].
  - intros [|j l] rest Hl Hn; [done|]. apply Forall_cons in Hl as [Hj Hl]. cbn [foldr] in *.
    set (r := foldr print (String "]" rest) l) in *.
    destruct (print_head j r) as (a & s & E & Ha). pose proof (print_length j r).
    pose proof (items_length l rest) as Hr. fold r in Hr.
    cbn [read_items]. rewrite E, decide_False by done. rewrite <- E.
    rewrite IHj by (done || lia). cbn.
    specialize (IHl l rest Hl). fold r in IHl. by rewrite IHl by lia.
  - intros [|[w j] l] rest Hl Hn; [done|]. apply Forall_cons in Hl as [Hj Hl]. cbn [foldr print_field fst snd] in *.
    set (r := foldr print_field (String "}" rest) l) in *.
    pose proof (print_length j r). pose proof (print_string_length w (print j r)).
    pose proof (fields_length l rest) as Hr. cbn [String.length] in *. fold r in Hr.
    unfold print_field in *. cbn [fst snd read_fields String.length] in *. rewrite decide_False by done. rewrite read_print_string. cbn.
    rewrite IHj by (done || lia). cbn.
    specialize (IHk l rest Hl). fold r in IHk. by rewrite IHk by lia.
Qed.
End DemoText.

#[export] Instance demo_json_text : JsonText.
Proof.
  refine {| json_text j := DemoText.print j EmptyString;
            json_parse s := match DemoText.read (String.length s) s with Some (j, EmptyString) => Some j | _ => None end |}.
  intros j Hj. destruct (DemoText.read_print (String.length (DemoText.print j EmptyString))) as [H _].
  rewrite H; [done|done|lia].
Defined.
