(* ===== verification/IngressJson.v ===== *)
(** * The JSON the builder receives

    The derived [Deserialize] and [Serialize] of the consensus layer's events
    ([crates/consensus_layer/src/types.rs]) and of the requests of searchers
    ([crates/primitives/src/rpc.rs]), and the methods of the trait [BundlesApi] of
    [crates/rpc/src/lib.rs] as the server calls them by name. *)

From stdpp Require Import prelude list gmap strings pretty.
From S2P Require Import Prelude Numerals Types Bundle BundlePool Rpc Validator Chain Payload SimState DemoEvm State StateFacts Bid Clock Consensus Ssz Blst SszContainer BidSsz BidJson JsonText.

Open Scope Z_scope.

(** ** Objects with fields left out

    [skip_serializing_if] and [default]: a field may be left out when it is written, and
    has a value when it is not there. *)

Definition object_of (fields : list (string * option Json)) : list (string * Json) :=
  omap (fun kv => (fun v => (kv.1, v)) <$> kv.2) fields.

Definition skip_serde {A T} `{JsonFields T} (names : list string) (written : A -> list (option Json))
    (fields : A -> T) (of_fields : T -> A) : Serde A := {|
  to_json x := JObject (object_of (zip names (written x)));
  of_json := @of_json _ (struct_serde names fields of_fields);
  of_missing := None;
|}.

(** [u64] and [usize], as numbers *)
Record NumU64 := MkNumU64 { num_value : Z }.
Record NumUsize := MkNumUsize { usize_value : nat }.

#[export] Instance num_u64_serde : Serde NumU64 := {|
  to_json x := JNumber (num_value x);
  of_json j := match j with JNumber n => if bool_decide (is_u64 n) then Some (MkNumU64 n) else None | _ => None end;
  of_missing := None;
|}.

#[export] Instance num_usize_serde : Serde NumUsize := {|
  to_json x := JNumber (Z.of_nat (usize_value x));
  of_json j :=
    match j with
    | JNumber n => if bool_decide (is_u64 n) then Some (MkNumUsize (Z.to_nat n)) else None
    | _ => None
    end;
  of_missing := None;
|}.

(** [#[serde(default)]] on a list *)
Definition default_vec_serde {A} `{Serde A} : Serde (list A) := {|
  to_json := @to_json _ vec_serde;
  of_json := @of_json _ vec_serde;
  of_missing := Some [];
|}.

(** ** [types.rs] of the consensus layer *)

(** [#[serde(try_from = "String", into = "String")]] *)
#[export] Instance fork_serde : Serde ForkName := {|
  to_json f := JString (ForkName_to_string f);
  of_json j := match j with JString s => match ForkName_from_str s with Ok f => Some f | Err _ => None end | _ => None end;
  of_missing := None;
|}.

Section EventJson.
Context `{AS : AlloySerde}.

Definition lighthouse_withdrawal_names : list string := ["index"; "validator_index"; "address"; "amount"]%string.

Abbreviation LighthouseFields := (StdU64 * (StdU64 * (SszAddress * (StdU64 * unit))))%type.

Definition lighthouse_withdrawal_fields (w : LighthouseWithdrawal) : LighthouseFields :=
  (MkStdU64 (lw_index w), (MkStdU64 (lw_validator_index w), (MkAddress (lw_address w), (MkStdU64 (lw_amount w), tt)))).

Definition lighthouse_withdrawal_of_fields (t : LighthouseFields) : LighthouseWithdrawal :=
  let '(index, (validator_index, (address, (amount, _)))) := t in
  {| lw_index := std_value index; lw_validator_index := std_value validator_index;
     lw_address := address_word address; lw_amount := std_value amount |}.

Definition lighthouse_withdrawal_serde : Serde LighthouseWithdrawal :=
  struct_serde lighthouse_withdrawal_names lighthouse_withdrawal_fields lighthouse_withdrawal_of_fields.
#[local] Existing Instance lighthouse_withdrawal_serde.

Definition lighthouse_withdrawals_serde : Serde (list LighthouseWithdrawal) := vec_serde.
#[local] Existing Instance lighthouse_withdrawals_serde.

Definition sse_attributes_names : list string :=
  ["timestamp"; "prev_randao"; "suggested_fee_recipient"; "withdrawals"]%string.

Abbreviation SseAttributesFields := (StdU64 * (SszB256 * (SszAddress * (list LighthouseWithdrawal * unit))))%type.

Definition sse_attributes_fields (a : SsePayloadAttributes) : SseAttributesFields :=
  (MkStdU64 (ssa_timestamp a), (MkB256 (ssa_prev_randao a), (MkAddress (ssa_suggested_fee_recipient a),
  (ssa_withdrawals a, tt)))).

Definition sse_attributes_of_fields (t : SseAttributesFields) : SsePayloadAttributes :=
  let '(timestamp, (prev_randao, (suggested_fee_recipient, (withdrawals, _)))) := t in
  {| ssa_timestamp := std_value timestamp; ssa_prev_randao := b256_word prev_randao;
     ssa_suggested_fee_recipient := address_word suggested_fee_recipient; ssa_withdrawals := withdrawals |}.

Definition sse_attributes_serde : Serde SsePayloadAttributes :=
  struct_serde sse_attributes_names sse_attributes_fields sse_attributes_of_fields.
#[local] Existing Instance sse_attributes_serde.

Definition sse_extended_names : list string :=
  ["proposal_slot"; "proposer_index"; "parent_block_root"; "parent_block_number"; "parent_block_hash";
   "payload_attributes"]%string.

Abbreviation SseExtendedFields :=
  (StdU64 * (StdU64 * (SszB256 * (StdU64 * (SszB256 * (SsePayloadAttributes * unit))))))%type.

Definition sse_extended_fields (e : SseExtendedPayloadAttributes) : SseExtendedFields :=
  (MkStdU64 (sse_proposal_slot e), (MkStdU64 (sse_proposer_index e), (MkB256 (sse_parent_block_root e),
  (MkStdU64 (sse_parent_block_number e), (MkB256 (sse_parent_block_hash e), (sse_payload_attributes e, tt)))))).

Definition sse_extended_of_fields (t : SseExtendedFields) : SseExtendedPayloadAttributes :=
  let '(proposal_slot, (proposer_index, (parent_block_root, (parent_block_number, (parent_block_hash,
       (payload_attributes, _)))))) := t in
  {| sse_proposal_slot := std_value proposal_slot; sse_proposer_index := std_value proposer_index;
     sse_parent_block_root := b256_word parent_block_root;
     sse_parent_block_number := std_value parent_block_number;
     sse_parent_block_hash := b256_word parent_block_hash; sse_payload_attributes := payload_attributes |}.

Definition sse_extended_serde : Serde SseExtendedPayloadAttributes :=
  struct_serde sse_extended_names sse_extended_fields sse_extended_of_fields.
#[local] Existing Instance sse_extended_serde.

#[local] Instance version_serde : Serde (option ForkName) := option_serde.

Definition response_names : list string := ["version"; "data"]%string.

Abbreviation ResponseFields := (option ForkName * (SseExtendedPayloadAttributes * unit))%type.

Definition response_fields (r : ForkVersionedResponse) : ResponseFields := (fvr_version r, (fvr_data r, tt)).

Definition response_of_fields (t : ResponseFields) : ForkVersionedResponse :=
  let '(version, (data, _)) := t in {| fvr_version := version; fvr_data := data |}.

Definition response_serde : Serde ForkVersionedResponse :=
  skip_serde response_names (fun r => [to_json <$> fvr_version r; Some (to_json (fvr_data r))])
    response_fields response_of_fields.
End EventJson.

(** ** [clock.rs]: the devnet's genesis file *)

(** [u64_hex_or_decimal]: a string, in decimal or with the prefix [0x] *)
Record GenesisTimestamp := MkGenesisTimestamp { genesis_seconds : Z }.

Class GenesisSerde := {
  genesis_timestamp_serde : Serde GenesisTimestamp;
  genesis_of_decimal : forall x, is_u64 x -> of_json (JString (pretty x)) = Some (MkGenesisTimestamp x);
  genesis_timestamp_codec : SerdeCodec GenesisTimestamp (fun x => is_u64 (genesis_seconds x));
}.
#[export] Existing Instances genesis_timestamp_serde genesis_timestamp_codec.

Section Genesis.
Context `{GS : GenesisSerde} `{JT : JsonText}.

Record GenesisFileData := { gf_timestamp : Z }.

Definition genesis_serde : Serde GenesisFileData :=
  struct_serde (T := (GenesisTimestamp * unit)%type) ["timestamp"]%string
    (fun g => (MkGenesisTimestamp (gf_timestamp g), tt)) (fun t => {| gf_timestamp := genesis_seconds t.1 |}).
#[local] Existing Instance genesis_serde.

(** [devnet_genesis_ts]: the text of the file, if there is one *)
Definition devnet_genesis_ts (file : option string) : run NetworkClockErr Z :=
  match file with
  | None => Panicked
  | Some text =>
      match of_text (A := GenesisFileData) text with
      | Some genesis => Done (gf_timestamp genesis)
      | None => Fail DevnetGenesis
      end
  end.

(** [try_from_chain], which reads the file for the devnet only *)
Definition clock_of_chain (chain : Z) (file : option string) : run NetworkClockErr NetworkClock :=
  if chain =? 32382 then
    ts ← devnet_genesis_ts file;
    lift_err id (try_from_chain chain (Ok ts))
  else lift_err id (try_from_chain chain (Err DevnetGenesis)).
End Genesis.

(** ** [rpc.rs] *)

(** [reth]'s [U64] and the [uuid] crate's [Uuid], written as strings *)
Record JsonUuid := MkUuid { uuid_word : Uuid }.

Class RpcSerde `{AS : AlloySerde} := {
  u64_hex_serde : Serde SszU64;
  u64_hex_codec : SerdeCodec SszU64 u64_wf;
  uuid_wf : Uuid -> Prop;
  uuid_serde : Serde JsonUuid;
  uuid_codec : SerdeCodec JsonUuid (fun u => uuid_wf (uuid_word u));
  uuid_not_null : forall u, to_json u <> JNull;
  address_not_null : forall a : SszAddress, to_json a <> JNull;
}.
#[export] Existing Instances u64_hex_serde u64_hex_codec uuid_serde uuid_codec.

Section RequestJson.
Context `{RS : RpcSerde}.

#[local] Instance txs_serde : Serde (list SszBytes) := vec_serde.
#[local] Instance reverting_serde : Serde (list SszB256) := default_vec_serde.
#[local] Instance option_u64_serde : Serde (option NumU64) := option_serde.
#[local] Instance option_usize_serde : Serde (option NumUsize) := option_serde.
#[local] Instance option_uuid_serde : Serde (option JsonUuid) := option_serde.
#[local] Instance option_address_serde : Serde (option SszAddress) := option_serde.

(** [rename_all = "camelCase"] *)
Definition bundle_names : list string :=
  ["txs"; "blockNumber"; "minTimestamp"; "maxTimestamp"; "revertingTxHashes"; "replacementUuid";
   "refundPercent"; "refundIndex"; "refundRecipient"]%string.

Abbreviation BundleFields :=
  (list SszBytes * (SszU64 * (option NumU64 * (option NumU64 * (list SszB256 * (option JsonUuid *
  (option NumU64 * (option NumUsize * (option SszAddress * unit)))))))))%type.

Definition bundle_fields (b : EthSendBundle) : BundleFields :=
  (MkBytes <$> sb_txs b, (MkU64 (sb_block_number b), (MkNumU64 <$> sb_min_timestamp b,
  (MkNumU64 <$> sb_max_timestamp b, (MkB256 <$> sb_reverting_tx_hashes b, (MkUuid <$> sb_replacement_uuid b,
  (MkNumU64 <$> sb_refund_percent b, (MkNumUsize <$> sb_refund_index b,
  (MkAddress <$> sb_refund_recipient b, tt))))))))).

Definition bundle_of_fields (t : BundleFields) : EthSendBundle :=
  let '(txs, (block_number, (min_timestamp, (max_timestamp, (reverting_tx_hashes, (replacement_uuid,
       (refund_percent, (refund_index, (refund_recipient, _))))))))) := t in
  {| sb_txs := bytes_data <$> txs;
     sb_block_number := u64_value block_number;
     sb_min_timestamp := num_value <$> min_timestamp;
     sb_max_timestamp := num_value <$> max_timestamp;
     sb_reverting_tx_hashes := b256_word <$> reverting_tx_hashes;
     sb_replacement_uuid := uuid_word <$> replacement_uuid;
     sb_refund_percent := num_value <$> refund_percent;
     sb_refund_index := usize_value <$> refund_index;
     sb_refund_recipient := address_word <$> refund_recipient |}.

(** the fields as they are written: no options that are none, no empty list of hashes *)
Definition bundle_written (b : EthSendBundle) : list (option Json) :=
  [Some (to_json (MkBytes <$> sb_txs b));
   Some (to_json (MkU64 (sb_block_number b)));
   (fun x => to_json (MkNumU64 x)) <$> sb_min_timestamp b;
   (fun x => to_json (MkNumU64 x)) <$> sb_max_timestamp b;
   match sb_reverting_tx_hashes b with [] => None | l => Some (to_json (MkB256 <$> l)) end;
   (fun x => to_json (MkUuid x)) <$> sb_replacement_uuid b;
   (fun x => to_json (MkNumU64 x)) <$> sb_refund_percent b;
   (fun x => to_json (MkNumUsize x)) <$> sb_refund_index b;
   (fun x => to_json (MkAddress x)) <$> sb_refund_recipient b].

Definition bundle_serde : Serde EthSendBundle :=
  skip_serde bundle_names bundle_written bundle_fields bundle_of_fields.
End RequestJson.

(** ** [BundlesApi], by the names of its methods *)

(** The server [jsonrpsee] generates: how a method's one parameter is found in the
    parameters of a call, by position or by its name. *)
Class RpcParams := {
  rpc_param : string -> Json -> option Json;
  rpc_param_first : forall name j l, rpc_param name (JArray (j :: l)) = Some j;
}.

Inductive RpcReply :=
| ReplyBundleHash (h : B256)
| ReplyHash (h : B256)
| ReplyUnit
| ReplyError (e : EthApiError)
| ReplyInvalidParams
| ReplyMethodNotFound.

Section RpcServer.
Context `{RS : RpcSerde} `{RP : RpcParams} `{ET : EthTx} {TxPool : Type}.
Context (add_private_transaction : TxPool -> PooledTx -> TxPool * result EthApiError B256).

#[local] Instance request_serde : Serde EthSendBundle := bundle_serde.

Definition with_param {A} `{Serde A} (name : string) (params : Json) (st : BundlePool * TxPool)
    (k : A -> (BundlePool * TxPool) * RpcReply) : (BundlePool * TxPool) * RpcReply :=
  match rpc_param name params ≫= of_json with
  | Some x => k x
  | None => (st, ReplyInvalidParams)
  end.

Definition reply_of {A} (ok : A -> RpcReply) (r : result EthApiError A) : RpcReply :=
  match r with Ok x => ok x | Err e => ReplyError e end.

(** [impl BundlesApiServer for BundlesApiExt]: the permit each method waits for is dropped
    unread *)
Definition rpc_call (locked : bool) (method : string) (params : Json) (st : BundlePool * TxPool)
  : (BundlePool * TxPool) * RpcReply :=
  if decide (method = "eth_sendBundle"%string) then
    with_param "bundle" params st (fun bundle =>
      let '(bundles_pool, r) := send_bundle locked bundle st.1 in
      ((bundles_pool, st.2), reply_of ReplyBundleHash r))
  else if decide (method = "eth_cancelBundle"%string) then
    with_param "hash" params st (fun hash =>
      let '(bundles_pool, r) := cancel_bundle locked (b256_word hash) st.1 in
      ((bundles_pool, st.2), reply_of (fun _ => ReplyUnit) r))
  else if decide (method = "eth_sendPrivateTransaction"%string) then
    with_param "tx" params st (fun tx =>
      let '(pool, r) := send_private_tx add_private_transaction (bytes_data tx) st.2 in
      ((st.1, pool), reply_of ReplyHash r))
  else (st, ReplyMethodNotFound).
End RpcServer.

(** ** Laws *)

Lemma num_u64_codec : SerdeCodec NumU64 (fun x => is_u64 (num_value x)).
Proof.
  split; [| |done]; simpl.
  - intros [n] Hn. simpl in *. by rewrite bool_decide_eq_true_2.
  - intros [| |n| | |] [m]; try done. case_bool_decide; [|done]. by intros [= <-].
Qed.
#[export] Existing Instance num_u64_codec.

Lemma num_usize_codec : SerdeCodec NumUsize (fun x => is_u64 (Z.of_nat (usize_value x))).
Proof.
  split; [| |done]; simpl.
  - intros [n] Hn. simpl in *. by rewrite bool_decide_eq_true_2, Nat2Z.id.
  - intros [| |n| | |] [m]; try done. case_bool_decide as H; [|done]. intros [= <-]. cbn [usize_value]. rewrite Z2Nat.id; [done|apply H].
Qed.
#[export] Existing Instance num_usize_codec.

Lemma default_vec_codec {A} `{HC : SerdeCodec A wf} : @SerdeCodec (list A) default_vec_serde (Forall wf).
Proof.
  pose proof (vec_serde_codec (H0 := HC)) as [H1 H2 _]. split; [exact H1|exact H2|]. by intros l [= <-].
Qed.

#[export] Instance fork_codec : SerdeCodec ForkName (fun _ => True).
Proof. split; [|done|done]. by intros []. Qed.

(** an object with some of its fields left out, among others and in any order *)
Lemma object_keys (names : list string) (values : list (option Json)) :
  length names = length values -> (object_of (zip names values)).*1 ⊆+ names.
Proof.
  revert values. induction names as [|name names IH]; intros [|v values] Hl; try done.
  unfold object_of in *. cbn [zip omap list_omap fst snd]. destruct v as [v|]; simpl.
  - apply submseteq_skip. by apply IH; injection Hl.
  - apply submseteq_cons. by apply IH; injection Hl.
Qed.

Lemma json_field_none kvs name : name ∉ kvs.*1 -> json_field kvs name = Some None.
Proof. intros Hn. unfold json_field. by rewrite filter_no_key. Qed.

Lemma json_field_none_perm kvs kvs' name :
  kvs ≡ₚ kvs' -> json_field kvs name = Some None -> json_field kvs' name = Some None.
Proof.
  intros Hp. unfold json_field.
  assert (filter (fun kv => kv.1 = name) kvs ≡ₚ filter (fun kv => kv.1 = name) kvs') as Hf by by rewrite Hp.
  destruct (filter _ kvs) as [|kv [|]]; try done. apply Permutation_nil_l in Hf. by rewrite <- Hf.
Qed.

Lemma object_fields_found names values extra kvs :
  NoDup names -> length names = length values -> (forall name, name ∈ names -> name ∉ extra.*1) ->
  object_of (zip names values) ++ extra ≡ₚ kvs -> mapM (json_field kvs) names = Some values.
Proof.
  intros Hnd Hl He Hp. apply mapM_Some, Forall2_same_length_lookup. split; [done|].
  intros i name ov Hi Hv. assert (Hname : name ∉ extra.*1) by (apply He; by eapply list_elem_of_lookup_2).
  assert (Hz : (name, ov) ∈ zip names values).
  { apply list_elem_of_lookup. exists i. apply lookup_zip_with_Some. by exists name, ov. }
  destruct ov as [v|].
  - eapply json_field_perm; [exact Hp|]. rewrite json_field_app by done. apply json_field_found.
    + destruct (submseteq_Permutation _ _ (object_keys names values Hl)) as [rest Hrest].
      rewrite Hrest in Hnd. by apply NoDup_app in Hnd as [? _].
    + unfold object_of. apply list_elem_of_omap. by exists (name, Some v).
  - eapply json_field_none_perm; [exact Hp|]. rewrite json_field_app by done. apply json_field_none.
    intros ([n v] & -> & ([n' [v'|]] & Hin & [= <- <-])%list_elem_of_omap)%list_elem_of_fmap; simpl in *.
    apply list_elem_of_lookup in Hin as [k (n1 & o1 & [= <- <-] & Hk & Hk')%lookup_zip_with_Some].
    assert (i = k) as <- by (by eapply NoDup_lookup). congruence.
Qed.

Lemma option_codec_some {A} `{HC : SerdeCodec A wf} :
  (forall x, to_json x <> JNull) -> @SerdeCodec (option A) option_serde (fun x => forall y, x = Some y -> wf y).
Proof. intros Hn. by apply option_serde_codec. Qed.

(** a field that is an option, written or left out, is read back *)
Lemma option_field_read {A B} `{HC : SerdeCodec B wf} (mk : A -> B) (o : option A) :
  (forall x, to_json (mk x) <> JNull) -> (forall x, o = Some x -> wf (mk x)) ->
  match (fun x => to_json (mk x)) <$> o with
  | Some j => @of_json _ option_serde j
  | None => @of_missing _ option_serde
  end = Some (mk <$> o).
Proof.
  intros Hn Hw. destruct o as [x|]; [|done]. simpl. pose proof (json_roundtrip (mk x) (Hw x eq_refl)) as Hr.
  specialize (Hn x). destruct (to_json (mk x)); try done; by rewrite Hr.
Qed.

Lemma fmap_wrap {A B} (mk : A -> B) (un : B -> A) (l : list A) : (forall x, un (mk x) = x) -> un <$> (mk <$> l) = l.
Proof. intros H. induction l as [|x l IH]; [done|]. csimpl. by rewrite H, IH. Qed.

Lemma option_wrap {A B} (mk : A -> B) (un : B -> A) (o : option A) : (forall x, un (mk x) = x) -> un <$> (mk <$> o) = o.
Proof. intros H. destruct o; simpl; [by rewrite H|done]. Qed.

Section EventLaws.
Context `{AS : AlloySerde}.

#[local] Existing Instances lighthouse_withdrawal_serde lighthouse_withdrawals_serde sse_attributes_serde
  sse_extended_serde version_serde response_serde.

Definition lighthouse_withdrawal_in_range (w : LighthouseWithdrawal) : Prop :=
  is_u64 (lw_index w) /\ is_u64 (lw_validator_index w) /\ 0 <= lw_address w < 2 ^ 160 /\ is_u64 (lw_amount w).

Definition attributes_in_range (a : SsePayloadAttributes) : Prop :=
  is_u64 (ssa_timestamp a) /\ is_u256 (ssa_prev_randao a) /\ 0 <= ssa_suggested_fee_recipient a < 2 ^ 160 /\
  Forall lighthouse_withdrawal_in_range (ssa_withdrawals a).

Definition extended_in_range (e : SseExtendedPayloadAttributes) : Prop :=
  is_u64 (sse_proposal_slot e) /\ is_u64 (sse_proposer_index e) /\ is_u256 (sse_parent_block_root e) /\
  is_u64 (sse_parent_block_number e) /\ is_u256 (sse_parent_block_hash e) /\
  attributes_in_range (sse_payload_attributes e).

Definition event_in_range (r : ForkVersionedResponse) : Prop := extended_in_range (fvr_data r).

Lemma lighthouse_withdrawal_codec : SerdeCodec LighthouseWithdrawal lighthouse_withdrawal_in_range.
Proof.
  eapply serde_iff; [|apply (struct_serde_codec lighthouse_withdrawal_names lighthouse_withdrawal_fields
    lighthouse_withdrawal_of_fields); [distinct|done|by intros []|fields]].
  intros w. unfold lighthouse_withdrawal_in_range, address_wf. simpl. naive_solver.
Qed.
#[local] Existing Instance lighthouse_withdrawal_codec.

#[local] Instance lighthouse_withdrawals_codec :
  SerdeCodec (list LighthouseWithdrawal) (Forall lighthouse_withdrawal_in_range) := vec_serde_codec.

Lemma attributes_codec : SerdeCodec SsePayloadAttributes attributes_in_range.
Proof.
  eapply serde_iff; [|apply (struct_serde_codec sse_attributes_names sse_attributes_fields
    sse_attributes_of_fields); [distinct|done|by intros []|fields]].
  intros a. unfold attributes_in_range, address_wf, b256_wf. simpl. naive_solver.
Qed.
#[local] Existing Instance attributes_codec.

Lemma extended_codec : SerdeCodec SseExtendedPayloadAttributes extended_in_range.
Proof.
  eapply serde_iff; [|apply (struct_serde_codec sse_extended_names sse_extended_fields
    sse_extended_of_fields); [distinct|done|by intros []|fields]].
  intros e. unfold extended_in_range, b256_wf. simpl. naive_solver.
Qed.
#[local] Existing Instance extended_codec.

Lemma version_codec : SerdeCodec (option ForkName) (fun _ => True).
Proof. eapply serde_iff; [|apply (option_codec_some (wf := fun _ : ForkName => True)); done]. naive_solver. Qed.
#[local] Existing Instance version_codec.

(** what reads as an event is in range, whether or not it names its fork *)
Lemma event_typed (j : Json) (e : ForkVersionedResponse) : of_json j = Some e -> event_in_range e.
Proof.
  assert (HC : @SerdeCodec _ (struct_serde response_names response_fields response_of_fields)
    (fun r => event_in_range r)).
  { eapply serde_iff; [|apply (struct_serde_codec response_names response_fields response_of_fields);
      [distinct|done|by intros []|fields]].
    intros r. unfold event_in_range. simpl. naive_solver. }
  apply HC.
Qed.

(** the events of the consensus layer: an event in range is read from its fields
    ([version] may be left out) in any order and with others among them; whatever reads
    as an event is in range; and an event of a fork the builder has no name for is
    not read at all. *)
Theorem event_json_read (e : ForkVersionedResponse) (extra kvs : list (string * Json)) (fork : string)
    (data : Json) :
  event_in_range e -> (forall name, name ∈ response_names -> name ∉ extra.*1) ->
  object_of (zip response_names [to_json <$> fvr_version e; Some (to_json (fvr_data e))]) ++ extra ≡ₚ kvs ->
  of_json (JObject kvs) = Some e /\ of_json (to_json e) = Some e /\
  (forall j e', of_json j = Some e' -> event_in_range e') /\
  (to_lowercase fork ∉ ["phase0"; "base"; "altair"; "bellatrix"; "merge"; "capella"; "deneb"]%string ->
   of_json (A := ForkVersionedResponse) (JObject [("version"%string, JString fork); ("data"%string, data)]) = None).
Proof.
  intros He Hx Hp.
  assert (Hread : forall kvs extra, (forall name, name ∈ response_names -> name ∉ extra.*1) ->
    object_of (zip response_names [to_json <$> fvr_version e; Some (to_json (fvr_data e))]) ++ extra ≡ₚ kvs ->
    of_json (JObject kvs) = Some e).
  { intros kvs' extra' Hx' Hp'. cbn [of_json response_serde skip_serde struct_serde].
    assert (Hnd : NoDup response_names) by distinct.
    erewrite object_fields_found; [|exact Hnd| |exact Hx'|exact Hp']; [|done].
    destruct e as [version data']. cbn [fvr_version fvr_data mbind option_bind json_read more_json_fields].
    assert (match to_json <$> version with Some j => of_json j | None => of_missing end = Some version) as ->
      by by destruct version as [[]|].
    cbn [mbind option_bind]. by rewrite (json_roundtrip data' He). }
  split_and!.
  - by apply (Hread kvs extra).
  - apply (Hread _ []); [by intros ? _ ?%elem_of_nil|by rewrite app_nil_r].
  - apply event_typed.
  - intros Hf.
    assert (of_json (A := option ForkName) (JString fork) = None) as Hv.
    { change (Some <$> match ForkName_from_str fork with Ok f => Some f | Err _ => None end = None).
      unfold ForkName_from_str. generalize dependent (to_lowercase fork). intros l Hf.
      rewrite !not_elem_of_cons in Hf. by rewrite !decide_False by tauto. }
    cbn [of_json response_serde skip_serde struct_serde].
    change (mapM _ response_names) with (Some [Some (JString fork); Some data]).
    cbn [mbind option_bind json_read more_json_fields]. by rewrite Hv.
Qed.
End EventLaws.

(** the devnet's clock starts at the time of its genesis file, whatever else that holds; a
    file that is missing is a panic and one that does not read an error, and both are of
    no interest to the other chains *)
Lemma clock_of_chain_correct `{GS : GenesisSerde} `{JT : JsonText} (ts : Z) (extra kvs : list (string * Json)) (chain : Z)
    (file : option string) :
  is_u64 ts -> ("timestamp"%string ∉ extra.*1) -> ("timestamp"%string, JString (pretty ts)) :: extra ≡ₚ kvs ->
  json_fits (JObject kvs) ->
  clock_of_chain 32382 (Some (json_text (JObject kvs))) = Done (NetworkClock_new ts SECONDS_PER_SLOT) /\
  clock_of_chain 32382 None = Panicked /\
  (chain <> 32382 -> clock_of_chain chain file = lift_err id (try_from_chain chain (Ok 0))) /\
  (forall text clock, clock_of_chain 32382 (Some text) = Done clock ->
     exists ts, is_u64 ts /\ clock = NetworkClock_new ts SECONDS_PER_SLOT).
Proof.
  intros Hts He Hp Hf. split_and!.
  - unfold clock_of_chain. change (32382 =? 32382) with true. unfold devnet_genesis_ts, of_text.
    rewrite json_parse_text by done. cbn [mbind option_bind of_json genesis_serde struct_serde].
    rewrite (json_fields_found ["timestamp"%string] [JString (pretty ts)] extra kvs); [|distinct|done| |exact Hp].
    + cbn [mbind option_bind fmap list_fmap json_read more_json_fields]. by rewrite genesis_of_decimal.
    + by intros name ->%list_elem_of_singleton.
  - done.
  - intros Hc. unfold clock_of_chain. destruct (Z.eqb_spec chain 32382) as [->|_]; [done|].
    unfold try_from_chain. by rewrite (proj2 (Z.eqb_neq chain 32382) Hc).
  - intros text clock. unfold clock_of_chain. change (32382 =? 32382) with true. unfold devnet_genesis_ts.
    destruct (of_text text) as [g|] eqn:E; [|done]. intros [= <-]. exists (gf_timestamp g). split; [|done].
    unfold of_text in E. apply bind_Some in E as (j & _ & E).
    assert (@SerdeCodec GenesisFileData genesis_serde (fun g => is_u64 (gf_timestamp g))) as HC.
    { eapply serde_iff; [|apply struct_serde_codec; [distinct|done|by intros []|by intros [[] []]]].
      intros x. simpl. tauto. }
    by eapply HC.
Qed.

Section RequestLaws.
Context `{RS : RpcSerde}.

#[local] Existing Instances txs_serde reverting_serde option_u64_serde option_usize_serde option_uuid_serde
  option_address_serde bundle_serde.

(** every field of a request holds a value of its type *)
Definition request_in_range (b : EthSendBundle) : Prop :=
  is_u64 (sb_block_number b) /\
  (forall n, sb_min_timestamp b = Some n -> is_u64 n) /\ (forall n, sb_max_timestamp b = Some n -> is_u64 n) /\
  Forall is_u256 (sb_reverting_tx_hashes b) /\
  (forall u, sb_replacement_uuid b = Some u -> uuid_wf u) /\
  (forall n, sb_refund_percent b = Some n -> is_u64 n) /\
  (forall i, sb_refund_index b = Some i -> is_u64 (Z.of_nat i)) /\
  (forall a, sb_refund_recipient b = Some a -> 0 <= a < 2 ^ 160).

#[local] Instance txs_codec : SerdeCodec (list SszBytes) (fun _ => True).
Proof. eapply serde_iff; [|apply (vec_serde_codec (wf := bytes_wf))]. intros l. split; [done|]. intros _. by apply Forall_true. Qed.
#[local] Instance reverting_codec : SerdeCodec (list SszB256) (Forall b256_wf) := default_vec_codec.

Definition wraps {A B} (un : B -> A) (P : A -> Prop) (o : option B) : Prop := forall y, o = Some y -> P (un y).

#[local] Instance option_u64_codec : SerdeCodec (option NumU64) (wraps num_value is_u64).
Proof. by apply (option_codec_some (wf := fun x => is_u64 (num_value x))). Qed.
#[local] Instance option_usize_codec : SerdeCodec (option NumUsize) (wraps usize_value (fun n => is_u64 (Z.of_nat n))).
Proof. by apply (option_codec_some (wf := fun x => is_u64 (Z.of_nat (usize_value x)))). Qed.
#[local] Instance option_uuid_codec : SerdeCodec (option JsonUuid) (wraps uuid_word uuid_wf).
Proof. apply (option_codec_some (wf := fun x => uuid_wf (uuid_word x))), uuid_not_null. Qed.
#[local] Instance option_address_codec :
  SerdeCodec (option SszAddress) (wraps address_word (fun a => 0 <= a < 2 ^ 160)).
Proof. apply (option_codec_some (wf := address_wf)), address_not_null. Qed.

Lemma bundle_of_fields_of (b : EthSendBundle) : bundle_of_fields (bundle_fields b) = b.
Proof.
  destruct b as [txs bn mn mx rv u p i r]. unfold bundle_of_fields, bundle_fields. cbn.
  by rewrite (fmap_wrap MkBytes), (fmap_wrap MkB256), !(option_wrap MkNumU64), (option_wrap MkUuid),
    (option_wrap MkNumUsize), (option_wrap MkAddress).
Qed.

(** an object with the fields of a request, the optional ones written or left out *)
Lemma bundle_reads (b : EthSendBundle) extra kvs :
  request_in_range b -> (forall name, name ∈ bundle_names -> name ∉ extra.*1) ->
  object_of (zip bundle_names (bundle_written b)) ++ extra ≡ₚ kvs -> of_json (JObject kvs) = Some b.
Proof.
  intros (Hbn & Hmn & Hmx & Hrv & Hu & Hp & Hi & Hr) Hx Hperm.
  cbn [of_json bundle_serde skip_serde struct_serde].
  assert (Hnd : NoDup bundle_names) by distinct.
  erewrite object_fields_found; [|exact Hnd| |exact Hx|exact Hperm]; [|done].
  cbn [mbind option_bind]. unfold bundle_written. cbn [json_read more_json_fields].
  rewrite (json_roundtrip (MkBytes <$> sb_txs b) I). cbn [mbind option_bind].
  rewrite (json_roundtrip (MkU64 (sb_block_number b)) Hbn). cbn [mbind option_bind].
  unfold option_u64_serde, option_usize_serde, option_uuid_serde, option_address_serde.
  rewrite (option_field_read MkNumU64 (sb_min_timestamp b)) by done. cbn [mbind option_bind].
  rewrite (option_field_read MkNumU64 (sb_max_timestamp b)) by done. cbn [mbind option_bind].
  assert (match match sb_reverting_tx_hashes b with [] => None | l => Some (to_json (MkB256 <$> l)) end with
          | Some j => of_json j | None => of_missing end = Some (MkB256 <$> sb_reverting_tx_hashes b)) as ->.
  { destruct (sb_reverting_tx_hashes b) as [|h l] eqn:E; [done|]. apply json_roundtrip.
    rewrite <- E. apply Forall_fmap. rewrite E. exact Hrv. }
  cbn [mbind option_bind].
  rewrite (option_field_read MkUuid (sb_replacement_uuid b)) by (intros x; first [apply uuid_not_null|by apply Hu]).
  cbn [mbind option_bind].
  rewrite (option_field_read MkNumU64 (sb_refund_percent b)) by done. cbn [mbind option_bind].
  rewrite (option_field_read MkNumUsize (sb_refund_index b)) by done. cbn [mbind option_bind].
  rewrite (option_field_read MkAddress (sb_refund_recipient b)) by (intros x; first [apply address_not_null|by apply Hr]).
  exact (f_equal Some (bundle_of_fields_of b)).
Qed.
End RequestLaws.

Section Served.
Context `{RS : RpcSerde} `{RP : RpcParams} `{ET : EthTx} {TxPool : Type}.
Context (add_private_transaction : TxPool -> PooledTx -> TxPool * result EthApiError B256).

#[local] Existing Instance bundle_serde.

Abbreviation call := (rpc_call add_private_transaction).

(** the effect of a request for a bundle *)
Lemma rpc_send_bundle (locked : bool) (b : EthSendBundle) (extra kvs : list (string * Json)) (st : BundlePool * TxPool) :
  request_in_range b -> (forall name, name ∈ bundle_names -> name ∉ extra.*1) ->
  object_of (zip bundle_names (bundle_written b)) ++ extra ≡ₚ kvs ->
  call locked "eth_sendBundle" (JArray [JObject kvs]) st =
  let '(bundles_pool, r) := send_bundle locked b st.1 in ((bundles_pool, st.2), reply_of ReplyBundleHash r).
Proof.
  intros Hb Hx Hp. unfold rpc_call. rewrite decide_True by done. unfold with_param. rewrite rpc_param_first.
  cbn [mbind option_bind]. unfold request_serde. by rewrite (bundle_reads b extra kvs Hb Hx Hp).
Qed.

(** whatever is posted, a call changes the bundle pool as no request or as one
    of [Rpc.rpc_request] does *)
Lemma rpc_call_pool (locked : bool) (method : string) (params : Json) (st : BundlePool * TxPool) :
  (call locked method params st).1.1 = st.1 \/
  exists req, (call locked method params st).1.1 = rpc_step locked st.1 req.
Proof.
  unfold rpc_call, with_param.
  repeat case_decide; try (by left).
  - destruct (rpc_param _ _ ≫= _) as [b|]; [right; exists (SendBundle b)|by left].
    simpl. by destruct (send_bundle locked b st.1).
  - destruct (rpc_param _ _ ≫= _) as [h|]; [right; exists (CancelBundle (b256_word h))|by left].
    simpl. by destruct (cancel_bundle locked (b256_word h) st.1).
  - destruct (rpc_param _ _ ≫= _) as [tx|]; [left|by left].
    by destruct (send_private_tx add_private_transaction (bytes_data tx) st.2).
Qed.

(** C27: a call of [eth_sendBundle] whose parameter has the fields of a request, in any order, with
    others among them and the optional ones left out or not, is answered with a hash
    exactly when the bundle has transactions and a block number, each transaction
    decodes and recovers, and the pool's lock is acquired; the hash is the one of the
    transactions and the pool has the bundle; a call that fails leaves the pool as it
    was, no call touches the transaction pool, and a call of no method, or whose
    parameter does not read, does nothing. *)
Theorem rpc_send_bundle_served (locked : bool) (b : EthSendBundle) (extra kvs : list (string * Json))
    (method : string) (params : Json) (st : BundlePool * TxPool) :
  request_in_range b -> (forall name, name ∈ bundle_names -> name ∉ extra.*1) ->
  object_of (zip bundle_names (bundle_written b)) ++ extra ≡ₚ kvs ->
  (let '(st', reply) := call locked "eth_sendBundle" (JArray [JObject kvs]) st in
   ((exists h, reply = ReplyBundleHash h) <->
      locked = true /\ sb_txs b <> [] /\ sb_block_number b <> 0 /\
      exists ps, Forall2 (fun raw p => raw <> [] /\ exists t, pooled_decode_enveloped raw = Some t /\
                            pooled_try_into_ecrecovered t = Some p) (sb_txs b) ps) /\
   (forall h, reply = ReplyBundleHash h ->
      exists ps, recover_transactions (sb_txs b) (sb_block_number b) = Ok ps /\ h = create_hash ps /\
        inner st'.1 = fst (inner_add_bundle (inner st.1) (Bundle_from (b, h)))) /\
   ((forall h, reply <> ReplyBundleHash h) -> inner st'.1 = inner st.1) /\ st'.2 = st.2) /\
  (method ∉ ["eth_sendBundle"; "eth_cancelBundle"; "eth_sendPrivateTransaction"]%string ->
   call locked method params st = (st, ReplyMethodNotFound)) /\
  (rpc_param "bundle" params ≫= of_json (A := EthSendBundle) = None ->
   call locked "eth_sendBundle" params st = (st, ReplyInvalidParams)).
Proof.
  intros Hb Hx Hp. split_and!.
  - rewrite (rpc_send_bundle locked b extra kvs st Hb Hx Hp).
    pose proof (send_bundle_validates locked b st.1) as H.
    destruct (send_bundle locked b st.1) as [pool' r]. destruct H as (H1 & H2 & H3).
    destruct r as [h|e]; cbn [reply_of fst snd] in *; split_and!.
    + rewrite <- H1. naive_solver.
    + intros h' [= <-]. by apply H3.
    + intros Hn. by destruct (Hn h).
    + done.
    + rewrite <- H1. naive_solver.
    + done.
    + intros _. by eapply H2.
    + done.
  - rewrite !not_elem_of_cons. intros (H1 & H2 & H3 & _). unfold rpc_call. by rewrite !decide_False by done.
  - intros Hn. unfold rpc_call. rewrite decide_True by done. unfold with_param, request_serde. by rewrite Hn.
Qed.
End Served.

(** ** Evaluation on concrete inputs *)

Import Demo.

#[export] Instance demo_rpc_serde : RpcSerde.
Proof.
  refine (Build_RpcSerde _ (demo_word_serde 8 u64_value MkU64) _ (fun u => 0 <= u < 256 ^ 16)
    (demo_word_serde 16 uuid_word MkUuid) _ _ _).
  - by apply demo_word_codec; intros [].
  - by apply (demo_word_codec 16); intros [].
  - discriminate.
  - discriminate.
Defined.

#[export] Instance demo_rpc_params : RpcParams.
Proof. by refine {| rpc_param _ params := match params with JArray (j :: _) => Some j | _ => None end |}. Defined.

(** the transaction pool of the demonstration refuses everything *)
Definition demo_refuses (pool : unit) (tx : PooledTx) : unit * result EthApiError B256 := (pool, Err InternalEthError).

(** a request with another field, its fields the other way round *)
Definition demo_request_fields : list (string * Json) :=
  rev (object_of (zip bundle_names (bundle_written (sample_request [3; 4] 10))) ++ [("signature"%string, JNull)]).

Lemma sample_request_in_range : request_in_range (sample_request [3; 4] 10).
Proof. split_and!; try done. by intros n [= <-]. Qed.

Lemma rpc_send_bundle_served_witness :
  exists h, (rpc_call demo_refuses true "eth_sendBundle" (JArray [JObject demo_request_fields]) (BundlePool_new, tt)).2
    = ReplyBundleHash h.
Proof.
  destruct (rpc_send_bundle_served demo_refuses true (sample_request [3; 4] 10) [("signature"%string, JNull)]
    demo_request_fields EmptyString JNull (BundlePool_new, tt) sample_request_in_range) as [H _].
  - intros name Hn. apply (bool_decide_eq_true_1 (name ∉ ["signature"%string])). revert name Hn.
    apply Forall_forall. by repeat constructor.
  - apply Permutation_rev.
  - destruct (rpc_call _ _ _ _ _) as [st' reply]. destruct H as [H _]. apply H.
    split; [done|]. split; [done|]. split; [done|].
    exists [3; 4]. by repeat (constructor; [split; [done|by eexists]|]).
Defined.

Lemma event_json_read_witness :
  @of_json _ response_serde (JObject [("version"%string, JString "electra"); ("data"%string, JNull)]) = None /\
  @of_json _ response_serde (@to_json _ response_serde demo_event) = Some demo_event.
Proof.
  destruct (event_json_read demo_event [] (object_of (zip response_names
      [to_json <$> fvr_version demo_event; Some (@to_json _ sse_extended_serde (fvr_data demo_event))])) "electra" JNull)
    as (_ & H1 & _ & H2).
  - split_and!; try done. by repeat constructor.
  - by intros ? _ ?%elem_of_nil.
  - by rewrite app_nil_r.
  - split; [|exact H1]. apply H2. apply (bool_decide_eq_true_1 (_ ∉ _)). reflexivity.
Defined.
