(* ===== verification/Relays.v ===== *)
(** * Relays and run modes

    Models [crates/primitives/src/relays.rs] and [run_mode.rs]: the relays the
    builder knows, how bids are submitted to each, and the modes it runs in. *)

From stdpp Require Import prelude list strings.
From S2P Require Import Prelude Types.

Open Scope Z_scope.

(** ** [run_mode.rs] *)

Inductive RunMode := Devnet | Reth | Simulate | Live.

#[export] Instance RunMode_eq_dec : EqDecision RunMode.
Proof. solve_decision. Defined.

Definition RunMode_default : RunMode := Devnet.

Definition RunMode_to_string (self : RunMode) : string :=
  match self with
  | Devnet => "devnet"
  | Reth => "reth"
  | Simulate => "simulate"
  | Live => "live"
  end.

(** [FromStr]: never an error *)
Definition RunMode_from_str {E} (s : string) : result E RunMode :=
  if decide (s = "devnet") then Ok Devnet
  else if decide (s = "reth") then Ok Reth
  else if decide (s = "simulate") then Ok Simulate
  else if decide (s = "live") then Ok Live
  else Ok RunMode_default.

(** ** [relays.rs] *)

Inductive RelayName :=
| Flashbots
| UltraSoundMoney
| BloxrouteMaxprofit
| Agnostic
| Aestus
| EdenNetwork
| MerkleInternal
| DevnetRelay
| MerkleRelay
| UnknownRelay.

#[export] Instance RelayName_eq_dec : EqDecision RelayName.
Proof. solve_decision. Defined.

Definition RelayName_to_string (self : RelayName) : string :=
  match self with
  | Flashbots => "flashbots"
  | UltraSoundMoney => "ultrasound"
  | BloxrouteMaxprofit => "bloxroute(maxprofit)"
  | Agnostic => "agnostic"
  | Aestus => "aestus"
  | EdenNetwork => "eden"
  | MerkleInternal => "merkle-internal"
  | DevnetRelay => "devnet"
  | MerkleRelay => "merkle-relay"
  | UnknownRelay => "unknown"
  end.

Inductive SubmissionKind :=
| Ssz
| Json
| Sszgzip
| Grpc (url : string).

#[export] Instance SubmissionKind_eq_dec : EqDecision SubmissionKind.
Proof. solve_decision. Defined.

(** [url::Url]: parsing and printing *)
Class UrlLib := {
  Url : Type;
  url_parse : string -> option Url;
  url_to_string : Url -> string;
}.

Section Relays.
Context `{UL : UrlLib}.

Record RelayInfo := {
  ri_name : RelayName;
  ri_url : Url;
  ri_submission : SubmissionKind;
}.

Definition RelayInfo_new (name : RelayName) (url : Url) (submission : SubmissionKind) : RelayInfo :=
  {| ri_name := name; ri_url := url; ri_submission := submission |}.

(** The environment variables that override the addresses. *)
Record RelayEnv := {
  INTERNAL_RELAY_SERVER_URL : option string;
  MERKLE_RELAY_URL_VAR : option string;
  MERKLE_RELAY_GRPC_URL_VAR : option string;
  DEVNET_RELAY_URL : option string;
}.

(** [Url::parse(&env::var(..).unwrap_or(..)).unwrap()] *)
Definition url_of (v : option string) (fallback : string) : run Empty_set Url :=
  expect (url_parse (default fallback v)).

Definition MERKLE_INTERNAL_URL (env : RelayEnv) : run Empty_set Url :=
  url_of (INTERNAL_RELAY_SERVER_URL env) "http://0.0.0.0:8008".
Definition MERKLE_RELAY_URL (env : RelayEnv) : run Empty_set Url :=
  url_of (MERKLE_RELAY_URL_VAR env) "http://0.0.0.0:9063".
Definition MERKLE_RELAY_GRPC_URL (env : RelayEnv) : run Empty_set Url :=
  url_of (MERKLE_RELAY_GRPC_URL_VAR env) "http://0.0.0.0:50051".
Definition DEVNET_URL (env : RelayEnv) : run Empty_set Url :=
  url_of (DEVNET_RELAY_URL env) "http://0.0.0.0:9062".

Definition DEVNET (env : RelayEnv) : run Empty_set RelayInfo :=
  url ← DEVNET_URL env;
  mret (RelayInfo_new DevnetRelay url Sszgzip).

Definition MERKLE_RELAY (env : RelayEnv) : run Empty_set RelayInfo :=
  url ← MERKLE_RELAY_URL env;
  grpc ← MERKLE_RELAY_GRPC_URL env;
  mret (RelayInfo_new MerkleRelay url (Grpc (url_to_string grpc))).

Definition INTERNAL (env : RelayEnv) : run Empty_set RelayInfo :=
  url ← MERKLE_INTERNAL_URL env;
  mret (RelayInfo_new MerkleInternal url Json).

(** [LIVE_RELAYS], in order *)
Definition live_relay (name : RelayName) (address : string) : run Empty_set RelayInfo :=
  url ← expect (url_parse address);
  mret (RelayInfo_new name url Sszgzip).

Definition LIVE_RELAYS : list (run Empty_set RelayInfo) :=
  [live_relay Flashbots "https://boost-relay.flashbots.net";
   live_relay UltraSoundMoney "https://relay.ultrasound.money";
   live_relay Agnostic "https://agnostic-relay.net";
   live_relay Aestus "https://aestus.live"].
End Relays.

(** ** Properties *)

#[export] Instance RelayName_to_string_inj : Inj (=) (=) RelayName_to_string.
Proof. by intros [] []. Qed.

(** run modes parse back from what they print, and parsing never fails: every
    other string, whatever its letter case or spacing, silently selects the devnet mode. *)
Theorem run_mode_from_str_total {E} (m : RunMode) (s : string) :
  RunMode_from_str (E:=E) (RunMode_to_string m) = Ok m /\
  (exists m', RunMode_from_str (E:=E) s = Ok m' /\
     (m' = Devnet \/ s = RunMode_to_string m')) /\
  ((forall m', s <> RunMode_to_string m') -> RunMode_from_str (E:=E) s = Ok Devnet).
Proof.
  split; [by destruct m|]. unfold RunMode_from_str. split.
  - repeat case_decide; subst; eexists; (split; [done|]); by (left + right).
  - intros H. repeat case_decide; subst; try done; exfalso;
      [by apply (H Reth)|by apply (H Simulate)|by apply (H Live)].
Qed.

Lemma run_mode_from_str_total_witness : RunMode_from_str (E:=unit) "Live" = Ok Devnet.
Proof.
  apply (run_mode_from_str_total Live "Live"). intros [] H; discriminate H.
Defined.
