(* ===== verification/GrpcMsg.v ===== *)
(** * The relay's gRPC messages

    Models the messages of [crates/grpc/src/gen/mevrelay.rs] and the conversion
    of a signed bid into a request of [crates/grpc/src/gen/mod.rs]. *)

From stdpp Require Import prelude list strings pretty.
From S2P Require Import Prelude Types Bundle Validator Chain Payload SimState DemoEvm State StateFacts Policy Bid Bidder Ssz.

Open Scope Z_scope.

(** The parts of a blobs bundle of the engine API, in bytes. *)
Class BlobsBundleV1 `{EV : Evm} := {
  blob_commitments : list Sidecar -> list Bytes;
  blob_proofs : list Sidecar -> list Bytes;
  blob_blobs : list Sidecar -> list Bytes;
}.

(** ** [mevrelay.rs] *)

Record GrpcBidTrace := {
  gb_slot : Z;
  gb_parent_hash : Bytes;
  gb_block_hash : Bytes;
  gb_builder_pubkey : Bytes;
  gb_proposer_pubkey : Bytes;
  gb_proposer_fee_recipient : Bytes;
  gb_gas_limit : Z;
  gb_gas_used : Z;
  gb_value : string;
}.

Record GrpcWithdrawal := {
  gw_index : Z;
  gw_validator_index : Z;
  gw_address : Bytes;
  gw_amount : Z;
}.

Record BlobsBundle := {
  gbb_commitments : list Bytes;
  gbb_proofs : list Bytes;
  gbb_blobs : list Bytes;
}.

Record CompressTx := { raw_data : Bytes }.

Record GrpcExecutionPayload := {
  ge_parent_hash : Bytes;
  ge_state_root : Bytes;
  ge_receipts_root : Bytes;
  ge_logs_bloom : Bytes;
  ge_prev_randao : Bytes;
  ge_extra_data : Bytes;
  ge_base_fee_per_gas : Bytes;
  ge_fee_recipient : Bytes;
  ge_block_hash : Bytes;
  ge_transactions : list CompressTx;
  ge_withdrawals : list GrpcWithdrawal;
  ge_block_number : Z;
  ge_gas_limit : Z;
  ge_timestamp : Z;
  ge_gas_used : Z;
  ge_blob_gas_used : Z;
  ge_excess_blob_gas : Z;
}.

Record SubmitBlockRequest := {
  sr_bid_trace : option GrpcBidTrace;
  sr_execution_payload : option GrpcExecutionPayload;
  sr_signature : Bytes;
  sr_blobs_bundle : option BlobsBundle;
}.

Record SubmitBlockResponse := {
  sbr_code : Z;
  sbr_message : string;
}.

(** ** [impl From<SignedBid> for SubmitBlockRequest]

    A hash is its 32 bytes, an address its 20; a public key and a signature are
    the numbers their 48 and 96 bytes spell; the value is printed in decimal. *)

Section Grpc.
Context `{EV : Evm} `{BB : !BlobsBundleV1}.

Definition GrpcBidTrace_from (message : Bid) : GrpcBidTrace :=
  {| gb_slot := bid_slot message;
     gb_parent_hash := be_bytes 32 (bid_parent_hash message);
     gb_block_hash := be_bytes 32 (bid_block_hash message);
     gb_builder_pubkey := be_bytes 48 (bid_builder_pubkey message);
     gb_proposer_pubkey := be_bytes 48 (bid_proposer_pubkey message);
     gb_proposer_fee_recipient := be_bytes 20 (bid_proposer_fee_recipient message);
     gb_gas_limit := bid_gas_limit message;
     gb_gas_used := bid_gas_used message;
     gb_value := pretty (bid_value message) |}.

Definition GrpcWithdrawal_from (w : AlloyWithdrawal) : GrpcWithdrawal :=
  {| gw_index := aw_index w; gw_validator_index := aw_validator_index w;
     gw_address := be_bytes 20 (aw_address w); gw_amount := aw_amount w |}.

Definition GrpcExecutionPayload_from (p : ExecutionPayload) : GrpcExecutionPayload :=
  {| ge_parent_hash := be_bytes 32 (ep_parent_hash p);
     ge_state_root := be_bytes 32 (ep_state_root p);
     ge_receipts_root := be_bytes 32 (ep_receipts_root p);
     ge_logs_bloom := ep_logs_bloom p;
     ge_prev_randao := be_bytes 32 (ep_prev_randao p);
     ge_extra_data := ep_extra_data p;
     ge_base_fee_per_gas := be_bytes 32 (ep_base_fee_per_gas p);
     ge_fee_recipient := be_bytes 20 (ep_fee_recipient p);
     ge_block_hash := be_bytes 32 (ep_block_hash p);
     ge_transactions := (fun t => {| raw_data := t |}) <$> ep_transactions p;
     ge_withdrawals := GrpcWithdrawal_from <$> ep_withdrawals p;
     ge_block_number := ep_block_number p;
     ge_gas_limit := ep_gas_limit p;
     ge_timestamp := ep_timestamp p;
     ge_gas_used := ep_gas_used p;
     ge_blob_gas_used := ep_blob_gas_used p;
     ge_excess_blob_gas := ep_excess_blob_gas p |}.

Definition SubmitBlockRequest_from (value : SignedBid) : SubmitBlockRequest :=
  {| sr_bid_trace := Some (GrpcBidTrace_from (sbd_message value));
     sr_execution_payload := Some (GrpcExecutionPayload_from (sbd_execution_payload value));
     sr_signature := be_bytes 96 (sbd_signature value);
     sr_blobs_bundle :=
       Some {| gbb_commitments := blob_commitments (sbd_blobs_bundle value);
               gbb_proofs := blob_proofs (sbd_blobs_bundle value);
               gbb_blobs := blob_blobs (sbd_blobs_bundle value) |} |}.
End Grpc.

(** ** Properties *)

(** the values fit the types of the source *)
Definition is_word (n : nat) (x : Z) : Prop := 0 <= x < 256 ^ Z.of_nat n.

Record bid_wf (b : Bid) : Prop := {
  bw_parent : is_word 32 (bid_parent_hash b);
  bw_block : is_word 32 (bid_block_hash b);
  bw_builder : is_word 48 (bid_builder_pubkey b);
  bw_proposer : is_word 48 (bid_proposer_pubkey b);
  bw_recipient : is_word 20 (bid_proposer_fee_recipient b);
}.

Record payload_wf (p : ExecutionPayload) : Prop := {
  pw_parent : is_word 32 (ep_parent_hash p);
  pw_state : is_word 32 (ep_state_root p);
  pw_receipts : is_word 32 (ep_receipts_root p);
  pw_randao : is_word 32 (ep_prev_randao p);
  pw_base_fee : is_word 32 (ep_base_fee_per_gas p);
  pw_recipient : is_word 20 (ep_fee_recipient p);
  pw_block : is_word 32 (ep_block_hash p);
  pw_withdrawals : Forall (fun w => is_word 20 (aw_address w)) (ep_withdrawals p);
}.

Lemma be_bytes_inj n x y : is_word n x -> is_word n y -> be_bytes n x = be_bytes n y -> x = y.
Proof.
  intros Hx Hy H. apply (f_equal be_value) in H. by rewrite !be_value_of_bytes in H.
Qed.

(** [proj m1 = proj m2] of two equal messages, back to the words they encode *)
Ltac field_eq H proj := first [exact (f_equal proj H)|eapply be_bytes_inj; [| |exact (f_equal proj H)]; assumption].

Lemma bid_trace_inj b1 b2 : bid_wf b1 -> bid_wf b2 -> GrpcBidTrace_from b1 = GrpcBidTrace_from b2 -> b1 = b2.
Proof.
  intros [] [] H.
  assert (bid_parent_hash b1 = bid_parent_hash b2) by field_eq H gb_parent_hash.
  assert (bid_block_hash b1 = bid_block_hash b2) by field_eq H gb_block_hash.
  assert (bid_builder_pubkey b1 = bid_builder_pubkey b2) by field_eq H gb_builder_pubkey.
  assert (bid_proposer_pubkey b1 = bid_proposer_pubkey b2) by field_eq H gb_proposer_pubkey.
  assert (bid_proposer_fee_recipient b1 = bid_proposer_fee_recipient b2) by field_eq H gb_proposer_fee_recipient.
  assert (bid_slot b1 = bid_slot b2) by field_eq H gb_slot.
  assert (bid_gas_limit b1 = bid_gas_limit b2) by field_eq H gb_gas_limit.
  assert (bid_gas_used b1 = bid_gas_used b2) by field_eq H gb_gas_used.
  assert (bid_value b1 = bid_value b2) by (apply (inj (pretty (A:=Z))); exact (f_equal gb_value H)).
  clear H. destruct b1, b2. cbn in *. by subst.
Qed.

Lemma withdrawal_inj w1 w2 :
  is_word 20 (aw_address w1) -> is_word 20 (aw_address w2) ->
  GrpcWithdrawal_from w1 = GrpcWithdrawal_from w2 -> w1 = w2.
Proof.
  intros H1 H2 H.
  assert (aw_address w1 = aw_address w2) by field_eq H gw_address.
  assert (aw_index w1 = aw_index w2) by field_eq H gw_index.
  assert (aw_validator_index w1 = aw_validator_index w2) by field_eq H gw_validator_index.
  assert (aw_amount w1 = aw_amount w2) by field_eq H gw_amount.
  clear H. destruct w1, w2. cbn in *. by subst.
Qed.

Lemma fmap_inj_Forall {A B} (f : A -> B) (P : A -> Prop) l1 l2 :
  (forall x y, P x -> P y -> f x = f y -> x = y) -> Forall P l1 -> Forall P l2 ->
  f <$> l1 = f <$> l2 -> l1 = l2.
Proof.
  intros Hf H1. revert l2. induction H1 as [|x l1 Hx _ IH]; intros [|y l2] H2; [done|done|done|].
  apply Forall_cons in H2 as [Hy H2]. rewrite !fmap_cons. intros [= Hxy Hl]. f_equal; [by apply Hf|by apply IH].
Qed.

Lemma payload_inj p1 p2 :
  payload_wf p1 -> payload_wf p2 -> GrpcExecutionPayload_from p1 = GrpcExecutionPayload_from p2 -> p1 = p2.
Proof.
  intros [] [] H.
  assert (ep_parent_hash p1 = ep_parent_hash p2) by field_eq H ge_parent_hash.
  assert (ep_state_root p1 = ep_state_root p2) by field_eq H ge_state_root.
  assert (ep_receipts_root p1 = ep_receipts_root p2) by field_eq H ge_receipts_root.
  assert (ep_prev_randao p1 = ep_prev_randao p2) by field_eq H ge_prev_randao.
  assert (ep_base_fee_per_gas p1 = ep_base_fee_per_gas p2) by field_eq H ge_base_fee_per_gas.
  assert (ep_fee_recipient p1 = ep_fee_recipient p2) by field_eq H ge_fee_recipient.
  assert (ep_block_hash p1 = ep_block_hash p2) by field_eq H ge_block_hash.
  assert (ep_logs_bloom p1 = ep_logs_bloom p2) by field_eq H ge_logs_bloom.
  assert (ep_extra_data p1 = ep_extra_data p2) by field_eq H ge_extra_data.
  assert (ep_block_number p1 = ep_block_number p2) by field_eq H ge_block_number.
  assert (ep_gas_limit p1 = ep_gas_limit p2) by field_eq H ge_gas_limit.
  assert (ep_timestamp p1 = ep_timestamp p2) by field_eq H ge_timestamp.
  assert (ep_gas_used p1 = ep_gas_used p2) by field_eq H ge_gas_used.
  assert (ep_blob_gas_used p1 = ep_blob_gas_used p2) by field_eq H ge_blob_gas_used.
  assert (ep_excess_blob_gas p1 = ep_excess_blob_gas p2) by field_eq H ge_excess_blob_gas.
  assert (ep_transactions p1 = ep_transactions p2).
  { eapply (fmap_inj_Forall (fun t => {| raw_data := t |}) (fun _ => True)); [by intros ? ? _ _ [=]|by apply Forall_true..|].
    exact (f_equal ge_transactions H). }
  assert (ep_withdrawals p1 = ep_withdrawals p2).
  { eapply (fmap_inj_Forall GrpcWithdrawal_from); [apply withdrawal_inj|done|done|]. exact (f_equal ge_withdrawals H). }
  clear H. destruct p1, p2. cbn in *. by subst.
Qed.

Section GrpcProofs.
Context `{EV : Evm} `{BB : !BlobsBundleV1}.

(** a request loses nothing of a bid: two bids whose values fit their types and
    which are sent as the same request have the same message, execution payload
    and signature. *)
Theorem submit_block_request_injective (b1 b2 : SignedBid) :
  bid_wf (sbd_message b1) -> bid_wf (sbd_message b2) ->
  payload_wf (sbd_execution_payload b1) -> payload_wf (sbd_execution_payload b2) ->
  is_word 96 (sbd_signature b1) -> is_word 96 (sbd_signature b2) ->
  SubmitBlockRequest_from b1 = SubmitBlockRequest_from b2 ->
  sbd_message b1 = sbd_message b2 /\ sbd_execution_payload b1 = sbd_execution_payload b2 /\
  sbd_signature b1 = sbd_signature b2.
Proof.
  intros Hm1 Hm2 Hp1 Hp2 Hs1 Hs2 H. split_and!.
  - apply bid_trace_inj; [done|done|]. apply (inj Some). exact (f_equal sr_bid_trace H).
  - apply payload_inj; [done|done|]. apply (inj Some). exact (f_equal sr_execution_payload H).
  - by field_eq H sr_signature.
Qed.
End GrpcProofs.

(** ** Evaluation on concrete inputs *)

Import Demo.

#[export] Instance demo_blobs : BlobsBundleV1 := {|
  blob_commitments s := be_bytes 48 <$> s;
  blob_proofs s := be_bytes 48 <$> s;
  blob_blobs s := be_bytes 48 <$> s;
|}.

Definition demo_message : Bid :=
  {| bid_slot := 1; bid_parent_hash := 77; bid_block_hash := 78; bid_builder_pubkey := 6;
     bid_proposer_pubkey := 1; bid_proposer_fee_recipient := 9; bid_gas_limit := 30000000;
     bid_gas_used := 21000; bid_value := 700 |}.

Definition demo_exec_payload : ExecutionPayload :=
  {| ep_parent_hash := 77; ep_fee_recipient := 5; ep_state_root := 1; ep_receipts_root := 2;
     ep_logs_bloom := []; ep_prev_randao := 3; ep_block_number := 42; ep_gas_limit := 30000000;
     ep_gas_used := 21000; ep_timestamp := 250; ep_extra_data := []; ep_base_fee_per_gas := 1;
     ep_block_hash := 78; ep_transactions := [[Byte.x01]];
     ep_withdrawals := [{| aw_index := 1; aw_validator_index := 2; aw_address := 3; aw_amount := 4 |}];
     ep_blob_gas_used := 0; ep_excess_blob_gas := 0 |}.

Definition demo_bid_of (signature : Z) : SignedBid :=
  {| sbd_message := demo_message; sbd_execution_payload := demo_exec_payload;
     sbd_blobs_bundle := []; sbd_signature := signature |}.

Lemma demo_message_wf : bid_wf demo_message.
Proof. by split. Qed.

Lemma demo_payload_wf : payload_wf demo_exec_payload.
Proof. split; try done. by repeat constructor. Qed.

Lemma demo_word x : bool_decide (0 <= x < 256 ^ 96) = true -> is_word 96 x.
Proof. by intros H%bool_decide_eq_true. Qed.

(** requests that agree come from the same signature, hence different ones differ *)
Lemma submit_block_request_injective_witness :
  SubmitBlockRequest_from (demo_bid_of 5) <> SubmitBlockRequest_from (demo_bid_of 6) /\
  gb_value (GrpcBidTrace_from demo_message) = "700".
Proof.
  split; [|reflexivity]. intros H.
  destruct (submit_block_request_injective (demo_bid_of 5) (demo_bid_of 6) demo_message_wf demo_message_wf
    demo_payload_wf demo_payload_wf (demo_word 5 eq_refl) (demo_word 6 eq_refl) H) as (_ & _ & E).
  discriminate E.
Defined.
