(* ===== verification/GrpcService.v ===== *)
(** * The relay's gRPC client and server

    Models the generated client and server of [crates/grpc/src/gen/mevrelay.rs]:
    how a submission becomes a request, which requests the server's method
    answers, and the limits and compression either side is configured with. *)

From stdpp Require Import prelude list strings.
From S2P Require Import Prelude Types Bundle Validator Chain Payload SimState DemoEvm State StateFacts Policy Bid Bidder Ssz GrpcMsg.

Open Scope Z_scope.

(** The status codes of gRPC that the code names, among others. *)
Inductive Code := Unknown | Unimplemented | OtherCode (n : Z).
Record Status := { st_code : Code; st_message : string }.

Definition SUBMIT_BLOCK_PATH : string := "/mevrelay.MevRelay/SubmitBlock".

(** [tonic] and [http].  A client is a channel with a configuration, of its
    library's making, as the compressions enabled on a server are; [client_unary]
    encodes a request for a path, sends it and decodes what the channel responds, and
    [server_unary] decodes a request, calls the method and encodes its result. *)
Class Tonic := {
  Channel : Type;
  TransportError : Type;
  transport_error_debug : TransportError -> string;
  Endpoint : Type;
  endpoint_connect : Endpoint -> result TransportError Channel;
  CompressionEncoding : Type;
  EnabledCompressionEncodings : Type;
  no_encodings : EnabledCompressionEncodings;
  enable_encoding : EnabledCompressionEncodings -> CompressionEncoding -> EnabledCompressionEncodings;
  Uri : Type;
  HttpRequest : Type;
  http_path : HttpRequest -> string;
  HttpResponse : Type;
  (** a response with no body, of a status and headers *)
  empty_response : Z -> list (string * string) -> HttpResponse;
  ClientGrpc : Type;
  client_grpc_new : Channel -> ClientGrpc;
  client_grpc_with_origin : Channel -> Uri -> ClientGrpc;
  client_send_compressed : ClientGrpc -> CompressionEncoding -> ClientGrpc;
  client_accept_compressed : ClientGrpc -> CompressionEncoding -> ClientGrpc;
  client_max_decoding : ClientGrpc -> nat -> ClientGrpc;
  client_max_encoding : ClientGrpc -> nat -> ClientGrpc;
  client_ready : ClientGrpc -> option string;
  client_unary : (Channel -> HttpRequest -> HttpResponse) -> ClientGrpc -> SubmitBlockRequest -> string ->
    result Status SubmitBlockResponse;
  server_unary : EnabledCompressionEncodings -> EnabledCompressionEncodings -> option nat -> option nat ->
    (SubmitBlockRequest -> result Status SubmitBlockResponse) -> HttpRequest -> HttpResponse;
}.

Section GrpcService.
Context `{TN : Tonic}.

(** ** The client *)

Record MevRelayClient := { mc_inner : ClientGrpc }.

Definition MevRelayClient_new (inner : Channel) : MevRelayClient := {| mc_inner := client_grpc_new inner |}.

(** [connect]: the endpoint has been made of the destination *)
Definition MevRelayClient_connect (dst : result TransportError Endpoint) : result TransportError MevRelayClient :=
  endpoint ← dst;
  conn ← endpoint_connect endpoint;
  mret (MevRelayClient_new conn).

Definition MevRelayClient_with_origin (inner : Channel) (origin : Uri) : MevRelayClient :=
  {| mc_inner := client_grpc_with_origin inner origin |}.

Definition mc_send_compressed (self : MevRelayClient) (encoding : CompressionEncoding) : MevRelayClient :=
  {| mc_inner := client_send_compressed (mc_inner self) encoding |}.
Definition mc_accept_compressed (self : MevRelayClient) (encoding : CompressionEncoding) : MevRelayClient :=
  {| mc_inner := client_accept_compressed (mc_inner self) encoding |}.
Definition mc_max_decoding_message_size (self : MevRelayClient) (limit : nat) : MevRelayClient :=
  {| mc_inner := client_max_decoding (mc_inner self) limit |}.
Definition mc_max_encoding_message_size (self : MevRelayClient) (limit : nat) : MevRelayClient :=
  {| mc_inner := client_max_encoding (mc_inner self) limit |}.

(** [submit_block], over what the channels respond *)
Definition mc_submit_block (network : Channel -> HttpRequest -> HttpResponse) (self : MevRelayClient)
    (request : SubmitBlockRequest) : result Status SubmitBlockResponse :=
  match client_ready (mc_inner self) with
  | Some e => Err {| st_code := Unknown; st_message := "Service was not ready: " +:+ e |}
  | None => client_unary network (mc_inner self) request SUBMIT_BLOCK_PATH
  end.

(** ** The server *)

(** [trait MevRelay] *)
Class MevRelay (T : Type) := {
  relay_submit_block : T -> SubmitBlockRequest -> result Status SubmitBlockResponse;
}.

Record MevRelayServer (T : Type) := {
  ms_inner : T;
  accept_compression_encodings : EnabledCompressionEncodings;
  send_compression_encodings : EnabledCompressionEncodings;
  max_decoding_message_size : option nat;
  max_encoding_message_size : option nat;
}.
#[global] Arguments ms_inner {_}.
#[global] Arguments accept_compression_encodings {_}.
#[global] Arguments send_compression_encodings {_}.
#[global] Arguments max_decoding_message_size {_}.
#[global] Arguments max_encoding_message_size {_}.

Definition MevRelayServer_new {T} (inner : T) : MevRelayServer T :=
  {| ms_inner := inner; accept_compression_encodings := no_encodings;
     send_compression_encodings := no_encodings;
     max_decoding_message_size := None; max_encoding_message_size := None |}.

Definition ms_accept_compressed {T} (self : MevRelayServer T) (encoding : CompressionEncoding) : MevRelayServer T :=
  {| ms_inner := ms_inner self;
     accept_compression_encodings := enable_encoding (accept_compression_encodings self) encoding;
     send_compression_encodings := send_compression_encodings self;
     max_decoding_message_size := max_decoding_message_size self;
     max_encoding_message_size := max_encoding_message_size self |}.

Definition ms_send_compressed {T} (self : MevRelayServer T) (encoding : CompressionEncoding) : MevRelayServer T :=
  {| ms_inner := ms_inner self;
     accept_compression_encodings := accept_compression_encodings self;
     send_compression_encodings := enable_encoding (send_compression_encodings self) encoding;
     max_decoding_message_size := max_decoding_message_size self;
     max_encoding_message_size := max_encoding_message_size self |}.

Definition ms_max_decoding_message_size {T} (self : MevRelayServer T) (limit : nat) : MevRelayServer T :=
  {| ms_inner := ms_inner self;
     accept_compression_encodings := accept_compression_encodings self;
     send_compression_encodings := send_compression_encodings self;
     max_decoding_message_size := Some limit;
     max_encoding_message_size := max_encoding_message_size self |}.

Definition ms_max_encoding_message_size {T} (self : MevRelayServer T) (limit : nat) : MevRelayServer T :=
  {| ms_inner := ms_inner self;
     accept_compression_encodings := accept_compression_encodings self;
     send_compression_encodings := send_compression_encodings self;
     max_decoding_message_size := max_decoding_message_size self;
     max_encoding_message_size := Some limit |}.

(** [call]: the method for its path, and [UNIMPLEMENTED] for any other *)
Definition server_call {T} `{MevRelay T} (self : MevRelayServer T) (req : HttpRequest) : HttpResponse :=
  if bool_decide (http_path req = SUBMIT_BLOCK_PATH) then
    server_unary (accept_compression_encodings self) (send_compression_encodings self)
      (max_decoding_message_size self) (max_encoding_message_size self)
      (relay_submit_block (ms_inner self)) req
  else empty_response 200 [("grpc-status", "12"); ("content-type", "application/grpc")].
End GrpcService.

(** Documented behaviour of the library.  A client without an origin, [plain], sends its
    request to the path it is given and nowhere else; when request and response fit
    the limits and the compressions of both sides it gets what the method returned; and a
    response of status 12 with no body is [UNIMPLEMENTED]. *)
Class TonicLaws `{TN : Tonic} := {
  plain : ClientGrpc -> Prop;
  fits : ClientGrpc -> EnabledCompressionEncodings -> EnabledCompressionEncodings -> option nat -> option nat ->
    SubmitBlockRequest -> result Status SubmitBlockResponse -> Prop;
  plain_new : forall c, plain (client_grpc_new c);
  plain_send : forall g e, plain g -> plain (client_send_compressed g e);
  plain_accept : forall g e, plain g -> plain (client_accept_compressed g e);
  plain_decoding : forall g n, plain g -> plain (client_max_decoding g n);
  plain_encoding : forall g n, plain g -> plain (client_max_encoding g n);
  unary_path : forall net1 net2 g request path, plain g ->
    (forall c r, http_path r = path -> net1 c r = net2 c r) ->
    client_unary net1 g request path = client_unary net2 g request path;
  unary_served : forall g accept send decoding encoding method request path,
    fits g accept send decoding encoding request (method request) ->
    client_unary (fun _ => server_unary accept send decoding encoding method) g request path = method request;
  unary_unimplemented : forall g request path,
    exists message, client_unary (fun _ _ => empty_response 200 [("grpc-status", "12"); ("content-type", "application/grpc")])
      g request path = Err {| st_code := Unimplemented; st_message := message |};
}.

(** ** Properties *)

Section GrpcServiceProofs.
Context `{TL : TonicLaws} {T} `{MR : MevRelay T}.

(** the clients that the generated code makes and configures *)
Inductive configured : MevRelayClient -> Prop :=
| configured_new c : configured (MevRelayClient_new c)
| configured_send self e : configured self -> configured (mc_send_compressed self e)
| configured_accept self e : configured self -> configured (mc_accept_compressed self e)
| configured_decoding self n : configured self -> configured (mc_max_decoding_message_size self n)
| configured_encoding self n : configured self -> configured (mc_max_encoding_message_size self n).

Lemma configured_plain self : configured self -> plain (mc_inner self).
Proof.
  induction 1; [apply plain_new|apply plain_send|apply plain_accept|apply plain_decoding|apply plain_encoding]; done.
Qed.

(** a client and a server meet: whatever either is configured with, a ready client's
    submission is answered by the server's method; one that is not ready is
    refused before anything is sent; and a request for any other path, by
    whichever client, is unimplemented and does not reach the method. *)
Theorem grpc_submission_served (client : MevRelayClient) (server : MevRelayServer T)
    (request : SubmitBlockRequest) (path : string) :
  configured client ->
  fits (mc_inner client) (accept_compression_encodings server) (send_compression_encodings server)
    (max_decoding_message_size server) (max_encoding_message_size server) request
    (relay_submit_block (ms_inner server) request) ->
  path <> SUBMIT_BLOCK_PATH ->
  mc_submit_block (fun _ => server_call server) client request =
    match client_ready (mc_inner client) with
    | None => relay_submit_block (ms_inner server) request
    | Some e => Err {| st_code := Unknown; st_message := "Service was not ready: " +:+ e |}
    end /\
  exists message, client_unary (fun _ => server_call server) (mc_inner client) request path =
    Err {| st_code := Unimplemented; st_message := message |}.
Proof.
  intros Hc%configured_plain Hf Hp. unfold mc_submit_block, server_call. split.
  - destruct (client_ready (mc_inner client)); [done|]. rewrite <- (unary_served _ _ _ _ _ _ _ SUBMIT_BLOCK_PATH Hf).
    apply unary_path; [done|]. intros _ r Hr. by rewrite bool_decide_eq_true_2.
  - destruct (unary_unimplemented (mc_inner client) request path) as [message Hm]. exists message. rewrite <- Hm.
    apply unary_path; [done|]. intros _ r Hr. rewrite bool_decide_eq_false_2; [done|congruence].
Qed.
End GrpcServiceProofs.

(** ** Evaluation on concrete inputs

    A library that carries messages as they are. *)

#[export] Instance demo_tonic : Tonic := {|
  Channel := unit;
  TransportError := string;
  transport_error_debug e := e;
  Endpoint := string;
  endpoint_connect e := if String.eqb e "" then Err "empty" else Ok tt;
  CompressionEncoding := nat;
  EnabledCompressionEncodings := list nat;
  no_encodings := [];
  enable_encoding l e := e :: l;
  Uri := string;
  HttpRequest := string * SubmitBlockRequest;
  http_path := fst;
  HttpResponse := result Status SubmitBlockResponse;
  empty_response _ headers := Err {| st_code := Unimplemented; st_message := "" |};
  ClientGrpc := unit;
  client_grpc_new c := c;
  client_grpc_with_origin c _ := c;
  client_send_compressed g _ := g;
  client_accept_compressed g _ := g;
  client_max_decoding g _ := g;
  client_max_encoding g _ := g;
  client_ready _ := None;
  client_unary net g request path := net g (path, request);
  server_unary _ _ _ _ method r := method r.2;
|}.

#[export] Instance demo_tonic_laws : TonicLaws.
Proof.
  refine {| plain _ := True; fits _ _ _ _ _ _ _ := True |}; try done.
  - intros net1 net2 g request path _ H. by apply H.
  - intros g request path. by eexists.
Defined.

(** a relay that answers with the length of the signature *)
#[export] Instance demo_mev_relay : MevRelay unit := {|
  relay_submit_block _ request := Ok {| sbr_code := Z.of_nat (length (sr_signature request)); sbr_message := "ok" |};
|}.

Definition demo_request : SubmitBlockRequest :=
  {| sr_bid_trace := None; sr_execution_payload := None; sr_signature := [Byte.x01]; sr_blobs_bundle := None |}.

Lemma grpc_submission_served_witness :
  mc_submit_block (fun _ => server_call (ms_send_compressed (MevRelayServer_new tt) 1%nat))
    (mc_max_decoding_message_size (MevRelayClient_new tt) 4) demo_request =
  Ok {| sbr_code := 1; sbr_message := "ok" |}.
Proof.
  refine (proj1 (grpc_submission_served (mc_max_decoding_message_size (MevRelayClient_new tt) 4)
    (ms_send_compressed (MevRelayServer_new tt) 1%nat) demo_request "/" _ I _)).
  - apply configured_decoding, configured_new.
  - discriminate.
Defined.
