(* ===== verification/Relay.v ===== *)
(** * Relay clients, aggregator and service

    Models [crates/relay/src/client/mod.rs] and [client/simulate.rs] (the
    clients), [relay.rs] (the pool of relays), [aggregator.rs] (requests to all
    of them) and [services/relay.rs] (the service and its handle).  The network
    is an input: a function from requests to answers. *)

From stdpp Require Import prelude list gmap strings.
From S2P Require Import Prelude Types Bundle Validator Chain Payload SimState DemoEvm State StateFacts Policy Bid Bidder Relays GrpcMsg.

Open Scope Z_scope.

(** ** The network and the libraries *)

Inductive HttpBody `{EV : Evm} :=
| NoBody
| JsonBid (bid : SignedBid)
| RawBody (bytes : Bytes).

(** The timeout of a request, in seconds, where it has one. *)
Record HttpRequest `{EV : Evm} := {
  rq_post : bool;
  rq_url : string;
  rq_query : list (string * Z);
  rq_headers : list (string * string);
  rq_body : HttpBody;
  rq_timeout : option Z;
}.

(** [reqwest], [serde_json], the derived SSZ encoding of a bid, [flate2], [tonic]. *)
Class RelayLibs `{EV : Evm} := {
  ReqwestError : Type;
  HttpResponse : Type;
  resp_status : HttpResponse -> Z;
  resp_text : HttpResponse -> result ReqwestError string;
  json_validators : HttpResponse -> result ReqwestError (list ValidatorRegistrationResponse);
  json_traces : HttpResponse -> result ReqwestError (list BidTrace);
  json_best_bid : HttpResponse -> result ReqwestError (option SignedBid);
  bid_as_ssz_bytes : SignedBid -> Bytes;
  IoError : Type;
  gzip : Bytes -> result IoError Bytes;
  GrpcClient : Type;
  GrpcStatus : Type;
  grpc_status_to_string : GrpcStatus -> string;
}.

Definition VALIDATOR_REGISTRATIONS_PATH : string := "relay/v1/builder/validators".
Definition SUBMIT_BID_PATH : string := "relay/v1/builder/blocks".
Definition BID_TRACES_PATH : string := "relay/v1/data/bidtraces/builder_blocks_received".
Definition INTERNAL_BEST_BID_PATH : string := "best_bid".

Definition STATUS_OK : Z := 200.
Definition INTERNAL_SERVER_ERROR : Z := 500.

Section Relay.
Context `{EV : Evm} `{RL : !RelayLibs} `{BB : !BlobsBundleV1} `{UL : UrlLib}.

Record Network := {
  http_send : HttpRequest -> result ReqwestError HttpResponse;
  grpc_submit_block : GrpcClient -> SubmitBlockRequest -> result GrpcStatus SubmitBlockResponse;
}.

Inductive RelayClientErr :=
| TopBid (e : ReqwestError)
| ValidatorNotFound (slot : Z)
| EmptyValidatorRegistrations
| Submit (msg : string)
| Broadcast
| Gzip (e : IoError).

Record SubmitBidResp := {
  sb_status : Z;
  sb_message : string;
}.

(** [#[derive(Default)]]: the default status code is 200 *)
Definition SubmitBidResp_default : SubmitBidResp := {| sb_status := STATUS_OK; sb_message := EmptyString |}.

(** ** The interface: [trait Relay] *)

Record Relay := {
  relay_info : RelayInfo;
  get_validators : Network -> list ValidatorRegistrationResponse;
  submit_bid : Network -> SignedBid -> run RelayClientErr SubmitBidResp;
  get_bid_traces : Network -> Z -> option (RelayName * list BidTrace);
  get_internal_best_bid : Network -> Z -> Z -> option SignedBid;
}.

(** ** [RelayClient] *)

Record RelayClient := {
  rc_info : RelayInfo;
  rc_grpc_client : option GrpcClient;
}.

Definition MAX_RETRIES : nat := 1000.

(** [try_connect_grpc]: the attempts from [attempt] on, [n] of them; what each
    connection attempt gives is an input.  It sleeps two seconds after a failure. *)
Fixpoint try_connect (connect : nat -> option GrpcClient) (n attempt : nat) : option GrpcClient :=
  match n with
  | O => None
  | S n =>
      match connect attempt with
      | Some client => Some client
      | None => try_connect connect n (S attempt)
      end
  end.

Definition try_connect_grpc (connect : string -> nat -> option GrpcClient) (grpc_url : option string)
  : option GrpcClient :=
  match grpc_url with
  | Some url => try_connect (connect url) MAX_RETRIES 0
  | None => None
  end.

Definition RelayClient_new (connect : string -> nat -> option GrpcClient) (relay : RelayInfo) : RelayClient :=
  let grpc_client :=
    match ri_submission relay with
    | Grpc grpc_url => try_connect_grpc connect (Some grpc_url)
    | _ => None
    end in
  {| rc_info := relay; rc_grpc_client := grpc_client |}.

Definition relay_url (info : RelayInfo) (path : string) : string :=
  (url_to_string (ri_url info) ++ path)%string.

Definition get_request (info : RelayInfo) (path : string) (query : list (string * Z)) (timeout : option Z)
  : HttpRequest :=
  {| rq_post := false; rq_url := relay_url info path; rq_query := query; rq_headers := [];
     rq_body := NoBody; rq_timeout := timeout |}.

Definition client_get_validators (info : RelayInfo) (net : Network) : list ValidatorRegistrationResponse :=
  match http_send net (get_request info VALIDATOR_REGISTRATIONS_PATH [] (Some 2)) with
  | Ok resp => match json_validators resp with Ok data => data | Err _ => [] end
  | Err _ => []
  end.

Definition post_request (info : RelayInfo) (headers : list (string * string)) (body : HttpBody) : HttpRequest :=
  {| rq_post := true; rq_url := relay_url info SUBMIT_BID_PATH; rq_query := []; rq_headers := headers;
     rq_body := body; rq_timeout := Some 2 |}.

(** the three branches that post over HTTP *)
Definition post_bid (net : Network) (req : HttpRequest) : run RelayClientErr SubmitBidResp :=
  resp ← lift_err TopBid (http_send net req);
  text ← lift_err TopBid (resp_text resp);
  mret {| sb_status := resp_status resp; sb_message := text |}.

Definition client_submit_bid (self : RelayClient) (net : Network) (bid : SignedBid)
  : run RelayClientErr SubmitBidResp :=
  let info := rc_info self in
  match ri_submission info with
  | Relays.Ssz =>
      post_bid net (post_request info [("Content-Type", "application/octet-stream")]
                      (RawBody (bid_as_ssz_bytes bid)))
  | Json => post_bid net (post_request info [] (JsonBid bid))
  | Sszgzip =>
      compressed_data ← lift_err Gzip (gzip (bid_as_ssz_bytes bid));
      post_bid net (post_request info [("Content-Encoding", "gzip");
                                       ("Content-Type", "application/octet-stream")]
                      (RawBody compressed_data))
  | Grpc _ =>
      client ← expect (rc_grpc_client self);
      resp ← lift_err (fun e => Submit (grpc_status_to_string e))
               (grpc_submit_block net client (SubmitBlockRequest_from bid));
      mret {| sb_status := if sbr_code resp =? 200 then STATUS_OK else INTERNAL_SERVER_ERROR;
              sb_message := sbr_message resp |}
  end.

Definition client_get_bid_traces (info : RelayInfo) (net : Network) (block_number : Z)
  : option (RelayName * list BidTrace) :=
  match http_send net (get_request info BID_TRACES_PATH [("block_number", block_number)] None) with
  | Ok resp => match json_traces resp with Ok traces => Some (ri_name info, traces) | Err _ => None end
  | Err _ => None
  end.

Definition client_get_internal_best_bid (info : RelayInfo) (net : Network) (block_number timestamp : Z)
  : option SignedBid :=
  match http_send net (get_request info INTERNAL_BEST_BID_PATH
                         [("block_number", block_number); ("timestamp", timestamp)] None) with
  | Ok resp => match json_best_bid resp with Ok bid => bid | Err _ => None end
  | Err _ => None
  end.

(** [impl Relay for RelayClient] *)
Definition RelayClient_relay (self : RelayClient) : Relay :=
  {| relay_info := rc_info self;
     get_validators := client_get_validators (rc_info self);
     submit_bid := client_submit_bid self;
     get_bid_traces := client_get_bid_traces (rc_info self);
     get_internal_best_bid := client_get_internal_best_bid (rc_info self) |}.

(** [impl Relay for SimulateRelayClient]: the same queries, and a submission that
    does nothing *)
Definition SimulateRelayClient_relay (info : RelayInfo) : Relay :=
  {| relay_info := info;
     get_validators := client_get_validators info;
     submit_bid := fun _ _ => Done SubmitBidResp_default;
     get_bid_traces := client_get_bid_traces info;
     get_internal_best_bid := client_get_internal_best_bid info |}.

(** ** [relay.rs] *)

(** [RelayInstance::new] and [create_relay_client] *)
Definition RelayInstance_new (connect : string -> nat -> option GrpcClient) (relay_info : RelayInfo)
    (run_mode : RunMode) : Relay :=
  match run_mode with
  | Simulate => SimulateRelayClient_relay relay_info
  | _ => RelayClient_relay (RelayClient_new connect relay_info)
  end.

Definition pool_internal (connect : string -> nat -> option GrpcClient) (env : RelayEnv) : run Empty_set Relay :=
  info ← INTERNAL env;
  mret (RelayInstance_new connect info Live).
Definition pool_merkle_relay (connect : string -> nat -> option GrpcClient) (env : RelayEnv) : run Empty_set Relay :=
  info ← MERKLE_RELAY env;
  mret (RelayInstance_new connect info Live).
Definition pool_devnet (connect : string -> nat -> option GrpcClient) (env : RelayEnv) : run Empty_set Relay :=
  info ← DEVNET env;
  mret (RelayInstance_new connect info Live).

(** [RelayPool::new]: the relays, in order *)
Definition RelayPool_new (connect : string -> nat -> option GrpcClient) (env : RelayEnv)
    (_run_mode : RunMode) (internal_relay_enabled : bool) : run Empty_set (list Relay) :=
  merkle ← pool_merkle_relay connect env;
  if internal_relay_enabled then
    internal ← pool_internal connect env;
    mret [merkle; internal]
  else mret [merkle].

(** ** [aggregator.rs]

    [aggregate] collects the results in the order the requests complete:
    [completed] lists the relays of the pool in that order. *)

Definition aggregate {R} (completed : list Relay) (f : Relay -> R) : list R := f <$> completed.

Definition load_validator_schedule (completed : list Relay) (net : Network)
  : result RelayClientErr ValidatorSchedule :=
  let v_info := slot_info_from <$> concat (aggregate completed (fun r => get_validators r net)) in
  match v_info with
  | [] => Err EmptyValidatorRegistrations
  | _ => Ok (ValidatorSchedule_new v_info)
  end.

(** one submission: an answer other than 200 is an error *)
Definition broadcast_one (net : Network) (bid : SignedBid) (relay : Relay) : run RelayClientErr unit :=
  resp ← submit_bid relay net bid;
  if sb_status resp =? STATUS_OK then mret tt else Fail (Submit (sb_message resp)).

(** a panic in one of the futures panics the aggregate *)
Definition broadcast_submit_bid (completed : list Relay) (net : Network) (bid : SignedBid)
  : run RelayClientErr unit :=
  let results := aggregate completed (broadcast_one net bid) in
  if existsb (fun r => match r with Panicked => true | _ => false end) results then Panicked
  else
    match length (List.filter is_done results) with
    | O => Fail Broadcast
    | _ => mret tt
    end.

Definition bid_traces (completed : list Relay) (net : Network) (block_number : Z)
  : list (RelayName * list BidTrace) :=
  omap id (aggregate completed (fun r => get_bid_traces r net block_number)).

Definition internal_best_bid (connect : string -> nat -> option GrpcClient) (env : RelayEnv) (net : Network)
    (block_number timestamp : Z) : run Empty_set (option SignedBid) :=
  internal ← pool_internal connect env;
  mret (get_internal_best_bid internal net block_number timestamp).

(** ** [services/relay.rs] *)

Inductive RelayCommands :=
| SubmitBid (bid : SignedBid)
| GetBidTraces (block_number : Z)
| GetInternalBestBid (block_number timestamp : Z)
| LoadValidatorSchedule.

(** The futures the service answers with: what they will compute when awaited. *)
Inductive RelayFuture :=
| SubmitBidFuture (bid : SignedBid)
| GetBidTracesFuture (block_number : Z)
| GetInternalBestBidFuture (block_number timestamp : Z)
| LoadValidatorScheduleFuture.

Definition on_relay_command (cmd : RelayCommands) : RelayFuture :=
  match cmd with
  | SubmitBid bid => SubmitBidFuture bid
  | GetBidTraces block_number => GetBidTracesFuture block_number
  | GetInternalBestBid block_number timestamp => GetInternalBestBidFuture block_number timestamp
  | LoadValidatorSchedule => LoadValidatorScheduleFuture
  end.

(** [RelayService::poll]: every command that waits is answered, in order; it never ends *)
Definition relay_service_poll (cmds : list RelayCommands) : list RelayFuture * poll unit :=
  (on_relay_command <$> cmds, Pending).

(** The values of those futures. *)
Inductive RelayAnswer :=
| BidSubmitted (outcome : run RelayClientErr unit)
| BidTracesFound (traces : list (RelayName * list BidTrace))
| InternalBestBid (best : run Empty_set (option SignedBid))
| ScheduleLoaded (schedule : result RelayClientErr ValidatorSchedule).

(** [submit_bid], [get_bid_traces], [get_internal_best_bid] and [load_validator_schedule]
    of the service: the future, awaited while the relays complete in an order *)
Definition await_relay (connect : string -> nat -> option GrpcClient) (env : RelayEnv) (completed : list Relay)
    (net : Network) (fut : RelayFuture) : RelayAnswer :=
  match fut with
  | SubmitBidFuture bid => BidSubmitted (broadcast_submit_bid completed net bid)
  | GetBidTracesFuture block_number => BidTracesFound (bid_traces completed net block_number)
  | GetInternalBestBidFuture block_number timestamp =>
      InternalBestBid (internal_best_bid connect env net block_number timestamp)
  | LoadValidatorScheduleFuture => ScheduleLoaded (load_validator_schedule completed net)
  end.

(** What became of a command: it could not be sent, its answer was dropped, or
    it was answered; then the relays complete in the order given. *)
Inductive Delivery :=
| NotSent
| NotAnswered
| Answered (completed : list Relay).

Inductive RelayServiceErr :=
| Recv
| Send
| Client (e : RelayClientErr).

Record RelayHandle := { rh_public_key : BlsPublicKey }.

(** the commands that wait, and the relays of the aggregator *)
Record RelayService := {
  rs_command_rx : list RelayCommands;
  rs_relay_aggregator : list Relay;
}.

(** [RelayService::new]: the service and the handle that feeds its queue *)
Definition RelayService_new (connect : string -> nat -> option GrpcClient) (env : RelayEnv)
    (run_mode : RunMode) (internal_relay_enabled : bool) (public_key : BlsPublicKey)
  : run Empty_set (RelayService * RelayHandle) :=
  relay_pool ← RelayPool_new connect env run_mode internal_relay_enabled;
  mret ({| rs_command_rx := []; rs_relay_aggregator := relay_pool |}, {| rh_public_key := public_key |}).

Definition deliver {T} (d : Delivery) (k : list Relay -> run RelayServiceErr T) : run RelayServiceErr T :=
  match d with
  | NotSent => Fail Send
  | NotAnswered => Fail Recv
  | Answered completed => k completed
  end.

Definition handle_submit_bid (d : Delivery) (net : Network) (to_bid : SignedBid) : run RelayServiceErr unit :=
  deliver d (fun completed => run_map_err Client (broadcast_submit_bid completed net to_bid)).

Definition handle_get_bid_traces (d : Delivery) (net : Network) (block_number : Z)
  : run RelayServiceErr (list (RelayName * list BidTrace)) :=
  deliver d (fun completed => mret (bid_traces completed net block_number)).

Definition handle_get_top_bid (self : RelayHandle) (d : Delivery) (net : Network) (block_number : Z)
  : run RelayServiceErr (option BidTrace) :=
  deliver d (fun completed =>
    let traces := concat ((bid_traces completed net block_number).*2) in
    mret (max_by_key bt_value
            (List.filter (fun t => negb (bt_builder_pubkey t =? rh_public_key self)) traces))).

Definition handle_get_internal_best_bid (connect : string -> nat -> option GrpcClient) (env : RelayEnv)
    (d : Delivery) (net : Network) (block_number timestamp : Z) : run RelayServiceErr (option SignedBid) :=
  deliver d (fun _ => match internal_best_bid connect env net block_number timestamp with
                      | Done bid => Done bid
                      | _ => Panicked
                      end).

Definition handle_load_validator_schedule (d : Delivery) (net : Network)
  : run RelayServiceErr ValidatorSchedule :=
  deliver d (fun completed => lift_err Client (load_validator_schedule completed net)).
End Relay.

(** ** Properties *)

Section RelayProofs.
Context `{EV : Evm} `{RL : !RelayLibs} `{BB : !BlobsBundleV1} `{UL : UrlLib}.

(** a relay that takes a bid *)
Definition accepts (net : Network) (bid : SignedBid) (relay : Relay) : Prop :=
  exists resp, submit_bid relay net bid = Done resp /\ sb_status resp = STATUS_OK.

Lemma broadcast_one_done net bid relay :
  is_done (broadcast_one net bid relay) = true <-> accepts net bid relay.
Proof.
  unfold broadcast_one, accepts. destruct (submit_bid relay net bid) as [resp|e|]; simpl.
  - destruct (Z.eqb_spec (sb_status resp) STATUS_OK); naive_solver.
  - naive_solver.
  - naive_solver.
Qed.

Lemma broadcast_one_panics net bid relay :
  broadcast_one net bid relay = Panicked <-> submit_bid relay net bid = Panicked.
Proof.
  unfold broadcast_one. destruct (submit_bid relay net bid) as [resp|e|]; simpl; [|done|done].
  by destruct (_ =? _).
Qed.

Lemma some_panics net bid (l : list Relay) :
  existsb (fun r => match r with Panicked => true | _ => false end) (aggregate l (broadcast_one net bid)) = true
  <-> exists r, r ∈ l /\ submit_bid r net bid = Panicked.
Proof.
  unfold aggregate. rewrite existsb_exists. split.
  - intros (x & Hx & Hp). apply list_elem_of_In, list_elem_of_fmap in Hx as (r & -> & Hr).
    exists r. split; [done|]. apply broadcast_one_panics. by destruct (broadcast_one net bid r).
  - intros (r & Hr & Hp). exists (broadcast_one net bid r).
    split; [apply list_elem_of_In; by apply list_elem_of_fmap_2|].
    apply broadcast_one_panics in Hp. by rewrite Hp.
Qed.

Lemma none_done net bid (l : list Relay) :
  length (List.filter is_done (aggregate l (broadcast_one net bid))) = 0%nat <->
  forall r, r ∈ l -> ~ accepts net bid r.
Proof.
  unfold aggregate. induction l as [|r l IH]; csimpl; [split; [by intros _ r ?%elem_of_nil|done]|].
  pose proof (broadcast_one_done net bid r) as Hd.
  destruct (is_done (broadcast_one net bid r)); simpl.
  - split; [done|]. intros H. exfalso. apply (H r); [left|by apply Hd].
  - rewrite IH. split.
    + intros H r' [->|Hr]%elem_of_cons; [|by apply H]. intros Ha. by apply Hd in Ha.
    + intros H r' Hr. apply H. by right.
Qed.

(** C15: broadcasting a bid succeeds exactly when some relay of the pool accepts it, and fails otherwise,
    in whatever order the relays answer; a panic of any client panics it. *)
Theorem broadcast_correct (relays completed : list Relay) (net : Network) (bid : SignedBid) :
  completed ≡ₚ relays ->
  (broadcast_submit_bid completed net bid = Panicked <->
     exists r, r ∈ relays /\ submit_bid r net bid = Panicked) /\
  ((forall r, r ∈ relays -> submit_bid r net bid <> Panicked) ->
     (broadcast_submit_bid completed net bid = Done tt <-> exists r, r ∈ relays /\ accepts net bid r) /\
     (broadcast_submit_bid completed net bid = Fail Broadcast <->
        forall r, r ∈ relays -> ~ accepts net bid r)).
Proof.
  intros Hp. unfold broadcast_submit_bid.
  assert (Hpan := some_panics net bid completed). assert (Hnone := none_done net bid completed).
  destruct (existsb _ _) eqn:Hx.
  - destruct Hpan as [Hpan _]. destruct (Hpan eq_refl) as (r & Hr & Hs). rewrite Hp in Hr.
    split; [naive_solver|]. intros Hn. by destruct (Hn r Hr).
  - assert (Hno : forall r, r ∈ relays -> submit_bid r net bid <> Panicked).
    { intros r Hr Hs. destruct Hpan as [_ Hpan]. rewrite <- Hp in Hr. by discriminate (Hpan (ex_intro _ r (conj Hr Hs))). }
    destruct (length _) eqn:Hl.
    + assert (forall r, r ∈ relays -> ~ accepts net bid r) as Ha.
      { intros r Hr. apply (proj1 Hnone eq_refl). by rewrite Hp. }
      split; [naive_solver|]. intros _. split; [naive_solver|done].
    + split; [naive_solver|]. intros _.
      assert (~ forall r, r ∈ relays -> ~ accepts net bid r) as Ha.
      { intros H. assert (S n = 0%nat) as E; [|discriminate E]. apply Hnone. intros r Hr. apply H. by rewrite <- Hp. }
      split; [|naive_solver]. split; [|done]. intros _.
      clear -Hp Hl. unfold aggregate in Hl.
      destruct (List.filter is_done (broadcast_one net bid <$> completed)) as [|x l] eqn:E; [discriminate Hl|].
      assert (In x (List.filter is_done (broadcast_one net bid <$> completed))) as Hin by (rewrite E; by left).
      apply filter_In in Hin as [Hin Hd]. apply list_elem_of_In, list_elem_of_fmap in Hin as (r & -> & Hr).
      exists r. split; [by rewrite <- Hp|by apply broadcast_one_done].
Qed.

(** the traces the relays have for a block, of other builders *)
Definition rival_trace (self : RelayHandle) (relays : list Relay) (net : Network) (bn : Z) (t : BidTrace) : Prop :=
  bt_builder_pubkey t <> rh_public_key self /\
  exists r name traces, r ∈ relays /\ get_bid_traces r net bn = Some (name, traces) /\ t ∈ traces.

Lemma rival_trace_spec self completed net bn t :
  t ∈ List.filter (fun t => negb (bt_builder_pubkey t =? rh_public_key self))
        (concat ((bid_traces completed net bn).*2)) <->
  rival_trace self completed net bn t.
Proof.
  unfold rival_trace, bid_traces, aggregate. rewrite list_elem_of_In, filter_In, <- list_elem_of_In, negb_true_iff, Z.eqb_neq.
  rewrite list_elem_of_In, in_concat. split.
  - intros [(traces & Hl & Ht) Hn]. split; [done|].
    apply list_elem_of_In, list_elem_of_fmap in Hl as ([name ts] & -> & Hx).
    apply list_elem_of_omap in Hx as (o & Ho & Hid). simpl in Hid. unfold id in Hid. subst o.
    apply list_elem_of_fmap in Ho as (r & Hr & Hin). exists r, name, ts.
    split_and!; [done|done|by apply list_elem_of_In].
  - intros [Hn (r & name & traces & Hr & Hg & Ht)]. split; [|done]. exists traces.
    split; [|by apply list_elem_of_In]. apply list_elem_of_In.
    apply (list_elem_of_fmap_2 snd _ (name, traces)). apply list_elem_of_omap.
    exists (Some (name, traces)). split; [|done]. rewrite <- Hg.
    by apply (list_elem_of_fmap_2 (fun r => get_bid_traces r net bn)).
Qed.

(** C33: the top bid of a block is the most valuable trace any relay has of another
    builder, whatever the order the relays answer in; there is none exactly when no relay
    has one.  Relays that fail to answer are left out. *)
Theorem top_bid_correct (self : RelayHandle) (relays completed : list Relay) (net : Network) (bn : Z) :
  completed ≡ₚ relays ->
  exists top, handle_get_top_bid self (Answered completed) net bn = Done top /\
    match top with
    | Some t => rival_trace self relays net bn t /\
        forall t', rival_trace self relays net bn t' -> bt_value t' <= bt_value t
    | None => forall t, ~ rival_trace self relays net bn t
    end.
Proof.
  intros Hp. assert (Hr : forall t, rival_trace self completed net bn t <-> rival_trace self relays net bn t).
  { intros t. unfold rival_trace. split; intros [Hn (r & name & traces & Hin & H)]; (split; [done|]);
      exists r, name, traces; [rewrite <- Hp|rewrite Hp]; done. }
  eexists. split; [reflexivity|]. simpl. destruct (max_by_key _ _) as [t|] eqn:M.
  - apply max_by_key_Some in M as [Hm Hmax]. split; [by apply Hr, rival_trace_spec|].
    intros t' Ht'. apply Hmax, rival_trace_spec, Hr, Ht'.
  - apply max_by_key_None in M. intros t Ht. apply Hr, rival_trace_spec in Ht. rewrite M in Ht.
    by apply elem_of_nil in Ht.
Qed.

(** ** The pool of relays *)

(** submitting to a gRPC relay *)
Lemma submit_bid_grpc (connect : string -> nat -> option GrpcClient) name u url net bid :
  submit_bid (RelayInstance_new connect (RelayInfo_new name u (Grpc url)) Live) net bid =
  (client ← expect (try_connect_grpc connect (Some url));
   resp ← lift_err (fun e => Submit (grpc_status_to_string e))
            (grpc_submit_block net client (SubmitBlockRequest_from bid));
   mret {| sb_status := if sbr_code resp =? 200 then STATUS_OK else INTERNAL_SERVER_ERROR;
           sb_message := sbr_message resp |}).
Proof. reflexivity. Qed.

(** the first relay of a pool is Merkle's, over gRPC *)
Lemma relay_pool_first (connect : string -> nat -> option GrpcClient) env m internal relays :
  RelayPool_new connect env m internal = Done relays ->
  exists u url rest,
    relays = RelayInstance_new connect (RelayInfo_new MerkleRelay u (Grpc url)) Live :: rest.
Proof.
  intros H. unfold RelayPool_new in H. run_inv. unfold pool_merkle_relay, MERKLE_RELAY in Hr. run_inv. subst.
  eexists _, _. destruct internal; run_inv; subst; by eexists.
Qed.

(** the run mode does not reach the relays: the pool is the same in every mode, and its first
    relay submits over gRPC.  A simulated run submits its bids to it like a live
    one, and fails when it refuses them; the client written for simulation, which
    accepts everything without sending it, is never made. *)
Theorem relay_pool_ignores_run_mode (connect : string -> nat -> option GrpcClient) (env : RelayEnv)
    (m : RunMode) (internal : bool) (relays : list Relay) :
  RelayPool_new connect env m internal = Done relays ->
  RelayPool_new connect env Live internal = Done relays /\
  exists merkle rest url, relays = merkle :: rest /\ ri_submission (relay_info merkle) = Grpc url /\
    forall net bid client e,
      try_connect_grpc connect (Some url) = Some client ->
      grpc_submit_block net client (SubmitBlockRequest_from bid) = Err e ->
      submit_bid merkle net bid = Fail (Submit (grpc_status_to_string e)) /\
      submit_bid (RelayInstance_new connect (relay_info merkle) Simulate) net bid = Done SubmitBidResp_default.
Proof.
  intros H. split; [done|]. apply relay_pool_first in H as (u & url & rest & ->).
  eexists _, _, _. split; [done|]. split; [reflexivity|].
  intros net bid client e Hc He. split; [|done].
  rewrite submit_bid_grpc, Hc. simpl. by rewrite He.
Qed.

Lemma try_connect_spec (connect : nat -> option GrpcClient) n k :
  match try_connect connect n k with
  | Some client => exists i, (k <= i < k + n)%nat /\ connect i = Some client /\
      forall j, (k <= j < i)%nat -> connect j = None
  | None => forall i, (k <= i < k + n)%nat -> connect i = None
  end.
Proof.
  revert k. induction n as [|n IH]; intros k; simpl; [intros; lia|].
  destruct (connect k) as [client|] eqn:Hk.
  - exists k. split_and!; [lia|lia|done|intros; lia].
  - specialize (IH (S k)). destruct (try_connect connect n (S k)) as [client|].
    + destruct IH as (i & Hi & Hc & Hj). exists i. split_and!; [lia|lia|done|].
      intros j Hj'. destruct (decide (j = k)) as [->|]; [done|]. apply Hj. lia.
    + intros i Hi. destruct (decide (i = k)) as [->|]; [done|]. apply IH. lia.
Qed.

(** a gRPC relay that cannot be reached when the builder starts panics every
    submission: after a thousand failed attempts its client is missing, and
    broadcasting panics, even when the other relays would accept the bid. *)
Theorem unreachable_grpc_panics (connect : string -> nat -> option GrpcClient) (env : RelayEnv)
    (m : RunMode) (internal : bool) (relays completed : list Relay) (net : Network) (bid : SignedBid) :
  RelayPool_new connect env m internal = Done relays ->
  (forall url n, (n < MAX_RETRIES)%nat -> connect url n = None) ->
  completed ≡ₚ relays -> broadcast_submit_bid completed net bid = Panicked.
Proof.
  intros H Hc Hp. unfold broadcast_submit_bid.
  assert (existsb (fun r => match r with Panicked => true | _ => false end)
    (aggregate completed (broadcast_one net bid)) = true) as ->; [|done].
  apply some_panics. apply relay_pool_first in H as (u & url & rest & ->). eexists. split.
  - rewrite Hp. left.
  - rewrite submit_bid_grpc. unfold try_connect_grpc.
    match goal with |- context [try_connect ?c ?n ?k] =>
      pose proof (try_connect_spec c n k) as Hs; destruct (try_connect c n k) as [client|] end; [|done].
    destruct Hs as (i & Hi & Hcl & _). rewrite Hc in Hcl; [done|lia].
Qed.

(** ** Loading the schedule *)

(** a registration some relay returns for a slot *)
Definition registered (relays : list Relay) (net : Network) (slot : Z) (v : ValidatorScheduleSlotInfo) : Prop :=
  vi_slot v = slot /\ exists r data, r ∈ relays /\ data ∈ get_validators r net /\ v = slot_info_from data.

(** C34: loading succeeds exactly when some relay returns a registration, and fails with the
    error for empty registrations exactly when none does.  A schedule that is loaded has
    an entry for exactly the slots for which some relay returns a registration, and the
    entry is one of them.  The order in which the relays answer can only change which of
    several registrations of a slot is kept. *)
Theorem load_schedule_correct (relays completed : list Relay) (net : Network) :
  completed ≡ₚ relays ->
  match load_validator_schedule completed net with
  | Ok schedule =>
      (exists slot v, registered relays net slot v) /\
      forall slot,
        match get_by_slot schedule slot with
        | Some v => registered relays net slot v
        | None => forall v, ~ registered relays net slot v
        end
  | Err e => e = EmptyValidatorRegistrations /\ forall slot v, ~ registered relays net slot v
  end.
Proof.
  intros Hp. unfold load_validator_schedule, aggregate.
  set (infos := slot_info_from <$> concat ((fun r => get_validators r net) <$> completed)).
  assert (Hreg : forall slot v, registered relays net slot v <-> v ∈ infos /\ vi_slot v = slot).
  { intros slot v. unfold registered, infos. rewrite list_elem_of_fmap. split.
    - intros (Hs & r & data & Hr & Hd & ->). split; [|done]. exists data. split; [done|].
      apply list_elem_of_In, in_concat. exists (get_validators r net).
      split; [|by apply list_elem_of_In]. apply list_elem_of_In.
      apply (list_elem_of_fmap_2 (fun r => get_validators r net)). by rewrite Hp.
    - intros [(data & -> & Hd) Hs]. split; [done|].
      apply list_elem_of_In, in_concat in Hd as (l & Hl & Hd). apply list_elem_of_In, list_elem_of_fmap in Hl as (r & -> & Hr).
      exists r, data. split_and!; [by rewrite <- Hp|by apply list_elem_of_In|done]. }
  clearbody infos. destruct infos as [|v0 rest] eqn:Hi.
  - split; [done|]. intros slot v Hv. apply Hreg in Hv as [Hv _]. by apply elem_of_nil in Hv.
  - split.
    { exists (vi_slot v0), v0. apply Hreg. split; [left|done]. }
    rewrite <- Hi in *. intros slot. unfold get_by_slot, ValidatorSchedule_new.
    rewrite schedule_foldl, lookup_empty.
    destruct (filter (fun v => vi_slot v = slot) infos) as [|v l] eqn:Hf; simpl.
    + intros v Hv. apply Hreg in Hv as [Hv Hs].
      assert (v ∈ filter (fun v => vi_slot v = slot) infos) as Hin by by apply list_elem_of_filter.
      rewrite Hf in Hin. by apply elem_of_nil in Hin.
    + apply Hreg. assert (v ∈ filter (fun v => vi_slot v = slot) infos) as Hin by (rewrite Hf; left).
      by apply list_elem_of_filter in Hin as [? ?].
Qed.

(** The handle and the service agree: what a method of the handle returns for a command
    that is answered is made of the value of the future the service answers it with. *)
Lemma handle_awaits_service (connect : string -> nat -> option GrpcClient) (env : RelayEnv) (self : RelayHandle)
    (completed : list Relay) (net : Network) (bid : SignedBid) (bn ts : Z) :
  let service cmd := await_relay connect env completed net <$> head (relay_service_poll [cmd]).1 in
  (exists r, service (SubmitBid bid) = Some (BidSubmitted r) /\
     handle_submit_bid (Answered completed) net bid = run_map_err Client r) /\
  (exists l, service (GetBidTraces bn) = Some (BidTracesFound l) /\
     handle_get_bid_traces (Answered completed) net bn = Done l /\
     handle_get_top_bid self (Answered completed) net bn =
       Done (max_by_key bt_value
               (List.filter (fun t => negb (bt_builder_pubkey t =? rh_public_key self)) (concat l.*2)))) /\
  (exists b, service (GetInternalBestBid bn ts) = Some (InternalBestBid b) /\
     forall best, b = Done best ->
       handle_get_internal_best_bid connect env (Answered completed) net bn ts = Done best) /\
  (exists v, service LoadValidatorSchedule = Some (ScheduleLoaded v) /\
     handle_load_validator_schedule (Answered completed) net = lift_err Client v).
Proof.
  intros service. split_and!; eexists; split_and?; try done.
  intros best H. unfold handle_get_internal_best_bid, deliver. by rewrite H.
Qed.
End RelayProofs.

(** ** Evaluation on concrete inputs *)

Import Demo.

#[export] Instance demo_url : UrlLib := {| Url := string; url_parse s := Some s; url_to_string s := s |}.

(** what a reply carries *)
Inductive DemoBody :=
| DText (s : string)
| DValidators (l : list ValidatorRegistrationResponse)
| DTraces (l : list BidTrace)
| DBid (bid : SignedBid).

Record DemoReply := { dr_status : Z; dr_body : DemoBody }.

#[export] Instance demo_relay_libs : RelayLibs := {|
  ReqwestError := unit;
  HttpResponse := DemoReply;
  resp_status := dr_status;
  resp_text r := match dr_body r with DText s => Ok s | _ => Ok EmptyString end;
  json_validators r := match dr_body r with DValidators l => Ok l | _ => Err tt end;
  json_traces r := match dr_body r with DTraces l => Ok l | _ => Err tt end;
  json_best_bid r := match dr_body r with DBid bid => Ok (Some bid) | _ => Err tt end;
  bid_as_ssz_bytes bid := be_bytes 8 (bid_slot (sbd_message bid));
  IoError := unit;
  gzip bs := Ok bs;
  GrpcClient := string;
  GrpcStatus := string;
  grpc_status_to_string s := s;
|}.

(** a gRPC server that is up or not, refuses every bid, and relays that answer over HTTP *)
Definition demo_connect (up : bool) (url : string) (attempt : nat) : option GrpcClient :=
  if up && (2 <=? attempt)%nat then Some url else None.

Definition demo_bid_trace (builder value : Z) : BidTrace :=
  {| bt_slot := 1; bt_parent_hash := 77; bt_block_hash := 78; bt_builder_pubkey := builder;
     bt_proposer_pubkey := 1; bt_proposer_fee_recipient := 9; bt_gas_limit := 30000000;
     bt_gas_used := 21000; bt_value := value; bt_num_tx := 1; bt_block_number := 42;
     bt_timestamp := 250; bt_timestamp_ms := 10; bt_optimistic_submission := None |}.

Definition demo_registration (slot : Z) : ValidatorRegistrationResponse :=
  {| vrr_slot := slot; vrr_validator_index := None;
     vrr_entry := {| svr_message := {| reg_fee_recipient := 9; reg_gas_limit := 30000000;
                                       reg_timestamp := 0; reg_pubkey := 1 |};
                     svr_signature := 0 |} |}.

Definition demo_net : Network := {|
  http_send rq :=
    if rq_post rq then Ok {| dr_status := 200; dr_body := DText "Ok" |}
    else if decide (rq_url rq = "http://a/relay/v1/data/bidtraces/builder_blocks_received")
    then Ok {| dr_status := 200; dr_body := DTraces [demo_bid_trace 6 900; demo_bid_trace 7 500] |}
    else if decide (rq_url rq = "http://a/relay/v1/builder/validators")
    then Ok {| dr_status := 200; dr_body := DValidators [demo_registration 1; demo_registration 3] |}
    else Err tt;
  grpc_submit_block _ _ := Err "refused"%string;
|}.

Definition demo_relay_env : RelayEnv := {|
  INTERNAL_RELAY_SERVER_URL := Some "http://a/"%string;
  MERKLE_RELAY_URL_VAR := None;
  MERKLE_RELAY_GRPC_URL_VAR := None;
  DEVNET_RELAY_URL := None;
|}.

Definition demo_relays (up : bool) : list Relay :=
  match RelayPool_new (demo_connect up) demo_relay_env Simulate true with Done l => l | _ => [] end.

Lemma demo_relays_made up :
  RelayPool_new (demo_connect up) demo_relay_env Simulate true = Done (demo_relays up).
Proof. reflexivity. Qed.

Lemma demo_relays_rev up : rev (demo_relays up) ≡ₚ demo_relays up.
Proof. symmetry. apply Permutation_rev. Qed.

(** one relay refuses, the other accepts *)
Lemma broadcast_correct_witness :
  broadcast_submit_bid (rev (demo_relays true)) demo_net (demo_bid_of 5) = Done tt.
Proof.
  apply (broadcast_correct (demo_relays true) _ demo_net (demo_bid_of 5) (demo_relays_rev true)).
  - intros r [->|[->|Hr]%elem_of_cons]%elem_of_cons; [done|done|by apply elem_of_nil in Hr].
  - eexists. split; [right; left|]. eexists. by split.
Defined.

(** the best trace is the builder's own, which does not count *)
Lemma top_bid_correct_witness :
  handle_get_top_bid {| rh_public_key := 6 |} (Answered (rev (demo_relays true))) demo_net 42
    = Done (Some (demo_bid_trace 7 500)) /\
  rival_trace {| rh_public_key := 6 |} (demo_relays true) demo_net 42 (demo_bid_trace 7 500).
Proof.
  assert (handle_get_top_bid {| rh_public_key := 6 |} (Answered (rev (demo_relays true))) demo_net 42
    = Done (Some (demo_bid_trace 7 500))) as E by reflexivity.
  split; [exact E|].
  destruct (top_bid_correct {| rh_public_key := 6 |} (demo_relays true) _ demo_net 42 (demo_relays_rev true))
    as (top & Ht & H).
  pose proof (eq_trans (eq_sym E) Ht) as Et. injection Et as <-.
  apply H.
Defined.

Lemma relay_pool_ignores_run_mode_witness :
  exists merkle rest, RelayPool_new (demo_connect true) demo_relay_env Live true = Done (merkle :: rest) /\
    submit_bid merkle demo_net (demo_bid_of 5) = Fail (Submit "refused").
Proof.
  destruct (relay_pool_ignores_run_mode _ _ _ _ _ (demo_relays_made true)) as (H & merkle & rest & url & E & Hs & Hf).
  exists merkle, rest. split; [by rewrite <- E|].
  pose proof (f_equal (fun l => ri_submission <$> (relay_info <$> head l)) E) as Hu. simpl in Hu. rewrite Hs in Hu.
  injection Hu as Hu. subst url. by apply (Hf demo_net (demo_bid_of 5) "http://0.0.0.0:50051"%string "refused"%string).
Defined.

Lemma unreachable_grpc_panics_witness :
  broadcast_submit_bid (rev (demo_relays false)) demo_net (demo_bid_of 5) = Panicked.
Proof.
  by apply (unreachable_grpc_panics _ _ _ _ _ _ demo_net (demo_bid_of 5) (demo_relays_made false));
    [|apply demo_relays_rev].
Defined.

Lemma load_schedule_correct_witness :
  exists schedule, load_validator_schedule (rev (demo_relays true)) demo_net = Ok schedule /\
    registered (demo_relays true) demo_net 3 (slot_info_from (demo_registration 3)) /\
    get_by_slot schedule 2 = None.
Proof.
  pose proof (load_schedule_correct (demo_relays true) _ demo_net (demo_relays_rev true)) as H.
  destruct (load_validator_schedule _ demo_net) as [schedule|e] eqn:E; [|by destruct H as [_ H]].
  exists schedule. split; [done|].
  injection E as <-. split; [exact (proj2 H 3)|reflexivity].
Defined.
