(* ===== verification/BidMetrics.v ===== *)
(** * The bidder's counters and the submission of its bids

    Models [crates/payload/src/bidder/metrics.rs] and, with the real relay handle and the
    counters, [finalize_and_submit_build] and the receiving half of the poll of
    [crates/payload/src/bidder/service.rs].  The counters are shared by the
    service and the tasks it spawns, so what a task added before it panicked stays. *)

From stdpp Require Import prelude list gmap strings.
From S2P Require Import Prelude Types Bundle Validator Chain Payload SimState DemoEvm State StateFacts Policy Bid Bidder Relays GrpcMsg Relay.

Open Scope Z_scope.

(** ** The counters *)

Record PayloadBidderMetrics := {
  initiated_finalized_builds : Z;
  successful_finalized_builds : Z;
  failed_finalized_builds : Z;
  initiated_bids : Z;
  successful_bids : Z;
  failed_bids : Z;
  auction_infos : Z;
  auction_top_bids : Z;
}.

(** What an event adds to the counters; adding is the monoid of the increments. *)
Definition bidder_metrics_add (a b : PayloadBidderMetrics) : PayloadBidderMetrics := {|
  initiated_finalized_builds := initiated_finalized_builds a + initiated_finalized_builds b;
  successful_finalized_builds := successful_finalized_builds a + successful_finalized_builds b;
  failed_finalized_builds := failed_finalized_builds a + failed_finalized_builds b;
  initiated_bids := initiated_bids a + initiated_bids b;
  successful_bids := successful_bids a + successful_bids b;
  failed_bids := failed_bids a + failed_bids b;
  auction_infos := auction_infos a + auction_infos b;
  auction_top_bids := auction_top_bids a + auction_top_bids b;
|}.

Definition bidder_metrics_default : PayloadBidderMetrics := {|
  initiated_finalized_builds := 0; successful_finalized_builds := 0; failed_finalized_builds := 0;
  initiated_bids := 0; successful_bids := 0; failed_bids := 0; auction_infos := 0; auction_top_bids := 0 |}.

Definition inc_initiated_finalized_builds (m : PayloadBidderMetrics) : PayloadBidderMetrics :=
  bidder_metrics_add m {|
    initiated_finalized_builds := 1; successful_finalized_builds := 0; failed_finalized_builds := 0;
    initiated_bids := 0; successful_bids := 0; failed_bids := 0; auction_infos := 0; auction_top_bids := 0 |}.
Definition inc_successful_finalized_builds (m : PayloadBidderMetrics) : PayloadBidderMetrics :=
  bidder_metrics_add m {|
    initiated_finalized_builds := 0; successful_finalized_builds := 1; failed_finalized_builds := 0;
    initiated_bids := 0; successful_bids := 0; failed_bids := 0; auction_infos := 0; auction_top_bids := 0 |}.
Definition inc_failed_finalized_builds (m : PayloadBidderMetrics) : PayloadBidderMetrics :=
  bidder_metrics_add m {|
    initiated_finalized_builds := 0; successful_finalized_builds := 0; failed_finalized_builds := 1;
    initiated_bids := 0; successful_bids := 0; failed_bids := 0; auction_infos := 0; auction_top_bids := 0 |}.
Definition inc_initiated_bids (m : PayloadBidderMetrics) : PayloadBidderMetrics :=
  bidder_metrics_add m {|
    initiated_finalized_builds := 0; successful_finalized_builds := 0; failed_finalized_builds := 0;
    initiated_bids := 1; successful_bids := 0; failed_bids := 0; auction_infos := 0; auction_top_bids := 0 |}.
Definition inc_successful_bids (m : PayloadBidderMetrics) : PayloadBidderMetrics :=
  bidder_metrics_add m {|
    initiated_finalized_builds := 0; successful_finalized_builds := 0; failed_finalized_builds := 0;
    initiated_bids := 0; successful_bids := 1; failed_bids := 0; auction_infos := 0; auction_top_bids := 0 |}.
Definition inc_failed_bids (m : PayloadBidderMetrics) : PayloadBidderMetrics :=
  bidder_metrics_add m {|
    initiated_finalized_builds := 0; successful_finalized_builds := 0; failed_finalized_builds := 0;
    initiated_bids := 0; successful_bids := 0; failed_bids := 1; auction_infos := 0; auction_top_bids := 0 |}.
Definition inc_auction_infos (m : PayloadBidderMetrics) : PayloadBidderMetrics :=
  bidder_metrics_add m {|
    initiated_finalized_builds := 0; successful_finalized_builds := 0; failed_finalized_builds := 0;
    initiated_bids := 0; successful_bids := 0; failed_bids := 0; auction_infos := 1; auction_top_bids := 0 |}.
Definition inc_auction_top_bids (m : PayloadBidderMetrics) : PayloadBidderMetrics :=
  bidder_metrics_add m {|
    initiated_finalized_builds := 0; successful_finalized_builds := 0; failed_finalized_builds := 0;
    initiated_bids := 0; successful_bids := 0; failed_bids := 0; auction_infos := 0; auction_top_bids := 1 |}.

(** ** The task of a bid, with its counters and the relay handle *)

Section Metered.
Context `{EF : EnvelopeFrom} `{BL : Bls} `{RR : !ReceiptRoots} `{ER : ErrorText}.
Context `{RL : !RelayLibs} `{BB : !BlobsBundleV1} `{UL : UrlLib}.

(** [finalize_and_submit_build]: the counters, and the bid that was sent, if any *)
Definition finalize_metered (client : Chain.Client) (pool : TxPool) (d : Delivery) (net : Network)
    (build_state : BuildState) (bid : Z) (metrics : PayloadBidderMetrics) (signer : BlsSigner)
  : PayloadBidderMetrics * run Empty_set (option SignedBid) :=
  let metrics := inc_initiated_finalized_builds metrics in
  match build_submission_with_builder_payment client pool build_state bid with
  | Done build =>
      let metrics := inc_initiated_bids (inc_successful_finalized_builds metrics) in
      let message := Bid_new build (signer_public_key signer) in
      let signed_bid := SignedBid_new message (envelope_from (b_payload build)) signer in
      match handle_submit_bid d net signed_bid with
      | Done _ => (inc_successful_bids metrics, mret (Some signed_bid))
      | Fail _ => (inc_failed_bids metrics, mret (Some signed_bid))
      | Panicked => (metrics, Panicked)
      end
  | Fail _ => (inc_failed_finalized_builds metrics, mret None)
  | Panicked => (metrics, Panicked)
  end.

(** What one spawned task is given and finds: its relays, the network, the state of
    the chain. *)
Record BidTask := {
  bk_client : Chain.Client;
  bk_pool : TxPool;
  bk_delivery : Delivery;
  bk_net : Network;
  bk_build_state : BuildState;
  bk_bid : Z;
}.

Definition run_bid_task (signer : BlsSigner) (metrics : PayloadBidderMetrics) (t : BidTask)
  : PayloadBidderMetrics :=
  (finalize_metered (bk_client t) (bk_pool t) (bk_delivery t) (bk_net t) (bk_build_state t) (bk_bid t)
     metrics signer).1.

Definition run_bid_tasks (signer : BlsSigner) (metrics : PayloadBidderMetrics) (l : list BidTask)
  : PayloadBidderMetrics := foldl (run_bid_task signer) metrics l.
End Metered.

(** ** The receiving half of a poll, with its counters *)

Section Receiving.
Context `{EV : Evm} {RecvError RelayServiceErr : Type}.

Definition metered_auction_message (s : BidderService * PayloadBidderMetrics) (msg : Z * Z)
  : BidderService * PayloadBidderMetrics :=
  if is_none_or (bd_auction_bid_info s.1) (fun info => ai_slot info <? msg.1)
  then (on_auction_message s.1 msg, inc_auction_infos s.2)
  else (on_auction_message s.1 msg, s.2).

Definition metered_top_bid (s : BidderService * PayloadBidderMetrics)
    (rx : poll (result RecvError (result RelayServiceErr (option Z)))) : BidderService * PayloadBidderMetrics :=
  match bd_top_bid s.1, rx with
  | Some _, Ready (Ok (Ok (Some _))) => (poll_top_bid s.1 rx, inc_auction_top_bids s.2)
  | _, _ => (poll_top_bid s.1 rx, s.2)
  end.
End Receiving.

(** ** Properties *)

Lemma metrics_eq a b :
  initiated_finalized_builds a = initiated_finalized_builds b ->
  successful_finalized_builds a = successful_finalized_builds b ->
  failed_finalized_builds a = failed_finalized_builds b ->
  initiated_bids a = initiated_bids b -> successful_bids a = successful_bids b ->
  failed_bids a = failed_bids b -> auction_infos a = auction_infos b ->
  auction_top_bids a = auction_top_bids b -> a = b.
Proof. destruct a, b; simpl; intros; congruence. Qed.

Section MeteredProofs.
Context `{EF : EnvelopeFrom} `{BL : Bls} `{RR : !ReceiptRoots} `{ER : ErrorText}.
Context `{RL : !RelayLibs} `{BB : !BlobsBundleV1} `{UL : UrlLib}.

(** how the task of a bid ends *)
Inductive BidEnd := BuildFailed | BuildPanicked | BidTaken | BidRefused | BidPanicked.

#[export] Instance bid_end_eq_dec : EqDecision BidEnd.
Proof. solve_decision. Defined.

Definition task_build (t : BidTask) : run BidderServiceError Build :=
  build_submission_with_builder_payment (bk_client t) (bk_pool t) (bk_build_state t) (bk_bid t).

Definition signed_for (signer : BlsSigner) (build : Build) : SignedBid :=
  SignedBid_new (Bid_new build (signer_public_key signer)) (envelope_from (b_payload build)) signer.

Definition bid_end (signer : BlsSigner) (t : BidTask) : BidEnd :=
  match task_build t with
  | Fail _ => BuildFailed
  | Panicked => BuildPanicked
  | Done build =>
      match handle_submit_bid (bk_delivery t) (bk_net t) (signed_for signer build) with
      | Done _ => BidTaken
      | Fail _ => BidRefused
      | Panicked => BidPanicked
      end
  end.

Definition ended (signer : BlsSigner) (e : BidEnd) (l : list BidTask) : Z :=
  Z.of_nat (length (filter (fun t => bid_end signer t = e) l)).

Lemma ended_cons signer e t l :
  ended signer e (t :: l) = (if decide (bid_end signer t = e) then 1 else 0) + ended signer e l.
Proof. unfold ended. rewrite filter_cons. destruct (decide _); simpl; lia. Qed.

(** [broadcast] succeeds: no client panics, and some relay accepts *)
Lemma broadcast_done completed net bid :
  broadcast_submit_bid completed net bid = Done tt <->
  (forall r, r ∈ completed -> submit_bid r net bid <> Panicked) /\
  exists r, r ∈ completed /\ accepts net bid r.
Proof.
  unfold broadcast_submit_bid. pose proof (some_panics net bid completed) as Hp.
  pose proof (none_done net bid completed) as Hn. destruct (existsb _ _).
  - split; [done|]. intros [H _]. destruct (proj1 Hp eq_refl) as (r & Hr & Hs). by destruct (H r Hr).
  - assert (forall r, r ∈ completed -> submit_bid r net bid <> Panicked) as H.
    { intros r Hr Hs. discriminate (proj2 Hp (ex_intro _ r (conj Hr Hs))). }
    destruct (List.filter is_done _) as [|x l] eqn:E; simpl in *.
    + split; [done|]. intros (_ & r & Hr & Ha). by destruct (proj1 Hn eq_refl r Hr).
    + split; [intros _; split; [done|]|done].
      assert (In x (List.filter is_done (aggregate completed (broadcast_one net bid)))) as Hin
        by (rewrite E; by left).
      apply filter_In in Hin as [Hin Hd]. apply list_elem_of_In, list_elem_of_fmap in Hin as (r & -> & Hr).
      exists r. split; [done|by apply broadcast_one_done].
Qed.

Lemma handle_submit_done d net sb :
  (exists u, handle_submit_bid d net sb = Done u) <->
  exists relays, d = Answered relays /\ (forall r, r ∈ relays -> submit_bid r net sb <> Panicked) /\
    exists r, r ∈ relays /\ accepts net sb r.
Proof.
  unfold handle_submit_bid, deliver. destruct d as [| |relays]; [naive_solver..|].
  transitivity (broadcast_submit_bid relays net sb = Done tt).
  - destruct (broadcast_submit_bid relays net sb) as [[]|e|]; simpl; naive_solver.
  - rewrite broadcast_done. naive_solver.
Qed.

(** what one task adds *)
Lemma run_bid_task_counts signer m t :
  let m' := run_bid_task signer m t in
  let one e := if decide (bid_end signer t = e) then 1 else 0 in
  initiated_finalized_builds m' = initiated_finalized_builds m + 1 /\
  successful_finalized_builds m' = successful_finalized_builds m + (one BidTaken + one BidRefused + one BidPanicked) /\
  failed_finalized_builds m' = failed_finalized_builds m + one BuildFailed /\
  initiated_bids m' = initiated_bids m + (one BidTaken + one BidRefused + one BidPanicked) /\
  successful_bids m' = successful_bids m + one BidTaken /\
  failed_bids m' = failed_bids m + one BidRefused /\
  auction_infos m' = auction_infos m /\ auction_top_bids m' = auction_top_bids m.
Proof.
  unfold run_bid_task, finalize_metered, bid_end, task_build, signed_for.
  destruct (build_submission_with_builder_payment _ _ _ _) as [build|e|]; simpl; [|split_and!; lia..].
  destruct (handle_submit_bid _ _ _) as [u|e|]; simpl; split_and!; lia.
Qed.

(** what a run of tasks adds *)
Lemma run_bid_tasks_counts signer m l :
  let m' := run_bid_tasks signer m l in
  let built := ended signer BidTaken l + ended signer BidRefused l + ended signer BidPanicked l in
  initiated_finalized_builds m' = initiated_finalized_builds m + Z.of_nat (length l) /\
  successful_finalized_builds m' = successful_finalized_builds m + built /\
  failed_finalized_builds m' = failed_finalized_builds m + ended signer BuildFailed l /\
  initiated_bids m' = initiated_bids m + built /\
  successful_bids m' = successful_bids m + ended signer BidTaken l /\
  failed_bids m' = failed_bids m + ended signer BidRefused l /\
  auction_infos m' = auction_infos m /\ auction_top_bids m' = auction_top_bids m.
Proof.
  revert m. induction l as [|t l IH]; intros m; [unfold ended; split_and!; simpl; lia|].
  pose proof (run_bid_task_counts signer m t) as H. specialize (IH (run_bid_task signer m t)).
  rewrite !ended_cons. cbv beta zeta in *.
  change (run_bid_tasks signer m (t :: l)) with (run_bid_tasks signer (run_bid_task signer m t) l).
  cbn [length]. split_and!; lia.
Qed.

Lemma ended_all signer l :
  Z.of_nat (length l) = ended signer BuildFailed l + ended signer BuildPanicked l +
    ended signer BidTaken l + ended signer BidRefused l + ended signer BidPanicked l.
Proof.
  induction l as [|t l IH]; [done|]. rewrite !ended_cons. simpl. destruct (bid_end signer t); simpl; lia.
Qed.

Lemma ended_perm signer e l l' : l ≡ₚ l' -> ended signer e l = ended signer e l'.
Proof. intros H. unfold ended. by rewrite H. Qed.

Lemma bid_taken_iff signer t :
  bid_end signer t = BidTaken <-> exists build relays, task_build t = Done build /\
    bk_delivery t = Answered relays /\
    (forall r, r ∈ relays -> submit_bid r (bk_net t) (signed_for signer build) <> Panicked) /\
    exists r, r ∈ relays /\ accepts (bk_net t) (signed_for signer build) r.
Proof.
  unfold bid_end. destruct (task_build t) as [build|e|]; [|naive_solver..].
  pose proof (handle_submit_done (bk_delivery t) (bk_net t) (signed_for signer build)) as H.
  destruct (handle_submit_bid _ _ _); naive_solver.
Qed.

(** the counters add up: every bid that is tried is counted as one finalisation, and one
    that is built as one bid; the successful bids are exactly those that some relay
    accepts while no relay's client panics; and what is counted neither as a success
    nor as a failure is a panic.  The order in which the tasks run does not matter. *)
Theorem bids_accounted (signer : BlsSigner) (l l' : list BidTask) :
  l ≡ₚ l' ->
  let m := run_bid_tasks signer bidder_metrics_default l in
  initiated_finalized_builds m = Z.of_nat (length l) /\
  initiated_finalized_builds m =
    successful_finalized_builds m + failed_finalized_builds m + ended signer BuildPanicked l /\
  initiated_bids m = successful_finalized_builds m /\
  initiated_bids m = successful_bids m + failed_bids m + ended signer BidPanicked l /\
  successful_bids m = ended signer BidTaken l /\
  (forall t, bid_end signer t = BidTaken <-> exists build relays, task_build t = Done build /\
     bk_delivery t = Answered relays /\
     (forall r, r ∈ relays -> submit_bid r (bk_net t) (signed_for signer build) <> Panicked) /\
     exists r, r ∈ relays /\ accepts (bk_net t) (signed_for signer build) r) /\
  run_bid_tasks signer bidder_metrics_default l' = m.
Proof.
  intros Hp. pose proof (run_bid_tasks_counts signer bidder_metrics_default l) as H.
  pose proof (run_bid_tasks_counts signer bidder_metrics_default l') as H'.
  pose proof (ended_all signer l) as Ha. cbv beta zeta in *. simpl in *.
  assert (forall e, ended signer e l' = ended signer e l) as He by (intros e; symmetry; by apply ended_perm).
  rewrite !He, <- (Permutation_length Hp) in H'.
  do 5 (split; [lia|]). split; [apply bid_taken_iff|]. apply metrics_eq; lia.
Qed.

(** Without the counters, and with the relays' verdict in place of the handle, the task is
    [finalize_and_submit_build]. *)
Theorem finalize_metered_refines (client : Chain.Client) (pool : TxPool) (d : Delivery) (net : Network)
    (build_state : BuildState) (bid : Z) (metrics : PayloadBidderMetrics) (signer : BlsSigner) :
  (finalize_metered client pool d net build_state bid metrics signer).2 <> Panicked ->
  exists outcome,
    finalize_and_submit_build client pool (fun sb => is_done (handle_submit_bid d net sb)) build_state bid signer
      = Done outcome /\
    (finalize_metered client pool d net build_state bid metrics signer).2 =
      Done (match outcome with Submitted sb _ => Some sb | FailedFinalize _ => None end).
Proof.
  unfold finalize_metered, finalize_and_submit_build.
  destruct (build_submission_with_builder_payment _ _ _ _) as [build|e|]; simpl; [|by eauto|done].
  destruct (handle_submit_bid _ _ _); simpl; by eauto.
Qed.
End MeteredProofs.

Section ReceivingProofs.
Context `{EV : Evm} {RecvError RelayServiceErr : Type}.

(** the counter of auctions counts the records: the messages whose slot is above every
    slot before them, from the slot the bidder is at. *)
Fixpoint slot_records (at_slot : option Z) (msgs : list (Z * Z)) : nat :=
  match msgs with
  | [] => 0
  | msg :: msgs =>
      if is_none_or at_slot (fun s => s <? msg.1) then S (slot_records (Some msg.1) msgs)
      else slot_records at_slot msgs
  end.

Lemma metered_auction_message_eq s m msg :
  metered_auction_message (s, m) msg =
    (on_auction_message s msg,
     if is_none_or (auction_slot s) (fun k => k <? msg.1) then inc_auction_infos m else m) /\
  auction_slot (on_auction_message s msg) =
    (if is_none_or (auction_slot s) (fun k => k <? msg.1) then Some msg.1 else auction_slot s).
Proof.
  unfold metered_auction_message, on_auction_message, auction_slot. cbn [fst snd].
  destruct (bd_auction_bid_info s) as [info|] eqn:E; simpl; [|done].
  destruct (ai_slot info <? msg.1); [done|by rewrite E].
Qed.

Theorem auctions_counted (s : BidderService) (m : PayloadBidderMetrics) (msgs : list (Z * Z)) :
  let s' := foldl metered_auction_message (s, m) msgs in
  s'.1 = foldl on_auction_message s msgs /\
  auction_infos s'.2 = auction_infos m + Z.of_nat (slot_records (auction_slot s) msgs) /\
  initiated_bids s'.2 = initiated_bids m.
Proof.
  revert s m. induction msgs as [|msg msgs IH]; intros s m; [split_and!; simpl; (done || lia)|].
  destruct (metered_auction_message_eq s m msg) as [E Hs]. cbn [foldl slot_records]. rewrite E.
  destruct (is_none_or _ _);
    [specialize (IH (on_auction_message s msg) (inc_auction_infos m))
    |specialize (IH (on_auction_message s msg) m)];
    cbv zeta in IH; rewrite Hs in IH; destruct IH as (H1 & H2 & H3); split_and!; simpl in *; (done || lia).
Qed.
End ReceivingProofs.

(** ** Evaluation on concrete inputs *)

Import Demo.

(** a bid the relays accept, and one that is never handed to them *)
Definition demo_bid_task (d : Delivery) : BidTask :=
  {| bk_client := demo_accounts; bk_pool := []; bk_delivery := d; bk_net := demo_net;
     bk_build_state := demo_build_state; bk_bid := 700 |}.
Definition demo_bid_tasks : list BidTask :=
  [demo_bid_task (Answered (demo_relays true)); demo_bid_task NotSent].

Lemma bids_accounted_witness :
  let m := run_bid_tasks demo_signer bidder_metrics_default demo_bid_tasks in
  initiated_bids m = 2 /\ successful_bids m = 1 /\
  run_bid_tasks demo_signer bidder_metrics_default (rev demo_bid_tasks) = m.
Proof.
  destruct (bids_accounted demo_signer demo_bid_tasks (rev demo_bid_tasks)) as (_ & _ & _ & _ & _ & _ & H).
  - apply Permutation_rev.
  - split; [kernel_refl|]. split; [kernel_refl|exact H].
Defined.
