(* ===== verification/Submission.v ===== *)
(** * What a relay receives

    The submissions of [Relay] over the codecs of [BidSsz], [BidJson] and
    [GrpcMsg]: the SSZ encoding that [Relay] leaves open is the derived one, and
    a relay that reads a request the way its headers say finds the bid that
    was submitted.  The decompression a relay does is the class [Gunzip]. *)

From stdpp Require Import prelude list gmap strings.
From S2P Require Import Prelude Types Bundle Validator Chain Payload SimState DemoEvm State StateFacts Policy Bid Bidder Ssz Blst SszContainer BidSsz BidJson Relays GrpcMsg Relay.

Open Scope Z_scope.

(** ** The client's libraries, with the repository's own encoding of bids *)

(** [as_ssz_bytes] of [#[derive(Encode)]] on [SignedBid] *)
Definition derived_ssz `{SL : SszLib} `{HS : Hash256Ssz} `{SU : StdSsz} `{BS : BlstLib} `{EV : Evm}
    `{BZ : !BlobsSsz} (libs : RelayLibs) : RelayLibs := {|
  ReqwestError := @ReqwestError _ _ libs;
  HttpResponse := @HttpResponse _ _ libs;
  resp_status := @resp_status _ _ libs;
  resp_text := @resp_text _ _ libs;
  json_validators := @json_validators _ _ libs;
  json_traces := @json_traces _ _ libs;
  json_best_bid := @json_best_bid _ _ libs;
  bid_as_ssz_bytes := @as_ssz_bytes _ signed_bid_encode;
  IoError := @IoError _ _ libs;
  gzip := @gzip _ _ libs;
  GrpcClient := @GrpcClient _ _ libs;
  GrpcStatus := @GrpcStatus _ _ libs;
  grpc_status_to_string := @grpc_status_to_string _ _ libs;
|}.

(** what [flate2]'s encoder makes decompresses to what it was given *)
Class Gunzip `{EV : Evm} `{RL : !RelayLibs} := {
  gunzip : Bytes -> option Bytes;
  gunzip_gzip : forall bs z, gzip bs = Ok z -> gunzip z = Some bs;
}.

(** ** How a relay reads a submission *)

Definition header `{EV : Evm} (rq : HttpRequest) (name : string) : option string :=
  snd <$> List.find (fun h => bool_decide (h.1 = name)) (rq_headers rq).

Section Reading.
Context `{SL : SszLib} `{HS : Hash256Ssz} `{SU : StdSsz} `{BL : BlstLaws} `{AS : AlloySerde} `{HX : HexLib}.
Context (error_debug : Error -> string).
Context `{EV : Evm} `{BZ : !BlobsSsz} `{BJ : !BlobsSerde} `{RL : !RelayLibs} `{GZ : !Gunzip}.

#[local] Existing Instance signed_bid_encode.
#[local] Instance reads_ssz : SszDecode SignedBid := signed_bid_decode error_debug.
#[local] Instance reads_json : Serde SignedBid := signed_bid_serde error_debug.

(** the body before [Content-Encoding] *)
Definition plain_body (rq : HttpRequest) (body : Bytes) : option Bytes :=
  match header rq "Content-Encoding" with
  | Some encoding => if decide (encoding = "gzip"%string) then gunzip body else None
  | None => Some body
  end.

(** the bid in a request: JSON, or SSZ under [Content-Type: application/octet-stream] *)
Definition relay_reads (rq : HttpRequest) : option SignedBid :=
  match rq_body rq with
  | NoBody => None
  | JsonBid bid => of_json (to_json bid)
  | RawBody body =>
      if decide (header rq "Content-Type" = Some "application/octet-stream"%string) then
        plain ← plain_body rq body;
        match from_ssz_bytes plain with Ok bid => Some bid | Err _ => None end
      else None
  end.
End Reading.

(** ** Properties *)

Section Ranges.
Context `{BL : BlstLaws}.

Lemma word_in_range n bs : length bs = n -> is_word n (be_value bs).
Proof. intros <-. apply be_value_range. Qed.

Lemma pubkey_is_word w : pubkey_in_range w -> is_word 48 w.
Proof. intros (k & _ & ->). apply word_in_range, compress_length. Qed.

Lemma signature_is_word w : signature_in_range w -> is_word 96 w.
Proof. intros (s & _ & ->). apply word_in_range, sig_serialize_length. Qed.

Lemma bid_in_range_wf b : bid_in_range b -> bid_wf b.
Proof.
  intros (_ & ? & ? & Hb & Hp & ? & _). by split; try apply pubkey_is_word.
Qed.

Lemma payload_in_range_wf p : payload_in_range p -> payload_wf p.
Proof.
  intros (? & ? & ? & ? & _ & ? & _ & _ & _ & _ & ? & ? & Hw & _). split; try done.
  eapply Forall_impl; [exact Hw|]. by intros w (_ & _ & ? & _).
Qed.
End Ranges.

Section Delivery.
Context `{SL : SszLib} `{HS : Hash256Ssz} `{SU : StdSsz} `{BL : BlstLaws} `{AS : AlloySerde} `{HX : HexLib}.
Context (error_debug : Error -> string).
Context `{EV : Evm} `{BZ : !BlobsSsz} `{BJ : !BlobsSerde} `{BB : !BlobsBundleV1} `{UL : UrlLib}.
Context (libs : RelayLibs).

#[local] Instance client_libs : RelayLibs := derived_ssz libs.

Context `{GZ : !Gunzip}.

Abbreviation reads := (relay_reads error_debug).

(** the bytes of a bid decode to it *)
Lemma ssz_bytes_read (bid : SignedBid) :
  signed_bid_in_range bid -> Z.of_nat (length (bid_as_ssz_bytes bid)) < 2 ^ 32 ->
  @from_ssz_bytes _ (signed_bid_decode error_debug) (bid_as_ssz_bytes bid) = Ok bid.
Proof.
  intros Hr Hl. destruct (signed_bid_short error_debug bid Hr Hl) as [H1 H2].
  by apply (@codec_roundtrip _ _ _ _ (signed_bid_codec error_debug)).
Qed.

Lemma json_body_read (bid : SignedBid) :
  signed_bid_in_range bid ->
  @of_json _ (signed_bid_serde error_debug) (@to_json _ (signed_bid_serde error_debug) bid) = Some bid.
Proof.
  intros (Hm & Hp & _ & Hs). by apply (@json_roundtrip _ _ _ (signed_bid_serde_codec error_debug)).
Qed.

Lemma raw_body_read (rq : HttpRequest) body plain bid :
  rq_body rq = RawBody body -> header rq "Content-Type" = Some "application/octet-stream"%string ->
  plain_body rq body = Some plain -> @from_ssz_bytes _ (signed_bid_decode error_debug) plain = Ok bid ->
  reads rq = Some bid.
Proof.
  intros Hb Hh Hp Hr. unfold relay_reads. rewrite Hb, decide_True by done. rewrite Hp. cbn [mbind option_bind]. unfold reads_ssz. by rewrite Hr.
Qed.

(** a submission is one request to the relay's address, the bid in its body *)
Definition posts (self : RelayClient) (bid : SignedBid) (rq : HttpRequest) : Prop :=
  rq_post rq = true /\ rq_url rq = relay_url (rc_info self) SUBMIT_BID_PATH /\ rq_timeout rq = Some 2 /\
  reads rq = Some bid /\ forall net, client_submit_bid self net bid = post_bid net rq.

(** C18: a submission loses nothing of the bid, whatever the relay takes: over HTTP the
    client makes one request, to the relay's submission address, in which a relay that
    goes by the headers reads that bid (it makes none, and fails, only where gzip
    does); over gRPC it sends one request, which no bid with another message, payload
    or signature is sent as, and panics if it has no connection. *)
Theorem submission_delivers_bid (self : RelayClient) (bid : SignedBid) :
  signed_bid_in_range bid -> Z.of_nat (length (bid_as_ssz_bytes bid)) < 2 ^ 32 ->
  match ri_submission (rc_info self) with
  | Grpc _ =>
      match rc_grpc_client self with
      | None => forall net, client_submit_bid self net bid = Panicked
      | Some client => exists rq,
          (forall net, client_submit_bid self net bid =
             match grpc_submit_block net client rq with
             | Ok resp => Done {| sb_status := if sbr_code resp =? 200 then 200 else 500;
                                  sb_message := sbr_message resp |}
             | Err e => Fail (Submit (grpc_status_to_string e))
             end) /\
          forall bid', signed_bid_in_range bid' -> SubmitBlockRequest_from bid' = rq ->
            sbd_message bid' = sbd_message bid /\
            sbd_execution_payload bid' = sbd_execution_payload bid /\ sbd_signature bid' = sbd_signature bid
      end
  | Sszgzip =>
      match gzip (bid_as_ssz_bytes bid) with
      | Ok _ => exists rq, posts self bid rq
      | Err e => forall net, client_submit_bid self net bid = Fail (Gzip e)
      end
  | Relays.Ssz | Json => exists rq, posts self bid rq
  end.
Proof.
  intros Hr Hl. pose proof (ssz_bytes_read bid Hr Hl) as Hread. pose proof (json_body_read bid Hr) as Hjson.
  unfold posts, client_submit_bid. destruct (ri_submission (rc_info self)).
  - eexists. split_and!; [..|done]; try done. by eapply raw_body_read.
  - eexists. split_and!; [..|done]; done.
  - destruct (gzip _) as [z|e] eqn:Hz; [|done].
    eexists. split_and!; [..|done]; try done. eapply raw_body_read; [done..| |done]. exact (gunzip_gzip _ _ Hz).
  - destruct (rc_grpc_client self) as [client|]; [|done]. exists (SubmitBlockRequest_from bid). split.
    + intros net. cbn. by destruct (grpc_submit_block _ _ _).
    + destruct Hr as (Hm & Hp & _ & Hs). intros bid' (Hm' & Hp' & _ & Hs') He.
      apply submit_block_request_injective; [exact (bid_in_range_wf _ Hm')|exact (bid_in_range_wf _ Hm)
        |exact (payload_in_range_wf _ Hp')|exact (payload_in_range_wf _ Hp)
        |exact (signature_is_word _ Hs')|exact (signature_is_word _ Hs)|exact He].
Qed.
End Delivery.

(** ** Evaluation on concrete inputs *)

Import Demo.

#[local] Instance demo_client_libs : RelayLibs := derived_ssz demo_relay_libs.

Definition demo_gunzip : Gunzip.
Proof. refine {| gunzip bs := Some bs |}. by intros bs z [= <-]. Defined.
#[export] Existing Instance demo_gunzip.

Definition demo_client (kind : SubmissionKind) : RelayClient :=
  {| rc_info := RelayInfo_new Flashbots ("http://a/"%string : Url) kind; rc_grpc_client := None |}.

Lemma submission_delivers_bid_witness :
  exists rq, rq_url rq = "http://a/relay/v1/builder/blocks"%string /\
    relay_reads (fun _ => EmptyString) rq = Some demo_signed_bid.
Proof.
  destruct (submission_delivers_bid (fun _ => EmptyString) demo_relay_libs (demo_client Sszgzip) demo_signed_bid
    demo_signed_bid_in_range (proj1 (Z.ltb_lt _ _) demo_signed_bid_short)) as (rq & _ & Hu & _ & Hr & _).
  by exists rq.
Defined.
