(* ===== verification/InternalRelay.v ===== *)
(** * The internal relay's server

    Models the routes, filters and handlers of [crates/relay/src/internal_relay.rs]
    over the cache of [RelayCache], and proves that the client of [Relay] and this
    server keep each other's promises.  [warp]'s parsing of requests and [serde_json]
    are the class [Wire]. *)

From stdpp Require Import prelude list gmap strings pretty.
From Stdlib Require Import Ascii.
From S2P Require Import Prelude Numerals Types Bundle Validator Chain Payload SimState DemoEvm State StateFacts Policy Bid Bidder RelayCache Relays GrpcMsg Relay.

Open Scope Z_scope.

(** ** Requests and replies, as the filters see them *)

Inductive Method := GET | POST | OtherMethod.

#[export] Instance Method_eq_dec : EqDecision Method.
Proof. solve_decision. Defined.

Section Server.
Context `{EV : Evm}.

(** [wq_json_bid]: the body, if it is the JSON of a bid *)
Record WarpRequest := {
  wq_method : Method;
  wq_path : list string;
  wq_query : list (string * string);
  wq_content_length : option Z;
  wq_json_bid : option SignedBid;
}.

Inductive Reply :=
| TextReply (status : Z) (text : string)
| TracesReply (traces : list BidTrace)
| BidReply (bid : SignedBid)
| JsonMessage (status : Z) (message : string).

(** A filter and its handler, on a request that arrives at a time (milliseconds): the
    reply, or none for a rejection, and the cache the handler leaves. *)
Definition Route : Type := Z -> WarpRequest -> RelayBidCache -> option Reply * RelayBidCache.

(** *** Filters *)

(** [warp::path!]: these segments and no more *)
Definition path_is (segments : list string) (rq : WarpRequest) : bool :=
  bool_decide (wq_path rq = segments).

Definition method_is (m : Method) (rq : WarpRequest) : bool := bool_decide (wq_method rq = m).

(** A field of [warp::query]: exactly once, and a [u64] in decimal. *)
Definition query_u64 (name : string) (rq : WarpRequest) : option Z :=
  match List.filter (fun kv => bool_decide (kv.1 = name)) (wq_query rq) with
  | [(_, v)] => u64_from_str v
  | _ => None
  end.

Definition BODY_LIMIT : Z := 1024 * 1000 * 4.

(** [with_json_body]: a declared length within the limit, and a body that decodes *)
Definition with_json_body (rq : WarpRequest) : option SignedBid :=
  match wq_content_length rq with
  | Some n => if n <=? BODY_LIMIT then wq_json_bid rq else None
  | None => None
  end.

(** *** Handlers *)

Definition submit_block_bid_handler (now_ms : Z) (cache : RelayBidCache) (bid : SignedBid)
  : option Reply * RelayBidCache :=
  (Some (TextReply STATUS_OK "Ok"), cache_insert cache now_ms bid).

Record GetBidTracesRequest := { gt_block_number : Z }.

Definition get_bid_traces_handler (request : GetBidTracesRequest) (cache : RelayBidCache)
  : option Reply * RelayBidCache :=
  match get_all_bids cache (gt_block_number request) with
  | Some bids => (Some (TracesReply bids.*2), cache)
  | None => (None, cache)
  end.

Record GetBidRequest := { gr_block_number : Z; gr_timestamp : Z }.

Definition get_best_bid_handler (request : GetBidRequest) (cache : RelayBidCache)
  : option Reply * RelayBidCache :=
  match get_best_bid cache (gr_block_number request) (gr_timestamp request) with
  | Some bid => (Some (BidReply bid), cache)
  | None => (None, cache)
  end.

Definition rejection_handler : Reply := JsonMessage INTERNAL_SERVER_ERROR "internal server error".

(** *** Routes *)

Definition submit_block_bid_route : Route := fun now rq cache =>
  if path_is ["relay"; "v1"; "builder"; "blocks"] rq && method_is POST rq then
    match with_json_body rq with
    | Some bid => submit_block_bid_handler now cache bid
    | None => (None, cache)
    end
  else (None, cache).

Definition get_bid_traces_route : Route := fun _ rq cache =>
  if path_is ["relay"; "v1"; "data"; "bidtraces"; "builder_blocks_received"] rq && method_is GET rq then
    match query_u64 "block_number" rq with
    | Some block_number => get_bid_traces_handler {| gt_block_number := block_number |} cache
    | None => (None, cache)
    end
  else (None, cache).

Definition get_best_bid_route : Route := fun _ rq cache =>
  if path_is ["best_bid"] rq && method_is GET rq then
    match query_u64 "block_number" rq, query_u64 "timestamp" rq with
    | Some block_number, Some timestamp =>
        get_best_bid_handler {| gr_block_number := block_number; gr_timestamp := timestamp |} cache
    | _, _ => (None, cache)
    end
  else (None, cache).

(** [Filter::or]: the second where the first rejects *)
Definition route_or (f g : Route) : Route := fun now rq cache =>
  match f now rq cache with
  | (Some reply, cache) => (Some reply, cache)
  | (None, cache) => g now rq cache
  end.

(** [routes], and [recover] *)
Definition routes (now : Z) (rq : WarpRequest) (cache : RelayBidCache) : Reply * RelayBidCache :=
  match route_or (route_or submit_block_bid_route get_bid_traces_route) get_best_bid_route now rq cache with
  | (Some reply, cache) => (reply, cache)
  | (None, cache) => (rejection_handler, cache)
  end.

(** [MevBoostRelayServer::spawn]: the server answers requests, one at a time for the
    lock of the cache, from an empty cache on. *)
Definition spawn (l : list (Z * WarpRequest)) : list Reply * RelayBidCache :=
  foldl (fun acc x => let '(reply, cache) := routes x.1 x.2 acc.2 in (acc.1 ++ [reply], cache))
    ([], RelayBidCache_default) l.
End Server.

(** [str::split('/')] *)
Fixpoint split_slash (s : string) : list string :=
  match s with
  | EmptyString => [EmptyString]
  | String a s =>
      if decide (a = "/"%char) then EmptyString :: split_slash s
      else match split_slash s with
           | word :: words => String a word :: words
           | [] => [String a EmptyString]
           end
  end.

(** What [reqwest] and [warp] make of requests and replies: [root_url] holds of an address
    with no path, [json_len] is the length of a bid's JSON; [wire_bid] and [wire_trace] hold
    of the bids and the traces whose JSON reads back. *)
Class Wire `{EV : Evm} `{RL : !RelayLibs} `{UL : UrlLib} := {
  root_url : Url -> Prop;
  json_len : SignedBid -> Z;
  wire_bid : SignedBid -> Prop;
  wire_trace : BidTrace -> Prop;
  wire : HttpRequest -> WarpRequest;
  reply_wire : Reply -> HttpResponse;
}.

Class WireLaws `{W : Wire} : Prop := {
  wire_method rq : wq_method (wire rq) = if rq_post rq then POST else GET;
  wire_path u p rq :
    root_url u -> rq_url rq = (url_to_string u ++ p)%string -> wq_path (wire rq) = split_slash p;
  wire_query rq : wq_query (wire rq) = (fun kv => (kv.1, from_u64_to_str kv.2)) <$> rq_query rq;
  wire_length rq bid : rq_body rq = JsonBid bid -> wq_content_length (wire rq) = Some (json_len bid);
  wire_json rq bid : rq_body rq = JsonBid bid -> wire_bid bid -> wq_json_bid (wire rq) = Some bid;
  wire_to_trace now bid : is_u64 now -> wire_bid bid -> wire_trace (to_trace now bid);
  reply_text_status status text : resp_status (reply_wire (TextReply status text)) = status;
  reply_text_text status text : resp_text (reply_wire (TextReply status text)) = Ok text;
  reply_traces traces : Forall wire_trace traces -> json_traces (reply_wire (TracesReply traces)) = Ok traces;
  reply_bid bid : wire_bid bid -> json_best_bid (reply_wire (BidReply bid)) = Ok (Some bid);
  reply_message_status status m : resp_status (reply_wire (JsonMessage status m)) = status;
  reply_message_text status m : exists text, resp_text (reply_wire (JsonMessage status m)) = Ok text;
  reply_message_traces status m : is_ok (json_traces (reply_wire (JsonMessage status m))) = false;
  reply_message_bid status m : is_ok (json_best_bid (reply_wire (JsonMessage status m))) = false;
}.

(** ** Properties *)

Section Proofs.
Context `{WL : WireLaws} `{BB : !BlobsBundleV1}.

(** the network, as long as the server's cache is [cache] *)
Definition serves (net : Network) (now : Z) (cache : RelayBidCache) : Prop :=
  forall rq, http_send net rq = Ok (reply_wire (routes now (wire rq) cache).1).

(** the requests of the client for a relay at [u] *)
Definition submission (info : RelayInfo) (bid : SignedBid) : WarpRequest :=
  wire (post_request info [] (JsonBid bid)).

Lemma path_wire u path rq segments :
  root_url u -> rq_url rq = (url_to_string u ++ path)%string -> split_slash path = segments ->
  path_is segments (wire rq) = true.
Proof. intros Hu Hr Hs. apply bool_decide_eq_true. by rewrite (wire_path u path rq Hu Hr). Qed.

Lemma not_path_wire u path rq segments :
  root_url u -> rq_url rq = (url_to_string u ++ path)%string -> split_slash path <> segments ->
  path_is segments (wire rq) = false.
Proof. intros Hu Hr Hs. apply bool_decide_eq_false. by rewrite (wire_path u path rq Hu Hr). Qed.

(** the server, on a submission *)
Lemma routes_submit info now cache bid :
  root_url (ri_url info) -> wire_bid bid ->
  routes now (submission info bid) cache =
  (if json_len bid <=? BODY_LIMIT
   then (TextReply STATUS_OK "Ok", cache_insert cache now bid)
   else (rejection_handler, cache)).
Proof.
  intros Hu Hb. unfold submission. set (rq := post_request _ _ _). unfold routes, route_or, submit_block_bid_route.
  assert (Hp : forall segments, split_slash SUBMIT_BID_PATH <> segments -> path_is segments (wire rq) = false)
    by (intros segments; by apply (not_path_wire (ri_url info))).
  rewrite (path_wire (ri_url info) SUBMIT_BID_PATH) by done.
  assert (method_is POST (wire rq) = true) as -> by (apply bool_decide_eq_true; by rewrite wire_method).
  unfold with_json_body. rewrite (wire_length rq bid), (wire_json rq bid) by done. simpl.
  destruct (json_len bid <=? BODY_LIMIT); [done|].
  unfold get_bid_traces_route, get_best_bid_route. by rewrite !Hp.
Qed.

Lemma query_wire rq name v :
  0 <= v < 2 ^ 64 -> List.filter (fun kv => bool_decide (kv.1 = name)) (rq_query rq) = [(name, v)] ->
  query_u64 name (wire rq) = Some v.
Proof.
  intros Hv Hf. unfold query_u64. rewrite wire_query.
  assert (E : forall l : list (string * Z),
    List.filter (fun kv => bool_decide (kv.1 = name)) ((fun kv => (kv.1, from_u64_to_str kv.2)) <$> l) =
    (fun kv => (kv.1, from_u64_to_str kv.2)) <$> List.filter (fun kv => bool_decide (kv.1 = name)) l).
  { intros l. induction l as [|kv l IH]; [done|].
    rewrite fmap_cons. cbn [List.filter fst]. rewrite IH. by case_bool_decide. }
  rewrite E, Hf. simpl. by apply u64_from_pretty.
Qed.

Lemma routes_traces info now cache bn :
  root_url (ri_url info) -> 0 <= bn < 2 ^ 64 ->
  routes now (wire (get_request info BID_TRACES_PATH [("block_number", bn)] None)) cache =
  (match RelayCache.get_bid_traces cache bn with
   | Some traces => TracesReply traces
   | None => rejection_handler
   end, cache).
Proof.
  intros Hu Hbn. set (rq := get_request _ _ _ _). unfold routes, route_or.
  assert (Hp : forall segments, split_slash BID_TRACES_PATH <> segments -> path_is segments (wire rq) = false)
    by (intros segments; by apply (not_path_wire (ri_url info))).
  unfold submit_block_bid_route, get_best_bid_route. rewrite !Hp by done. cbn [andb].
  unfold get_bid_traces_route. rewrite (path_wire (ri_url info) BID_TRACES_PATH) by done.
  assert (method_is GET (wire rq) = true) as -> by (apply bool_decide_eq_true; by rewrite wire_method).
  rewrite (query_wire rq "block_number" bn) by done. cbn [andb].
  unfold get_bid_traces_handler, RelayCache.get_bid_traces. cbn [gt_block_number].
  by destruct (get_all_bids cache bn).
Qed.

Lemma routes_best info now cache bn ts :
  root_url (ri_url info) -> 0 <= bn < 2 ^ 64 -> 0 <= ts < 2 ^ 64 ->
  routes now (wire (get_request info INTERNAL_BEST_BID_PATH [("block_number", bn); ("timestamp", ts)] None)) cache =
  (match get_best_bid cache bn ts with
   | Some bid => BidReply bid
   | None => rejection_handler
   end, cache).
Proof.
  intros Hu Hbn Hts. set (rq := get_request _ _ _ _). unfold routes, route_or.
  assert (Hp : forall segments, split_slash INTERNAL_BEST_BID_PATH <> segments -> path_is segments (wire rq) = false)
    by (intros segments; by apply (not_path_wire (ri_url info))).
  unfold submit_block_bid_route, get_bid_traces_route. rewrite !Hp by done. cbn [andb].
  unfold get_best_bid_route. rewrite (path_wire (ri_url info) INTERNAL_BEST_BID_PATH) by done.
  assert (method_is GET (wire rq) = true) as -> by (apply bool_decide_eq_true; by rewrite wire_method).
  rewrite (query_wire rq "block_number" bn), (query_wire rq "timestamp" ts) by done. cbn [andb].
  unfold get_best_bid_handler. cbn [gr_block_number gr_timestamp].
  by destruct (get_best_bid cache bn ts).
Qed.

(** submitting to the internal relay: the bid is stored and the client is told so when
    its JSON is at most 4,096,000 bytes long; a longer bid (a few blobs are enough) is
    refused with status 500 and not stored, and the submission counts as failed. *)
Theorem internal_relay_submission (connect : string -> nat -> option GrpcClient) (env : RelayEnv)
    (info : RelayInfo) (net : Network) (now : Z) (cache : RelayBidCache) (bid : SignedBid) :
  INTERNAL env = Done info -> root_url (ri_url info) -> wire_bid bid -> serves net now cache ->
  let relay := RelayInstance_new connect info Live in
  if json_len bid <=? 4096000 then
    submit_bid relay net bid = Done {| sb_status := 200; sb_message := "Ok" |} /\
    broadcast_one net bid relay = Done tt /\
    (routes now (submission info bid) cache).2 = cache_insert cache now bid
  else
    (exists text, submit_bid relay net bid = Done {| sb_status := 500; sb_message := text |} /\
                  broadcast_one net bid relay = Fail (Submit text)) /\
    (routes now (submission info bid) cache).2 = cache.
Proof.
  intros Hi Hu Hb Hs relay. pose proof (routes_submit info now cache bid Hu Hb) as Hr.
  assert (Hsub : submit_bid relay net bid = post_bid net (post_request info [] (JsonBid bid)))
    by (unfold INTERNAL in Hi; run_inv; by subst).
  clearbody relay. unfold broadcast_one. rewrite Hsub. unfold post_bid.
  rewrite (Hs (post_request info [] (JsonBid bid))). unfold submission in *. rewrite Hr. change BODY_LIMIT with 4096000 in *. destruct (json_len bid <=? 4096000); simpl.
  - by rewrite reply_text_text, reply_text_status.
  - destruct (reply_message_text INTERNAL_SERVER_ERROR "internal server error") as [text Ht].
    unfold rejection_handler. rewrite Ht. simpl. rewrite reply_message_status. split; [by exists text|done].
Qed.

(** the bids that are stored *)
Definition fits (l : list (Z * SignedBid)) : list (Z * SignedBid) :=
  filter (fun x => json_len x.2 <= BODY_LIMIT) l.

Lemma fits_wire at_ms l bid :
  Forall (fun x => is_u64 x.1 /\ wire_bid x.2) l -> (at_ms, bid) ∈ fits l -> is_u64 at_ms /\ wire_bid bid.
Proof. intros Hl [_ Hin]%list_elem_of_filter. by apply (proj1 (Forall_forall _ _) Hl (at_ms, bid)). Qed.

Lemma traces_wire l bn :
  Forall (fun x => is_u64 x.1 /\ wire_bid x.2) l -> Forall wire_trace ((bids_for (fits l) bn).*2).
Proof.
  intros Hl. unfold bids_for. rewrite <- list_fmap_compose. apply Forall_fmap, Forall_forall.
  intros [at_ms bid] [_ Hin]%list_elem_of_filter. destruct (fits_wire at_ms l bid Hl Hin). by apply wire_to_trace.
Qed.

Lemma spawn_submissions info (l : list (Z * SignedBid)) :
  root_url (ri_url info) -> Forall (fun x => wire_bid x.2) l ->
  spawn ((fun x => (x.1, submission info x.2)) <$> l) =
  ((fun x => if json_len x.2 <=? BODY_LIMIT then TextReply STATUS_OK "Ok" else rejection_handler) <$> l,
   cache_run (fits l)).
Proof.
  intros Hu. unfold spawn, fits. induction l as [|x l IH] using rev_ind; [done|].
  intros [Hl [Hx _]%Forall_cons]%Forall_app.
  rewrite !fmap_app, foldl_app, (IH Hl). simpl. rewrite (routes_submit info x.1 _ x.2 Hu Hx), filter_app.
  unfold cache_run. rewrite foldl_app, filter_cons, filter_nil.
  destruct (Z.leb_spec (json_len x.2) BODY_LIMIT); case_decide; try lia; done.
Qed.

(** the client and the server of the internal relay together, after any sequence of
    submissions: every bid is acknowledged exactly when it fits, the traces the client is
    given for a recent block are those of all the bids stored for it, in order, and
    the best bid it is given is the most valuable of those received before the time
    asked for (none only if there is none). *)
Theorem internal_relay_end_to_end (connect : string -> nat -> option GrpcClient) (env : RelayEnv)
    (info : RelayInfo) (net : Network) (now : Z) (l : list (Z * SignedBid)) (bn ts : Z) :
  INTERNAL env = Done info -> root_url (ri_url info) -> 0 <= bn < 2 ^ 64 -> 0 <= ts < 2 ^ 64 ->
  Forall (fun x => is_u64 x.1 /\ wire_bid x.2) l ->
  let served := spawn ((fun x => (x.1, submission info x.2)) <$> l) in
  serves net now served.2 -> live (fits l) bn ->
  served.1 = (fun x => if json_len x.2 <=? 4096000 then TextReply 200 "Ok" else rejection_handler) <$> l /\
  get_bid_traces (RelayInstance_new connect info Live) net bn =
    (if decide (bids_for (fits l) bn = []) then None else Some (MerkleInternal, (bids_for (fits l) bn).*2)) /\
  exists best, internal_best_bid connect env net bn ts = Done best /\
    match best with
    | Some b =>
        (exists at_ms, (at_ms, b) ∈ fits l /\ at_ms < ts /\ signed_bid_block_number b = bn) /\
        forall at_ms b', (at_ms, b') ∈ fits l -> at_ms < ts -> signed_bid_block_number b' = bn ->
          bid_value (sbd_message b') <= bid_value (sbd_message b)
    | None => forall at_ms b', (at_ms, b') ∈ fits l -> at_ms < ts -> signed_bid_block_number b' <> bn
    end.
Proof.
  intros Hi Hu Hbn Hts Hl served Hs Hlive. unfold served, serves in *.
  rewrite spawn_submissions in * by (done || (eapply Forall_impl; [exact Hl|]; by intros ? [])).
  split; [done|]. split.
  - assert (Hc : get_bid_traces (RelayInstance_new connect info Live) net bn = client_get_bid_traces info net bn)
      by done.
    assert (Hn : ri_name info = MerkleInternal) by (unfold INTERNAL in Hi; run_inv; by subst).
    rewrite Hc. unfold client_get_bid_traces. rewrite Hs. cbn [snd].
    rewrite (routes_traces info now _ bn Hu Hbn). cbn [fst]. unfold RelayCache.get_bid_traces, get_all_bids.
    rewrite cache_lookup. destruct (decide (bids_for (fits l) bn = [])) as [E|E].
    + rewrite decide_False by naive_solver. simpl.
      pose proof (reply_message_traces INTERNAL_SERVER_ERROR "internal server error") as Hm.
      fold rejection_handler in Hm. by destruct (json_traces _).
    + rewrite decide_True by done. simpl. by rewrite reply_traces, Hn by by apply traces_wire.
  - exists (get_best_bid (cache_run (fits l)) bn ts). split; [|by apply best_bid_correct].
    unfold internal_best_bid, pool_internal. rewrite Hi. simpl. unfold client_get_internal_best_bid.
    rewrite Hs. cbn [snd].
    rewrite (routes_best info now _ bn ts Hu Hbn Hts). cbn [fst].
    pose proof (best_bid_correct (fits l) bn ts Hlive) as Hbest.
    destruct (get_best_bid _ bn ts) as [b|].
    { destruct Hbest as [(at_ms & Hin & _) _]. rewrite reply_bid; [done|]. by eapply (fits_wire _ l). }
    pose proof (reply_message_bid INTERNAL_SERVER_ERROR "internal server error") as Hm.
    fold rejection_handler in Hm. by destruct (json_best_bid _).
Qed.
End Proofs.

(** ** Evaluation on concrete inputs *)

Import Demo.

(** the path of an address of the form [http://a/...] *)
Definition demo_segments (url : string) : list string :=
  match url with
  | String _ (String _ (String _ (String _ (String _ (String _ (String _ (String _ (String _ path)))))))) =>
      split_slash path
  | _ => []
  end.

#[export] Instance demo_wire : Wire := {|
  root_url u := u = "http://a/"%string;
  json_len bid := 5000000 * Z.of_nat (length (sbd_blobs_bundle bid));
  wire_bid _ := True;
  wire_trace _ := True;
  wire rq := {|
    wq_method := if rq_post rq then POST else GET;
    wq_path := demo_segments (rq_url rq);
    wq_query := (fun kv => (kv.1, from_u64_to_str kv.2)) <$> rq_query rq;
    wq_content_length :=
      match rq_body rq with
      | JsonBid bid => Some (5000000 * Z.of_nat (length (sbd_blobs_bundle bid)))
      | _ => None
      end;
    wq_json_bid := match rq_body rq with JsonBid bid => Some bid | _ => None end;
  |};
  reply_wire r :=
    match r with
    | TextReply status text => {| dr_status := status; dr_body := DText text |}
    | TracesReply traces => {| dr_status := 200; dr_body := DTraces traces |}
    | BidReply bid => {| dr_status := 200; dr_body := DBid bid |}
    | JsonMessage status m => {| dr_status := status; dr_body := DText m |}
    end;
|}.

#[export] Instance demo_wire_laws : WireLaws.
Proof.
  split; try done; simpl.
  - intros u p rq -> ->. reflexivity.
  - intros rq bid ->. done.
  - intros rq bid ->. done.
  - intros status m. by exists m.
Qed.

Definition demo_internal : RelayInfo :=
  match INTERNAL demo_relay_env with Done info => info | _ => RelayInfo_new UnknownRelay EmptyString Json end.

Definition demo_served (now : Z) (cache : RelayBidCache) : Network := {|
  http_send rq := Ok (reply_wire (routes now (wire rq) cache).1);
  grpc_submit_block _ _ := Err "no such service"%string;
|}.

Definition demo_valued (value : Z) : SignedBid :=
  {| sbd_message := {| bid_slot := 1; bid_parent_hash := 77; bid_block_hash := 78; bid_builder_pubkey := 6;
       bid_proposer_pubkey := 1; bid_proposer_fee_recipient := 9; bid_gas_limit := 30000000;
       bid_gas_used := 21000; bid_value := value |};
     sbd_execution_payload := demo_exec_payload; sbd_blobs_bundle := []; sbd_signature := 5 |}.

Definition demo_submitted : list (Z * SignedBid) := [(10, demo_valued 700); (11, demo_valued 900); (12, demo_valued 800)].

Lemma internal_relay_submission_witness :
  submit_bid (RelayInstance_new (demo_connect true) demo_internal Live) (demo_served 10 RelayBidCache_default)
    (demo_valued 700) = Done {| sb_status := 200; sb_message := "Ok" |}.
Proof.
  pose proof (internal_relay_submission (demo_connect true) demo_relay_env demo_internal
    (demo_served 10 RelayBidCache_default) 10 RelayBidCache_default (demo_valued 700)
    eq_refl eq_refl I (fun _ => eq_refl)) as H.
  assert (json_len (demo_valued 700) <=? 4096000 = true) as E by reflexivity.
  cbv zeta in H. rewrite E in H. apply H.
Defined.

Lemma internal_relay_end_to_end_witness :
  exists b at_ms, internal_best_bid (demo_connect true) demo_relay_env
      (demo_served 20 (spawn ((fun x => (x.1, submission demo_internal x.2)) <$> demo_submitted)).2) 42 12
    = Done (Some b) /\ (at_ms, b) ∈ demo_submitted /\ at_ms < 12 /\ 900 <= bid_value (sbd_message b).
Proof.
  destruct (internal_relay_end_to_end (demo_connect true) demo_relay_env demo_internal
    (demo_served 20 (spawn ((fun x => (x.1, submission demo_internal x.2)) <$> demo_submitted)).2)
    20 demo_submitted 42 12) as (_ & _ & best & Hb & H); try done.
  - by repeat constructor.
  - by right.
  - destruct best as [b|].
    + destruct H as [(at_ms & Hin & Ht & _) Hmax]. exists b, at_ms. split_and!; [done|done|done|].
      apply (Hmax 11 (demo_valued 900)); [right; left|done|done].
    + exfalso. apply (H 11 (demo_valued 900)); [right; left|done|done].
Defined.
