(* ===== verification/JsonWire.v ===== *)
(** * The internal relay over JSON

    Discharges the contract [Wire] of [InternalRelay] with the encodings of
    [BidJson] and [JsonText]: what [reqwest] and [warp] carry is text, and what each
    side reads is what the derived JSON makes of it. *)

From stdpp Require Import prelude list gmap strings.
From S2P Require Import Prelude Numerals Types Bundle Validator Chain Payload SimState DemoEvm State StateFacts Policy Bid Bidder RelayCache Ssz Blst SszContainer BidSsz BidJson JsonText Relays GrpcMsg Relay Submission InternalRelay.

Open Scope Z_scope.

(** ** Messages *)

(** a reply: its status and the text of its body *)
Record HttpMessage := { hm_status : Z; hm_text : string }.

(** The path of an address. *)
Class UrlPaths `{UL : UrlLib} := {
  at_root : Url -> Prop;
  url_segments : string -> list string;
  url_segments_of : forall u p, at_root u -> url_segments (url_to_string u ++ p)%string = split_slash p;
}.

Section JsonWire.
Context `{SL : SszLib} `{HS : Hash256Ssz} `{SU : StdSsz} `{BS : BlstLib} `{AS : AlloySerde} `{HX : HexLib}.
Context (error_debug : Error -> string).
Context `{EV : Evm} `{BZ : !BlobsSsz} `{BJ : !BlobsSerde} `{JT : JsonText} `{UP : UrlPaths}.
Context (libs : RelayLibs) (decode_error : @ReqwestError _ _ libs).

#[local] Instance wire_signed_bid : Serde SignedBid := signed_bid_serde error_debug.
#[local] Instance wire_bid_trace : Serde BidTrace := bid_trace_serde error_debug.
#[local] Instance wire_registration : Serde ValidatorRegistrationResponse := registration_response_serde error_debug.

(** [Response::json] *)
Definition read_json {A} `{Serde A} (r : HttpMessage) : result (@ReqwestError _ _ libs) A :=
  match of_text (hm_text r) with Some x => Ok x | None => Err decode_error end.

(** the client's libraries, with the derived JSON of what it reads and the derived SSZ
    of what it sends *)
Definition json_libs : RelayLibs := {|
  ReqwestError := @ReqwestError _ _ libs;
  HttpResponse := HttpMessage;
  resp_status := hm_status;
  resp_text r := Ok (hm_text r);
  json_validators := @read_json _ vec_serde;
  json_traces := @read_json _ vec_serde;
  json_best_bid := @read_json _ option_serde;
  bid_as_ssz_bytes := @as_ssz_bytes _ signed_bid_encode;
  IoError := @IoError _ _ libs;
  gzip := @gzip _ _ libs;
  GrpcClient := @GrpcClient _ _ libs;
  GrpcStatus := @GrpcStatus _ _ libs;
  grpc_status_to_string := @grpc_status_to_string _ _ libs;
|}.

(** the body of a request, as text *)
Definition body_text (rq : HttpRequest) : option string :=
  match rq_body rq with
  | NoBody => None
  | JsonBid bid => Some (to_text bid)
  | RawBody bytes => Some (String.string_of_list_byte bytes)
  end.

(** [warp::body::json]: a declared type other than JSON is refused *)
Definition is_json (rq : HttpRequest) : bool :=
  match rq_body rq, header rq "Content-Type" with
  | JsonBid _, _ => true
  | _, Some content_type => bool_decide (content_type = "application/json"%string)
  | _, None => true
  end.

#[local] Existing Instance json_libs.

Definition json_wire : Wire := {|
  root_url := at_root;
  json_len bid := Z.of_nat (String.length (to_text bid));
  wire_bid bid := signed_bid_words_in_range bid /\
    is_u64 (Z.of_nat (length (ep_transactions (sbd_execution_payload bid))));
  wire_trace := bid_trace_in_range;
  wire rq := {|
    wq_method := if rq_post rq then POST else GET;
    wq_path := url_segments (rq_url rq);
    wq_query := (fun kv => (kv.1, from_u64_to_str kv.2)) <$> rq_query rq;
    wq_content_length := (fun text => Z.of_nat (String.length text)) <$> body_text rq;
    wq_json_bid := text ← body_text rq; if is_json rq then of_text text else None;
  |};
  reply_wire r :=
    match r with
    | TextReply status text => {| hm_status := status; hm_text := text |}
    | TracesReply traces => {| hm_status := STATUS_OK; hm_text := @to_text _ _ vec_serde traces |}
    | BidReply bid => {| hm_status := STATUS_OK; hm_text := to_text bid |}
    | JsonMessage status m => {| hm_status := status; hm_text := to_text m |}
    end;
|}.
End JsonWire.

(** ** Properties *)

Section Laws.
Context `{SL : SszLib} `{HS : Hash256Ssz} `{SU : StdSsz} `{BL : BlstLaws} `{AS : AlloySerde} `{AF : !AlloyFits}.
Context `{HX : HexLib} (error_debug : Error -> string).
Context `{EV : Evm} `{BZ : !BlobsSsz} `{BJ : !BlobsSerde} `{BF : !SerdeFits SszBlobs} `{JT : JsonText}.
Context `{UP : UrlPaths} `{BB : !BlobsBundleV1} (libs : RelayLibs) (decode_error : @ReqwestError _ _ libs).

#[local] Instance the_libs : RelayLibs := json_libs error_debug libs decode_error.
#[local] Instance the_wire : Wire := json_wire error_debug libs decode_error.

#[local] Instance law_signed_bid : Serde SignedBid := signed_bid_serde error_debug.
#[local] Instance law_bid_trace : Serde BidTrace := bid_trace_serde error_debug.
#[local] Instance law_registration : Serde ValidatorRegistrationResponse := registration_response_serde error_debug.
#[local] Instance law_traces : Serde (list BidTrace) := vec_serde.
#[local] Instance law_registrations : Serde (list ValidatorRegistrationResponse) := vec_serde.
#[local] Instance law_best_bid : Serde (option SignedBid) := option_serde.

#[local] Instance law_signed_bid_codec : SerdeCodec SignedBid signed_bid_words_in_range :=
  signed_bid_serde_codec error_debug.
#[local] Instance law_signed_bid_fits : SerdeFits SignedBid := signed_bid_fits error_debug.
#[local] Instance law_trace_codec : SerdeCodec BidTrace bid_trace_in_range := bid_trace_serde_codec error_debug.
#[local] Instance law_trace_fits : SerdeFits BidTrace := bid_trace_fits error_debug.
#[local] Instance law_registration_codec : SerdeCodec ValidatorRegistrationResponse registration_in_range :=
  registration_response_codec error_debug.
#[local] Instance law_registration_fits : SerdeFits ValidatorRegistrationResponse :=
  registration_response_fits error_debug.

Lemma signed_bid_text (bid : SignedBid) : signed_bid_words_in_range bid -> of_text (to_text bid) = Some bid.
Proof. apply of_to_text. Qed.

Lemma traces_text (l : list BidTrace) : Forall bid_trace_in_range l -> of_text (to_text l) = Some l.
Proof. apply (of_to_text (HC := vec_serde_codec) (SerdeFits0 := vec_fits)). Qed.

Lemma registrations_text (l : list ValidatorRegistrationResponse) :
  Forall registration_in_range l -> of_text (to_text l) = Some l.
Proof. apply (of_to_text (HC := vec_serde_codec) (SerdeFits0 := vec_fits)). Qed.

Lemma bid_json_not_null (bid : SignedBid) : signed_bid_words_in_range bid -> to_json bid <> JNull.
Proof. intros _. unfold law_signed_bid, signed_bid_serde, struct_serde. cbn [to_json]. discriminate. Qed.

Lemma best_bid_text (best : option SignedBid) :
  (forall bid, best = Some bid -> signed_bid_words_in_range bid) -> of_text (to_text best) = Some best.
Proof.
  apply (of_to_text (HC := option_serde_codec bid_json_not_null) (SerdeFits0 := option_fits)).
Qed.

Lemma to_trace_in_range now (bid : SignedBid) :
  is_u64 now -> signed_bid_words_in_range bid ->
  is_u64 (Z.of_nat (length (ep_transactions (sbd_execution_payload bid)))) ->
  bid_trace_in_range (to_trace now bid).
Proof.
  intros Hn ((? & ? & ? & ? & ? & ? & ? & ? & ?) & Hp & _) Ht. unfold payload_in_range in Hp.
  unfold bid_trace_in_range. simpl. naive_solver.
Qed.

(** a message in JSON is neither a list of traces nor a bid *)
Lemma message_text (m : string) :
  of_text (A := list BidTrace) (to_text m) = None /\ of_text (A := option SignedBid) (to_text m) = None.
Proof. unfold of_text, to_text. by rewrite json_parse_text. Qed.

Lemma read_text {A} `{Serde A} (status : Z) (s : string) (x : A) :
  of_text s = Some x -> read_json libs decode_error {| hm_status := status; hm_text := s |} = Ok x.
Proof. intros E. unfold read_json. cbn [hm_text]. by rewrite E. Qed.

Lemma read_no_text {A} `{Serde A} (status : Z) (s : string) :
  of_text (A := A) s = None ->
  read_json (A := A) libs decode_error {| hm_status := status; hm_text := s |} = Err decode_error.
Proof. intros E. unfold read_json. cbn [hm_text]. by rewrite E. Qed.

(** The contract of the wire is kept by the JSON the two sides exchange. *)
Lemma json_wire_laws : WireLaws.
Proof.
  split; try done.
  - intros u p rq Hu Hr. cbn [wq_path wire the_wire json_wire]. rewrite Hr. by apply url_segments_of.
  - intros rq bid E. cbn [wq_content_length wire the_wire json_wire]. unfold body_text. by rewrite E.
  - intros rq bid E [Hb _]. cbn [wq_json_bid wire the_wire json_wire]. unfold body_text, is_json. rewrite E.
    exact (signed_bid_text bid Hb).
  - intros now bid Hn [Hb Ht]. by apply to_trace_in_range.
  - intros traces Ht. apply read_text. exact (traces_text traces Ht).
  - intros bid [Hb _]. apply read_text. apply (best_bid_text (Some bid)). by intros ? [= <-].
  - by eexists.
  - intros status m. exact (f_equal is_ok (read_no_text status (to_text m) (proj1 (message_text m)))).
  - intros status m. exact (f_equal is_ok (read_no_text status (to_text m) (proj2 (message_text m)))).
Qed.

#[local] Existing Instance json_wire_laws.

(** what a relay answers in JSON is what the client has: its registrations, its traces
    and its best bid ([null] for none), and nothing from a text that is none of these *)
Theorem relay_answers_read (info : RelayInfo) (net : Network) (status bn ts : Z) (text : string) :
  let answers rq s := http_send net rq = Ok {| hm_status := status; hm_text := s |} in
  (forall l, Forall registration_in_range l ->
     answers (get_request info VALIDATOR_REGISTRATIONS_PATH [] (Some 2)) (to_text l) ->
     client_get_validators info net = l) /\
  (forall l, Forall bid_trace_in_range l ->
     answers (get_request info BID_TRACES_PATH [("block_number"%string, bn)] None) (to_text l) ->
     client_get_bid_traces info net bn = Some (ri_name info, l)) /\
  (forall best, (forall bid, best = Some bid -> signed_bid_words_in_range bid) ->
     answers (get_request info INTERNAL_BEST_BID_PATH [("block_number"%string, bn); ("timestamp"%string, ts)] None)
       (to_text best) ->
     client_get_internal_best_bid info net bn ts = best) /\
  (json_parse text = None -> (forall rq, answers rq text) ->
     client_get_validators info net = [] /\ client_get_bid_traces info net bn = None /\
     client_get_internal_best_bid info net bn ts = None).
Proof.
  intros answers.
  unfold answers, client_get_validators, client_get_bid_traces, client_get_internal_best_bid. split_and!.
  - intros l Hl ->. pose proof (read_text status _ _ (registrations_text l Hl)) as E.
    change (read_json _ _ _) with (json_validators {| hm_status := status; hm_text := to_text l |}) in E. by rewrite E.
  - intros l Hl ->. pose proof (read_text status _ _ (traces_text l Hl)) as E.
    change (read_json _ _ _) with (json_traces {| hm_status := status; hm_text := to_text l |}) in E. by rewrite E.
  - intros best Hb ->. pose proof (read_text status _ _ (best_bid_text best Hb)) as E.
    change (read_json _ _ _) with (json_best_bid {| hm_status := status; hm_text := to_text best |}) in E. by rewrite E.
  - intros Hn Ha. rewrite !Ha.
    assert (Hr : forall A (H : Serde A), of_text (A := A) text = None) by (intros; unfold of_text; by rewrite Hn).
    pose proof (read_no_text status _ (Hr _ law_registrations)) as E1.
    pose proof (read_no_text status _ (Hr _ law_traces)) as E2.
    pose proof (read_no_text status _ (Hr _ law_best_bid)) as E3.
    change (read_json _ _ _) with (json_validators {| hm_status := status; hm_text := text |}) in E1.
    change (read_json _ _ _) with (json_traces {| hm_status := status; hm_text := text |}) in E2.
    change (read_json _ _ _) with (json_best_bid {| hm_status := status; hm_text := text |}) in E3.
    by rewrite E1, E2, E3.
Qed.

(** a bid and the time of its submission, with values of their types *)
Definition submitted_in_range (x : Z * SignedBid) : Prop :=
  is_u64 x.1 /\ signed_bid_words_in_range x.2 /\
  is_u64 (Z.of_nat (length (ep_transactions (sbd_execution_payload x.2)))).

(** C14: the client and the server of the internal relay together, exchanging JSON, after any
    sequence of submissions of bids in range: every bid is acknowledged, and stored, exactly
    when its text is at most 4,096,000 bytes long; and for a block that the cache still
    holds, at most three below the highest that was stored, the traces the client reads
    are those of all the bids stored for it, in order, and the best bid it reads is the most
    valuable of those received before the time asked for (none only if there is none). *)
Theorem internal_relay_over_json (connect : string -> nat -> option GrpcClient) (env : RelayEnv)
    (info : RelayInfo) (net : Network) (now : Z) (l : list (Z * SignedBid)) (bn ts : Z) :
  INTERNAL env = Done info -> at_root (ri_url info) -> 0 <= bn < 2 ^ 64 -> 0 <= ts < 2 ^ 64 ->
  Forall submitted_in_range l ->
  let fits bid := Z.of_nat (String.length (to_text bid)) <= 4096000 in
  let stored := filter (fun x => fits x.2) l in
  let served := spawn ((fun x => (x.1, submission info x.2)) <$> l) in
  serves net now served.2 -> live stored bn ->
  served.1 = (fun x => if decide (fits x.2) then TextReply 200 "Ok" else rejection_handler) <$> l /\
  get_bid_traces (RelayInstance_new connect info Live) net bn =
    (if decide (bids_for stored bn = []) then None else Some (MerkleInternal, (bids_for stored bn).*2)) /\
  exists best, internal_best_bid connect env net bn ts = Done best /\
    match best with
    | Some b =>
        (exists at_ms, (at_ms, b) ∈ stored /\ at_ms < ts /\ signed_bid_block_number b = bn) /\
        forall at_ms b', (at_ms, b') ∈ stored -> at_ms < ts -> signed_bid_block_number b' = bn ->
          bid_value (sbd_message b') <= bid_value (sbd_message b)
    | None => forall at_ms b', (at_ms, b') ∈ stored -> at_ms < ts -> signed_bid_block_number b' <> bn
    end.
Proof.
  intros Hi Hu Hbn Hts Hl fits stored served Hs Hlive.
  destruct (internal_relay_end_to_end (W := the_wire) connect env info net now l bn ts Hi Hu Hbn Hts Hl Hs Hlive) as [Ha H].
  split; [clear H|exact H]. unfold served. rewrite Ha. apply list_fmap_ext. intros _ x _. unfold fits.
  change (json_len x.2) with (Z.of_nat (String.length (to_text x.2))).
  destruct (Z.leb_spec (Z.of_nat (String.length (to_text x.2))) 4096000); case_decide; done || lia.
Qed.
End Laws.

(** ** Evaluation on concrete inputs *)

Import Demo.

#[export] Instance demo_paths : UrlPaths.
Proof.
  refine {| at_root u := u = "http://a/"%string; url_segments := demo_segments |}.
  by intros u p ->.
Defined.

#[local] Instance demo_json_bid : Serde SignedBid := signed_bid_serde (fun _ => EmptyString).
#[local] Instance demo_json_libs : RelayLibs := json_libs (fun _ => EmptyString) demo_relay_libs tt.
#[local] Instance demo_json_wire : Wire := json_wire (fun _ => EmptyString) demo_relay_libs tt.

Definition demo_json_served (now : Z) (cache : RelayBidCache) : Network := {|
  http_send rq := Ok (reply_wire (routes now (wire rq) cache).1);
  grpc_submit_block _ _ := Err "no such service"%string;
|}.

Definition demo_json_connect : string -> nat -> option GrpcClient := demo_connect true.

(** the bid of [BidSsz], with another value *)
Definition demo_bid_worth (value : Z) : SignedBid :=
  {| sbd_message :=
       {| bid_slot := bid_slot (sbd_message demo_signed_bid);
          bid_parent_hash := bid_parent_hash (sbd_message demo_signed_bid);
          bid_block_hash := bid_block_hash (sbd_message demo_signed_bid);
          bid_builder_pubkey := bid_builder_pubkey (sbd_message demo_signed_bid);
          bid_proposer_pubkey := bid_proposer_pubkey (sbd_message demo_signed_bid);
          bid_proposer_fee_recipient := bid_proposer_fee_recipient (sbd_message demo_signed_bid);
          bid_gas_limit := bid_gas_limit (sbd_message demo_signed_bid);
          bid_gas_used := bid_gas_used (sbd_message demo_signed_bid);
          bid_value := value |};
     sbd_execution_payload := sbd_execution_payload demo_signed_bid;
     sbd_blobs_bundle := sbd_blobs_bundle demo_signed_bid;
     sbd_signature := sbd_signature demo_signed_bid |}.

Lemma demo_bid_worth_in_range at_ms value :
  is_u64 at_ms -> is_u256 value -> submitted_in_range (at_ms, demo_bid_worth value).
Proof.
  intros Ha Hv. destruct demo_words_in_range as ((H1 & H2 & H3 & H4 & H5 & H6 & H7 & H8 & H9) & Hp & Hs).
  split; [done|]. split; [|by split; compute].
  split_and!; [|done|done]. unfold bid_in_range. by split_and!.
Qed.

Lemma demo_bid_worth_short :
  (Z.of_nat (String.length (to_text (demo_bid_worth 700))) <=? 4096000) &&
  (Z.of_nat (String.length (to_text (demo_bid_worth 900))) <=? 4096000) = true.
Proof. kernel_refl. Qed.

Definition demo_json_submitted : list (Z * SignedBid) := [(10, demo_bid_worth 700); (11, demo_bid_worth 900)].

Lemma demo_json_stored :
  (11, demo_bid_worth 900) ∈
    filter (fun x => Z.of_nat (String.length (to_text x.2)) <= 4096000) demo_json_submitted.
Proof.
  pose proof demo_bid_worth_short as [_ H]%andb_prop. apply list_elem_of_filter. split.
  - by apply Z.leb_le.
  - by right; left.
Qed.

Lemma demo_json_live :
  live (filter (fun x => Z.of_nat (String.length (to_text x.2)) <= 4096000) demo_json_submitted) 9.
Proof.
  pose proof demo_bid_worth_short as [H1%Z.leb_le H2%Z.leb_le]%andb_prop.
  unfold demo_json_submitted. rewrite filter_cons_True by exact H1. rewrite filter_cons_True by exact H2.
  rewrite filter_nil. right. reflexivity.
Qed.

Lemma demo_json_in_range : Forall submitted_in_range demo_json_submitted.
Proof.
  apply Forall_cons. split; [apply demo_bid_worth_in_range; by split|].
  apply Forall_cons. split; [apply demo_bid_worth_in_range; by split|by apply Forall_nil].
Qed.

Lemma internal_relay_over_json_witness :
  exists b, internal_best_bid demo_json_connect demo_relay_env
      (demo_json_served 20 (spawn ((fun x => (x.1, submission demo_internal x.2)) <$> demo_json_submitted)).2) 9 12
    = Done (Some b) /\ 900 <= bid_value (sbd_message b).
Proof.
  assert (Hu : at_root (ri_url demo_internal)) by reflexivity.
  assert (Hn : 0 <= 9 < 2 ^ 64) by done. assert (Ht : 0 <= 12 < 2 ^ 64) by done.
  destruct (internal_relay_over_json (fun _ => EmptyString) demo_relay_libs tt demo_json_connect demo_relay_env
    demo_internal
    (demo_json_served 20 (spawn ((fun x => (x.1, submission demo_internal x.2)) <$> demo_json_submitted)).2)
    20 demo_json_submitted 9 12 eq_refl Hu Hn Ht demo_json_in_range (fun _ => eq_refl) demo_json_live)
    as (_ & _ & best & Hb & H).
  destruct best as [b|].
  - exists b. split; [exact Hb|]. destruct H as [_ Hmax].
    exact (Hmax 11 (demo_bid_worth 900) demo_json_stored eq_refl eq_refl).
  - exfalso. exact (H 11 (demo_bid_worth 900) demo_json_stored eq_refl eq_refl).
Defined.

Definition demo_says (text : string) : Network := {|
  http_send _ := Ok {| hm_status := 200; hm_text := text |};
  grpc_submit_block _ _ := Err "no such service"%string;
|}.

(** [null] for no bid, and a text that is not JSON *)
Lemma relay_answers_read_witness :
  client_get_internal_best_bid demo_internal (demo_says "n") 9 12 = None /\
  client_get_validators demo_internal (demo_says "oops") = [].
Proof.
  destruct (relay_answers_read (fun _ => EmptyString) demo_relay_libs tt demo_internal (demo_says "n") 200 9 12 EmptyString)
    as (_ & _ & Hbest & _).
  destruct (relay_answers_read (fun _ => EmptyString) demo_relay_libs tt demo_internal (demo_says "oops") 200 9 12 "oops")
    as (_ & _ & _ & Hnone).
  split.
  - apply (Hbest None); [discriminate|reflexivity].
  - by apply Hnone.
Defined.
