(* ===== verification/TxNetwork.v ===== *)
(** * The transaction network

    Models [crates/tx-network/src/lib.rs] and [pooled_tx.rs]: private transactions
    of a stream are added to the node's pool. *)

From stdpp Require Import prelude list.
From S2P Require Import Prelude Types Bundle BundlePool Rpc.

Open Scope Z_scope.

Inductive TxNetworkError :=
| Conversion (e : EthApiError)
| PoolErr (e : Z).

Section TxNetwork.
Context `{ET : EthTx}.

(** [merkle_sdk]'s transactions and their RLP, the node's pool *)
Context {Transaction StreamError Pool : Type} (rlp : Transaction -> Bytes)
  (add_transaction : Pool -> PooledTx -> Pool * result Z unit).

(** [PooledTx::into] *)
Definition pooled_tx_into (tx : Transaction) : result EthApiError PooledTx :=
  recover_raw_transaction (rlp tx).

(** the loop over the stream: the pool, and how many of its errors were logged *)
Fixpoint run_stream (stream : list (result StreamError Transaction)) (tx_pool : Pool) (logged : nat)
  : Pool * nat :=
  match stream with
  | Ok tx :: stream =>
      match pooled_tx_into tx with
      | Ok pooled_tx =>
          match add_transaction tx_pool pooled_tx with
          | (tx_pool, Err _) => run_stream stream tx_pool (S logged)
          | (tx_pool, Ok _) => run_stream stream tx_pool logged
          end
      | Err _ => run_stream stream tx_pool logged
      end
  | _ => (tx_pool, logged)
  end.

(** [TxNetwork::run]: the connection gives a stream or fails *)
Definition tx_network_run (connection : option (list (result StreamError Transaction))) (tx_pool : Pool)
  : (Pool * nat) * result TxNetworkError unit :=
  match connection with
  | Some stream => (run_stream stream tx_pool 0, Ok tt)
  | None => ((tx_pool, 0%nat), Ok tt)
  end.
End TxNetwork.

(** ** Properties *)

Section TxNetworkProofs.
Context `{ET : EthTx}.
Context {Transaction StreamError Pool : Type} (rlp : Transaction -> Bytes)
  (add_transaction : Pool -> PooledTx -> Pool * result Z unit).

(** the transactions before the first error of the stream *)
Fixpoint received_txs (stream : list (result StreamError Transaction)) : list Transaction :=
  match stream with
  | Ok tx :: stream => tx :: received_txs stream
  | _ => []
  end.

Definition valid_txs (txs : list Transaction) : list PooledTx :=
  omap (fun tx => match pooled_tx_into rlp tx with Ok t => Some t | Err _ => None end) txs.

Lemma run_stream_pool stream tx_pool logged :
  (run_stream rlp add_transaction stream tx_pool logged).1 =
  foldl (fun pool t => (add_transaction pool t).1) tx_pool (valid_txs (received_txs stream)).
Proof.
  revert tx_pool logged. induction stream as [|[tx|e] stream IH]; intros tx_pool logged; simpl; [done| |done].
  destruct (pooled_tx_into rlp tx) as [t|]; simpl; [|done].
  destruct (add_transaction tx_pool t) as [pool [?|?]]; by rewrite IH.
Qed.

(** the pool is given exactly the valid transactions that arrive before the stream's
    first error, in order; transactions that do not decode are skipped, and a
    refusal by the pool does not stop the rest.  A failed connection or an error of
    the stream ends the task for good, and it reports success all the same: none of
    the errors of [TxNetworkError] is ever returned. *)
Theorem tx_network_run_correct (connection : option (list (result StreamError Transaction))) (tx_pool : Pool) :
  let stream := default [] connection in
  (tx_network_run rlp add_transaction connection tx_pool).1.1 =
    foldl (fun pool t => (add_transaction pool t).1) tx_pool (valid_txs (received_txs stream)) /\
  (tx_network_run rlp add_transaction connection tx_pool).2 = Ok tt /\
  (forall e later, received_txs (stream ++ Err e :: later) = received_txs stream).
Proof.
  split_and!.
  - destruct connection as [stream|]; [apply run_stream_pool|done].
  - by destruct connection.
  - intros e later. generalize (default [] connection). intros l. induction l as [|[tx|e'] l IH]; simpl; [done| |done].
    by rewrite IH.
Qed.
End TxNetworkProofs.
