(* ===== verification/Cli.v ===== *)
(** * The command line, and what the program starts

    Models [crates/cli-args/src] and [bin/builder/src/main.rs]: the arguments with their
    defaults and parsers, and how the services are made from them. *)

From Stdlib Require Import Ascii Floats.SpecFloat.
From stdpp Require Import prelude list gmap strings.
From S2P Require Import Prelude Types Bundle BundlePool Validator Chain Payload SimState DemoEvm State StateFacts Policy Bid Bidder Clock Job MainService Consensus Ssz Blst Relays GrpcMsg Relay.

Open Scope Z_scope.

(** [secp256k1], [keccak256], [hex::decode]; the uncompressed public key has 65 bytes. *)
Class CliLibs := {
  ecdsa_from_str : string -> option Z;
  ecdsa_public_key : Z -> Bytes;
  keccak256 : Bytes -> Bytes;
  hex_bytes : string -> option Bytes;
}.

(** ** The defaults *)

Definition DEFAULT_CL_URL : string := "http://127.0.0.1:3500".
Definition DEFAULT_TX_NETWORK_API_KEY : string := EmptyString.
Definition DEFAULT_EXTRA_DATA : string :=
  "6d65726b6c6520426c6f636b202862756e646c65732e6d65726b6c652e696f29".
Definition DEFAULT_BID_OFFSET : Z := 1000.
Definition DEFAULT_BID_MONTHLY_SUBSIDY_BUDGET : Z := 0.
(** 1.0 *)
Definition DEFAULT_BID_MARKET_SHARE : spec_float := S754_finite false 4503599627370496 (-52).
Definition DEFAULT_BID_MIN_BID_SURPLUS : Z := 0.
Definition DEFAULT_BID_MAX_BID_SURPLUS : Z := 0.
Definition DEFAULT_INTERNAL_RELAY_PORT : Z := 8008.
Definition DEFAULT_ENABLE_INTERNAL_RELAY_SERVER : bool := false.
Definition DEFAULT_MAX_RPC_REQUESTS : Z := 25.
Definition DEFAULT_BLS_SECRET_KEY : string := "REPLACE_ME".
Definition DEFAULT_ECDSA_SECRET_KEY : string := "REPLACE_ME".

Section Parts.
Context `{EV : Evm} `{RL : !RelayLibs} `{UL : UrlLib} `{BL : !Bls}.

(** What the builder is made of. *)
Record BuilderParts := {
  bp_relays : list Relay;
  bp_relay_handle : RelayHandle;
  bp_bidder : BidderService;
  bp_signer : BlsSigner;
  bp_generator : JobGeneratorConfig;
  bp_events_url : string;
  bp_main : BlockBuilderService;
}.
End Parts.

Section Cli.
Context `{EV : Evm} `{RL : !RelayLibs} `{BB : !BlobsBundleV1} `{UL : UrlLib} `{BS : BlstLib} `{HX : HexLib}
  `{CL : !CliLibs}.
Context (error_debug : Error -> string) (fork_root : Bytes -> Bytes -> Bytes) (bid_root : Bid -> Bytes -> B256).

#[local] Instance cli_bls : Bls := blst_bls fork_root bid_root.

Record BidderConfig := {
  offset_ms : Z;
  monthly_subsidy_budget : Z;
  market_share : spec_float;
  min_bid_surplus : Z;
  max_bid_surplus : Z;
}.

Record Rpc := { rpc_enabled : bool; max_requests : Z }.

Record Secrets := { bls_secret_key : GenericSecretKey; ecdsa_secret_key : Z }.

Record InternalRelay := { internal_relay : bool; exposed_port : Z }.

Record BaseCliArgs := {
  builder : bool;
  tx_network_enabled : bool;
  tx_network_api_key : string;
  cl_base_url : Url;
  run_mode : RunMode;
  bid : BidderConfig;
  rpc : Rpc;
  secrets : Secrets;
  internal_relay_args : InternalRelay;
  extra_data_arg : string;
}.

(** What is given on the command line.  Numbers, flags and addresses are read by
    [clap]; strings that have a parser of the program's own are left as they are. *)
Record CliOptions := {
  o_builder : bool;
  o_enable_tx_network : bool;
  o_tx_network_api_key : option string;
  o_cl_base_url : option Url;
  o_run_mode : option string;
  o_bid_offset : option Z;
  o_bid_monthly_subsidy_budget : option Z;
  o_bid_market_share : option spec_float;
  o_bid_min_bid_surplus : option Z;
  o_bid_max_bid_surplus : option Z;
  o_enable_rpc : bool;
  o_max_rpc_req : option Z;
  o_bls_secret_key : option string;
  o_ecdsa_secret_key : option string;
  o_enable_internal_relay : bool;
  o_internal_relay_port : option Z;
  o_extra_data : option string;
}.

Definition parse_run_mode (s : string) : result string RunMode :=
  map_err (fun _ : unit => ("Invalid run mode: " ++ s)%string) (RunMode_from_str s).

Definition parse_bls_secret_key (s : string) : result string GenericSecretKey :=
  map_err (fun _ => ("Invalid BLS secret key: " ++ s)%string) (macro_from_str error_debug gsk_deserialize s).

Definition parse_ecdsa_secret_key (s : string) : result string Z :=
  ok_or (ecdsa_from_str s) ("Invalid ECDSA secret key: " ++ s)%string.

Definition parse_secrets (o : CliOptions) : result string Secrets :=
  bls ← parse_bls_secret_key (default DEFAULT_BLS_SECRET_KEY (o_bls_secret_key o));
  ecdsa ← parse_ecdsa_secret_key (default DEFAULT_ECDSA_SECRET_KEY (o_ecdsa_secret_key o));
  mret {| bls_secret_key := bls; ecdsa_secret_key := ecdsa |}.

Definition parse_bidder_config (o : CliOptions) : BidderConfig :=
  {| offset_ms := default DEFAULT_BID_OFFSET (o_bid_offset o);
     monthly_subsidy_budget := default DEFAULT_BID_MONTHLY_SUBSIDY_BUDGET (o_bid_monthly_subsidy_budget o);
     market_share := default DEFAULT_BID_MARKET_SHARE (o_bid_market_share o);
     min_bid_surplus := default DEFAULT_BID_MIN_BID_SURPLUS (o_bid_min_bid_surplus o);
     max_bid_surplus := default DEFAULT_BID_MAX_BID_SURPLUS (o_bid_max_bid_surplus o) |}.

Definition parse_rpc (o : CliOptions) : Rpc :=
  {| rpc_enabled := o_enable_rpc o; max_requests := default DEFAULT_MAX_RPC_REQUESTS (o_max_rpc_req o) |}.

Definition parse_internal_relay (o : CliOptions) : InternalRelay :=
  {| internal_relay := o_enable_internal_relay o || DEFAULT_ENABLE_INTERNAL_RELAY_SERVER;
     exposed_port := default DEFAULT_INTERNAL_RELAY_PORT (o_internal_relay_port o) |}.

(** [BaseCliArgs], as [clap] derives its parser *)
Definition parse_args (o : CliOptions) : result string BaseCliArgs :=
  url ← match o_cl_base_url o with
        | Some url => Ok url
        | None => ok_or (url_parse DEFAULT_CL_URL) "invalid value"%string
        end;
  mode ← parse_run_mode (default (RunMode_to_string Devnet) (o_run_mode o));
  keys ← parse_secrets o;
  mret {| builder := o_builder o;
          tx_network_enabled := o_enable_tx_network o;
          tx_network_api_key := default DEFAULT_TX_NETWORK_API_KEY (o_tx_network_api_key o);
          cl_base_url := url;
          run_mode := mode;
          bid := parse_bidder_config o;
          rpc := parse_rpc o;
          secrets := keys;
          internal_relay_args := parse_internal_relay o;
          extra_data_arg := default DEFAULT_EXTRA_DATA (o_extra_data o) |}.

(** ** [impl BaseCliArgs] *)

Definition is_builder_enabled (self : BaseCliArgs) : bool := builder self.
Definition is_rpc_enabled (self : BaseCliArgs) : bool := is_builder_enabled self && rpc_enabled (rpc self).
Definition is_internal_relay_enabled (self : BaseCliArgs) : bool :=
  is_builder_enabled self && internal_relay (internal_relay_args self).
Definition is_tx_network_enabled (self : BaseCliArgs) : bool :=
  is_builder_enabled self && tx_network_enabled self.

Definition bls_signer (self : BaseCliArgs) : BlsSigner :=
  let fork_version :=
    if decide (run_mode self = Devnet) then [Byte.x20; Byte.x00; Byte.x00; Byte.x89]
    else [Byte.x00; Byte.x00; Byte.x00; Byte.x00] in
  BlsSigner_new (bls_secret_key (secrets self) : BlsSecretKey) fork_version.

Definition cli_bls_public_key (self : BaseCliArgs) : BlsPublicKey :=
  bls_public_key (bls_secret_key (secrets self) : BlsSecretKey).

(** [public_key.serialize_uncompressed()[1..]], hashed; the last twenty bytes *)
Definition builder_address (self : BaseCliArgs) : Address :=
  be_value (drop 12 (keccak256 (drop 1 (ecdsa_public_key (ecdsa_secret_key (secrets self)))))).

Definition extra_data (self : BaseCliArgs) : run Empty_set Bytes := expect (hex_bytes (extra_data_arg self)).

(** ** [main.rs] *)

Inductive Service :=
| RelayTask
| BidderTask
| PayloadBuilderTask
| ValidatorScheduleTask
| BlockBuilderTask
| TxNetworkTask (api_key : string)
| MevBoostRelayTask (port : Z).

Definition main_policy (args : BaseCliArgs) : run Empty_set BidSelectionPolicies :=
  if decide (run_mode args = Devnet) then mret DevnetPolicy
  else
    c ← LinearSurplusPolicy_new (offset_ms (bid args)) (monthly_subsidy_budget (bid args))
          (market_share (bid args)) (min_bid_surplus (bid args)) (max_bid_surplus (bid args));
    mret (LinearSurplusPolicy c).

Definition main_payload_config (chain_spec : ChainSpec) (args : BaseCliArgs) : run Empty_set PayloadConfig :=
  data ← extra_data args;
  mret {| pc_chain_spec := chain_spec;
          pc_builder_address := builder_address args;
          pc_secret_key := ecdsa_secret_key (secrets args);
          pc_extra_data := data |}.

Definition payload_attribute_url (args : BaseCliArgs) : string :=
  (url_to_string (cl_base_url args) ++ "eth/v1/events?topics=payload_attributes")%string.

(** the part of [on_node_started] behind [is_builder_enabled]; [default_config] is
    [PayloadConfig::default] *)
Definition start_builder (connect : string -> nat -> option GrpcClient) (env : RelayEnv)
    (chain_spec : ChainSpec) (default_config : PayloadConfig) (pool : BundlePool) (args : BaseCliArgs)
  : run Empty_set BuilderParts :=
  relays ← RelayPool_new connect env (run_mode args) (is_internal_relay_enabled args);
  policy ← main_policy args;
  generator_config ← main_payload_config chain_spec args;
  main_config ← main_payload_config chain_spec args;
  mret {| bp_relays := relays;
          bp_relay_handle := {| rh_public_key := cli_bls_public_key args |};
          bp_bidder := BidderService_new policy;
          bp_signer := bls_signer args;
          bp_generator := jc_set_payload_config (JobGeneratorConfig_default default_config) generator_config;
          bp_events_url := payload_attribute_url args;
          bp_main := BlockBuilderService_new main_config pool |}.

(** the tasks [on_node_started] spawns, in order, unless it panics first *)
Definition main_services (args : BaseCliArgs) : list Service :=
  (if is_builder_enabled args
   then [RelayTask; BidderTask; PayloadBuilderTask; ValidatorScheduleTask; BlockBuilderTask] else []) ++
  (if is_tx_network_enabled args then [TxNetworkTask (tx_network_api_key args)] else []) ++
  (if is_internal_relay_enabled args then [MevBoostRelayTask (exposed_port (internal_relay_args args))] else []).

(** [extend_rpc_modules]: the number of permits of the bundles API, if it is served *)
Definition main_rpc (args : BaseCliArgs) : option Z :=
  if is_rpc_enabled args then Some (max_requests (rpc args)) else None.
End Cli.

(** ** Properties *)

Section CliProofs.
Context `{EV : Evm} `{RL : !RelayLibs} `{BB : !BlobsBundleV1} `{UL : UrlLib} `{BS : BlstLib} `{HX : HexLib}
  `{CL : !CliLibs}.
Context (error_debug : Error -> string) (fork_root : Bytes -> Bytes -> Bytes) (bid_root : Bid -> Bytes -> B256).

(** the program does not start without both secret keys: the defaults are a placeholder
    that neither parser accepts, so parsing the command line fails whenever one of the two
    options is missing, even when the builder is not enabled. *)
Theorem cli_needs_keys (o : CliOptions) :
  is_ok (hex_decode DEFAULT_BLS_SECRET_KEY) = false -> ecdsa_from_str DEFAULT_ECDSA_SECRET_KEY = None ->
  o_bls_secret_key o = None \/ o_ecdsa_secret_key o = None ->
  exists message, parse_args error_debug o = Err message.
Proof.
  intros Hb He Ho. unfold parse_args, parse_secrets.
  destruct (match o_cl_base_url o with Some url => Ok url | None => _ end) as [url|m]; [|by exists m].
  simpl. destruct (parse_run_mode _) as [mode|m]; [|by exists m]. simpl.
  destruct (parse_bls_secret_key _ _) as [key|m] eqn:Hk; [|by exists m]. simpl.
  destruct Ho as [Ho|Ho]; rewrite Ho in *; simpl in *.
  - unfold parse_bls_secret_key, macro_from_str in Hk. by destruct (hex_decode DEFAULT_BLS_SECRET_KEY).
  - unfold parse_ecdsa_secret_key. rewrite He. by eexists.
Qed.

#[local] Instance proofs_bls : Bls := blst_bls fork_root bid_root.

(** what is read when the builder starts *)
Definition startup_ok (env : RelayEnv) (args : BaseCliArgs) : Prop :=
  is_Some (url_parse (default "http://0.0.0.0:9063"%string (MERKLE_RELAY_URL_VAR env))) /\
  is_Some (url_parse (default "http://0.0.0.0:50051"%string (MERKLE_RELAY_GRPC_URL_VAR env))) /\
  (is_internal_relay_enabled args = true ->
     is_Some (url_parse (default "http://0.0.0.0:8008"%string (INTERNAL_RELAY_SERVER_URL env)))) /\
  (run_mode args <> Devnet ->
     f64_as_u64 (SFmul 53 1024 (market_share (bid args)) BLOCKS_PER_MONTH) <> 0) /\
  is_Some (hex_bytes (extra_data_arg args)).

Lemma main_policy_Done (args : BaseCliArgs) :
  (run_mode args <> Devnet -> f64_as_u64 (SFmul 53 1024 (market_share (bid args)) BLOCKS_PER_MONTH) <> 0) ->
  exists policy, main_policy args = Done policy.
Proof.
  intros H. unfold main_policy. destruct (decide (run_mode args = Devnet)) as [_|Hn]; [by eexists|].
  unfold LinearSurplusPolicy_new, u256_div, u256_checked_div.
  destruct (Z.eqb_spec (f64_as_u64 (SFmul 53 1024 (market_share (bid args)) BLOCKS_PER_MONTH)) 0); [by destruct (H Hn)|].
  by eexists.
Qed.

Lemma main_policy_inv (args : BaseCliArgs) policy :
  main_policy args = Done policy ->
  (policy = DevnetPolicy <-> run_mode args = Devnet) /\
  (run_mode args <> Devnet -> f64_as_u64 (SFmul 53 1024 (market_share (bid args)) BLOCKS_PER_MONTH) <> 0).
Proof.
  unfold main_policy. destruct (decide (run_mode args = Devnet)) as [E|E]; intros H.
  - run_inv. naive_solver.
  - unfold LinearSurplusPolicy_new, u256_div, u256_checked_div in H. cbv zeta in H.
    destruct (Z.eqb_spec (f64_as_u64 (SFmul 53 1024 (market_share (bid args)) BLOCKS_PER_MONTH)) 0);
      simpl in H; [done|]. injection H as <-. naive_solver.
Qed.

(** C37: starting the builder panics exactly when an address it reads does not parse, the extra
    data is not hexadecimal, or, outside the devnet, the market share is so small that it
    makes no winning block a month: the subsidy of a block is then a division by zero. *)
Theorem start_builder_total (connect : string -> nat -> option GrpcClient) (env : RelayEnv)
    (spec : ChainSpec) (default_config : PayloadConfig) (pool : BundlePool) (args : BaseCliArgs) :
  let started := start_builder fork_root bid_root connect env spec default_config pool args in
  ((exists parts, started = Done parts) <-> startup_ok env args) /\
  (~ startup_ok env args -> started = Panicked).
Proof.
  intros started.
  assert (Hok : (exists parts, started = Done parts) -> startup_ok env args).
  { intros (parts & H). unfold startup_ok, started, start_builder in H. run_inv.
    unfold RelayPool_new, pool_merkle_relay, MERKLE_RELAY, MERKLE_RELAY_URL, MERKLE_RELAY_GRPC_URL, url_of in Hr.
    unfold main_payload_config, extra_data in Hr1. run_inv.
    split_and!; [by eexists|by eexists| | |by eexists].
    + intros Hi. rewrite Hi in *. unfold pool_internal, INTERNAL, MERKLE_INTERNAL_URL, url_of in Hr. run_inv. by eexists.
    + by apply main_policy_inv in Hr0 as [_ ?]. }
  split; [split; [done|]|].
  - intros ((u1 & H1) & (u2 & H2) & H3 & H4 & (bs & H5)).
    destruct (main_policy_Done args H4) as [policy Hp].
    unfold started, start_builder, RelayPool_new, pool_merkle_relay, MERKLE_RELAY, MERKLE_RELAY_URL,
      MERKLE_RELAY_GRPC_URL, url_of, main_payload_config, extra_data.
    rewrite H1. simpl. rewrite H2. simpl. rewrite Hp, H5.
    destruct (is_internal_relay_enabled args); [|by eexists].
    destruct (H3 eq_refl) as [u3 H3']. unfold pool_internal, INTERNAL, MERKLE_INTERNAL_URL, url_of. rewrite H3'.
    by eexists.
  - intros Hn. destruct started as [parts|[]|] eqn:E; [|done]. exfalso. apply Hn, Hok. by eexists.
Qed.

(** the parts the builder is made of agree with each other: the payload service and the main
    service have the same configuration, the bids are signed with the devnet's fork
    version exactly when the devnet's policy makes them, and the relay handle knows
    the key the bids carry, so no bid of this builder is ever taken for a rival's
    when the auction's top bid is read. *)
Theorem start_builder_wired (connect : string -> nat -> option GrpcClient) (env : RelayEnv)
    (spec : ChainSpec) (default_config : PayloadConfig) (pool : BundlePool) (args : BaseCliArgs)
    (parts : BuilderParts) :
  start_builder fork_root bid_root connect env spec default_config pool args = Done parts ->
  jc_payload_config (bp_generator parts) = bb_payload_config (bp_main parts) /\
  (bd_policy (bp_bidder parts) = DevnetPolicy <-> run_mode args = Devnet) /\
  (sg_fork_version (bp_signer parts) = [Byte.x20; Byte.x00; Byte.x00; Byte.x89] <-> run_mode args = Devnet) /\
  forall build envelope now_ms relays net bn,
    let sb := SignedBid_new (Bid_new build (signer_public_key (bp_signer parts))) envelope (bp_signer parts) in
    ~ rival_trace (bp_relay_handle parts) relays net bn (to_trace now_ms sb).
Proof.
  unfold start_builder. intros H. run_inv. subst parts. cbn [jc_payload_config bp_generator bb_payload_config
    bp_main bd_policy bp_bidder BidderService_new jc_set_payload_config BlockBuilderService_new bp_signer bp_relay_handle].
  split; [rewrite Hr1 in Hr2; by injection Hr2|]. split; [by apply main_policy_inv in Hr0 as [? _]|].
  unfold bls_signer. destruct (decide (run_mode args = Devnet)); split; try naive_solver.
  all: intros build envelope now_ms relays net bn [Hn _]; by apply Hn.
Qed.
End CliProofs.

(** ** Evaluation on concrete inputs *)

Import Demo.

(** hexadecimal strings with their prefix *)
Definition hex_digit (n : nat) : Ascii.ascii :=
  default "0"%char (String.get n "0123456789abcdef").

Definition hex_value (a : Ascii.ascii) : option nat := String.index 0 (String a EmptyString) "0123456789abcdef".

Fixpoint demo_hex_digits (bs : Bytes) : string :=
  match bs with
  | [] => EmptyString
  | b :: bs =>
      let n := Byte.to_nat b in
      String (hex_digit (n / 16)) (String (hex_digit (n mod 16)) (demo_hex_digits bs))
  end.

Fixpoint demo_hex_read (s : string) : option Bytes :=
  match s with
  | EmptyString => Some []
  | String a (String a' s) =>
      h ← hex_value a;
      l ← hex_value a';
      b ← Byte.of_nat (16 * h + l);
      (b ::.) <$> demo_hex_read s
  | _ => None
  end.

Lemma demo_hex_read_digits bs : demo_hex_read (demo_hex_digits bs) = Some bs.
Proof. induction bs as [|b bs IH]; [done|]. simpl. rewrite IH. by destruct b. Qed.

Definition demo_prefixed_hex : HexLib.
Proof.
  refine {| hex_encode bs := String "0" (String "x" (demo_hex_digits bs));
            hex_decode s :=
              match s with
              | String "0" (String "x" s) => ok_or (demo_hex_read s) "invalid digit"%string
              | _ => Err "no prefix"%string
              end |}.
  intros bs. by rewrite demo_hex_read_digits.
Defined.

#[export] Instance demo_cli_libs : CliLibs := {|
  ecdsa_from_str s := match demo_hex_read s with Some [b] => Some (Z.of_nat (Byte.to_nat b)) | _ => None end;
  ecdsa_public_key k := be_bytes 65 k;
  keccak256 bs := take 32 bs;
  hex_bytes := demo_hex_read;
|}.

Definition demo_options : CliOptions := {|
  o_builder := false; o_enable_tx_network := false; o_tx_network_api_key := None; o_cl_base_url := None;
  o_run_mode := Some "live"%string; o_bid_offset := None; o_bid_monthly_subsidy_budget := None;
  o_bid_market_share := None; o_bid_min_bid_surplus := None; o_bid_max_bid_surplus := None;
  o_enable_rpc := false; o_max_rpc_req := None; o_bls_secret_key := None;
  o_ecdsa_secret_key := Some "07"%string; o_enable_internal_relay := false; o_internal_relay_port := None;
  o_extra_data := None |}.

Lemma cli_needs_keys_witness :
  exists message, parse_args (HX := demo_prefixed_hex) (fun _ => EmptyString) demo_options = Err message /\
    message = "Invalid BLS secret key: REPLACE_ME"%string.
Proof.
  destruct (cli_needs_keys (HX := demo_prefixed_hex) (CL := demo_cli_libs) (fun _ => EmptyString) demo_options
    eq_refl eq_refl (or_introl eq_refl)) as [message H].
  exists message. split; [exact H|].
  assert (parse_args (HX := demo_prefixed_hex) (CL := demo_cli_libs) (fun _ => EmptyString) demo_options
    = Err "Invalid BLS secret key: REPLACE_ME"%string) as E by reflexivity.
  pose proof (eq_trans (eq_sym H) E) as Em. by injection Em.
Defined.

Definition demo_cli (mode : RunMode) : BaseCliArgs := {|
  builder := true; tx_network_enabled := false; tx_network_api_key := EmptyString;
  cl_base_url := "http://127.0.0.1:3500/"%string; run_mode := mode; bid := parse_bidder_config demo_options;
  rpc := parse_rpc demo_options;
  secrets := {| bls_secret_key := demo_secret; ecdsa_secret_key := 7 |};
  internal_relay_args := parse_internal_relay demo_options; extra_data_arg := DEFAULT_EXTRA_DATA |}.

Definition demo_spec : ChainSpec := tt.

Definition demo_started (mode : RunMode) : run Empty_set (BuilderParts (BL := blst_bls (fun _ _ => []) (fun _ _ => 5))) :=
  start_builder (fun _ _ => []) (fun _ _ => 5) (demo_connect true) demo_relay_env demo_spec
    demo_payload_config demo_bundle_pool (demo_cli mode).

Lemma start_builder_wired_witness :
  exists parts, demo_started Simulate = Done parts /\ bd_policy (bp_bidder parts) <> DevnetPolicy.
Proof.
  assert (exists parts, demo_started Simulate = Done parts) as [parts H] by (eexists; reflexivity).
  exists parts. split; [exact H|].
  destruct (start_builder_wired _ _ _ _ _ _ _ _ parts H) as (_ & Hp & _).
  intros E. apply Hp in E. discriminate E.
Defined.
