(* ===== verification/System.v ===== *)
(** * The builder as a whole

    The services as one transition system: the consensus layer's stream, the main
    service, the payload jobs and the bidder, with the channels between them as
    queues.  A step is one poll of one of them, and may take any part of what waits
    in its channels, so every interleaving of the tasks is a run. *)

From stdpp Require Import prelude list gmap strings.
From Stdlib Require Import Sorting.Sorted.
From S2P Require Import Prelude Types Bundle BundlePool Validator Chain Payload Ofac SimState DemoEvm State StateFacts Strategies StratFacts Policy Bid Bidder Job MainService Consensus.

Open Scope Z_scope.

Section System.
Context `{BT : BestTransactions} `{RR : !ReceiptRoots} `{ER : ErrorText} `{BR : !BlockReader} `{EA : !EthAttributes}.
Context {JoinError StreamError RecvErr RelayServiceErr : Type}.

(** [sy_events] is the history of the stream, [sy_bids] of the bids. *)
Record System := {
  sy_consensus : ConsensusLayer;
  sy_events : list (PayloadAttributes * Z);
  sy_main : BlockBuilderService;
  sy_commands : list BuildConfig;
  sy_auctions : list (Z * Z);
  sy_generator : JobGeneratorConfig;
  sy_jobs : list BuildJob;
  sy_builds : list BuildState;
  sy_bidder : BidderService;
  sy_bids : list (BuildState * Z);
}.

Definition System_new (main : BlockBuilderService) (generator : JobGeneratorConfig)
    (policy : BidSelectionPolicies) : System :=
  {| sy_consensus := ConsensusLayer_new; sy_events := []; sy_main := main; sy_commands := [];
     sy_auctions := []; sy_generator := generator; sy_jobs := []; sy_builds := [];
     sy_bidder := BidderService_new policy; sy_bids := [] |}.

Definition configs_of (msgs : list MainMessage) : list BuildConfig :=
  omap (fun m => match m with SendBuildNewPayload c => Some c | _ => None end) msgs.
Definition auctions_of (msgs : list MainMessage) : list (Z * Z) :=
  omap (fun m => match m with SendAuctionStart slot bn => Some (slot, bn) | _ => None end) msgs.

(** after a poll of the main service that found these events *)
Definition after_main (s : System) (cl : ConsensusLayer) (events : list (PayloadAttributes * Z))
    (main : BlockBuilderService) (msgs : list MainMessage) : System :=
  {| sy_consensus := cl; sy_events := sy_events s ++ events; sy_main := main;
     sy_commands := sy_commands s ++ configs_of msgs; sy_auctions := sy_auctions s ++ auctions_of msgs;
     sy_generator := sy_generator s; sy_jobs := sy_jobs s; sy_builds := sy_builds s;
     sy_bidder := sy_bidder s; sy_bids := sy_bids s |}.

(** the payload service takes a command: a job of the same payload is not started again *)
Definition take_command (s : System) (c : BuildConfig) (rest : list BuildConfig) (job : BuildJob) : System :=
  {| sy_consensus := sy_consensus s; sy_events := sy_events s; sy_main := sy_main s;
     sy_commands := rest; sy_auctions := sy_auctions s; sy_generator := sy_generator s;
     sy_jobs :=
       if existsb (fun j => pa_id (bc_attributes (bj_build_config j)) =? pa_id (bc_attributes c)) (sy_jobs s)
       then sy_jobs s else sy_jobs s ++ [job];
     sy_builds := sy_builds s; sy_bidder := sy_bidder s; sy_bids := sy_bids s |}.

(** after a poll of a job: it is removed when it is ready *)
Definition after_job (s : System) (k : nat) (job : BuildJob) (p : poll (result PayloadBuilderError unit))
    (effs : list JobEffect) : System :=
  {| sy_consensus := sy_consensus s; sy_events := sy_events s; sy_main := sy_main s;
     sy_commands := sy_commands s; sy_auctions := sy_auctions s; sy_generator := sy_generator s;
     sy_jobs := match p with Ready _ => delete k (sy_jobs s) | Pending => <[k := job]> (sy_jobs s) end;
     sy_builds := sy_builds s ++ bids_of effs; sy_bidder := sy_bidder s; sy_bids := sy_bids s |}.

(** after a poll of the bidder, that left these messages in its channels *)
Definition after_bidder (s : System) (auctions : list (Z * Z)) (builds : list BuildState)
    (bidder : BidderService) (bid : option (BuildState * Z)) : System :=
  {| sy_consensus := sy_consensus s; sy_events := sy_events s; sy_main := sy_main s;
     sy_commands := sy_commands s; sy_auctions := auctions; sy_generator := sy_generator s;
     sy_jobs := sy_jobs s; sy_builds := builds; sy_bidder := bidder;
     sy_bids := sy_bids s ++ match bid with Some b => [b] | None => [] end |}.

(** [mp_schedule] is one the relays' registrations make. *)
Inductive sys_step (s : System) : System -> Prop :=
| step_main (inputs : list (ConsensusPoll (JoinError:=JoinError) (StreamError:=StreamError)))
    cl (i : MainPoll) main p msgs registrations :
    consensus_run (sy_consensus s) inputs = Done (cl, mp_events i) ->
    mp_schedule i = ValidatorSchedule_new registrations ->
    main_poll (sy_main s) i = Done (main, p, msgs) ->
    sys_step s (after_main s cl (mp_events i) main msgs)
| step_command c rest now job deadline :
    sy_commands s = c :: rest ->
    stream_new_payload_job (sy_generator s) now c = Ok (job, deadline) ->
    sys_step s (take_command s c rest job)
| step_job k job (i : StreamPoll) job' p effs :
    sy_jobs s !! k = Some job -> delivers (pending_task job) (sp_build i) ->
    stream_poll job i = Done (job', p, effs) ->
    sys_step s (after_job s k job' p effs)
| step_bidder (i : PollInput (RecvError:=RecvErr) (RelayServiceErr:=RelayServiceErr)) auctions builds bidder p bid :
    sy_auctions s = pi_auctions i ++ auctions -> sy_builds s = pi_builds i ++ builds ->
    bidder_poll (sy_bidder s) i = Done (bidder, p, bid) ->
    sys_step s (after_bidder s auctions builds bidder bid).

(** the states of a run *)
Definition sys_reachable (s0 s : System) : Prop := rtc sys_step s0 s.
End System.

(** ** Properties *)

Section SystemProofs.
Context `{BT : BestTransactions} `{RR : !ReceiptRoots} `{ER : ErrorText} `{BR : !BlockReader} `{EA : !EthAttributes}.
Context {JoinError StreamError RecvErr RelayServiceErr : Type}.
Abbreviation sys_step := (sys_step (JoinError:=JoinError) (StreamError:=StreamError) (RecvErr:=RecvErr)
  (RelayServiceErr:=RelayServiceErr)).

(** a configuration made for an event of the stream, of the parent block it names and of
    a validator registered for its slot *)
Definition made_for (events : list (PayloadAttributes * Z)) (spec : ChainSpec) (c : BuildConfig) : Prop :=
  (bc_attributes c, bc_slot c) ∈ events /\
  (exists client, parent_block client (bc_attributes c) = Ok (bc_parent_block c)) /\
  vi_slot (bc_validator_info c) = bc_slot c /\
  bc_initialized_block_env c = (cfg_and_block_env (bc_attributes c) spec (parent_header c)).2 /\
  bc_block_number c = be_number (bc_initialized_block_env c).

Lemma made_for_mono events more spec c : made_for events spec c -> made_for (events ++ more) spec c.
Proof. intros (H & ?). split; [|done]. apply elem_of_app. by left. Qed.

(** a build of the generator's strategy for such a configuration *)
Definition built_for (events : list (PayloadAttributes * Z)) (spec : ChainSpec) (pc : PayloadConfig)
    (st : BuildState) : Prop :=
  exists c, made_for events spec c /\ build_of (BundlesStrat pc) c st.

Lemma schedule_new_slot registrations slot v :
  ValidatorSchedule_new registrations !! slot = Some v -> vi_slot v = slot.
Proof.
  unfold ValidatorSchedule_new. rewrite schedule_foldl, lookup_empty. intros H%head_Some_elem_of.
  by apply list_elem_of_filter in H as [? _].
Qed.

Lemma main_poll_sends (self : BlockBuilderService) (i : MainPoll) self' p msgs registrations :
  main_poll self i = Done (self', p, msgs) -> mp_schedule i = ValidatorSchedule_new registrations ->
  bb_payload_config self' = bb_payload_config self /\
  forall c, c ∈ configs_of msgs -> made_for (mp_events i) (pc_chain_spec (bb_payload_config self)) c.
Proof.
  unfold main_poll. intros H Hs.
  destruct (mp_terminated i); [injection H as <- <- <-; split; [done|by intros c ?%elem_of_nil]|].
  destruct (last (mp_events i)) as [[a slot]|] eqn:Hl;
    [|injection H as <- <- <-; split; [done|by intros c ?%elem_of_nil]].
  destruct (_ =? _); [injection H as <- <- <-; split; [done|by intros c ?%elem_of_nil]|].
  destruct (_ <=? _); [injection H as <- <- <-; split; [done|by intros c ?%elem_of_nil]|].
  destruct (build_configs _ _ _ _ _) as [[c|]| |] eqn:Hc; simpl in H; try done; injection H as <- <- <-;
    (split; [done|]); [|by intros c ?%elem_of_nil].
  intros c' ->%list_elem_of_singleton. apply build_configs_Some in Hc as (H1 & H2 & H3 & H4 & H5 & H6).
  split_and!; [|by eexists; rewrite H4|rewrite H3; apply (schedule_new_slot registrations); by rewrite <- Hs|
    rewrite H4; exact H5|exact H6].
  rewrite H3, H4. apply last_Some in Hl as [l ->]. apply elem_of_app. right. by left.
Qed.

(** the slot a bid is made in *)
Definition bid_slot_of (b : BuildState * Z) : Z := bc_slot (bs_build_config b.1).

(** what the policy computed for a bid *)
Definition policy_bid (policy : BidSelectionPolicies) (b : BuildState * Z) : Prop :=
  exists info, ai_best_block info = Some b.1 /\ ai_slot info = bid_slot_of b /\
    ai_best_block_value info = block_value b.1 /\ compute_bid policy info = Done (Some b.2).

Record sys_inv (spec : ChainSpec) (pc : PayloadConfig) (policy : BidSelectionPolicies) (s : System) : Prop := {
  si_spec : pc_chain_spec (bb_payload_config (sy_main s)) = spec;
  si_generator : jc_payload_config (sy_generator s) = pc;
  si_policy : bd_policy (sy_bidder s) = policy;
  si_bidder : bidder_inv (sy_bidder s);
  si_commands : forall c, c ∈ sy_commands s -> made_for (sy_events s) spec c;
  si_jobs : forall job, job ∈ sy_jobs s ->
    exists c bids, made_for (sy_events s) spec c /\ stream_steps (job_new (BundlesStrat pc) c) job bids;
  si_builds : forall st, st ∈ sy_builds s -> built_for (sy_events s) spec pc st;
  si_best : best_in (built_for (sy_events s) spec pc) (sy_bidder s);
  si_bids : forall b, b ∈ sy_bids s -> built_for (sy_events s) spec pc b.1 /\ policy_bid policy b;
  si_sorted : StronglySorted (fun a b => bid_slot_of a <= bid_slot_of b) (sy_bids s);
  si_latest : forall b, b ∈ sy_bids s -> slot_le (Some (bid_slot_of b)) (auction_slot (sy_bidder s));
}.

Lemma System_new_inv main generator policy :
  sys_inv (pc_chain_spec (bb_payload_config main)) (jc_payload_config generator) policy
    (System_new main generator policy).
Proof.
  split; try done; try (by intros ? ?%elem_of_nil). constructor.
Qed.

Lemma built_for_mono events more spec pc st :
  built_for events spec pc st -> built_for (events ++ more) spec pc st.
Proof. intros (c & H & ?). exists c. split; [by apply made_for_mono|done]. Qed.

Lemma sys_inv_main spec pc policy s cl (i : MainPoll) main p msgs registrations :
  sys_inv spec pc policy s -> mp_schedule i = ValidatorSchedule_new registrations ->
  main_poll (sy_main s) i = Done (main, p, msgs) ->
  sys_inv spec pc policy (after_main s cl (mp_events i) main msgs).
Proof.
  intros [] Hs Hp. destruct (main_poll_sends _ _ _ _ _ _ Hp Hs) as [Hpc Hc].
  split; simpl; try done.
  - by rewrite Hpc.
  - intros c [H|H]%elem_of_app; [by apply made_for_mono, si_commands0|].
    apply Hc in H. destruct H as (H & H'). rewrite si_spec0 in H'. split; [apply elem_of_app; by right|done].
  - intros job Hj. destruct (si_jobs0 job Hj) as (c & bids & H1 & H2). exists c, bids.
    split; [by apply made_for_mono|done].
  - intros st Hst. by apply built_for_mono, si_builds0.
  - intros info st H1 H2. apply built_for_mono. by eapply si_best0.
  - intros b Hb. destruct (si_bids0 b Hb). split; [by apply built_for_mono|done].
Qed.

Lemma sys_inv_command spec pc policy s c rest now job deadline :
  sys_inv spec pc policy s -> sy_commands s = c :: rest ->
  stream_new_payload_job (sy_generator s) now c = Ok (job, deadline) ->
  sys_inv spec pc policy (take_command s c rest job).
Proof.
  intros [] Hc [= <- <-]. rewrite Hc in si_commands0. split; simpl; try done.
  - intros c' H. apply si_commands0. by right.
  - intros job. destruct (existsb _ _); [apply si_jobs0|].
    intros [H|H]%elem_of_app; [by apply si_jobs0|]. apply list_elem_of_singleton in H as ->.
    exists c, []. split; [apply si_commands0; left|]. rewrite si_generator0. constructor.
Qed.

Lemma sys_inv_job spec pc policy s k job (i : StreamPoll) job' p effs :
  sys_inv spec pc policy s -> sy_jobs s !! k = Some job -> delivers (pending_task job) (sp_build i) ->
  stream_poll job i = Done (job', p, effs) ->
  sys_inv spec pc policy (after_job s k job' p effs).
Proof.
  intros [] Hk Hd Hp. destruct (si_jobs0 job) as (c & bids & Hc & Hst); [by eapply list_elem_of_lookup_2|].
  assert (Hst' : stream_steps (job_new (BundlesStrat pc) c) job' (bids ++ bids_of effs))
    by (by eapply stream_next).
  split; simpl; try done.
  - intros j Hj. assert (j = job' \/ j ∈ sy_jobs s) as [->|Hj'].
    { destruct p; [right|].
      - apply list_elem_of_lookup in Hj as [n Hn]. rewrite list_lookup_delete in Hn.
        by destruct (decide (n < k)%nat); eapply list_elem_of_lookup_2.
      - apply list_elem_of_lookup in Hj as [n Hn]. apply list_lookup_insert_Some in Hn as [(_ & <- & _)|[_ Hn]];
          [by left|right; by eapply list_elem_of_lookup_2]. }
    + by exists c, (bids ++ bids_of effs).
    + by apply si_jobs0.
  - intros st [H|H]%elem_of_app; [by apply si_builds0|]. exists c. split; [done|].
    apply stream_steps_ok in Hst' as [_ Hb _ _ _ _]. apply Forall_app in Hb as [_ Hb].
    rewrite Forall_forall in Hb. by apply Hb.
Qed.

Lemma sys_inv_bidder spec pc policy s
    (i : PollInput (RecvError:=RecvErr) (RelayServiceErr:=RelayServiceErr)) auctions builds bidder p bid :
  sys_inv spec pc policy s -> sy_auctions s = pi_auctions i ++ auctions -> sy_builds s = pi_builds i ++ builds ->
  bidder_poll (sy_bidder s) i = Done (bidder, p, bid) ->
  sys_inv spec pc policy (after_bidder s auctions builds bidder bid).
Proof.
  intros [] Ha Hb Hp. rewrite Hb in si_builds0.
  destruct (bidder_poll_in (built_for (sy_events s) spec pc) _ _ _ _ _ Hp si_best0) as [Hbest Hbid].
  { intros st Hst. apply si_builds0, elem_of_app. by left. }
  destruct (bidder_poll_spec _ _ _ _ _ si_bidder0 Hp) as (Hinv & Hpol & Hle & Hval).
  assert (Hnew : forall b, b ∈ match bid with Some b => [b] | None => [] end ->
    built_for (sy_events s) spec pc b.1 /\ policy_bid policy b /\ auction_slot bidder = Some (bid_slot_of b)).
  { intros [st v] H. destruct bid as [b|]; [|by apply elem_of_nil in H].
    apply list_elem_of_singleton in H as <-. split; [by eapply Hbid|].
    destruct (Hval st v eq_refl) as (info & H1 & H2 & H3 & H4 & H5). rewrite <- si_policy0.
    split; [by exists info|]. unfold bid_slot_of. simpl. by rewrite H3. }
  assert (Hold : forall b, b ∈ sy_bids s -> slot_le (Some (bid_slot_of b)) (auction_slot bidder))
    by (intros b Hin; eapply slot_le_trans; [by apply si_latest0|done]).
  split; simpl; try done.
  - congruence.
  - intros st Hst. apply si_builds0, elem_of_app. by right.
  - intros b [H|H]%elem_of_app; [by apply si_bids0|]. by destruct (Hnew b H) as (? & ? & _).
  - destruct bid as [b|]; [|by rewrite app_nil_r]. apply StronglySorted_snoc; [done|].
    apply Forall_forall. intros b' Hin. apply Hold in Hin.
    destruct (Hnew b) as (_ & _ & E); [by left|]. by rewrite E in Hin.
  - intros b [H|H]%elem_of_app; [by apply Hold|]. destruct (Hnew b H) as (_ & _ & ->). simpl. lia.
Qed.

Lemma sys_inv_reachable main generator policy s :
  sys_reachable (JoinError:=JoinError) (StreamError:=StreamError) (RecvErr:=RecvErr)
    (RelayServiceErr:=RelayServiceErr) (System_new main generator policy) s ->
  sys_inv (pc_chain_spec (bb_payload_config main)) (jc_payload_config generator) policy s.
Proof.
  intros H. assert (Hi := System_new_inv main generator policy). revert Hi.
  induction H as [|s1 s2 s3 Hstep _ IH]; [done|]. intros Hi. apply IH. destruct Hstep.
  - by eapply sys_inv_main.
  - by eapply sys_inv_command.
  - by eapply sys_inv_job.
  - by eapply sys_inv_bidder.
Qed.

(** C2: in every run of the builder, whatever the interleaving of its services, every bid is on a
    build for an event the consensus layer sent: of its slot, on the parent block it
    names, for a validator registered for that slot, built by the bundle strategy with
    the builder's own configuration; its value is the one the policy computes from
    the value of that build; and bids never go back to an earlier slot. *)
Theorem system_bids_sound (main : BlockBuilderService) (generator : JobGeneratorConfig)
    (policy : BidSelectionPolicies) (s : System) :
  sys_reachable (JoinError:=JoinError) (StreamError:=StreamError) (RecvErr:=RecvErr)
    (RelayServiceErr:=RelayServiceErr) (System_new main generator policy) s ->
  StronglySorted (fun a b => bid_slot_of a <= bid_slot_of b) (sy_bids s) /\
  forall b, b ∈ sy_bids s ->
    policy_bid policy b /\
    exists c, made_for (sy_events s) (pc_chain_spec (bb_payload_config main)) c /\
      build_of (BundlesStrat (jc_payload_config generator)) c b.1 /\ bid_slot_of b = bc_slot c.
Proof.
  intros H. apply sys_inv_reachable in H as []. split; [done|]. intros b Hb.
  destruct (si_bids0 b Hb) as [(c & Hc & Hbuild) Hp]. split; [done|]. exists c. split_and!; try done.
  unfold bid_slot_of. by rewrite (proj1 Hbuild).
Qed.
End SystemProofs.

Section SignedProofs.
Context `{BT : BestTransactions} `{RR : !ReceiptRoots} `{ER : ErrorText} `{BR : !BlockReader} `{EA : !EthAttributes}.
Context `{EF : !EnvelopeFrom} `{BL : !Bls}.
Context {JoinError StreamError RecvErr RelayServiceErr : Type}.

(** from the consensus layer's event to the signed bid: when a bid of a run is finalised, the
    message that is signed and sent names the event's slot, the parent block the event
    names and the validator registered for that slot; it carries the value that was
    bid; the payload has the event's timestamp, and its block ends with the transfer of that value to
    the validator's fee recipient; and the signature verifies under the builder's key. *)
Theorem system_signed_bid_correct (main : BlockBuilderService) (generator : JobGeneratorConfig)
    (policy : BidSelectionPolicies) (s : System) (b : BuildState * Z) (client : Client) (pool : TxPool)
    (submit_bid : SignedBid -> bool) (signer : BlsSigner) (sb : SignedBid) (ok : bool) :
  (forall key root, bls_verify (bls_sign key root) (bls_public_key key) root = true) ->
  sys_reachable (JoinError:=JoinError) (StreamError:=StreamError) (RecvErr:=RecvErr)
    (RelayServiceErr:=RelayServiceErr) (System_new main generator policy) s ->
  b ∈ sy_bids s ->
  finalize_and_submit_build client pool submit_bid b.1 b.2 signer = Done (Submitted sb ok) ->
  exists a slot parent v tx sp account, let st := with_payment b.1 b.2 in
    (a, slot) ∈ sy_events s /\ (exists c, parent_block c a = Ok parent) /\ vi_slot v = slot /\
    bid_slot (sbd_message sb) = slot /\ bid_parent_hash (sbd_message sb) = sl_hash parent /\
    bid_proposer_pubkey (sbd_message sb) = vi_proposer v /\
    bid_proposer_fee_recipient (sbd_message sb) = vi_fee_recipient v /\
    bid_value (sbd_message sb) = b.2 /\
    ep_timestamp (sbd_execution_payload sb) = pa_timestamp a /\
    ep_block_hash (sbd_execution_payload sb) = bid_block_hash (sbd_message sb) /\
    db_basic (finish_db st sp) (pc_builder_address (bs_payload_config st)) = Ok account /\
    transfer_of st (next_nonce account) (vi_fee_recipient v) b.2 tx /\
    (exists build, into_build st client pool = Done build /\
       ep_block_hash (sbd_execution_payload sb) = sl_hash (bp_block (b_payload build)) /\
       last (bl_body (sl_block (bp_block (b_payload build)))) = Some (into_signed tx)) /\
    bls_verify (sbd_signature sb) (bls_public_key (sg_secret_key signer))
      (signing_root (sbd_message sb) (compute_builder_domain signer)) = true.
Proof.
  intros Hv H Hb Hf. apply sys_inv_reachable in H as []. destruct (si_bids0 b Hb) as [(c & Hc & Hbuild) _].
  destruct Hc as (Hev & [cl Hpar] & Hslot & _). destruct Hbuild as [Hcfg _].
  apply finalize_block in Hf as (_ & build & sp & tx & Hi & (account & Ha & Htx)%create_transfer_Done & []).
  rewrite Hcfg in *. simpl in *.
  exists (bc_attributes c), (bc_slot c), (bc_parent_block c), (bc_validator_info c), tx, sp, account.
  split_and!; try done; try congruence.
  - by exists cl.
  - exists build. split_and!; [done|congruence|]. rewrite su_body. apply last_snoc.
  - rewrite su_signature. apply Hv.
Qed.
End SignedProofs.

(** ** Evaluation on concrete inputs *)

Import Demo.

Definition sys_attributes : EthAttributes.
Proof.
  refine {| eth_attributes_new parent a :=
    {| pa_id := 1; pa_parent := parent; pa_timestamp := rpa_timestamp a;
       pa_suggested_fee_recipient := rpa_suggested_fee_recipient a; pa_prev_randao := rpa_prev_randao a;
       pa_withdrawals := default [] (rpa_withdrawals a);
       pa_parent_beacon_block_root := rpa_parent_beacon_block_root a |} |}.
  intros parent a. done.
Defined.

Definition sys_event : ForkVersionedResponse :=
  {| fvr_version := Some Deneb;
     fvr_data :=
       {| sse_proposal_slot := 1; sse_proposer_index := 2; sse_parent_block_root := 4;
          sse_parent_block_number := 41; sse_parent_block_hash := 77;
          sse_payload_attributes :=
            {| ssa_timestamp := 250; ssa_prev_randao := 3; ssa_suggested_fee_recipient := 9;
               ssa_withdrawals := [] |} |} |}.

(** the stream connects, then delivers the event *)
Definition sys_inputs : list (ConsensusPoll (JoinError:=unit) (StreamError:=unit)) :=
  [{| cp_stream _ := Pending; cp_handles _ := Ready (Ok tt) |};
   {| cp_stream _ := Ready (Some (Ok sys_event)); cp_handles _ := Pending |}].

Definition sys_main_input : MainPoll :=
  {| mp_events := [(demo_attributes, 1)]; mp_terminated := false; mp_now := 240; mp_client := demo_accounts;
     mp_schedule := ValidatorSchedule_new [demo_info1]; mp_locked := true |}.

Definition sys_generator : JobGeneratorConfig := JobGeneratorConfig_default demo_payload_config.

Definition sys_main_polled : BlockBuilderService * poll unit * list MainMessage :=
  run_or (demo_main, Pending, []) (main_poll demo_main sys_main_input).

Definition sys_bidder_input {E : Type} (st : BuildState) : PollInput (RecvError:=unit) (RelayServiceErr:=E) :=
  {| pi_auctions := [(1, 42)]; pi_auctions_closed := false; pi_top_bid := Pending;
     pi_builds := [st]; pi_builds_closed := false; pi_time_left := fun _ => 900 |}.

Definition sys_value (st : BuildState) : Z := u256_saturating_sub (block_value st) (bid_transaction_gas_fees st).

(** the bidder, sent a build of slot 1, bids its value less the cost of the payment *)
Lemma sys_bidder_bids {E : Type} st :
  bc_slot (bs_build_config st) = 1 ->
  exists bidder, bidder_poll (BidderService_new (NoProfitPolicy 1000)) (sys_bidder_input (E:=E) st) =
    Done (bidder, Pending, Some (st, sys_value st)).
Proof.
  intros Hs. unfold bidder_poll. simpl. unfold on_build. simpl. rewrite Hs. simpl.
  unfold update_block_info, sys_value, policy_block_value. simpl.
  pose proof (u256_add_range (ed_sum_fees (bs_exec_details st)) (ed_sum_coinbase_transfers (bs_exec_details st))) as [Hr _].
  rewrite Z.geb_leb. destruct (Z.leb_spec 0 (u256_add (ed_sum_fees (bs_exec_details st))
    (ed_sum_coinbase_transfers (bs_exec_details st)))); [|lia].
  simpl. by eexists.
Qed.

Lemma sys_main_messages :
  sys_main_polled.2 = [SendBuildNewPayload demo_config; SendAuctionStart 1 42].
Proof. exact_no_check (eq_refl [SendBuildNewPayload demo_config; SendAuctionStart 1 42]). Qed.

Definition sys_bid : BuildState * Z := (demo_outcome.1, sys_value demo_outcome.1).

Definition sys_start : System := System_new demo_main sys_generator (NoProfitPolicy 1000).

Lemma demo_run :
  exists s, sys_reachable (EA := sys_attributes) (JoinError:=unit) (StreamError:=unit) (RecvErr:=unit)
      (RelayServiceErr:=unit) sys_start s /\ sy_bids s = [sys_bid].
Proof.
  assert (bc_slot (bs_build_config demo_outcome.1) = 1) as Hs by kernel_refl.
  destruct (sys_bidder_bids (E:=unit) demo_outcome.1 Hs) as [bidder Hb].
  eexists. split.
  - unfold sys_reachable. eapply rtc_l.
    { apply (step_main (EA := sys_attributes) sys_start sys_inputs demo_consensus sys_main_input sys_main_polled.1.1
        sys_main_polled.1.2 [SendBuildNewPayload demo_config; SendAuctionStart 1 42] [demo_info1]);
        [reflexivity|reflexivity|]. rewrite <- sys_main_messages.
      exact_no_check (run_or_Done_triple (demo_main, Pending, []) (main_poll demo_main sys_main_input) (eq_refl true)). }
    eapply rtc_l. { by eapply (step_command _ demo_config [] 0). }
    eapply rtc_l.
    { eapply (step_job _ 0 demo_job {| sp_deadline := false; sp_build := Ready demo_received |} _ Pending
        [RegisterDeadline; SpawnTask (new_task demo_job); MakeBid demo_outcome.1; WakeSelf]);
        [reflexivity|exact demo_delivers|reflexivity]. }
    eapply rtc_l.
    { apply (step_bidder _ (sys_bidder_input demo_outcome.1) [] [] bidder Pending (Some sys_bid));
        [reflexivity|reflexivity|exact Hb]. }
    apply rtc_refl.
  - reflexivity.
Qed.

Lemma system_bids_sound_witness :
  exists s, sy_bids s = [sys_bid] /\ bid_slot_of sys_bid = 1 /\ exists c, (bc_attributes c, bc_slot c) ∈ sy_events s.
Proof.
  destruct demo_run as (s & Hr & Hb).
  destruct (system_bids_sound (EA := sys_attributes) demo_main sys_generator (NoProfitPolicy 1000) s Hr)
    as (_ & H).
  destruct (H sys_bid) as (_ & c & Hc & _); [rewrite Hb; left|].
  exists s. split; [exact Hb|]. split; [kernel_refl|]. exists c. exact (proj1 Hc).
Defined.

Definition sys_finalized : run Empty_set finalize_outcome :=
  finalize_and_submit_build demo_accounts [] (fun _ => true) sys_bid.1 sys_bid.2 demo_signer.
Definition sys_signed : SignedBid := submitted_or demo_other_bid sys_finalized.

Lemma system_signed_bid_correct_witness :
  sys_finalized = Done (Submitted sys_signed true) /\ bid_value (sbd_message sys_signed) = sys_bid.2 /\
  bls_verify (sbd_signature sys_signed) (bls_public_key (5 : BlsSecretKey))
    (signing_root (sbd_message sys_signed) (compute_builder_domain demo_signer)) = true.
Proof.
  assert (sys_finalized = Done (Submitted sys_signed true)) as Hf
    by exact_no_check (submitted_or_Done demo_other_bid sys_finalized (eq_refl true)).
  destruct demo_run as (s & Hr & Hb).
  assert (forall key root, bls_verify (bls_sign key root) (bls_public_key key) root = true) as Hv.
  { intros key root. simpl. apply Z.eqb_eq. lia. }
  assert (sys_bid ∈ sy_bids s) as Hin by (rewrite Hb; left).
  pose proof Hf as Hf'. unfold sys_finalized in Hf'.
  destruct (system_signed_bid_correct (EA := sys_attributes) demo_main sys_generator (NoProfitPolicy 1000) s
    sys_bid _ _ _ _ _ _ Hv Hr Hin Hf')
    as (a & slot & parent & v & tx & sp & account & _ & _ & _ & _ & _ & _ & _ & Hval & _ & _ & _ & _ & _ & Hsig).
  split; [exact Hf|]. split; [exact Hval|exact Hsig].
Defined.
