(* ===== verification/Node.v ===== *)
(** * The builder from its RPC interface to the relays

    [System] with what surrounds it: the requests that fill the shared bundle
    pool, the relays the schedule is loaded from, and the tasks that finalise
    bids and submit them.  The theorem follows a submitted block back to the
    requests, the event and the registration it comes from. *)

From stdpp Require Import prelude list gmap strings.
From S2P Require Import Prelude Types Bundle BundlePool Rpc Validator Chain Payload Ofac SimState DemoEvm State StateFacts Strategies StratFacts Provenance Policy Bid Bidder Job MainService Consensus Relays GrpcMsg Relay System.

Open Scope Z_scope.

Section Node.
Context `{BT : BestTransactions} `{RR : !ReceiptRoots} `{ER : ErrorText} `{BR : !BlockReader} `{EA : !EthAttributes}.
Context `{EF : !EnvelopeFrom} `{BL : !Bls} `{RL : !RelayLibs} `{BB : !BlobsBundleV1} `{UL : UrlLib}.
Context {JoinError StreamError RecvErr : Type}.

(** A bid that was sent: what was signed for it, which of the relays completed, what the
    network answered to them, and whether the submission succeeded. *)
Record Sent := {
  sn_bid : BuildState * Z;
  sn_signed : SignedBid;
  sn_delivery : Delivery;
  sn_network : Network;
  sn_ok : bool;
}.

(** The pool is the one the main service shares; [nd_pools] are the contents it has had,
    [nd_mempools] those of the transaction pool, [nd_accepted] the requests that were
    answered with a hash, [nd_loads] what the network answered to the load tasks,
    [nd_spawned] the bids whose tasks have not run yet, [nd_submitted] those that were sent. *)
Record Node := {
  nd_system : System;
  nd_pools : list BundlePool;
  nd_mempools : list TxPool;
  nd_accepted : list (EthSendBundle * B256);
  nd_schedule : ValidatorScheduleService;
  nd_loads : list Network;
  nd_spawned : list (BuildState * Z);
  nd_submitted : list Sent;
}.

Definition Node_new (payload_config : PayloadConfig) (generator : JobGeneratorConfig)
    (policy : BidSelectionPolicies) (mempool : TxPool) : Node :=
  {| nd_system := System_new (BlockBuilderService_new payload_config BundlePool_new) generator policy;
     nd_pools := [BundlePool_new]; nd_mempools := [mempool]; nd_accepted := []; nd_schedule := ValidatorScheduleService_new;
     nd_loads := []; nd_spawned := []; nd_submitted := [] |}.

Definition nd_pool (n : Node) : BundlePool := bb_bundle_pool (sy_main (nd_system n)).

(** the shared pool has changed *)
Definition with_pool (s : System) (p : BundlePool) : System :=
  {| sy_consensus := sy_consensus s; sy_events := sy_events s;
     sy_main := {| bb_payload_config := bb_payload_config (sy_main s); bb_slot := bb_slot (sy_main s);
                   bb_bundle_pool := p |};
     sy_commands := sy_commands s; sy_auctions := sy_auctions s; sy_generator := sy_generator s;
     sy_jobs := sy_jobs s; sy_builds := sy_builds s; sy_bidder := sy_bidder s; sy_bids := sy_bids s |}.

(** the request a call answered with a hash *)
Definition accepted_by (locked : bool) (req : rpc_request) (pool : BundlePool) : list (EthSendBundle * B256) :=
  match req with
  | SendBundle b => match (send_bundle locked b pool).2 with Ok h => [(b, h)] | Err _ => [] end
  | CancelBundle _ => []
  end.

Definition after_rpc (n : Node) (locked : bool) (req : rpc_request) : Node :=
  let pool := rpc_step locked (nd_pool n) req in
  {| nd_system := with_pool (nd_system n) pool; nd_pools := nd_pools n ++ [pool];
     nd_mempools := nd_mempools n;
     nd_accepted := nd_accepted n ++ accepted_by locked req (nd_pool n);
     nd_schedule := nd_schedule n; nd_loads := nd_loads n;
     nd_spawned := nd_spawned n; nd_submitted := nd_submitted n |}.

(** a load task asks every relay of the pool, and delivers what it makes of the answers *)
Definition loaded (relays : list Relay) (loads : list Network)
    (rx : poll (result RecvErr (result RelayServiceErr ValidatorSchedule))) : Prop :=
  forall schedule, rx = Ready (Ok (Ok schedule)) ->
    exists net completed, net ∈ loads /\ completed ≡ₚ relays /\
      handle_load_validator_schedule (Answered completed) net = Done schedule.

Definition after_schedule (n : Node) (nets : list Network) (ticks : nat)
    (rx : nat -> poll (result RecvErr (result RelayServiceErr ValidatorSchedule))) : Node :=
  {| nd_system := nd_system n; nd_pools := nd_pools n; nd_mempools := nd_mempools n;
     nd_accepted := nd_accepted n; nd_schedule := vs_poll (nd_schedule n) ticks rx; nd_loads := nd_loads n ++ nets;
     nd_spawned := nd_spawned n; nd_submitted := nd_submitted n |}.

(** the transaction pool has changed: transactions have come from the network or as private
    ones over RPC, or have left it *)
Definition after_mempool (n : Node) (mempool : TxPool) : Node :=
  {| nd_system := nd_system n; nd_pools := nd_pools n; nd_mempools := nd_mempools n ++ [mempool];
     nd_accepted := nd_accepted n; nd_schedule := nd_schedule n; nd_loads := nd_loads n;
     nd_spawned := nd_spawned n; nd_submitted := nd_submitted n |}.

(** a step of the system, and the bids it spawned *)
Definition after_system (n : Node) (s : System) (bids : list (BuildState * Z)) : Node :=
  {| nd_system := s; nd_pools := nd_pools n ++ [bb_bundle_pool (sy_main s)];
     nd_mempools := nd_mempools n; nd_accepted := nd_accepted n; nd_schedule := nd_schedule n; nd_loads := nd_loads n;
     nd_spawned := nd_spawned n ++ bids; nd_submitted := nd_submitted n |}.

(** a build task finds both pools as they are at some time *)
Definition delivers_from (pools : list BundlePool) (mempools : list TxPool) (t : BuildTask)
    (rx : poll (received BuildOutcome)) : Prop :=
  forall r, rx = Ready r -> r = Err ChannelDropped \/
    exists fuel e, te_bundle_pool e ∈ pools /\ te_pool e ∈ mempools /\ sent_by fuel t e = Some r.

Definition submission_of (b : BuildState * Z) (d : Delivery) (net : Network)
    (outcome : run Empty_set finalize_outcome) : list Sent :=
  match outcome with
  | Done (Submitted sb ok) =>
      [{| sn_bid := b; sn_signed := sb; sn_delivery := d; sn_network := net; sn_ok := ok |}]
  | _ => []
  end.

(** the task of a bid ends *)
Definition after_submit (n : Node) (k : nat) (b : BuildState * Z) (d : Delivery) (net : Network)
    (outcome : run Empty_set finalize_outcome) : Node :=
  {| nd_system := nd_system n; nd_pools := nd_pools n; nd_mempools := nd_mempools n;
     nd_accepted := nd_accepted n; nd_schedule := nd_schedule n; nd_loads := nd_loads n;
     nd_spawned := delete k (nd_spawned n);
     nd_submitted := nd_submitted n ++ submission_of b d net outcome |}.

(** what the task of a bid does *)
Definition submit_task (signer : BlsSigner) (client : Chain.Client) (pool : TxPool) (d : Delivery) (net : Network)
    (b : BuildState * Z) : run Empty_set finalize_outcome :=
  finalize_and_submit_build client pool (fun sb => is_done (handle_submit_bid d net sb)) b.1 b.2 signer.

Definition answered_by (relays : list Relay) (d : Delivery) : Prop :=
  forall completed, d = Answered completed -> completed ≡ₚ relays.

Inductive node_step (relays : list Relay) (signer : BlsSigner) (n : Node) : Node -> Prop :=
| node_rpc locked req : node_step relays signer n (after_rpc n locked req)
| node_schedule nets ticks rx :
    (forall task, loaded relays (nd_loads n ++ nets) (rx task)) ->
    node_step relays signer n (after_schedule n nets ticks rx)
| node_mempool mempool : node_step relays signer n (after_mempool n mempool)
| node_main (inputs : list (ConsensusPoll (JoinError:=JoinError) (StreamError:=StreamError)))
    cl (i : MainPoll) main p msgs :
    consensus_run (sy_consensus (nd_system n)) inputs = Done (cl, mp_events i) ->
    mp_schedule i = vs_state (nd_schedule n) ->
    main_poll (sy_main (nd_system n)) i = Done (main, p, msgs) ->
    node_step relays signer n (after_system n (after_main (nd_system n) cl (mp_events i) main msgs) [])
| node_command c rest now job deadline :
    sy_commands (nd_system n) = c :: rest ->
    stream_new_payload_job (sy_generator (nd_system n)) now c = Ok (job, deadline) ->
    node_step relays signer n (after_system n (take_command (nd_system n) c rest job) [])
| node_job k job (i : StreamPoll) job' p effs :
    sy_jobs (nd_system n) !! k = Some job -> delivers_from (nd_pools n) (nd_mempools n) (pending_task job) (sp_build i) ->
    stream_poll job i = Done (job', p, effs) ->
    node_step relays signer n (after_system n (after_job (nd_system n) k job' p effs) [])
| node_bidder (i : PollInput (RecvError:=RecvErr) (RelayServiceErr:=RelayServiceErr)) auctions builds bidder p bid :
    sy_auctions (nd_system n) = pi_auctions i ++ auctions -> sy_builds (nd_system n) = pi_builds i ++ builds ->
    bidder_poll (sy_bidder (nd_system n)) i = Done (bidder, p, bid) ->
    node_step relays signer n
      (after_system n (after_bidder (nd_system n) auctions builds bidder bid) (match bid with Some b => [b] | None => [] end))
| node_submit k b client pool d net :
    nd_spawned n !! k = Some b -> pool ∈ nd_mempools n -> answered_by relays d ->
    node_step relays signer n (after_submit n k b d net (submit_task signer client pool d net b)).

Definition node_reachable (relays : list Relay) (signer : BlsSigner) (n0 n : Node) : Prop :=
  rtc (node_step relays signer) n0 n.
End Node.

(** ** What flows through the system *)

Section Flow.
Context `{BT : BestTransactions} `{RR : !ReceiptRoots} `{ER : ErrorText} `{BR : !BlockReader} `{EA : !EthAttributes}.
Context {RecvErr RelayErr : Type}.

(** every configuration in the system satisfies [P], every build [Q] *)
Record carries (P : BuildConfig -> Prop) (Q : BuildState -> Prop) (s : System) : Prop := {
  ca_commands : forall c, c ∈ sy_commands s -> P c;
  ca_jobs : forall job, job ∈ sy_jobs s -> P (bj_build_config job);
  ca_builds : forall st, st ∈ sy_builds s -> Q st;
  ca_best : best_in Q (sy_bidder s);
  ca_bids : forall b, b ∈ sy_bids s -> Q b.1;
}.

Lemma System_new_carries P Q main generator policy : carries P Q (System_new main generator policy).
Proof. by split; try (intros ? ?%elem_of_nil). Qed.

Lemma carries_mono P P' Q Q' s :
  (forall c, P c -> P' c) -> (forall st, Q st -> Q' st) -> carries P Q s -> carries P' Q' s.
Proof.
  intros HP HQ []. split; auto. intros info st H1 H2. apply HQ. by eapply ca_best0.
Qed.

Lemma carries_with_pool P Q s p : carries P Q s -> carries P Q (with_pool s p).
Proof. by intros []. Qed.

Lemma carries_main P Q s cl events main msgs :
  carries P Q s -> (forall c, c ∈ configs_of msgs -> P c) -> carries P Q (after_main s cl events main msgs).
Proof. intros [] Hc. split; try done. simpl. intros c [H|H]%elem_of_app; auto. Qed.

(** what a poll of the main service sends, and what it does to the pool *)
Lemma main_poll_cases (self : BlockBuilderService) (i : MainPoll) self' p msgs :
  main_poll self i = Done (self', p, msgs) ->
  (exists a slot c, build_configs (set_slot self slot) (mp_client i) (mp_schedule i) a slot = Done (Some c) /\
     msgs = [SendBuildNewPayload c; SendAuctionStart slot (bc_block_number c)] /\
     bb_bundle_pool self' = pool_prune (mp_locked i) (bb_bundle_pool self)
       (u64_sub (bc_block_number c) 1) (u64_sub (pa_timestamp (bc_attributes c)) 12)) \/
  (configs_of msgs = [] /\ bb_bundle_pool self' = bb_bundle_pool self).
Proof.
  unfold main_poll. intros H.
  destruct (mp_terminated i); [injection H as <- <- <-; by right|].
  destruct (last (mp_events i)) as [[a slot]|]; [|injection H as <- <- <-; by right].
  destruct (_ =? _); [injection H as <- <- <-; by right|].
  destruct (_ <=? _); [injection H as <- <- <-; by right|].
  destruct (build_configs _ _ _ _ _) as [[c|]| |] eqn:Hb; simpl in H; try done; injection H as <- <- <-;
    [left; by exists a, slot, c|by right].
Qed.

Lemma carries_command P Q s c rest now job deadline :
  carries P Q s -> sy_commands s = c :: rest ->
  stream_new_payload_job (sy_generator s) now c = Ok (job, deadline) ->
  carries P Q (take_command s c rest job).
Proof.
  intros [] Hc [= <- <-]. rewrite Hc in ca_commands0. split; try done; simpl.
  - intros c' H. apply ca_commands0. by right.
  - intros job. destruct (existsb _ _); [auto|]. intros [H|H]%elem_of_app; [auto|].
    apply list_elem_of_singleton in H as ->. apply ca_commands0. left.
Qed.

(** the builds a poll sends are the ones its task delivered *)
Lemma stream_poll_bids s c job (i : StreamPoll) job' p effs :
  job_ok s c job -> delivers (pending_task job) (sp_build i) -> stream_poll job i = Done (job', p, effs) ->
  bj_build_config job' = bj_build_config job /\
  forall st, st ∈ bids_of effs -> build_of s c st /\ exists r, sp_build i = Ready (Ok (Ok (Better st r))).
Proof.
  intros Hok Hd Hp. destruct (sp_deadline i) eqn:Hdl.
  { unfold stream_poll in Hp. rewrite Hdl in Hp. injection Hp as <- <- <-. split; [done|by intros st ?%elem_of_nil]. }
  destruct (stream_poll_cases s c job i Hok Hd Hdl) as (j & es & Heq & Hok' & Hcase).
  rewrite Heq in Hp. injection Hp as <- <- <-.
  split; [by rewrite (jo_config _ _ _ Hok), (jo_config _ _ _ Hok')|].
  destruct (sp_build i) as [[[[st r|v r|]|e]|e]|]; simpl in Hcase;
    try (destruct Hcase as (_ & -> & _); by intros st' ?%elem_of_nil).
  destruct Hcase as (Hb & _ & _ & -> & _). intros st' ->%list_elem_of_singleton. split; [done|by exists r].
Qed.

Lemma carries_job P Q s k job job' p effs :
  carries P Q s -> sy_jobs s !! k = Some job -> bj_build_config job' = bj_build_config job ->
  (forall st, st ∈ bids_of effs -> Q st) ->
  carries P Q (after_job s k job' p effs).
Proof.
  intros [] Hk Hj Hq. assert (P (bj_build_config job)) as HP by by eapply ca_jobs0, list_elem_of_lookup_2.
  split; try done; simpl.
  - intros j [n Hn]%list_elem_of_lookup. destruct p.
    + rewrite list_lookup_delete in Hn. destruct (decide (n < k)%nat); by eapply ca_jobs0, list_elem_of_lookup_2.
    + apply list_lookup_insert_Some in Hn as [(_ & <- & _)|[_ Hn]]; [by rewrite Hj|].
      by eapply ca_jobs0, list_elem_of_lookup_2.
  - intros st [H|H]%elem_of_app; auto.
Qed.

Lemma carries_bidder P Q s
    (i : PollInput (RecvError:=RecvErr) (RelayServiceErr:=RelayErr)) auctions builds bidder p bid :
  carries P Q s -> sy_builds s = pi_builds i ++ builds ->
  bidder_poll (sy_bidder s) i = Done (bidder, p, bid) ->
  carries P Q (after_bidder s auctions builds bidder bid).
Proof.
  intros [] Hb Hp. rewrite Hb in ca_builds0.
  destruct (bidder_poll_in Q _ _ _ _ _ Hp ca_best0) as [Hbest Hbid].
  { intros st Hst. apply ca_builds0, elem_of_app. by left. }
  split; try done; simpl.
  - intros st Hst. apply ca_builds0, elem_of_app. by right.
  - intros b [H|H]%elem_of_app; [auto|]. destruct bid as [[st v]|]; [|by apply elem_of_nil in H].
    apply list_elem_of_singleton in H as ->. by eapply Hbid.
Qed.

Lemma sys_inv_with_pool spec pc policy s p : sys_inv spec pc policy s -> sys_inv spec pc policy (with_pool s p).
Proof. by intros []. Qed.
End Flow.

(** ** The pool and the schedule *)

(** the requests a bundle of the pool can come from *)
Definition requested (accepted : list (EthSendBundle * B256)) (b : Bundle) : Prop :=
  exists req, (req, hash b) ∈ accepted /\ b = Bundle_from (req, hash b).

Definition pool_requested (accepted : list (EthSendBundle * B256)) (p : BundlePool) : Prop :=
  pool_wf (inner p) /\ forall h b, bundles_map (inner p) !! h = Some b -> requested accepted b.

Lemma requested_mono accepted more b : requested accepted b -> requested (accepted ++ more) b.
Proof. intros (req & H & ?). exists req. split; [apply elem_of_app; by left|done]. Qed.

Lemma pool_requested_mono accepted more p : pool_requested accepted p -> pool_requested (accepted ++ more) p.
Proof. intros [Hwf H]. split; [done|]. intros h b Hb. eapply requested_mono, H, Hb. Qed.

Lemma pool_requested_inner accepted p p' :
  inner p' = inner p -> pool_requested accepted p -> pool_requested accepted p'.
Proof. unfold pool_requested. by intros ->. Qed.

Lemma pool_requested_prune accepted locked p bn ts :
  pool_requested accepted p -> pool_requested accepted (pool_prune locked p bn ts).
Proof.
  intros [Hwf H]. destruct locked; [|done]. split; rewrite pool_prune_inner; [by apply prune_wf|].
  intros h b [Hb _]%prune_lookup. by eapply H.
Qed.

Lemma pool_requested_served accepted p bn ts b :
  pool_requested accepted p -> b ∈ inner_bundles (inner p) bn ts ->
  requested accepted b /\ block_number b = bn /\ is_within_timestamp b ts = true.
Proof. intros [Hwf H] (Hb & Hbn & Ht)%inner_bundles_elem; [|done]. split; [by eapply H|done]. Qed.

Section PoolFlow.
Context `{ET : EthTx}.

Lemma add_requested accepted s b h b' :
  (forall h b, bundles_map s !! h = Some b -> requested accepted b) -> requested accepted b ->
  bundles_map (inner_add_bundle s b).1 !! h = Some b' -> requested accepted b'.
Proof.
  intros Hs Hb. rewrite add_eq. simpl. rewrite lookup_insert. case_decide; [by intros [= <-]|].
  apply (replacement_cases s b (fun s' => bundles_map s' !! h = Some b' -> requested accepted b')).
  - intros u h' _ _. rewrite cancel_lookup. case_decide; [done|]. by apply Hs.
  - intros u _ _. by apply Hs.
  - intros _. by apply Hs.
Qed.

Lemma send_bundle_Err locked b p p' e : send_bundle locked b p = (p', Err e) -> inner p' = inner p.
Proof.
  unfold send_bundle. destruct (recover_transactions _ _) as [ps|]; [|by intros [= <- _]].
  destruct locked; cbn -[inner_add_bundle]; [done|by intros [= <- _]].
Qed.

Lemma send_bundle_locked locked b p p' h : send_bundle locked b p = (p', Ok h) -> locked = true.
Proof. unfold send_bundle. destruct (recover_transactions _ _); [|done]. by destruct locked. Qed.

Lemma rpc_requested accepted locked req p :
  pool_requested accepted p -> pool_requested (accepted ++ accepted_by locked req p) (rpc_step locked p req).
Proof.
  intros Hp. destruct req as [b|h]; simpl.
  - destruct (send_bundle locked b p) as [p' [h|e]] eqn:Hs; simpl.
    + pose proof (send_bundle_locked _ _ _ _ _ Hs) as ->. apply send_bundle_Ok in Hs as (ps & _ & _ & Hi).
      assert (requested (accepted ++ [(b, h)]) (Bundle_from (b, h))) as Hr.
      { exists b. split; [|done]. apply elem_of_app. right. left. }
      apply (pool_requested_mono _ [(b, h)]) in Hp as [Hwf Hp].
      split; rewrite Hi; [by apply add_wf|]. intros h' b'. by apply add_requested.
    + rewrite app_nil_r. by eapply pool_requested_inner; [eapply send_bundle_Err|].
  - rewrite app_nil_r. unfold cancel_bundle, pool_cancel_bundle. destruct locked; [|done].
    destruct Hp as [Hwf Hp]. pose proof (cancel_wf (inner p) h Hwf) as Hwf'.
    pose proof (cancel_lookup (inner p) h) as Hl. destruct (inner_cancel_bundle (inner p) h) as [i r].
    split; [done|]. simpl in *. intros h' b'. rewrite Hl. case_decide; [done|]. by apply Hp.
Qed.
End PoolFlow.

Section Schedule.
Context `{EV : Evm} `{BL : !Bls} `{RL : !RelayLibs} `{BB : !BlobsBundleV1} `{UL : UrlLib} {RecvErr : Type}.

(** a schedule whose entries some relay has registered *)
Definition schedule_ok (relays : list Relay) (loads : list Network) (schedule : ValidatorSchedule) : Prop :=
  (exists registrations, schedule = ValidatorSchedule_new registrations) /\
  forall slot v, schedule !! slot = Some v -> exists net, net ∈ loads /\ registered relays net slot v.

Lemma schedule_ok_mono relays loads more schedule :
  schedule_ok relays loads schedule -> schedule_ok relays (loads ++ more) schedule.
Proof.
  intros [H1 H2]. split; [done|]. intros slot v H. destruct (H2 slot v H) as (net & Hn & ?).
  exists net. split; [apply elem_of_app; by left|done].
Qed.

Lemma schedule_ok_empty relays loads : schedule_ok relays loads ∅.
Proof. split; [by exists []|]. intros slot v. by rewrite lookup_empty. Qed.

Lemma load_schedule_made (completed : list Relay) net schedule :
  load_validator_schedule completed net = Ok schedule ->
  schedule = ValidatorSchedule_new (slot_info_from <$> concat (aggregate completed (fun r => get_validators r net))).
Proof. unfold load_validator_schedule. destruct (_ <$> _); [done|]. by intros [= <-]. Qed.

Lemma loaded_ok (relays completed : list Relay) loads net schedule :
  net ∈ loads -> completed ≡ₚ relays -> load_validator_schedule completed net = Ok schedule ->
  schedule_ok relays loads schedule.
Proof.
  intros Hn Hp ->%load_schedule_made. split; [by eexists|].
  intros slot v H. exists net. split; [done|]. unfold ValidatorSchedule_new in H.
  rewrite schedule_foldl, lookup_empty in H. apply head_Some_elem_of, list_elem_of_filter in H as [Hs H].
  apply list_elem_of_fmap in H as (data & -> & Hd).
  apply list_elem_of_In, in_concat in Hd as (l & Hl & Hd).
  unfold aggregate in Hl. apply list_elem_of_In, list_elem_of_fmap in Hl as (r & -> & Hr).
  split; [done|]. exists r, data. split_and!; [by rewrite <- Hp|by apply list_elem_of_In|done].
Qed.

Lemma vs_poll_ok (relays : list Relay) loads (self : ValidatorScheduleService) ticks
    (rx : nat -> poll (result RecvErr (result RelayServiceErr ValidatorSchedule))) :
  schedule_ok relays loads (vs_state self) -> (forall task, loaded relays loads (rx task)) ->
  schedule_ok relays loads (vs_state (vs_poll self ticks rx)).
Proof.
  intros Hs Hrx. unfold vs_poll. rewrite vs_ticks.
  destruct (match ticks with O => self | S n => _ end) as [sp [task|] st ra] eqn:E; simpl.
  - assert (st = vs_state self) as -> by (destruct ticks; subst; [done|by injection E as _ _ <- _]).
    destruct (rx task) as [[[schedule|e]|e]|] eqn:Hx; try done.
    destruct (Hrx task schedule Hx) as (net & completed & Hn & Hp & Hl). simpl in Hl.
    apply lift_err_Done in Hl. by eapply loaded_ok.
  - assert (st = vs_state self) as -> by (destruct ticks; subst; [done|by injection E as _ _ <- _]). done.
Qed.
End Schedule.

(** ** The invariant of the node *)

Section NodeProofs.
Context `{BT : BestTransactions} `{RR : !ReceiptRoots} `{ER : ErrorText} `{BR : !BlockReader} `{EA : !EthAttributes}.
Context `{EF : !EnvelopeFrom} `{BL : !Bls} `{RL : !RelayLibs} `{BB : !BlobsBundleV1} `{UL : UrlLib}.
Context {JoinError StreamError RecvErr : Type}.
Abbreviation node_step := (node_step (JoinError:=JoinError) (StreamError:=StreamError) (RecvErr:=RecvErr)).
Abbreviation node_reachable := (node_reachable (JoinError:=JoinError) (StreamError:=StreamError) (RecvErr:=RecvErr)).

(** the validator of a configuration is one a relay registered for its slot *)
Definition validated (relays : list Relay) (loads : list Network) (c : BuildConfig) : Prop :=
  exists net, net ∈ loads /\ registered relays net (bc_slot c) (bc_validator_info c).

(** what the mempool offers a build while these are its contents *)
Definition offered_by (mempool : TxPool) (t : SignedTx) : Prop :=
  exists base_fee blob_fee, yielded (best_transactions_with_attributes mempool base_fee blob_fee) t.

(** the transactions of a build are whole bundles that one of the pool's contents serves
    for its block and time, and then transactions one of the mempool's contents offers *)
Definition sourced (pools : list BundlePool) (mempools : list TxPool) (st : BuildState) : Prop :=
  let c := bs_build_config st in
  exists p mempool, p ∈ pools /\ mempool ∈ mempools /\
    composed (fun b => b ∈ inner_bundles (inner p) (bc_block_number c) (pa_timestamp (bc_attributes c)))
      (offered_by mempool) st.

Definition good_build (relays : list Relay) (n : Node) (st : BuildState) : Prop :=
  validated relays (nd_loads n) (bs_build_config st) /\ sourced (nd_pools n) (nd_mempools n) st.

(** a submission is what the task of its bid did *)
Definition submission_ok (relays : list Relay) (signer : BlsSigner)
    (x : Sent) : Prop :=
  answered_by relays (sn_delivery x) /\
  exists client pool, submit_task signer client pool (sn_delivery x) (sn_network x) (sn_bid x) =
    Done (Submitted (sn_signed x) (sn_ok x)).

Record node_inv (relays : list Relay) (signer : BlsSigner) (spec : ChainSpec) (pc : PayloadConfig)
    (policy : BidSelectionPolicies) (n : Node) : Prop := {
  ni_system : sys_inv spec pc policy (nd_system n);
  ni_carries : carries (validated relays (nd_loads n)) (good_build relays n) (nd_system n);
  ni_pool : nd_pool n ∈ nd_pools n;
  ni_pools : Forall (pool_requested (nd_accepted n)) (nd_pools n);
  ni_schedule : schedule_ok relays (nd_loads n) (vs_state (nd_schedule n));
  ni_bids : ((sn_bid <$> nd_submitted n) ++ nd_spawned n) ⊆+ sy_bids (nd_system n);
  ni_submitted : Forall (submission_ok relays signer) (nd_submitted n);
}.

Lemma Node_new_inv relays signer pc generator policy mempool :
  node_inv relays signer (pc_chain_spec pc) (jc_payload_config generator) policy
    (Node_new pc generator policy mempool).
Proof.
  split.
  - exact (System_new_inv (BlockBuilderService_new pc BundlePool_new) generator policy).
  - apply System_new_carries.
  - left.
  - apply Forall_singleton. split; [apply new_wf|]. intros h b H. by destruct (lookup_empty_Some (M := gmap Z) h b).
  - apply schedule_ok_empty.
  - constructor.
  - constructor.
Qed.

(** what was recorded stays so *)
Definition grows {A} (l l' : list A) : Prop := exists more, l' = l ++ more.

Lemma grows_elem {A} (l l' : list A) x : grows l l' -> x ∈ l -> x ∈ l'.
Proof. intros [more ->] H. apply elem_of_app. by left. Qed.

Lemma grows_refl {A} (l : list A) : grows l l.
Proof. exists []. by rewrite app_nil_r. Qed.

Lemma grows_app {A} (l more : list A) : grows l (l ++ more).
Proof. by exists more. Qed.

Lemma good_build_mono relays n n' st :
  grows (nd_pools n) (nd_pools n') -> grows (nd_mempools n) (nd_mempools n') ->
  grows (nd_loads n) (nd_loads n') -> good_build relays n st -> good_build relays n' st.
Proof.
  intros Hp Hm Hl [(net & Hn & Hr) (p & m & Hin & Hinm & Hc)]. split.
  - exists net. split; [by eapply grows_elem|done].
  - exists p, m. split_and!; [by eapply grows_elem..|done].
Qed.

Lemma validated_mono relays loads more c : validated relays loads c -> validated relays (loads ++ more) c.
Proof. intros (net & Hn & Hr). exists net. split; [apply elem_of_app; by left|done]. Qed.

(** what a task finds in one of the pool's contents is a good build *)
Lemma delivered_good relays n s c job (i : StreamPoll) st r :
  job_ok s c job -> delivers_from (nd_pools n) (nd_mempools n) (pending_task job) (sp_build i) ->
  validated relays (nd_loads n) c -> build_of s c st -> sp_build i = Ready (Ok (Ok (Better st r))) ->
  good_build relays n st.
Proof.
  intros Hok Hd Hv [Hc Hpc] Hr. split; [unfold validated; rewrite Hc; exact Hv|].
  destruct (Hd _ Hr) as [|(fuel & e & Hp & Hm & Hs)]; [done|].
  unfold sent_by, run_task in Hs. destruct (try_build _ _ _) as [[o|err|]|] eqn:Ht; try done.
  injection Hs as ->. apply better_build_composed in Ht.
  exists (te_bundle_pool e), (te_pool e). split; [done|]. split; [done|]. revert Ht. apply composed_mono.
  - intros b Hb. unfold served_for in Hb. simpl in Hb. rewrite Hc. simpl.
    apply (pending_task_ok _ _ _) in Hok as Hto. destruct Hto as [(_ & Hcfg & _) _].
    rewrite Hcfg, (jo_config _ _ _ Hok) in Hb. destruct (te_locked e); [exact Hb|by apply elem_of_nil in Hb].
  - intros t (base_fee & blob_fee & Ht). by eexists _, _.
Qed.

(** a step of the services, with what it leaves in the shared pool *)
Lemma node_inv_system relays signer spec pc policy n s bids :
  node_inv relays signer spec pc policy n -> sys_inv spec pc policy s ->
  carries (validated relays (nd_loads n)) (good_build relays n) s ->
  pool_requested (nd_accepted n) (bb_bundle_pool (sy_main s)) -> sy_bids s = sy_bids (nd_system n) ++ bids ->
  node_inv relays signer spec pc policy (after_system n s bids).
Proof.
  intros [] Hs Hc Hp Hb. split; try done.
  - eapply carries_mono; [| |exact Hc]; [done|]. intros st.
    apply good_build_mono; first [apply grows_app|apply grows_refl].
  - apply elem_of_app. right. left.
  - apply Forall_app. split; [done|by apply Forall_singleton].
  - simpl. rewrite Hb, app_assoc. by apply submseteq_app.
Qed.

Lemma node_inv_rpc relays signer spec pc policy n locked req :
  node_inv relays signer spec pc policy n -> node_inv relays signer spec pc policy (after_rpc n locked req).
Proof.
  intros []. assert (pool_requested (nd_accepted n) (nd_pool n)) as Hp
    by (rewrite Forall_forall in ni_pools0; by apply ni_pools0).
  split; try done.
  - by apply sys_inv_with_pool.
  - apply carries_with_pool. eapply carries_mono; [| |exact ni_carries0]; [done|]. intros st.
    apply good_build_mono; first [apply grows_app|apply grows_refl].
  - apply elem_of_app. right. left.
  - apply Forall_app. split; [|by apply Forall_singleton, rpc_requested].
    eapply Forall_impl; [exact ni_pools0|]. intros p. apply pool_requested_mono.
Qed.

Lemma node_inv_schedule relays signer spec pc policy n nets ticks
    (rx : nat -> poll (result RecvErr (result RelayServiceErr ValidatorSchedule))) :
  node_inv relays signer spec pc policy n -> (forall task, loaded relays (nd_loads n ++ nets) (rx task)) ->
  node_inv relays signer spec pc policy (after_schedule n nets ticks rx).
Proof.
  intros [] Hrx. split; try done.
  - eapply carries_mono; [| |exact ni_carries0]; [intros c; apply validated_mono|]. intros st.
    apply good_build_mono; first [apply grows_app|apply grows_refl].
  - apply vs_poll_ok; [by apply schedule_ok_mono|done].
Qed.

Lemma node_inv_mempool relays signer spec pc policy n mempool :
  node_inv relays signer spec pc policy n -> node_inv relays signer spec pc policy (after_mempool n mempool).
Proof.
  intros []. split; try done. eapply carries_mono; [| |exact ni_carries0]; [done|]. intros st.
  apply good_build_mono; first [apply grows_app|apply grows_refl].
Qed.

Lemma node_inv_main relays signer spec pc policy n cl (i : MainPoll) main p msgs :
  node_inv relays signer spec pc policy n -> mp_schedule i = vs_state (nd_schedule n) ->
  main_poll (sy_main (nd_system n)) i = Done (main, p, msgs) ->
  node_inv relays signer spec pc policy (after_system n (after_main (nd_system n) cl (mp_events i) main msgs) []).
Proof.
  intros Hinv Hs Hp. pose proof Hinv as []. destruct ni_schedule0 as [[registrations Hreg] Hall].
  rewrite Hreg in Hs. apply node_inv_system; [done| | | |by rewrite app_nil_r].
  - by eapply sys_inv_main.
  - apply carries_main; [done|]. intros c Hc. unfold validated.
    destruct (main_poll_cases _ _ _ _ _ Hp) as [(a & slot & c' & Hb & -> & _)|[Hn _]];
      [|rewrite Hn in Hc; by apply elem_of_nil in Hc].
    apply list_elem_of_singleton in Hc as ->. apply build_configs_Some in Hb as (_ & Hv & -> & _).
    apply Hall. by rewrite Hreg, <- Hs.
  - simpl. assert (pool_requested (nd_accepted n) (nd_pool n)) as Hq
      by (rewrite Forall_forall in ni_pools0; by apply ni_pools0).
    destruct (main_poll_cases _ _ _ _ _ Hp) as [(a & slot & c' & _ & _ & ->)|[_ ->]]; [|done].
    by apply pool_requested_prune.
Qed.

Lemma delivers_from_delivers pools mempools t rx : delivers_from pools mempools t rx -> delivers t rx.
Proof. intros H r Hr. destruct (H r Hr) as [|(fuel & e & _ & _ & Hs)]; [by left|right; by exists fuel, e]. Qed.

Lemma nd_pool_requested relays signer spec pc policy n :
  node_inv relays signer spec pc policy n -> pool_requested (nd_accepted n) (nd_pool n).
Proof. intros []. rewrite Forall_forall in ni_pools0. by apply ni_pools0. Qed.

Lemma node_inv_command relays signer spec pc policy n c rest now job deadline :
  node_inv relays signer spec pc policy n -> sy_commands (nd_system n) = c :: rest ->
  stream_new_payload_job (sy_generator (nd_system n)) now c = Ok (job, deadline) ->
  node_inv relays signer spec pc policy (after_system n (take_command (nd_system n) c rest job) []).
Proof.
  intros Hinv Hc Hj. pose proof Hinv as []. apply node_inv_system; [done| | | |by rewrite app_nil_r].
  - by eapply sys_inv_command.
  - by eapply carries_command.
  - by eapply nd_pool_requested.
Qed.

Lemma node_inv_job relays signer spec pc policy n k job (i : StreamPoll) job' p effs :
  node_inv relays signer spec pc policy n -> sy_jobs (nd_system n) !! k = Some job ->
  delivers_from (nd_pools n) (nd_mempools n) (pending_task job) (sp_build i) -> stream_poll job i = Done (job', p, effs) ->
  node_inv relays signer spec pc policy (after_system n (after_job (nd_system n) k job' p effs) []).
Proof.
  intros Hinv Hk Hd Hp. pose proof Hinv as []. pose proof (delivers_from_delivers _ _ _ _ Hd) as Hd'.
  apply node_inv_system; [done|by eapply sys_inv_job| |by eapply nd_pool_requested|by rewrite app_nil_r].
  destruct (si_jobs _ _ _ _ ni_system0 job) as (c & bids & _ & Hst); [by eapply list_elem_of_lookup_2|].
  apply stream_steps_ok, bo_job in Hst as Hok.
  destruct (stream_poll_bids _ _ _ _ _ _ _ Hok Hd' Hp) as [Hcfg Hb].
  eapply carries_job; [done|done|done|]. intros st (Hbuild & r & Hr)%Hb.
  eapply delivered_good; [done|done| |done|done]. rewrite <- (jo_config _ _ _ Hok).
  eapply (ca_jobs _ _ _ ni_carries0). by eapply list_elem_of_lookup_2.
Qed.

Lemma node_inv_bidder relays signer spec pc policy n
    (i : PollInput (RecvError:=RecvErr) (RelayServiceErr:=RelayServiceErr)) auctions builds bidder p bid :
  node_inv relays signer spec pc policy n ->
  sy_auctions (nd_system n) = pi_auctions i ++ auctions -> sy_builds (nd_system n) = pi_builds i ++ builds ->
  bidder_poll (sy_bidder (nd_system n)) i = Done (bidder, p, bid) ->
  node_inv relays signer spec pc policy
    (after_system n (after_bidder (nd_system n) auctions builds bidder bid)
       (match bid with Some b => [b] | None => [] end)).
Proof.
  intros Hinv Ha Hb Hp. pose proof Hinv as []. apply node_inv_system; [done| | | |done].
  - by eapply sys_inv_bidder.
  - by eapply carries_bidder.
  - by eapply nd_pool_requested.
Qed.

Lemma node_inv_submit relays signer spec pc policy n k b client pool d net :
  node_inv relays signer spec pc policy n -> nd_spawned n !! k = Some b -> answered_by relays d ->
  node_inv relays signer spec pc policy (after_submit n k b d net (submit_task signer client pool d net b)).
Proof.
  intros [] Hk Hd. split; try done.
  - etrans; [|exact ni_bids0]. simpl. rewrite !fmap_app, <- app_assoc. apply submseteq_app; [done|].
    transitivity (b :: delete k (nd_spawned n)); [|by rewrite <- (delete_Permutation _ _ _ Hk)].
    destruct (submit_task signer client pool d net b) as [[sb ok|e]|[]|]; simpl; [done|..];
      by apply submseteq_cons.
  - apply Forall_app. split; [done|].
    destruct (submit_task signer client pool d net b) as [[sb ok|e]|[]|] eqn:Hs; simpl; try constructor; [|done].
    split; [done|]. by exists client, pool.
Qed.

Lemma node_inv_reachable relays signer pc generator policy mempool n :
  node_reachable relays signer (Node_new pc generator policy mempool) n ->
  node_inv relays signer (pc_chain_spec pc) (jc_payload_config generator) policy n.
Proof.
  intros H. assert (Hi := Node_new_inv relays signer pc generator policy mempool). revert Hi.
  induction H as [|n1 n2 n3 Hstep _ IH]; [done|]. intros Hi. apply IH. destruct Hstep.
  - by apply node_inv_rpc.
  - by apply node_inv_schedule.
  - by apply node_inv_mempool.
  - by eapply node_inv_main.
  - by eapply node_inv_command.
  - by eapply node_inv_job.
  - by eapply node_inv_bidder.
  - by apply node_inv_submit.
Qed.

(** A bundle of a block: one that was accepted for the block's number and is valid at its
    time, as its transactions recover, none of them blacklisted, and then at
    most one transfer of the builder. *)
Definition block_bundle (accepted : list (EthSendBundle * B256)) (st : BuildState) (number ts : Z)
    (x : RecoveredBundle * list SignedTx) : Prop :=
  exists req h, (req, h) ∈ accepted /\ sb_block_number req = number /\
    is_within_timestamp (Bundle_from (req, h)) ts = true /\
    x.1 ∈ recover_bundles [Bundle_from (req, h)] /\
    Forall (fun t => ofac_tx t = false) (rb_txs x.1) /\
    (length x.2 <= 1)%nat /\ Forall (is_transfer st) x.2.

Lemma sourced_blocks accepted pools mempools st :
  Forall (pool_requested accepted) pools -> sourced pools mempools st ->
  exists bundles singles mempool,
    ed_executed_txs (bs_exec_details st) = body_of bundles singles /\
    Forall (block_bundle accepted st (bc_block_number (bs_build_config st))
              (pa_timestamp (bc_attributes (bs_build_config st)))) bundles /\
    mempool ∈ mempools /\ Forall (committed_tx (offered_by mempool)) singles.
Proof.
  intros Hp (p & mempool & Hin & Hm & bundles & singles & Hb & Hf & Hs). rewrite Forall_forall in Hp.
  exists bundles, singles, mempool. split_and!; try done. eapply Forall_impl; [exact Hf|].
  intros x ((b & Hb' & Hx) & Hof & Hl & Ht).
  destruct (pool_requested_served _ _ _ _ _ (Hp p Hin) Hb') as ((req & Hr & E) & Hn & Hw).
  exists req, (hash b). rewrite <- E. split_and!; try done. by rewrite <- Hn, E.
Qed.

(** when the handle reports a success: the service's answer has come, no client panicked, and
    a relay took the bid *)
Lemma submit_bid_accepted (relays : list Relay) d net sb :
  answered_by relays d ->
  is_done (handle_submit_bid d net sb) = true <->
  (exists completed, d = Answered completed) /\ (forall r, r ∈ relays -> submit_bid r net sb <> Panicked) /\
  exists r, r ∈ relays /\ accepts net sb r.
Proof.
  intros Hd. destruct d as [| |completed]; [split; [done|by intros ((?&?)&_)]..|].
  specialize (Hd completed eq_refl). simpl. unfold broadcast_submit_bid.
  pose proof (some_panics net sb completed) as Hpan. pose proof (none_done net sb completed) as Hnone.
  destruct (existsb _ _).
  - split; [done|]. intros (_ & Hn & _). destruct (proj1 Hpan eq_refl) as (r & Hr & Hp).
    destruct (Hn r); [by rewrite <- Hd|done].
  - assert (forall r, r ∈ relays -> submit_bid r net sb <> Panicked) as Hn.
    { intros r Hr Hp. assert (false = true); [|done]. apply Hpan. exists r. by rewrite Hd. }
    destruct (length _) as [|k]; simpl.
    + split; [done|]. intros (_ & _ & r & Hr & Ha). exfalso. by eapply (proj1 Hnone eq_refl r); [rewrite Hd|].
    + split; [|done]. intros _. split; [by exists completed|]. split; [done|].
      destruct (Exists_dec (fun r => is_done (broadcast_one net sb r) = true) completed) as [Hx|Hx].
      * apply Exists_exists in Hx as (r & Hr & Hx%broadcast_one_done). exists r. by rewrite <- Hd.
      * enough (S k = 0%nat) by done. apply Hnone. intros r Hr Ha%broadcast_one_done. apply Hx, Exists_exists. eauto.
Qed.

(** C1: from requests, events and registrations to the signed block.  In every run of
    the builder, whatever the interleaving of its services, its RPC calls, the changes of the
    mempool, the answers of its relays and its tasks, each bid is submitted at most once,
    and what is submitted is signed by the builder's key and names the slot and the parent
    block of an event of the consensus layer, a validator some relay registered for that
    slot, and the value its policy computed.  Its block consists of whole bundles that
    were accepted over RPC for exactly this block and are valid at its time, each
    followed by at most a refund the builder signed, then of transactions that the mempool
    offered with contents it had in this run, and last of one transaction signed with the
    builder's account key that transfers the value of the bid to the validator's fee
    recipient; no transaction of a bundle or of the mempool is blacklisted.
    A submission succeeds exactly when it was answered, no relay's client panicked, and a
    relay accepted this bid on the network it was sent over. *)
Theorem node_submissions_sound (relays : list Relay) (signer : BlsSigner) (pc : PayloadConfig)
    (generator : JobGeneratorConfig) (policy : BidSelectionPolicies) (mempool0 : TxPool) (n : Node) :
  (forall key root, bls_verify (bls_sign key root) (bls_public_key key) root = true) ->
  node_reachable relays signer (Node_new pc generator policy mempool0) n ->
  (sn_bid <$> nd_submitted n) ⊆+ sy_bids (nd_system n) /\
  forall x, x ∈ nd_submitted n ->
    let st := (sn_bid x).1 in let value := (sn_bid x).2 in
    let sb := sn_signed x in
    exists a slot parent v net bundles singles mempool sp account tx block,
      (a, slot) ∈ sy_events (nd_system n) /\ (exists c, parent_block c a = Ok parent) /\
      net ∈ nd_loads n /\ registered relays net slot v /\
      bid_slot (sbd_message sb) = slot /\ bid_parent_hash (sbd_message sb) = sl_hash parent /\
      bid_proposer_pubkey (sbd_message sb) = vi_proposer v /\
      bid_proposer_fee_recipient (sbd_message sb) = vi_fee_recipient v /\
      bid_value (sbd_message sb) = value /\ policy_bid policy (sn_bid x) /\
      bid_block_hash (sbd_message sb) = sl_hash block /\
      ep_block_hash (sbd_execution_payload sb) = sl_hash block /\
      ep_timestamp (sbd_execution_payload sb) = pa_timestamp a /\
      bl_body (sl_block block) = body_of bundles singles ++ [into_signed tx] /\
      Forall (block_bundle (nd_accepted n) st
                (be_number (cfg_and_block_env a (pc_chain_spec pc) (bl_header (sl_block parent))).2)
                (pa_timestamp a)) bundles /\
      mempool ∈ nd_mempools n /\ Forall (committed_tx (offered_by mempool)) singles /\
      bs_payload_config st = jc_payload_config generator /\
      db_basic (finish_db st sp) (pc_builder_address (jc_payload_config generator)) = Ok account /\
      transfer_of st (next_nonce account) (vi_fee_recipient v) value tx /\
      bls_verify (sbd_signature sb) (signer_public_key signer)
        (signing_root (sbd_message sb) (compute_builder_domain signer)) = true /\
      (sn_ok x = true <->
         (exists completed, sn_delivery x = Answered completed) /\
         (forall r, r ∈ relays -> submit_bid r (sn_network x) sb <> Panicked) /\
         exists r, r ∈ relays /\ accepts (sn_network x) sb r).
Proof.
  intros Hv Hr. apply node_inv_reachable in Hr as [Hsys Hca _ Hpools _ Hbids Hsub].
  split; [etrans; [|exact Hbids]; by apply submseteq_inserts_r|].
  intros x Hin st value sb. rewrite Forall_forall in Hsub.
  destruct (Hsub _ Hin) as (Hd & client & pool & Hf).
  assert (sn_bid x ∈ sy_bids (nd_system n)) as Hb.
  { eapply elem_of_submseteq; [|exact Hbids]. apply elem_of_app. left. by apply list_elem_of_fmap_2. }
  apply finalize_block in Hf as (Hok & build & sp & tx & _ & Htx & [S1 S2 S3 S4 S5 S6 S7 S8 S9 S10]).
  apply create_transfer_Done in Htx as (account & Hacc & Htx).
  destruct (si_bids _ _ _ _ Hsys _ Hb) as [(c & (Hev & Hpar & _ & Henv & Hnum) & Hcfg & Hpc) Hpol].
  destruct (ca_bids _ _ _ Hca _ Hb) as [(net & Hnet & Hreg) Hso].
  destruct (sourced_blocks _ _ _ _ Hpools Hso) as (bundles & singles & mempool & Hbody & Hbb & Hm & Hss).
  fold st in Hcfg, Hpc, Hbody, Hbb, Hreg, S1, S2, S3, S4, S7, S8. change (bs_payload_config st = jc_payload_config generator) in Hpc.
  assert (db_basic (finish_db st sp) (pc_builder_address (jc_payload_config generator)) = Ok account) as Hacc'.
  { rewrite <- Hpc. exact Hacc. }
  clear Hacc. change (transfer_of st (next_nonce account)
    (vi_fee_recipient (bc_validator_info (bs_build_config st))) value tx) in Htx.
  rewrite Hcfg in *. simpl in *. rewrite Hnum, Henv in Hbb.
  exists (bc_attributes c), (bc_slot c), (bc_parent_block c), (bc_validator_info c), net, bundles, singles,
    mempool, sp, account, tx, (bp_block (b_payload build)).
  subst sb. split_and!; try done; try congruence.
  - by rewrite S1, (proj1 Hreg).
  - rewrite S9. by fold st; rewrite Hbody.
  - rewrite S10. apply Hv.
  - rewrite Hok. by apply submit_bid_accepted.
Qed.
End NodeProofs.

(** ** Evaluation on concrete inputs *)

Import Demo.

(** two transactions for block 42, sent over RPC *)
Definition node_request : EthSendBundle :=
  {| sb_txs := le_bytes 32 <$> [111; 112]; sb_block_number := 42; sb_min_timestamp := None;
     sb_max_timestamp := Some 300; sb_reverting_tx_hashes := []; sb_replacement_uuid := None;
     sb_refund_percent := None; sb_refund_index := None; sb_refund_recipient := None |}.

Definition node_relays : list Relay := demo_relays true.
Definition node_schedule_loaded : ValidatorSchedule :=
  ValidatorSchedule_new (slot_info_from <$> concat (aggregate node_relays (fun r => get_validators r demo_net))).

Definition node_mempool_txs : list demo_tx := [simple_tx 111 11 0 1; simple_tx 300 12 0 5; simple_tx 301 11 1 7].
Definition node0 : Node := Node_new demo_payload_config sys_generator (NoProfitPolicy 1000) node_mempool_txs.
Definition node1 : Node := after_rpc node0 true (SendBundle node_request).
Definition node2 : Node :=
  after_schedule (RecvErr:=unit) node1 [demo_net] 1 (fun _ => Ready (Ok (Ok node_schedule_loaded))).

Definition node_main_input : MainPoll :=
  {| mp_events := [(demo_attributes, 1)]; mp_terminated := false; mp_now := 240; mp_client := demo_accounts;
     mp_schedule := vs_state (nd_schedule node2); mp_locked := true |}.
Definition node_main_polled : BlockBuilderService * poll unit * list MainMessage :=
  run_or (demo_main, Pending, []) (main_poll (sy_main (nd_system node2)) node_main_input).
Definition node3 : Node :=
  after_system node2 (after_main (nd_system node2) demo_consensus [(demo_attributes, 1)] node_main_polled.1.1
    [SendBuildNewPayload demo_config; SendAuctionStart 1 42]) [].
Definition node4 : Node := after_system node3 (take_command (nd_system node3) demo_config [] demo_job) [].

(** the task of the job finds the pool as the requests have left it *)
Definition node_env : TaskEnv :=
  {| te_client := demo_accounts; te_pool := node_mempool_txs;
     te_bundle_pool := nd_pool node1; te_id := 1; te_now := 0; te_locked := true |}.
Definition node_outcome : BuildState * CachedReads :=
  better_of (run_task 10 (pending_task demo_job) node_env).
Definition node_received : received BuildOutcome := Ok (Ok (Better node_outcome.1 node_outcome.2)).
Definition node_job_polled : BuildJob :=
  set_best (set_cached_reads (upd_metrics inc_successful_payload_builds
    (set_pending (start_build demo_job).1 None)) (Some node_outcome.2)) (Some node_outcome.1).
Definition node_effects : list JobEffect :=
  [RegisterDeadline; SpawnTask (new_task demo_job); MakeBid node_outcome.1; WakeSelf].
Definition node5 : Node :=
  after_system node4 (after_job (nd_system node4) 0 node_job_polled Pending node_effects) [].
Definition node_bid : BuildState * Z := (node_outcome.1, sys_value node_outcome.1).
Definition node6 (bidder : BidderService) : Node :=
  after_system node5 (after_bidder (nd_system node5) [] [] bidder (Some node_bid)) [node_bid].
Definition node_task : run Empty_set finalize_outcome :=
  submit_task demo_signer demo_accounts node_mempool_txs (Answered (rev node_relays)) demo_net node_bid.
Definition node_signed : SignedBid := submitted_or demo_other_bid node_task.

Lemma node_built : is_better (run_task 10 (pending_task demo_job) node_env) = true.
Proof. kernel_refl. Qed.

Lemma node_delivers : delivers_from (nd_pools node4) (nd_mempools node4) (pending_task demo_job) (Ready node_received).
Proof.
  intros r [= <-]. right. exists 10%nat, node_env. split; [right; left|]. split; [left|]. apply sent_by_Done.
  apply better_of_Better. exact node_built.
Qed.

Lemma node_messages : node_main_polled.2 = [SendBuildNewPayload demo_config; SendAuctionStart 1 42].
Proof. exact_no_check (eq_refl [SendBuildNewPayload demo_config; SendAuctionStart 1 42]). Qed.

Lemma node_task_done : node_task = Done (Submitted node_signed true).
Proof. apply submitted_or_Done. kernel_refl. Qed.

Lemma node_main_done : main_poll (sy_main (nd_system node2)) node_main_input =
  Done (node_main_polled.1.1, node_main_polled.1.2, node_main_polled.2).
Proof. apply run_or_Done_triple. kernel_refl. Qed.

Lemma node_schedule_delivered :
  loaded (RecvErr:=unit) node_relays [demo_net] (Ready (Ok (Ok node_schedule_loaded))).
Proof.
  intros schedule [= <-]. exists demo_net, node_relays. split; [left|]. split; [done|reflexivity].
Qed.

Lemma node_run_bids :
  exists bidder, node_reachable (EA := sys_attributes) (JoinError:=unit) (StreamError:=unit) (RecvErr:=unit)
    node_relays demo_signer node0 (node6 bidder).
Proof.
  assert (bc_slot (bs_build_config node_outcome.1) = 1) as Hs by kernel_refl.
  destruct (sys_bidder_bids (E:=RelayServiceErr) node_outcome.1 Hs) as [bidder Hb]. exists bidder.
  unfold node_reachable. eapply rtc_l; [apply (node_rpc _ _ node0 true (SendBundle node_request))|].
  eapply rtc_l; [apply (node_schedule _ _ node1 [demo_net] 1); intros task; exact node_schedule_delivered|].
  eapply rtc_l.
  { apply (node_main (EA := sys_attributes) _ _ node2 sys_inputs demo_consensus node_main_input node_main_polled.1.1
      node_main_polled.1.2 [SendBuildNewPayload demo_config; SendAuctionStart 1 42]);
      [reflexivity|reflexivity|]. rewrite <- node_messages. exact node_main_done. }
  eapply rtc_l; [by apply (node_command _ _ node3 demo_config [] 0 demo_job 12000)|].
  eapply rtc_l.
  { by apply (node_job _ _ node4 0 demo_job {| sp_deadline := false; sp_build := Ready node_received |}
      node_job_polled Pending node_effects); [|exact node_delivers|]. }
  apply rtc_once.
  by apply (node_bidder _ _ node5 (sys_bidder_input node_outcome.1) [] [] bidder Pending (Some node_bid)).
Qed.

Definition node_sent : Sent :=
  {| sn_bid := node_bid; sn_signed := node_signed; sn_delivery := Answered (rev node_relays);
     sn_network := demo_net; sn_ok := true |}.

Lemma node_submissions_sound_witness :
  exists n, node_reachable (EA := sys_attributes) (JoinError:=unit) (StreamError:=unit) (RecvErr:=unit)
      node_relays demo_signer node0 n /\
    nd_submitted n = [node_sent] /\
    (tx_hash <$> ed_executed_txs (bs_exec_details node_bid.1)) = [111; 112; 301] /\
    (exists net, net ∈ nd_loads n /\ exists v, registered node_relays net (bid_slot (sbd_message node_signed)) v) /\
    exists r, r ∈ node_relays /\ accepts demo_net node_signed r.
Proof.
  destruct node_run_bids as [bidder Hr].
  assert (node_reachable (EA := sys_attributes) (JoinError:=unit) (StreamError:=unit) (RecvErr:=unit)
    node_relays demo_signer node0
    (after_submit (node6 bidder) 0 node_bid (Answered (rev node_relays)) demo_net node_task)) as Hrun.
  { eapply rtc_r; [exact Hr|]. apply node_submit; [reflexivity|left|]. intros completed [= <-]. apply demo_relays_rev. }
  rewrite node_task_done in Hrun. eexists. split; [exact Hrun|].
  assert (forall key root, bls_verify (bls_sign key root) (bls_public_key key) root = true) as Hv.
  { intros key root. simpl. apply Z.eqb_eq. lia. }
  destruct (node_submissions_sound (EA := sys_attributes) _ _ _ _ _ _ _ Hv Hrun) as [_ Hs].
  destruct (Hs node_sent) as (a & slot & parent & v & net & bundles & singles & mempool & sp & account & tx & block &
    _ & _ & Hn & Hreg & Hslot & _ & _ & _ & _ & _ & _ & _ & _ & _ & _ & _ & _ & _ & _ & _ & _ & Hok); [left|].
  split; [reflexivity|]. split; [kernel_refl|]. split.
  - exists net. split; [exact Hn|]. exists v.
    change (bid_slot (sbd_message node_signed)) with (bid_slot (sbd_message (sn_signed node_sent))).
    rewrite Hslot. exact Hreg.
  - apply (proj1 Hok). reflexivity.
Defined.
