(* ===== verification/TestsBundles.v ===== *)
(** * The tests of the bundles crate, evaluated on the model

    The unit tests of [crates/bundles/src/bundle.rs] and [pool.rs], assertion by
    assertion: the values they expect of the program are those the model
    computes.  What a test draws at random is a parameter; the clock it reads is any
    time. *)

From stdpp Require Import prelude list gmap.
From S2P Require Import Prelude Types Bundle BundlePool.

Open Scope Z_scope.

(** ** [bundle.rs] *)

Definition create_test_bundle (block_number : Z) (min_timestamp max_timestamp : option Z) (uuid : Uuid) : Bundle :=
  {| hash := 0; txs := []; block_number := block_number; min_timestamp := min_timestamp;
     max_timestamp := max_timestamp; reverting_tx_hashes := []; replacement_uuid := Some uuid; refund := None |}.

Definition test_is_within_timestamp (uuid : Uuid) : Prop :=
  let bundle := create_test_bundle 1 (Some 1000) (Some 2000) uuid in
  is_within_timestamp bundle 1500 = true /\
  is_within_timestamp bundle 900 = false /\
  is_within_timestamp bundle 2100 = false /\
  let no_min := create_test_bundle 1 None (Some 2000) uuid in
  is_within_timestamp no_min 900 = true /\
  let no_max := create_test_bundle 1 (Some 1000) None uuid in
  is_within_timestamp no_max 2100 = true.

Lemma test_is_within_timestamp_passes uuid : test_is_within_timestamp uuid.
Proof. run_test test_is_within_timestamp. Qed.

Definition test_is_within_block_number (uuid : Uuid) : Prop :=
  let bundle := create_test_bundle 5 (Some 1000) (Some 2000) uuid in
  is_within_block_number bundle 5 = true /\
  is_within_block_number bundle 4 = false /\
  is_within_block_number bundle 6 = false.

Lemma test_is_within_block_number_passes uuid : test_is_within_block_number uuid.
Proof. run_test test_is_within_block_number. Qed.

Definition test_is_prunable (current_timestamp : Z) (uuid : Uuid) : Prop :=
  let prunable_by_block :=
    create_test_bundle 5 (Some (current_timestamp - 1000)) (Some (current_timestamp + 1000)) uuid in
  is_prunable prunable_by_block 6 current_timestamp = true /\
  let prunable_by_timestamp :=
    create_test_bundle 10 (Some (current_timestamp - 2000)) (Some (current_timestamp - 1000)) uuid in
  is_prunable prunable_by_timestamp 5 current_timestamp = true /\
  let prunable_by_both :=
    create_test_bundle 5 (Some (current_timestamp - 2000)) (Some (current_timestamp - 1000)) uuid in
  is_prunable prunable_by_both 6 current_timestamp = true /\
  let non_prunable :=
    create_test_bundle 10 (Some (current_timestamp - 1000)) (Some (current_timestamp + 1000)) uuid in
  let prunable_no_max := create_test_bundle 10 (Some (current_timestamp - 1000)) None uuid in
  is_prunable prunable_no_max 10 (current_timestamp + 1000) = false /\
  let prunable_no_min := create_test_bundle 10 None (Some (current_timestamp + 1000)) uuid in
  is_prunable prunable_no_min 10 (current_timestamp - 1000) = false /\
  is_prunable non_prunable 5 current_timestamp = false /\
  is_prunable non_prunable 10 (current_timestamp + 500) = false /\
  is_prunable non_prunable 10 current_timestamp = false.

Lemma test_is_prunable_passes current_timestamp uuid : test_is_prunable current_timestamp uuid.
Proof.
  unfold test_is_prunable, is_prunable, is_timestamp_out_of_bounds, is_some_and. simpl.
  rewrite !Z.gtb_ltb. split_and!; lia.
Qed.

Definition test_new_bundle_refund : Prop :=
  BundleRefund_new None (Some 0%nat) (Some 0) = None /\
  match BundleRefund_new (Some 90) (Some 1%nat) (Some 0) with
  | Some refund => percent refund = 90 /\ index refund = Some 1%nat /\ recipient refund = Some 0
  | None => False
  end.

Lemma test_new_bundle_refund_passes : test_new_bundle_refund.
Proof. run_test test_new_bundle_refund. Qed.

Definition test_refund_calc : Prop :=
  match BundleRefund_new (Some 80) None None with
  | Some refund =>
      refund_amount refund 100 50 0 = 120 /\
      refund_amount refund 37000 0 1 = 4000 /\
      refund_amount refund 30000 0 1 = 0
  | None => False
  end.

Lemma test_refund_calc_passes : test_refund_calc.
Proof. run_test test_refund_calc. Qed.

(** ** [pool.rs] *)

Definition bundle (hash block_number : Z) (max_timestamp min_timestamp : option Z) (uuid : option Uuid) : Bundle :=
  {| Bundle.hash := hash; txs := []; Bundle.block_number := block_number; Bundle.min_timestamp := min_timestamp;
     Bundle.max_timestamp := max_timestamp; reverting_tx_hashes := []; replacement_uuid := uuid; refund := None |}.

(** [add_bundle], whose result most tests ignore *)
Definition add (pool : BundlePool) (b : Bundle) : BundlePool := (pool_add_bundle true pool b).1.

Definition can_replace_bundle (hash1 hash2 : B256) (uuid : Uuid) : Prop :=
  let pool := BundlePool_new in
  let max_ts := 10000 in
  let block_number := 1 in
  let pool := add pool (bundle hash1 block_number None (Some max_ts) (Some uuid)) in
  let max_ts := 20000 in
  let block_number := 10 in
  let pool := add pool (bundle hash2 block_number None (Some max_ts) (Some uuid)) in
  Bundle.block_number <$> default [] (pool_bundles true pool block_number max_ts) = [block_number].

Example can_replace_bundle_passes : can_replace_bundle 100 200 7.
Proof. run_test can_replace_bundle. Qed.

Definition test_bundles (hash : B256) : Prop :=
  let pool := BundlePool_new in
  let max_ts := 10000 in
  let block_number := 1 in
  let test_bundle := bundle hash block_number (Some max_ts) None None in
  let pool := add pool test_bundle in
  pool_bundles true pool block_number max_ts = Some [test_bundle] /\
  pool_bundles true pool block_number (max_ts + 1) = Some [] /\
  pool_bundles true pool 2 max_ts = Some [] /\
  let cancelled := pool_cancel_bundle true pool (Bundle.hash test_bundle) in
  cancelled.2 = Some (Ok tt) /\
  pool_bundles true cancelled.1 block_number max_ts = Some [].

Example test_bundles_passes : test_bundles 100.
Proof. run_test test_bundles. Qed.

Definition test_prune (hash1 hash2 : B256) : Prop :=
  let pool := BundlePool_new in
  let max_ts_1 := 10000 in
  let max_ts_2 := 20000 in
  let bundle_1 := bundle hash1 1 (Some max_ts_1) None None in
  let bundle_2 := bundle hash2 2 (Some max_ts_2) None None in
  let pool := add (add pool bundle_1) bundle_2 in
  let pool := pool_prune true pool 1 15000 in
  pool_bundles true pool 2 max_ts_2 = Some [bundle_2] /\
  pool_bundles true pool 1 max_ts_2 = Some [].

Example test_prune_passes : test_prune 100 200.
Proof. run_test test_prune. Qed.

Definition test_bundle_with_refund (hash : B256) : Prop :=
  let pool := BundlePool_new in
  let max_ts := 10000 in
  let test_bundle :=
    let b := bundle hash 1 (Some max_ts) None None in
    {| Bundle.hash := Bundle.hash b; txs := txs b; Bundle.block_number := Bundle.block_number b;
       Bundle.min_timestamp := Bundle.min_timestamp b; Bundle.max_timestamp := Bundle.max_timestamp b;
       reverting_tx_hashes := reverting_tx_hashes b; replacement_uuid := replacement_uuid b;
       refund := BundleRefund_new (Some 90) (Some 2%nat) None |} in
  let pool := add pool test_bundle in
  (fun b => refund b) <$> default [] (pool_bundles true pool 1 max_ts) =
    [Some {| percent := 90; index := Some 2%nat; recipient := None |}].

Example test_bundle_with_refund_passes : test_bundle_with_refund 100.
Proof. run_test test_bundle_with_refund. Qed.

(** ten bundles for each of a hundred blocks; the [k]-th that is drawn has the hash
    and identifier [k] *)
Definition populate_pool_with_varied_timestamps (pool : BundlePool) (block_count bundles_per_block : nat)
  : BundlePool * bool :=
  foldl (fun (acc : BundlePool * bool) (k : nat) =>
      let i := Z.of_nat (k / bundles_per_block) in
      let uuid := Z.of_nat k in
      let '(min_ts, max_ts) := if i <? 90 then (Some 10000, Some 19000) else (Some 15000, Some 25000) in
      let '(pool, res) := pool_add_bundle true acc.1 (bundle (Z.of_nat k) (i + 1) max_ts min_ts (Some uuid)) in
      (pool, acc.2 && bool_decide (is_Some res)))
    (pool, true) (seq 0 (block_count * bundles_per_block)).

Definition test_large_scale_pool_operations (block_count bundles_per_block : nat) : Prop :=
  let populated := populate_pool_with_varied_timestamps BundlePool_new block_count bundles_per_block in
  populated.2 = true /\
  let prune_timestamp := 20000 in
  let pool := pool_prune true populated.1 90 prune_timestamp in
  sum_list_with (fun i => length (default [] (pool_bundles true pool (Z.of_nat i + 1) prune_timestamp)))
    (seq 0 block_count) = block_count.

Example test_large_scale_pool_operations_passes : test_large_scale_pool_operations 100 10.
Proof. exact_no_check (conj (eq_refl true) (eq_refl 100%nat)). Qed.
