(* ===== verification/TestsPrimitives.v ===== *)
(** * The tests of the primitives crate, evaluated on the model

    The unit tests of [crates/primitives/src/ssz.rs], [bid.rs], [validator.rs] and
    [relays.rs], assertion by assertion.  What a test draws at random is a parameter, and
    the round trips of the wrappers hold for every draw; the tests that sign run on
    the toy keys of [Blst] and [Signing]. *)

From stdpp Require Import prelude list gmap strings.
From S2P Require Import Prelude Types Validator Chain DemoEvm Payload Ssz Blst Bid Signing SszContainer BidSsz BidJson Relays.

Open Scope Z_scope.

(** ** [ssz.rs] *)

(** the last step of every test: [assert_eq!(from_ssz_bytes(&encoded).unwrap(), x)] *)
Definition reads_back {A} `{SszEncode A, SszDecode A} (x : A) : Prop :=
  from_ssz_bytes (as_ssz_bytes x) = Ok x.

Section SszTests.
Context `{SL : SszLib} `{HS : Hash256Ssz} `{SU : StdSsz}.

#[local] Existing Instances withdrawal_encode withdrawal_decode.
#[local] Existing Instances transactions_encode transactions_decode withdrawals_encode withdrawals_decode.

Definition hex_01020304 : SszBytes := MkBytes [Byte.x01; Byte.x02; Byte.x03; Byte.x04].

Definition test_ssz_bytes : Prop := reads_back hex_01020304.

Definition test_ssz_bytes_vec : Prop := reads_back (replicate 100 hex_01020304).

Definition test_ssz_u256 : Prop :=
  let u256 := MkU256 50 in
  as_ssz_bytes u256 = <[0%nat := byte_of_Z 50]> (replicate 32 Byte.x00) /\ reads_back u256.

Definition test_ssz_u64 : Prop :=
  let u_64 := MkU64 50 in
  as_ssz_bytes u_64 = <[0%nat := byte_of_Z 50]> (replicate 8 Byte.x00) /\ reads_back u_64.

Definition test_ssz_address (actual : Address) : Prop :=
  let address := MkAddress actual in
  as_ssz_bytes address = be_bytes 20 actual /\ reads_back address.

Definition test_ssz_b256 (bytes : B256) : Prop :=
  let b256 := MkB256 bytes in
  as_ssz_bytes b256 = be_bytes 32 bytes /\ reads_back b256.

Definition test_ssz_bloom : Prop :=
  let bloom := MkBloom (repeat Byte.x00 256) in
  as_ssz_bytes bloom = bloom_data bloom /\ reads_back bloom.

Record TestStruct := { ts_gas_limit : SszU64; ts_extra_data : SszBytes }.

Definition test_struct_fields (t : TestStruct) : SszU64 * (SszBytes * unit) :=
  (ts_gas_limit t, (ts_extra_data t, tt)).
Definition test_struct_of_fields (t : SszU64 * (SszBytes * unit)) : TestStruct :=
  {| ts_gas_limit := t.1; ts_extra_data := t.2.1 |}.

#[local] Instance test_struct_encode : SszEncode TestStruct := struct_encode test_struct_fields.
#[local] Instance test_struct_decode : SszDecode TestStruct := struct_decode test_struct_of_fields.

Definition test_ssz_struct : Prop :=
  reads_back {| ts_gas_limit := MkU64 0; ts_extra_data := MkBytes [] |}.

Definition default_withdrawal : AlloyWithdrawal :=
  {| aw_index := 0; aw_validator_index := 0; aw_address := 0; aw_amount := 0 |}.

Definition test_ssz_vec_withdrawl : Prop := reads_back (replicate 100 default_withdrawal).
End SszTests.

Lemma test_ssz_bytes_passes : test_ssz_bytes.
Proof. reflexivity. Qed.

Lemma test_ssz_bytes_vec_passes : test_ssz_bytes_vec.
Proof. unfold test_ssz_bytes_vec, reads_back. kernel_refl. Qed.

Lemma test_ssz_u256_passes : test_ssz_u256.
Proof. unfold test_ssz_u256, reads_back. assertions. Qed.

Lemma test_ssz_u64_passes : test_ssz_u64.
Proof. unfold test_ssz_u64, reads_back. assertions. Qed.

Lemma test_ssz_address_passes actual : 0 <= actual < 2 ^ 160 -> test_ssz_address actual.
Proof. intros H. split; [done|]. by apply (codec_roundtrip (wf := address_wf)). Qed.

Lemma test_ssz_b256_passes `{Hash256Ssz} bytes : is_u256 bytes -> test_ssz_b256 bytes.
Proof.
  intros Hb. split; [|by apply (codec_roundtrip (wf := b256_wf))]. simpl. by rewrite hash256_append_spec.
Qed.

Lemma test_ssz_bloom_passes : test_ssz_bloom.
Proof. split; [done|]. by apply (codec_roundtrip (wf := bloom_wf)). Qed.

Lemma test_ssz_struct_passes : test_ssz_struct.
Proof. unfold test_ssz_struct, reads_back. kernel_refl. Qed.

Lemma test_ssz_vec_withdrawl_passes : test_ssz_vec_withdrawl.
Proof. unfold test_ssz_vec_withdrawl, reads_back. kernel_refl. Qed.

(** ** [validator.rs] *)

Definition test_validators_insertion (proposer_1 proposer_2 : BlsPublicKey) (fee_recipient : Address) : Prop :=
  let v_info_1 := {| vi_proposer := proposer_1; vi_fee_recipient := fee_recipient; vi_gas_limit := 100; vi_slot := 1 |} in
  let v_info_2 := {| vi_proposer := proposer_2; vi_fee_recipient := 0; vi_gas_limit := 200; vi_slot := 2 |} in
  let validators := ValidatorSchedule_new [v_info_1; v_info_2] in
  validators !! 1 = Some v_info_1 /\ validators !! 2 = Some v_info_2.

Definition test_scenario (proposer : BlsPublicKey) (fee_recipient : Address)
    (p_gas_limit gas_limit expected_limit : Z) : Prop :=
  let v_info := {| vi_proposer := proposer; vi_fee_recipient := fee_recipient;
                   vi_gas_limit := gas_limit; vi_slot := 1 |} in
  suggest_gas_limit v_info p_gas_limit = expected_limit.

Definition test_calc_gas_limit (proposer : BlsPublicKey) (fee_recipient : Address) : Prop :=
  Forall (fun '(p_gas_limit, max, min) =>
      test_scenario proposer fee_recipient p_gas_limit (2 * p_gas_limit) max /\
      test_scenario proposer fee_recipient p_gas_limit 0 min /\
      test_scenario proposer fee_recipient p_gas_limit (p_gas_limit - 1) (p_gas_limit - 1) /\
      test_scenario proposer fee_recipient p_gas_limit (p_gas_limit + 1) (p_gas_limit + 1) /\
      test_scenario proposer fee_recipient p_gas_limit p_gas_limit p_gas_limit)
    [(20000000, 20019530, 19980470); (40000000, 40039061, 39960939)].

Lemma test_validators_insertion_passes p1 p2 fee : test_validators_insertion p1 p2 fee.
Proof. split; reflexivity. Qed.

Lemma test_calc_gas_limit_passes proposer fee : test_calc_gas_limit proposer fee.
Proof. unfold test_calc_gas_limit, test_scenario. repeat constructor. Qed.

(** ** [relays.rs] *)

(** [test_display!(Variant, expected)] *)
Definition test_display (cases : list (RelayName * string)) : Prop :=
  Forall (fun '(name, expected) => RelayName_to_string name = expected) cases.

Definition test_displays : Prop := test_display
  [(Flashbots, "flashbots"); (UltraSoundMoney, "ultrasound"); (BloxrouteMaxprofit, "bloxroute(maxprofit)");
   (Agnostic, "agnostic"); (Aestus, "aestus"); (EdenNetwork, "eden"); (MerkleInternal, "merkle-internal");
   (UnknownRelay, "unknown")]%string.

Lemma test_displays_pass : test_displays.
Proof. repeat constructor. Qed.

(** ** [bid.rs] *)

Section BidTests.
Context `{EV : Evm} `{BS : BlstLib} `{TH : !TreeHashLib} `{EF : !EnvelopeFrom}.
Context `{SL : SszLib} `{HS : Hash256Ssz} `{SU : StdSsz} `{BZ : !BlobsSsz}.
Context (error_debug : Error -> string).

#[local] Instance tests_bls : Bls := signing_bls.
#[local] Existing Instances pubkey_encode signature_encode bid_encode withdrawal_encode withdrawal_decode
  transactions_encode transactions_decode withdrawals_encode withdrawals_decode payload_encode payload_decode
  signed_bid_encode.
#[local] Instance tests_pubkey : SszDecode SszPublicKey := pubkey_decode error_debug.
#[local] Instance tests_signature : SszDecode SszSignature := signature_decode error_debug.
#[local] Instance tests_bid : SszDecode Bid := bid_decode error_debug.
#[local] Instance tests_signed_bid : SszDecode SignedBid := signed_bid_decode error_debug.

Definition test_bid (sk : BlsSecretKey) (id : Z) : Bid * EthBuiltPayload :=
  let best_payload := {| bp_id := 0; bp_block := seal_slow Block_default; bp_fees := 0; bp_sidecars := [] |} in
  let build :=
    {| b_id := id;
       b_validator_info := {| vi_proposer := bls_public_key sk; vi_fee_recipient := 0;
                              vi_gas_limit := 30000; vi_slot := 0 |};
       b_payload := best_payload; b_bid := 0 |} in
  (Bid_new build (bls_public_key sk), best_payload).

Definition test_signed (sk : BlsSecretKey) (id : Z) : SignedBid * Bytes :=
  let '(bid, bp) := test_bid sk id in
  let signer := BlsSigner_new sk (repeat Byte.x00 4) in
  let domain := compute_builder_domain signer in
  (SignedBid_new bid (envelope_from bp) signer, domain).

Definition test_bid_instance (sk : BlsSecretKey) (id : Z) : Prop :=
  let bid := (test_bid sk id).1 in
  bid_slot bid = 0 /\ reads_back bid.

Definition test_v3_payload_instance (sk : BlsSecretKey) (id : Z) : Prop :=
  reads_back (ExecutionPayload_from (ev_execution_payload (envelope_from (test_bid sk id).2))).

Definition test_signed_bid (sk : BlsSecretKey) (id : Z) : Prop :=
  let '(signed_bid, domain) := test_signed sk id in
  bid_slot (sbd_message signed_bid) = 0 /\
  bls_verify (sbd_signature signed_bid) (bid_builder_pubkey (sbd_message signed_bid))
    (signing_root (sbd_message signed_bid) domain) = true.

Definition test_bid_trace (sk : BlsSecretKey) (id now_ms : Z) : Prop :=
  bt_slot (to_trace now_ms (test_signed sk id).1) = 0.

Definition can_ssz_signed_bid (sk : BlsSecretKey) (id : Z) : Prop := reads_back (test_signed sk id).1.

Definition can_parse_signature (sk : BlsSecretKey) : Prop :=
  reads_back (MkSignature (bls_sign sk 0)).

Definition can_parse_pubkey (sk : BlsSecretKey) : Prop := reads_back (MkPublicKey (bls_public_key sk)).

(** These hold of every key, of any lawful library. *)
Context `{BL : !BlstLaws}.

Lemma test_signed_bid_passes sk id : test_signed_bid sk id.
Proof. split; [done|]. exact (blst_verifies _ _ sk _). Qed.

Lemma test_bid_trace_passes sk id now_ms : test_bid_trace sk id now_ms.
Proof. done. Qed.

Lemma can_parse_signature_passes sk : can_parse_signature sk.
Proof.
  apply (@codec_roundtrip _ _ _ _ (signature_codec error_debug) (MkSignature (bls_sign sk 0))).
  exists (gsk_sign sk (be_bytes 32 0)). split; [|done].
  unfold sig_wf. simpl. rewrite bool_decide_eq_false_2; [done|apply sign_not_infinity].
Qed.

Lemma can_parse_pubkey_passes sk : can_parse_pubkey sk.
Proof.
  apply (@codec_roundtrip _ _ _ _ (pubkey_codec error_debug) (MkPublicKey (bls_public_key sk))).
  exists (gsk_public_key sk). split; [apply pk_not_infinity|done].
Qed.
End BidTests.

(** The payload of an empty block reads back, as does the bid on it, signed or not; on
    the toy keys. *)

Import Demo.

Example test_bid_instance_passes : test_bid_instance (fun _ => EmptyString) demo_secret 5.
Proof. unfold test_bid_instance, reads_back. assertions. Qed.

Example test_v3_payload_instance_passes : test_v3_payload_instance demo_secret 5.
Proof. unfold test_v3_payload_instance, reads_back. kernel_refl. Qed.

Example can_ssz_signed_bid_passes : can_ssz_signed_bid (fun _ => EmptyString) demo_secret 5.
Proof. unfold can_ssz_signed_bid, reads_back. kernel_refl. Qed.

(** a bid with the numbers of the test, and its JSON *)
Definition test_serialize_deseralize (random_b256 : nat -> B256) (fee_recipient : Address) : Prop :=
  let key := be_value (pk_serialize (gsk_public_key demo_secret)) in
  let bid :=
    {| bid_slot := 7769266; bid_parent_hash := random_b256 0%nat; bid_block_hash := random_b256 1%nat;
       bid_builder_pubkey := key; bid_proposer_pubkey := key;
       bid_proposer_fee_recipient := fee_recipient; bid_gas_limit := 30000000;
       bid_gas_used := 12770146; bid_value := 49137063656877759 |} in
  @of_json _ (bid_serde (fun _ => EmptyString)) (@to_json _ (bid_serde (fun _ => EmptyString)) bid) = Some bid.

Lemma test_serialize_deseralize_passes random_b256 fee_recipient :
  (forall n, is_u256 (random_b256 n)) -> 0 <= fee_recipient < 2 ^ 160 ->
  test_serialize_deseralize random_b256 fee_recipient.
Proof.
  intros Hr Hf. apply (@json_roundtrip _ _ _ (bid_serde_codec (fun _ => EmptyString))).
  assert (pubkey_in_range (be_value (pk_serialize (gsk_public_key demo_secret)))) as Hk
    by (exists (gsk_public_key demo_secret); split; [apply (@pk_not_infinity demo_blst _ true)|done]).
  unfold bid_in_range, is_u64. cbn -[be_value pk_serialize gsk_public_key Z.pow is_u256].
  split_and!; first [done|apply Hr|lia|unfold is_u256; lia].
Qed.
