(* ===== verification/TestsServices.v ===== *)
(** * The tests of the services, evaluated on the model

    The unit tests of [crates/consensus_layer/src/types.rs] and [clock.rs],
    [crates/relay/src/internal_relay.rs] and [crates/cli-args/src/lib.rs] that need no
    network, assertion by assertion.  What a test draws at random and the clock are
    parameters. *)

From Stdlib Require Import Floats.SpecFloat.
From stdpp Require Import prelude list gmap strings.
From S2P Require Import Prelude Types Validator Chain Ssz Blst Bid Consensus Clock RelayCache Relays Cli.

Open Scope Z_scope.

(** ** [types.rs] *)

Definition mock_lighthouse_withdrawal (address : Address) : LighthouseWithdrawal :=
  {| lw_index := 1; lw_validator_index := 2; lw_address := address; lw_amount := 100 |}.

Definition test_convert_with_empty_vec : Prop := to_reth_withdrawals [] = None.

Definition test_convert_with_non_empty_vec (address : Address) : Prop :=
  match to_reth_withdrawals [mock_lighthouse_withdrawal address] with
  | Some [w] => wd_index w = 1 /\ wd_validator_index w = 2 /\ wd_amount w = 100
  | _ => False
  end.

Definition test_convert_with_multiple_elements (address_1 address_2 : Address) : Prop :=
  length <$> to_reth_withdrawals [mock_lighthouse_withdrawal address_1; mock_lighthouse_withdrawal address_2] =
  Some 2%nat.

Lemma test_convert_passes address_1 address_2 :
  test_convert_with_empty_vec /\ test_convert_with_non_empty_vec address_1 /\
  test_convert_with_multiple_elements address_1 address_2.
Proof. done. Qed.

(** ** [clock.rs] *)

(** a clock that has begun has a slot and the slot a timestamp *)
Definition slot_by_timestamp (current_time : Z) : Prop :=
  match try_from_chain 1 (Err DevnetGenesis) with
  | Ok mainnet_clock => exists slot, current_slot mainnet_clock current_time = Done (Some slot)
  | Err _ => False
  end.

Definition unsupported_chain (genesis : result NetworkClockErr Z) : Prop :=
  match try_from_chain 12 genesis with
  | Ok _ => False
  | Err e => clock_err_to_string e = "Unsupported chain: 12"%string
  end.

(** the file that the test writes says 1234567890 *)
Definition test_devnet_genesis_ts : Prop := is_ok (try_from_chain 32382 (Ok 1234567890)) = true.

Lemma slot_by_timestamp_passes current_time :
  1606824023 * 1000000000 <= current_time < 2 ^ 64 * 1000000000 -> slot_by_timestamp current_time.
Proof.
  intros [H1 H2]. cbn. unfold current_slot, expect_u64. cbn [genesis_ts seconds_per_slot NetworkClock_new].
  rewrite (proj2 (Z.ltb_ge _ _)) by (unfold MAINNET_GENESIS_TS; lia).
  match goal with |- context [(0 <=? ?x) && (?x <? 2 ^ 64)] =>
    assert (0 <= x < 2 ^ 64) as [Hx1 Hx2]
      by (split; [apply Z.div_pos|apply Z.div_lt_upper_bound]; unfold MAINNET_GENESIS_TS, SECONDS_PER_SLOT; lia);
    exists x; rewrite (proj2 (Z.leb_le _ _) Hx1), (proj2 (Z.ltb_lt _ _) Hx2) end.
  done.
Qed.

Lemma unsupported_chain_passes genesis : unsupported_chain genesis.
Proof. reflexivity. Qed.

Lemma test_devnet_genesis_ts_passes : test_devnet_genesis_ts.
Proof. reflexivity. Qed.

(** ** [internal_relay.rs] *)

Section CacheTests.
Context `{EV : Evm}.

Definition default_payload (block_number : Z) : ExecutionPayload :=
  {| ep_parent_hash := 0; ep_fee_recipient := 0; ep_state_root := 0; ep_receipts_root := 0;
     ep_logs_bloom := repeat Byte.x00 256; ep_prev_randao := 0; ep_block_number := block_number;
     ep_gas_limit := 0; ep_gas_used := 0; ep_timestamp := 0; ep_extra_data := [];
     ep_base_fee_per_gas := 0; ep_block_hash := 0; ep_transactions := []; ep_withdrawals := [];
     ep_blob_gas_used := 0; ep_excess_blob_gas := 0 |}.

(** the default of a key and of a signature are the libraries' *)
Definition default_bid (key : BlsPublicKey) (signature : BlsSignature) (block_number : Z) : SignedBid :=
  {| sbd_message :=
       {| bid_slot := 0; bid_parent_hash := 0; bid_block_hash := 0; bid_builder_pubkey := key;
          bid_proposer_pubkey := key; bid_proposer_fee_recipient := 0; bid_gas_limit := 0;
          bid_gas_used := 0; bid_value := 0 |};
     sbd_execution_payload := default_payload block_number; sbd_blobs_bundle := [];
     sbd_signature := signature |}.

Definition test_insert_bid (key : BlsPublicKey) (signature : BlsSignature) (now_ms : Z) : Prop :=
  let bid := default_bid key signature 0 in
  let cache := cache_insert RelayBidCache_default now_ms bid in
  length <$> get_all_bids cache (signed_bid_block_number bid) = Some 1%nat /\
  rb_last_block cache = signed_bid_block_number bid.

Definition test_resize_cache (key : BlsPublicKey) (signature : BlsSignature) (now_ms : nat -> Z) : Prop :=
  let cache :=
    foldl (fun cache i => cache_insert cache (now_ms i) (default_bid key signature (Z.of_nat i)))
      RelayBidCache_default (seq 0 (Z.to_nat (MAX_CACHE_BLOCK_SIZE + 10))) in
  Z.of_nat (size (rb_cache cache)) <= MAX_CACHE_BLOCK_SIZE.

Lemma test_insert_bid_passes key signature now_ms : test_insert_bid key signature now_ms.
Proof. done. Qed.

Lemma test_resize_cache_passes key signature now_ms : test_resize_cache key signature now_ms.
Proof. apply Z.leb_le. kernel_refl. Qed.
End CacheTests.

(** ** [cli-args/src/lib.rs] *)

Section CliTests.
Context `{UL : UrlLib} `{BS : BlstLib} `{HX : HexLib} `{CL : !CliLibs} (error_debug : Error -> string).

Definition key_one : string := "0000000000000000000000000000000000000000000000000000000000000001".

(** 0.1, rounded to the nearest [f64] *)
Definition one_tenth : spec_float := S754_finite false 7205759403792794 (-56).

(** the command line of the test; [clap] reads its numbers and its address *)
Definition test_command_line (test_url : Url) : CliOptions := {|
  o_cl_base_url := Some test_url; o_enable_internal_relay := true; o_internal_relay_port := Some 8008;
  o_enable_rpc := true; o_max_rpc_req := Some 100; o_bls_secret_key := Some ("0x" ++ key_one)%string;
  o_ecdsa_secret_key := Some key_one; o_run_mode := Some "live"%string; o_enable_tx_network := true;
  o_tx_network_api_key := None; o_builder := true; o_bid_offset := Some 2000;
  o_bid_monthly_subsidy_budget := Some 1000000000; o_bid_market_share := Some one_tenth;
  o_bid_min_bid_surplus := Some 1000000; o_bid_max_bid_surplus := Some 2000000;
  o_extra_data := Some "deadbeef"%string |}.

Definition parse_configs (test_url : Url) : Prop :=
  match parse_args error_debug (test_command_line test_url) with
  | Ok args =>
      cl_base_url args = test_url /\
      max_requests (rpc args) = 100 /\ rpc_enabled (rpc args) = true /\
      macro_display gsk_serialize (bls_secret_key (secrets args)) = ("0x" ++ key_one)%string /\
      Some (ecdsa_secret_key (secrets args)) = ecdsa_from_str key_one /\
      run_mode args = Live /\
      internal_relay (internal_relay_args args) = true /\ exposed_port (internal_relay_args args) = 8008 /\
      tx_network_enabled args = true /\ builder args = true /\
      offset_ms (bid args) = 2000 /\ monthly_subsidy_budget (bid args) = 1000000000 /\
      market_share (bid args) = one_tenth /\
      min_bid_surplus (bid args) = 1000000 /\ max_bid_surplus (bid args) = 2000000 /\
      extra_data_arg args = "deadbeef"%string /\
      extra_data args = Done [Byte.xde; Byte.xad; Byte.xbe; Byte.xef]
  | Err _ => False
  end.

(** It passes over libraries that read the two keys and the extra data, and write the
    first key as they read it. *)
Lemma parse_configs_passes test_url bytes key ecdsa :
  hex_decode ("0x" ++ key_one)%string = Ok bytes -> gsk_deserialize bytes = Ok key ->
  macro_display gsk_serialize key = ("0x" ++ key_one)%string ->
  ecdsa_from_str key_one = Some ecdsa ->
  hex_bytes "deadbeef" = Some [Byte.xde; Byte.xad; Byte.xbe; Byte.xef] ->
  parse_configs test_url.
Proof.
  intros Hb Hk Hd He Hx. unfold parse_configs.
  assert (parse_bls_secret_key error_debug ("0x" ++ key_one)%string = Ok key) as Eb
    by (unfold parse_bls_secret_key, macro_from_str; rewrite Hb; cbn [mbind result_bind]; by rewrite Hk).
  assert (parse_ecdsa_secret_key key_one = Ok ecdsa) as Ee
    by (unfold parse_ecdsa_secret_key; by rewrite He).
  assert (parse_secrets error_debug (test_command_line test_url) =
      Ok {| bls_secret_key := key; ecdsa_secret_key := ecdsa |}) as Es
    by (unfold parse_secrets; simpl default; rewrite Eb; cbn [mbind result_bind]; by rewrite Ee).
  assert (parse_run_mode "live" = Ok Live) as Em by reflexivity.
  unfold parse_args. rewrite Es.
  cbn [o_cl_base_url o_run_mode o_extra_data test_command_line from_option id mbind result_bind]. rewrite Em.
  cbn [mbind result_bind mret result_ret].
  unfold extra_data. cbn [extra_data_arg]. rewrite Hx, He. by split_and!.
Qed.
End CliTests.
