(* ===== verification/MockEvm.v ===== *)
(** * The mock provider and a transfer-only execution layer

    What the tests of the payload crate run on: the provider of
    [crates/payload/src/test_utils/mock_provider.rs], in which every account holds one
    ether and no code, and the mempool of its mock validator.  With no code anywhere a
    transaction is a transfer, so the execution layer here is Ethereum's for transfers:
    the intrinsic gas, the checks of nonce, fee and balance, and the payment of the tip
    to the coinbase.  Hashes only tell transactions apart; a key is its address. *)

From stdpp Require Import prelude list gmap strings.
From S2P Require Import Prelude Types Chain Validator State Strategies.

Open Scope Z_scope.

(** ** [MockProvider] *)

Definition ETH_TO_WEI : Z := 1000000000000000000.

Inductive MockProvider := MockProvider_default.

(** the reads of the state the builder makes, all of which succeed *)
Definition basic_account (self : MockProvider) (address : Address) : result RethError (option AccountInfo) :=
  Ok (Some {| ai_nonce := 0; ai_balance := ETH_TO_WEI |}).

Definition mock_state_root {B} (self : MockProvider) (state : B) : result RethError B256 := Ok 0.

Definition mock_state_by_block_hash (self : MockProvider) (block : B256) : result RethError MockProvider :=
  Ok self.

Module Mock.

(** ** Transactions *)

Record test_tx := TestTx {
  tt_type : Z; tt_signer : Address; tt_nonce : Z; tt_gas_limit : Z;
  tt_max_fee_per_gas : Z; tt_max_priority_fee_per_gas : Z; tt_to : Address; tt_value : Z;
  tt_zero_bytes : Z;
}.

Definition tt_hash (t : test_tx) : B256 :=
  Z.land (Z.ones 256)
    (tt_signer t + Z.shiftl (tt_max_priority_fee_per_gas t + Z.shiftl (tt_nonce t + Z.shiftl (tt_value t) 4) 36) 160).

(** an EIP-1559 transaction's tip over a base fee; a legacy one bids its price as both *)
Definition tt_effective_tip (t : test_tx) (base_fee : option Z) : option Z :=
  match base_fee with
  | None => Some (tt_max_priority_fee_per_gas t)
  | Some b =>
      if tt_max_fee_per_gas t <? b then None
      else Some (Z.min (tt_max_fee_per_gas t - b) (tt_max_priority_fee_per_gas t))
  end.

(** the envelope: the fields as words *)
Definition envelope_encoded (t : test_tx) : Bytes :=
  concat (be_bytes 32 <$>
    [tt_type t; tt_signer t; tt_nonce t; tt_gas_limit t; tt_max_fee_per_gas t;
     tt_max_priority_fee_per_gas t; tt_to t; tt_value t; tt_zero_bytes t]).

Fixpoint words (n : nat) (bs : Bytes) : list Z :=
  match n with
  | O => []
  | S n => le_value (rev (take 32 bs)) :: words n (drop 32 bs)
  end.

Definition envelope_decode (bs : Bytes) : option test_tx :=
  if bool_decide (length bs = 9 * 32)%nat then
    match words 9 bs with
    | [a; b; c; d; e; f; g; h; i] => Some (TestTx a b c d e f g h i)
    | _ => None
    end
  else None.

#[export] Instance mock_eth : EthTx := {|
  SignedTx := test_tx;
  tx_hash := tt_hash;
  tx_signer := tt_signer;
  tx_to t := Some (tt_to t);
  tx_blob_gas _ := None;
  tx_effective_tip_per_gas := tt_effective_tip;
  tx_type := tt_type;
  RawTx := test_tx;
  decode_enveloped := envelope_decode;
  into_ecrecovered := Some;
  PooledRaw := test_tx;
  PooledTx := test_tx;
  pooled_decode_enveloped := envelope_decode;
  pooled_try_into_ecrecovered := Some;
  pooled_hash := tt_hash;
  keccak256 := le_value;
|}.

(** ** Execution *)

Abbreviation accounts := (gmap Address AccountInfo).

(** the accounts that changed, over the provider's *)
Definition account (m : accounts) (a : Address) : AccountInfo :=
  match m !! a with
  | Some info => info
  | None => match basic_account MockProvider_default a with
            | Ok (Some info) => info
            | _ => {| ai_nonce := 0; ai_balance := 0 |}
            end
  end.

Definition credit (m : accounts) (a : Address) (v : Z) : accounts :=
  <[a := {| ai_balance := ai_balance (account m a) + v; ai_nonce := ai_nonce (account m a) |}]> m.

Definition bump_nonce (m : accounts) (a : Address) : accounts :=
  <[a := {| ai_balance := ai_balance (account m a); ai_nonce := ai_nonce (account m a) + 1 |}]> m.

Definition intrinsic_gas (t : test_tx) : Z := 21000 + 4 * tt_zero_bytes t.

Definition transfer (m : accounts) (env : BlockEnv) (t : test_tx)
  : result EVMError ((Z * bool) * accounts) :=
  let s := account m (tt_signer t) in
  let base_fee := be_basefee env in
  match tt_effective_tip t (Some base_fee) with
  | None => Err (EvmTransaction (OtherInvalidTransaction 0))
  | Some tip =>
      if tt_max_fee_per_gas t <? tt_max_priority_fee_per_gas t
      then Err (EvmTransaction (OtherInvalidTransaction 1))
      else if be_gas_limit env <? tt_gas_limit t then Err (EvmTransaction (OtherInvalidTransaction 2))
      else if tt_gas_limit t <? intrinsic_gas t then Err (EvmTransaction (OtherInvalidTransaction 3))
      else if tt_nonce t <? ai_nonce s then Err (EvmTransaction NonceTooLow)
      else if ai_nonce s <? tt_nonce t then Err (EvmTransaction (OtherInvalidTransaction 4))
      else if ai_balance s <? tt_gas_limit t * tt_max_fee_per_gas t + tt_value t
      then Err (EvmTransaction (OtherInvalidTransaction 5))
      else
        let gas := intrinsic_gas t in
        let m := bump_nonce m (tt_signer t) in
        let m := credit m (tt_signer t) (- (gas * (base_fee + tip) + tt_value t)) in
        let m := credit m (tt_to t) (tt_value t) in
        Ok ((gas, true), credit m (be_coinbase env) (gas * tip))
  end.

(** The chain of [ChainSpec::default()] has no fork, so its first block has no base fee. *)
#[export] Instance mock_evm : Evm := {|
  TransactionSigned := test_tx;
  into_signed t := t;
  signed_hash := tt_hash;
  is_eip4844 _ := false;
  tx_gas_limit := tt_gas_limit;
  TxSignature := Z;
  signature_hash t := t1559_nonce t;
  sign_message key h := Some key;
  from_transaction_and_signature t key :=
    TestTx 2 key (t1559_nonce t) (t1559_gas_limit t) (t1559_max_fee_per_gas t)
      (t1559_max_priority_fee_per_gas t) (t1559_to t) (t1559_value t) 0;
  ChainSpec := unit;
  is_shanghai_active_at_timestamp _ _ := false;
  is_cancun_active_at_timestamp _ _ := false;
  CfgEnv := unit;
  cfg_chain_id _ := 1;
  cfg_and_block_env a _ parent :=
    (tt, {| be_number := hd_number parent + 1; be_coinbase := pa_suggested_fee_recipient a;
            be_timestamp := pa_timestamp a; be_gas_limit := hd_gas_limit parent; be_basefee := 0;
            be_prevrandao := None; be_blob_gasprice := None |});
  Log := unit;
  ExecutionResult := Z * bool;
  er_gas_used r := r.1;
  er_is_success r := r.2;
  er_logs _ := [];
  Account := AccountInfo;
  account_balance := ai_balance;
  BundleState := accounts;
  bundle_state_default := ∅;
  CachedReads := unit;
  cached_reads_default := tt;
  StateProvider := MockProvider;
  ExecutionDB := accounts;
  SimulationDB := accounts;
  exec_db_new _ _ prestate := default ∅ prestate;
  db_cached_reads _ := tt;
  simulation_db db := db;
  db_basic db a := Ok (Some (account db a));
  sim_basic db a := Ok (Some (account db a));
  sim_transact db _ env t := transfer db env t;
  sim_commit db s := s ∪ db;
  db_commit db s := s ∪ db;
  post_block_withdrawals_balance_increments _ _ ws := (fun w => (wd_address w, wd_amount w)) <$> ws;
  increment_balances db l := Ok (foldl (fun m kv => credit m kv.1 kv.2) db l);
  apply_beacon_root_contract_call _ _ _ _ _ _ db := Ok db;
  merge_transitions db := db;
  take_bundle db := db;
  Client := MockProvider;
  state_by_block_hash := mock_state_by_block_hash;
  state_root := mock_state_root;
  TxPool := list test_tx;
  Sidecar := B256;
  get_all_blobs_exact _ hs := Ok hs;
  calculate_withdrawals_root ws := Z.of_nat (length ws);
  calculate_transaction_root ts := Z.of_nat (length ts);
  calculate_excess_blob_gas a b := a + b;
  hash_header h := hd_number h;
  EMPTY_WITHDRAWALS := 0;
  EMPTY_TRANSACTIONS := 7;
  EMPTY_RECEIPTS := 0;
  EMPTY_OMMER_ROOT_HASH := 0;
  BEACON_NONCE := 0;
|}.

#[export] Instance mock_roots : ReceiptRoots := {|
  receipts_root_slow _ rs first n :=
    if first =? n then Some (Z.of_nat (length (concat rs))) else None;
  block_logs_bloom _ rs first n := if first =? n then Some [] else None;
|}.

#[export] Instance mock_text : ErrorText := {|
  pbe_to_string _ := "payload builder error"%string;
  evm_error_to_string _ := "evm error"%string;
  address_to_string _ := "address"%string;
  bse_debug _ := "build state execution error"%string;
|}.

(** ** The mempool

    [CoinbaseTipOrdering]: the best tip first, and in the order of arrival among equals. *)

Fixpoint insert_by_tip (base_fee : Z) (t : test_tx) (l : list test_tx) : list test_tx :=
  match l with
  | [] => [t]
  | t' :: l' =>
      if default 0 (tt_effective_tip t' (Some base_fee)) <? default 0 (tt_effective_tip t (Some base_fee))
      then t :: l else t' :: insert_by_tip base_fee t l'
  end.

#[export] Instance mock_best : BestTransactions := {|
  PoolTransaction := test_tx;
  to_recovered_transaction t := t;
  BestTxs := list test_tx;
  best_transactions_with_attributes pool base_fee _ :=
    foldl (fun l t => insert_by_tip base_fee t l) []
      (List.filter (fun t => bool_decide (is_Some (tt_effective_tip t (Some base_fee)))) pool);
  best_next l := match l with [] => None | t :: l => Some (t, l) end;
  mark_invalid l t := List.filter (fun t' => negb (tt_signer t' =? tt_signer t)) l;
  skip_blobs l := l;
|}.
End Mock.
