(* ===== verification/MockReads.v ===== *)
(** * The mock provider

    The provider of [crates/payload/src/test_utils/mock_provider.rs], trait by trait:
    what a chain without blocks answers, in which every account holds one ether and a
    block is found by its number or tag only.  The traits are [reth]'s, as classes over
    the provider's type; a state provider behind a [Box] is the record of its
    operations.  Also the mock validator of [crates/payload/src/test_utils/mod.rs]. *)

From stdpp Require Import prelude list gmap.
From S2P Require Import Prelude Types Chain Validator Payload MainService EmptyJob MockEvm.

Open Scope Z_scope.

Module Reth.

Abbreviation ProviderResult := (result RethError).

Inductive BlockHashOrNumber := Hash (h : B256) | Number (n : Z).

Inductive BlockNumberOrTag := Latest | Finalized | Safe | Earliest | PendingTag | BlockNumber (n : Z).

Inductive BlockSource := AnySource | PendingSource | CanonicalSource.

(** The data of [reth] the traits speak of, and the values the mock provider answers. *)
Class RethData `{EV : Evm} := {
  ChainInfo : Type;
  chain_info_default : ChainInfo;
  SealedHeader : Type;
  BlockWithSenders : Type;
  SealedBlockWithSenders : Type;
  StoredBlockBodyIndices : Type;
  TransactionVariant : Type;
  BlockId : Type;
  TransactionMeta : Type;
  TransactionSignedNoHash : Type;
  AccountBeforeTx : Type;
  TrieUpdates : Type;
  trie_updates_default : TrieUpdates;
  Bytecode : Type;
  AccountProof : Type;
  account_proof_default : AccountProof;
  EvmConfig : Type;
  BundleStateData : Type;
  StageId : Type;
  StageCheckpoint : Type;
  PruneSegment : Type;
  PruneCheckpoint : Type;
  MAINNET : ChainSpec;
}.

(** a range of numbers, as its membership test *)
Abbreviation RangeBounds := (Z -> bool).

(** ** The traits *)

Section Traits.
Context `{RD : RethData}.

Class ChainSpecProvider (P : Type) := { chain_spec : P -> ChainSpec }.

Class BlockHashReader (P : Type) := {
  block_hash : P -> Z -> ProviderResult (option B256);
  canonical_hashes_range : P -> Z -> Z -> ProviderResult (list B256);
}.

Class BlockNumReader (P : Type) := {
  chain_info : P -> ProviderResult ChainInfo;
  best_block_number : P -> ProviderResult Z;
  last_block_number : P -> ProviderResult Z;
  block_number : P -> B256 -> ProviderResult (option Z);
}.

Class BlockReader (P : Type) := {
  find_block_by_hash : P -> B256 -> BlockSource -> ProviderResult (option Block);
  pending_block_with_senders : P -> ProviderResult (option SealedBlockWithSenders);
  block : P -> BlockHashOrNumber -> ProviderResult (option Block);
  pending_block : P -> ProviderResult (option SealedBlock);
  block_with_senders_range : P -> Z * Z -> ProviderResult (list BlockWithSenders);
  pending_block_and_receipts : P -> ProviderResult (option (SealedBlock * list Receipt));
  ommers : P -> BlockHashOrNumber -> ProviderResult (option (list Header));
  block_body_indices : P -> Z -> ProviderResult (option StoredBlockBodyIndices);
  block_with_senders : P -> BlockHashOrNumber -> TransactionVariant -> ProviderResult (option BlockWithSenders);
  block_range : P -> Z * Z -> ProviderResult (list Block);
}.

Class BlockReaderIdExt (P : Type) := {
  block_by_number_or_tag : P -> BlockNumberOrTag -> ProviderResult (option Block);
  block_by_id : P -> BlockId -> ProviderResult (option Block);
  sealed_header_by_id : P -> BlockId -> ProviderResult (option SealedHeader);
  header_by_id : P -> BlockId -> ProviderResult (option Header);
  ommers_by_id : P -> BlockId -> ProviderResult (option (list Header));
}.

Class BlockIdReader (P : Type) := {
  pending_block_num_hash : P -> ProviderResult (option (Z * B256));
  safe_block_num_hash : P -> ProviderResult (option (Z * B256));
  finalized_block_num_hash : P -> ProviderResult (option (Z * B256));
}.

(** a method that may be unfinished is a [run] *)
Class TransactionsProvider (P : Type) := {
  transaction_id : P -> B256 -> ProviderResult (option Z);
  transaction_by_id : P -> Z -> ProviderResult (option TransactionSigned);
  transaction_by_id_no_hash : P -> Z -> ProviderResult (option TransactionSignedNoHash);
  transaction_by_hash : P -> B256 -> ProviderResult (option TransactionSigned);
  transaction_by_hash_with_meta : P -> B256 -> ProviderResult (option (TransactionSigned * TransactionMeta));
  transaction_block : P -> Z -> run RethError (option Z);
  transactions_by_block : P -> BlockHashOrNumber -> ProviderResult (option (list TransactionSigned));
  transactions_by_block_range : P -> RangeBounds -> ProviderResult (list (list TransactionSigned));
  senders_by_tx_range : P -> RangeBounds -> ProviderResult (list Address);
  transactions_by_tx_range : P -> RangeBounds -> ProviderResult (list TransactionSignedNoHash);
  transaction_sender : P -> Z -> ProviderResult (option Address);
}.

Class ReceiptProvider (P : Type) := {
  receipt : P -> Z -> ProviderResult (option Receipt);
  receipt_by_hash : P -> B256 -> ProviderResult (option Receipt);
  receipts_by_block : P -> BlockHashOrNumber -> ProviderResult (option (list Receipt));
  receipts_by_tx_range : P -> RangeBounds -> ProviderResult (list Receipt);
}.

Class HeaderProvider (P : Type) := {
  sealed_headers_while : P -> RangeBounds -> (SealedHeader -> bool) -> ProviderResult (list SealedHeader);
  header : P -> B256 -> ProviderResult (option Header);
  header_by_number : P -> Z -> ProviderResult (option Header);
  header_td : P -> B256 -> ProviderResult (option Z);
  header_td_by_number : P -> Z -> ProviderResult (option Z);
  headers_range : P -> RangeBounds -> ProviderResult (list Header);
  sealed_headers_range : P -> RangeBounds -> ProviderResult (list SealedHeader);
  sealed_header : P -> Z -> ProviderResult (option SealedHeader);
}.

Class AccountReader (P : Type) := { basic_account : P -> Address -> ProviderResult (option AccountInfo) }.

Class ChangeSetReader (P : Type) := { account_block_changeset : P -> Z -> ProviderResult (list AccountBeforeTx) }.

Class StateRootProvider (P : Type) := {
  state_root : P -> BundleState -> ProviderResult B256;
  state_root_with_updates : P -> BundleState -> ProviderResult (B256 * TrieUpdates);
}.

Class StateProvider (P : Type) := {
  storage : P -> Address -> B256 -> ProviderResult (option Z);
  bytecode_by_hash : P -> B256 -> ProviderResult (option Bytecode);
  proof : P -> Address -> list B256 -> ProviderResult AccountProof;
}.

(** the methods fill the environments they are given *)
Class EvmEnvProvider (P : Type) := {
  fill_env_at : P -> CfgEnv -> BlockEnv -> BlockHashOrNumber -> EvmConfig -> ProviderResult (CfgEnv * BlockEnv);
  fill_env_with_header : P -> CfgEnv -> BlockEnv -> Header -> EvmConfig -> ProviderResult (CfgEnv * BlockEnv);
  fill_block_env_at : P -> BlockEnv -> BlockHashOrNumber -> ProviderResult BlockEnv;
  fill_block_env_with_header : P -> BlockEnv -> Header -> ProviderResult BlockEnv;
  fill_cfg_env_at : P -> CfgEnv -> BlockHashOrNumber -> EvmConfig -> ProviderResult CfgEnv;
  fill_cfg_env_with_header : P -> CfgEnv -> Header -> EvmConfig -> ProviderResult CfgEnv;
}.

Class StageCheckpointReader (P : Type) := {
  get_stage_checkpoint : P -> StageId -> ProviderResult (option StageCheckpoint);
  get_stage_checkpoint_progress : P -> StageId -> ProviderResult (option Bytes);
}.

Class WithdrawalsProvider (P : Type) := {
  withdrawals_by_block : P -> BlockHashOrNumber -> Z -> ProviderResult (option (list Withdrawal));
  latest_withdrawal : P -> ProviderResult (option Withdrawal);
}.

Class PruneCheckpointReader (P : Type) := {
  get_prune_checkpoint : P -> PruneSegment -> ProviderResult (option PruneCheckpoint);
}.

(** [Box<dyn StateProvider>] *)
Record StateProviderBox := {
  box_block_hash : Z -> ProviderResult (option B256);
  box_basic_account : Address -> ProviderResult (option AccountInfo);
  box_state_root : BundleState -> ProviderResult B256;
  box_state_root_with_updates : BundleState -> ProviderResult (B256 * TrieUpdates);
  box_storage : Address -> B256 -> ProviderResult (option Z);
  box_bytecode_by_hash : B256 -> ProviderResult (option Bytecode);
  box_proof : Address -> list B256 -> ProviderResult AccountProof;
}.

(** [Box::new] *)
Definition box_new {P} `{BlockHashReader P} `{AccountReader P} `{StateRootProvider P} `{StateProvider P} (self : P)
  : StateProviderBox := {|
  box_block_hash := block_hash self;
  box_basic_account := basic_account self;
  box_state_root := state_root self;
  box_state_root_with_updates := state_root_with_updates self;
  box_storage := storage self;
  box_bytecode_by_hash := bytecode_by_hash self;
  box_proof := proof self;
|}.

Class StateProviderFactory (P : Type) := {
  latest : P -> ProviderResult StateProviderBox;
  history_by_block_number : P -> Z -> ProviderResult StateProviderBox;
  history_by_block_hash : P -> B256 -> ProviderResult StateProviderBox;
  state_by_block_hash : P -> B256 -> ProviderResult StateProviderBox;
  pending : P -> ProviderResult StateProviderBox;
  pending_state_by_hash : P -> B256 -> ProviderResult (option StateProviderBox);
  pending_with_provider : P -> BundleStateData -> ProviderResult StateProviderBox;
}.
End Traits.
End Reth.

Import Reth.

(** ** [MockProvider] *)

Section MockProvider.
Context `{RD : RethData}.

Definition mock_chain_spec : ChainSpecProvider MockProvider := {| chain_spec _ := MAINNET |}.

Definition mock_block_hash_reader : BlockHashReader MockProvider := {|
  block_hash _ _ := Ok None;
  canonical_hashes_range _ _ _ := Ok [];
|}.

Definition mock_block_num_reader : BlockNumReader MockProvider := {|
  chain_info _ := Ok chain_info_default;
  best_block_number _ := Ok 0;
  last_block_number _ := Ok 0;
  block_number _ _ := Ok None;
|}.

Definition mock_block (self : MockProvider) (id : BlockHashOrNumber) : ProviderResult (option Block) := Ok None.

Definition mock_block_reader : BlockReader MockProvider := {|
  find_block_by_hash self hash _ := mock_block self (Hash hash);
  pending_block_with_senders _ := Ok None;
  block := mock_block;
  pending_block _ := Ok None;
  block_with_senders_range _ _ := Ok [];
  pending_block_and_receipts _ := Ok None;
  ommers _ _ := Ok None;
  block_body_indices _ _ := Ok None;
  block_with_senders _ _ _ := Ok None;
  block_range _ _ := Ok [];
|}.

Definition mock_block_reader_id_ext : BlockReaderIdExt MockProvider := {|
  block_by_number_or_tag _ _ := Ok (Some Block_default);
  block_by_id _ _ := Ok None;
  sealed_header_by_id _ _ := Ok None;
  header_by_id _ _ := Ok None;
  ommers_by_id _ _ := Ok None;
|}.

Definition mock_block_id_reader : BlockIdReader MockProvider := {|
  pending_block_num_hash _ := Ok None;
  safe_block_num_hash _ := Ok None;
  finalized_block_num_hash _ := Ok None;
|}.

(** [transaction_block] is a [todo!] *)
Definition mock_transactions_provider : TransactionsProvider MockProvider := {|
  transaction_id _ _ := Ok None;
  transaction_by_id _ _ := Ok None;
  transaction_by_id_no_hash _ _ := Ok None;
  transaction_by_hash _ _ := Ok None;
  transaction_by_hash_with_meta _ _ := Ok None;
  transaction_block _ _ := Panicked;
  transactions_by_block _ _ := Ok None;
  transactions_by_block_range _ _ := Ok [];
  senders_by_tx_range _ _ := Ok [];
  transactions_by_tx_range _ _ := Ok [];
  transaction_sender _ _ := Ok None;
|}.

Definition mock_receipt_provider : ReceiptProvider MockProvider := {|
  receipt _ _ := Ok None;
  receipt_by_hash _ _ := Ok None;
  receipts_by_block _ _ := Ok None;
  receipts_by_tx_range _ _ := Ok [];
|}.

Definition mock_header_provider : HeaderProvider MockProvider := {|
  sealed_headers_while _ _ _ := Ok [];
  header _ _ := Ok None;
  header_by_number _ _ := Ok None;
  header_td _ _ := Ok None;
  header_td_by_number _ _ := Ok None;
  headers_range _ _ := Ok [];
  sealed_headers_range _ _ := Ok [];
  sealed_header _ _ := Ok None;
|}.

Definition mock_account_reader : AccountReader MockProvider := {| basic_account := MockEvm.basic_account |}.

Definition mock_change_set_reader : ChangeSetReader MockProvider := {| account_block_changeset _ _ := Ok [] |}.

Definition mock_state_root_provider : StateRootProvider MockProvider := {|
  state_root := mock_state_root;
  state_root_with_updates _ _ := Ok (0, trie_updates_default);
|}.

Definition mock_state_provider : StateProvider MockProvider := {|
  storage _ _ _ := Ok None;
  bytecode_by_hash _ _ := Ok None;
  proof _ _ _ := Ok account_proof_default;
|}.

(** the environments are left as they are *)
Definition mock_evm_env_provider : EvmEnvProvider MockProvider := {|
  fill_env_at _ cfg block_env _ _ := Ok (cfg, block_env);
  fill_env_with_header _ cfg block_env _ _ := Ok (cfg, block_env);
  fill_block_env_at _ block_env _ := Ok block_env;
  fill_block_env_with_header _ block_env _ := Ok block_env;
  fill_cfg_env_at _ cfg _ _ := Ok cfg;
  fill_cfg_env_with_header _ cfg _ _ := Ok cfg;
|}.

#[local] Existing Instances mock_block_hash_reader mock_account_reader mock_state_root_provider mock_state_provider.

Definition mock_state_provider_factory : StateProviderFactory MockProvider := {|
  latest self := Ok (box_new self);
  history_by_block_number self _ := Ok (box_new self);
  history_by_block_hash self _ := Ok (box_new self);
  state_by_block_hash self _ := Ok (box_new self);
  pending self := Ok (box_new self);
  pending_state_by_hash self _ := Ok (Some (box_new self));
  pending_with_provider self _ := Ok (box_new self);
|}.

Definition mock_stage_checkpoint_reader : StageCheckpointReader MockProvider := {|
  get_stage_checkpoint _ _ := Ok None;
  get_stage_checkpoint_progress _ _ := Ok None;
|}.

Definition mock_withdrawals_provider : WithdrawalsProvider MockProvider := {|
  withdrawals_by_block _ _ _ := Ok None;
  latest_withdrawal _ := Ok None;
|}.

Definition mock_prune_checkpoint_reader : PruneCheckpointReader MockProvider := {|
  get_prune_checkpoint _ _ := Ok None;
|}.
End MockProvider.

#[export] Existing Instances mock_chain_spec mock_block_hash_reader mock_block_num_reader mock_block_reader
  mock_block_reader_id_ext mock_block_id_reader mock_transactions_provider mock_receipt_provider
  mock_header_provider mock_account_reader mock_change_set_reader mock_state_root_provider mock_state_provider
  mock_evm_env_provider mock_state_provider_factory mock_stage_checkpoint_reader mock_withdrawals_provider
  mock_prune_checkpoint_reader.

(** ** [MockValidator] *)

(** What a validator answers of a transaction of the pool. *)
Inductive TransactionValidationOutcome (T : Type) :=
| OutcomeValid (balance state_nonce : Z) (transaction : T) (propagate : bool)
| OutcomeInvalid (transaction : T)
| OutcomeError (hash : B256).
Arguments OutcomeValid {T}.
Arguments OutcomeInvalid {T}.
Arguments OutcomeError {T}.

Class PoolTransaction (T : Type) := { cost : T -> Z; nonce : T -> Z }.

Inductive MockValidator := MockValidator_default.

(** whatever the transaction costs is what its sender has *)
Definition validate_transaction `{PoolTransaction T} (self : MockValidator) (transaction : T)
  : TransactionValidationOutcome T :=
  OutcomeValid (cost transaction) (nonce transaction) transaction false.

(** ** What the mock chain answers *)

Section MockChain.
Context `{RD : RethData}.

(** however a state is reached it is the same: every account has an ether and no code,
    every slot is empty and every root is zero *)
Definition mock_state (box : StateProviderBox) : Prop :=
  (forall a, box_basic_account box a = Ok (Some {| ai_nonce := 0; ai_balance := ETH_TO_WEI |})) /\
  (forall a k, box_storage box a k = Ok None) /\ (forall h, box_bytecode_by_hash box h = Ok None) /\
  (forall n, box_block_hash box n = Ok None) /\ (forall s, box_state_root box s = Ok 0).

Lemma mock_states (self : MockProvider) :
  Forall (fun r => exists box, r = Ok box /\ mock_state box)
    [latest self; pending self] /\
  (forall n, exists box, history_by_block_number self n = Ok box /\ mock_state box) /\
  (forall h, exists box, history_by_block_hash self h = Ok box /\ mock_state box) /\
  (forall h, exists box, state_by_block_hash self h = Ok box /\ mock_state box) /\
  (forall h, exists box, pending_state_by_hash self h = Ok (Some box) /\ mock_state box) /\
  (forall d, exists box, pending_with_provider self d = Ok box /\ mock_state box).
Proof.
  assert (H : mock_state (box_new self)) by done.
  split_and!; intros; try (by eexists; split; [|exact H]). repeat constructor; by eexists; split; [|exact H].
Qed.
End MockChain.

(** a client that is the mock provider finds a block to build on for the genesis only *)
Section MockParent.
Import Mock.
Context (data : @RethData _ mock_evm).

#[local] Instance mock_client : MainService.BlockReader (EV := mock_evm) := {|
  latest_block self := block_by_number_or_tag (self : MockProvider) Latest;
  MainService.find_block_by_hash self hash := find_block_by_hash (self : MockProvider) hash AnySource;
|}.

Lemma mock_parent_block (client : MockProvider) (attributes : PayloadAttributes) :
  parent_block client attributes =
  if decide (pa_parent attributes = 0) then Ok (seal_slow Block_default)
  else Err (MissingParentBlock (pa_parent attributes)).
Proof.
  unfold parent_block. destruct (Z.eqb_spec (pa_parent attributes) 0) as [E|E]; simpl.
  - by rewrite decide_True.
  - by rewrite decide_False.
Qed.

(** so the generator of empty jobs makes one for the genesis only *)
Lemma mock_empty_job (generator : EmptyBlockPayloadJobGenerator) (attributes : PayloadAttributes) :
  is_Some (result_ok (empty_new_payload_job generator attributes)) <-> pa_parent attributes = 0.
Proof.
  unfold empty_new_payload_job. rewrite mock_parent_block. case_decide; simpl; [|split; [by intros []|done]].
  split; [done|]. by eexists.
Qed.
End MockParent.
