(* ===== verification/RpcSuite.v ===== *)
(** * The server of the RPC tests

    The test suite of [crates/rpc/src/test_utils.rs]: the JSON-RPC requests its client
    posts, the bundle API that serves them, and what its tests read of a response.
    The server and the client are the interface [JsonRpcServer], whose law is that a
    request whose text is that of a JSON-RPC 2.0 call reaches the method it names.  The
    JSON of bytes and words here is hexadecimal, as the tests write it. *)

From stdpp Require Import prelude list gmap strings.
From Stdlib Require Import Ascii.
From S2P Require Import Prelude Numerals Types Bundle BundlePool Rpc Validator Chain Payload SimState DemoEvm State StateFacts Bid Consensus Relays GrpcMsg Relay Submission InternalRelay JsonWire Ssz Blst SszContainer BidSsz BidJson JsonText IngressJson.

Open Scope Z_scope.

(** ** JSON-RPC 2.0 *)

Definition jsonrpc_request (rpc_method : string) (params id : Json) : Json :=
  JObject [("jsonrpc", JString "2.0"); ("method", JString rpc_method); ("params", params); ("id", id)]%string.

(** the code and the message of an error *)
Class RpcErrors := {
  eth_error : EthApiError -> Z * string;
  eth_error_params : forall msg, (eth_error (InvalidParams msg)).2 = msg;
  eth_error_code : forall e, - 2 ^ 31 <= (eth_error e).1 < 2 ^ 31;
}.

Section Responses.
Context `{RE : RpcErrors} `{AS : AlloySerde}.

Definition error_json (code : Z) (message : string) : Json :=
  JObject [("code", JNumber code); ("message", JString message)]%string.

(** [EthBundleHash] is an object, [B256] is a string *)
Definition reply_member (reply : RpcReply) : string * Json :=
  match reply with
  | ReplyBundleHash h => ("result", JObject [("bundleHash", to_json (MkB256 h))])%string
  | ReplyHash h => ("result", to_json (MkB256 h))%string
  | ReplyUnit => ("result", JNull)%string
  | ReplyError e => ("error", error_json (eth_error e).1 (eth_error e).2)%string
  | ReplyInvalidParams => ("error", error_json (-32602) "Invalid params")%string
  | ReplyMethodNotFound => ("error", error_json (-32601) "Method not found")%string
  end.

Definition jsonrpc_response (reply : RpcReply) (id : Json) : Json :=
  JObject [("jsonrpc", JString "2.0"); reply_member reply; ("id", id)]%string.

(** [jsonrpsee] over HTTP, with the handler of its methods *)
Class JsonRpcServer `{JT : JsonText} := {
  rpc_serve : forall S, (string -> Json -> S -> S * RpcReply) -> string -> S -> S * HttpMessage;
  rpc_serve_call : forall S handler (st : S) rpc_method params id,
    json_fits params -> json_fits id ->
    rpc_serve S handler (json_text (jsonrpc_request rpc_method params id)) st =
    let '(st, reply) := handler rpc_method params st in
    (st, {| hm_status := 200; hm_text := json_text (jsonrpc_response reply id) |});
}.
End Responses.

(** ** What the tests read *)

(** [i64] and [i32] *)
Record NumI64 := MkNumI64 { i64_value : Z }.
Record NumI32 := MkNumI32 { i32_value : Z }.

Definition signed_serde {A} (bits : Z) (value : A -> Z) (mk : Z -> A) : Serde A := {|
  to_json x := JNumber (value x);
  of_json j :=
    match j with
    | JNumber n => if bool_decide (- 2 ^ (bits - 1) <= n < 2 ^ (bits - 1)) then Some (mk n) else None
    | _ => None
    end;
  of_missing := None;
|}.

#[export] Instance i64_serde : Serde NumI64 := signed_serde 64 i64_value MkNumI64.
#[export] Instance i32_serde : Serde NumI32 := signed_serde 32 i32_value MkNumI32.

Record ErrResponse := { er_code : Z; er_message : string }.
Record RpcErrResponse := { rer_jsonrpc : string; rer_error : ErrResponse; rer_id : Z }.
Record RpcResponse (T : Type) := { rr_jsonrpc : string; rr_result : T; rr_id : Z }.
Arguments rr_jsonrpc {T}.
Arguments rr_result {T}.
Arguments rr_id {T}.
Record EthBundleHash := { bundle_hash : B256 }.

Definition err_response_serde : Serde ErrResponse :=
  struct_serde (T := (NumI32 * (string * unit))%type) ["code"; "message"]%string
    (fun e => (MkNumI32 (er_code e), (er_message e, tt)))
    (fun t => let '(code, (message, _)) := t in {| er_code := i32_value code; er_message := message |}).
#[export] Existing Instance err_response_serde.

Definition rpc_err_response_serde : Serde RpcErrResponse :=
  struct_serde (T := (string * (ErrResponse * (NumI64 * unit)))%type) ["jsonrpc"; "error"; "id"]%string
    (fun r => (rer_jsonrpc r, (rer_error r, (MkNumI64 (rer_id r), tt))))
    (fun t => let '(jsonrpc, (error, (id, _))) := t in
       {| rer_jsonrpc := jsonrpc; rer_error := error; rer_id := i64_value id |}).
#[export] Existing Instance rpc_err_response_serde.

Definition rpc_response_serde {T} `{Serde T} : Serde (RpcResponse T) :=
  struct_serde (T := (string * (T * (NumI64 * unit)))%type) ["jsonrpc"; "result"; "id"]%string
    (fun r => (rr_jsonrpc r, (rr_result r, (MkNumI64 (rr_id r), tt))))
    (fun t => let '(jsonrpc, (result, (id, _))) := t in
       {| rr_jsonrpc := jsonrpc; rr_result := result; rr_id := i64_value id |}).
#[export] Existing Instance rpc_response_serde.

(** [reth]'s [EthBundleHash], in camel case *)
Definition bundle_hash_serde `{AlloySerde} : Serde EthBundleHash :=
  struct_serde (T := (SszB256 * unit)%type) ["bundleHash"]%string
    (fun r => (MkB256 (bundle_hash r), tt)) (fun t => {| bundle_hash := b256_word t.1 |}).
#[export] Existing Instance bundle_hash_serde.

(** ** The suite *)

Section Suite.
Context `{RS : RpcSerde} `{RP : RpcParams} `{RE : RpcErrors} `{JT : JsonText} {JR : @JsonRpcServer RE AS JT}.
Context `{ET : EthTx} {TxPool : Type}.
Context (testing_pool : TxPool) (add_private_transaction : TxPool -> PooledTx -> TxPool * result EthApiError B256).

(** the pools the server is started with; the client and the server share them *)
Record RpcTestSuite := { suite_bundle_pool : BundlePool; suite_pool : TxPool }.

(** The port, the blocks of the mock provider and the account of the sender, which no
    method of the bundle API reads, are left out. *)
Definition RpcTestSuite_new (bundle_pool : option BundlePool) : RpcTestSuite :=
  {| suite_bundle_pool := default BundlePool_new bundle_pool; suite_pool := testing_pool |}.

(** [TestContext::send_request]: the body, and its way through the server; the lock of the
    pool is acquired in time *)
Definition send_request (self : RpcTestSuite) (rpc_method : string) (params : Json) : RpcTestSuite * HttpMessage :=
  let '(st, response) :=
    rpc_serve _ (rpc_call add_private_transaction true)
      (json_text (jsonrpc_request rpc_method params (JNumber 1)))
      (suite_bundle_pool self, suite_pool self) in
  ({| suite_bundle_pool := st.1; suite_pool := st.2 |}, response).
End Suite.

(** [response.json::<RpcErrResponse>().await.unwrap()], and its message *)
Definition assert_validation_error `{JsonText} (expected_err : string) (response : HttpMessage) : Prop :=
  match of_text (A := RpcErrResponse) (hm_text response) with
  | Some to_json => er_message (rer_error to_json) = expected_err
  | None => False
  end.

(** ** Hexadecimal, as the tests write bytes *)

Module Hex.

Definition digits : list ascii :=
  ["0"; "1"; "2"; "3"; "4"; "5"; "6"; "7"; "8"; "9"; "a"; "b"; "c"; "d"; "e"; "f"]%char.

Definition digit (n : Z) : ascii := nth (Z.to_nat n) digits "0"%char.

Definition digit_value (c : ascii) : option Z :=
  (fun x => Z.of_nat x.1) <$> list_find (fun d => d = c) digits.

Definition byte_digits (b : Byte.byte) : ascii * ascii :=
  let n := Z.of_N (Byte.to_N b) in (digit (n / 16), digit (n mod 16)).

Definition digits_byte (c d : ascii) : option Byte.byte :=
  h ← digit_value c; l ← digit_value d; Byte.of_N (Z.to_N (16 * h + l)).

Fixpoint print (bs : Bytes) : string :=
  match bs with
  | [] => EmptyString
  | b :: bs => String (byte_digits b).1 (String (byte_digits b).2 (print bs))
  end.

Fixpoint parse (s : string) : option Bytes :=
  match s with
  | EmptyString => Some []
  | String c (String d s) => b ← digits_byte c d; bs ← parse s; Some (b :: bs)
  | String _ EmptyString => None
  end.

(** with the prefix [0x] *)
Definition print_0x (bs : Bytes) : string := String "0" (String "x" (print bs)).

Definition parse_0x (s : string) : option Bytes :=
  match s with
  | String c (String d s) => if bool_decide (c = "0"%char /\ d = "x"%char) then parse s else None
  | _ => None
  end.

Lemma digits_byte_digits b : digits_byte (byte_digits b).1 (byte_digits b).2 = Some b.
Proof. by destruct b. Qed.

Lemma parse_print bs : parse (print bs) = Some bs.
Proof.
  induction bs as [|b bs IH]; [done|]. cbn [print parse]. rewrite digits_byte_digits. simpl. by rewrite IH.
Qed.

Lemma parse_print_0x bs : parse_0x (print_0x bs) = Some bs.
Proof. exact (parse_print bs). Qed.
End Hex.

(** a JSON array of numbers, as [serde_json] writes a buffer *)
Definition bytes_numbers (bs : Bytes) : Json := JArray ((fun b => JNumber (Z.of_N (Byte.to_N b))) <$> bs).

Definition number_byte (j : Json) : option Byte.byte :=
  match j with JNumber n => if bool_decide (0 <= n) then Byte.of_N (Z.to_N n) else None | _ => None end.

Lemma numbers_bytes bs : mapM number_byte ((fun b => JNumber (Z.of_N (Byte.to_N b))) <$> bs) = Some bs.
Proof.
  induction bs as [|b bs IH]; [done|]. cbn [fmap list_fmap mapM].
  assert (number_byte (JNumber (Z.of_N (Byte.to_N b))) = Some b) as -> by by destruct b.
  cbn [mbind option_bind]. by rewrite IH.
Qed.

Lemma bytes_numbers_fit bs : json_fits (bytes_numbers bs).
Proof.
  unfold bytes_numbers. cbn [json_fits]. induction bs as [|b bs IH]; [done|]. cbn [fmap list_fmap foldr]. split; [|exact IH].
  cbn [json_fits]. pose proof (Byte.to_N_bounded b). lia.
Qed.

(** words of [n] bytes; [U64] is also read from a number *)
Definition hex_word_serde {A} (n : nat) (word : A -> Z) (mk : Z -> A) (of_number : bool) : Serde A := {|
  to_json x := JString (Hex.print_0x (be_bytes n (word x)));
  of_json j :=
    match j with
    | JString s =>
        bs ← Hex.parse_0x s; if Nat.eqb (length bs) n then Some (mk (be_value bs)) else None
    | JNumber m => if of_number && bool_decide (0 <= m < 256 ^ Z.of_nat n) then Some (mk m) else None
    | _ => None
    end;
  of_missing := None;
|}.

Lemma hex_word_codec {A} (n : nat) (word : A -> Z) (mk : Z -> A) (of_number : bool) :
  (forall x, mk (word x) = x) -> (forall w, word (mk w) = w) ->
  @SerdeCodec A (hex_word_serde n word mk of_number) (fun x => 0 <= word x < 256 ^ Z.of_nat n).
Proof.
  intros H1 H2. split; [| |done]; cbn -[be_bytes be_value Hex.print_0x Hex.parse_0x].
  - intros x Hx. rewrite Hex.parse_print_0x. cbn -[be_bytes be_value].
    by rewrite length_be_bytes, Nat.eqb_refl, be_value_of_bytes, H1.
  - intros [| |m|s| |] x; try done.
    + destruct of_number; [|done]. cbn [andb]. case_bool_decide; [|done]. intros [= <-]. by rewrite H2.
    + destruct (Hex.parse_0x s) as [bs|]; [|done]. cbn -[be_value].
      destruct (Nat.eqb_spec (length bs) n) as [<-|]; [|done]. intros [= <-]. rewrite H2. apply be_value_range.
Qed.

Definition hex_bytes_serde : Serde SszBytes := {|
  to_json x := JString (Hex.print_0x (bytes_data x));
  of_json j :=
    match j with
    | JString s => MkBytes <$> Hex.parse_0x s
    | JArray l => MkBytes <$> mapM number_byte l
    | _ => None
    end;
  of_missing := None;
|}.

Lemma hex_bytes_codec : @SerdeCodec SszBytes hex_bytes_serde bytes_wf.
Proof. split; [|done|done]. intros [bs] _. cbn -[Hex.parse_0x Hex.print_0x]. by rewrite Hex.parse_print_0x. Qed.

Definition hex_alloy : AlloySerde.
Proof.
  refine (Build_AlloySerde (hex_word_serde 32 b256_word MkB256 false)
    (hex_word_serde 20 address_word MkAddress false)
    (demo_bytes_serde (fun n => Nat.eqb n 256) bloom_data MkBloom) hex_bytes_serde
    demo_u256_serde _ _ _ hex_bytes_codec demo_u256_codec demo_u256_of_decimal).
  - apply hex_word_codec; by intros [].
  - apply hex_word_codec; by intros [].
  - eapply serde_iff; [|apply demo_bytes_codec; by intros []]. intros d. apply Nat.eqb_eq.
Defined.

Definition hex_rpc_serde : @RpcSerde hex_alloy.
Proof.
  refine (@Build_RpcSerde hex_alloy (hex_word_serde 8 u64_value MkU64 true) _ (fun u => 0 <= u < 256 ^ 16)
    (hex_word_serde 16 uuid_word MkUuid false) _ _ _).
  - by apply hex_word_codec; intros [].
  - by apply (hex_word_codec 16); intros [].
  - discriminate.
  - discriminate.
Defined.

(** ** What a response reads as *)

Lemma signed_codec {A} (bits : Z) (value : A -> Z) (mk : Z -> A) :
  (forall x, mk (value x) = x) -> (forall n, value (mk n) = n) ->
  @SerdeCodec A (signed_serde bits value mk) (fun x => - 2 ^ (bits - 1) <= value x < 2 ^ (bits - 1)).
Proof.
  intros H1 H2. split; [| |done]; cbn [to_json of_json signed_serde].
  - intros x Hx. by rewrite bool_decide_eq_true_2, H1.
  - intros [| |n| | |] x; try done. case_bool_decide; [|done]. intros [= <-]. by rewrite H2.
Qed.

#[export] Instance i64_codec : SerdeCodec NumI64 (fun x => - 2 ^ 63 <= i64_value x < 2 ^ 63).
Proof. apply (signed_codec 64); by intros []. Qed.

#[export] Instance i32_codec : SerdeCodec NumI32 (fun x => - 2 ^ 31 <= i32_value x < 2 ^ 31).
Proof. apply (signed_codec 32); by intros []. Qed.

Definition err_in_range (e : ErrResponse) : Prop := - 2 ^ 31 <= er_code e < 2 ^ 31.

Lemma err_response_codec : SerdeCodec ErrResponse err_in_range.
Proof.
  eapply serde_iff; [|apply struct_serde_codec; [distinct|done|by intros []|by intros [[] [? []]]]].
  intros e. simpl. unfold err_in_range. naive_solver.
Qed.
#[export] Existing Instance err_response_codec.

Lemma rpc_err_response_codec :
  SerdeCodec RpcErrResponse (fun r => err_in_range (rer_error r) /\ - 2 ^ 63 <= rer_id r < 2 ^ 63).
Proof.
  eapply serde_iff; [|apply struct_serde_codec; [distinct|done|by intros []|by intros [? [? [[] []]]]]].
  intros r. simpl. naive_solver.
Qed.

Lemma rpc_response_codec {T} `{SerdeCodec T wf} :
  SerdeCodec (RpcResponse T) (fun r => wf (rr_result r) /\ - 2 ^ 63 <= rr_id r < 2 ^ 63).
Proof.
  eapply serde_iff; [|apply struct_serde_codec; [distinct|done|by intros []|by intros [? [? [[] []]]]]].
  intros r. simpl. naive_solver.
Qed.

Lemma bundle_hash_codec `{AlloySerde} : SerdeCodec EthBundleHash (fun r => 0 <= bundle_hash r < 256 ^ 32).
Proof.
  eapply serde_iff; [|apply struct_serde_codec; [distinct|done|by intros []|by intros [[] []]]].
  intros r. unfold b256_wf. split; [by intros [? _]|by intros ?].
Qed.
#[export] Existing Instance bundle_hash_codec.

(** ** What a request of the suite does *)

Lemma fields_fit (kvs : list (string * Json)) : Forall (fun kv => json_fits kv.2) kvs -> json_fits (JObject kvs).
Proof. induction 1; [done|]. by split. Qed.

Section Answers.
#[local] Existing Instances hex_alloy hex_rpc_serde bundle_serde.
Context `{RP : RpcParams} `{RE : RpcErrors} `{JT : JsonText} {JR : @JsonRpcServer RE hex_alloy JT}.
Context `{ET : EthTx} {TxPool : Type}.
Context (add_private_transaction : TxPool -> PooledTx -> TxPool * result EthApiError B256).

Abbreviation suite := (@RpcTestSuite TxPool).

Lemma response_fits (reply : RpcReply) : json_fits (jsonrpc_response reply (JNumber 1)).
Proof.
  apply fields_fit. repeat constructor; try done. destruct reply as [h|h| |e| |]; cbn [reply_member snd].
  - apply fields_fit. by repeat constructor.
  - done.
  - done.
  - apply fields_fit. constructor; [|by repeat constructor]. cbn [json_fits snd].
    pose proof (eth_error_code e). lia.
  - apply fields_fit. by repeat constructor.
  - apply fields_fit. by repeat constructor.
Qed.

Definition answer (reply : RpcReply) : HttpMessage :=
  {| hm_status := 200; hm_text := json_text (jsonrpc_response reply (JNumber 1)) |}.

Lemma send_request_answered (self : suite) (rpc_method : string) (params : Json) :
  json_fits params ->
  send_request add_private_transaction self rpc_method params =
  let '(st, reply) := rpc_call add_private_transaction true rpc_method params (suite_bundle_pool self, suite_pool self) in
  ({| suite_bundle_pool := st.1; suite_pool := st.2 |}, answer reply).
Proof.
  intros Hp. unfold send_request. rewrite rpc_serve_call by done. by destruct (rpc_call _ _ _ _ _).
Qed.

Lemma answer_read {A} `{Serde A} (reply : RpcReply) :
  of_text (hm_text (answer reply)) = of_json (A := A) (jsonrpc_response reply (JNumber 1)).
Proof. unfold of_text, answer. cbn [hm_text]. rewrite json_parse_text; [done|apply response_fits]. Qed.

Lemma validation_error_read (msg : string) : assert_validation_error msg (answer (ReplyError (InvalidParams msg))).
Proof.
  unfold assert_validation_error. rewrite answer_read.
  set (e := eth_error (InvalidParams msg)).
  set (r := {| rer_jsonrpc := "2.0"; rer_error := {| er_code := e.1; er_message := e.2 |}; rer_id := 1 |}).
  change (jsonrpc_response _ _) with (to_json r).
  rewrite (json_roundtrip (SerdeCodec := rpc_err_response_codec) r).
  - apply eth_error_params.
  - split; [apply (eth_error_code (InvalidParams msg))|done].
Qed.

(** a bundle, in the JSON of a request *)
Lemma send_bundle_answered (self : suite) (fields : list (string * Json)) (b : EthSendBundle) :
  json_fits (JObject fields) -> of_json (JObject fields) = Some b ->
  send_request add_private_transaction self "eth_sendBundle" (JArray [JObject fields]) =
  let '(bundles_pool, r) := send_bundle true b (suite_bundle_pool self) in
  ({| suite_bundle_pool := bundles_pool; suite_pool := suite_pool self |}, answer (reply_of ReplyBundleHash r)).
Proof.
  intros Hf Hb. rewrite send_request_answered by done. unfold rpc_call. rewrite decide_True by done.
  unfold with_param. rewrite rpc_param_first. cbn [mbind option_bind]. unfold request_serde. rewrite Hb.
  cbn [fst snd]. by destruct (send_bundle _ _ _).
Qed.

Lemma cancel_bundle_answered (self : suite) (hash : B256) :
  0 <= hash < 256 ^ 32 ->
  send_request add_private_transaction self "eth_cancelBundle" (JArray [to_json (MkB256 hash)]) =
  let '(bundles_pool, r) := cancel_bundle true hash (suite_bundle_pool self) in
  ({| suite_bundle_pool := bundles_pool; suite_pool := suite_pool self |}, answer (reply_of (fun _ => ReplyUnit) r)).
Proof.
  intros Hh. rewrite send_request_answered by done. unfold rpc_call. rewrite decide_False, decide_True by done.
  unfold with_param. rewrite rpc_param_first. cbn [mbind option_bind].
  rewrite (json_roundtrip (MkB256 hash)) by exact Hh. cbn [b256_word fst snd]. by destruct (cancel_bundle _ _ _).
Qed.

Lemma send_private_answered (self : suite) (data : Bytes) :
  send_request add_private_transaction self "eth_sendPrivateTransaction" (JArray [to_json (MkBytes data)]) =
  let '(pool, r) := send_private_tx add_private_transaction data (suite_pool self) in
  ({| suite_bundle_pool := suite_bundle_pool self; suite_pool := pool |}, answer (reply_of ReplyHash r)).
Proof.
  rewrite send_request_answered by done. unfold rpc_call. rewrite !decide_False, decide_True by done.
  unfold with_param. rewrite rpc_param_first. cbn [mbind option_bind].
  rewrite (json_roundtrip (MkBytes data)) by done. cbn [bytes_data fst snd]. by destruct (send_private_tx _ _ _).
Qed.

(** the hash of a response *)
Lemma bundle_hash_read (h : B256) :
  0 <= h < 256 ^ 32 ->
  of_text (A := RpcResponse EthBundleHash) (hm_text (answer (ReplyBundleHash h))) =
  Some {| rr_jsonrpc := "2.0"; rr_result := {| bundle_hash := h |}; rr_id := 1 |}.
Proof.
  intros Hh. rewrite answer_read. set (r := {| rr_jsonrpc := "2.0"; rr_result := {| bundle_hash := h |}; rr_id := 1 |}).
  change (jsonrpc_response _ _) with (to_json r).
  apply (json_roundtrip (SerdeCodec := rpc_response_codec)). split; [exact Hh|done].
Qed.

Lemma hash_read (h : B256) :
  0 <= h < 256 ^ 32 ->
  of_text (A := RpcResponse SszB256) (hm_text (answer (ReplyHash h))) =
  Some {| rr_jsonrpc := "2.0"; rr_result := MkB256 h; rr_id := 1 |}.
Proof.
  intros Hh. rewrite answer_read. set (r := {| rr_jsonrpc := "2.0"; rr_result := MkB256 h; rr_id := 1 |}).
  change (jsonrpc_response _ _) with (to_json r).
  apply (json_roundtrip (SerdeCodec := rpc_response_codec)). split; [exact Hh|done].
Qed.
End Answers.

(** ** A server and its errors, for evaluation *)

Import Demo.

#[export] Instance demo_rpc_errors : RpcErrors.
Proof.
  refine {| eth_error e :=
    match e with
    | InvalidParams msg => (-32602, msg)
    | EmptyRawTransactionData => (-32602, "empty transaction data"%string)
    | FailedToDecodeSignedTransaction => (-32602, "failed to decode signed transaction"%string)
    | InvalidTransactionSignature => (-32602, "invalid transaction signature"%string)
    | InternalEthError => (-32603, "internal eth error"%string)
    | OtherEthApiError _ => (-32603, "internal error"%string)
    end |}; [done|]. by intros [].
Defined.

#[export] Instance demo_rpc_server `{AS : AlloySerde} : JsonRpcServer.
Proof.
  refine {| rpc_serve S handler body st :=
    match json_parse body with
    | Some (JObject kvs) =>
        match json_field kvs "method", json_field kvs "params", json_field kvs "id" with
        | Some (Some (JString rpc_method)), Some (Some params), Some (Some id) =>
            let '(st, reply) := handler rpc_method params st in
            (st, {| hm_status := 200; hm_text := json_text (jsonrpc_response reply id) |})
        | _, _, _ => (st, {| hm_status := 400; hm_text := EmptyString |})
        end
    | _ => (st, {| hm_status := 400; hm_text := EmptyString |})
    end |}.
  intros S handler st rpc_method params id Hp Hi. rewrite json_parse_text; [done|].
  apply fields_fit. repeat constructor; done.
Defined.
