(* ===== verification/TestsRpc.v ===== *)
(** * The tests of the bundle RPC, evaluated on the model

    The tests of [crates/rpc/src/send_bundle.rs], [cancel_bundle.rs] and
    [send_private_tx.rs]: each posts the JSON of its requests to the test suite's server
    ([RpcSuite]) and reads the JSON of the responses.  They hold over every server and
    every printer of JSON that keeps its law; what a test draws at random is a
    parameter. *)

From stdpp Require Import prelude list gmap strings.
From S2P Require Import Prelude Types Bundle BundlePool Rpc MockEvm JsonWire Ssz Blst SszContainer BidSsz BidJson JsonText IngressJson RpcSuite.

Open Scope Z_scope.

Import Mock.

(** the testing pool accepts a transaction and answers its hash *)
Definition testing_pool_add (pool : list test_tx) (tx : test_tx) : list test_tx * result EthApiError B256 :=
  (pool ++ [tx], Ok (tt_hash tx)).

(** the transfer the tests sign *)
Definition create_tx (secret_key : Z) (address : Address) : test_tx :=
  {| tt_type := 2; tt_signer := secret_key; tt_nonce := 0; tt_gas_limit := 21000;
     tt_max_fee_per_gas := 0x4a817c800; tt_max_priority_fee_per_gas := 0x3b9aca00; tt_to := address;
     tt_value := 1000000; tt_zero_bytes := 0 |}.

Section Tests.
#[local] Existing Instances hex_alloy hex_rpc_serde.
Context `{RP : RpcParams} `{RE : RpcErrors} `{JT : JsonText} {JR : @JsonRpcServer RE hex_alloy JT}.

Definition test_setup (bundle_pool : option BundlePool) : @RpcTestSuite (list test_tx) := RpcTestSuite_new [] bundle_pool.

Abbreviation send := (send_request testing_pool_add).

(** the fields of a bundle of buffers, among them one the server does not know *)
Definition bundle_json (txs : list Json) (block_number : Z) : list (string * Json) :=
  [("txs", JArray txs); ("blockNumber", JNumber block_number); ("stateBlockNumber", JString "0x1")]%string.

Definition sendbundle_validation_errors : Prop :=
  let '(_, response) := send (test_setup None) "eth_sendBundle" (JArray [JObject (bundle_json [] 0)]) in
  assert_validation_error "bundle missing txs" response /\
  let '(_, response) :=
    send (test_setup None) "eth_sendBundle" (JArray [JObject (bundle_json [JString "0x"; JString "0x"] 0)]) in
  assert_validation_error "bundle missing blockNumber" response.

Definition test_send_bundle (secret_key : Z) : Prop :=
  let tx := create_tx secret_key secret_key in
  let refund_fields := [("refundPercent", JNumber 90); ("refundIndex", JNumber 0);
    ("refundRecipient", JString (Hex.print_0x (be_bytes 20 0)))]%string in
  let '(suite, response) := send (test_setup None) "eth_sendBundle"
    (JArray [JObject (bundle_json [bytes_numbers (envelope_encoded tx)] 1 ++ refund_fields)]) in
  (exists rpc_resp, of_text (A := RpcResponse EthBundleHash) (hm_text response) = Some rpc_resp /\
     bundle_hash (rr_result rpc_resp) = keccak256 (be_bytes 32 (tt_hash tx))) /\
  let max_ts := 10000 in
  match pool_bundles true (suite_bundle_pool suite) 1 max_ts with
  | Some [target] => is_Some (refund target)
  | _ => False
  end.

(** the requests arrive in some order *)
Definition send_many_bundles (secret_keys : list Z) (address : Z -> Address) : Prop :=
  let suite :=
    foldl (fun suite key =>
        (send suite "eth_sendBundle"
          (JArray [JObject (bundle_json [bytes_numbers (envelope_encoded (create_tx key (address key)))] 1)])).1)
      (test_setup None) secret_keys in
  pool_len true (suite_bundle_pool suite) = Some (length secret_keys).

Definition cancel_bundle_validation_errors (hash : B256) : Prop :=
  let '(_, response) := send (test_setup None) "eth_cancelBundle" (JArray [to_json (MkB256 hash)]) in
  assert_validation_error "bundle not found" response.

Definition create_bundle (hash : B256) (secret_key : Z) : Bundle :=
  let encoded := envelope_encoded (create_tx secret_key secret_key) in
  Bundle_from
    ({| sb_txs := [encoded]; sb_block_number := 0; sb_min_timestamp := None; sb_max_timestamp := None;
        sb_reverting_tx_hashes := []; sb_replacement_uuid := None; sb_refund_percent := None;
        sb_refund_index := None; sb_refund_recipient := None |}, hash).

Definition test_cancel_bundle (hash : B256) (secret_key : Z) : Prop :=
  let bundle_pool := (pool_add_bundle true BundlePool_new (create_bundle hash secret_key)).1 in
  pool_len true bundle_pool = Some 1%nat /\
  let '(suite, response) :=
    send (test_setup (Some bundle_pool)) "eth_cancelBundle" (JArray [to_json (MkB256 hash)]) in
  hm_status response = 200 /\ pool_is_empty true (suite_bundle_pool suite) = Some true.

Definition send_tx (secret_key : Z) : Prop :=
  let tx := create_tx secret_key secret_key in
  let '(suite, response) :=
    send (test_setup None) "eth_sendPrivateTransaction" (JArray [to_json (MkBytes (envelope_encoded tx))]) in
  (exists rpc_resp, of_text (A := RpcResponse SszB256) (hm_text response) = Some rpc_resp /\
     rr_result rpc_resp = MkB256 (tt_hash tx)) /\
  length (suite_pool suite) = 1%nat.
End Tests.

(** ** They pass *)

(** the request a test's JSON stands for *)
Definition request (txs : list Bytes) (block_number : Z) (refund_percent : option Z)
    (refund_index : option nat) (refund_recipient : option Address) : EthSendBundle :=
  {| sb_txs := txs; sb_block_number := block_number; sb_min_timestamp := None; sb_max_timestamp := None;
     sb_reverting_tx_hashes := []; sb_replacement_uuid := None; sb_refund_percent := refund_percent;
     sb_refund_index := refund_index; sb_refund_recipient := refund_recipient |}.

Section Pass.
#[local] Existing Instances hex_alloy hex_rpc_serde bundle_serde.
Context `{RP : RpcParams} `{RE : RpcErrors} `{JT : JsonText} {JR : @JsonRpcServer RE hex_alloy JT}.

Lemma bundle_json_fits (bs : Bytes) extra :
  Forall (fun kv => json_fits kv.2) extra -> json_fits (JObject (bundle_json [bytes_numbers bs] 1 ++ extra)).
Proof.
  intros He. apply fields_fit. apply Forall_app. split; [|done].
  repeat constructor; try done. apply bytes_numbers_fit.
Qed.

(** a buffer, in the field [txs] *)
Lemma txs_read (bs : Bytes) : of_json (Serde := txs_serde) (JArray [bytes_numbers bs]) = Some [MkBytes bs].
Proof.
  change (mapM (of_json (A := SszBytes)) [bytes_numbers bs] = Some [MkBytes bs]). cbn [mapM].
  assert (of_json (A := SszBytes) (bytes_numbers bs) = Some (MkBytes bs)) as ->
    by exact (f_equal (fmap MkBytes) (numbers_bytes bs)). done.
Qed.

Ltac read_fields values :=
  unfold bundle_json;
  match goal with |- of_json (JObject ?kvs) = _ =>
    cbn [of_json bundle_serde skip_serde struct_serde];
    change (mapM (json_field kvs) bundle_names) with (Some values)
  end; cbn [mbind option_bind json_read more_json_fields]; rewrite txs_read; reflexivity.

Lemma bundle_json_read (bs : Bytes) :
  of_json (JObject (bundle_json [bytes_numbers bs] 1)) = Some (request [bs] 1 None None None).
Proof.
  read_fields [Some (JArray [bytes_numbers bs]); Some (JNumber 1); None; None; None; None; None; None; None].
Qed.

Lemma refund_json_read (bs : Bytes) :
  of_json (JObject (bundle_json [bytes_numbers bs] 1 ++
    [("refundPercent", JNumber 90); ("refundIndex", JNumber 0);
     ("refundRecipient", JString (Hex.print_0x (be_bytes 20 0)))]%string)) =
  Some (request [bs] 1 (Some 90) (Some 0%nat) (Some 0)).
Proof.
  read_fields [Some (JArray [bytes_numbers bs]); Some (JNumber 1); None; None; None; None;
    Some (JNumber 90); Some (JNumber 0); Some (JString (Hex.print_0x (be_bytes 20 0)))].
Qed.

Lemma sendbundle_validation_errors_passes : sendbundle_validation_errors.
Proof.
  unfold sendbundle_validation_errors.
  rewrite (send_bundle_answered _ _ _ (request [] 0 None None None)) by done.
  split; [apply validation_error_read|].
  rewrite (send_bundle_answered _ _ _ (request [[]; []] 0 None None None)) by done.
  apply validation_error_read.
Qed.

Lemma cancel_bundle_validation_errors_passes hash :
  0 <= hash < 256 ^ 32 -> cancel_bundle_validation_errors hash.
Proof.
  intros Hh. unfold cancel_bundle_validation_errors. rewrite cancel_bundle_answered by done.
  unfold cancel_bundle, pool_cancel_bundle, inner_cancel_bundle. simpl. rewrite lookup_empty.
  apply validation_error_read.
Qed.

(** the key and the hash of the run *)
Abbreviation key := 0xabcdef.

Abbreviation sent_tx := (create_tx key key).

Lemma bundle_sent :
  match send_bundle true (request [envelope_encoded sent_tx] 1 (Some 90) (Some 0%nat) (Some 0)) BundlePool_new with
  | (bundle_pool, Ok h) =>
      h = keccak256 (be_bytes 32 (tt_hash sent_tx)) /\
      match pool_bundles true bundle_pool 1 10000 with Some [target] => is_Some (refund target) | _ => False end
  | (_, Err _) => False
  end.
Proof. exact_no_check (conj (eq_refl (keccak256 (be_bytes 32 (tt_hash sent_tx))))
  (ex_intro (fun x => Some {| percent := 90; index := Some 0%nat; recipient := Some 0 |} = Some x) _ eq_refl)). Qed.

Lemma hash_in_range : 0 <= keccak256 (be_bytes 32 (tt_hash sent_tx)) < 256 ^ 32.
Proof. apply (bool_decide_eq_true_1 _). kernel_refl. Qed.

Lemma test_send_bundle_passes : test_send_bundle key.
Proof.
  unfold test_send_bundle. erewrite send_bundle_answered;
    [|apply bundle_json_fits; by repeat constructor|apply refund_json_read].
  pose proof bundle_sent as H. cbn [test_setup RpcTestSuite_new suite_bundle_pool default].
  destruct (send_bundle _ _ _) as [bundle_pool [h|e]]; [|done]. destruct H as [-> H]. cbn [reply_of]. split; [|exact H].
  eexists. split; [by apply bundle_hash_read, hash_in_range|done].
Qed.

Lemma bundle_cancelled :
  pool_is_empty true (cancel_bundle true 900 (pool_add_bundle true BundlePool_new (create_bundle 900 key)).1).1 = Some true.
Proof. exact_no_check (eq_refl (Some true)). Qed.

Lemma test_cancel_bundle_passes : test_cancel_bundle 900 key.
Proof.
  unfold test_cancel_bundle. split; [exact_no_check (eq_refl (Some 1%nat))|].
  rewrite cancel_bundle_answered by done. pose proof bundle_cancelled as H.
  cbn [test_setup RpcTestSuite_new suite_bundle_pool default].
  destruct (cancel_bundle _ _ _) as [bundle_pool r]. by split.
Qed.

Lemma tx_sent : send_private_tx testing_pool_add (envelope_encoded sent_tx) [] = ([sent_tx], Ok (tt_hash sent_tx)).
Proof. exact_no_check (eq_refl ([sent_tx], Ok (E := EthApiError) (tt_hash sent_tx))). Qed.

Lemma send_tx_passes : send_tx key.
Proof.
  unfold send_tx. rewrite send_private_answered. cbn [test_setup RpcTestSuite_new suite_pool]. rewrite tx_sent. split; [|done].
  eexists. split; [apply hash_read|done]. apply (bool_decide_eq_true_1 _). kernel_refl.
Qed.

(** many requests leave in the pool what their bundles do *)
Lemma many_sent (keys : list Z) (address : Z -> Address) (suite : RpcTestSuite) :
  suite_bundle_pool (foldl (fun suite key =>
      (send_request testing_pool_add suite "eth_sendBundle"
        (JArray [JObject (bundle_json [bytes_numbers (envelope_encoded (create_tx key (address key)))] 1)])).1)
    suite keys) =
  foldl (fun pool key =>
      (send_bundle true (request [envelope_encoded (create_tx key (address key))] 1 None None None) pool).1)
    (suite_bundle_pool suite) keys.
Proof.
  revert suite. induction keys as [|k keys IH]; intros suite; [done|]. cbn [foldl]. rewrite IH. f_equal.
  erewrite send_bundle_answered; [|apply (bundle_json_fits _ []); constructor|apply bundle_json_read].
  by destruct (send_bundle _ _ _).
Qed.

Lemma send_many_bundles_passes :
  send_many_bundles ((fun n => 1000 + Z.of_nat n) <$> seq 0 100) (fun key => key).
Proof. unfold send_many_bundles. rewrite many_sent. exact_no_check (eq_refl (Some 100%nat)). Qed.
End Pass.
