(* ===== verification/TestsPayload.v ===== *)
(** * The tests of the payload crate's strategies, evaluated on the model

    The unit tests of [crates/payload/src/strategy/empty.rs], [mempool/mod.rs] and
    [bundle/mod.rs] with the helpers of [job/mod.rs] and of
    [crates/primitives/src/build/mod.rs], assertion by assertion, on the mock provider
    and the transfer-only execution layer of [MockEvm].  What a test draws at random
    and the clock it reads are the fields of [draws]; the pools a test shares with the
    arguments of a build are filled before the arguments are made. *)

From stdpp Require Import prelude list gmap.
From S2P Require Import Prelude Types Bundle BundlePool Validator Ofac Chain Payload SimState State Strategies MockEvm.

Open Scope Z_scope.

Import Mock.

Definition GWEI : Z := 1000000000.

(** the clock, the identifier of the payload's random draws, and the secrets, of which
    each transaction draws one *)
Record draws := {
  dr_now : Z;
  dr_fee_recipient : Address;
  dr_prev_randao : B256;
  dr_proposer : BlsPublicKey;
  dr_config_key : Z;
  dr_hashes : nat -> B256;
  dr_secrets : nat -> Z;
}.

(** ** [build_test_config] *)

Definition build_test_config (r : draws) (payload_id : Z) : run PayloadBuilderError BuildConfig :=
  let h := Header_default in
  let parent_block := seal_slow
    {| bl_header :=
         {| hd_parent_hash := hd_parent_hash h; hd_ommers_hash := hd_ommers_hash h;
            hd_beneficiary := hd_beneficiary h; hd_state_root := hd_state_root h;
            hd_transactions_root := hd_transactions_root h; hd_receipts_root := hd_receipts_root h;
            hd_withdrawals_root := hd_withdrawals_root h; hd_logs_bloom := hd_logs_bloom h;
            hd_timestamp := hd_timestamp h; hd_mix_hash := hd_mix_hash h; hd_nonce := hd_nonce h;
            hd_base_fee_per_gas := hd_base_fee_per_gas h; hd_number := hd_number h;
            hd_gas_limit := 30000000; hd_difficulty := hd_difficulty h; hd_gas_used := hd_gas_used h;
            hd_extra_data := hd_extra_data h;
            hd_parent_beacon_block_root := hd_parent_beacon_block_root h;
            hd_blob_gas_used := Some 0; hd_excess_blob_gas := Some 0 |};
       bl_body := bl_body Block_default; bl_withdrawals := bl_withdrawals Block_default |} in
  let attributes :=
    {| pa_id := payload_id; pa_parent := sl_hash parent_block; pa_timestamp := dr_now r;
       pa_suggested_fee_recipient := dr_fee_recipient r; pa_prev_randao := dr_prev_randao r;
       pa_withdrawals := []; pa_parent_beacon_block_root := None |} in
  let validator_info :=
    {| vi_proposer := dr_proposer r; vi_fee_recipient := 0;
       vi_gas_limit := hd_gas_limit (bl_header (sl_block parent_block)); vi_slot := 0 |} in
  BuildConfig_new tt attributes parent_block 0 validator_info.

(** ** The helpers of [job/mod.rs] *)

Record test_env := {
  te_config : run PayloadBuilderError BuildConfig;
  te_client : MockProvider;
  te_pool : TxPool;
  te_bundle_pool : BundlePool;
  te_payload_id : Z;
}.

Definition setup_test_env (r : draws) : test_env :=
  let payload_id := 0 in
  {| te_config := build_test_config r payload_id; te_client := MockProvider_default;
     te_pool := [] : list test_tx; te_bundle_pool := BundlePool_new; te_payload_id := payload_id |}.

Definition test_transaction (secret prio_gwei coinbase_gwei : Z) : test_tx :=
  {| tt_type := 2; tt_signer := secret; tt_nonce := 0; tt_gas_limit := 21000;
     tt_max_fee_per_gas := prio_gwei * GWEI; tt_max_priority_fee_per_gas := prio_gwei * GWEI;
     tt_to := 0; tt_value := coinbase_gwei * 21000 * GWEI; tt_zero_bytes := 0 |}.

Definition test_bundle (r : draws) (draw : nat) (block_number : Z) (txs : list test_tx) : Bundle :=
  {| hash := dr_hashes r draw; Bundle.txs := envelope_encoded <$> txs; Bundle.block_number := block_number;
     min_timestamp := Some (dr_now r); max_timestamp := Some (dr_now r); reverting_tx_hashes := [];
     replacement_uuid := None; refund := None |}.

(** both assert that the pool has grown by one *)
Definition add_tx_test_pool (pool : list test_tx) (tx : test_tx) : list test_tx := pool ++ [tx].

Definition add_test_bundle (bundle_pool : BundlePool) (bundle : Bundle) : option BundlePool :=
  start_pool_size ← pool_len true bundle_pool;
  let bundle_pool := (pool_add_bundle true bundle_pool bundle).1 in
  size ← pool_len true bundle_pool;
  guard (size = start_pool_size + 1)%nat;; mret bundle_pool.

Definition add_test_bundles (bundle_pool : BundlePool) (bundles : list Bundle) : option BundlePool :=
  foldl (fun p b => p ≫= fun p => add_test_bundle p b) (Some bundle_pool) bundles.

(** ** Running a strategy *)

Definition test_args (r : draws) (env : test_env) (pool : list test_tx) (bundle_pool : BundlePool)
  : option BuildArguments :=
  match te_config env with
  | Done build_config =>
      Some {| ba_client := te_client env; ba_pool := pool; ba_bundle_pool := bundle_pool;
              ba_cached_reads := tt; ba_build_config := build_config; ba_cancel := fun _ => false;
              ba_best_build := None; ba_id := dr_hashes r 0; ba_now := 0; ba_locked := true |}
  | _ => None
  end.

Definition expect_better (o : option (run PayloadBuilderError BuildOutcome)) : option BuildState :=
  match o with Some (Done (Better build_state _)) => Some build_state | _ => None end.

Definition expect_aborted (o : option (run PayloadBuilderError BuildOutcome)) : bool :=
  match o with Some (Done (Aborted _ _)) => true | _ => false end.

Definition default_config (r : draws) : PayloadConfig := PayloadConfig_default tt (dr_config_key r).

(** the steps every test of a strategy shares: fill the pools, build *)
Definition try_build_with (r : draws) (strategy : PayloadConfig -> Strategy) (pool : list test_tx)
    (bundles : list Bundle) : option (run PayloadBuilderError BuildOutcome) :=
  let env := setup_test_env r in
  let pool := foldl add_tx_test_pool (te_pool env) pool in
  bundle_pool ← add_test_bundles (te_bundle_pool env) bundles;
  args ← test_args r env pool bundle_pool;
  try_build 10 (strategy (default_config r)) args.

(** ... and finish the better build *)
Definition build_with (r : draws) (strategy : PayloadConfig -> Strategy) (pool : list test_tx)
    (bundles : list Bundle) : option Build :=
  build_state ← expect_better (try_build_with r strategy pool bundles);
  match into_build build_state MockProvider_default pool with
  | Done build => Some build
  | _ => None
  end.

(** the identifier and the body of a build *)
Definition build_facts (b : Build) : Z * list test_tx :=
  (bp_id (b_payload b), bl_body (sl_block (bp_block (b_payload b)))).

(** [assert_eq!(payload_id, ..)], the number of transactions of the body and its first ones *)
Definition asserts (r : draws) (b : option Build) (len : nat) {A} (of_tx : test_tx -> A) (first : list A) : Prop :=
  match b with
  | Some b =>
      bp_id (b_payload b) = te_payload_id (setup_test_env r) /\
      length (build_facts b).2 = len /\
      take (length first) (of_tx <$> (build_facts b).2) = first
  | None => False
  end.

(** ** [empty.rs] *)

Definition build_empty (r : draws) : Prop :=
  let env := setup_test_env r in
  match test_args r env [] BundlePool_new with
  | Some args =>
      match build_empty_payload (default_config r) args with
      | Done build =>
          bp_id (b_payload build) = te_payload_id env /\ length (build_facts build).2 = 0%nat
      | _ => False
      end
  | None => False
  end.

Definition test_empty_try_build (r : draws) : Prop :=
  match expect_better (try_build_with r EmptyStrat [] []) with
  | Some build_state =>
      match into_empty_build build_state MockProvider_default [] with
      | Done build =>
          bp_id (b_payload build) = te_payload_id (setup_test_env r) /\
          length (build_facts build).2 = 0%nat
      | _ => False
      end
  | None => False
  end.

(** ** [mempool/mod.rs] *)

(** the legacy transaction of key 1, whose address this is, to a placeholder *)
Definition ofac_tx_sender : Address := 0x7e5f4552091a69125d5dfcb7b8c2659029395bdf.
Definition placeholder : Address := 0x0202020202020202020202020202020202020202.

Definition test_ofac_tx : test_tx :=
  {| tt_type := 0; tt_signer := ofac_tx_sender; tt_nonce := 2; tt_gas_limit := 21004;
     tt_max_fee_per_gas := 10725159612; tt_max_priority_fee_per_gas := 10725159612;
     tt_to := placeholder; tt_value := 65119306260154376; tt_zero_bytes := 1 |}.

Definition prio_of (t : test_tx) : Z := tt_max_priority_fee_per_gas t.

Definition single_tx (r : draws) : Prop :=
  match build_with r MempoolStrat [test_transaction (dr_secrets r 0) 1 0] [] with
  | Some build => length (build_facts build).2 = 2%nat
  | None => False
  end.

Definition three_txs (r : draws) : list test_tx :=
  [test_transaction (dr_secrets r 0) 1 0; test_transaction (dr_secrets r 1) 3 0;
   test_transaction (dr_secrets r 2) 2 0].

Definition ordering (r : draws) : Prop :=
  asserts r (build_with r MempoolStrat (three_txs r) []) 4 prio_of [3 * GWEI; 2 * GWEI; GWEI].

Definition handle_ofac_tx (r : draws) : Prop :=
  expect_aborted (try_build_with r MempoolStrat [test_ofac_tx] []) = true.

(** ** [bundle/mod.rs] *)

Definition top_of_block (r : draws) : Prop :=
  let bundle_tx := test_transaction (dr_secrets r 0) 1 0 in
  let mempool_tx := test_transaction (dr_secrets r 1) 2 0 in
  asserts r (build_with r BundlesStrat [mempool_tx] [test_bundle r 1 1 [bundle_tx]]) 3
    tt_hash [tt_hash bundle_tx; tt_hash mempool_tx].

Definition no_bundles (r : draws) : Prop :=
  asserts r (build_with r BundlesStrat (three_txs r) []) 4 prio_of [3 * GWEI; 2 * GWEI; GWEI].

Definition order_by_prio (r : draws) : Prop :=
  let bundle_tx_1 := test_transaction (dr_secrets r 0) 1 0 in
  let bundle_tx_2 := test_transaction (dr_secrets r 1) 2 0 in
  asserts r (build_with r BundlesStrat []
      [test_bundle r 1 1 [bundle_tx_1]; test_bundle r 2 1 [bundle_tx_2]]) 3
    tt_hash [tt_hash bundle_tx_2; tt_hash bundle_tx_1].

Definition multiple_tx_bundle (r : draws) : Prop :=
  let bundle_tx_1 := test_transaction (dr_secrets r 0) 4 4 in
  let bundle_tx_2 := test_transaction (dr_secrets r 1) 2 3 in
  let bundle_tx_3 := test_transaction (dr_secrets r 2) 1 3 in
  asserts r (build_with r BundlesStrat []
      [test_bundle r 1 1 [bundle_tx_1]; test_bundle r 2 1 [bundle_tx_2; bundle_tx_3]]) 4
    tt_hash [tt_hash bundle_tx_2; tt_hash bundle_tx_3; tt_hash bundle_tx_1].

Definition bundle_inclusion_same_target (r : draws) : Prop :=
  let bundle_tx_1 := test_transaction (dr_secrets r 0) 1 0 in
  let bundle_tx_2 := test_transaction (dr_secrets r 1) 2 0 in
  let bundle_tx_3 := test_transaction (dr_secrets r 2) 3 0 in
  asserts r (build_with r BundlesStrat []
      [test_bundle r 1 1 [bundle_tx_1; bundle_tx_2]; test_bundle r 2 1 [bundle_tx_1; bundle_tx_3]]) 3
    tt_hash [tt_hash bundle_tx_1; tt_hash bundle_tx_3].

Definition bundle_override_mempool (r : draws) : Prop :=
  let mempool_tx := test_transaction (dr_secrets r 0) 1 0 in
  let bundle_tx := test_transaction (dr_secrets r 1) 0 0 in
  asserts r (build_with r BundlesStrat [mempool_tx] [test_bundle r 1 1 [mempool_tx; bundle_tx]]) 3
    tt_hash [tt_hash mempool_tx; tt_hash bundle_tx].

Definition test_ofac (r : draws) : Prop :=
  expect_aborted (try_build_with r BundlesStrat [test_ofac_tx] [test_bundle r 1 1 [test_ofac_tx]]) = true.

(** ** They pass *)

Definition demo_draws : draws :=
  {| dr_now := 1700000000; dr_fee_recipient := 77; dr_prev_randao := 5; dr_proposer := 9;
     dr_config_key := 40; dr_hashes n := 500 + Z.of_nat n; dr_secrets n := 100 + Z.of_nat n |}.

Example build_empty_passes : build_empty demo_draws.
Proof. exact_no_check (conj (eq_refl 0) (eq_refl 0%nat)). Qed.

Example test_empty_try_build_passes : test_empty_try_build demo_draws.
Proof. exact_no_check (conj (eq_refl 0) (eq_refl 0%nat)). Qed.

Example single_tx_passes : single_tx demo_draws.
Proof. exact_no_check (eq_refl 2%nat). Qed.

Example handle_ofac_tx_passes : handle_ofac_tx demo_draws.
Proof. exact_no_check (eq_refl true). Qed.

Example test_ofac_passes : test_ofac demo_draws.
Proof. exact_no_check (eq_refl true). Qed.

(** evaluates the build once and compares what a test asserts *)
Ltac run_build len :=
  lazymatch goal with
  | |- asserts _ _ _ _ ?first => exact_no_check (conj (eq_refl 0) (conj (eq_refl len) (eq_refl first)))
  | |- ?t _ => unfold t; cbv zeta; run_build len
  end.

Example ordering_passes : ordering demo_draws.
Proof. run_build 4%nat. Qed.

Example top_of_block_passes : top_of_block demo_draws.
Proof. run_build 3%nat. Qed.

Example no_bundles_passes : no_bundles demo_draws.
Proof. run_build 4%nat. Qed.

Example order_by_prio_passes : order_by_prio demo_draws.
Proof. run_build 3%nat. Qed.

Example multiple_tx_bundle_passes : multiple_tx_bundle demo_draws.
Proof. run_build 4%nat. Qed.

Example bundle_inclusion_same_target_passes : bundle_inclusion_same_target demo_draws.
Proof. run_build 3%nat. Qed.

Example bundle_override_mempool_passes : bundle_override_mempool demo_draws.
Proof. run_build 3%nat. Qed.

(** ** What the tests of the filter test

    Neither address of the transaction they send is on the list, and its nonce is not
    the account's: they pass because it cannot be executed.  Were its nonce right, it
    would be in the block. *)

Definition executable_ofac_tx : test_tx :=
  {| tt_type := tt_type test_ofac_tx; tt_signer := tt_signer test_ofac_tx; tt_nonce := 0;
     tt_gas_limit := tt_gas_limit test_ofac_tx;
     tt_max_fee_per_gas := tt_max_fee_per_gas test_ofac_tx;
     tt_max_priority_fee_per_gas := tt_max_priority_fee_per_gas test_ofac_tx;
     tt_to := tt_to test_ofac_tx; tt_value := tt_value test_ofac_tx;
     tt_zero_bytes := tt_zero_bytes test_ofac_tx |}.

(** the transaction of the OFAC tests passes the filter, and with the right nonce both
    strategies put it first in the block *)
Theorem ofac_tests_miss_the_filter :
  ofac_tx test_ofac_tx = false /\
  asserts demo_draws (build_with demo_draws MempoolStrat [executable_ofac_tx] []) 2
    tt_hash [tt_hash executable_ofac_tx] /\
  asserts demo_draws (build_with demo_draws BundlesStrat [] [test_bundle demo_draws 1 1 [executable_ofac_tx]]) 2
    tt_hash [tt_hash executable_ofac_tx].
Proof. split; [kernel_refl|]. split; run_build 2%nat. Qed.
