(* ===== verification/TestsBidder.v ===== *)
(** * The tests of the bid policies, evaluated on the model

    The unit tests of [crates/payload/src/bidder/policy.rs], assertion by assertion.
    Their blocks are of the configuration of [build_test_config], whose base fee is
    zero, so paying a bid costs nothing. *)

From stdpp Require Import prelude list gmap.
From S2P Require Import Prelude Types Chain Payload SimState State Policy MockEvm TestsPayload.

Open Scope Z_scope.

Import Mock.

Section PolicyTests.
Variable r : draws.

Definition test_block_with_fees (fees coinbase : Z) : option BuildState :=
  match build_test_config r 0 with
  | Done build_config =>
      let block := BuildState_new (dr_hashes r 0) build_config (default_config r) 0 in
      let d := bs_exec_details block in
      Some (set_exec_details block
        {| ed_executed_txs := ed_executed_txs d; ed_receipts := ed_receipts d;
           ed_cumulative_gas_used := ed_cumulative_gas_used d;
           ed_cumulative_blob_gas_used := ed_cumulative_blob_gas_used d; ed_sum_fees := fees;
           ed_sum_coinbase_transfers := coinbase; ed_builder_payment := ed_builder_payment d;
           ed_bundle_state := ed_bundle_state d |})
  | _ => None
  end.

(** [AuctionBidInfo::default()], unlike [new], has no time left *)
Definition AuctionBidInfo_default : AuctionBidInfo := refresh_time (AuctionBidInfo_new 0 0) 0.

(** [bid_info.update_block_info(block, policy.block_value(block.exec_details()))] *)
Definition see_block (policy : BidSelectionPolicies) (bid_info : option AuctionBidInfo) (fees coinbase : Z)
  : option AuctionBidInfo :=
  bid_info ← bid_info;
  block ← test_block_with_fees fees coinbase;
  mret (update_block_info bid_info block (policy_block_value policy (bs_exec_details block))).

Definition bids (policy : BidSelectionPolicies) (bid_info : option AuctionBidInfo) (bid : option Z) : Prop :=
  (compute_bid policy <$> bid_info) = Some (Done bid).

(** both policies that bid the value of the best block *)
Definition max_bid_by_total (policy : BidSelectionPolicies) : Prop :=
  let bid_info := see_block policy (Some AuctionBidInfo_default) 1 1 in
  bids policy bid_info (Some 2) /\
  let bid_info := see_block policy bid_info 2 2 in
  bids policy bid_info (Some 4) /\
  let bid_info := see_block policy bid_info 1 2 in
  bids policy bid_info (Some 4).

Definition test_max_bid_by_total_for_all_builds : Prop := max_bid_by_total (NoProfitPolicy 12000).

Definition test_devnet_bid_for_all_builds : Prop := max_bid_by_total DevnetPolicy.

Definition at_time (bid_info : option AuctionBidInfo) (time_left : Z) : option AuctionBidInfo :=
  (fun b => refresh_time b time_left) <$> bid_info.
Definition auction_bid (bid_info : option AuctionBidInfo) (bid : Z) : option AuctionBidInfo :=
  (fun b => update_auction_bid_info b bid) <$> bid_info.

Definition test_time_linear_by_total_with_subsidy_budget_and_offset_no_subsidy : Prop :=
  let policy := LinearSurplusPolicy
    {| ls_offset := 2000; ls_max_block_subsidy := 0; ls_min_bid_surplus := 1; ls_max_bid_surplus := 7 |} in
  let bid_info := see_block policy (Some AuctionBidInfo_default) 6 7 in
  bids policy (at_time bid_info 3000) None /\
  bids policy (at_time bid_info 1000) (Some 3) /\
  let bid_info := auction_bid bid_info 3 in
  bids policy (at_time bid_info 1000) (Some 6) /\
  bids policy (at_time bid_info 0) (Some 8) /\
  bids policy (at_time bid_info (-500)) (Some 9).

Definition test_time_linear_by_total_with_subsidy_budget_and_offset : Prop :=
  let policy := LinearSurplusPolicy
    {| ls_offset := 2000; ls_max_block_subsidy := 2; ls_min_bid_surplus := 1; ls_max_bid_surplus := 7 |} in
  let bid_info := see_block policy (Some AuctionBidInfo_default) 4 3 in
  bids policy (at_time bid_info 3000) None /\
  bids policy (at_time bid_info 1000) (Some 3) /\
  let bid_info := auction_bid bid_info 3 in
  bids policy (at_time bid_info 1000) (Some 6) /\
  bids policy (at_time bid_info 0) (Some 8) /\
  let bid_info := at_time bid_info (-500) in
  bids policy bid_info (Some 9) /\
  bids policy (auction_bid bid_info 4) (Some 9) /\
  bids policy (auction_bid (auction_bid bid_info 4) 10) None.
End PolicyTests.

(** They pass whatever the clock and the random draws. *)

Tactic Notation "run_bids" reference(d) := unfold d, bids; assertions.

Lemma test_max_bid_by_total_for_all_builds_passes r : test_max_bid_by_total_for_all_builds r.
Proof. unfold test_max_bid_by_total_for_all_builds. run_bids max_bid_by_total. Qed.

Lemma test_devnet_bid_for_all_builds_passes r : test_devnet_bid_for_all_builds r.
Proof. unfold test_devnet_bid_for_all_builds. run_bids max_bid_by_total. Qed.

Lemma no_subsidy_test_passes r : test_time_linear_by_total_with_subsidy_budget_and_offset_no_subsidy r.
Proof. run_bids test_time_linear_by_total_with_subsidy_budget_and_offset_no_subsidy. Qed.

Lemma subsidy_test_passes r : test_time_linear_by_total_with_subsidy_budget_and_offset r.
Proof. run_bids test_time_linear_by_total_with_subsidy_budget_and_offset. Qed.
