(* ===== verification/TestsJob.v ===== *)
(** * The tests of the build jobs, evaluated on the model

    The unit tests of [crates/payload/src/job/interval_job.rs] and
    [crates/payload/src/generator/mod.rs] with the future that drives them in
    [job/mod.rs].  A test awaits its job: the runtime polls it when the interval ticks,
    when the build is done and when the deadline has passed, in that order. *)

From stdpp Require Import prelude list gmap.
From S2P Require Import Prelude Types Bundle BundlePool Chain Payload SimState State Strategies Job MockEvm TestsPayload.

Open Scope Z_scope.

Import Mock.

Section JobTests.
Variable r : draws.

(** what the tasks of a test see *)
Definition test_task_env (pool : list test_tx) : TaskEnv :=
  {| Job.te_client := MockProvider_default; Job.te_pool := pool : TxPool; Job.te_bundle_pool := BundlePool_new;
     te_id := dr_hashes r 0; te_now := 0; te_locked := true |}.

(** [TestBuildJob::poll]: the job's poll, and its resolution once it is ready; here as the
    list of what the polls of the runtime deliver *)
Definition test_job_poll (job : BuildJob) (i : IntervalPoll) (e : TaskEnv)
  : run Empty_set (BuildJob * poll (result PayloadBuilderError ResolveBestPayload)) :=
  res ← interval_poll job i;
  let '(job, ready, _) := res in
  match ready with
  | Ready (Ok _) => resolved ← interval_resolve job e; let '(fut, _, job) := resolved in mret (job, Ready (Ok fut))
  | Ready (Err err) => mret (job, Ready (Err err))
  | Pending => mret (job, Pending)
  end.

(** the first tick spawns a task, whose outcome is the next wake-up; then the deadline *)
Definition await_job (job : BuildJob) (e : TaskEnv) : option ResolveBestPayload :=
  match test_job_poll job {| ip_deadline := false; ip_ticks := 1; ip_build := Pending |} e with
  | Done (job, Pending) =>
      match bj_pending_build job ≫= fun task => sent_by 10 task e with
      | Some outcome =>
          match test_job_poll job {| ip_deadline := false; ip_ticks := 0; ip_build := Ready outcome |} e with
          | Done (job, Pending) =>
              match test_job_poll job {| ip_deadline := true; ip_ticks := 0; ip_build := Pending |} e with
              | Done (_, Ready (Ok fut)) => Some fut
              | _ => None
              end
          | _ => None
          end
      | None => None
      end
  | _ => None
  end.

(** and the future it resolves to, with the empty payload its task builds if it has to *)
Definition await_payload (fut : ResolveBestPayload) (e : TaskEnv) : option Build :=
  let empty :=
    match rb_empty_payload fut with
    | Some build_config =>
        match empty_payload_task (default_config r) build_config e with
        | Done build => Ready (Ok (Ok build))
        | _ => Pending
        end
    | None => Pending
    end in
  match resolve_poll fut empty with
  | Done (_, Ready (Ok build)) => Some build
  | _ => None
  end.

Definition interval_test (strategy : PayloadConfig -> Strategy) (pool : list test_tx) : Prop :=
  match te_config (setup_test_env r) with
  | Done build_config =>
      let e := test_task_env pool in
      match await_job (job_new (strategy (default_config r)) build_config) e ≫= fun fut => await_payload fut e with
      | Some build => build_facts build = (te_payload_id (setup_test_env r), [])
      | None => False
      end
  | _ => False
  end.

Definition interval_mempool : Prop := interval_test MempoolStrat [test_transaction (dr_secrets r 0) 1 0].

Definition interval_empty : Prop := interval_test EmptyStrat [].

(** [generator/mod.rs] *)
Definition can_create_empty_job (now : Z) (attrs : PayloadAttributes) : Prop :=
  match jc_set_max_payload_tasks
          (jc_set_deadline (jc_set_interval (JobGeneratorConfig_default (default_config r)) 2000) 6000) 1,
        BuildConfig_from tt (dr_proposer r) attrs with
  | Some config, Done build_config =>
      match stream_new_payload_job config now build_config with
      | Ok (job, _) => bc_attributes (bj_build_config job) = attrs
      | Err _ => False
      end
  | _, _ => False
  end.

Definition default_attributes : PayloadAttributes :=
  {| pa_id := 0; pa_parent := 0; pa_timestamp := 0; pa_suggested_fee_recipient := 0; pa_prev_randao := 0;
     pa_withdrawals := []; pa_parent_beacon_block_root := None |}.
End JobTests.

Example interval_mempool_passes : interval_mempool demo_draws.
Proof. exact_no_check (eq_refl (0, [] : list test_tx)). Qed.

Example interval_empty_passes : interval_empty demo_draws.
Proof. exact_no_check (eq_refl (0, [] : list test_tx)). Qed.

Lemma can_create_empty_job_passes r now : can_create_empty_job r now default_attributes.
Proof. reflexivity. Qed.
